(* ===== verification/_CoqProject ===== *)
-Q . S2P
Prelude.v
Effects.v
PyStr.v
Uuid.v
Redis.v
Models.v
Json.v
Schemas.v
World.v
Pubsub.v
Config.v
Startup.v
Security.v
Otp.v
OtpConcurrent.v
Auth.v
Scripts.v
Storage.v
Media.v
Messages.v
WsManager.v
Chats.v
Broadcasts.v
Push.v
Admin.v
Receipts.v
Ocr.v
WebSocket.v
Keyspace.v
Groups.v
Frame.v
Server.v
Routing.v
Migrations.v
Keys.v
Base64.v
SignalKeys.v
Ai.v
OcrUploads.v
Hub.v
Channels.v
Communities.v
