(* ===== verification/Prelude.v ===== *)
(** * IronLink: a verification of the messaging backend

    IronLink is a private messaging service. The Python backend under [src/app/] is a
    FastAPI application over PostgreSQL (users, sessions, messages, groups, broadcasts,
    audit log), three Redis databases (presence and Pub/Sub, one-time codes, sessions and
    tickets), MinIO (attachments) and Firebase (pushes). [src/backend/app/] holds a second
    set of routes over integer-keyed tables: channels and communities, the exchange of Signal
    keys, uploads that are searched for keywords, and an assistant. [src/scripts/] are two
    development scripts. This library models them: every handler below is the handler of the
    source, statement by statement, and the theorems say what it guarantees.

    ** How a handler is modelled

    A handler is a [prog S A]: a function from a state to a result - a value or an
    exception - and a state, kept also when it raises ([Effects]). The state of the first
    backend is [World.world]: the clock, the Redis databases, the tables as the open
    session sees them and as they are committed, what was published, sent, stored and
    pushed. [commit] and [rollback] are those of the session; [get_db] and [session_local]
    wrap a handler as the application does. The state of the second backend is [Hub.hub] for
    channels and communities, and for each other service what that service touches: Redis and
    the identity keys ([SignalKeys.kstate]), Redis alone ([Ai]), Redis, MinIO, the disk and the
    tasks ([OcrUploads.mstate]).

    - A random draw or a fresh primary key is an argument of the handler; a constraint
      violation is raised where the row is added.
    - A handler reads the clock once, and runs alone, except where interleaving is the
      point: [OtpConcurrent] interleaves the Redis commands of concurrent verifications,
      [WsManager] the two halves of closing a connection with the opening of another.
    - Timestamps are microseconds since the epoch, dates are days, [str] is a sequence of
      Latin-1 characters ([PyStr]). JSON is structural, but what is
      stored as text in Redis is printed and parsed ([Json]); numbers are integers.
    - Code outside the repository is an interface with the laws its documentation gives:
      [Hashing] and [Jose] ([Security]), [Minio] ([Storage]), [Pillow] ([Media]), [Fcm]
      ([Push]), Tesseract and Firebase's second client ([Ocr]), the Signal library
      ([SignalKeys]), the hosted language models ([Ai]), MinIO, the disk and the tables of
      chats of the second backend ([OcrUploads]), Starlette's host check ([Startup]) and routing
      ([Routing]), the engine, the transaction and the scripts of the migrations ([Migrations]).
      What is documented only for some inputs is assumed for those only: python-jose for claims
      that nothing but their expiry can invalidate, Alembic's transaction offline. Each
      file that uses one instantiates it at the end, for the witnesses.
    - Recursion is structural, or bounded by a fuel that the theorems show to be enough:
      the number of tokens for [push_batches], of messages for a walk through a
      conversation, of characters for parsing. Generating pre-keys draws ids until one is free:
      the draws are a list, and it ends as soon as they hold enough free ones.

    ** The files, and what their theorems show

    - [Prelude], [Effects], [PyStr], [Uuid], [Base64], [Redis], [Models], [Json], [World]: the
      groundwork. [Uuid], [Base64] and [Json] prove their round trips; [Redis] is the commands
      the code issues over keys with expiry; [Models] the rows of [app/models/].
    - [Config] ([app/config.py]), [Startup] ([app/main.py]), [Scripts] ([scripts/]): the settings
      and what they admit, start-up and shutdown, seeding the database.
    - [Schemas] ([app/api/schemas.py]), [Security]
      ([app/core/security.py], [app/api/deps.py]): whom a token minted by the server
      authenticates, and until when.
    - [Otp] ([app/services/otp_service.py]): codes refine an abstract machine - a code with
      its expiry and the tries spent - and are accepted exactly when that machine accepts.
      [OtpConcurrent]: under every interleaving the number of tries is bounded; that a code
      is accepted once is not guaranteed, and a run that accepts it twice is given.
    - [Auth] ([app/api/routes/auth.py], [app/services/sms_gateway.py]): rate limits bound the
      codes sent; every refused login is the same refusal; what a login and a ticket come to
      once other requests follow is shown in [Server].
    - [Storage], [Media] ([app/services/storage_service.py], [app/api/routes/media.py]): a
      file sent in chunks, in any order and with repetitions, is stored as it was; only its
      owner can continue or inspect an upload; what happens after a size mismatch.
    - [Messages] ([app/services/message_service.py], [self_destruct_worker.py]): the life of a
      message as an invariant of every run - each one is what its sending made of it, but for
      readings and retractions -, unsending, and that the loop of the worker destructs every
      message that is due.
    - [Pubsub], [WsManager], [WebSocket] ([app/services/ws_manager.py],
      [app/api/routes/websocket.py]): presence refines the set of connected devices; every
      frame a client makes the server publish speaks in that client's name; a message frame
      saves, delivers, acknowledges and pushes exactly as specified.
    - [Chats] ([app/api/routes/chats.py]): the list of conversations has exactly the peers,
      in order, with exact counts and previews; reading back page by page loses nothing.
    - [Receipts] ([app/api/routes/receipts.py]), [Groups] ([app/api/routes/groups.py]):
      receipts on every branch; rosters and join requests stay consistent, and every
      membership comes from a founding, an open group or an approval.
    - [Broadcasts], [Push], [Admin] ([app/api/routes/broadcasts.py], [admin.py],
      [app/services/push_service.py]): an urgent broadcast is pushed once to the device of every target and
      shows until acknowledged; suspension kills every token for good; the user search
      finds exactly the matching accounts, [LIKE] included.
    - [Ocr] ([app/ocr.py], [app/redis.py], [app/push.py], [app/api/routes/ocr.py]): the text
      normalisation and keyword store, and that the alert task never alerts.
    - [Keyspace]: the three Redis databases that all of these share stay typed, and no
      operation fails on the type or form of what it reads - but for one clash of names.
    - [Frame], [Server] ([app/main.py], as the sum of its routers): the first backend as one
      system. [Frame] is the reasoning: a program stays within a preorder on states - one that
      sees the tables, the clock and at most the tickets of sockets - when its statements do.
      [Server] puts the session, the authentication and the background task around
      every endpoint, adds the sockets, the alerts, the sweeps and time, and shows of every
      history that the invariants of all components hold together, that nothing on record is
      erased and nobody is promoted, that every change of an account's status is on the audit
      log, that a token once dead stays dead - one that a login or a suspension has superseded
      included -, and that a ticket opens one socket.
    - [Routing] (the routers of both [main.py]): that every endpoint of the first backend can be
      reached, and that five of the second's communities cannot.
    - [Migrations] ([alembic/env.py]): what is run without a connection, and that nothing is with
      one.
    - [Keys] ([app/services/encryption_service.py], [app/api/routes/keys.py]): the key directory
      in Redis refines maps of keys and sessions; the cryptography of the file is constants.
    - [SignalKeys] (the files of the same names under [backend/], its handlers Flask's): the
      pre-keys refine bundles of published and private halves, one is consumed once - and twice
      when consumptions interleave; generation, signed pre-keys, identities.
    - [OcrUploads] ([backend/app/api/routes/media.py], [backend/app/redis.py]): whom the alert
      task tells and when again, the history it keeps, and that an upload happens as a whole or not at all.
    - [Ai] ([backend/app/services/ai_service.py], [backend/app/api/routes/chats.py]): no failure
      of the model breaks a request, and what the cache answers.
    - [Hub], [Channels], [Communities] ([backend/app/models/], [schemas/], [api/routes/]):
      the handlers refine a step relation on the committed tables; counters are exact and
      references hold in every run; and what goes wrong - a channel or a community that
      cannot be deleted, a [null] that breaks the listing, communities nobody can join.

    ** Defects of the source that the model works around

    Some files do not import: [ws_manager.py] and the encryption services name
    [app.core.redis.redis], [receipts.py] uses [select] and [keys.py] uses [List] without an
    import, [backend/app/models/channel.py] has a syntax error, [deps] has no
    [get_current_active_user]. There the model is the code with the import that is meant.
    Names missing inside a function are modelled as they are, by a [NameError]: in [Ocr], and
    where the theorems concern what happens with the name as well, as a parameter that says
    whether it is bound - [CommunityRole] in [Communities], [io] in [OcrUploads], [asyncio] in
    [Startup].

    ** Not modelled

    - CORS in the [main.py] files, the routes of the second backend other than channels and
      communities (its [main.py] names modules it does not have), the tests and the Flutter client.
    - In [Server], the routes of [keys.py], whose Redis client does not exist ([Keys] models them
      with the one that is meant); a request and a socket run from start to end, one at a time.
    - Moderation ([AIService.moderate_message] and its route): its scores are fractions, printed
      and read back as JSON, which [Json] does not have.
    - Cryptography: in [app/services/encryption_service.py] a placeholder that returns constants,
      modelled as that; in the second backend calls to a Signal library, an interface.
    - The creator tables: declarations that nothing uses.
    - Log lines, [VARCHAR] lengths (those of messages and channel posts, which no schema bounds,
      are modelled), [updated_at] and columns that no code reads; the order
      PostgreSQL returns rows in when no [ORDER BY] fixes one. *)

From stdpp Require Export base gmap sets list strings fin_maps sorting.
From Stdlib Require Export ZArith Lia ZifyBool.

(** ** Record update

[r <| f := v |>] replaces field [f]; [r <| f ::= g |>] maps [g] over it. A
record gives its fields once, in an [Eta] instance, and the setters are found
by type class search. *)

Class Eta (R : Type) := eta : R → R.
Class Setter {R E : Type} (getter : R → E) := over : (E → E) → R → R.
Arguments over {R E} getter {_} _ _.

Ltac solve_setter :=
  lazymatch goal with
  | |- @Setter ?R ?E ?g =>
      exact (fun (f : E → E) (r : R) => ltac:(
        let e := constr:(@eta R _ r) in
        let b := eval hnf in e in
        match b with
        | context C [g r] => let b' := context C [f (g r)] in exact b'
        end))
  end.

#[export] Hint Extern 1 (Setter _) => solve_setter : typeclass_instances.

Declare Scope prog_scope.
Delimit Scope prog_scope with prog.
Notation "r <| f := v |>" := (over f (λ _, v) r)
  (at level 1, left associativity, f constr at level 9, v constr at level 200,
   format "r  <| f  :=  v |>") : prog_scope.
Notation "r <| f ::= g |>" := (over f g r)
  (at level 1, left associativity, f constr at level 9, g constr at level 200,
   format "r  <| f  ::=  g |>") : prog_scope.
Open Scope prog_scope.

(** ** Tactics *)

(** Case analysis on every [match] and [if] in sight, closing the branches that
    equations contradict. *)
Ltac split_matches :=
  repeat (case_match; simplify_eq/=).

(** Destruct every conjunction and existential of the context. *)
Ltac split_hyps :=
  repeat match goal with
  | H : _ ∧ _ |- _ => destruct H
  | H : ∃ _, _ |- _ => destruct H
  end.

(** The boolean comparisons of the code, as propositions. *)
Ltac reflect_bools :=
  repeat match goal with
  | H : andb _ _ = true |- _ => apply andb_true_iff in H as [? ?]
  | H : orb _ _ = false |- _ => apply orb_false_iff in H as [? ?]
  | H : negb _ = true |- _ => apply negb_true_iff in H
  | H : negb _ = false |- _ => apply negb_false_iff in H
  | H : bool_decide _ = true |- _ => apply bool_decide_eq_true in H
  | H : bool_decide _ = false |- _ => apply bool_decide_eq_false in H
  | H : Z.leb _ _ = true |- _ => apply Z.leb_le in H
  | H : Z.leb _ _ = false |- _ => apply Z.leb_gt in H
  | H : Z.ltb _ _ = true |- _ => apply Z.ltb_lt in H
  | H : Z.ltb _ _ = false |- _ => apply Z.ltb_ge in H
  | H : Z.eqb _ _ = true |- _ => apply Z.eqb_eq in H
  | H : Z.eqb _ _ = false |- _ => apply Z.eqb_neq in H
  | H : String.eqb _ _ = true |- _ => apply String.eqb_eq in H
  | H : String.eqb _ _ = false |- _ => apply String.eqb_neq in H
  end.

(** ** Schedules: how long a sequence of delayed operations takes *)

Fixpoint total_delay {A} (requests : list (Z * A)) : Z :=
  match requests with
  | [] => 0%Z
  | (delay, _) :: requests' => (delay + total_delay requests')%Z
  end.

Lemma total_delay_nonneg {A} (requests : list (Z * A)) :
  Forall (λ r, 0 ≤ r.1)%Z requests → (0 ≤ total_delay requests)%Z.
Proof. induction 1 as [|[d x] l Hd _ IH]; cbn in *; lia. Qed.

(** ** Filtering with a boolean *)

Section Filter.
Context {A : Type}.
Implicit Types (p : A → bool) (l : list A).

Lemma filter_perm p l l' : l ≡ₚ l' → List.filter p l ≡ₚ List.filter p l'.
Proof.
  induction 1 as [|x l l' _ IH|x y l|l1 l2 l3 _ IH1 _ IH2]; cbn; [done| | |by etrans].
  - by destruct (p x); [f_equiv|].
  - destruct (p x), (p y); done || apply Permutation_swap.
Qed.

Lemma filter_nil_iff p l : List.filter p l = [] ↔ ∀ x, x ∈ l → p x = false.
Proof.
  induction l as [|x l IH]; cbn; [split; [by intros _ ? []%elem_of_nil|done]|].
  destruct (p x) eqn:E.
  - split; [done|]. intros H. rewrite (H x) in E; [done|by left].
  - rewrite IH. split.
    + by intros H y [->|Hy]%elem_of_cons; [|apply H].
    + intros H y Hy. apply H. by right.
Qed.

Lemma filter_all p l : (∀ x, x ∈ l → p x = true) → List.filter p l = l.
Proof.
  induction l as [|x l IH]; cbn; [done|]. intros H. rewrite (H x) by by left.
  f_equal. apply IH. intros y Hy. apply H. by right.
Qed.

Lemma StronglySorted_filter (R : relation A) p l :
  StronglySorted R l → StronglySorted R (List.filter p l).
Proof.
  induction 1 as [|x l _ IH Hx]; cbn; [constructor|]. destruct (p x); [|done].
  constructor; [done|]. rewrite Forall_forall in Hx |- *. intros y Hy.
  apply Hx. apply list_elem_of_In, filter_In in Hy as [Hy _]. by apply list_elem_of_In.
Qed.
End Filter.

Lemma filter_fmap {A B} (f : A → B) p l :
  List.filter p (f <$> l) = f <$> List.filter (λ x, p (f x)) l.
Proof. induction l as [|x l IH]; [done|]. cbn. rewrite IH. by destruct (p (f x)). Qed.

Lemma StronglySorted_rev {A} (R : relation A) l :
  StronglySorted (flip R) l → StronglySorted R (rev l).
Proof.
  induction 1 as [|x l _ IH Hx]; cbn; [constructor|]. apply StronglySorted_app_2.
  - intros y z Hy Hz. apply list_elem_of_singleton in Hz as ->.
    rewrite Forall_forall in Hx. apply (Hx y). apply list_elem_of_In, in_rev. by apply list_elem_of_In.
  - done.
  - by repeat constructor.
Qed.
