(* ===== verification/Effects.v ===== *)
(** Effects of the Python code: exceptions as values, and the state-and-error
    monad in which every handler is written. *)

From S2P Require Import Prelude.

(** The exceptions the code raises or lets through. *)
Inductive exn :=
| HTTPException (status_code : Z) (detail : string)
| UnsendDenied (detail : string)
| ValueError (detail : string)
| KeyError (key : string)
| TypeError
| AttributeError
| NotImplementedError (detail : string)
| NameError (name : string)
| RedisError (detail : string)
| IntegrityError (constraint : string)
| StorageError (detail : string)
| ResponseValidationError (field : string)
| WebSocketDisconnect
| PlainException (detail : string).   (* raise Exception(detail) *)

Inductive res (A : Type) :=
| Ok (a : A)
| Err (e : exn).
Arguments Ok {A} _.
Arguments Err {A} _.

#[export] Instance exn_eq_dec : EqDecision exn.
Proof. solve_decision. Defined.

#[export] Instance res_eq_dec `{EqDecision A} : EqDecision (res A).
Proof. solve_decision. Defined.

(** A computation over the state [S]: it returns or raises, and in both cases
    leaves a state. Python keeps the effects made before a [raise]. *)
Definition prog (S A : Type) : Type := S → res A * S.

Section Monad.
Context {S : Type}.

Definition ret {A} (a : A) : prog S A := λ s, (Ok a, s).
Definition raise {A} (e : exn) : prog S A := λ s, (Err e, s).
Definition bind {A B} (m : prog S A) (k : A → prog S B) : prog S B :=
  λ s, match m s with
       | (Ok a, s') => k a s'
       | (Err e, s') => (Err e, s')
       end.
Definition get : prog S S := λ s, (Ok s, s).
Definition gets {A} (f : S → A) : prog S A := λ s, (Ok (f s), s).
Definition modify (f : S → S) : prog S unit := λ s, (Ok tt, f s).
Definition lift {A} (r : res A) : prog S A := λ s, (r, s).

(** [try: m except ...: h e]. *)
Definition try_except {A} (m : prog S A) (h : exn → prog S A) : prog S A :=
  λ s, match m s with
       | (Ok a, s') => (Ok a, s')
       | (Err e, s') => h e s'
       end.

(** [try: m finally: f]. *)
Definition try_finally {A} (m : prog S A) (f : prog S unit) : prog S A :=
  λ s, match m s with
       | (r, s') => match f s' with
                    | (Ok _, s'') => (r, s'')
                    | (Err e, s'') => (Err e, s'')
                    end
       end.

(** [if not b: raise e]. *)
Definition ensure (b : bool) (e : exn) : prog S unit :=
  if b then ret tt else raise e.

Definition some_or_raise {A} (o : option A) (e : exn) : prog S A :=
  match o with Some a => ret a | None => raise e end.

(** [for x in l: f x]. *)
Fixpoint for_each {A} (f : A → prog S unit) (l : list A) : prog S unit :=
  match l with
  | [] => ret tt
  | x :: l' => bind (f x) (λ _, for_each f l')
  end.

(** [[f x for x in l]], effects left to right. *)
Fixpoint map_each {A B} (f : A → prog S B) (l : list A) : prog S (list B) :=
  match l with
  | [] => ret []
  | x :: l' => bind (f x) (λ y, bind (map_each f l') (λ ys, ret (y :: ys)))
  end.
End Monad.

(** stdpp's notations [x ← m; k] and [m ;; k] read as the sequence of two
    statements. *)
#[export] Instance prog_bind {S} : MBind (prog S) := λ A B k m, bind m k.
#[export] Instance prog_ret {S} : MRet (prog S) := λ A, ret.

(** ** Running a computation *)

Definition is_ok {A} (r : res A) : bool := match r with Ok _ => true | Err _ => false end.

Lemma is_ok_run {S A} (m : prog S A) s :
  is_ok (m s).1 = true → ∃ a s', m s = (Ok a, s').
Proof. destruct (m s) as [[a|e] s']; [eauto|done]. Qed.

Section Laws.
Context {S : Type}.

Lemma bind_ret {A B} (a : A) (k : A → prog S B) s : bind (ret a) k s = k a s.
Proof. done. Qed.

Lemma bind_raise {A B} e (k : A → prog S B) s : bind (raise e) k s = (Err e, s).
Proof. done. Qed.

Lemma bind_ok {A B} (m : prog S A) (k : A → prog S B) s a s' :
  m s = (Ok a, s') → bind m k s = k a s'.
Proof. unfold bind. by intros ->. Qed.

Lemma bind_err {A B} (m : prog S A) (k : A → prog S B) s e s' :
  m s = (Err e, s') → bind m k s = (Err e, s').
Proof. unfold bind. by intros ->. Qed.

(** The same for the notations [x ← m; k] and [m ;; k]. *)
Lemma step_ok {A B} (m : prog S A) (k : A → prog S B) s a s' :
  m s = (Ok a, s') → (m ≫= k) s = k a s'.
Proof. apply bind_ok. Qed.

Lemma step_err {A B} (m : prog S A) (k : A → prog S B) s e s' :
  m s = (Err e, s') → (m ≫= k) s = (Err e, s').
Proof. apply bind_err. Qed.

Lemma bind_assoc {A B C} (m : prog S A) (k : A → prog S B) (l : B → prog S C) s :
  bind (bind m k) l s = bind m (λ a, bind (k a) l) s.
Proof. unfold bind. by destruct (m s) as [[]]. Qed.

(** A successful [bind] is a successful first half and a successful rest. *)
Lemma bind_ok_inv {A B} (m : prog S A) (k : A → prog S B) s b s' :
  bind m k s = (Ok b, s') → ∃ a s1, m s = (Ok a, s1) ∧ k a s1 = (Ok b, s').
Proof. unfold bind. destruct (m s) as [[] ?]; naive_solver. Qed.

Lemma step_assoc {A B C} (m : prog S A) (k : A → prog S B) (l : B → prog S C) s :
  ((m ≫= k) ≫= l) s = (m ≫= λ a, k a ≫= l) s.
Proof. apply bind_assoc. Qed.

Lemma step_ok_inv {A B} (m : prog S A) (k : A → prog S B) s b s' :
  (m ≫= k) s = (Ok b, s') → ∃ a s1, m s = (Ok a, s1) ∧ k a s1 = (Ok b, s').
Proof. apply bind_ok_inv. Qed.

Lemma ensure_ok_inv b e (s s' : S) : ensure b e s = (Ok tt, s') → b = true ∧ s' = s.
Proof. destruct b; [|done]. by intros [= <-]. Qed.

Lemma some_or_raise_inv {A} (o : option A) e (s s' : S) a :
  some_or_raise o e s = (Ok a, s') → o = Some a ∧ s' = s.
Proof. destruct o; [|done]. by intros [= <- <-]. Qed.

Lemma lift_ok_inv {A} (r : res A) (s s' : S) a : lift r s = (Ok a, s') → r = Ok a ∧ s' = s.
Proof. by intros [= -> <-]. Qed.
Lemma lift_err_inv {A} (r : res A) (s s' : S) e : lift r s = (Err e, s') → r = Err e ∧ s' = s.
Proof. by intros [= -> <-]. Qed.

Lemma step_err_inv {A B} (m : prog S A) (k : A → prog S B) s e s' :
  (m ≫= k) s = (Err e, s') →
  m s = (Err e, s') ∨ ∃ a s1, m s = (Ok a, s1) ∧ k a s1 = (Err e, s').
Proof.
  unfold mbind, prog_bind, bind. destruct (m s) as [[a|e'] s1]; [eauto|]. naive_solver.
Qed.

Lemma ensure_err_inv b e e' (s s' : S) :
  ensure b e s = (Err e', s') → b = false ∧ e' = e ∧ s' = s.
Proof. destruct b; [done|]. by intros [= <- <-]. Qed.

Lemma some_or_raise_err_inv {A} (o : option A) e e' (s s' : S) :
  some_or_raise o e s = (Err e', s') → o = None ∧ e' = e ∧ s' = s.
Proof. destruct o; [done|]. by intros [= <- <-]. Qed.

Lemma for_each_app {A} (f : A → prog S unit) l1 l2 s :
  for_each f (l1 ++ l2) s = bind (for_each f l1) (λ _, for_each f l2) s.
Proof.
  revert s. induction l1 as [|x l1 IH]; intros s; [done|]. cbn.
  rewrite bind_assoc. unfold bind at 1 2. destruct (f x s) as [[] ?]; [apply IH|done].
Qed.

(** A comprehension whose body leaves the state alone. *)
Lemma map_each_pure {A B} (f : A → prog S B) (g : A → B) l s :
  (∀ x, x ∈ l → f x s = (Ok (g x), s)) → map_each f l s = (Ok (g <$> l), s).
Proof.
  induction l as [|x l IH]; intros Hf; [done|]. cbn [map_each].
  rewrite (bind_ok _ _ _ _ _ (Hf x ltac:(by left))).
  rewrite (bind_ok _ _ _ _ _ (IH (λ y Hy, Hf y ltac:(by right)))). done.
Qed.

(** One that fails when its body does, for some element. *)
Lemma map_each_fails {A B} (f : A → prog S B) l s :
  (∀ x, x ∈ l → ∃ r, f x s = (r, s)) → (∃ x e, x ∈ l ∧ f x s = (Err e, s)) →
  ∃ e, map_each f l s = (Err e, s).
Proof.
  induction l as [|x l IH]; intros Hf (y & e & Hy & Ey); [by apply not_elem_of_nil in Hy|].
  cbn [map_each]. destruct (Hf x ltac:(by left)) as [[b|e'] Ex].
  - rewrite (bind_ok _ _ _ _ _ Ex). destruct IH as [e' IH]; [set_solver| |].
    + exists y, e. split; [|done]. apply elem_of_cons in Hy as [->|]; [congruence|done].
    + exists e'. by rewrite (bind_err _ _ _ _ _ IH).
  - exists e'. by rewrite (bind_err _ _ _ _ _ Ex).
Qed.

(** A loop preserves what each iteration preserves. *)
Lemma for_each_invariant {A} (P : S → Prop) (f : A → prog S unit) l :
  (∀ x s, x ∈ l → P s → P (f x s).2) → ∀ s, P s → P (for_each f l s).2.
Proof.
  induction l as [|x l IH]; intros Hf s Hs; [done|]. cbn. unfold bind.
  pose proof (Hf x s ltac:(set_solver) Hs) as Hx.
  destruct (f x s) as [[] s1]; [|done]. apply IH; [set_solver|done].
Qed.
End Laws.

(** One statement, run. *)
Section Steps.
Context {S B : Type}.
Lemma mret_step {A} (a : A) (k : A → prog S B) (s : S) : (mret a ≫= k) s = k a s.
Proof. done. Qed.
Lemma raise_step {A} e (k : A → prog S B) (s : S) : (raise e ≫= k) s = (Err e, s).
Proof. done. Qed.
Lemma some_step {A} (a : A) e (k : A → prog S B) (s : S) :
  (some_or_raise (Some a) e ≫= k) s = k a s.
Proof. done. Qed.
Lemma none_step {A} e (k : A → prog S B) (s : S) :
  (some_or_raise None e ≫= k) s = (Err e, s).
Proof. done. Qed.
Lemma ensure_true_step e (k : unit → prog S B) (s : S) : (ensure true e ≫= k) s = k tt s.
Proof. done. Qed.
Lemma ensure_false_step e (k : unit → prog S B) (s : S) :
  (ensure false e ≫= k) s = (Err e, s).
Proof. done. Qed.
End Steps.

(** Run the monad's own combinators; what the code tests is left to the proof. *)
Ltac run :=
  cbv beta iota zeta delta
    [mbind mret prog_bind prog_ret bind ret raise get gets modify lift try_except try_finally ensure some_or_raise].

(** Invert a successful run, one statement at a time. *)
Ltac invert_ok H :=
  lazymatch type of H with
  | mbind _ _ _ = (Ok _, _) =>
      let a := fresh "a" in let s := fresh "s" in let H1 := fresh "Hrun" in
      apply step_ok_inv in H as (a & s & H1 & H); invert_ok H1; invert_ok H
  | ensure _ _ _ = (Ok ?u, _) => destruct u; apply ensure_ok_inv in H as [? ->]
  | some_or_raise _ _ _ = (Ok _, _) => apply some_or_raise_inv in H as [? ->]
  | ret _ _ = (Ok _, _) => injection H as <- <-
  | mret _ _ = (Ok _, _) => injection H as <- <-
  | raise _ _ = (Ok _, _) => discriminate H
  | (if ?b then _ else _) _ = (Ok _, _) =>
      let E := fresh "Hif" in destruct b eqn:E; invert_ok H
  | _ => idtac
  end.

(** Invert a run that raises: one case per statement that can raise. *)
Ltac invert_err H :=
  lazymatch type of H with
  | mbind _ _ _ = (Err _, _) =>
      let a := fresh "a" in let s := fresh "s" in let H1 := fresh "Hrun" in
      apply step_err_inv in H as [H|(a & s & H1 & H)];
      [invert_err H|invert_ok H1; invert_err H]
  | ensure _ _ _ = (Err _, _) => apply ensure_err_inv in H as (? & -> & ->)
  | some_or_raise _ _ _ = (Err _, _) => apply some_or_raise_err_inv in H as (? & -> & ->)
  | raise _ _ = (Err _, _) => injection H as <- <-
  | ret _ _ = (Err _, _) => discriminate H
  | mret _ _ = (Err _, _) => discriminate H
  | (if ?b then _ else _) _ = (Err _, _) =>
      let E := fresh "Hif" in destruct b eqn:E; invert_err H
  | _ => try discriminate H
  end.

Create HintDb prog.
#[export] Hint Rewrite @bind_ret @bind_raise : prog.
