(* ===== verification/PyStr.v ===== *)
(** Python's [str], as far as the code uses it.

A [str] is a Coq [string]: a sequence of code points below 256 (Latin-1). The
methods below agree with CPython on that range; a code point above it does not
exist in the model. [is_space] is [str.isspace] on Latin-1 and [lower_char] is
[str.lower] on it. *)

From S2P Require Import Prelude.
From Stdlib Require Import Ascii String.

Local Open Scope string_scope.

Definition code (c : ascii) : N := N_of_ascii c.

Definition is_space (c : ascii) : bool :=
  let n := code c in
  (((9 <=? n) && (n <=? 13)) || ((28 <=? n) && (n <=? 32))
   || (n =? 133) || (n =? 160))%N.

Definition is_digit (c : ascii) : bool := (48 <=? code c)%N && (code c <=? 57)%N.
Definition is_lower (c : ascii) : bool := (97 <=? code c)%N && (code c <=? 122)%N.

Definition lower_char (c : ascii) : ascii :=
  let n := code c in
  if ((65 <=? n) && (n <=? 90))%N || ((192 <=? n) && (n <=? 214))%N
     || ((216 <=? n) && (n <=? 222))%N
  then ascii_of_N (n + 32)%N else c.

Fixpoint str_map (f : ascii → ascii) (s : string) : string :=
  match s with
  | EmptyString => ""
  | String c s' => String (f c) (str_map f s')
  end.

Fixpoint str_filter (p : ascii → bool) (s : string) : string :=
  match s with
  | EmptyString => ""
  | String c s' => if p c then String c (str_filter p s') else str_filter p s'
  end.

Fixpoint str_all (p : ascii → bool) (s : string) : bool :=
  match s with
  | EmptyString => true
  | String c s' => p c && str_all p s'
  end.

(** [s.lower()] *)
Definition lower (s : string) : string := str_map lower_char s.

(** [s.lstrip(chars)], [s.rstrip(chars)], [s.strip(chars)]; [p] is membership in
    [chars]. *)
Fixpoint lstrip (p : ascii → bool) (s : string) : string :=
  match s with
  | EmptyString => ""
  | String c s' => if p c then lstrip p s' else s
  end.

Fixpoint rstrip (p : ascii → bool) (s : string) : string :=
  match s with
  | EmptyString => ""
  | String c s' =>
      match rstrip p s' with
      | EmptyString => if p c then "" else String c ""
      | t => String c t
      end
  end.

Definition strip_chars (p : ascii → bool) (s : string) : string :=
  rstrip p (lstrip p s).

(** [s.strip()] *)
Definition strip (s : string) : string := strip_chars is_space s.

(** [s.replace(pat, rep)] for a non-empty [pat]: leftmost, not overlapping.
    [skip] counts the characters of a match still to be dropped. *)
Fixpoint replace_go (pat rep : string) (skip : nat) (s : string) : string :=
  match s with
  | EmptyString => ""
  | String c s' =>
      match skip with
      | S k => replace_go pat rep k s'
      | O => if String.prefix pat s
             then rep ++ replace_go pat rep (String.length pat - 1) s'
             else String c (replace_go pat rep 0 s')
      end
  end.

Definition replace (pat rep s : string) : string := replace_go pat rep 0 s.

(** [pat in s] *)
Fixpoint str_in (pat s : string) : bool :=
  String.prefix pat s ||
  match s with
  | EmptyString => false
  | String _ s' => str_in pat s'
  end.

(** [s.startswith(pat)] and [s[:n]] *)
Definition startswith (pat s : string) : bool := String.prefix pat s.
Definition take_str (n : nat) (s : string) : string := String.substring 0 n s.

(** [sep.join(l)] *)
Fixpoint join (sep : string) (l : list string) : string :=
  match l with
  | [] => ""
  | [x] => x
  | x :: l => x ++ sep ++ join sep l
  end.

(** Python's truth value of a [str]. *)
Definition truthy (s : string) : bool :=
  match s with EmptyString => false | _ => true end.
Definition truthy_opt (s : option string) : bool :=
  match s with Some s => truthy s | None => false end.

(** [s.split()]: the maximal runs of non-space characters. *)
Fixpoint split_go (cur : string) (s : string) : list string :=
  match s with
  | EmptyString => if truthy cur then [cur] else []
  | String c s' =>
      if is_space c
      then (if truthy cur then cur :: split_go "" s' else split_go "" s')
      else split_go (cur ++ String c "") s'
  end.

Definition split_ws (s : string) : list string := split_go "" s.

(** ** Facts *)

Section Facts.
Implicit Types (p q : ascii → bool) (s t : string).

Lemma append_cons c s t : String c s ++ t = String c (s ++ t).
Proof. done. Qed.

Lemma append_nil_l s : "" ++ s = s.
Proof. done. Qed.

Lemma append_nil_r s : s ++ "" = s.
Proof. induction s as [|c s IH]; [done|]. by rewrite append_cons, IH. Qed.

Lemma append_assoc s t u : (s ++ t) ++ u = s ++ (t ++ u).
Proof. induction s as [|c s IH]; [done|]. by rewrite !append_cons, IH. Qed.

Lemma length_append s t : (String.length (s ++ t) = String.length s + String.length t)%nat.
Proof. induction s as [|c s IH]; [done|]. rewrite append_cons. cbn. by rewrite IH. Qed.

Lemma append_inj_l s t u : s ++ t = s ++ u → t = u.
Proof. induction s as [|c s IH]; [done|]. rewrite !append_cons. intros H. injection H. done. Qed.

Lemma str_all_app p s t : str_all p (s ++ t) = str_all p s && str_all p t.
Proof. induction s as [|c s IH]; [done|]. rewrite append_cons. cbn. by rewrite IH, andb_assoc. Qed.

Lemma str_all_impl p q s :
  (∀ c, p c = true → q c = true) → str_all p s = true → str_all q s = true.
Proof.
  intros Hpq. induction s as [|c s IH]; cbn; [done|].
  intros [Hc Hs]%andb_true_iff. by rewrite Hpq, IH.
Qed.

Lemma str_filter_app p s t : str_filter p (s ++ t) = str_filter p s ++ str_filter p t.
Proof.
  induction s as [|c s IH]; [done|]. rewrite append_cons. cbn.
  case_match; rewrite ?append_cons; congruence.
Qed.

Lemma str_filter_all p s : str_all p s = true → str_filter p s = s.
Proof.
  induction s as [|c s IH]; cbn; [done|].
  intros [-> Hs]%andb_true_iff. by rewrite IH.
Qed.

Lemma str_all_filter p s : str_all p (str_filter p s) = true.
Proof. induction s as [|c s IH]; cbn; [done|]. destruct (p c) eqn:E; cbn; by rewrite ?E. Qed.

Lemma lstrip_id p s : str_all (λ c, negb (p c)) s = true → lstrip p s = s.
Proof.
  destruct s as [|c s]; cbn; [done|].
  intros [Hc _]%andb_true_iff. apply negb_true_iff in Hc. by rewrite Hc.
Qed.

Lemma rstrip_id p s : str_all (λ c, negb (p c)) s = true → rstrip p s = s.
Proof.
  induction s as [|c s IH]; cbn; [done|].
  intros [Hc Hs]%andb_true_iff. apply negb_true_iff in Hc.
  rewrite (IH Hs). destruct s; [by rewrite Hc|done].
Qed.

Lemma strip_chars_id p s : str_all (λ c, negb (p c)) s = true → strip_chars p s = s.
Proof. intros H. unfold strip_chars. by rewrite lstrip_id, rstrip_id. Qed.

(** A stripped string starts and ends with a kept character. *)
Lemma lstrip_idem p s : lstrip p (lstrip p s) = lstrip p s.
Proof. induction s as [|c s IH]; cbn; [done|]. destruct (p c) eqn:E; [done|]. cbn. by rewrite E. Qed.

Lemma rstrip_idem p s : rstrip p (rstrip p s) = rstrip p s.
Proof.
  induction s as [|c s IH]; cbn; [done|].
  destruct (rstrip p s) as [|d t] eqn:E.
  - destruct (p c) eqn:Hc; cbn; [done|]. by rewrite Hc.
  - cbn in IH |- *. by rewrite IH.
Qed.

Lemma lstrip_rstrip p s : lstrip p s = s → lstrip p (rstrip p s) = rstrip p s.
Proof.
  destruct s as [|c s]; cbn; [done|]. destruct (p c) eqn:Hc.
  - intros H. exfalso. assert (∀ t, (String.length (lstrip p t) ≤ String.length t)%nat) as Hl.
    { induction t as [|d t IH]; cbn; [lia|]. case_match; cbn; lia. }
    pose proof (Hl s). rewrite H in *. cbn in *. lia.
  - intros _. destruct (rstrip p s); cbn; by rewrite Hc.
Qed.

Lemma strip_chars_idem p s : strip_chars p (strip_chars p s) = strip_chars p s.
Proof.
  unfold strip_chars. rewrite (lstrip_rstrip p (lstrip p s)) by apply lstrip_idem.
  apply rstrip_idem.
Qed.

Lemma strip_idem s : strip (strip s) = strip s.
Proof. apply strip_chars_idem. Qed.

(** Replacing a pattern whose first character does not occur changes nothing. *)
Lemma replace_absent d pat rep s :
  str_all (λ c, negb (Ascii.eqb c d)) s = true → replace (String d pat) rep s = s.
Proof.
  unfold replace. induction s as [|c s IH]; [done|].
  cbn [str_all]. intros [Hc Hs]%andb_true_iff. cbn [replace_go String.prefix].
  apply negb_true_iff, Ascii.eqb_neq in Hc.
  destruct (ascii_dec d c); [congruence|]. by rewrite IH.
Qed.

(** Deleting a single character is a filter. *)
Lemma replace_char d s :
  replace (String d "") "" s = str_filter (λ c, negb (Ascii.eqb c d)) s.
Proof.
  unfold replace. induction s as [|c s IH]; [done|].
  cbn [replace_go String.prefix str_filter String.length Nat.sub].
  destruct (ascii_dec d c) as [->|Hne].
  - rewrite Ascii.eqb_refl, append_nil_l. cbn. destruct s; exact IH.
  - apply not_eq_sym, Ascii.eqb_neq in Hne. rewrite Hne. cbn. by f_equal.
Qed.

(** Cutting a string and gluing the pieces back. *)
Lemma substring_cat a n m s :
  String.substring a n s ++ String.substring (a + n) m s = String.substring a (n + m) s.
Proof.
  revert s n. induction a as [|a IH]; intros s n.
  - cbn. revert s. induction n as [|n IHn]; intros [|c s]; [done|done|by destruct m|].
    cbn. rewrite append_cons. f_equal. apply IHn.
  - destruct s as [|c s]; [by destruct n, m|]. apply IH.
Qed.

Lemma substring_all s : String.substring 0 (String.length s) s = s.
Proof. induction s as [|c s IH]; cbn; congruence. Qed.

Lemma str_all_substring p a n s :
  str_all p s = true → str_all p (String.substring a n s) = true.
Proof.
  revert a n. induction s as [|c s IH]; intros a n.
  - by destruct a, n.
  - cbn. intros [Hc Hs]%andb_true_iff.
    destruct a as [|a], n as [|n]; cbn; rewrite ?Hc; cbn; auto.
Qed.

Lemma length_substring a n s :
  (a + n ≤ String.length s)%nat → String.length (String.substring a n s) = n.
Proof.
  revert a n. induction s as [|c s IH]; intros a n; cbn.
  - intros. by destruct a, n; cbn in *; try lia.
  - destruct a as [|a], n as [|n]; cbn; intros; try done.
    + f_equal. apply IH. lia.
    + apply IH. lia.
    + apply IH. lia.
Qed.
End Facts.

Lemma take_str_length n s : (String.length (take_str n s) ≤ n)%nat.
Proof.
  unfold take_str. revert n. induction s as [|c s IH]; intros [|n]; cbn; [lia..|].
  specialize (IH n). lia.
Qed.

(** Where a text occurs in another. *)
Lemma substring_nested a b n m s :
  (a + b ≤ m)%nat → String.substring a b (String.substring n m s) = String.substring (n + a) b s.
Proof.
  revert a b n m. induction s as [|c s IH]; intros a b n m Hle.
  - by destruct n, m, a, b.
  - destruct n as [|n]; [|by apply IH]. destruct m as [|m]; [assert (a = 0 ∧ b = 0)%nat as [-> ->] by lia; done|].
    cbn [Nat.add]. destruct a as [|a].
    + destruct b as [|b]; [done|]. cbn. f_equal. apply (IH 0 b 0 m)%nat. lia.
    + cbn. apply (IH a b 0 m)%nat. lia.
Qed.

Lemma str_map_substring f a n s :
  str_map f (String.substring a n s) = String.substring a n (str_map f s).
Proof.
  revert a n. induction s as [|c s IH]; intros [|a] [|n]; cbn; rewrite ?IH; done.
Qed.

Lemma length_str_map f s : String.length (str_map f s) = String.length s.
Proof. induction s as [|c s IH]; cbn; congruence. Qed.

Lemma prefix_substring p s : String.prefix p s = true ↔ String.substring 0 (String.length p) s = p.
Proof.
  revert s. induction p as [|c p IH]; intros s; [by destruct s|]. destruct s as [|d s]; [done|]. cbn.
  destruct (ascii_dec c d) as [->|Hne].
  - rewrite IH. split; [by intros ->|by intros [= ->]].
  - split; [done|]. intros [= -> _]. done.
Qed.

Lemma str_in_at p a s : String.substring a (String.length p) s = p → str_in p s = true.
Proof.
  revert a. induction s as [|c s IH]; intros a E; [by destruct p, a|]. cbn [str_in].
  destruct a as [|a].
  - apply prefix_substring in E. by rewrite E.
  - cbn in E. rewrite (IH a E). by rewrite orb_true_r.
Qed.

(** Identifiers without a colon are told apart from what follows a colon. *)
Definition no_colon (u : string) : bool := str_all (λ c, negb (Ascii.eqb c ":")) u.

Lemma no_colon_inj u v s t :
  no_colon u = true → no_colon v = true → u ++ String ":" s = v ++ String ":" t → u = v ∧ s = t.
Proof.
  revert v. induction u as [|c u IH]; intros [|c' v] Hu Hv E; cbn in *.
  - by injection E.
  - injection E as <- _. done.
  - injection E as -> _. done.
  - injection E as <- E. apply andb_true_iff in Hu as [_ Hu], Hv as [_ Hv].
    by destruct (IH v Hu Hv E) as [-> ->].
Qed.
