(* ===== verification/Uuid.v ===== *)
(** [uuid.UUID]: the 128-bit identifiers of every row, their text form [str(u)]
    and the parser [UUID(s)], with the round trip between them. *)

From S2P Require Import Prelude Effects PyStr.
From Stdlib Require Import Ascii String.

Local Open Scope string_scope.

Definition uuid_bound : N := (2 ^ 128)%N.

Record UUID := mk_UUID {
  uuid_int : N;
  uuid_ok : (uuid_int <? uuid_bound)%N = true
}.

(** [UUID(int=n)]: [0 <= n < 1 << 128] or [ValueError]. *)
Definition uuid_of_N (n : N) : option UUID :=
  match decide ((n <? uuid_bound)%N = true) with
  | left H => Some (mk_UUID n H)
  | right _ => None
  end.

(** ['%x'] of a digit. *)
Definition hex_digit (n : N) : ascii :=
  if (n <? 10)%N then ascii_of_N (48 + n) else ascii_of_N (87 + n).

Definition hex_val (c : ascii) : option N :=
  let n := code c in
  if ((48 <=? n) && (n <=? 57))%N then Some (n - 48)%N
  else if ((97 <=? n) && (n <=? 102))%N then Some (n - 87)%N
  else if ((65 <=? n) && (n <=? 70))%N then Some (n - 55)%N
  else None.

Definition is_hex (c : ascii) : bool := bool_decide (is_Some (hex_val c)).

(** ['%0kx' % n], most significant digit first, in front of [acc]. *)
Fixpoint hex_go (k : nat) (n : N) (acc : string) : string :=
  match k with
  | O => acc
  | S k' => hex_go k' (n / 16)%N (String (hex_digit (n mod 16)%N) acc)
  end.

(** [str(u)]: 32 digits cut 8-4-4-4-12. *)
Definition uuid_hex (u : UUID) : string := hex_go 32 (uuid_int u) "".

Definition uuid_str (u : UUID) : string :=
  let h := uuid_hex u in
  String.substring 0 8 h ++ "-" ++ String.substring 8 4 h ++ "-"
  ++ String.substring 12 4 h ++ "-" ++ String.substring 16 4 h ++ "-"
  ++ String.substring 20 12 h.

(** The digit loop of [int(s, 16)]: single underscores may separate digits.
    [prev] says that the last character was a digit. *)
Fixpoint hex_parse (prev : bool) (acc : N) (s : string) : option N :=
  match s with
  | EmptyString => if prev then Some acc else None
  | String c s' =>
      match hex_val c with
      | Some v => hex_parse true (acc * 16 + v)%N s'
      | None => if Ascii.eqb c "_" && prev then hex_parse false acc s' else None
      end
  end.

(** [int(s, 16)]: spaces around, a sign, and a [0x] prefix are accepted. *)
Definition py_int16 (s : string) : option Z :=
  let s := strip s in
  let '(neg, s) :=
    match s with
    | String "-" s' => (true, s')
    | String "+" s' => (false, s')
    | _ => (false, s)
    end in
  let s :=
    match s with
    | String "0" (String "x" (String "_" s')) => s'
    | String "0" (String "X" (String "_" s')) => s'
    | String "0" (String "x" s') => s'
    | String "0" (String "X" s') => s'
    | _ => s
    end in
  n ← hex_parse false 0 s;
  Some (if neg then (- Z.of_N n)%Z else Z.of_N n).

Definition is_brace (c : ascii) : bool := Ascii.eqb c "{" || Ascii.eqb c "}".

(** [UUID(s)] for a string [s]; [None] is [ValueError]. *)
Definition uuid_parse (s : string) : option UUID :=
  let h := replace "uuid:" "" (replace "urn:" "" s) in
  let h := replace "-" "" (strip_chars is_brace h) in
  if decide (String.length h = 32) then
    z ← py_int16 h;
    (if (z <? 0)%Z then None else uuid_of_N (Z.to_N z))
  else None.

(** ** Decidable equality and countability *)

Lemma UUID_eq (u v : UUID) : uuid_int u = uuid_int v → u = v.
Proof. destruct u, v; cbn; intros ->. f_equal. apply (proof_irrel _). Qed.

#[export] Instance UUID_eq_dec : EqDecision UUID.
Proof.
  intros u v. destruct (decide (uuid_int u = uuid_int v)) as [H|H].
  - left. by apply UUID_eq.
  - right. congruence.
Defined.

Lemma uuid_of_N_int (u : UUID) : uuid_of_N (uuid_int u) = Some u.
Proof.
  unfold uuid_of_N. destruct (decide _) as [H|H]; [|by destruct H; apply uuid_ok].
  f_equal. by apply UUID_eq.
Qed.

#[export] Instance UUID_countable : Countable UUID :=
  inj_countable uuid_int uuid_of_N uuid_of_N_int.

(** A concrete identifier, for examples. *)
Definition uid (n : nat) : UUID :=
  match uuid_of_N (N.of_nat n) with
  | Some u => u
  | None => mk_UUID 0 eq_refl
  end.

(** ** Hexadecimal digits *)

Lemma hex_val_digit n : (n < 16)%N → hex_val (hex_digit n) = Some n.
Proof.
  intros H. assert (∃ k : nat, (k < 16)%nat ∧ n = N.of_nat k) as (k & Hk & ->).
  { exists (N.to_nat n). lia. }
  do 16 (destruct k as [|k]; [done|]). lia.
Qed.

Lemma hex_parse_go k : ∀ b a n acc,
  hex_parse b a (hex_go k n acc)
  = hex_parse (match k with O => b | _ => true end)
      (a * 16 ^ N.of_nat k + n mod 16 ^ N.of_nat k)%N acc.
Proof.
  induction k as [|k IH]; intros b a n acc; cbn [hex_go].
  - rewrite N.pow_0_r, N.mod_1_r. f_equal; lia.
  - rewrite IH. cbn [hex_parse].
    rewrite hex_val_digit by (apply N.mod_lt; lia).
    rewrite Nat2N.inj_succ, N.pow_succ_r'. f_equal.
    rewrite (N.Div0.mod_mul_r n 16). lia.
Qed.

Lemma length_hex_go k n acc : String.length (hex_go k n acc) = (k + String.length acc)%nat.
Proof. revert n acc. induction k as [|k IH]; intros n acc; cbn; [done|]. rewrite IH. cbn. lia. Qed.

Lemma str_all_hex_go k n acc :
  str_all is_hex acc = true → str_all is_hex (hex_go k n acc) = true.
Proof.
  revert n acc. induction k as [|k IH]; intros n acc H; cbn; [done|].
  apply IH. cbn. rewrite H. unfold is_hex. rewrite hex_val_digit by (apply N.mod_lt; lia). done.
Qed.

Lemma is_hex_not c (s : string) : is_hex c = false →
  str_all is_hex s = true → str_all (λ d, negb (Ascii.eqb d c)) s = true.
Proof.
  intros Hc. apply str_all_impl. intros d Hd. apply negb_true_iff, Ascii.eqb_neq. congruence.
Qed.

Lemma length_uuid_hex u : String.length (uuid_hex u) = 32%nat.
Proof. apply length_hex_go. Qed.

Lemma uuid_hex_is_hex u : str_all is_hex (uuid_hex u) = true.
Proof. by apply str_all_hex_go. Qed.

Lemma hex_parse_uuid_hex b u : hex_parse b 0 (uuid_hex u) = Some (uuid_int u).
Proof.
  unfold uuid_hex. rewrite hex_parse_go. cbn [hex_parse]. f_equal.
  rewrite N.mul_0_l, N.add_0_l. apply N.mod_small.
  pose proof (uuid_ok u) as H%N.ltb_lt. exact H.
Qed.

(** A string of hexadecimal digits is read by [int(s, 16)] as it stands. *)
Lemma py_int16_hex s n :
  str_all is_hex s = true → hex_parse false 0 s = Some n → py_int16 s = Some (Z.of_N n).
Proof.
  intros Hs Hn. unfold py_int16.
  replace (strip s) with s.
  2: { symmetry. apply strip_chars_id. eapply str_all_impl; [|exact Hs].
       intros c. unfold is_hex, hex_val, is_space. cbn. intros Hc%bool_decide_eq_true.
       apply negb_true_iff. destruct Hc as [v Hv].
       repeat case_match; simplify_eq; lia. }
  destruct s as [|c1 s]; [done|]. cbn [str_all] in Hs.
  apply andb_true_iff in Hs as [Hc1 Hs].
  assert (∀ d, is_hex d = false → c1 ≠ d) as H1 by congruence.
  assert (∀ d t, s = String d t → is_hex d = true) as H2.
  { intros d t ->. cbn in Hs. by apply andb_true_iff in Hs as [? _]. }
  destruct c1 as [[] [] [] [] [] [] [] []]; try (by exfalso; vm_compute in Hc1);
    try (cbn [mbind option_bind]; rewrite Hn; done).
  destruct s as [|[[] [] [] [] [] [] [] []] s']; try (cbn [mbind option_bind]; rewrite Hn; done).
  all: by specialize (H2 _ _ eq_refl); vm_compute in H2.
Qed.

Lemma uuid_str_no_dash u :
  str_filter (λ c, negb (Ascii.eqb c "-")) (uuid_str u) = uuid_hex u.
Proof.
  pose proof (uuid_hex_is_hex u) as Hh. unfold uuid_str.
  rewrite !str_filter_app. cbn [str_filter Ascii.eqb Bool.eqb negb].
  rewrite !(str_filter_all _ (String.substring _ _ _))
    by (apply is_hex_not; [done|by apply str_all_substring]).
  rewrite !append_nil_l.
  rewrite (substring_cat 16 4 12), (substring_cat 12 4 16), (substring_cat 8 4 20),
    (substring_cat 0 8 24).
  change (8 + 24)%nat with 32%nat. rewrite <- (length_uuid_hex u). apply substring_all.
Qed.

(** [str(u)] is made of hexadecimal digits and dashes. *)
Definition is_uuid_char (c : ascii) : bool := is_hex c || Ascii.eqb c "-".

Lemma uuid_str_chars u : str_all is_uuid_char (uuid_str u) = true.
Proof.
  unfold uuid_str. rewrite !str_all_app.
  assert (∀ a n, str_all is_uuid_char (String.substring a n (uuid_hex u)) = true) as H.
  { intros. eapply str_all_impl; [|apply str_all_substring, uuid_hex_is_hex].
    unfold is_uuid_char. by intros c ->. }
  by rewrite !H.
Qed.

Lemma uuid_str_avoids u d :
  is_uuid_char d = false → str_all (λ c, negb (Ascii.eqb c d)) (uuid_str u) = true.
Proof.
  intros Hd. eapply str_all_impl; [|apply uuid_str_chars].
  intros c Hc. apply negb_true_iff, Ascii.eqb_neq. congruence.
Qed.

Lemma length_uuid_str u : String.length (uuid_str u) = 36%nat.
Proof.
  unfold uuid_str. rewrite !length_append, !length_substring by (rewrite length_uuid_hex; lia).
  done.
Qed.

(** [UUID(str(u)) == u]: the text of an identifier, as it travels in tokens,
    tickets, Redis values and WebSocket frames, parses back to that identifier. *)
Lemma uuid_parse_str : ∀ u, uuid_parse (uuid_str u) = Some u.
Proof.
  intros u. unfold uuid_parse.
  rewrite (replace_absent "u" "rn:") by by apply uuid_str_avoids.
  rewrite (replace_absent "u" "uid:") by by apply uuid_str_avoids.
  rewrite strip_chars_id.
  2: { eapply str_all_impl; [|apply uuid_str_chars]. intros c Hc. apply negb_true_iff.
       unfold is_brace. apply orb_false_iff.
       split; apply Ascii.eqb_neq; intros ->; by vm_compute in Hc. }
  rewrite replace_char, uuid_str_no_dash, length_uuid_hex, decide_True by done.
  rewrite (py_int16_hex _ (uuid_int u)) by (apply uuid_hex_is_hex || apply hex_parse_uuid_hex).
  cbn. destruct (Z.ltb_spec (Z.of_N (uuid_int u)) 0); [lia|].
  rewrite N2Z.id. apply uuid_of_N_int.
Qed.

Lemma uuid_str_inj u v : uuid_str u = uuid_str v → u = v.
Proof. intros H. apply (inj Some). by rewrite <- !uuid_parse_str, H. Qed.

Lemma uuid_str_ne u s : str_all is_uuid_char s = false → uuid_str u ≠ s.
Proof. intros H <-. by rewrite uuid_str_chars in H. Qed.
