(* ===== verification/Redis.v ===== *)
(** The Redis commands the code issues, over one logical database.

    A key holds a string, an integer counter, a set, a hash or a list, and may
    expire. Time is in microseconds; [EXPIRE] and [EX] are in seconds. A command
    on a key of another type raises the WRONGTYPE error. An expired key is absent
    for every command. *)

From S2P Require Import Prelude Effects.
From stdpp Require Import pretty.

Inductive rval :=
| RStr (s : string)
| RInt (z : Z)                (* the integer encoding [INCR] keeps *)
| RSet (m : gset string)
| RHash (h : gmap string string)
| RList (l : list string).

Record entry := mk_entry { e_val : rval; e_exp : option Z }.
#[export] Instance eta_entry : Eta entry := λ e, mk_entry (e_val e) (e_exp e).

Abbreviation redis := (gmap string entry).

(** A connection: the store and the server's clock. *)
Record rstate := mk_rstate { rs_now : Z; rs_db : redis }.
#[export] Instance eta_rstate : Eta rstate := λ r, mk_rstate (rs_now r) (rs_db r).

Definition second : Z := 1000000.
Definition deadline (now secs : Z) : Z := now + secs * second.

Definition expired (now : Z) (e : entry) : bool :=
  match e_exp e with Some t => (t <=? now)%Z | None => false end.

(** The entry a command sees under [k]. *)
Definition live (now : Z) (db : redis) (k : string) : option entry :=
  match db !! k with
  | Some e => if expired now e then None else Some e
  | None => None
  end.

Abbreviation wrongtype :=
  (RedisError "WRONGTYPE Operation against a key holding the wrong kind of value").

Definition put (k : string) (v : rval) (ex : option Z) : prog rstate unit :=
  modify (λ s, s <| rs_db ::= <[k := mk_entry v ex]> |>).
Definition drop (k : string) : prog rstate unit :=
  modify (λ s, s <| rs_db ::= delete k |>).
Definition look (k : string) : prog rstate (option entry) :=
  gets (λ s, live (rs_now s) (rs_db s) k).

(** [SET k v], [SET k v EX secs] and [SETEX]. *)
Definition redis_set (k v : string) (ex : option Z) : prog rstate unit :=
  s ← get; put k (RStr v) (deadline (rs_now s) <$> ex).

(** [GET k]. *)
Definition redis_get (k : string) : prog rstate (option string) :=
  e ← look k;
  match e with
  | None => mret None
  | Some (mk_entry (RStr v) _) => mret (Some v)
  | Some (mk_entry (RInt z) _) => mret (Some (pretty z))
  | Some _ => raise wrongtype
  end.

(** [GETDEL k]: one atomic command. *)
Definition redis_getdel (k : string) : prog rstate (option string) :=
  v ← redis_get k;
  match v with
  | None => mret None
  | Some v => drop k ;; mret (Some v)
  end.

(** [DEL k1 ... kn]: the number of keys that existed. *)
Fixpoint redis_delete (ks : list string) : prog rstate Z :=
  match ks with
  | [] => mret 0%Z
  | k :: ks' =>
      e ← look k; drop k ;;
      n ← redis_delete ks';
      mret (match e with Some _ => n + 1 | None => n end)%Z
  end.

(** [EXISTS k]. *)
Definition redis_exists (k : string) : prog rstate bool :=
  e ← look k; mret (bool_decide (is_Some e)).

(** [INCR k]: creates at 1 without expiry, keeps the expiry otherwise. *)
Definition redis_incr (k : string) : prog rstate Z :=
  e ← look k;
  match e with
  | None => put k (RInt 1) None ;; mret 1%Z
  | Some (mk_entry (RInt z) ex) =>
      if (z =? 2 ^ 63 - 1)%Z then raise (RedisError "increment or decrement would overflow")
      else put k (RInt (z + 1)) ex ;; mret (z + 1)%Z
  | Some (mk_entry (RStr _) _) => raise (RedisError "value is not an integer or out of range")
  | Some _ => raise wrongtype
  end.

(** [EXPIRE k secs]: true when the key exists. *)
Definition redis_expire (k : string) (secs : Z) : prog rstate bool :=
  s ← get; e ← look k;
  match e with
  | None => mret false
  | Some e => put k (e_val e) (Some (deadline (rs_now s) secs)) ;; mret true
  end.

(** [TTL k]: -2 without a key, -1 without an expiry, else seconds, rounded. *)
Definition redis_ttl (k : string) : prog rstate Z :=
  s ← get; e ← look k;
  match e with
  | None => mret (-2)%Z
  | Some (mk_entry _ None) => mret (-1)%Z
  | Some (mk_entry _ (Some t)) => mret ((t - rs_now s + second / 2) / second)%Z
  end.

(** Sets. *)
Definition look_set (k : string) : prog rstate (gset string) :=
  e ← look k;
  match e with
  | None => mret ∅
  | Some (mk_entry (RSet m) _) => mret m
  | Some _ => raise wrongtype
  end.

(** A set or hash that becomes empty is deleted; the expiry is kept. *)
Definition put_set (k : string) (m : gset string) : prog rstate unit :=
  e ← look k;
  if decide (m = ∅) then drop k else put k (RSet m) (e ≫= e_exp).

Definition redis_sadd (k : string) (ms : gset string) : prog rstate Z :=
  m ← look_set k; put_set k (m ∪ ms) ;; mret (Z.of_nat (size (ms ∖ m))).
Definition redis_srem (k : string) (ms : gset string) : prog rstate Z :=
  m ← look_set k; put_set k (m ∖ ms) ;; mret (Z.of_nat (size (m ∩ ms))).
Definition redis_scard (k : string) : prog rstate Z :=
  m ← look_set k; mret (Z.of_nat (size m)).
Definition redis_sismember (k x : string) : prog rstate bool :=
  m ← look_set k; mret (bool_decide (x ∈ m)).
Definition redis_smembers (k : string) : prog rstate (gset string) := look_set k.

(** Hashes. *)
Definition look_hash (k : string) : prog rstate (gmap string string) :=
  e ← look k;
  match e with
  | None => mret ∅
  | Some (mk_entry (RHash h) _) => mret h
  | Some _ => raise wrongtype
  end.
Definition put_hash (k : string) (h : gmap string string) : prog rstate unit :=
  e ← look k;
  if decide (h = ∅) then drop k else put k (RHash h) (e ≫= e_exp).

Definition redis_hset (k f v : string) : prog rstate unit :=
  h ← look_hash k; put_hash k (<[f := v]> h).
Definition redis_hget (k f : string) : prog rstate (option string) :=
  h ← look_hash k; mret (h !! f).
Definition redis_hexists (k f : string) : prog rstate bool :=
  h ← look_hash k; mret (bool_decide (is_Some (h !! f))).
Definition redis_hdel (k f : string) : prog rstate unit :=
  h ← look_hash k; put_hash k (delete f h).
Definition redis_hgetall (k : string) : prog rstate (gmap string string) := look_hash k.

(** Lists: [LPUSH] and [LTRIM k 0 stop] for [stop >= 0]. *)
Definition look_list (k : string) : prog rstate (list string) :=
  e ← look k;
  match e with
  | None => mret []
  | Some (mk_entry (RList l) _) => mret l
  | Some _ => raise wrongtype
  end.
Definition put_list (k : string) (l : list string) : prog rstate unit :=
  e ← look k;
  if decide (l = []) then drop k else put k (RList l) (e ≫= e_exp).
Definition redis_lpush (k x : string) : prog rstate unit :=
  l ← look_list k; put_list k (x :: l).
Definition redis_ltrim (k : string) (stop : nat) : prog rstate unit :=
  l ← look_list k; put_list k (take (S stop) l).

(** Unfold the commands and run them. *)
Ltac redis_run :=
  cbn [redis_delete]; unfold redis_getdel, redis_set, redis_get, redis_exists, redis_incr,
    redis_expire, redis_ttl, redis_sadd, redis_srem, redis_scard,
    redis_sismember, redis_smembers, redis_hset, redis_hget, redis_hexists,
    redis_hdel, redis_hgetall, redis_lpush, redis_ltrim,
    look_set, put_set, look_hash, put_hash, look_list, put_list, look, put, drop;
  run.

(** ** What a command sees after a write *)

Section Live.
Context (now : Z) (db : redis).
Implicit Types (k : string) (e : entry).

Lemma live_insert k k' e :
  live now (<[k := e]> db) k'
  = if decide (k = k') then (if expired now e then None else Some e) else live now db k'.
Proof.
  unfold live. case_decide as H.
  - subst. by rewrite lookup_insert_eq.
  - by rewrite lookup_insert_ne.
Qed.

Lemma live_insert_eq k e :
  live now (<[k := e]> db) k = if expired now e then None else Some e.
Proof. rewrite live_insert. by rewrite decide_True. Qed.

Lemma live_insert_ne k k' e : k ≠ k' → live now (<[k := e]> db) k' = live now db k'.
Proof. intros. rewrite live_insert. by rewrite decide_False. Qed.

Lemma live_delete_eq k : live now (delete k db) k = None.
Proof. unfold live. by rewrite lookup_delete_eq. Qed.

Lemma live_delete_ne k k' : k ≠ k' → live now (delete k db) k' = live now db k'.
Proof. intros. unfold live. by rewrite lookup_delete_ne. Qed.

Lemma live_Some k e : live now db k = Some e → db !! k = Some e ∧ expired now e = false.
Proof. unfold live. repeat case_match; naive_solver. Qed.

Lemma live_ext (db' : redis) k : db !! k = db' !! k → live now db k = live now db' k.
Proof. unfold live. by intros ->. Qed.
End Live.

(** Writing a key twice is writing it once. *)
Lemma overwrite k e e' s :
  s <| rs_db ::= <[k := e']> |> <| rs_db ::= <[k := e]> |> = s <| rs_db ::= <[k := e]> |>.
Proof. unfold over. cbn. by rewrite insert_insert_eq. Qed.

(** A write of [secs > 0] seconds is alive until its deadline. *)
Lemma expired_deadline now secs t :
  expired t (mk_entry (RInt 0) (Some (deadline now secs))) = bool_decide (deadline now secs ≤ t)%Z.
Proof. unfold expired; cbn. by destruct (Z.leb_spec (deadline now secs) t), (bool_decide_reflect (deadline now secs ≤ t)%Z); try lia. Qed.

(** An entry once expired stays expired: time does not run backwards. *)
Lemma live_mono now now' db k e :
  (now ≤ now')%Z → live now' db k = Some e → live now db k = Some e.
Proof.
  intros Hle. unfold live. destruct (db !! k) as [e'|]; [|done].
  unfold expired. destruct (e_exp e') as [t|]; [|done].
  destruct (Z.leb_spec t now'), (Z.leb_spec t now); naive_solver lia.
Qed.

(** What is left of an entry later on. *)
Lemma live_later now now' db k :
  (now ≤ now')%Z →
  live now' db k = match live now db k with
                   | Some e => if expired now' e then None else Some e
                   | None => None
                   end.
Proof.
  intros Hle. unfold live, expired. destruct (db !! k) as [e|]; [|done].
  destruct (e_exp e) as [t|] eqn:Et; [|by rewrite Et].
  destruct (Z.leb_spec t now); rewrite ?Et; [|done].
  destruct (Z.leb_spec t now'); [done|lia].
Qed.

(** Commands that only read. *)
Lemma exists_run k s :
  redis_exists k s = (Ok (bool_decide (is_Some (live (rs_now s) (rs_db s) k))), s).
Proof. done. Qed.

Definition ttl_of (now : Z) (e : option entry) : Z :=
  match e with
  | None => -2
  | Some (mk_entry _ None) => -1
  | Some (mk_entry _ (Some t)) => (t - now + second / 2) / second
  end%Z.

Lemma ttl_run k s :
  redis_ttl k s = (Ok (ttl_of (rs_now s) (live (rs_now s) (rs_db s) k)), s).
Proof. redis_run. by destruct (live _ _ k) as [[? []]|]. Qed.

(** [GETDEL]. *)
Lemma getdel_none k s :
  live (rs_now s) (rs_db s) k = None → redis_getdel k s = (Ok None, s).
Proof. redis_run. by intros ->. Qed.

Lemma getdel_str k v ex s :
  live (rs_now s) (rs_db s) k = Some (mk_entry (RStr v) ex) →
  redis_getdel k s = (Ok (Some v), s <| rs_db ::= delete k |>).
Proof. redis_run. by intros ->. Qed.

(** Writing a hash. *)
Lemma put_hash_run k h s :
  put_hash k h s
  = (if decide (h = ∅) then drop k else put k (RHash h) (live (rs_now s) (rs_db s) k ≫= e_exp)) s.
Proof. done. Qed.

Lemma hset_run k f v h s :
  look_hash k s = (Ok h, s) →
  redis_hset k f v s
  = (Ok tt, s <| rs_db ::= <[k := mk_entry (RHash (<[f := v]> h)) (live (rs_now s) (rs_db s) k ≫= e_exp)]> |>).
Proof.
  intros E. unfold redis_hset. rewrite (step_ok _ _ _ _ _ E), put_hash_run.
  rewrite decide_False by apply insert_non_empty. done.
Qed.

Lemma hdel_run k f h s :
  look_hash k s = (Ok h, s) →
  redis_hdel k f s
  = (Ok tt, s <| rs_db ::= if decide (delete f h = ∅) then delete k
                           else <[k := mk_entry (RHash (delete f h)) (live (rs_now s) (rs_db s) k ≫= e_exp)]> |>).
Proof.
  intros E. unfold redis_hdel. rewrite (step_ok _ _ _ _ _ E), put_hash_run. by case_decide.
Qed.

Lemma expire_run k secs e s :
  live (rs_now s) (rs_db s) k = Some e →
  redis_expire k secs s
  = (Ok true, s <| rs_db ::= <[k := mk_entry (e_val e) (Some (deadline (rs_now s) secs))]> |>).
Proof. redis_run. by intros ->. Qed.

(** The expiry that a live entry keeps has not passed. *)
Lemma live_exp_alive now db k v :
  expired now (mk_entry v (live now db k ≫= e_exp)) = false.
Proof.
  destruct (live now db k) as [e|] eqn:E; [|done]. apply live_Some in E as [_ E]. exact E.
Qed.

Lemma hset_expire_run k f v secs h s :
  look_hash k s = (Ok h, s) →
  (redis_hset k f v ;; redis_expire k secs) s
  = (Ok true, s <| rs_db ::= <[k := mk_entry (RHash (<[f := v]> h)) (Some (deadline (rs_now s) secs))]> |>).
Proof.
  intros E. rewrite (step_ok _ _ _ _ _ (hset_run _ _ _ _ _ E)).
  erewrite expire_run by (cbn; by rewrite live_insert_eq, live_exp_alive). cbn [e_val].
  by rewrite overwrite.
Qed.

Lemma hset_look k f v h s :
  look_hash k s = (Ok h, s) →
  ∃ s', redis_hset k f v s = (Ok tt, s') ∧ rs_now s' = rs_now s ∧
    look_hash k s' = (Ok (<[f := v]> h), s').
Proof.
  intros E. eexists. split; [by apply hset_run|]. split; [done|].
  unfold look_hash, look, gets. run. cbn. by rewrite live_insert_eq, live_exp_alive.
Qed.

(** ** Window counters: [INCR], and [EXPIRE] when the counter was created *)

Definition window_step (now secs : Z) (c : option entry) : res (Z * option Z) :=
  match c with
  | None => Ok (1, Some (deadline now secs))
  | Some (mk_entry (RInt z) ex) =>
      if (z =? 2 ^ 63 - 1)%Z then Err (RedisError "increment or decrement would overflow")
      else Ok (z + 1, if decide (z + 1 = 1) then Some (deadline now secs) else ex)
  | Some (mk_entry (RStr _) _) => Err (RedisError "value is not an integer or out of range")
  | Some _ => Err wrongtype
  end%Z.

Lemma window_run {B} k secs (rest : Z → prog rstate B) s :
  (n ← redis_incr k;
   (if decide (n = 1)%Z then redis_expire k secs ;; mret tt else mret tt) ;;
   rest n) s
  = match window_step (rs_now s) secs (live (rs_now s) (rs_db s) k) with
    | Ok (n, ex) => rest n (s <| rs_db ::= <[k := mk_entry (RInt n) ex]> |>)
    | Err e => (Err e, s)
    end.
Proof.
  redis_run. destruct (live _ _ k) as [[[| z | | |] ex]|] eqn:E; try done; cbn [window_step].
  - destruct (z =? _)%Z; [done|]. case_decide as Hz; [|done]. cbn [rs_now rs_db over].
    rewrite live_insert_eq. apply live_Some in E as [_ E]. unfold expired in *.
    cbn [e_exp e_val] in *. by rewrite E, overwrite.
  - rewrite decide_True by done. cbn [rs_now rs_db over]. rewrite live_insert_eq.
    unfold expired; cbn [e_exp e_val]. by rewrite overwrite.
Qed.

#[export] Hint Rewrite live_insert_eq live_delete_eq : redis.
#[export] Hint Rewrite live_insert_ne live_delete_ne using done : redis.

(** ** Frame: a computation that touches only the keys of [K] *)

Definition frame (K : gset string) (s s' : rstate) : Prop :=
  rs_now s' = rs_now s ∧ ∀ k, k ∉ K → rs_db s' !! k = rs_db s !! k.

Lemma frame_refl K s : frame K s s.
Proof. done. Qed.

Lemma frame_trans K s1 s2 s3 : frame K s1 s2 → frame K s2 s3 → frame K s1 s3.
Proof. intros [? H1] [? H2]. split; [congruence|]. intros. by rewrite H2, H1. Qed.

Lemma frame_put k v ex s K : k ∈ K → frame K s (put k v ex s).2.
Proof. split; [done|]. intros k' Hk'. cbn. rewrite lookup_insert_ne; set_solver. Qed.

Lemma frame_drop k s K : k ∈ K → frame K s (drop k s).2.
Proof. split; [done|]. intros k' Hk'. cbn. rewrite lookup_delete_ne; set_solver. Qed.

Definition framed (K : gset string) {A} (m : prog rstate A) : Prop := ∀ s, frame K s (m s).2.

Lemma framed_bind K {A B} (m : prog rstate A) (k : A → prog rstate B) :
  framed K m → (∀ a, framed K (k a)) → framed K (bind m k).
Proof.
  intros Hm Hk s. unfold bind. specialize (Hm s). destruct (m s) as [[a|e] s1]; [|done].
  eapply frame_trans; [done|]. apply Hk.
Qed.

Lemma framed_ret K {A} (a : A) : framed K (ret a).
Proof. done. Qed.
Lemma framed_raise K {A} e : framed K (raise (A := A) e).
Proof. done. Qed.
Lemma framed_get K : framed K get.
Proof. done. Qed.
Lemma framed_look K k : framed K (look k).
Proof. done. Qed.
Lemma framed_put K k v ex : k ∈ K → framed K (put k v ex).
Proof. intros ? s. by apply frame_put. Qed.
Lemma framed_drop K k : k ∈ K → framed K (drop k).
Proof. intros ? s. by apply frame_drop. Qed.

Create HintDb framed.
#[export] Hint Resolve framed_ret framed_raise framed_get framed_look
  framed_put framed_drop : framed.

Ltac solve_framed :=
  intros; repeat first
    [ progress (unfold mbind, mret, prog_bind, prog_ret)
    | apply framed_bind; [|intros]
    | case_match
    | case_decide
    | solve [eauto with framed] ].

Lemma framed_set K k v ex : k ∈ K → framed K (redis_set k v ex).
Proof. unfold redis_set. solve_framed. Qed.
Lemma framed_redis_get K k : framed K (redis_get k).
Proof. unfold redis_get. solve_framed. Qed.
Lemma framed_getdel K k : k ∈ K → framed K (redis_getdel k).
Proof. unfold redis_getdel. intros. pose proof framed_redis_get. solve_framed. Qed.
Lemma framed_exists K k : framed K (redis_exists k).
Proof. unfold redis_exists. solve_framed. Qed.
Lemma framed_incr K k : k ∈ K → framed K (redis_incr k).
Proof. unfold redis_incr. intros. solve_framed. Qed.
Lemma framed_expire K k secs : k ∈ K → framed K (redis_expire k secs).
Proof. unfold redis_expire. intros. solve_framed. Qed.
Lemma framed_ttl K k : framed K (redis_ttl k).
Proof. unfold redis_ttl. solve_framed. Qed.
Lemma framed_delete K ks : (∀ k, k ∈ ks → k ∈ K) → framed K (redis_delete ks).
Proof.
  induction ks as [|k ks IH]; intros H; cbn [redis_delete]; [by eauto with framed|].
  assert (framed K (redis_delete ks)) by (apply IH; set_solver).
  assert (k ∈ K) by set_solver. solve_framed.
Qed.
#[export] Hint Resolve framed_set framed_redis_get framed_getdel framed_exists
  framed_incr framed_expire framed_ttl framed_delete : framed.
#[export] Hint Extern 5 (_ ∈ _) => set_solver : framed.
#[export] Hint Extern 5 (∀ k, k ∈ _ → k ∈ _) => set_solver : framed.
