(* ===== verification/Models.v ===== *)
(** The rows of the PostgreSQL tables ([app/models/]): one record per mapped
    class, its enumerations and the predicates its methods define.

    A timestamp is a number of microseconds since the epoch (UTC); a date is a
    number of days. [updated_at], which the ORM stamps and nothing reads, has no
    field. Enumeration columns are [str] columns: an enumeration member is its
    string. *)

From S2P Require Import Prelude Effects Uuid.
From Stdlib Require Import String.

Local Open Scope string_scope.

Abbreviation timestamp := Z (only parsing).
Abbreviation date := Z (only parsing).

(** A JSON document: what [json.dumps] writes and [json.loads] reads. *)
Inductive json :=
| JNull
| JBool (b : bool)
| JInt (z : Z)
| JStr (s : string)
| JList (l : list json)
| JObj (fields : list (string * json)).

(** [d.get(key)] on a JSON object, whose keys [json.loads] leaves distinct. *)
Fixpoint json_get (key : string) (fields : list (string * json)) : option json :=
  match fields with
  | [] => None
  | (k, v) :: fields' => if decide (k = key) then Some v else json_get key fields'
  end.

(** An optional text in a payload: [None] is [null]. *)
Definition jopt (o : option string) : json :=
  match o with Some s => JStr s | None => JNull end.

(** ** Users *)

Inductive UserStatus := ACTIVE | SUSPENDED | DEACTIVATED.
Definition UserStatus_value (s : UserStatus) : string :=
  match s with ACTIVE => "active" | SUSPENDED => "suspended" | DEACTIVATED => "deactivated" end.
Coercion UserStatus_value : UserStatus >-> string.

Inductive UserRole := SOLDIER | NCO | OFFICER | UADMIN | SUPERADMIN.
Definition UserRole_value (r : UserRole) : string :=
  match r with
  | SOLDIER => "soldier" | NCO => "nco" | OFFICER => "officer"
  | UADMIN => "admin" | SUPERADMIN => "superadmin"
  end.
Coercion UserRole_value : UserRole >-> string.

Record User := mk_User {
  u_id : UUID;
  u_created_at : timestamp;
  u_phone_number : string;
  u_full_name : string;
  u_username : option string;
  u_department : option string;
  u_fcm_token : option string;
  u_hashed_military_id : string;
  u_hashed_password : string;
  u_device_fingerprint : option string;
  u_token_version : Z;
  u_status : string;
  u_role : string;
  u_expiry_date : option date;
  u_last_seen_at : option timestamp;
  u_is_online : bool;
  u_avatar_object_key : option string;
  u_mfa_enabled : bool
}.
#[export] Instance eta_User : Eta User := λ u,
  mk_User (u_id u) (u_created_at u) (u_phone_number u) (u_full_name u) (u_username u)
    (u_department u) (u_fcm_token u) (u_hashed_military_id u) (u_hashed_password u)
    (u_device_fingerprint u) (u_token_version u) (u_status u) (u_role u)
    (u_expiry_date u) (u_last_seen_at u) (u_is_online u) (u_avatar_object_key u)
    (u_mfa_enabled u).

(** ** Sessions *)

Record UserSession := mk_UserSession {
  s_id : UUID;
  s_created_at : timestamp;
  s_user_id : UUID;
  s_refresh_token_hash : string;
  s_ip_address : string;
  s_user_agent : option string;
  s_device_type : option string;
  s_device_name : option string;
  s_geo_city : option string;
  s_last_active_at : option timestamp;
  s_expires_at : timestamp;
  s_revoked_at : option timestamp
}.
#[export] Instance eta_UserSession : Eta UserSession := λ s,
  mk_UserSession (s_id s) (s_created_at s) (s_user_id s) (s_refresh_token_hash s)
    (s_ip_address s) (s_user_agent s) (s_device_type s) (s_device_name s)
    (s_geo_city s) (s_last_active_at s) (s_expires_at s) (s_revoked_at s).

(** ** Messages *)

Inductive MessageStatus := SENT | DELIVERED | READ | FAILED.
Definition MessageStatus_value (s : MessageStatus) : string :=
  match s with SENT => "sent" | DELIVERED => "delivered" | READ => "read" | FAILED => "failed" end.
Coercion MessageStatus_value : MessageStatus >-> string.

Record Message := mk_Message {
  m_id : UUID;
  m_created_at : timestamp;
  m_sender_id : option UUID;
  m_recipient_id : option UUID;
  m_group_id : option UUID;
  m_message_type : string;
  m_content_ciphertext : option string;
  m_media_object_key : option string;
  m_media_mime_type : option string;
  m_media_size_bytes : option Z;
  m_status : string;
  m_delivered_at : option timestamp;
  m_read_at : option timestamp;
  m_is_self_destruct : bool;
  m_destruct_after_seconds : option Z;
  m_destruct_at : option timestamp;
  m_is_destructed : bool;
  m_deleted_at : option timestamp;
  m_deleted_for_everyone : bool
}.
#[export] Instance eta_Message : Eta Message := λ m,
  mk_Message (m_id m) (m_created_at m) (m_sender_id m) (m_recipient_id m) (m_group_id m)
    (m_message_type m) (m_content_ciphertext m) (m_media_object_key m)
    (m_media_mime_type m) (m_media_size_bytes m) (m_status m) (m_delivered_at m)
    (m_read_at m) (m_is_self_destruct m) (m_destruct_after_seconds m)
    (m_destruct_at m) (m_is_destructed m) (m_deleted_at m) (m_deleted_for_everyone m).

(** ** Groups *)

Inductive GroupRole := OBSERVER | MEMBER | MODERATOR | GADMIN | OWNER.
Definition GroupRole_value (r : GroupRole) : string :=
  match r with
  | OBSERVER => "observer" | MEMBER => "member" | MODERATOR => "moderator"
  | GADMIN => "admin" | OWNER => "owner"
  end.
Coercion GroupRole_value : GroupRole >-> string.

(** [GROUP_ROLE_RANK.get(role, 0)] *)
Definition GROUP_ROLE_RANK (role : string) : Z :=
  if decide (role = OBSERVER) then 0
  else if decide (role = MEMBER) then 1
  else if decide (role = MODERATOR) then 2
  else if decide (role = GADMIN) then 3
  else if decide (role = OWNER) then 4
  else 0.

Inductive JoinRequestStatus := PENDING | APPROVED | REJECTED.
Definition JoinRequestStatus_value (s : JoinRequestStatus) : string :=
  match s with PENDING => "pending" | APPROVED => "approved" | REJECTED => "rejected" end.
Coercion JoinRequestStatus_value : JoinRequestStatus >-> string.

Record Group := mk_Group {
  g_id : UUID;
  g_created_at : timestamp;
  g_name : string;
  g_description : option string;
  g_group_type : string;
  g_max_members : Z;
  g_is_archived : bool;
  g_only_admins_can_post : bool;
  g_is_announcement_group : bool;
  g_join_approval_required : bool
}.
#[export] Instance eta_Group : Eta Group := λ g,
  mk_Group (g_id g) (g_created_at g) (g_name g) (g_description g) (g_group_type g)
    (g_max_members g) (g_is_archived g) (g_only_admins_can_post g)
    (g_is_announcement_group g) (g_join_approval_required g).

Record GroupMember := mk_GroupMember {
  gm_id : UUID;
  gm_group_id : UUID;
  gm_user_id : UUID;
  gm_role : string;
  gm_joined_at : timestamp;
  gm_is_muted : bool
}.
#[export] Instance eta_GroupMember : Eta GroupMember := λ m,
  mk_GroupMember (gm_id m) (gm_group_id m) (gm_user_id m) (gm_role m) (gm_joined_at m)
    (gm_is_muted m).

(** [GroupMember.can_post] *)
Definition can_post (self : GroupMember) (group : Group) : bool :=
  let rank := GROUP_ROLE_RANK (gm_role self) in
  if decide (gm_role self = OBSERVER) then false
  else if g_is_announcement_group group || g_only_admins_can_post group
  then (GROUP_ROLE_RANK GADMIN <=? rank)%Z
  else true.

(** [GroupMember.can_manage_members] *)
Definition can_manage_members (self : GroupMember) : bool :=
  (GROUP_ROLE_RANK GADMIN <=? GROUP_ROLE_RANK (gm_role self))%Z.

Record GroupJoinRequest := mk_GroupJoinRequest {
  jr_id : UUID;
  jr_created_at : timestamp;
  jr_group_id : UUID;
  jr_user_id : UUID;
  jr_status : string;
  jr_message : option string;
  jr_decided_by_id : option UUID;
  jr_decided_at : option timestamp
}.
#[export] Instance eta_GroupJoinRequest : Eta GroupJoinRequest := λ r,
  mk_GroupJoinRequest (jr_id r) (jr_created_at r) (jr_group_id r) (jr_user_id r)
    (jr_status r) (jr_message r) (jr_decided_by_id r) (jr_decided_at r).

(** ** Broadcasts *)

Record Broadcast := mk_Broadcast {
  b_id : UUID;
  b_created_at : timestamp;
  b_title : string;
  b_body : string;
  b_department : option string;
  b_priority : string;
  b_created_by_id : option UUID
}.

Record BroadcastAck := mk_BroadcastAck {
  ba_id : UUID;
  ba_broadcast_id : UUID;
  ba_user_id : UUID
}.

(** ** Audit log *)

Inductive AuditAction :=
| LOGIN_SUCCESS | LOGIN_FAILED | LOGOUT | TOKEN_REFRESH | MFA_CHALLENGED | MFA_PASSED
| MFA_FAILED | SESSION_REVOKED | USER_CREATED | USER_UPDATED | USER_SUSPENDED
| USER_REACTIVATED | ROLE_CHANGED | PASSWORD_CHANGED | DEVICE_FINGERPRINT_CHANGED
| MESSAGE_DELETED | MESSAGE_DELETED_FOR_EVERYONE | GROUP_CREATED | GROUP_MEMBER_ADDED
| GROUP_MEMBER_REMOVED | GROUP_MEMBER_ROLE_CHANGED | ADMIN_IMPERSONATE | EXPORT_DATA
| CONFIG_CHANGED | SUSPICIOUS_LOGIN | RATE_LIMIT_HIT | FORCE_DISCONNECT.
Definition AuditAction_value (a : AuditAction) : string :=
  match a with
  | LOGIN_SUCCESS => "auth.login.success"
  | LOGIN_FAILED => "auth.login.failed"
  | LOGOUT => "auth.logout"
  | TOKEN_REFRESH => "auth.token.refresh"
  | MFA_CHALLENGED => "auth.mfa.challenge"
  | MFA_PASSED => "auth.mfa.passed"
  | MFA_FAILED => "auth.mfa.failed"
  | SESSION_REVOKED => "auth.session.revoked"
  | USER_CREATED => "user.created"
  | USER_UPDATED => "user.updated"
  | USER_SUSPENDED => "user.suspended"
  | USER_REACTIVATED => "user.reactivated"
  | ROLE_CHANGED => "user.role.changed"
  | PASSWORD_CHANGED => "user.password.changed"
  | DEVICE_FINGERPRINT_CHANGED => "user.device_fingerprint.changed"
  | MESSAGE_DELETED => "message.deleted"
  | MESSAGE_DELETED_FOR_EVERYONE => "message.deleted_for_everyone"
  | GROUP_CREATED => "group.created"
  | GROUP_MEMBER_ADDED => "group.member.added"
  | GROUP_MEMBER_REMOVED => "group.member.removed"
  | GROUP_MEMBER_ROLE_CHANGED => "group.member.role_changed"
  | ADMIN_IMPERSONATE => "admin.impersonate"
  | EXPORT_DATA => "admin.data.export"
  | CONFIG_CHANGED => "admin.config.changed"
  | SUSPICIOUS_LOGIN => "security.suspicious_login"
  | RATE_LIMIT_HIT => "security.rate_limit"
  | FORCE_DISCONNECT => "security.force_disconnect"
  end.
Coercion AuditAction_value : AuditAction >-> string.

Record AuditLog := mk_AuditLog {
  al_actor_id : option UUID;
  al_actor_role : option string;
  al_action : string;
  al_resource_type : option string;
  al_resource_id : option string;
  al_description : option string;
  al_metadata : option json;
  al_ip_address : option string;
  al_user_agent : option string;
  al_success : bool;
  al_error_code : option string
}.
#[export] Instance eta_AuditLog : Eta AuditLog := λ a,
  mk_AuditLog (al_actor_id a) (al_actor_role a) (al_action a) (al_resource_type a)
    (al_resource_id a) (al_description a) (al_metadata a) (al_ip_address a)
    (al_user_agent a) (al_success a) (al_error_code a).

(** [AuditLog(actor_id=..., action=..., success=...)] with the other columns at
    their default. *)
Definition audit (actor_id : option UUID) (action : string) (success : bool) : AuditLog :=
  mk_AuditLog actor_id None action None None None None None None success None.
