(* ===== verification/Json.v ===== *)
(** [json.dumps] and [json.loads]: on the objects the code keeps as text in Redis - one level
    deep, their values texts and integers - and on whole documents. [str(n)] and [int(s)].

    The readers read what the writers write; they know no other spacing, no fractions, and
    keep the order of the members of an object. *)

From S2P Require Import Prelude Effects PyStr Models.
From stdpp Require Import pretty.
From Stdlib Require Import Ascii String.

Local Open Scope string_scope.

(** ** Integers *)

(** Read digits from the left; what follows them is left. *)
Fixpoint read_digits (acc : N) (s : string) : N * string :=
  match s with
  | String c s' =>
      if is_digit c then read_digits (10 * acc + (code c - 48))%N s' else (acc, s)
  | EmptyString => (acc, "")
  end.

(** An integer at the head of a text. *)
Definition read_int (s : string) : option (Z * string) :=
  match s with
  | String "-" (String c _ as ds) =>
      if is_digit c then let '(n, rest) := read_digits 0 ds in Some ((- Z.of_N n)%Z, rest)
      else None
  | String c _ =>
      if is_digit c then let '(n, rest) := read_digits 0 s in Some (Z.of_N n, rest) else None
  | EmptyString => None
  end.

(** [int(s)] *)
Definition int_of_str (s : string) : option Z :=
  match read_int s with Some (z, EmptyString) => Some z | _ => None end.

(** ** Texts *)

Definition quote : ascii := "034".
Definition backslash : ascii := "092".

Definition hex_digit (n : N) : ascii :=
  ascii_of_N (if (n <? 10)%N then 48 + n else 87 + n)%N.
Definition of_hex (c : ascii) : N :=
  if (code c <? 58)%N then code c - 48 else code c - 87.

(** [json.dumps] escapes what is not printable ASCII, the quote and the backslash. *)
Definition escape_char (c : ascii) (rest : string) : string :=
  if Ascii.eqb c quote || Ascii.eqb c backslash then String backslash (String c rest)
  else if Ascii.eqb c "010" then String backslash (String "n" rest)
  else if Ascii.eqb c "013" then String backslash (String "r" rest)
  else if Ascii.eqb c "009" then String backslash (String "t" rest)
  else if Ascii.eqb c "012" then String backslash (String "f" rest)
  else if Ascii.eqb c "008" then String backslash (String "b" rest)
  else if (32 <=? code c)%N && (code c <=? 126)%N then String c rest
  else String backslash (String "u" (String "0" (String "0"
         (String (hex_digit (code c / 16)) (String (hex_digit (code c mod 16)) rest))))).

(** A text in quotes, before [rest]. *)
Fixpoint write_chars (s rest : string) : string :=
  match s with
  | EmptyString => String quote rest
  | String c s' => escape_char c (write_chars s' rest)
  end.
Definition write_str (s rest : string) : string := String quote (write_chars s rest).

(** What [\e] stands for. *)
Definition unescape (e : ascii) : option ascii :=
  if Ascii.eqb e quote || Ascii.eqb e backslash || Ascii.eqb e "/" then Some e
  else if Ascii.eqb e "n" then Some "010"%char
  else if Ascii.eqb e "r" then Some "013"%char
  else if Ascii.eqb e "t" then Some "009"%char
  else if Ascii.eqb e "f" then Some "012"%char
  else if Ascii.eqb e "b" then Some "008"%char
  else None.

(** Read the text after its opening quote. *)
Fixpoint read_chars (s : string) : option (string * string) :=
  match s with
  | EmptyString => None
  | String c s' =>
      if Ascii.eqb c quote then Some ("", s')
      else if Ascii.eqb c backslash then
        match s' with
        | String "u" (String "0" (String "0" (String h (String l s'')))) =>
            '(t, rest) ← read_chars s'';
            Some (String (ascii_of_N (16 * of_hex h + of_hex l)) t, rest)
        | String e s'' =>
            c ← unescape e; '(t, rest) ← read_chars s''; Some (String c t, rest)
        | EmptyString => None
        end
      else '(t, rest) ← read_chars s'; Some (String c t, rest)
  end.

(** ** Objects *)

Inductive scalar_json := SStr (s : string) | SInt (z : Z).

Definition write_scalar (v : scalar_json) (rest : string) : string :=
  match v with SStr s => write_str s rest | SInt z => pretty z ++ rest end.

(** The members of an object, and its closing brace. *)
Fixpoint write_members (fields : list (string * scalar_json)) : string :=
  match fields with
  | [] => "}"
  | [(k, v)] => write_str k (": " ++ write_scalar v "}")
  | (k, v) :: fields => write_str k (": " ++ write_scalar v (", " ++ write_members fields))
  end.

(** [json.dumps(fields)] *)
Definition dumps (fields : list (string * scalar_json)) : string :=
  "{" ++ write_members fields.

Definition read_scalar (s : string) : option (scalar_json * string) :=
  match s with
  | String c s' =>
      if Ascii.eqb c quote then '(t, rest) ← read_chars s'; Some (SStr t, rest)
      else '(z, rest) ← read_int s; Some (SInt z, rest)
  | EmptyString => None
  end.

Definition read_member (s : string) : option ((string * scalar_json) * string) :=
  match s with
  | String q s' =>
      if Ascii.eqb q quote then
        '(k, s'') ← read_chars s';
        match s'' with
        | String ":" (String " " s3) => '(v, rest) ← read_scalar s3; Some ((k, v), rest)
        | _ => None
        end
      else None
  | EmptyString => None
  end.

Fixpoint read_members (fuel : nat) (s : string) : option (list (string * scalar_json)) :=
  match fuel with
  | 0 => None
  | S fuel =>
      '(kv, rest) ← read_member s;
      match rest with
      | String "}" EmptyString => Some [kv]
      | String "," (String " " rest) => fields ← read_members fuel rest; Some (kv :: fields)
      | _ => None
      end
  end.

(** [json.loads(s)]; every member takes some of the text, so its length is fuel enough. *)
Definition loads (s : string) : option (list (string * scalar_json)) :=
  match s with
  | String "{" (String "}" EmptyString) => Some []
  | String "{" s' => read_members (String.length s) s'
  | _ => None
  end.

(** [state[key]], for a text and for an integer. *)
Fixpoint member (key : string) (fields : list (string * scalar_json)) : option scalar_json :=
  match fields with
  | [] => None
  | (k, v) :: fields => if decide (k = key) then Some v else member key fields
  end.
Definition member_str (key : string) (fields : list (string * scalar_json)) : option string :=
  match member key fields with Some (SStr s) => Some s | _ => None end.
Definition member_int (key : string) (fields : list (string * scalar_json)) : option Z :=
  match member key fields with Some (SInt z) => Some z | _ => None end.

(** [data[key]] of a document. *)
Definition json_item (key : string) (data : json) : res json :=
  match data with
  | JObj fields => match json_get key fields with Some v => Ok v | None => Err (KeyError key) end
  | _ => Err TypeError
  end.

(** ** Facts *)

Definition no_digit_first (s : string) : Prop :=
  match s with String c _ => is_digit c = false | EmptyString => True end.

Lemma read_digits_stop acc s : no_digit_first s → read_digits acc s = (acc, s).
Proof. destruct s as [|c s]; cbn; [done|]. by intros ->. Qed.

Lemma digit_char x : (x < 10)%N →
  is_digit (pretty_N_char x) = true ∧ (code (pretty_N_char x) - 48 = x)%N.
Proof.
  intros Hx. destruct x as [|p]; [done|]. by do 4 (try destruct p as [p|p|]); try lia.
Qed.

Lemma read_digits_pretty x s : read_digits 0 (pretty_N_go x s) = read_digits x s.
Proof.
  revert s. induction (N.lt_wf_0 x) as [x _ IH]. intros s.
  destruct (decide (x = 0)%N) as [->|Hx]; [by rewrite pretty_N_go_0|].
  rewrite pretty_N_go_step by lia.
  assert (x `mod` 10 < 10)%N as Hm by (apply N.mod_lt; lia).
  rewrite IH by (apply N.div_lt; lia). cbn [read_digits].
  destruct (digit_char _ Hm) as [-> ->]. by rewrite <- N.div_mod' .
Qed.

(** [str] of a natural number starts with a digit. *)
Lemma pretty_N_head x s :
  (0 < x)%N → ∃ c s', pretty_N_go x s = String c s' ∧ is_digit c = true.
Proof.
  revert s. induction (N.lt_wf_0 x) as [x _ IH]. intros s Hx.
  rewrite pretty_N_go_step by lia.
  assert (x `mod` 10 < 10)%N as Hm by (apply N.mod_lt; lia).
  destruct (decide (x `div` 10 = 0)%N) as [E|].
  - rewrite E, pretty_N_go_0. eexists _, _. split; [done|]. by apply digit_char.
  - apply IH; [apply N.div_lt; lia|by apply N.neq_0_lt_0].
Qed.

Lemma pretty_N_go_app x s t : pretty_N_go x (s ++ t) = pretty_N_go x s ++ t.
Proof.
  revert s. induction (N.lt_wf_0 x) as [x _ IH]. intros s.
  destruct (decide (x = 0)%N) as [->|Hx]; [by rewrite !pretty_N_go_0|].
  rewrite !(pretty_N_go_step x) by lia. rewrite <- append_cons. apply IH.
  apply N.div_lt; lia.
Qed.

Lemma pretty_N_read x s :
  no_digit_first s → read_digits 0 (pretty x ++ s) = (x, s) ∧
  ∃ c s', pretty x ++ s = String c s' ∧ is_digit c = true.
Proof.
  intros Hs. unfold pretty, pretty_N. case_decide as Hx.
  - subst. split; [|by eexists _, _].
    transitivity (read_digits 0 s); [done|by apply read_digits_stop].
  - rewrite <- pretty_N_go_app, append_nil_l, read_digits_pretty, read_digits_stop by done.
    split; [done|]. apply pretty_N_head. lia.
Qed.

Lemma read_int_pretty z s : no_digit_first s → read_int (pretty z ++ s) = Some (z, s).
Proof.
  intros Hs. destruct z as [|p|p].
  - transitivity (let '(n, rest) := read_digits 0 s in Some (Z.of_N n, rest)); [done|].
    by rewrite read_digits_stop.
  - change (pretty (Z.pos p)) with (pretty (N.pos p)).
    destruct (pretty_N_read (N.pos p) s Hs) as (E & c & s' & Ec & Hc). rewrite Ec in *.
    unfold read_int. rewrite Hc, E.
    destruct (Ascii.eqb_spec c "-") as [->|Hne]; [done|].
    destruct c as [[] [] [] [] [] [] [] []]; done || (by destruct s').
  - change (pretty (Z.neg p) ++ s) with (String "-" (pretty (N.pos p) ++ s)).
    destruct (pretty_N_read (N.pos p) s Hs) as (E & c & s' & Ec & Hc). rewrite Ec in *.
    unfold read_int. by rewrite Hc, E.
Qed.

(** The text of a number has no colon. *)
Lemma pretty_N_go_no_colon x s : no_colon s = true → no_colon (pretty_N_go x s) = true.
Proof.
  revert s. induction (N.lt_wf_0 x) as [x _ IH]. intros s Hs.
  destruct (decide (x = 0)%N) as [->|Hx]; [by rewrite pretty_N_go_0|].
  rewrite pretty_N_go_step by lia. apply IH; [apply N.div_lt; lia|].
  assert (x `mod` 10 < 10)%N as Hm by (apply N.mod_lt; lia).
  unfold no_colon in *. cbn [str_all]. rewrite Hs, andb_true_r. destruct (digit_char _ Hm) as [Hd _].
  destruct (Ascii.eqb_spec (pretty_N_char (x `mod` 10)) ":") as [E|]; [by rewrite E in Hd|done].
Qed.

Lemma pretty_no_colon (z : Z) : no_colon (pretty z) = true.
Proof.
  assert (∀ x : N, no_colon (pretty x) = true) as HN.
  { intros x. unfold pretty, pretty_N. case_decide; [done|]. by apply pretty_N_go_no_colon. }
  destruct z as [|p|p]; [done|apply (HN (N.pos p))|].
  change (no_colon ("-" ++ pretty (N.pos p)) = true). unfold no_colon. rewrite str_all_app. apply HN.
Qed.

(** [int(str(n))] is [n]. *)
Lemma int_of_str_pretty z : int_of_str (pretty z) = Some z.
Proof.
  unfold int_of_str. rewrite <- (append_nil_r (pretty z)), read_int_pretty by done. done.
Qed.

Lemma read_chars_escape c t :
  read_chars (escape_char c t) = ('(t', rest) ← read_chars t; Some (String c t', rest)).
Proof. by destruct c as [[] [] [] [] [] [] [] []]. Qed.

Lemma read_chars_write s rest : read_chars (write_chars s rest) = Some (s, rest).
Proof.
  induction s as [|c s IH]; [done|]. cbn [write_chars]. by rewrite read_chars_escape, IH.
Qed.

Lemma pretty_not_quote (z : Z) s : ∃ c s', pretty z ++ s = String c s' ∧ Ascii.eqb c quote = false.
Proof.
  destruct z as [|p|p]; [by eexists _, _| |by eexists _, _].
  change (pretty (Z.pos p)) with (pretty (N.pos p)).
  destruct (pretty_N_head (N.pos p) "") as (c & s' & E & Hc); [done|].
  exists c, (s' ++ s). change (pretty (N.pos p)) with (pretty_N_go (N.pos p) "").
  rewrite E. split; [done|]. by destruct (Ascii.eqb_spec c quote); [subst|].
Qed.

Lemma read_scalar_write v rest :
  no_digit_first rest → read_scalar (write_scalar v rest) = Some (v, rest).
Proof.
  intros Hr. destruct v as [s|z]; cbn [write_scalar].
  - cbn. by rewrite read_chars_write.
  - destruct (pretty_not_quote z rest) as (c & s' & E & Hc). rewrite E. cbn [read_scalar].
    rewrite Hc, <- E, read_int_pretty by done. done.
Qed.

Lemma read_member_write k v rest :
  no_digit_first rest →
  read_member (write_str k (": " ++ write_scalar v rest)) = Some ((k, v), rest).
Proof.
  intros Hr. unfold read_member, write_str. rewrite Ascii.eqb_refl, read_chars_write.
  transitivity ('(v, rest) ← read_scalar (write_scalar v rest); Some ((k, v), rest)); [done|].
  by rewrite read_scalar_write.
Qed.

Lemma write_members_cons k v kv fields :
  write_members ((k, v) :: kv :: fields) =
  write_str k (": " ++ write_scalar v (", " ++ write_members (kv :: fields))).
Proof. done. Qed.

Lemma read_members_write fields fuel :
  fields ≠ [] → (List.length fields ≤ fuel)%nat →
  read_members fuel (write_members fields) = Some fields.
Proof.
  revert fuel. induction fields as [|[k v] fields IH]; intros fuel Hne Hf; [done|].
  destruct fuel as [|fuel]; cbn in Hf; [lia|]. destruct fields as [|kv fields].
  - cbn [write_members read_members]. by rewrite read_member_write.
  - rewrite write_members_cons. cbn [read_members]. rewrite read_member_write by done.
    transitivity (l ← read_members fuel (write_members (kv :: fields)); Some ((k, v) :: l)); [done|].
    rewrite IH by (done || (cbn in *; lia)). done.
Qed.

Lemma length_write_members fields :
  (List.length fields ≤ String.length (write_members fields))%nat.
Proof.
  assert (∀ c t, String.length t < String.length (escape_char c t))%nat as Hc.
  { intros c t. unfold escape_char. split_matches; cbn; lia. }
  assert (∀ s t, String.length t < String.length (write_str s t))%nat as Hs.
  { intros s t. unfold write_str. cbn. induction s as [|c s IH]; cbn; [lia|].
    specialize (Hc c (write_chars s t)). lia. }
  assert (∀ v t, String.length t ≤ String.length (write_scalar v t))%nat as Hv.
  { intros [s|z] t; cbn [write_scalar]; [specialize (Hs s t); lia|]. rewrite length_append. lia. }
  induction fields as [|[k v] [|kv fields] IH]; [cbn; lia| |].
  - cbn [write_members List.length]. pose proof (Hs k (": " ++ write_scalar v "}")). lia.
  - rewrite write_members_cons. cbn [List.length] in *.
    pose proof (Hs k (": " ++ write_scalar v (", " ++ write_members (kv :: fields)))) as H1.
    pose proof (Hv v (", " ++ write_members (kv :: fields))) as H2.
    rewrite !length_append in H1. rewrite !length_append in H2. cbn in *. lia.
Qed.

(** What [json.loads] reads is what [json.dumps] wrote. *)
Lemma loads_dumps fields : loads (dumps fields) = Some fields.
Proof.
  destruct fields as [|[k v] fields]; [done|]. unfold dumps, loads.
  set (l := (k, v) :: fields). pose proof (length_write_members l) as Hl.
  rewrite append_cons, append_nil_l.
  assert (∃ t, write_members l = String quote t) as [t E]
    by (subst l; destruct fields; eexists; done).
  transitivity (read_members (S (String.length (write_members l))) (write_members l)).
  - by rewrite E.
  - apply read_members_write; [done|]. lia.
Qed.

(** ** Documents *)

(** [json.dumps(v)], before [rest]. *)
Fixpoint write_json (v : json) (rest : string) : string :=
  match v with
  | JNull => "null" ++ rest
  | JBool true => "true" ++ rest
  | JBool false => "false" ++ rest
  | JInt z => pretty z ++ rest
  | JStr s => write_str s rest
  | JList l =>
      String "[" ((fix items (l : list json) : string :=
        match l with
        | [] => String "]" rest
        | v :: l => write_json v (match l with
                                  | [] => String "]" rest
                                  | _ => String "," (String " " (items l))
                                  end)
        end) l)
  | JObj fields =>
      String "{" ((fix members (l : list (string * json)) : string :=
        match l with
        | [] => String "}" rest
        | (k, v) :: l =>
            write_str k (String ":" (String " " (write_json v (match l with
              | [] => String "}" rest
              | _ => String "," (String " " (members l))
              end))))
        end) fields)
  end.
Definition dumps_json (v : json) : string := write_json v "".

Fixpoint write_items (l : list json) (rest : string) : string :=
  match l with
  | [] => String "]" rest
  | v :: l => write_json v (match l with
                            | [] => String "]" rest
                            | _ => String "," (String " " (write_items l rest))
                            end)
  end.
Fixpoint write_fields (l : list (string * json)) (rest : string) : string :=
  match l with
  | [] => String "}" rest
  | (k, v) :: l =>
      write_str k (String ":" (String " " (write_json v (match l with
        | [] => String "}" rest
        | _ => String "," (String " " (write_fields l rest))
        end))))
  end.

(** [json.loads]; a document's nodes are fewer than its characters. *)
Definition read_word (w : string) (v : json) (s : string) : option (json * string) :=
  if String.prefix w s
  then Some (v, String.substring (String.length w) (String.length s - String.length w) s) else None.

Fixpoint read_json (fuel : nat) (s : string) : option (json * string) :=
  match fuel with
  | O => None
  | S fuel =>
      match s with
      | EmptyString => None
      | String c s' =>
          if Ascii.eqb c quote then '(t, rest) ← read_chars s'; Some (JStr t, rest)
          else if Ascii.eqb c "[" then
            match s' with
            | String "]" rest => Some (JList [], rest)
            | _ => '(l, rest) ← read_items fuel s'; Some (JList l, rest)
            end
          else if Ascii.eqb c "{" then
            match s' with
            | String "}" rest => Some (JObj [], rest)
            | _ => '(l, rest) ← read_fields fuel s'; Some (JObj l, rest)
            end
          else if Ascii.eqb c "n" then read_word "null" JNull s
          else if Ascii.eqb c "t" then read_word "true" (JBool true) s
          else if Ascii.eqb c "f" then read_word "false" (JBool false) s
          else '(z, rest) ← read_int s; Some (JInt z, rest)
      end
  end
with read_items (fuel : nat) (s : string) : option (list json * string) :=
  match fuel with
  | O => None
  | S fuel =>
      '(v, rest) ← read_json fuel s;
      match rest with
      | String "]" rest => Some ([v], rest)
      | String "," (String " " rest) => '(l, rest) ← read_items fuel rest; Some (v :: l, rest)
      | _ => None
      end
  end
with read_fields (fuel : nat) (s : string) : option (list (string * json) * string) :=
  match fuel with
  | O => None
  | S fuel =>
      match s with
      | String q s' =>
          if Ascii.eqb q quote then
            '(k, s'') ← read_chars s';
            match s'' with
            | String ":" (String " " s3) =>
                '(v, rest) ← read_json fuel s3;
                match rest with
                | String "}" rest => Some ([(k, v)], rest)
                | String "," (String " " rest) =>
                    '(l, rest) ← read_fields fuel rest; Some ((k, v) :: l, rest)
                | _ => None
                end
            | _ => None
            end
          else None
      | EmptyString => None
      end
  end.
Definition loads_json (s : string) : option json :=
  match read_json (S (String.length s)) s with
  | Some (v, EmptyString) => Some v
  | _ => None
  end.

Example loads_json_nested :
  let v := JObj [("a", JList [JInt (-3); JNull; JBool true]); ("b", JObj [("c", JStr "x")])] in
  loads_json (dumps_json v) = Some v.
Proof. vm_compute. reflexivity. Qed.

(** The nodes of a document. *)
Fixpoint nodes (v : json) : nat :=
  match v with
  | JList l => S ((fix go l := match l with [] => 0 | v :: l => S (nodes v + go l) end) l)
  | JObj l => S ((fix go (l : list (string * json)) :=
                    match l with [] => 0 | (_, v) :: l => S (nodes v + go l) end) l)
  | _ => 1
  end.
Fixpoint nodes_items (l : list json) : nat :=
  match l with [] => 0 | v :: l => S (nodes v + nodes_items l) end.
Fixpoint nodes_fields (l : list (string * json)) : nat :=
  match l with [] => 0 | (_, v) :: l => S (nodes v + nodes_fields l) end.
Lemma nodes_JList l : nodes (JList l) = S (nodes_items l).
Proof. reflexivity. Qed.
Lemma nodes_JObj l : nodes (JObj l) = S (nodes_fields l).
Proof. reflexivity. Qed.
Lemma write_JList l rest : write_json (JList l) rest = String "[" (write_items l rest).
Proof.
  cbn [write_json]. f_equal. induction l as [|v l IH]; [done|]. cbn [write_items].
  f_equal. destruct l; [done|]. do 2 f_equal. exact IH.
Qed.
Lemma write_JObj l rest : write_json (JObj l) rest = String "{" (write_fields l rest).
Proof.
  cbn [write_json]. f_equal. induction l as [|[k v] l IH]; [done|]. cbn [write_fields].
  do 4 f_equal. destruct l; [done|]. do 2 f_equal. exact IH.
Qed.

Lemma prefix_append w s : String.prefix w (w ++ s) = true.
Proof. induction w as [|c w IH]; [by destruct s|]. rewrite append_cons. cbn. by destruct (ascii_dec c c). Qed.

Lemma substring_append w s :
  String.substring (String.length w) (String.length (w ++ s) - String.length w) (w ++ s) = s.
Proof.
  rewrite length_append. replace (String.length w + String.length s - String.length w)%nat
    with (String.length s) by lia.
  induction w as [|c w IH]; [|rewrite append_cons; exact IH].
  rewrite append_nil_l. induction s as [|c s IH]; [done|]. cbn. by f_equal.
Qed.

Lemma read_word_append w v s : read_word w v (w ++ s) = Some (v, s).
Proof. unfold read_word. by rewrite prefix_append, substring_append. Qed.

(** An integer starts like none of the others. *)
Lemma pretty_head (z : Z) s :
  ∃ c s', pretty z ++ s = String c s' ∧ (is_digit c = true ∨ c = "-"%char).
Proof.
  destruct z as [|p|p]; [by eexists _, _; split; [|left]| |by eexists _, _; split; [|right]].
  change (pretty (Z.pos p)) with (pretty (N.pos p)).
  destruct (pretty_N_head (N.pos p) "") as (c & s' & E & Hc); [done|].
  exists c, (s' ++ s). change (pretty (N.pos p)) with (pretty_N_go (N.pos p) "").
  rewrite E. split; [done|by left].
Qed.

(** What [read_json] does at an integer. *)
Lemma read_json_int fuel z s :
  no_digit_first s → read_json (S fuel) (pretty z ++ s) = Some (JInt z, s).
Proof.
  intros Hs. pose proof (read_int_pretty z s Hs) as E.
  destruct (pretty_head z s) as (c & s' & Ec & Hc). rewrite Ec in *.
  cbn [read_json]. rewrite E.
  assert (∀ d, (is_digit d || Ascii.eqb d "-") = false → Ascii.eqb c d = false) as Hne.
  { intros d Hd. apply Ascii.eqb_neq. intros ->. apply orb_false_iff in Hd as [Hd Hm].
    destruct Hc as [Hc| ->]; [congruence|by rewrite Ascii.eqb_refl in Hm]. }
  by rewrite !Hne.
Qed.

(** The first character of a document, and of an item list or field list. *)
Definition not_close (s : string) : Prop :=
  match s with String c _ => c ≠ "]"%char | EmptyString => False end.
Lemma write_json_head v rest : not_close (write_json v rest).
Proof.
  destruct v as [|[]|z|s|l|l]; try done.
  cbn [write_json]. destruct (pretty_head z rest) as (c & s' & E & Hc). rewrite E. cbn.
  by destruct Hc as [Hc| ->]; [intros ->|].
Qed.

Lemma read_list_open fuel s :
  not_close s →
  read_json (S fuel) (String "[" s) = ('(l, rest) ← read_items fuel s; Some (JList l, rest)).
Proof.
  intros Hs. destruct s as [|c s]; [done|]. cbn in Hs.
  destruct c as [[] [] [] [] [] [] [] []]; try reflexivity. by destruct Hs.
Qed.

Lemma read_write fuel :
  (∀ v rest, (nodes v ≤ fuel)%nat → no_digit_first rest →
     read_json fuel (write_json v rest) = Some (v, rest)) ∧
  (∀ l rest, l ≠ [] → (nodes_items l ≤ fuel)%nat →
     read_items fuel (write_items l rest) = Some (l, rest)) ∧
  (∀ l rest, l ≠ [] → (nodes_fields l ≤ fuel)%nat →
     read_fields fuel (write_fields l rest) = Some (l, rest)).
Proof.
  induction fuel as [|fuel (IHv & IHl & IHf)].
  { split; [|split]; intros x; [destruct x; cbn; lia|by destruct x; cbn; try lia|].
    destruct x as [|[k v] x]; cbn; [done|lia]. }
  split; [|split].
  - intros v rest Hn Hr. destruct v as [|[]|z|s|l|l].
    + exact (read_word_append "null" JNull rest).
    + exact (read_word_append "true" (JBool true) rest).
    + exact (read_word_append "false" (JBool false) rest).
    + by apply read_json_int.
    + cbn [write_json]. unfold write_str. cbn [read_json]. by rewrite Ascii.eqb_refl, read_chars_write.
    + rewrite nodes_JList in Hn. rewrite write_JList. destruct l as [|v l]; [done|].
      rewrite read_list_open by apply write_json_head. rewrite IHl; [done|done|lia].
    + rewrite nodes_JObj in Hn. rewrite write_JObj. destruct l as [|[k v] l]; [done|].
      transitivity ('(l', rest') ← read_fields fuel (write_fields ((k, v) :: l) rest); Some (JObj l', rest'));
        [reflexivity|]. rewrite IHf; [done|done|lia].
  - intros l rest Hne Hn. destruct l as [|v l]; [done|]. cbn [nodes_items] in Hn.
    cbn [write_items read_items]. rewrite IHv; [|lia|by destruct l].
    destruct l as [|v' l]; [done|].
    transitivity ('(l', rest') ← read_items fuel (write_items (v' :: l) rest); Some (v :: l', rest'));
      [reflexivity|]. rewrite IHl; [done|done|lia].
  - intros l rest Hne Hn. destruct l as [|[k v] l]; [done|]. cbn [nodes_fields] in Hn.
    cbn [write_fields]. unfold write_str. cbn [read_fields].
    rewrite Ascii.eqb_refl, read_chars_write. cbn [mbind option_bind].
    rewrite IHv; [|lia|by destruct l]. destruct l as [|[k' v'] l]; [done|].
    transitivity ('(l', rest') ← read_fields fuel (write_fields ((k', v') :: l) rest);
      Some ((k, v) :: l', rest')); [reflexivity|]. rewrite IHf; [done|done|lia].
Qed.

(** Every node takes a character. *)
Lemma write_str_longer s t : (String.length t < String.length (write_str s t))%nat.
Proof.
  assert (∀ c t, String.length t < String.length (escape_char c t))%nat as Hc.
  { intros c u. unfold escape_char. split_matches; cbn; lia. }
  unfold write_str. cbn. induction s as [|c s IH]; cbn; [lia|]. specialize (Hc c (write_chars s t)). lia.
Qed.

Lemma write_longer n :
  (∀ v rest, (nodes v ≤ n)%nat → (nodes v + String.length rest ≤ String.length (write_json v rest))%nat) ∧
  (∀ l rest, (nodes_items l ≤ n)%nat →
     (nodes_items l + String.length rest ≤ String.length (write_items l rest))%nat) ∧
  (∀ l rest, (nodes_fields l ≤ n)%nat →
     (nodes_fields l + String.length rest ≤ String.length (write_fields l rest))%nat).
Proof.
  induction n as [|n (IHv & IHl & IHf)].
  { split; [|split]; intros x rest; [destruct x; cbn; lia|..].
    - destruct x; cbn; lia.
    - destruct x as [|[k v] x]; cbn; lia. }
  split; [|split].
  - intros v rest Hn. destruct v as [|[]|z|s|l|l].
    + cbn [write_json nodes]. rewrite length_append. cbn. lia.
    + cbn [write_json nodes]. rewrite length_append. cbn. lia.
    + cbn [write_json nodes]. rewrite length_append. cbn. lia.
    + cbn [write_json nodes]. destruct (pretty_head z "") as (c & s & E & _).
      rewrite append_nil_r in E. rewrite E, length_append. cbn. lia.
    + cbn [write_json nodes]. pose proof (write_str_longer s rest). lia.
    + rewrite nodes_JList in *. rewrite write_JList. specialize (IHl l rest ltac:(lia)). cbn. lia.
    + rewrite nodes_JObj in *. rewrite write_JObj. specialize (IHf l rest ltac:(lia)). cbn. lia.
  - intros l rest Hn. destruct l as [|v l]; cbn [nodes_items write_items] in *; [cbn; lia|].
    destruct l as [|v' l].
    + specialize (IHv v (String "]" rest) ltac:(lia)). cbn in *. lia.
    + specialize (IHl (v' :: l) rest ltac:(lia)).
      specialize (IHv v (String "," (String " " (write_items (v' :: l) rest))) ltac:(lia)).
      cbn [String.length] in *. lia.
  - intros l rest Hn. destruct l as [|[k v] l]; cbn [nodes_fields write_fields] in *; [cbn; lia|].
    match goal with |- (_ ≤ String.length (write_str k ?t))%nat => pose proof (write_str_longer k t) as Hk end.
    destruct l as [|[k' v'] l].
    + specialize (IHv v (String "}" rest) ltac:(lia)). cbn [String.length nodes_fields] in *. lia.
    + specialize (IHf ((k', v') :: l) rest ltac:(lia)).
      specialize (IHv v (String "," (String " " (write_fields ((k', v') :: l) rest))) ltac:(lia)).
      cbn [String.length] in *. lia.
Qed.

(** [json.loads(json.dumps(v))] is [v]. *)
Lemma loads_dumps_json v : loads_json (dumps_json v) = Some v.
Proof.
  unfold loads_json, dumps_json. destruct (write_longer (nodes v)) as [Hl _].
  specialize (Hl v "" ltac:(lia)). cbn [String.length] in Hl.
  destruct (read_write (S (String.length (write_json v "")))) as [Hr _].
  by rewrite Hr by (done || lia).
Qed.

Lemma dumps_json_truthy v : truthy (dumps_json v) = true.
Proof.
  unfold dumps_json. pose proof (write_json_head v "") as H. by destruct (write_json v "").
Qed.
