(* ===== verification/Schemas.v ===== *)
(** [app/api/schemas.py]: the request bodies of the authentication routes, with the
    validators pydantic runs before a handler is called. *)

From S2P Require Import Prelude Effects PyStr Uuid Models.
From Stdlib Require Import Ascii String.

Local Open Scope string_scope.

(** [$] in Python's [re] also matches before one newline at the end of the text: the
    text without that newline. *)
Fixpoint drop_final_newline (s : string) : string :=
  match s with
  | EmptyString => ""
  | String c EmptyString => if Ascii.eqb c "010" then "" else s
  | String c s' => String c (drop_final_newline s')
  end.

(** [_PHONE_RE = re.compile(r"^\+[1-9]\d{7,14}$")], matched with [match]. *)
Definition PHONE_RE (s : string) : bool :=
  match s with
  | String "+" (String d rest) =>
      let ds := drop_final_newline rest in
      is_digit d && negb (Ascii.eqb d "0") && str_all is_digit ds
      && (7 <=? String.length ds)%nat && (String.length ds <=? 14)%nat
  | _ => false
  end.

(** [_valid_phone], the same code in [RequestOtpIn] and [VerifyIn]; [None] is the
    [ValueError]. *)
Definition valid_phone (v : string) : option string :=
  let v := replace " " "" (strip v) in
  if PHONE_RE v then Some v else None.

Record RequestOtpIn := mk_RequestOtpIn { ro_phone_number : string }.

Definition validate_RequestOtpIn (phone_number : string) : option RequestOtpIn :=
  mk_RequestOtpIn <$> valid_phone phone_number.

Record VerifyIn := mk_VerifyIn {
  vi_phone_number : string;
  vi_otp_code : string;
  vi_military_id : string;
  vi_device_fingerprint : string
}.

(** [Field(min_length=a, max_length=b)] *)
Definition length_between (a b : nat) (s : string) : bool :=
  (a <=? String.length s)%nat && (String.length s <=? b)%nat.

(** The fields of [VerifyIn]; pydantic's patterns match [$] at the very end only. *)
Definition validate_VerifyIn (phone_number otp_code military_id device_fingerprint : string)
    : option VerifyIn :=
  phone_number ← valid_phone phone_number;
  if length_between 6 6 otp_code && str_all is_digit otp_code
     && length_between 4 40 military_id && length_between 16 128 device_fingerprint
  then Some (mk_VerifyIn phone_number otp_code military_id device_fingerprint)
  else None.

(** ** Facts *)

(** E.164: a plus sign, a digit that is not zero, and 7 to 14 more digits. *)
Definition e164 (s : string) : Prop :=
  ∃ d ds, s = String "+" (String d ds) ∧ is_digit d = true ∧ d ≠ "0"%char ∧
    str_all is_digit ds = true ∧ (7 ≤ String.length ds ≤ 14)%nat.

Fixpoint last_char (s : string) : option ascii :=
  match s with
  | EmptyString => None
  | String c EmptyString => Some c
  | String _ s' => last_char s'
  end.

Lemma drop_final_newline_id s : last_char s ≠ Some "010"%char → drop_final_newline s = s.
Proof.
  induction s as [|c s IH]; [done|]. intros H. cbn [drop_final_newline].
  destruct s as [|c' s'].
  - destruct (Ascii.eqb_spec c "010"); [by subst|done].
  - by rewrite IH.
Qed.

Lemma drop_final_newline_digits s :
  str_all is_digit s = true → drop_final_newline s = s.
Proof.
  induction s as [|c s IH]; [done|]. cbn [str_all drop_final_newline].
  intros [Hc Hs]%andb_true_iff. destruct s as [|c' s'].
  - by destruct (Ascii.eqb_spec c "010"); [subst|].
  - by rewrite IH.
Qed.

Lemma last_char_rstrip p s c : last_char (rstrip p s) = Some c → p c = false.
Proof.
  induction s as [|d s IH]; [done|]. cbn [rstrip].
  destruct (rstrip p s) as [|e t] eqn:E; [|exact IH].
  destruct (p d) eqn:Hd; cbn; [done|]. intros [= ->]. done.
Qed.

(** A filter keeps the last character when that character passes. *)
Lemma last_char_filter q s c :
  last_char s = Some c → q c = true → last_char (str_filter q s) = Some c.
Proof.
  intros Hs Hq. induction s as [|d s IH]; [done|]. cbn [str_filter].
  destruct s as [|e t].
  - cbn in Hs. injection Hs as ->. by rewrite Hq.
  - specialize (IH Hs). destruct (q d); [|done]. cbn [last_char].
    by destruct (str_filter q (String e t)).
Qed.

Lemma last_char_None s : last_char s = None → s = "".
Proof. induction s as [|c s IH]; [done|]. cbn. destruct s; [done|]. intros H. by apply IH in H. Qed.

(** A stripped text without its spaces does not end in a newline. *)
Lemma strip_no_final_newline v :
  last_char (replace " " "" (strip v)) ≠ Some "010"%char.
Proof.
  rewrite replace_char. set (q := λ c, negb (Ascii.eqb c " ")).
  destruct (last_char (strip v)) as [c|] eqn:E.
  - pose proof (last_char_rstrip _ _ _ E) as Hc.
    assert (q c = true) as Hq.
    { unfold q. apply negb_true_iff, Ascii.eqb_neq. intros ->. by vm_compute in Hc. }
    rewrite (last_char_filter _ _ _ E Hq). intros [= ->]. by vm_compute in Hc.
  - apply last_char_None in E. by rewrite E.
Qed.

Lemma PHONE_RE_e164 v :
  last_char v ≠ Some "010"%char → PHONE_RE v = true ↔ e164 v.
Proof.
  intros Hnl. unfold PHONE_RE, e164. split.
  - destruct v as [|[[] [] [] [] [] [] [] []] [|d rest]]; try done.
    rewrite drop_final_newline_id by (destruct rest; [done|exact Hnl]).
    intros H. reflect_bools. exists d, rest. split_and!; [done|done| |done|lia|lia].
    by apply Ascii.eqb_neq.
  - intros (d & ds & -> & Hd & H0 & Hds & Hlen).
    rewrite drop_final_newline_digits by done. rewrite Hd, Hds.
    rewrite (proj2 (Ascii.eqb_neq d "0") H0). cbn [negb andb].
    apply andb_true_iff; split; apply Nat.leb_le; lia.
Qed.

Lemma e164_clean s : e164 s →
  strip s = s ∧ replace " " "" s = s.
Proof.
  intros (d & ds & -> & Hd & _ & Hds & _).
  assert (∀ q : ascii → bool, q "+"%char = true → (∀ c, is_digit c = true → q c = true) →
    str_all q (String "+" (String d ds)) = true) as Hall.
  { intros q Hp Hq. cbn. rewrite Hp, (Hq d Hd). cbn. by apply (str_all_impl is_digit). }
  split.
  - apply strip_chars_id, Hall; [done|]. intros c. cbv beta zeta delta [is_digit is_space]. lia.
  - rewrite replace_char. apply str_filter_all, Hall; [done|].
    intros c Hc. apply negb_true_iff, Ascii.eqb_neq. intros ->. by vm_compute in Hc.
Qed.

(** Phone validation: a number is accepted exactly when what is left without
    surrounding spaces and inner blanks is E.164 - the newline that [$] lets through
    cannot occur -, the accepted form is that remainder, and it is canonical:
    validating it again returns it. So a phone has one form in the database, in the
    rate-limit keys and in the login lookup. *)
Theorem valid_phone_iff v p :
  (valid_phone v = Some p ↔ p = replace " " "" (strip v) ∧ e164 p) ∧
  (valid_phone v = Some p → valid_phone p = Some p).
Proof.
  assert (∀ v p, valid_phone v = Some p ↔ p = replace " " "" (strip v) ∧ e164 p) as Hiff.
  { clear. intros v p. unfold valid_phone.
    pose proof (PHONE_RE_e164 _ (strip_no_final_newline v)) as H.
    destruct (PHONE_RE _); naive_solver. }
  split; [apply Hiff|]. intros [_ Hp]%Hiff. apply Hiff.
  destruct (e164_clean p Hp) as [Hs Hr]. by rewrite Hs, Hr.
Qed.

Lemma valid_phone_iff_witness : valid_phone "+201001234567" = Some "+201001234567".
Proof.
  apply (proj2 (valid_phone_iff " +20 100 123 4567 " "+201001234567")). reflexivity.
Defined.
