(* ===== verification/World.v ===== *)
(** The state every handler works on, and the primitive effects over it: the
    clock, the Redis databases, the SQLAlchemy session, Pub/Sub, WebSockets,
    object storage and push notifications.

    A handler runs at one instant [w_now]: all its readings of the clock agree.
    Other handlers run between handlers, not inside one, except where a file says
    so. *)

From S2P Require Import Prelude Effects PyStr Uuid Redis Models.
From Stdlib Require Import String.
From Stdlib Require Export Strings.Byte.

Local Open Scope string_scope.

(** The tables, by primary key; the audit log is append-only and kept in order. *)
Record tables := mk_tables {
  users : gmap UUID User;
  user_sessions : gmap UUID UserSession;
  messages : gmap UUID Message;
  groups : gmap UUID Group;
  group_members : gmap UUID GroupMember;
  join_requests : gmap UUID GroupJoinRequest;
  broadcasts : gmap UUID Broadcast;
  broadcast_acks : gmap UUID BroadcastAck;
  audit_logs : list AuditLog
}.
#[export] Instance eta_tables : Eta tables := λ t,
  mk_tables (users t) (user_sessions t) (messages t) (groups t) (group_members t)
    (join_requests t) (broadcasts t) (broadcast_acks t) (audit_logs t).

(** A push notification handed to Firebase: device tokens, title, body, data. *)
Record push := mk_push {
  p_tokens : list string;
  p_title : string;
  p_body : string;
  p_data : list (string * string)
}.

Record world := mk_world {
  w_now : timestamp;
  w_pubsub : redis;                        (* REDIS_DB_PUBSUB = 0 *)
  w_otp : redis;                           (* REDIS_DB_OTP = 1 *)
  w_sessions : redis;                      (* REDIS_DB_SESSIONS = 2 *)
  w_tables : tables;                       (* as the open session sees them *)
  w_committed : tables;                    (* as of the last COMMIT *)
  w_outbox : list (string * json);         (* PUBLISH channel payload, in order *)
  w_local : gmap string UUID;              (* this replica's sockets, by connection id *)
  w_sent : list (string * json);           (* frames sent to a socket, in order *)
  w_objects : gmap (string * string) (list byte);  (* MinIO: bucket, key *)
  w_pushes : list push                     (* in order *)
}.
#[export] Instance eta_world : Eta world := λ w,
  mk_world (w_now w) (w_pubsub w) (w_otp w) (w_sessions w) (w_tables w) (w_committed w)
    (w_outbox w) (w_local w) (w_sent w) (w_objects w) (w_pushes w).

(** Run a computation over a part of the state. *)
Definition zoom {S T A} (part : S → T) (put_part : T → S → S) (m : prog T A) : prog S A :=
  λ s, let '(r, t) := m (part s) in (r, put_part t s).

(** [datetime.now(timezone.utc)] *)
Definition utcnow : prog world timestamp := gets w_now.

(** [.date()] of a timestamp. *)
Definition day : Z := 86400 * second.
Definition date_of (t : timestamp) : date := (t / day)%Z.

(** [timedelta(seconds=s)], [timedelta(minutes=m)], [timedelta(days=d)] *)
Definition seconds (s : Z) : Z := s * second.
Definition minutes (m : Z) : Z := m * 60 * second.
Definition days (d : Z) : Z := d * day.

(** [redis_otp], [redis_sessions] and [redis_pubsub]: three logical databases. *)
Definition redis_otp {A} (m : prog rstate A) : prog world A :=
  zoom (λ w, mk_rstate (w_now w) (w_otp w)) (λ r w, w <| w_otp := rs_db r |>) m.
Definition redis_sessions {A} (m : prog rstate A) : prog world A :=
  zoom (λ w, mk_rstate (w_now w) (w_sessions w)) (λ r w, w <| w_sessions := rs_db r |>) m.
Definition redis_pubsub {A} (m : prog rstate A) : prog world A :=
  zoom (λ w, mk_rstate (w_now w) (w_pubsub w)) (λ r w, w <| w_pubsub := rs_db r |>) m.

(** ** The database session *)

(** A query: [await db.scalar(...)], [db.scalars(...).all()]. *)
Definition query {A} (f : tables → A) : prog world A := gets (λ w, f (w_tables w)).

(** A change to mapped objects; flushed by [commit]. *)
Definition db_change (f : tables → tables) : prog world unit :=
  modify (λ w, w <| w_tables ::= f |>).

(** [await db.commit()] and [await db.rollback()]. *)
Definition commit : prog world unit :=
  modify (λ w, w <| w_committed := w_tables w |>).
Definition rollback : prog world unit :=
  modify (λ w, w <| w_tables := w_committed w |>).

(** [get_db]: the handler's session commits when it returns and rolls back when it
    raises. *)
Definition get_db {A} (handler : prog world A) : prog world A :=
  rollback ;;
  try_except (r ← handler; commit ;; mret r) (λ e, rollback ;; raise e).

(** [async with AsyncSessionLocal() as db]: closing drops what was not committed. *)
Definition session_local {A} (body : prog world A) : prog world A :=
  rollback ;; try_finally body rollback.

(** [db.add(AuditLog(...))] *)
Definition add_audit (a : AuditLog) : prog world unit :=
  db_change (λ t, t <| audit_logs ::= λ l, (l ++ [a])%list |>).

(** The rows of a table, and a [SELECT] with a [WHERE] clause. Without [ORDER BY]
    PostgreSQL fixes no order; the model's is that of the map. *)
Definition rows `{Countable K} {A} (t : gmap K A) : list A := (map_to_list t).*2.
Definition select `{Countable K} {A} (t : gmap K A) (where_ : A → bool) : list A :=
  List.filter where_ (rows t).
Definition scalar `{Countable K} {A} (t : gmap K A) (where_ : A → bool) : option A :=
  head (select t where_).

(** [ORDER BY key DESC] and [ORDER BY key] *)
Definition desc {A} (key : A → Z) (x y : A) : Prop := (key y ≤ key x)%Z.
Definition asc {A} (key : A → Z) (x y : A) : Prop := (key x ≤ key y)%Z.
#[export] Instance desc_dec {A} (key : A → Z) : RelDecision (desc key).
Proof. unfold desc. intros x y. apply _. Defined.
#[export] Instance asc_dec {A} (key : A → Z) : RelDecision (asc key).
Proof. unfold asc. intros x y. apply _. Defined.
Definition order_by_desc {A} (key : A → Z) (l : list A) : list A := merge_sort (desc key) l.
Definition order_by {A} (key : A → Z) (l : list A) : list A := merge_sort (asc key) l.

(** ** Other effects *)

(** [PUBLISH channel json] *)
Definition redis_publish (channel : string) (payload : json) : prog world unit :=
  modify (λ w, w <| w_outbox ::= λ l, (l ++ [(channel, payload)])%list |>).

(** [await websocket.send_json(frame)] *)
Definition send_json (connection_id : string) (frame : json) : prog world unit :=
  modify (λ w, w <| w_sent ::= λ l, (l ++ [(connection_id, frame)])%list |>).

(** [messaging.send(...)] *)
Definition fcm_send (p : push) : prog world unit :=
  modify (λ w, w <| w_pushes ::= λ l, (l ++ [p])%list |>).

(** Let time pass. *)
Definition elapse (d : Z) (w : world) : world := w <| w_now ::= λ t, (t + d)%Z |>.

(** Nothing stored yet, at instant [now]. *)
Definition empty_tables : tables := mk_tables ∅ ∅ ∅ ∅ ∅ ∅ ∅ ∅ [].
Definition empty_world (now : timestamp) : world :=
  mk_world now ∅ ∅ ∅ empty_tables empty_tables [] ∅ [] ∅ [].

(** ** Facts *)

Ltac world_run :=
  unfold redis_otp, redis_sessions, redis_pubsub, zoom, utcnow, query, db_change, commit,
    rollback, get_db, session_local, add_audit, redis_publish, send_json, fcm_send;
  run.

(** What the primitives do to the world. *)
Lemma query_inv {A} (f : tables → A) w a w' :
  query f w = (Ok a, w') → a = f (w_tables w) ∧ w' = w.
Proof. by intros [= <- <-]. Qed.
Lemma utcnow_inv w t w' : utcnow w = (Ok t, w') → t = w_now w ∧ w' = w.
Proof. by intros [= <- <-]. Qed.
Lemma db_change_inv f w u w' :
  db_change f w = (Ok u, w') → w' = w <| w_tables ::= f |>.
Proof. by intros [= _ <-]. Qed.
Lemma add_audit_inv a w u w' :
  add_audit a w = (Ok u, w') → w' = w <| w_tables ::= over audit_logs (λ l, l ++ [a])%list |>.
Proof. by intros [= _ <-]. Qed.
Lemma commit_inv w u w' :
  commit w = (Ok u, w') → w' = w <| w_committed := w_tables w |>.
Proof. by intros [= _ <-]. Qed.

(** One statement of a handler, run. *)
Section Steps.
Context {B : Type}.
Implicit Types w : world.
Lemma query_step {A} (f : tables → A) (k : A → prog world B) w :
  (query f ≫= k) w = k (f (w_tables w)) w.
Proof. done. Qed.
Lemma utcnow_step (k : timestamp → prog world B) w : (utcnow ≫= k) w = k (w_now w) w.
Proof. done. Qed.
Lemma db_change_step f (k : unit → prog world B) w :
  (db_change f ≫= k) w = k tt (w <| w_tables ::= f |>).
Proof. done. Qed.
Lemma add_audit_step a (k : unit → prog world B) w :
  (add_audit a ≫= k) w = k tt (w <| w_tables ::= over audit_logs (λ l, l ++ [a])%list |>).
Proof. done. Qed.
Lemma commit_step (k : unit → prog world B) w :
  (commit ≫= k) w = k tt (w <| w_committed := w_tables w |>).
Proof. done. Qed.
Lemma send_json_step c f (k : unit → prog world B) w :
  (send_json c f ≫= k) w = k tt (w <| w_sent ::= λ l, (l ++ [(c, f)])%list |>).
Proof. done. Qed.
Lemma redis_publish_step c f (k : unit → prog world B) w :
  (redis_publish c f ≫= k) w = k tt (w <| w_outbox ::= λ l, (l ++ [(c, f)])%list |>).
Proof. done. Qed.
End Steps.

Ltac wstep :=
  repeat first
    [ rewrite query_step | rewrite utcnow_step | rewrite db_change_step
    | rewrite add_audit_step | rewrite commit_step | rewrite send_json_step
    | rewrite redis_publish_step | rewrite mret_step | rewrite raise_step
    | rewrite step_assoc | rewrite some_step | rewrite none_step | rewrite ensure_true_step
    | rewrite ensure_false_step ].

(** A Redis command leaves the rest of the world alone. *)
Lemma redis_otp_inv {A} (m : prog rstate A) w r w' :
  redis_otp m w = (r, w') →
  ∃ s', m (mk_rstate (w_now w) (w_otp w)) = (r, s') ∧ w' = w <| w_otp := rs_db s' |>.
Proof. unfold redis_otp, zoom. destruct (m _) as [r' s']. intros [= <- <-]. eauto. Qed.
Lemma redis_sessions_inv {A} (m : prog rstate A) w r w' :
  redis_sessions m w = (r, w') →
  ∃ s', m (mk_rstate (w_now w) (w_sessions w)) = (r, s') ∧ w' = w <| w_sessions := rs_db s' |>.
Proof. unfold redis_sessions, zoom. destruct (m _) as [r' s']. intros [= <- <-]. eauto. Qed.

(** A session: the body runs on the committed tables; what it does not commit is lost. *)
Lemma session_local_run {A} (body : prog world A) w r w1 :
  body (w <| w_tables := w_committed w |>) = (r, w1) →
  session_local body w = (r, w1 <| w_tables := w_committed w1 |>).
Proof.
  intros Hb. unfold session_local. rewrite (step_ok _ _ w tt (w <| w_tables := w_committed w |>)) by done.
  unfold try_finally. by rewrite Hb.
Qed.

(** Invert a successful handler: the monad's statements, then the world's. *)
Ltac invert_world :=
  repeat match goal with
  | H : query _ _ = (Ok _, _) |- _ =>
      apply query_inv in H as [H ->];
      try (lazymatch type of H with ?a = _ => is_var a; subst a end)
  | H : utcnow _ = (Ok _, _) |- _ => apply utcnow_inv in H as [-> ->]
  | H : db_change _ _ = (Ok _, _) |- _ => apply db_change_inv in H as ->
  | H : add_audit _ _ = (Ok _, _) |- _ => apply add_audit_inv in H as ->
  | H : commit _ = (Ok _, _) |- _ => apply commit_inv in H as ->
  end.

Section Select.
Context {K : Type} {eqK : EqDecision K} {cK : Countable K} {A : Type}.
Implicit Types (t : gmap K A) (p : A → bool).

Lemma elem_of_rows t x : x ∈ rows t ↔ ∃ k, t !! k = Some x.
Proof.
  unfold rows. rewrite list_elem_of_fmap. split.
  - intros ([k y] & -> & H). exists k. by apply elem_of_map_to_list.
  - intros [k H]. exists (k, x). split; [done|]. by apply elem_of_map_to_list.
Qed.

Lemma elem_of_select t p x : x ∈ select t p ↔ p x = true ∧ ∃ k, t !! k = Some x.
Proof.
  unfold select. rewrite list_elem_of_In, filter_In, <- list_elem_of_In, elem_of_rows.
  tauto.
Qed.

Lemma scalar_Some t p x : scalar t p = Some x → p x = true ∧ ∃ k, t !! k = Some x.
Proof. unfold scalar. intros H. apply elem_of_select.
  destruct (select t p); [done|]. cbn in H. simplify_eq. set_solver. Qed.

Lemma scalar_None t p : scalar t p = None ↔ ∀ k x, t !! k = Some x → p x = false.
Proof.
  unfold scalar. split.
  - intros H k x Hx. destruct (p x) eqn:E; [|done].
    assert (x ∈ select t p) as Hin by (apply elem_of_select; eauto).
    destruct (select t p); [set_solver|done].
  - intros H. destruct (select t p) as [|x l] eqn:E; [done|].
    assert (x ∈ select t p) as [Hp [k Hk]]%elem_of_select by (rewrite E; set_solver).
    rewrite (H k x Hk) in Hp. done.
Qed.

(** The row a [WHERE] clause singles out. *)
Lemma scalar_unique t p k x :
  t !! k = Some x → p x = true → (∀ k' y, t !! k' = Some y → p y = true → y = x) →
  scalar t p = Some x.
Proof.
  intros Hk Hp Hu. destruct (scalar t p) as [y|] eqn:E.
  - apply scalar_Some in E as [Hy [k' Hk']]. f_equal. eauto.
  - rewrite scalar_None in E. by rewrite (E _ _ Hk) in Hp.
Qed.

(** At most one row satisfies the clause: a unique index. *)
Definition unique_by t p : Prop :=
  ∀ k k' x y, t !! k = Some x → t !! k' = Some y → p x = true → p y = true → k = k'.

Lemma scalar_by t p k x : unique_by t p → t !! k = Some x → p x = true → scalar t p = Some x.
Proof.
  intros Hu Hk Hp. apply (scalar_unique _ _ k); [done..|]. intros k' y Hk' Hy.
  rewrite (Hu k' k y x) in Hk' by done. congruence.
Qed.

(** A row added, or changed without leaving the clause. *)
Lemma scalar_insert t p k x :
  unique_by (<[k := x]> t) p → (∀ x0, t !! k = Some x0 → p x0 = true → p x = true) →
  scalar (<[k := x]> t) p = if p x then Some x else scalar t p.
Proof.
  intros Hu Hx. destruct (p x) eqn:Hp.
  - apply (scalar_by _ _ k); [done|by rewrite lookup_insert_eq|done].
  - destruct (scalar t p) as [y|] eqn:E.
    + apply scalar_Some in E as [Hy [k' Hk']]. assert (k ≠ k') by (intros ->; naive_solver congruence).
      apply (scalar_by _ _ k'); [done|by rewrite lookup_insert_ne|done].
    + rewrite scalar_None in E |- *. intros k' y. destruct (decide (k = k')) as [<-|].
      * rewrite lookup_insert_eq. by intros [= <-].
      * rewrite lookup_insert_ne by done. apply E.
Qed.

(** The row depends on those that satisfy the clause only. *)
Lemma scalar_same t t' p :
  unique_by t p → (∀ k x, p x = true → t' !! k = Some x ↔ t !! k = Some x) →
  scalar t' p = scalar t p.
Proof.
  intros Hu He. destruct (scalar t p) as [x|] eqn:E.
  - apply scalar_Some in E as [Hp [k Hk]]. apply (scalar_by _ _ k); [|by apply He|done].
    intros k1 k2 y z Hy Hz Hpy Hpz. apply He in Hy, Hz; [|done..]. by apply (Hu k1 k2 y z).
  - rewrite scalar_None in E |- *. intros k x Hk. apply not_true_iff_false. intros Hp.
    apply He in Hk; [|done]. by rewrite (E k x Hk) in Hp.
Qed.

Lemma unique_by_insert t p k x :
  unique_by t p → (p x = true → ∀ k' y, t !! k' = Some y → p y = true → k' = k) →
  unique_by (<[k := x]> t) p.
Proof.
  intros Hu Hx k1 k2 y z. destruct (decide (k = k1)) as [<-|], (decide (k = k2)) as [<-|];
    rewrite ?lookup_insert_eq, ?lookup_insert_ne by done; try done.
  - intros [= <-] Hz Hp Hp'. symmetry. by apply (Hx Hp k2 z).
  - intros Hy [= <-] Hp Hp'. by apply (Hx Hp' k1 y).
  - apply Hu.
Qed.

Lemma NoDup_fmap_sublist {T B} (f : T → B) l l' :
  l `sublist_of` l' → NoDup (f <$> l') → NoDup (f <$> l).
Proof.
  intros Hs. induction Hs as [|x l l' Hs IH|x l l' Hs IH]; cbn [fmap list_fmap]; [done| |].
  - intros [Hx Hl]%NoDup_cons. apply NoDup_cons. split; [|by apply IH].
    intros (y & Hy & Hin)%list_elem_of_fmap. apply Hx, list_elem_of_fmap. exists y.
    split; [done|]. by eapply sublist_subseteq.
  - intros [_ Hl]%NoDup_cons. by apply IH.
Qed.

Lemma sublist_List_filter p l : List.filter p l `sublist_of` l.
Proof.
  induction l as [|x l IH]; cbn; [done|]. by destruct (p x); constructor.
Qed.

(** Rows stored under a key of theirs are selected once. *)
Lemma NoDup_select t p (key : A → K) :
  (∀ k x, t !! k = Some x → key x = k) → NoDup (key <$> select t p).
Proof.
  intros Hkey. apply (NoDup_fmap_sublist _ _ (rows t)); [apply sublist_List_filter|].
  unfold rows.
  rewrite <- list_fmap_compose.
  rewrite (list_fmap_ext _ fst); [apply NoDup_fst_map_to_list|].
  intros i [k x] Hi. apply Hkey. apply elem_of_map_to_list.
  by eapply list_elem_of_lookup_2.
Qed.

Lemma length_select t p :
  List.length (select t p) = size (filter (λ kv, p kv.2 = true) t).
Proof.
  rewrite <- length_map_to_list, map_filter_alt, map_to_list_to_map.
  - unfold select, rows. induction (map_to_list t) as [|[k x] l IH]; [done|].
    cbn [fmap list_fmap List.filter snd]. rewrite filter_cons. cbn [snd].
    destruct (p x); [rewrite decide_True by done|by rewrite decide_False by done].
    cbn [List.length]. by rewrite IH.
  - apply (NoDup_fmap_sublist fst _ (map_to_list t));
      [apply sublist_filter|apply NoDup_fst_map_to_list].
Qed.
Lemma order_by_desc_perm (key : A → Z) l : order_by_desc key l ≡ₚ l.
Proof. apply merge_sort_Permutation. Qed.

#[global] Instance desc_total (key : A → Z) : Total (desc key).
Proof. unfold desc. intros x y. lia. Qed.
#[global] Instance desc_trans (key : A → Z) : Transitive (desc key).
Proof. unfold desc. intros x y z. lia. Qed.

Lemma order_by_desc_sorted (key : A → Z) l : StronglySorted (desc key) (order_by_desc key l).
Proof. apply (StronglySorted_merge_sort (desc key)). Qed.

Lemma select_ext_in t p q :
  (∀ k x, t !! k = Some x → p x = q x) → select t p = select t q.
Proof.
  intros H. apply filter_ext_in. intros x [k Hk]%list_elem_of_In%elem_of_rows. by apply (H k).
Qed.

Lemma select_ext t p q : (∀ x, p x = q x) → select t p = select t q.
Proof. intros H. by apply select_ext_in. Qed.

(** A row added under a fresh key. *)
Lemma select_insert t p k x :
  t !! k = None →
  select (<[k := x]> t) p ≡ₚ if p x then x :: select t p else select t p.
Proof.
  intros Hk. transitivity (List.filter p (x :: rows t)); [|cbn; by destruct (p x)].
  apply filter_perm. unfold rows. by rewrite map_to_list_insert.
Qed.

Lemma select_delete t p k x :
  t !! k = Some x →
  select t p ≡ₚ if p x then x :: select (delete k t) p else select (delete k t) p.
Proof.
  intros Hk. rewrite <- (insert_delete_id t k x Hk) at 1. apply select_insert, lookup_delete_eq.
Qed.

Lemma select_nil t p k x : select t p = [] → t !! k = Some x → p x = false.
Proof.
  intros E Hk. apply not_true_iff_false. intros Hp.
  assert (x ∈ select t p) as Hin by (apply elem_of_select; eauto).
  rewrite E in Hin. by apply not_elem_of_nil in Hin.
Qed.

Lemma select_empty t p : (∀ k x, t !! k = Some x → p x = false) → select t p = [].
Proof. intros Hp. apply filter_nil_iff. intros x [k Hk]%elem_of_rows. by apply (Hp k). Qed.

Lemma scalar_false t p k x : scalar t p = None → t !! k = Some x → p x = true → False.
Proof. intros E Hk Hp. rewrite scalar_None in E. by rewrite (E k x Hk) in Hp. Qed.

Lemma select_and t p q : select t (λ x, p x && q x) = List.filter q (select t p).
Proof.
  unfold select. induction (rows t) as [|x l IH]; [done|]. cbn.
  destruct (p x); cbn; [destruct (q x)|]; by rewrite IH.
Qed.
End Select.
