(* ===== verification/Pubsub.v ===== *)
(** The publishing half of [app/api/routes/websocket.py]: channel names, [publish],
    and the text form of a timestamp in a payload. *)

From S2P Require Import Prelude Effects PyStr Uuid Redis Models World.
From stdpp Require Import pretty.
From Stdlib Require Import String.

Local Open Scope string_scope.

(** ** [datetime.isoformat()] *)

(** A number on at least [w] digits. *)
Fixpoint zeros (n : nat) : string :=
  match n with O => "" | S n => "0" ++ zeros n end.
Definition pad (w : nat) (z : Z) : string :=
  let s := pretty z in zeros (w - String.length s) ++ s.

(** The civil date of a day number (days since 1970-01-01, proleptic Gregorian):
    years are counted from March, in eras of 400 years. *)
Definition civil (d : date) : Z * Z * Z :=
  let z := (d + 719468)%Z in
  let era := (z / 146097)%Z in
  let doe := (z mod 146097)%Z in
  let yoe := ((doe - doe / 1460 + doe / 36524 - doe / 146096) / 365)%Z in
  let doy := (doe - (365 * yoe + yoe / 4 - yoe / 100))%Z in
  let mp := ((5 * doy + 2) / 153)%Z in
  let m := if (mp <? 10)%Z then (mp + 3)%Z else (mp - 9)%Z in
  let y := (yoe + era * 400 + (if (m <=? 2)%Z then 1 else 0))%Z in
  (y, m, (doy - (153 * mp + 2) / 5 + 1)%Z).

(** Microseconds are written when they are not zero. *)
Definition isoformat (t : timestamp) : string :=
  let '(y, m, d) := civil (date_of t) in
  let us := (t mod day)%Z in
  let s := (us / second)%Z in
  let frac := (us mod second)%Z in
  pad 4 y ++ "-" ++ pad 2 m ++ "-" ++ pad 2 d ++ "T"
  ++ pad 2 (s / 3600)%Z ++ ":" ++ pad 2 (s / 60 mod 60)%Z ++ ":" ++ pad 2 (s mod 60)%Z
  ++ (if (frac =? 0)%Z then "" else "." ++ pad 6 frac) ++ "+00:00".

Example isoformat_epoch : isoformat 0 = "1970-01-01T00:00:00+00:00".
Proof. reflexivity. Qed.
Example isoformat_leap : isoformat 1709210096000123 = "2024-02-29T12:34:56.000123+00:00".
Proof. reflexivity. Qed.

(** ** Channels *)

Definition BROADCAST_CHANNEL : string := "chan:broadcast".
Definition user_channel (user_id : UUID) : string := "chan:user:" ++ uuid_str user_id.

Definition publish (user_id : UUID) (payload : json) : prog world unit :=
  redis_publish (user_channel user_id) payload.
Definition publish_broadcast (payload : json) : prog world unit :=
  redis_publish BROADCAST_CHANNEL payload.

(** Distinct users have distinct channels, and none is the broadcast channel: a frame
    published to a user reaches that user's devices only. *)
Lemma user_channel_inj u v : user_channel u = user_channel v → u = v.
Proof. intros H%(append_inj_l "chan:user:"). by apply uuid_str_inj. Qed.

Lemma user_channel_not_broadcast u : user_channel u ≠ BROADCAST_CHANNEL.
Proof. by intros [=]. Qed.
