(* ===== verification/Config.v ===== *)
(** [app/config.py]: the settings, their validators and the connection URLs, and
    the per-database pool URLs of [app/core/redis.py]. *)

From S2P Require Import Prelude Effects PyStr.
From stdpp Require Import pretty.
From Stdlib Require Import String.

Local Open Scope string_scope.

(** The fields of [Settings] that code reads. *)
Record Settings := mk_Settings {
  APP_NAME : string;
  ENV : string;
  DEBUG : bool;
  API_PREFIX : string;
  ALLOWED_ORIGINS : list string;
  SECRET_KEY : string;
  ACCESS_TOKEN_EXPIRE_MINUTES : Z;
  REFRESH_TOKEN_EXPIRE_DAYS : Z;
  TOKEN_ALGORITHM : string;
  POSTGRES_USER : string;
  POSTGRES_PASSWORD : string;
  POSTGRES_HOST : string;
  POSTGRES_PORT : Z;
  POSTGRES_DB : string;
  REDIS_HOST : string;
  REDIS_PORT : Z;
  REDIS_PASSWORD : string;
  REDIS_DB : Z;
  REDIS_DB_PUBSUB : Z;
  REDIS_DB_OTP : Z;
  REDIS_DB_SESSIONS : Z;
  OTP_TTL_SECONDS : Z;
  OTP_MAX_ATTEMPTS : Z;
  MINIO_ROOT_PASSWORD : string;
  MINIO_BUCKET_AVATARS : string;
  MINIO_BUCKET_ATTACHMENTS : string;
  MINIO_PRESIGN_EXPIRY_SECONDS : Z;
  DB_ENCRYPTION_KEY : string;
  FIREBASE_CREDENTIALS_FILE : string
}.
#[export] Instance eta_Settings : Eta Settings := λ s,
  mk_Settings (APP_NAME s) (ENV s) (DEBUG s) (API_PREFIX s) (ALLOWED_ORIGINS s) (SECRET_KEY s) (ACCESS_TOKEN_EXPIRE_MINUTES s)
    (REFRESH_TOKEN_EXPIRE_DAYS s) (TOKEN_ALGORITHM s) (POSTGRES_USER s)
    (POSTGRES_PASSWORD s) (POSTGRES_HOST s) (POSTGRES_PORT s) (POSTGRES_DB s)
    (REDIS_HOST s) (REDIS_PORT s) (REDIS_PASSWORD s) (REDIS_DB s) (REDIS_DB_PUBSUB s)
    (REDIS_DB_OTP s) (REDIS_DB_SESSIONS s) (OTP_TTL_SECONDS s) (OTP_MAX_ATTEMPTS s)
    (MINIO_ROOT_PASSWORD s) (MINIO_BUCKET_AVATARS s) (MINIO_BUCKET_ATTACHMENTS s)
    (MINIO_PRESIGN_EXPIRY_SECONDS s) (DB_ENCRYPTION_KEY s) (FIREBASE_CREDENTIALS_FILE s).

(** The field defaults. *)
Definition default_settings : Settings := {|
  APP_NAME := "IronLink";
  ENV := "development";
  DEBUG := false;
  API_PREFIX := "/api/v1";
  ALLOWED_ORIGINS := [];
  SECRET_KEY := "";
  ACCESS_TOKEN_EXPIRE_MINUTES := 60;
  REFRESH_TOKEN_EXPIRE_DAYS := 7;
  TOKEN_ALGORITHM := "HS256";
  POSTGRES_USER := "ironlink_user";
  POSTGRES_PASSWORD := "";
  POSTGRES_HOST := "db";
  POSTGRES_PORT := 5432;
  POSTGRES_DB := "ironlink";
  REDIS_HOST := "redis";
  REDIS_PORT := 6379;
  REDIS_PASSWORD := "";
  REDIS_DB := 0;
  REDIS_DB_PUBSUB := 0;
  REDIS_DB_OTP := 1;
  REDIS_DB_SESSIONS := 2;
  OTP_TTL_SECONDS := 300;
  OTP_MAX_ATTEMPTS := 5;
  MINIO_ROOT_PASSWORD := "";
  MINIO_BUCKET_AVATARS := "avatars";
  MINIO_BUCKET_ATTACHMENTS := "attachments";
  MINIO_PRESIGN_EXPIRY_SECONDS := 900;
  DB_ENCRYPTION_KEY := "";
  FIREBASE_CREDENTIALS_FILE := ""
|}.

(** The validators: [None] when the field is accepted. *)
Definition require_pg_password (v : string) : option exn :=
  if truthy v then None
  else Some (ValueError "POSTGRES_PASSWORD must be set in the environment").
Definition require_minio_password (v : string) : option exn :=
  if truthy v then None
  else Some (ValueError "MINIO_ROOT_PASSWORD must be set in the environment").
Definition require_encryption_key (v : string) : option exn :=
  if negb (truthy v)
  then Some (ValueError "DB_ENCRYPTION_KEY must be set — used for column-level encryption")
  else if decide (String.length v < 32)%nat
  then Some (ValueError "DB_ENCRYPTION_KEY must be at least 32 characters")
  else None.

(** [Literal["development", "staging", "production"]] *)
Definition env_ok (v : string) : option exn :=
  if decide (v ∈ ["development"; "staging"; "production"]) then None
  else Some (ValueError "ENV").

(** [Settings()]: every validator runs, on defaults too; any error aborts startup. *)
Definition load_settings (s : Settings) : option Settings :=
  match env_ok (ENV s), require_pg_password (POSTGRES_PASSWORD s),
        require_minio_password (MINIO_ROOT_PASSWORD s),
        require_encryption_key (DB_ENCRYPTION_KEY s) with
  | None, None, None, None => Some s
  | _, _, _, _ => None
  end.

(** [database_url], [sync_database_url] and [redis_url]. *)
Definition dsn (driver : string) (s : Settings) : string :=
  "postgresql+" ++ driver ++ "://" ++ POSTGRES_USER s ++ ":" ++ POSTGRES_PASSWORD s
  ++ "@" ++ POSTGRES_HOST s ++ ":" ++ pretty (POSTGRES_PORT s) ++ "/" ++ POSTGRES_DB s.
Definition database_url : Settings → string := dsn "asyncpg".
Definition sync_database_url : Settings → string := dsn "psycopg2".

Definition redis_authority (s : Settings) : string :=
  let auth := if truthy (REDIS_PASSWORD s) then ":" ++ REDIS_PASSWORD s ++ "@" else "" in
  "redis://" ++ auth ++ REDIS_HOST s ++ ":" ++ pretty (REDIS_PORT s).
Definition redis_url (s : Settings) : string :=
  redis_authority s ++ "/" ++ pretty (REDIS_DB s).

(** [_make_pool(db)] of [app/core/redis.py]: the URL the pool connects to. *)
Definition make_pool (s : Settings) (db : Z) : string :=
  replace ("/" ++ pretty (REDIS_DB s)) ("/" ++ pretty db) (redis_url s).

(** The pools' URLs are made by replacing every [/0] of [redis_url], in the host too. *)
Lemma make_pool_mangles_host :
  make_pool (default_settings <| REDIS_HOST := "0.0.0.0" |>) 1 = "redis://1.0.0.0:6379/1".
Proof. vm_compute. reflexivity. Qed.
