(* ===== verification/Startup.v ===== *)
(** [app/main.py]: what the application does when it starts and stops, its documentation URLs and
    middleware. ([backend/app/main.py] is the same file with two more routers.)

    FastAPI calls [lifespan]; what runs between its halves is serving. Starlette's middleware is
    the function of the host it documents. *)

From S2P Require Import Prelude Effects PyStr Config.
From Stdlib Require Import Ascii String.

Local Open Scope string_scope.

(** ** The life of the application *)

Record app := mk_app {
  worker_running : bool;       (* the self-destruct worker *)
  listener_running : bool;     (* the OCR alert listener *)
  redis_open : bool;
  served : nat                 (* requests *)
}.
#[export] Instance eta_app : Eta app :=
  λ a, mk_app (worker_running a) (listener_running a) (redis_open a) (served a).
Definition stopped : app := mk_app false false true 0.

(** Whether [main.py] imports [asyncio], which it uses; it does not. *)
Class Startup := { asyncio_imported : bool }.

Section Lifespan.
Context `{Startup}.

(** [SelfDestructWorker.start] and [stop] *)
Definition start : prog app unit := modify (λ a, a <| worker_running := true |>).
Definition stop : prog app unit := modify (λ a, a <| worker_running := false |>).
(** [close_redis] *)
Definition close_redis : prog app unit := modify (λ a, a <| redis_open := false |>).

(** [lifespan], around what is done at its [yield]. *)
Definition lifespan (serving : prog app unit) : prog app unit :=
  start ;;
  ensure asyncio_imported (NameError "asyncio") ;;
  modify (λ a, a <| listener_running := true |>) ;;
  serving ;;
  stop ;;
  close_redis.

(** Serving: so many requests. *)
Definition serve (n : nat) : prog app unit := modify (λ a, a <| served ::= λ k, (k + n)%nat |>).
End Lifespan.

(** ** URLs and middleware *)

Section Settings.
Context (settings : Settings).

Definition docs_url : option string := if DEBUG settings then Some "/api/docs" else None.
Definition redoc_url : option string := if DEBUG settings then Some "/api/redoc" else None.
Definition openapi_url : option string := if DEBUG settings then Some "/api/openapi.json" else None.
(** [TrustedHostMiddleware(allowed_hosts=...)], in production. *)
Definition allowed_hosts : option (list string) :=
  if String.eqb (ENV settings) "production" then Some (ALLOWED_ORIGINS settings) else None.
Definition health_check : list (string * string) := [("status", "ok"); ("env", ENV settings)].
End Settings.

(** Starlette: the text of the [Host] header before a colon has to be one of the allowed hosts, or
    end in one that starts with [*], or one of them is [*] alone. *)
Definition host_of (header : string) : string :=
  (fix go s := match s with
               | EmptyString => ""
               | String c s => if Ascii.eqb c ":" then "" else String c (go s)
               end) header.
Class TrustedHost := { host_allowed : list string → string → bool }.
Class TrustedHostLaws `{TrustedHost} : Prop := {
  host_allowed_iff : ∀ allowed host, host_allowed allowed host = true →
    host ∈ allowed ∨ ∃ pattern, pattern ∈ allowed ∧ startswith "*" pattern = true
}.

(** Whether a request with this header reaches the application. *)
Definition admitted `{TrustedHost} (settings : Settings) (header : string) : bool :=
  match allowed_hosts settings with
  | None => true
  | Some allowed => host_allowed allowed (host_of header)
  end.

(** ** What follows *)

(** The application never serves a request: its start-up runs into the name [asyncio], which is
    not bound, with the worker already running and before anything would stop it. With the
    import, every start-up is followed by serving, and then worker and Redis are shut down. *)
Theorem startup_spec `{Startup} n :
  lifespan (serve n) stopped
  = if asyncio_imported then (Ok tt, mk_app false true false n)
    else (Err (NameError "asyncio"), mk_app true false true 0).
Proof. unfold lifespan. by destruct asyncio_imported. Qed.

(** A name before a colon has no colon. *)
Lemma host_of_no_colon header : no_colon (host_of header) = true.
Proof.
  induction header as [|c s IH]; [done|]. cbn. destruct (Ascii.eqb c ":") eqn:E; [done|].
  unfold no_colon in *. cbn. by rewrite E.
Qed.

(** In production no request is admitted at all when the allowed origins are what CORS
    needs - URLs, with a scheme: they are taken for the names of hosts, and no host has a colon. *)
Theorem production_admits_nobody `{TrustedHostLaws} settings header :
  ENV settings = "production" →
  (∀ origin, origin ∈ ALLOWED_ORIGINS settings → no_colon origin = false ∧ startswith "*" origin = false) →
  admitted settings header = false.
Proof.
  intros Henv Horigins. unfold admitted, allowed_hosts. rewrite Henv. cbn.
  destruct (host_allowed _ _) eqn:E; [|done]. apply host_allowed_iff in E as [Hin|(pattern & Hin & Hp)].
  - apply Horigins in Hin as [Hc _]. by rewrite host_of_no_colon in Hc.
  - apply Horigins in Hin as [_ Hs]. congruence.
Qed.

(** ** Applied *)

Module Deployment.
#[local] Instance as_written : Startup := {| asyncio_imported := false |}.
#[local] Instance exact : TrustedHost := {| host_allowed allowed host := bool_decide (host ∈ allowed) |}.
Lemma exact_laws : TrustedHostLaws.
Proof. split. intros allowed host Hin%bool_decide_eq_true. by left. Qed.
Definition settings : Settings :=
  default_settings <| ENV := "production" |> <| ALLOWED_ORIGINS := ["https://yourdomain.com"] |>.
End Deployment.

Lemma production_admits_nobody_witness :
  @admitted Deployment.exact Deployment.settings "yourdomain.com:443" = false.
Proof.
  apply (@production_admits_nobody Deployment.exact Deployment.exact_laws); [reflexivity|].
  intros origin Hin. apply list_elem_of_singleton in Hin as ->. split; reflexivity.
Defined.
