(* ===== verification/Security.v ===== *)
(** [app/core/security.py] and [app/api/deps.py]: password and military-id hashing,
    access tokens, and the authentication dependency of every route.

    hashlib, bcrypt and python-jose are interfaces: [Hashing] and [Jose] give the
    operations the code calls, [HashingLaws] and [JoseLaws] what their
    documentation promises. *)

From S2P Require Import Prelude Effects PyStr Uuid Redis Models World Config.
From Stdlib Require Import Ascii String.

Local Open Scope string_scope.

(** hashlib and bcrypt. [bcrypt_checkpw] is [None] when it raises [ValueError]. *)
Class Hashing := {
  sha256_hexdigest : string → string;
  bcrypt_hashpw : string → string → string;
  bcrypt_checkpw : string → string → option bool;
  bcrypt_salt : string → Prop                  (* what [gensalt] returns *)
}.

(** A SHA-256 digest is 64 hexadecimal characters; bcrypt accepts at most 72 bytes,
    its hashes are ASCII and [checkpw] accepts the password that was hashed. *)
Class HashingLaws `{Hashing} : Prop := {
  sha256_length : ∀ s, String.length (sha256_hexdigest s) = 64;
  bcrypt_ascii : ∀ p salt, bcrypt_salt salt →
    str_all (λ c, (code c <? 128)%N) (bcrypt_hashpw p salt) = true;
  bcrypt_check_hash : ∀ p salt, (String.length p ≤ 72)%nat → bcrypt_salt salt →
    bcrypt_checkpw p (bcrypt_hashpw p salt) = Some true
}.

(** python-jose. A token is opaque to the code. [jwt_decode] is [None] when it
    raises [JWTError]; it is given the time, in seconds. *)
Class Jose := {
  jwt : Type;
  jwt_encode : list (string * json) → string → string → jwt;
  jwt_decode : jwt → string → list string → Z → option (list (string * json))
}.

(** Claims whose only check on decoding is their expiry: no claim is given twice, the
    subject and the id are texts, the issue and expiry times are seconds, and there is no
    audience, start or [at_hash], which python-jose would check too. *)
Record plain_claims (claims : list (string * json)) (exp : Z) : Prop := {
  pc_distinct : NoDup (fst <$> claims);
  pc_sub : ∃ sub, json_get "sub" claims = Some (JStr sub);
  pc_jti : ∃ jti, json_get "jti" claims = Some (JStr jti);
  pc_iat : ∃ iat, json_get "iat" claims = Some (JInt iat);
  pc_exp : json_get "exp" claims = Some (JInt exp);
  pc_unchecked : json_get "aud" claims = None ∧ json_get "nbf" claims = None
                 ∧ json_get "at_hash" claims = None
}.

(** A token with such claims, signed with the key and the algorithm of the settings
    (HS256 by default), decodes with them to its claims until its expiry has passed. It is
    a promise about the settings too: python-jose makes it for the algorithms it has. *)
Class JoseLaws (settings : Settings) `{Jose} : Prop := {
  jwt_decode_encode : ∀ claims now exp,
    plain_claims claims exp →
    jwt_decode (jwt_encode claims (SECRET_KEY settings) (TOKEN_ALGORITHM settings))
      (SECRET_KEY settings) [TOKEN_ALGORITHM settings] now
    = if (exp <? now)%Z then None else Some claims
}.

(** ** Passwords and identifiers *)

Section Hashes.
Context `{Hashing}.

(** [_bcrypt_input] *)
Definition bcrypt_input (value : string) : string := sha256_hexdigest value.

(** [hash_password]; [salt] is what [bcrypt.gensalt] returned. *)
Definition hash_password (plain salt : string) : string :=
  bcrypt_hashpw (bcrypt_input plain) salt.

(** [verify_password]: [hashed.encode("ascii")] raises a [ValueError] too. *)
Definition verify_password (plain hashed : string) : bool :=
  if str_all (λ c, (code c <? 128)%N) hashed
  then match bcrypt_checkpw (bcrypt_input plain) hashed with
       | Some b => b
       | None => false
       end
  else false.

Definition hash_military_id (military_id salt : string) : string :=
  hash_password (strip military_id) salt.
Definition verify_military_id (military_id hashed : string) : bool :=
  verify_password (strip military_id) hashed.

(** [hash_refresh_token] *)
Definition hash_refresh_token (token : string) : string := sha256_hexdigest token.

(** [compute_device_fingerprint] *)
Definition compute_device_fingerprint (user_agent os_build screen : string) : string :=
  sha256_hexdigest (user_agent ++ "|" ++ os_build ++ "|" ++ screen).
End Hashes.

(** [str(secrets.randbelow(10))] and [generate_otp]; [draws] are the digits drawn. *)
Definition digit_str (d : Z) : string := String (ascii_of_N (48 + Z.to_N d)) "".
Definition generate_otp (draws : list Z) : string :=
  foldr (λ d s, digit_str d ++ s) "" draws.

(** [constant_time_compare]: [compare_digest] on the UTF-8 encodings, which are equal
    exactly when the strings are. *)
Definition constant_time_compare (a b : string) : bool := String.eqb a b.

(** ** Access tokens *)

Section Tokens.
Context (settings : Settings) `{Jose}.

(** [create_access_token] without extra claims; python-jose writes datetimes as
    seconds. *)
Definition access_claims (user_id : UUID) (token_version : Z) (role : string)
    (now : timestamp) (jti : string) : list (string * json) :=
  [("sub", JStr (uuid_str user_id));
   ("ver", JInt token_version);
   ("role", JStr role);
   ("iat", JInt (now / second));
   ("exp", JInt ((now + minutes (ACCESS_TOKEN_EXPIRE_MINUTES settings)) / second));
   ("jti", JStr jti)].

Definition create_access_token (user_id : UUID) (token_version : Z) (role : string)
    (now : timestamp) (jti : string) : jwt :=
  jwt_encode (access_claims user_id token_version role now jti)
    (SECRET_KEY settings) (TOKEN_ALGORITHM settings).

Definition decode_access_token (token : jwt) (now : timestamp)
    : option (list (string * json)) :=
  jwt_decode token (SECRET_KEY settings) [TOKEN_ALGORITHM settings] (now / second).

(** [int(v)] for a JSON value: the digits of a string may be separated by single
    underscores and have a sign and spaces around. *)
Fixpoint dec_parse (prev : bool) (acc : Z) (s : string) : option Z :=
  match s with
  | EmptyString => if prev then Some acc else None
  | String c s' =>
      if is_digit c then dec_parse true (acc * 10 + (Z.of_N (code c) - 48))%Z s'
      else if Ascii.eqb c "_" && prev then dec_parse false acc s' else None
  end.

Definition py_int10 (s : string) : option Z :=
  match strip s with
  | String "-" s' => Z.opp <$> dec_parse false 0 s'
  | String "+" s' => dec_parse false 0 s'
  | s' => dec_parse false 0 s'
  end.

Definition py_int (v : json) : res Z :=
  match v with
  | JInt z => Ok z
  | JBool b => Ok (if b then 1 else 0)%Z
  | JStr s => match py_int10 s with
              | Some z => Ok z
              | None => Err (ValueError "invalid literal for int() with base 10")
              end
  | JNull | JList _ | JObj _ => Err TypeError
  end.

(** [UUID(v)] for a JSON value: a value that is not a [str] has no [replace]. *)
Definition py_UUID (v : json) : res UUID :=
  match v with
  | JStr s => match uuid_parse s with
              | Some u => Ok u
              | None => Err (ValueError "badly formed hexadecimal UUID string")
              end
  | JNull => Err TypeError
  | _ => Err AttributeError
  end.

(** [payload[key]] *)
Definition payload_item (key : string) (payload : list (string * json)) : res json :=
  match json_get key payload with Some v => Ok v | None => Err (KeyError key) end.

(** ** [get_current_user] *)

Definition CREDENTIALS_ERROR : exn := HTTPException 401 "Invalid or expired credentials".

Definition get_current_user (creds : option jwt) : prog world User :=
  match creds with
  | None => raise CREDENTIALS_ERROR
  | Some credentials =>
      now ← utcnow;
      match decode_access_token credentials now with
      | None => raise CREDENTIALS_ERROR
      | Some payload =>
          '(user_id, token_version) ←
            try_except
              (sub ← lift (payload_item "sub" payload);
               user_id ← lift (py_UUID sub);
               ver ← lift (payload_item "ver" payload);
               token_version ← lift (py_int ver);
               mret (user_id, token_version))
              (λ e, match e with
                    | KeyError _ | ValueError _ => raise CREDENTIALS_ERROR
                    | _ => raise e
                    end);
          user ← query (λ t, users t !! user_id);
          match user with
          | None => raise CREDENTIALS_ERROR
          | Some user =>
              if decide (u_status user ≠ ACTIVE) then raise CREDENTIALS_ERROR
              else if decide (token_version ≠ u_token_version user)
              then raise CREDENTIALS_ERROR
              else mret user
          end
      end
  end.
End Tokens.

(** ** Facts *)

Section HashFacts.
Context `{HashingLaws}.

Lemma verify_hash_password plain salt :
  bcrypt_salt salt → verify_password plain (hash_password plain salt) = true.
Proof.
  intros Hs. unfold verify_password, hash_password, bcrypt_input.
  rewrite bcrypt_ascii by done.
  rewrite bcrypt_check_hash; [done| |done]. rewrite sha256_length. lia.
Qed.

(** Military identifiers of any length round-trip through the hash, whatever
    spaces surround them: SHA-256 first keeps bcrypt's input within its 72 bytes,
    and both sides strip. *)
Theorem verify_hash_military_id (mid mid' salt : string) :
  bcrypt_salt salt → strip mid = strip mid' →
  verify_military_id mid (hash_military_id mid' salt) = true.
Proof.
  intros Hs Heq. unfold verify_military_id, hash_military_id. rewrite Heq.
  by apply verify_hash_password.
Qed.
End HashFacts.

Lemma length_generate_otp draws : String.length (generate_otp draws) = List.length draws.
Proof.
  induction draws as [|d draws IH]; [done|]. cbn.
  rewrite length_append. unfold generate_otp in IH. rewrite IH. done.
Qed.

Lemma generate_otp_digits draws :
  Forall (λ d, 0 ≤ d < 10)%Z draws → str_all is_digit (generate_otp draws) = true.
Proof.
  induction 1 as [|d draws Hd _ IH]; [done|]. cbn.
  rewrite str_all_app. unfold generate_otp in IH. rewrite IH, andb_true_r.
  assert (∃ k : nat, (k < 10)%nat ∧ d = Z.of_nat k) as (k & Hk & ->).
  { exists (Z.to_nat d). lia. }
  do 10 (destruct k as [|k]; [done|]). lia.
Qed.

Lemma constant_time_compare_spec a b : constant_time_compare a b = bool_decide (a = b).
Proof.
  unfold constant_time_compare. destruct (String.eqb_spec a b) as [->|Hne].
  - by rewrite bool_decide_true.
  - by rewrite bool_decide_false.
Qed.

(** Authentication reads the clock and the accounts only. *)
Lemma current_user_ext settings `{Jose} creds w w' :
  users (w_tables w') = users (w_tables w) → w_now w' = w_now w →
  (get_current_user settings creds w').1 = (get_current_user settings creds w).1.
Proof.
  intros Hu Hn. unfold get_current_user. destruct creds as [token|]; [|done]. wstep. rewrite Hn.
  destruct (decode_access_token _ _ _) as [payload|]; [|done]. world_run.
  destruct (payload_item "sub" payload) as [sub|[]]; try done.
  destruct (py_UUID sub) as [user_id|[]]; try done.
  destruct (payload_item "ver" payload) as [ver|[]]; try done.
  destruct (py_int ver) as [version|[]]; try done.
  rewrite Hu. destruct (users (w_tables w) !! user_id); [|done]. by repeat case_decide.
Qed.

Section TokenFacts.
Context (settings : Settings) `{JoseLaws settings}.

(** When a token minted at [t0] expires, in seconds. *)
Definition token_exp (t0 : timestamp) : Z :=
  (t0 + minutes (ACCESS_TOKEN_EXPIRE_MINUTES settings)) / second.

(** Who a token minted with these claims authenticates in [w]. *)
Definition token_user (user_id : UUID) (ver : Z) (t0 : timestamp) (w : world) : option User :=
  match users (w_tables w) !! user_id with
  | Some user =>
      if decide (w_now w / second ≤ token_exp t0 ∧ u_status user = ACTIVE
                 ∧ u_token_version user = ver)%Z
      then Some user else None
  | None => None
  end.

Lemma access_claims_plain uid ver role t0 jti :
  plain_claims (access_claims settings uid ver role t0 jti) (token_exp t0).
Proof. split; [|by eexists..|done|done]. apply (bool_decide_unpack _). by vm_compute. Qed.

Lemma decode_issued uid ver role t0 jti now :
  decode_access_token settings (create_access_token settings uid ver role t0 jti) now
  = if (token_exp t0 <? now / second)%Z then None
    else Some (access_claims settings uid ver role t0 jti).
Proof. unfold decode_access_token, create_access_token. apply jwt_decode_encode, access_claims_plain. Qed.

Lemma access_claims_sub uid ver role t0 jti :
  payload_item "sub" (access_claims settings uid ver role t0 jti) = Ok (JStr (uuid_str uid)).
Proof. done. Qed.
Lemma access_claims_ver uid ver role t0 jti :
  payload_item "ver" (access_claims settings uid ver role t0 jti) = Ok (JInt ver).
Proof. done. Qed.

Lemma current_user_run uid ver role t0 jti w :
  get_current_user settings (Some (create_access_token settings uid ver role t0 jti)) w
  = (match token_user uid ver t0 w with
     | Some user => Ok user
     | None => Err CREDENTIALS_ERROR
     end, w).
Proof.
  unfold get_current_user, token_user. world_run. rewrite decode_issued.
  destruct (Z.ltb_spec (token_exp t0) (w_now w / second)).
  { destruct (users (w_tables w) !! uid); [|done].
    by rewrite decide_False by lia. }
  rewrite access_claims_sub, access_claims_ver. cbn.
  rewrite uuid_parse_str. destruct (users (w_tables w) !! uid) as [user|]; [|done].
  repeat case_decide; naive_solver lia.
Qed.

(** C8. Authentication with a token the server minted: the current user is the
    account named in the token, exactly when the token has not expired, the account
    exists and is active, and its [token_version] is still the one in the token.
    In every other case the request fails with the one credentials error, and the
    state is unchanged. *)
Theorem get_current_user_issued uid ver role t0 jti w :
  get_current_user settings (Some (create_access_token settings uid ver role t0 jti)) w
  = (match token_user uid ver t0 w with
     | Some user => Ok user
     | None => Err CREDENTIALS_ERROR
     end, w).
Proof. apply current_user_run. Qed.
End TokenFacts.

(** ** Concrete instances, for examples

A digest that pads to 64 characters, a hash that keeps the low seven bits of every
character, and tokens that carry their claims in clear. *)

Module Toy.
Definition pad : string := "0000000000000000000000000000000000000000000000000000000000000000".
Definition ascii7 (c : ascii) : ascii := ascii_of_N (code c mod 128).

Definition hashing : Hashing := {|
  sha256_hexdigest s := String.substring 0 64 (s ++ pad);
  bcrypt_hashpw p salt := str_map ascii7 p;
  bcrypt_checkpw p h := Some (String.eqb (str_map ascii7 p) h);
  bcrypt_salt _ := True
|}.

Definition jose : Jose := {|
  jwt := list (string * json) * string * string;
  jwt_encode claims key alg := (claims, key, alg);
  jwt_decode '(claims, key, alg) key' algs now :=
    if decide (key = key' ∧ alg ∈ algs) then
      match json_get "exp" claims with
      | Some (JInt exp) => if (exp <? now)%Z then None else Some claims
      | _ => Some claims
      end
    else None
|}.

Lemma ascii7_ascii s : str_all (λ c, (code c <? 128)%N) (str_map ascii7 s) = true.
Proof.
  induction s as [|c s IH]; [done|]. cbn [str_map str_all]. rewrite IH, andb_true_r.
  unfold ascii7, code. rewrite N_ascii_embedding; apply N.ltb_lt || idtac.
  - apply N.mod_lt. lia.
  - pose proof (N.mod_lt (N_of_ascii c) 128). lia.
Qed.

Lemma hashing_laws : @HashingLaws hashing.
Proof.
  split; cbn.
  - intros s. apply length_substring. rewrite length_append. cbn. lia.
  - intros p salt _. apply ascii7_ascii.
  - intros p salt _ _. by rewrite String.eqb_refl.
Qed.

Lemma jose_laws settings : @JoseLaws settings jose.
Proof.
  split. cbn. intros claims now exp [_ _ _ _ He _].
  rewrite decide_True by set_solver. by rewrite He.
Qed.
End Toy.

Lemma verify_hash_military_id_witness :
  @verify_military_id Toy.hashing "MIL-1001" (@hash_military_id Toy.hashing "  MIL-1001 " "s")
  = true.
Proof.
  apply (@verify_hash_military_id Toy.hashing Toy.hashing_laws); [exact I|reflexivity].
Defined.

Lemma get_current_user_issued_witness :
  let w := mk_world 0 ∅ ∅ ∅ (mk_tables ∅ ∅ ∅ ∅ ∅ ∅ ∅ ∅ []) (mk_tables ∅ ∅ ∅ ∅ ∅ ∅ ∅ ∅ [])
             [] ∅ [] ∅ [] in
  @get_current_user default_settings Toy.jose
    (Some (@create_access_token default_settings Toy.jose (uid 7) 1 "soldier" 0 "j")) w
  = (Err CREDENTIALS_ERROR, w).
Proof.
  intros w.
  exact (@get_current_user_issued default_settings Toy.jose (Toy.jose_laws _)
           (uid 7) 1 "soldier" 0 "j" w).
Defined.
