(* ===== verification/Otp.v ===== *)
(** [app/services/otp_service.py]: one-time codes in Redis, and the abstract
    machine they implement: a code with its expiry and the tries spent on it. *)

From S2P Require Import Prelude Effects PyStr Uuid Redis Models World Config Security.
From Stdlib Require Import String.

Local Open Scope string_scope.

(** [_code_key] and [_attempts_key] *)
Definition code_key (user_id : UUID) : string := "otp:" ++ uuid_str user_id.
Definition attempts_key (user_id : UUID) : string := "otp:attempts:" ++ uuid_str user_id.

Section OtpService.
Context (settings : Settings).

(** [OtpService.issue]; [code] is what [generate_otp] returned. The pipeline is one
    MULTI/EXEC transaction. *)
Definition issue (user_id : UUID) (code : string) : prog rstate string :=
  redis_set (code_key user_id) code (Some (OTP_TTL_SECONDS settings)) ;;
  redis_delete [attempts_key user_id] ;;
  mret code.

(** [OtpService.verify], run without interruption. *)
Definition otp_verify (user_id : UUID) (submitted : string) : prog rstate bool :=
  attempts ← redis_incr (attempts_key user_id);
  (if decide (attempts = 1)%Z
   then redis_expire (attempts_key user_id) (OTP_TTL_SECONDS settings) ;; mret tt
   else mret tt) ;;
  if (OTP_MAX_ATTEMPTS settings <? attempts)%Z then
    redis_delete [code_key user_id] ;; mret false
  else
    stored ← redis_get (code_key user_id);
    match stored with
    | None => mret false
    | Some stored =>
        if constant_time_compare stored submitted then
          redis_delete [code_key user_id; attempts_key user_id] ;; mret true
        else mret false
    end.

(** ** The abstract machine *)

(** The outstanding code of a user: the code, the instant it expires, and the number
    of tries made on it. *)
Record otp := mk_otp { o_code : string; o_exp : timestamp; o_tries : Z }.

Definition spec_issue (now : timestamp) (code : string) : option otp :=
  Some (mk_otp code (deadline now (OTP_TTL_SECONDS settings)) 0).

(** A try counts first; past the limit it burns the code, within it the right code
    is consumed. An expired code is no code. *)
Definition spec_verify (now : timestamp) (submitted : string) (o : option otp)
    : bool * option otp :=
  match o with
  | None => (false, None)
  | Some (mk_otp code exp tries) =>
      if (exp <=? now)%Z then (false, None)
      else if (OTP_MAX_ATTEMPTS settings <? tries + 1)%Z then (false, None)
      else if String.eqb code submitted then (true, None)
      else (false, Some (mk_otp code exp (tries + 1)))
  end.

(** A sequence of tries, each after some delay: the answers given. *)
Fixpoint spec_run (now : timestamp) (tries : list (Z * string)) (o : option otp) : list bool :=
  match tries with
  | [] => []
  | (delay, submitted) :: tries' =>
      let now := (now + delay)%Z in
      let '(b, o') := spec_verify now submitted o in
      b :: spec_run now tries' o'
  end.

Definition wait (delay : Z) : prog rstate unit :=
  modify (λ s, s <| rs_now ::= λ t, (t + delay)%Z |>).

Fixpoint verify_run (user_id : UUID) (tries : list (Z * string)) : prog rstate (list bool) :=
  match tries with
  | [] => mret []
  | (delay, submitted) :: tries' =>
      wait delay ;;
      b ← otp_verify user_id submitted;
      bs ← verify_run user_id tries';
      mret (b :: bs)
  end.

(** ** Keys *)

Lemma code_key_inj u v : code_key u = code_key v → u = v.
Proof. intros H. by apply uuid_str_inj, (append_inj_l "otp:"). Qed.

Lemma attempts_key_inj u v : attempts_key u = attempts_key v → u = v.
Proof. intros H. by apply uuid_str_inj, (append_inj_l "otp:attempts:"). Qed.

Lemma code_attempts_key u v : code_key u ≠ attempts_key v.
Proof.
  intros H. change (attempts_key v) with ("otp:" ++ ("attempts:" ++ uuid_str v)) in H.
  apply append_inj_l in H. revert H. apply uuid_str_ne. by rewrite str_all_app.
Qed.

(** ** The refinement *)

(** The store holds the abstract state of [user_id]: the code under its key until
    [o_exp], and the tries in a counter that outlives it. [bound] bounds the counter
    below Redis's overflow. *)
Definition counter_ok (bound : Z) (c : option entry) : Prop :=
  match c with
  | None => True
  | Some (mk_entry (RInt z) _) => (0 ≤ z ≤ bound)%Z
  | Some _ => False
  end.

Definition otp_rel (bound : Z) (user_id : UUID) (o : option otp) (s : rstate) : Prop :=
  let now := rs_now s in
  let db := rs_db s in
  counter_ok bound (live now db (attempts_key user_id)) ∧
  match o with
  | Some (mk_otp code exp tries) =>
      (exp ≤ deadline now (OTP_TTL_SECONDS settings))%Z ∧
      if (exp <=? now)%Z then live now db (code_key user_id) = None
      else live now db (code_key user_id) = Some (mk_entry (RStr code) (Some exp)) ∧
           match live now db (attempts_key user_id) with
           | None => tries = 0%Z
           | Some (mk_entry (RInt z) (Some t)) => tries = z ∧ (1 ≤ z)%Z ∧ (exp ≤ t)%Z
           | Some _ => False
           end
  | None => live now db (code_key user_id) = None
  end.

(** The counter after one more try: a fresh counter starts the window. *)
Definition bump (now : timestamp) (c : option entry) : Z * option Z :=
  match c with
  | Some (mk_entry (RInt z) ex) =>
      (z + 1, if decide (z + 1 = 1) then Some (deadline now (OTP_TTL_SECONDS settings)) else ex)%Z
  | _ => (1%Z, Some (deadline now (OTP_TTL_SECONDS settings)))
  end.

(** What [verify] does once the try is counted. *)
Definition after_count (user_id : UUID) (submitted : string) (attempts : Z)
    : prog rstate bool :=
  if (OTP_MAX_ATTEMPTS settings <? attempts)%Z then
    redis_delete [code_key user_id] ;; mret false
  else
    stored ← redis_get (code_key user_id);
    match stored with
    | None => mret false
    | Some stored =>
        if constant_time_compare stored submitted then
          redis_delete [code_key user_id; attempts_key user_id] ;; mret true
        else mret false
    end.

Lemma otp_verify_count bound user_id submitted s :
  counter_ok bound (live (rs_now s) (rs_db s) (attempts_key user_id)) →
  (bound < 2 ^ 63 - 1)%Z →
  let '(n, ex) := bump (rs_now s) (live (rs_now s) (rs_db s) (attempts_key user_id)) in
  otp_verify user_id submitted s
  = after_count user_id submitted n
      (s <| rs_db ::= <[attempts_key user_id := mk_entry (RInt n) ex]> |>).
Proof.
  intros Hc Hb. unfold otp_verify. rewrite window_run.
  destruct (live _ _ _) as [[[| z | | |] ex]|]; try done. cbn in Hc |- *.
  by rewrite (proj2 (Z.eqb_neq z (2 ^ 63 - 1))) by lia.
Qed.

(** The state once the try is counted, seen through the two keys. *)
Lemma counted_code user_id e s :
  live (rs_now s) (rs_db (s <| rs_db ::= <[attempts_key user_id := e]> |>)) (code_key user_id)
  = live (rs_now s) (rs_db s) (code_key user_id).
Proof. cbn. by rewrite live_insert_ne by (symmetry; apply code_attempts_key). Qed.

Lemma counter_ok_bump bound s user_id :
  counter_ok bound (live (rs_now s) (rs_db s) (attempts_key user_id)) → (0 ≤ bound)%Z →
  let '(n, ex) := bump (rs_now s) (live (rs_now s) (rs_db s) (attempts_key user_id)) in
  counter_ok (bound + 1) (live (rs_now s)
    (rs_db (s <| rs_db ::= <[attempts_key user_id := mk_entry (RInt n) ex]> |>))
    (attempts_key user_id)).
Proof.
  intros Hc Hb. destruct (live (rs_now s) _ _) as [[[] ?]|]; cbn in Hc; try done;
    cbn; rewrite live_insert_eq; repeat case_match; cbn; try done; lia.
Qed.

(** Without a live code the try fails, and no code appears. *)
Lemma after_count_none user_id submitted n s :
  live (rs_now s) (rs_db s) (code_key user_id) = None →
  ∃ s', after_count user_id submitted n s = (Ok false, s') ∧ rs_now s' = rs_now s
    ∧ live (rs_now s') (rs_db s') (code_key user_id) = None
    ∧ live (rs_now s') (rs_db s') (attempts_key user_id)
      = live (rs_now s) (rs_db s) (attempts_key user_id).
Proof.
  intros H. unfold after_count. case_match.
  - eexists. split; [done|]. cbn. split; [done|].
    by rewrite live_delete_eq, live_delete_ne by apply code_attempts_key.
  - exists s. redis_run. by rewrite H.
Qed.

Lemma after_count_some user_id submitted n code exp s :
  live (rs_now s) (rs_db s) (code_key user_id) = Some (mk_entry (RStr code) exp) →
  after_count user_id submitted n s
  = if (OTP_MAX_ATTEMPTS settings <? n)%Z
    then (Ok false, s <| rs_db ::= delete (code_key user_id) |>)
    else if String.eqb code submitted
    then (Ok true, s <| rs_db ::= delete (code_key user_id) |>
                     <| rs_db ::= delete (attempts_key user_id) |>)
    else (Ok false, s).
Proof.
  intros H. unfold after_count, constant_time_compare. case_match; [done|].
  redis_run. rewrite H. by case_match.
Qed.

Lemma otp_rel_None bound user_id s :
  counter_ok bound (live (rs_now s) (rs_db s) (attempts_key user_id)) →
  live (rs_now s) (rs_db s) (code_key user_id) = None → otp_rel bound user_id None s.
Proof. done. Qed.

(** A step of [verify] answers as the abstract machine does and keeps the relation;
    the counter grows by at most one. *)
Lemma otp_verify_sim bound user_id submitted o s :
  otp_rel bound user_id o s → (0 ≤ bound < 2 ^ 63 - 1)%Z →
  let '(b, o') := spec_verify (rs_now s) submitted o in
  ∃ s', otp_verify user_id submitted s = (Ok b, s') ∧ rs_now s' = rs_now s
    ∧ otp_rel (bound + 1) user_id o' s'.
Proof.
  intros [Hc Ho] Hb.
  pose proof (otp_verify_count bound user_id submitted s Hc ltac:(lia)) as Hv.
  pose proof (counter_ok_bump bound s user_id Hc ltac:(lia)) as Hc'.
  destruct (bump _ _) as [n ex] eqn:Hbump. rewrite Hv. clear Hv.
  set (s1 := s <| rs_db ::= _ |>) in *.
  assert (live (rs_now s1) (rs_db s1) (code_key user_id)
          = live (rs_now s) (rs_db s) (code_key user_id)) as Hcode by apply (counted_code user_id (mk_entry (RInt n) ex) s).
  assert (live (rs_now s) (rs_db s) (code_key user_id) = None →
    ∃ s', after_count user_id submitted n s1 = (Ok false, s') ∧ rs_now s' = rs_now s
      ∧ otp_rel (bound + 1) user_id None s') as Hnone.
  { intros Hn. rewrite Hn in Hcode.
    destruct (after_count_none user_id submitted n s1 Hcode) as (s' & ? & Hnow & ? & Ha).
    exists s'. split_and!; [done|done|]. apply otp_rel_None; [by rewrite Ha|done]. }
  destruct o as [[code exp tries]|]; [|by apply Hnone]. cbn.
  destruct Ho as [Hdl Ho]. destruct (Z.leb_spec exp (rs_now s)); [by apply Hnone|].
  destruct Ho as [Hlive Hatt]. rewrite Hlive in Hcode.
  rewrite (after_count_some _ _ _ _ _ _ Hcode).
  assert (n = tries + 1 ∧ 1 ≤ n ∧ ∃ t, ex = Some t ∧ exp ≤ t)%Z as (-> & Hn & t & -> & Ht).
  { destruct (live _ _ (attempts_key _)) as [[[] []]|]; cbn in Hbump; try done;
      simplify_eq; [|naive_solver].
    destruct Hatt as (-> & ? & ?). rewrite decide_False by lia. naive_solver lia. }
  destruct (_ <? _)%Z; [|destruct (_ =? _)%string];
    (eexists; split_and!; [done|done|]).
  - apply otp_rel_None; cbn; [|apply live_delete_eq].
    by rewrite live_delete_ne by apply code_attempts_key.
  - apply otp_rel_None; cbn; [by rewrite live_delete_eq|].
    by rewrite live_delete_ne, live_delete_eq by (symmetry; apply code_attempts_key).
  - split; [exact Hc'|]. split; [done|].
    change (rs_now s1) with (rs_now s). rewrite (proj2 (Z.leb_gt exp (rs_now s))) by done.
    split; [exact Hcode|]. cbn. rewrite live_insert_eq. cbn.
    by rewrite (proj2 (Z.leb_gt t (rs_now s))) by lia.
Qed.

(** Waiting keeps the relation: the counter outlives the code. *)
Lemma otp_rel_wait bound user_id o s delay :
  otp_rel bound user_id o s → (0 ≤ delay)%Z →
  otp_rel bound user_id o (s <| rs_now ::= λ t, (t + delay)%Z |>).
Proof.
  intros [Hc Ho] Hd. split; cbn.
  - rewrite (live_later (rs_now s)) by lia. by repeat case_match.
  - destruct o as [[code exp tries]|].
    + destruct Ho as [Hdl Ho]. unfold deadline in *. split; [lia|].
      destruct (Z.leb_spec exp (rs_now s)) as [He|He].
      { rewrite (proj2 (Z.leb_le exp (rs_now s + delay))) by lia.
        rewrite (live_later (rs_now s)) by lia. by rewrite Ho. }
      destruct Ho as [Hlive Hatt].
      rewrite (live_later (rs_now s) _ _ (code_key _)) by lia. rewrite Hlive. unfold expired; cbn.
      destruct (Z.leb_spec exp (rs_now s + delay)); [done|]. split; [done|].
      rewrite (live_later (rs_now s)) by lia.
      destruct (live _ _ _) as [[[] [t|]]|]; try done. unfold expired; cbn.
      by rewrite (proj2 (Z.leb_gt t (rs_now s + delay))) by lia.
    + rewrite (live_later (rs_now s)) by lia. by rewrite Ho.
Qed.

(** Issuing starts the abstract machine, whatever was there before. *)
Lemma otp_rel_issue user_id code s :
  (0 < OTP_TTL_SECONDS settings)%Z →
  ∃ s', issue user_id code s = (Ok code, s') ∧ rs_now s' = rs_now s
    ∧ otp_rel 0 user_id (spec_issue (rs_now s) code) s'.
Proof.
  intros Ht. eexists. split; [done|]. split; [done|]. cbn. split; cbn.
  - by rewrite live_delete_eq.
  - split; [done|]. unfold deadline, second.
    rewrite (proj2 (Z.leb_gt _ _)) by lia.
    rewrite live_delete_eq, live_delete_ne by (symmetry; apply code_attempts_key).
    rewrite live_insert_eq. unfold expired, deadline, second; cbn.
    by rewrite (proj2 (Z.leb_gt _ _)) by lia.
Qed.

Lemma verify_run_sim user_id tries bound o s :
  otp_rel bound user_id o s → (0 ≤ bound)%Z →
  (bound + Z.of_nat (List.length tries) < 2 ^ 63)%Z →
  Forall (λ t, 0 ≤ t.1)%Z tries →
  ∃ s', verify_run user_id tries s = (Ok (spec_run (rs_now s) tries o), s').
Proof.
  revert bound o s. induction tries as [|[delay submitted] tries IH];
    intros bound o s Hrel Hb Hlen Hdel; [by exists s|].
  inversion_clear Hdel as [|? ? Hd Hdel']. cbn [List.length fst] in *.
  apply (otp_rel_wait _ _ _ _ delay) in Hrel; [|done].
  pose proof (otp_verify_sim bound user_id submitted o _ Hrel ltac:(lia)) as Hv.
  cbn [verify_run spec_run]. change (rs_now (s <| rs_now ::= _ |>)) with (rs_now s + delay)%Z in Hv.
  destruct (spec_verify _ _ _) as [b o']. destruct Hv as (s1 & Hv & Hnow & Hrel').
  destruct (IH (bound + 1)%Z o' s1) as [s' Hs']; [done|lia|lia|done|].
  exists s'. unfold mbind, prog_bind. unfold bind at 1. cbn [wait modify].
  rewrite (bind_ok _ _ _ _ _ Hv), (bind_ok _ _ _ _ _ Hs'). by rewrite Hnow.
Qed.

(** ** What the abstract machine accepts *)

(** The time from the start to the end of the wait before try [i]. *)
Definition elapsed (tries : list (Z * string)) (i : nat) : Z :=
  foldr Z.add 0%Z (take (S i) tries.*1).

Lemma spec_run_None now tries i : spec_run now tries None !! i ≠ Some true.
Proof.
  revert now i. induction tries as [|[d x] tries IH]; intros now [|i]; cbn; try done.
Qed.

Lemma elapsed_cons d x tries i : elapsed ((d, x) :: tries) (S i) = (d + elapsed tries i)%Z.
Proof. done. Qed.

Lemma elapsed_0 d x tries : elapsed ((d, x) :: tries) 0 = d.
Proof. unfold elapsed. cbn. by destruct (tries.*1); cbn; lia. Qed.

Lemma elapsed_nonneg tries i : Forall (λ t, 0 ≤ t.1)%Z tries → (0 ≤ elapsed tries i)%Z.
Proof.
  intros H. revert i. induction H as [|[d x] tries Hd _ IH]; intros i; [by destruct i|].
  cbn [fst] in Hd. destruct i as [|i]; [by rewrite elapsed_0|].
  rewrite elapsed_cons. specialize (IH i). lia.
Qed.

Lemma spec_run_true_iff now tries code exp t i :
  Forall (λ t, 0 ≤ t.1)%Z tries →
  spec_run now tries (Some (mk_otp code exp t)) !! i = Some true ↔
  (∃ d, tries !! i = Some (d, code)) ∧ (t + Z.of_nat i < OTP_MAX_ATTEMPTS settings)%Z
  ∧ (now + elapsed tries i < exp)%Z
  ∧ ∀ j d, (j < i)%nat → tries !! j ≠ Some (d, code).
Proof.
  intros Hdel. revert now t i. induction Hdel as [|[d x] tries Hd Hdel IH]; intros now t i.
  { split; [done|]. by intros [[? [=]] ?]. }
  pose proof (elapsed_nonneg tries) as Hpos. cbn in Hd. cbn [spec_run spec_verify].
  assert (∀ b, (b :: spec_run (now + d) tries None) !! i = Some true ↔ i = 0%nat ∧ b = true) as Hdead.
  { intros b. destruct i; cbn; [naive_solver|]. pose proof (spec_run_None (now + d) tries i).
    naive_solver. }
  destruct (Z.leb_spec exp (now + d)) as [He|He].
  { rewrite Hdead. split; [naive_solver|]. intros (_ & _ & Hlt & _).
    destruct i as [|i]; [rewrite elapsed_0 in Hlt; lia|]. rewrite elapsed_cons in Hlt.
    specialize (Hpos i Hdel). lia. }
  destruct (Z.ltb_spec (OTP_MAX_ATTEMPTS settings) (t + 1)) as [Hm|Hm].
  { rewrite Hdead. split; [naive_solver|]. intros (_ & Hlt & _). lia. }
  destruct (String.eqb_spec code x) as [<-|Hx].
  - rewrite Hdead. split.
    + intros [-> _]. split_and!; [by exists d|lia|by rewrite elapsed_0|lia].
    + intros (_ & _ & _ & Hj). split; [|done]. destruct i as [|i]; [done|].
      destruct (Hj 0%nat d); [lia|done].
  - destruct i as [|i]; cbn [lookup list_lookup].
    + split; [done|]. intros [[d' [=]] _]. congruence.
    + rewrite IH, elapsed_cons. split.
      * intros (? & ? & ? & Hj). split_and!; [done|lia|lia|].
        intros [|j] d' Hlt; cbn; [congruence|]. apply Hj. lia.
      * intros (? & ? & ? & Hj). split_and!; [done|lia|lia|].
        intros j d' Hlt. apply (Hj (S j) d'). lia.
Qed.

(** ** Properties *)

(** C4. Refinement: whatever the store held for the user before, issuing a code and
    then answering any sequence of tries, each after any delay, gives exactly the
    answers of the abstract machine - one code, its expiry, its tries. Every run
    returns; no Redis error escapes. *)
Theorem otp_refines user_id code tries s :
  (0 < OTP_TTL_SECONDS settings)%Z →
  (Z.of_nat (List.length tries) < 2 ^ 63)%Z →
  Forall (λ t, 0 ≤ t.1)%Z tries →
  ∃ s', (issue user_id code ;; verify_run user_id tries) s
        = (Ok (spec_run (rs_now s) tries (spec_issue (rs_now s) code)), s').
Proof.
  intros Ht Hlen Hdel. destruct (otp_rel_issue user_id code s Ht) as (s1 & Hi & Hnow & Hrel).
  destruct (verify_run_sim user_id tries 0 _ s1 Hrel) as [s' Hs']; [done|done|done|].
  exists s'. unfold mbind, prog_bind. rewrite (bind_ok _ _ _ _ _ Hi). by rewrite Hs', Hnow.
Qed.

(** C5. Which try is accepted: after a code is issued, try number [i] is accepted
    exactly when it submits the code, is among the first [OTP_MAX_ATTEMPTS] tries,
    comes before the code expires, and no earlier try submitted the code. So a code
    is used at most once, and at most [OTP_MAX_ATTEMPTS] guesses are ever compared,
    in any sequence of tries and over any time. *)
Theorem otp_accepts_iff user_id code tries s i :
  (0 < OTP_TTL_SECONDS settings)%Z →
  (Z.of_nat (List.length tries) < 2 ^ 63)%Z →
  Forall (λ t, 0 ≤ t.1)%Z tries →
  ∃ answers s',
    (issue user_id code ;; verify_run user_id tries) s = (Ok answers, s') ∧
    (answers !! i = Some true ↔
     (∃ d, tries !! i = Some (d, code))
     ∧ (Z.of_nat i < OTP_MAX_ATTEMPTS settings)%Z
     ∧ (elapsed tries i < OTP_TTL_SECONDS settings * second)%Z
     ∧ ∀ j d, (j < i)%nat → tries !! j ≠ Some (d, code)).
Proof.
  intros Ht Hlen Hdel. destruct (otp_rel_issue user_id code s Ht) as (s1 & Hi & Hnow & Hrel).
  destruct (verify_run_sim user_id tries 0 _ s1 Hrel) as [s' Hs']; [done|done|done|].
  eexists _, s'. split.
  { unfold mbind, prog_bind. rewrite (bind_ok _ _ _ _ _ Hi). exact Hs'. }
  rewrite Hnow. unfold spec_issue. rewrite spec_run_true_iff by done.
  unfold deadline. rewrite Z.add_0_l.
  split; intros (? & ? & ? & ?); (split_and!; [done|lia|lia|done]).
Qed.

(** What the two operations touch. *)
Definition otp_keys (user_id : UUID) : gset string := {[code_key user_id; attempts_key user_id]}.

Lemma issue_framed user_id code : framed (otp_keys user_id) (issue user_id code).
Proof. unfold issue, otp_keys. solve_framed. Qed.

Lemma otp_verify_framed user_id submitted :
  framed (otp_keys user_id) (otp_verify user_id submitted).
Proof. unfold otp_verify, otp_keys. solve_framed. Qed.

Lemma otp_keys_disjoint u v k : u ≠ v → k ∈ otp_keys u → k ∉ otp_keys v.
Proof.
  unfold otp_keys. rewrite !elem_of_union, !elem_of_singleton.
  intros Hne [->| ->] [Hk|Hk].
  - by apply code_key_inj in Hk.
  - by apply code_attempts_key in Hk.
  - symmetry in Hk. by apply code_attempts_key in Hk.
  - by apply attempts_key_inj in Hk.
Qed.

(** The relation looks at the user's two keys only. *)
Lemma otp_rel_frame K bound user_id o s s' :
  frame K s s' → (∀ k, k ∈ otp_keys user_id → k ∉ K) →
  otp_rel bound user_id o s → otp_rel bound user_id o s'.
Proof.
  intros [Hnow Hdb] HK. unfold otp_rel. rewrite Hnow.
  rewrite !(live_ext _ (rs_db s') (rs_db s)); [done|..];
    apply Hdb, HK; unfold otp_keys; set_solver.
Qed.

(** Users do not share codes: whatever code is outstanding for a user, issuing a
    code to another user and any try on another user's account leave it, its
    expiry and the tries spent on it as they were. *)
Theorem otp_isolated bound user_id other o code submitted s :
  user_id ≠ other → otp_rel bound user_id o s →
  otp_rel bound user_id o (issue other code s).2 ∧
  otp_rel bound user_id o (otp_verify other submitted s).2.
Proof.
  intros Hne Ho. split; (eapply otp_rel_frame; [..|exact Ho]).
  - apply issue_framed.
  - intros k. by apply otp_keys_disjoint.
  - apply otp_verify_framed.
  - intros k. by apply otp_keys_disjoint.
Qed.
End OtpService.

Definition empty_rstate : rstate := mk_rstate 0 ∅.

Lemma otp_refines_witness :
  ∃ s', (issue default_settings (uid 1) "123456" ;;
         verify_run default_settings (uid 1) [(0, "000000"); (1, "123456"); (2, "123456")]%Z)
          empty_rstate = (Ok [false; true; false], s').
Proof. apply (otp_refines default_settings); [done|done|]. repeat constructor; cbn; lia. Defined.

Lemma otp_accepts_iff_witness :
  ∃ answers s',
    (issue default_settings (uid 1) "123456" ;;
     verify_run default_settings (uid 1) [(0, "000000"); (1, "123456")]%Z) empty_rstate
    = (Ok answers, s') ∧ answers !! 1%nat = Some true.
Proof.
  destruct (otp_accepts_iff default_settings (uid 1) "123456"
    [(0, "000000"); (1, "123456")]%Z empty_rstate 1) as (answers & s' & H & Hiff);
    [done|done|repeat constructor; cbn; lia|].
  exists answers, s'. split; [exact H|]. apply Hiff. split_and!; [by exists 1%Z|done|done|].
  intros [|j] d Hj; [done|lia].
Defined.

Lemma otp_isolated_witness :
  let s := (issue default_settings (uid 1) "123456" empty_rstate).2 in
  let o := spec_issue default_settings 0 "123456" in
  otp_rel default_settings 0 (uid 1) o (issue default_settings (uid 2) "0" s).2 ∧
  otp_rel default_settings 0 (uid 1) o (otp_verify default_settings (uid 2) "0" s).2.
Proof.
  intros s o. apply (otp_isolated default_settings 0 (uid 1) (uid 2) o "0" "0" s).
  - intros H. apply (f_equal uuid_int) in H. by vm_compute in H.
  - vm_compute. done.
Defined.
