(* ===== verification/OtpConcurrent.v ===== *)
(** [OtpService.verify] under concurrency: requests of one user interleave between
    any two Redis commands, as the event loop and the replicas allow. *)

From S2P Require Import Prelude Effects PyStr Uuid Redis Models World Config Security Otp.
From Stdlib Require Import String.

Local Open Scope string_scope.

(** Where a call of [verify] stands: before each command it will send next, or done.
    Code between two [await]s runs at once. *)
Inductive pc :=
| PIncr                      (* attempts = await redis.incr(...) *)
| PExpire                    (* await redis.expire(...), when attempts == 1 *)
| PBurn                      (* await redis.delete(code), past the limit *)
| PGet                       (* stored = await redis.get(code) *)
| PConsume                   (* await redis.delete(code, attempts), on a match *)
| PDone (answer : bool)
| PFail (e : exn).

Record call := mk_call { c_submitted : string; c_pc : pc }.

Section Concurrent.
Context (settings : Settings) (user_id : UUID).

(** From [if attempts > settings.OTP_MAX_ATTEMPTS] to the next [await]. *)
Definition after_attempts (attempts : Z) : pc :=
  if (OTP_MAX_ATTEMPTS settings <? attempts)%Z then PBurn else PGet.

(** One command of the call, and the guess it compared with a stored code, if any. *)
Definition call_step (submitted : string) (p : pc) : prog rstate (pc * list string) :=
  match p with
  | PIncr =>
      attempts ← redis_incr (attempts_key user_id);
      mret (if decide (attempts = 1)%Z then PExpire else after_attempts attempts, [])
  | PExpire =>
      redis_expire (attempts_key user_id) (OTP_TTL_SECONDS settings) ;;
      mret (after_attempts 1, [])
  | PBurn => redis_delete [code_key user_id] ;; mret (PDone false, [])
  | PGet =>
      stored ← redis_get (code_key user_id);
      match stored with
      | None => mret (PDone false, [])
      | Some stored =>
          mret (if constant_time_compare stored submitted then PConsume else PDone false,
                [submitted])
      end
  | PConsume => redis_delete [code_key user_id; attempts_key user_id] ;; mret (PDone true, [])
  | PDone _ | PFail _ => mret (p, [])
  end.

(** The calls in flight, the store they share, and the guesses compared so far. *)
Record system := mk_system {
  sy_store : rstate;
  sy_calls : list call;
  sy_compared : list string
}.

Definition exec (i : nat) (y : system) : system :=
  match sy_calls y !! i with
  | None => y
  | Some (mk_call submitted p) =>
      match call_step submitted p (sy_store y) with
      | (Ok (p', guesses), s') =>
          mk_system s' (<[i := mk_call submitted p']> (sy_calls y)) (sy_compared y ++ guesses)
      | (Err e, s') =>
          mk_system s' (<[i := mk_call submitted (PFail e)]> (sy_calls y)) (sy_compared y)
      end
  end.

(** A request arrives, a call sends its next command, or time passes. *)
Inductive step : system → system → Prop :=
| step_arrive y submitted :
    step y (mk_system (sy_store y) (sy_calls y ++ [mk_call submitted PIncr]) (sy_compared y))
| step_exec y i : step y (exec i y)
| step_tick y d :
    (0 ≤ d)%Z →
    step y (mk_system ((sy_store y) <| rs_now ::= λ t, (t + d)%Z |>) (sy_calls y) (sy_compared y)).

(** Right after [issue]: no call in flight. *)
Definition issued (code : string) (s : rstate) : system :=
  mk_system (issue settings user_id code s).2 [] [].

Definition reachable (code : string) (s : rstate) : system → Prop :=
  rtc step (issued code s).

(** A call alone: its commands one after the other. *)
Fixpoint run_call (fuel : nat) (submitted : string) (p : pc) : prog rstate bool :=
  match p, fuel with
  | PDone b, _ => mret b
  | PFail e, _ => raise e
  | _, O => raise (ValueError "out of fuel")
  | _, S fuel =>
      '(p', _) ← call_step submitted p; run_call fuel submitted p'
  end.

(** ** Counting the calls *)

Fixpoint count (f : pc → nat) (calls : list call) : nat :=
  match calls with
  | [] => 0
  | c :: calls' => f (c_pc c) + count f calls'
  end.

Lemma count_app f l1 l2 : count f (l1 ++ l2) = (count f l1 + count f l2)%nat.
Proof. induction l1; cbn; lia. Qed.

Lemma count_insert f calls i c c' :
  calls !! i = Some c →
  (count f (<[i := c']> calls) + f (c_pc c) = count f calls + f (c_pc c'))%nat.
Proof.
  revert i. induction calls as [|d calls IH]; intros [|i] H; try done.
  - cbn in *. simplify_eq. lia.
  - specialize (IH i H). simpl. lia.
Qed.

(** A call that will compare its guess unless the code goes away first. *)
Definition pending (p : pc) : nat := match p with PExpire | PGet => 1 | _ => 0 end.
(** A call whose guess was right. *)
Definition accepted (p : pc) : nat := match p with PConsume | PDone true => 1 | _ => 0 end.

(** ** The invariant *)

(** The counter that bounds the comparisons, while a code that expires at [exp] is
    outstanding: it outlives the code. *)
Definition counter (c : option entry) (exp : timestamp) (z : Z) : Prop :=
  match c with
  | None => z = 0%Z
  | Some (mk_entry (RInt n) ex) =>
      z = n ∧ (0 ≤ n)%Z ∧ match ex with None => True | Some t => (exp ≤ t)%Z end
  | Some _ => False
  end.

Definition compared (y : system) : Z := Z.of_nat (List.length (sy_compared y)).
Definition n_pending (y : system) : Z := Z.of_nat (count pending (sy_calls y)).
Definition n_accepted (y : system) : Z := Z.of_nat (count accepted (sy_calls y)).

(** While a code is outstanding, the comparisons made and to come are bounded by the
    counter and by the limit. *)
Definition code_live (code : string) (y : system) : Prop :=
  let s := sy_store y in
  ∃ exp z, live (rs_now s) (rs_db s) (code_key user_id) = Some (mk_entry (RStr code) (Some exp))
    ∧ (exp ≤ deadline (rs_now s) (OTP_TTL_SECONDS settings))%Z
    ∧ counter (live (rs_now s) (rs_db s) (attempts_key user_id)) exp z
    ∧ (compared y + n_pending y ≤ z)%Z
    ∧ (compared y + n_pending y ≤ OTP_MAX_ATTEMPTS settings)%Z.

Definition code_dead (y : system) : Prop :=
  let s := sy_store y in live (rs_now s) (rs_db s) (code_key user_id) = None.

Definition Inv (code : string) (y : system) : Prop :=
  (compared y ≤ OTP_MAX_ATTEMPTS settings)%Z ∧ (n_accepted y ≤ compared y)%Z ∧
  (code_dead y ∨ code_live code y).

Lemma inv_issued code s :
  (0 < OTP_TTL_SECONDS settings)%Z → (1 ≤ OTP_MAX_ATTEMPTS settings)%Z →
  Inv code (issued code s).
Proof.
  intros Ht Hm. destruct (otp_rel_issue settings user_id code s Ht) as (s' & Hi & _ & _ & Hrel).
  unfold issued. rewrite Hi. split; [|split]; cbn; [unfold compared; cbn; lia|done|].
  cbn in Hrel. destruct Hrel as [Hdl Ho].
  destruct (_ <=? _)%Z; [by left|]. right. destruct Ho as [Hlive Hatt].
  eexists _, 0%Z. split_and!; [exact Hlive|exact Hdl| |done|unfold compared, n_pending; cbn; lia].
  cbn. destruct (live _ _ (attempts_key _)) as [[[] []]|]; naive_solver lia.
Qed.

(** What replacing a call by its next state does to the counts. *)
Lemma exec_counts y i x p p' s' g :
  sy_calls y !! i = Some (mk_call x p) →
  let y' := mk_system s' (<[i := mk_call x p']> (sy_calls y)) (sy_compared y ++ g) in
  compared y' = (compared y + Z.of_nat (List.length g))%Z ∧
  (n_pending y' + Z.of_nat (pending p) = n_pending y + Z.of_nat (pending p'))%Z ∧
  (n_accepted y' + Z.of_nat (accepted p) = n_accepted y + Z.of_nat (accepted p'))%Z.
Proof.
  intros Hi. unfold compared, n_pending, n_accepted. cbn.
  pose proof (count_insert pending _ _ _ (mk_call x p') Hi).
  pose proof (count_insert accepted _ _ _ (mk_call x p') Hi).
  cbn in *. rewrite length_app. lia.
Qed.

(** Without a code, no command compares anything and none creates a code. *)
Lemma call_step_dead x p s :
  live (rs_now s) (rs_db s) (code_key user_id) = None →
  let '(r, s') := call_step x p s in
  live (rs_now s') (rs_db s') (code_key user_id) = None ∧
  match r with
  | Ok (p', g) => g = [] ∧ (accepted p' ≤ accepted p)%nat
  | Err _ => True
  end.
Proof.
  intros Hd. pose proof (code_attempts_key user_id user_id) as Hne.
  destruct p; unfold call_step; redis_run; rewrite ?Hd; try done.
  - repeat case_match; simplify_eq; cbn;
      rewrite ?live_insert_ne by (by apply not_eq_sym); try done;
      split_and!; try done; unfold after_attempts; by case_match.
  - repeat case_match; simplify_eq; cbn;
      rewrite ?live_insert_ne by (by apply not_eq_sym); try done;
      split_and!; try done; unfold after_attempts; by case_match.
  - redis_run; cbn. by rewrite live_delete_eq.
  - redis_run; cbn. by rewrite live_delete_ne, live_delete_eq by (by apply not_eq_sym).
Qed.

(** With a code outstanding, a command takes it away, or lets the counter pay for
    every comparison made or announced. *)
Definition paid (p p' : pc) (g : list string) (z z' : Z) : Prop :=
  let before := Z.of_nat (pending p) in
  let after := Z.of_nat (List.length g + pending p') in
  (z ≤ z' ∧ after ≤ before + (z' - z)
   ∧ (after ≤ before ∨ z' ≤ OTP_MAX_ATTEMPTS settings))%Z.

Lemma after_attempts_paid n p :
  pending p = 0%nat → paid p (after_attempts n) [] (n - 1) n.
Proof.
  intros Hp. unfold paid, after_attempts. rewrite Hp.
  destruct (Z.ltb_spec (OTP_MAX_ATTEMPTS settings) n); cbn; lia.
Qed.

Lemma incr_counter exp z s :
  let key := attempts_key user_id in
  counter (live (rs_now s) (rs_db s) key) exp z →
  (∃ e, redis_incr key s = (Err e, s)) ∨
  ∃ s', redis_incr key s = (Ok (z + 1)%Z, s') ∧ rs_now s' = rs_now s
    ∧ live (rs_now s) (rs_db s') (code_key user_id)
      = live (rs_now s) (rs_db s) (code_key user_id)
    ∧ counter (live (rs_now s) (rs_db s') key) exp (z + 1).
Proof.
  intros key Hc. assert (key ≠ code_key user_id) by (apply not_eq_sym, code_attempts_key).
  unfold redis_incr, look. run. unfold counter in Hc.
  destruct (live _ _ key) as [[[| n | | |] ex]|] eqn:E; try done; simplify_eq.
  - destruct Hc as (-> & Hn & Hex). destruct (n =? _)%Z; [left; by eexists|]. right.
    eexists. split_and!; [done|done|cbn; by rewrite live_insert_ne|].
    apply live_Some in E as [_ E]. unfold expired in E. cbn in *.
    rewrite live_insert_eq. unfold expired; cbn. rewrite E. cbn. split_and!; [done|lia|done].
  - right. eexists. split_and!; [done|done|cbn; by rewrite live_insert_ne|].
    cbn. rewrite live_insert_eq. cbn. split_and!; [done|lia|done].
Qed.

Lemma counter_expire exp z s :
  let key := attempts_key user_id in
  let dl := deadline (rs_now s) (OTP_TTL_SECONDS settings) in
  (0 < OTP_TTL_SECONDS settings)%Z → (exp ≤ dl)%Z →
  counter (live (rs_now s) (rs_db s) key) exp z →
  ∃ b s', redis_expire key (OTP_TTL_SECONDS settings) s = (Ok b, s') ∧ rs_now s' = rs_now s
    ∧ live (rs_now s) (rs_db s') (code_key user_id)
      = live (rs_now s) (rs_db s) (code_key user_id)
    ∧ counter (live (rs_now s) (rs_db s') key) exp z.
Proof.
  intros key dl Ht Hdl Hc. assert (key ≠ code_key user_id) by (apply not_eq_sym, code_attempts_key).
  unfold redis_expire, look. run.
  destruct (live _ _ key) as [e|] eqn:E; [|eexists _, _; by rewrite ?E].
  eexists _, _. split_and!; [done|done|cbn; by rewrite live_insert_ne|].
  cbn. rewrite live_insert_eq. fold dl. unfold expired; cbn.
  rewrite (proj2 (Z.leb_gt dl (rs_now s))) by (unfold dl, deadline, second; lia).
  destruct e as [[| n | | |] ex]; naive_solver.
Qed.

Lemma call_step_live x p s code exp z :
  (0 < OTP_TTL_SECONDS settings)%Z → (1 ≤ OTP_MAX_ATTEMPTS settings)%Z →
  live (rs_now s) (rs_db s) (code_key user_id) = Some (mk_entry (RStr code) (Some exp)) →
  (exp ≤ deadline (rs_now s) (OTP_TTL_SECONDS settings))%Z →
  counter (live (rs_now s) (rs_db s) (attempts_key user_id)) exp z →
  let '(r, s') := call_step x p s in
  rs_now s' = rs_now s ∧
  match r with
  | Err _ => s' = s
  | Ok (p', g) =>
      (accepted p' ≤ accepted p + List.length g)%nat ∧
      ((live (rs_now s) (rs_db s') (code_key user_id) = None ∧ g = []) ∨
       (live (rs_now s) (rs_db s') (code_key user_id)
          = live (rs_now s) (rs_db s) (code_key user_id) ∧
        ∃ z', counter (live (rs_now s) (rs_db s') (attempts_key user_id)) exp z'
              ∧ paid p p' g z z'))
  end.
Proof.
  intros Ht Hm Hlive Hdl Hc. pose proof (code_attempts_key user_id user_id) as Hne.
  assert (attempts_key user_id ≠ code_key user_id) as Hne' by by apply not_eq_sym.
  destruct p; unfold call_step, mbind, prog_bind.
  - destruct (incr_counter exp z s Hc) as [[e He]|(s' & He & Hnow & Hcode & Hc')].
    { by rewrite (bind_err _ _ _ _ _ He). }
    rewrite (bind_ok _ _ _ _ _ He). cbn. split; [done|]. case_decide as Hz.
    + split; [cbn; lia|]. right. split; [done|]. exists (z + 1)%Z. split; [done|].
      unfold paid; cbn; lia.
    + split; [unfold after_attempts; case_match; cbn; lia|]. right. split; [done|].
      exists (z + 1)%Z. split; [done|].
      replace z with (z + 1 - 1)%Z at 2 by lia. by apply after_attempts_paid.
  - destruct (counter_expire exp z s Ht Hdl Hc) as (b & s' & He & Hnow & Hcode & Hc').
    rewrite (bind_ok _ _ _ _ _ He). cbn. split; [done|].
    unfold after_attempts. rewrite (proj2 (Z.ltb_ge _ _)) by lia.
    split; [cbn; lia|]. right. split; [done|]. exists z. split; [done|]. unfold paid; cbn; lia.
  - redis_run; cbn. split; [done|]. split; [lia|]. left. by rewrite live_delete_eq.
  - redis_run. rewrite Hlive. cbn. split; [done|].
    split; [repeat case_match; cbn; lia|]. right. split; [done|]. exists z. split; [done|].
    unfold paid; case_match; cbn; lia.
  - redis_run; cbn. split; [done|]. split; [lia|]. left.
    by rewrite live_delete_ne, live_delete_eq by done.
  - cbn. split; [done|]. split; [lia|]. right. split; [done|]. exists z. split; [done|].
    unfold paid; cbn; lia.
  - cbn. split; [done|]. split; [lia|]. right. split; [done|]. exists z. split; [done|].
    unfold paid; cbn; lia.
Qed.

(** ** Every step keeps the invariant *)

Lemma inv_arrive code y x :
  Inv code y → Inv code (mk_system (sy_store y) (sy_calls y ++ [mk_call x PIncr]) (sy_compared y)).
Proof.
  unfold Inv, code_live, code_dead, compared, n_pending, n_accepted. cbn.
  rewrite !count_app. cbn. rewrite !Nat.add_0_r. done.
Qed.

Lemma inv_tick code y d :
  (0 ≤ d)%Z → Inv code y →
  Inv code (mk_system ((sy_store y) <| rs_now ::= λ t, (t + d)%Z |>) (sy_calls y) (sy_compared y)).
Proof.
  intros Hd (? & ? & Hy). split_and!; [done|done|].
  destruct y as [[now db] calls cmp]. unfold code_dead, code_live in *. cbn in *.
  assert (now ≤ now + d)%Z as Hle by lia.
  destruct Hy as [Hy|(exp & z & Hlive & Hdl & Hc & ? & ?)]; rewrite (live_later now) by done.
  { left. by rewrite Hy. }
  rewrite Hlive. unfold expired; cbn. destruct (Z.leb_spec exp (now + d)) as [He|He]; [by left|].
  right. exists exp, z. split_and!; [done|unfold deadline in *; lia| |done|done].
  rewrite (live_later now) by done. unfold counter, expired in *.
  destruct (live now db (attempts_key user_id)) as [[[| n | | |] [t|]]|]; cbn in *; try done.
  by rewrite (proj2 (Z.leb_gt t (now + d))) by lia.
Qed.

Lemma inv_exec code y i :
  (0 < OTP_TTL_SECONDS settings)%Z → (1 ≤ OTP_MAX_ATTEMPTS settings)%Z →
  Inv code y → Inv code (exec i y).
Proof.
  intros Ht Hm (Hcmp & Hacc & Hy). unfold exec.
  destruct (sy_calls y !! i) as [[x p]|] eqn:Hi; [|done].
  destruct Hy as [Hdead|(exp & z & Hlive & Hdl & Hc & Hz & Hmax)].
  - pose proof (call_step_dead x p _ Hdead) as Hs.
    destruct (call_step x p (sy_store y)) as [[[p' g]|e] s']; destruct Hs as [Hs Hr].
    + destruct Hr as [-> Hr].
      destruct (exec_counts y i x p p' s' [] Hi) as (H1 & H2 & H3). cbn [List.length] in *.
      split_and!; [lia|lia|by left].
    + destruct (exec_counts y i x p (PFail e) s' [] Hi) as (H1 & H2 & H3).
      rewrite app_nil_r in *. cbn [List.length accepted] in *. split_and!; [lia|lia|by left].
  - pose proof (call_step_live x p _ code exp z Ht Hm Hlive Hdl Hc) as Hs.
    destruct (call_step x p (sy_store y)) as [[[p' g]|e] s']; destruct Hs as [Hnow Hr].
    + destruct (exec_counts y i x p p' s' g Hi) as (H1 & H2 & H3). destruct Hr as [Ha Hr].
      destruct Hr as [[Hgone ->]|(Hsame & z' & Hc' & Hpaid)].
      * cbn [List.length] in *. split_and!; [lia|lia|left].
        unfold code_dead; cbn. by rewrite Hnow.
      * unfold paid in Hpaid.
        split_and!; [unfold n_pending in *; lia|lia|right]. exists exp, z'. cbn [sy_store].
        rewrite Hnow, Hsame. split_and!; [done|done|done|lia|lia].
    + subst s'. destruct (exec_counts y i x p (PFail e) (sy_store y) [] Hi) as (H1 & H2 & H3).
      rewrite app_nil_r in *. cbn [List.length accepted pending] in *.
      split_and!; [lia|lia|right]. exists exp, z. split_and!; [done|done|done|lia|lia].
Qed.

Lemma reachable_inv code s y :
  (0 < OTP_TTL_SECONDS settings)%Z → (1 ≤ OTP_MAX_ATTEMPTS settings)%Z →
  reachable code s y → Inv code y.
Proof.
  intros Ht Hm Hr. unfold reachable in Hr.
  assert (∀ y0, Inv code y0 → rtc step y0 y → Inv code y) as H.
  { clear Hr. intros y0 H0 H1. induction H1 as [|y1 y2 y3 Hs _ IH]; [done|]. apply IH.
    destruct Hs; [by apply inv_arrive|by apply inv_exec|by apply inv_tick]. }
  by eapply H; [apply inv_issued|].
Qed.

(** ** Properties *)

Lemma run_call_done f b x s : run_call f x (PDone b) s = (Ok b, s).
Proof. by destruct f. Qed.

(** Past the counter, a call is the rest of [verify]. *)
Lemma run_after_attempts f x n s :
  run_call (S (S f)) x (after_attempts n) s = after_count settings user_id x n s.
Proof.
  unfold after_attempts, after_count. case_match; cbn [run_call call_step].
  - redis_run. done.
  - redis_run. destruct (live _ _ _) as [[[] ?]|]; try done;
      destruct (constant_time_compare _ _); cbn [run_call call_step]; try done;
      redis_run; by destruct f.
Qed.

Lemma run_incr f x s :
  run_call (S f) x PIncr s
  = bind (redis_incr (attempts_key user_id))
      (λ n, run_call f x (if decide (n = 1)%Z then PExpire else after_attempts n)) s.
Proof. cbn [run_call call_step]. run. by destruct (redis_incr _ s) as [[] ?]. Qed.

Lemma run_expire f x s :
  run_call (S f) x PExpire s
  = bind (redis_expire (attempts_key user_id) (OTP_TTL_SECONDS settings))
      (λ _, run_call f x (after_attempts 1)) s.
Proof. cbn [run_call call_step]. run. by destruct (redis_expire _ _ s) as [[] ?]. Qed.

(** The step machine is the code: the commands of one call, run without
    interruption, are [OtpService.verify]; four commands at most finish it. *)
Theorem run_call_verify submitted s :
  run_call 4 submitted PIncr s = otp_verify settings user_id submitted s.
Proof.
  rewrite run_incr. unfold otp_verify, mbind, prog_bind. unfold bind at 1 2.
  destruct (redis_incr _ s) as [[n|e] s1]; [|done]. case_decide as Hn.
  - subst n. rewrite run_expire, bind_assoc. unfold bind at 1 2.
    destruct (redis_expire _ _ s1) as [[b|e] s2]; [|done]. apply run_after_attempts.
  - apply run_after_attempts.
Qed.

(** C9. Guessing is bounded under concurrency too: in every state that calls of
    [verify] can reach after a code is issued - any number of requests, any
    interleaving of their Redis commands, any delays - at most [OTP_MAX_ATTEMPTS]
    guesses have been compared with the code, and at most that many accepted. *)
Theorem otp_concurrent_bound code s y :
  (0 < OTP_TTL_SECONDS settings)%Z → (1 ≤ OTP_MAX_ATTEMPTS settings)%Z →
  reachable code s y →
  (Z.of_nat (List.length (sy_compared y)) ≤ OTP_MAX_ATTEMPTS settings)%Z ∧
  (Z.of_nat (count accepted (sy_calls y)) ≤ OTP_MAX_ATTEMPTS settings)%Z.
Proof.
  intros Ht Hm Hr. destruct (reachable_inv _ _ _ Ht Hm Hr) as (? & ? & _).
  unfold compared, n_accepted in *. lia.
Qed.
End Concurrent.

(** ** A schedule that accepts one code twice *)

(** Run the calls of a list in turn. *)
Definition schedule (settings : Settings) (user_id : UUID) (turns : list nat) (y : system)
    : system :=
  foldl (λ y i, exec settings user_id i y) y turns.

Lemma schedule_steps settings user_id turns y :
  rtc (step settings user_id) y (schedule settings user_id turns y).
Proof.
  revert y. induction turns as [|i turns IH]; intros y; [done|].
  eapply rtc_l; [apply step_exec|]. apply IH.
Qed.

Definition two_calls (user_id : UUID) (code : string) : system :=
  let s := (issue default_settings user_id code empty_rstate).2 in
  mk_system s [mk_call code PIncr; mk_call code PIncr] [].

(** One-time use is not atomic: two requests that submit the code at once can
    both be accepted, each reading it before the other deletes it. *)
Theorem otp_double_accept :
  ∃ y, reachable default_settings (uid 1) "123456" empty_rstate y ∧
       c_pc <$> sy_calls y = [PDone true; PDone true].
Proof.
  exists (schedule default_settings (uid 1) [0; 1; 0; 0; 1; 0; 1]%nat (two_calls (uid 1) "123456")).
  split; [|by vm_compute]. unfold reachable.
  do 2 (eapply rtc_l; [apply (step_arrive _ _ _ "123456")|]).
  apply schedule_steps.
Qed.

Lemma otp_concurrent_bound_witness :
  let y := schedule default_settings (uid 1) [0; 1; 0; 0; 1; 0; 1]%nat
             (two_calls (uid 1) "123456") in
  (Z.of_nat (List.length (sy_compared y)) ≤ OTP_MAX_ATTEMPTS default_settings)%Z ∧
  (Z.of_nat (count accepted (sy_calls y)) ≤ OTP_MAX_ATTEMPTS default_settings)%Z.
Proof.
  intros y. apply (otp_concurrent_bound default_settings (uid 1) "123456" empty_rstate y);
    [done|done|].
  unfold reachable. do 2 (eapply rtc_l; [apply (step_arrive _ _ _ "123456")|]).
  apply schedule_steps.
Defined.
