(* ===== verification/Auth.v ===== *)
(** [app/api/routes/auth.py] and [app/services/sms_gateway.py]: requesting a code,
    logging in, WebSocket tickets and session management. *)

From S2P Require Import Prelude Effects PyStr Uuid Redis Models Schemas World Pubsub.
From S2P Require Import Config Security Otp.
From stdpp Require Import pretty.
From Stdlib Require Import String.

Local Open Scope string_scope.

Definition OTP_COOLDOWN_SECONDS : Z := 60.
Definition OTP_MAX_PER_HOUR : Z := 5.
Definition WS_TICKET_TTL_SECONDS : Z := 30.

Definition cooldown_key (phone : string) : string := "otp:cooldown:" ++ phone.
Definition hourly_key (phone : string) : string := "otp:hourly:" ++ phone.
Definition ip_key (ip : string) : string := "otp:ip:" ++ ip.

(** [_rate_limit_otp], on the OTP database. *)
Definition rate_limit_otp (phone ip : string) : prog rstate Z :=
  cooling ← redis_exists (cooldown_key phone);
  (if (cooling : bool) then
     ttl ← redis_ttl (cooldown_key phone);
     raise (HTTPException 429
       ("Please wait " ++ pretty ttl ++ "s before requesting another code"))
   else mret tt) ;;
  hourly ← redis_incr (hourly_key phone);
  (if decide (hourly = 1)%Z
   then redis_expire (hourly_key phone) 3600 ;; mret tt else mret tt) ;;
  ip_count ← redis_incr (ip_key ip);
  (if decide (ip_count = 1)%Z
   then redis_expire (ip_key ip) 3600 ;; mret tt else mret tt) ;;
  (if (OTP_MAX_PER_HOUR <? hourly)%Z || (OTP_MAX_PER_HOUR * 4 <? ip_count)%Z
   then raise (HTTPException 429 "Too many attempts. Try again later.")
   else mret tt) ;;
  redis_set (cooldown_key phone) "1" (Some OTP_COOLDOWN_SECONDS) ;;
  mret OTP_COOLDOWN_SECONDS.

(** [request.client.host if request.client else "unknown"] *)
Definition client_ip (client : option string) : string := default "unknown" client.

Record RequestOtpOut := mk_RequestOtpOut { detail : string; retry_after_seconds : Z }.

Record UserOut := mk_UserOut {
  uo_id : UUID; uo_full_name : string; uo_username : option string; uo_role : string;
  uo_avatar_url : option string
}.

(** [UserOut.model_validate(user)]: a [User] has no [avatar_url]. *)
Definition UserOut_of (u : User) : UserOut :=
  mk_UserOut (u_id u) (u_full_name u) (u_username u) (u_role u) None.

Record VerifyOut (token : Type) := mk_VerifyOut {
  access_token : token;
  refresh_token : string;
  expires_in : Z;
  session_id : UUID;
  vo_user : UserOut
}.
Arguments mk_VerifyOut {token}.
Arguments access_token {token}.
Arguments refresh_token {token}.
Arguments session_id {token}.
Arguments vo_user {token}.
Arguments expires_in {token}.

Record SessionOut := mk_SessionOut {
  so_id : UUID;
  so_device_type : option string;
  so_device_name : option string;
  so_ip_address : string;
  so_geo_city : option string;
  so_created_at : timestamp;
  so_last_active_at : option timestamp;
  so_is_current : bool
}.

(** [SessionOut.model_validate(s)]: a [UserSession] has no [is_current]. *)
Definition SessionOut_of (s : UserSession) : SessionOut :=
  mk_SessionOut (s_id s) (s_device_type s) (s_device_name s) (s_ip_address s)
    (s_geo_city s) (s_created_at s) (s_last_active_at s) false.

Record WsTicketOut := mk_WsTicketOut { ticket : string; wt_expires_in : Z; ws_url : string }.

(** [_classify_device] *)
Definition classify_device (user_agent : string) : string :=
  let ua := lower user_agent in
  if existsb (λ k, str_in k ua) ["android"; "iphone"; "mobile"] then "mobile"
  else if str_in "ipad" ua || str_in "tablet" ua then "tablet"
  else if existsb (λ k, str_in k ua) ["windows"; "macintosh"; "linux"] then "desktop"
  else "unknown".

(** [db.add(UserSession(...))]: the refresh token's hash is unique. *)
Definition db_add_session (s : UserSession) : prog world unit :=
  clash ← query (λ t, scalar (user_sessions t)
    (λ s', String.eqb (s_refresh_token_hash s') (s_refresh_token_hash s)
           || bool_decide (s_id s' = s_id s)));
  match clash with
  | Some _ => raise (IntegrityError "user_sessions")
  | None => db_change (λ t, t <| user_sessions ::= <[s_id s := s]> |>)
  end.

Definition user_by_phone (phone : string) (t : tables) : option User :=
  scalar (users t) (λ u, String.eqb (u_phone_number u) phone).

(** What a login draws at random: the session's id, the refresh token and the
    token's [jti]. *)
Record login_draws := mk_login_draws {
  ld_session_id : UUID; ld_refresh_token : string; ld_jti : string
}.

Section Auth.
Context (settings : Settings) `{Hashing, Jose}.

(** [SmsGateway.send_otp]; the development branch only logs. *)
Definition send_otp (phone_number code : string) : prog world unit :=
  if decide (ENV settings = "development") then mret tt
  else raise (NotImplementedError "Production SMS provider not configured yet").

(** [request_otp]; [draws] are the random digits of the code. *)
Definition request_otp (body : RequestOtpIn) (client : option string) (draws : list Z)
    : prog world RequestOtpOut :=
  let ip := client_ip client in
  retry_after ← redis_otp (rate_limit_otp (ro_phone_number body) ip);
  user ← query (user_by_phone (ro_phone_number body));
  (match user with
   | Some user =>
       if decide (u_status user = ACTIVE) then
         code ← redis_otp (issue settings (u_id user) (generate_otp draws));
         send_otp (ro_phone_number body) code
       else mret tt
   | None => mret tt
   end) ;;
  mret (mk_RequestOtpOut "If this number is registered, a code has been sent." retry_after).

Definition LOGIN_ERROR : exn :=
  HTTPException 401 "Verification failed. Check your code and credentials.".

(** [user.expiry_date is not None and user.expiry_date < today] *)
Definition account_expired (user : User) (now : timestamp) : bool :=
  match u_expiry_date user with
  | Some d => (d <? date_of now)%Z
  | None => false
  end.

(** [verify]: the login. *)
Definition verify (body : VerifyIn) (client user_agent_header : option string)
    (draws : login_draws) : prog world (VerifyOut jwt) :=
  let ip := client_ip client in
  let user_agent := take_str 512 (default "" user_agent_header) in
  user ← query (user_by_phone (vi_phone_number body));
  user ← some_or_raise user LOGIN_ERROR;
  ensure (bool_decide (u_status user = ACTIVE)) LOGIN_ERROR ;;
  now ← utcnow;
  ensure (negb (account_expired user now)) LOGIN_ERROR ;;
  otp_ok ← redis_otp (otp_verify settings (u_id user) (vi_otp_code body));
  let mil_ok := verify_military_id (vi_military_id body) (u_hashed_military_id user) in
  (if negb (otp_ok && mil_ok) then
     add_audit ((audit (Some (u_id user)) LOGIN_FAILED false)
       <| al_actor_role := Some (u_role user) |> <| al_ip_address := Some ip |>
       <| al_user_agent := Some user_agent |>
       <| al_error_code := Some "otp_or_mid_mismatch" |>) ;;
     commit ;;
     raise LOGIN_ERROR
   else mret tt) ;;
  let fingerprint_changed :=
    match u_device_fingerprint user with
    | Some fp => negb (String.eqb fp (vi_device_fingerprint body))
    | None => false
    end in
  let user' := user <| u_device_fingerprint := Some (vi_device_fingerprint body) |>
    <| u_token_version ::= λ v, (v + 1)%Z |> <| u_last_seen_at := Some now |> in
  db_change (λ t, t <| users ::= <[u_id user := user']> |>) ;;
  let access := create_access_token settings (u_id user') (u_token_version user')
    (u_role user') now (ld_jti draws) in
  db_add_session (mk_UserSession (ld_session_id draws) now (u_id user)
    (hash_refresh_token (ld_refresh_token draws)) ip (Some user_agent)
    (Some (classify_device user_agent)) None None None
    (now + days (REFRESH_TOKEN_EXPIRE_DAYS settings))%Z None) ;;
  add_audit ((audit (Some (u_id user)) LOGIN_SUCCESS true)
    <| al_actor_role := Some (u_role user) |> <| al_ip_address := Some ip |>
    <| al_user_agent := Some user_agent |>
    <| al_metadata := Some (JObj [("fingerprint_changed", JBool fingerprint_changed)]) |>) ;;
  (if (fingerprint_changed : bool) then
     add_audit ((audit (Some (u_id user)) DEVICE_FINGERPRINT_CHANGED true)
       <| al_actor_role := Some (u_role user) |> <| al_ip_address := Some ip |>)
   else mret tt) ;;
  commit ;;
  mret (mk_VerifyOut access (ld_refresh_token draws)
    (ACCESS_TOKEN_EXPIRE_MINUTES settings * 60)%Z (ld_session_id draws) (UserOut_of user')).

(** [create_ws_ticket]; [t] is what [token_urlsafe(32)] returned. *)
Definition ticket_key (t : string) : string := "ws:ticket:" ++ t.
Definition create_ws_ticket (user : User) (t : string) : prog world WsTicketOut :=
  redis_sessions (redis_set (ticket_key t) (uuid_str (u_id user)) (Some WS_TICKET_TTL_SECONDS)) ;;
  mret (mk_WsTicketOut t WS_TICKET_TTL_SECONDS ("/ws/chat?ticket=" ++ t)).

(** A session that is neither revoked nor expired. *)
Definition session_active (user_id : UUID) (now : timestamp) (s : UserSession) : bool :=
  bool_decide (s_user_id s = user_id) && bool_decide (s_revoked_at s = None)
  && (now <? s_expires_at s)%Z.

Definition list_sessions (user : User) : prog world (list SessionOut) :=
  now ← utcnow;
  sessions ← query (λ t, order_by_desc s_created_at
    (select (user_sessions t) (session_active (u_id user) now)));
  mret (SessionOut_of <$> sessions).

Definition revoke_session (sid : UUID) (user : User) : prog world unit :=
  session ← query (λ t, scalar (user_sessions t)
    (λ s, bool_decide (s_id s = sid) && bool_decide (s_user_id s = u_id user)
          && bool_decide (s_revoked_at s = None)));
  session ← some_or_raise session (HTTPException 404 "session not found");
  now ← utcnow;
  db_change (λ t, t <| user_sessions ::= <[s_id session :=
    session <| s_revoked_at := Some now |>]> |>) ;;
  add_audit ((audit (Some (u_id user)) SESSION_REVOKED true)
    <| al_actor_role := Some (u_role user) |>
    <| al_resource_type := Some "user_session" |>
    <| al_resource_id := Some (uuid_str sid) |>) ;;
  commit ;;
  publish (u_id user) (JObj [("type", JStr "session_revoked"); ("session_id", JStr (uuid_str sid))]).
End Auth.

(** ** The rate limiter *)

(** Requests for one phone number, each after a delay and from some address: the
    instants at which a code was allowed. *)
Fixpoint rate_run (phone : string) (requests : list (Z * string)) : prog rstate (list timestamp) :=
  match requests with
  | [] => mret []
  | (delay, ip) :: requests' =>
      wait delay ;;
      ok ← try_except (rate_limit_otp phone ip ;; mret true) (λ _, mret false);
      now ← gets rs_now;
      rest ← rate_run phone requests';
      mret (if (ok : bool) then now :: rest else rest)
  end.

(** The three keys are apart, whatever the phone and the address. *)
Lemma hourly_cooldown phone phone' : hourly_key phone ≠ cooldown_key phone'.
Proof. by intros [=]. Qed.
Lemma ip_cooldown ip phone : ip_key ip ≠ cooldown_key phone.
Proof. by intros [=]. Qed.
Lemma ip_hourly ip phone : ip_key ip ≠ hourly_key phone.
Proof. by intros [=]. Qed.
#[local] Hint Resolve hourly_cooldown ip_cooldown ip_hourly not_eq_sym : core.

Section RateLimit.
Context (phone : string).

(** Since the hour began [a] codes were allowed; the hourly counter knows, and lasts
    until after [until]. *)
Definition hourly_ok (a until : Z) (s : rstate) : Prop :=
  match live (rs_now s) (rs_db s) (hourly_key phone) with
  | None => a = 0%Z ∧ (until < deadline (rs_now s) 3600)%Z
  | Some (mk_entry (RInt n) (Some dl)) => (a ≤ n ∧ 1 ≤ n ∧ until < dl)%Z
  | Some _ => False
  end.

Definition cooling_until (t : timestamp) (s : rstate) : Prop :=
  (rs_now s < t)%Z → live (rs_now s) (rs_db s) (cooldown_key phone) = Some (mk_entry (RStr "1") (Some t)).

(** The limiter as one function of the three entries. *)
Lemma rate_limit_run ip s :
  let now := rs_now s in
  rate_limit_otp phone ip s
  = match live now (rs_db s) (cooldown_key phone) with
    | Some e =>
        (Err (HTTPException 429 ("Please wait " ++ pretty (ttl_of now (Some e))
                                 ++ "s before requesting another code")), s)
    | None =>
        match window_step now 3600 (live now (rs_db s) (hourly_key phone)) with
        | Err e => (Err e, s)
        | Ok (h, ex) =>
            let s1 := s <| rs_db ::= <[hourly_key phone := mk_entry (RInt h) ex]> |> in
            match window_step now 3600 (live now (rs_db s) (ip_key ip)) with
            | Err e => (Err e, s1)
            | Ok (c, ex') =>
                let s2 := s1 <| rs_db ::= <[ip_key ip := mk_entry (RInt c) ex']> |> in
                if (OTP_MAX_PER_HOUR <? h)%Z || (OTP_MAX_PER_HOUR * 4 <? c)%Z
                then (Err (HTTPException 429 "Too many attempts. Try again later."), s2)
                else (Ok OTP_COOLDOWN_SECONDS, s2 <| rs_db ::= <[cooldown_key phone :=
                       mk_entry (RStr "1") (Some (deadline now OTP_COOLDOWN_SECONDS))]> |>)
            end
        end
    end.
Proof.
  intros now. destruct (live now (rs_db s) (cooldown_key phone)) as [e|] eqn:E;
    unfold rate_limit_otp; rewrite (step_ok _ _ _ _ _ (exists_run _ _)); fold now; rewrite E.
  - rewrite bool_decide_true by done. apply step_err.
    rewrite (step_ok _ _ _ _ _ (ttl_run _ _)). fold now. by rewrite E.
  - rewrite bool_decide_false by (by intros []).
    rewrite (step_ok _ _ s tt s) by done. rewrite window_run. fold now.
    destruct (window_step now 3600 _) as [[h ex]|]; [|done]. rewrite window_run.
    cbn [rs_now rs_db over]. rewrite live_insert_ne by auto. fold now.
    destruct (window_step now 3600 _) as [[c ex']|]; [|done]. by case_match.
Qed.

(** One request: if it is allowed, no cooldown was running, a new one starts, and the
    hour's budget had room. *)
Lemma rate_limit_step a until ip s :
  hourly_ok a until s → (rs_now s ≤ until)%Z → (0 ≤ a)%Z →
  let '(r, s') := rate_limit_otp phone ip s in
  rs_now s' = rs_now s ∧
  match r with
  | Ok _ =>
      live (rs_now s) (rs_db s) (cooldown_key phone) = None ∧ (a + 1 ≤ OTP_MAX_PER_HOUR)%Z
      ∧ hourly_ok (a + 1) until s' ∧ cooling_until (deadline (rs_now s) OTP_COOLDOWN_SECONDS) s'
  | Err _ =>
      hourly_ok a until s' ∧
      live (rs_now s) (rs_db s') (cooldown_key phone) = live (rs_now s) (rs_db s) (cooldown_key phone)
  end.
Proof.
  intros Hh Hnow Ha. rewrite rate_limit_run. cbv zeta.
  destruct (live _ _ (cooldown_key phone)) as [e|] eqn:Ec; [by rewrite Ec|].
  (* the counter after this request *)
  assert (∀ h ex, window_step (rs_now s) 3600 (live (rs_now s) (rs_db s) (hourly_key phone))
                  = Ok (h, ex) →
    ∃ dl, ex = Some dl ∧ (a + 1 ≤ h ∧ 1 ≤ h ∧ until < dl)%Z) as Hw.
  { intros h ex. unfold hourly_ok in Hh.
    destruct (live _ _ (hourly_key phone)) as [[[| n | | |] [dl|]]|]; try done; cbn.
    - destruct (n =? _)%Z; [done|]. intros [= <- <-]. rewrite decide_False by lia.
      exists dl. split; [done|lia].
    - intros [= <- <-]. eexists. split; [done|lia]. }
  destruct (window_step _ _ (live _ _ (hourly_key _))) as [[h ex]|]; [|done].
  destruct (Hw h ex eq_refl) as (dl & -> & Hah & Hh1 & Hdl).
  assert (∀ b db, db !! hourly_key phone = Some (mk_entry (RInt h) (Some dl)) → (b ≤ h)%Z →
    hourly_ok b until (mk_rstate (rs_now s) db)) as Hok.
  { intros b db Hdb Hb. unfold hourly_ok, live, expired. cbn. rewrite Hdb. cbn.
    by rewrite (proj2 (Z.leb_gt dl (rs_now s))) by lia. }
  destruct (window_step _ _ _) as [[c ex']|e]; [|split; [done|split; [|]]].
  - destruct (_ || _) eqn:Elim; (split; [done|]).
    + split.
      * apply Hok; [cbn|lia]. by rewrite lookup_insert_ne, lookup_insert_eq by auto.
      * by cbn; rewrite !live_insert_ne by auto.
    + reflect_bools. split_and!; [done|lia| |].
      * apply Hok; [cbn|lia]. by rewrite !lookup_insert_ne, lookup_insert_eq by auto.
      * intros Hlt. cbn [rs_now rs_db over] in *. rewrite live_insert_eq.
        unfold expired; cbn. by rewrite (proj2 (Z.leb_gt _ _) Hlt).
  - apply Hok; [cbn|lia]. by rewrite lookup_insert_eq.
  - by cbn; rewrite live_insert_ne by auto.
Qed.

(** Waiting, with the end of the hour fixed. *)
Lemma hourly_ok_wait a until s delay :
  hourly_ok a until s → (0 ≤ delay)%Z → (rs_now s + delay ≤ until)%Z →
  hourly_ok a until (s <| rs_now ::= λ t, (t + delay)%Z |>).
Proof.
  unfold hourly_ok. intros Hh Hd Hle. cbn. rewrite (live_later (rs_now s)) by lia.
  destruct (live _ _ _) as [[[| n | | |] [dl|]]|]; try done; unfold expired, deadline in *; cbn.
  - by rewrite (proj2 (Z.leb_gt dl _)) by lia.
  - lia.
Qed.

Lemma cooling_until_wait t s delay :
  cooling_until t s → (0 ≤ delay)%Z → cooling_until t (s <| rs_now ::= λ t, (t + delay)%Z |>).
Proof.
  unfold cooling_until. intros Hc Hd Hlt. cbn in Hlt |- *.
  rewrite (live_later (rs_now s)) by lia. rewrite Hc by lia. unfold expired; cbn.
  by rewrite (proj2 (Z.leb_gt t _)) by lia.
Qed.

(** Allowed instants are a minute apart. *)
Definition spaced : list timestamp → Prop :=
  StronglySorted (λ t t', deadline t OTP_COOLDOWN_SECONDS ≤ t')%Z.

Lemma rate_run_bound requests a until last s :
  hourly_ok a until s → cooling_until last s → (0 ≤ a ≤ OTP_MAX_PER_HOUR)%Z →
  Forall (λ r, 0 ≤ r.1)%Z requests → (rs_now s + total_delay requests ≤ until)%Z →
  ∃ ts s', rate_run phone requests s = (Ok ts, s')
    ∧ (a + Z.of_nat (List.length ts) ≤ OTP_MAX_PER_HOUR)%Z
    ∧ spaced ts ∧ Forall (λ t, last ≤ t)%Z ts.
Proof.
  revert a last s. induction requests as [|[delay ip] requests IH];
    intros a last s Hh Hc Ha Hdel Hend.
  { exists [], s. split; [done|]. cbn. split; [lia|]. split; [constructor|done]. }
  inversion_clear Hdel as [|? ? Hd Hdel']. pose proof (total_delay_nonneg _ Hdel').
  cbn [fst total_delay rate_run] in *.
  apply (hourly_ok_wait _ _ _ delay) in Hh; [|done|lia].
  apply (cooling_until_wait _ _ delay) in Hc; [|done].
  set (s0 := s <| rs_now ::= _ |>) in *.
  assert (rs_now s0 = rs_now s + delay)%Z as Hn0 by done.
  pose proof (rate_limit_step a until ip s0 Hh ltac:(lia) ltac:(lia)) as Hs.
  rewrite (step_ok _ _ s tt s0) by done.
  destruct (rate_limit_otp phone ip s0) as [[z|e] s1] eqn:Er; destruct Hs as [Hnow Hs].
  - rewrite (step_ok _ _ s0 true s1)
      by (unfold try_except; by rewrite (step_ok _ _ _ _ _ Er)).
    rewrite (step_ok _ _ s1 (rs_now s1) s1) by done. destruct Hs as (Hnone & Hroom & Hh' & Hc').
    destruct (IH (a + 1)%Z _ s1 Hh' Hc') as (ts & s' & Hrun & Hlen & Hsp & Hall);
      [lia|done|lia|].
    exists (rs_now s1 :: ts), s'. rewrite (step_ok _ _ _ _ _ Hrun). split; [done|].
    cbn [List.length]. split; [lia|]. rewrite Hnow. split.
    + constructor; [done|]. done.
    + assert (last ≤ rs_now s0)%Z as Hlast.
      { destruct (Z.le_gt_cases last (rs_now s0)) as [|Hlt]; [done|].
        rewrite (Hc Hlt) in Hnone. done. }
      constructor; [done|]. eapply Forall_impl; [exact Hall|].
      intros t Ht. unfold deadline, OTP_COOLDOWN_SECONDS, second in *. lia.
  - destruct Hs as [Hh' Hsame].
    rewrite (step_ok _ _ s0 false s1)
      by (unfold try_except; by rewrite (step_err _ _ _ _ _ Er)).
    rewrite (step_ok _ _ s1 (rs_now s1) s1) by done.
    destruct (IH a last s1 Hh') as (ts & s' & Hrun & Hlen & Hsp & Hall); [|lia|done|lia|].
    { unfold cooling_until in *. rewrite Hnow, Hsame. exact Hc. }
    exists ts, s'. rewrite (step_ok _ _ _ _ _ Hrun). done.
Qed.
End RateLimit.

(** C23. The limiter on code requests: from a state without a running hour for this
    phone, over requests from any addresses within one hour, at most five codes are
    allowed, each at least a minute after the one before. The run always returns:
    a refused request leaves no error behind. *)
Theorem rate_limit_bound phone requests s :
  live (rs_now s) (rs_db s) (hourly_key phone) = None →
  Forall (λ r, 0 ≤ r.1)%Z requests → (total_delay requests < 3600 * second)%Z →
  ∃ ts s', rate_run phone requests s = (Ok ts, s')
    ∧ (Z.of_nat (List.length ts) ≤ OTP_MAX_PER_HOUR)%Z ∧ spaced ts.
Proof.
  intros Hnone Hdel Htot.
  destruct (rate_run_bound phone requests 0 (rs_now s + total_delay requests) (rs_now s) s)
    as (ts & s' & ? & ? & ? & _); [|unfold cooling_until; lia|done|done|lia|eauto].
  unfold hourly_ok. rewrite Hnone. unfold deadline. lia.
Qed.

Lemma rate_limit_bound_witness :
  let requests := [(0, "10.0.0.1"); (30, "10.0.0.1"); (61000000, "10.0.0.2")]%Z in
  ∃ ts s', rate_run "+201001234567" requests empty_rstate = (Ok ts, s')
    ∧ (Z.of_nat (List.length ts) ≤ OTP_MAX_PER_HOUR)%Z ∧ spaced ts.
Proof.
  intros requests. apply (rate_limit_bound "+201001234567" requests empty_rstate);
    [done|repeat constructor; cbn; lia|done].
Defined.

(** The limiter does allow: the three requests above get two codes, a minute apart. *)
Example rate_run_example :
  (rate_run "+201001234567" [(0, "10.0.0.1"); (30, "10.0.0.1"); (61000000, "10.0.0.2")]%Z
     empty_rstate).1 = Ok [0; 61000030]%Z.
Proof. vm_compute. reflexivity. Qed.

(** ** Logging in *)

(** Every user is stored under its id, and phone numbers are unique (the primary key
    and the unique index). *)
Definition users_wf (t : tables) : Prop :=
  (∀ k u, users t !! k = Some u → u_id u = k) ∧
  (∀ k k' u u', users t !! k = Some u → users t !! k' = Some u' →
     u_phone_number u = u_phone_number u' → k = k').

Lemma user_by_phone_Some t phone u :
  users_wf t → user_by_phone phone t = Some u ↔
  users t !! u_id u = Some u ∧ u_phone_number u = phone.
Proof.
  intros [Hid Hph]. unfold user_by_phone. split.
  - intros [Hp [k Hk]]%scalar_Some. apply String.eqb_eq in Hp. by rewrite (Hid _ _ Hk).
  - intros [Hk Hp]. eapply scalar_unique; [exact Hk|by apply String.eqb_eq|].
    intros k' y Hk' Hy. apply String.eqb_eq in Hy.
    assert (k' = u_id u) as -> by (eapply Hph; [exact Hk'|exact Hk|congruence]). congruence.
Qed.

Lemma db_add_session_inv x w u w' :
  db_add_session x w = (Ok u, w') →
  w' = w <| w_tables ::= over user_sessions <[s_id x := x]> |>.
Proof.
  unfold db_add_session. intros Hr. invert_ok Hr. by invert_world.
Qed.

Section Login.
Context (settings : Settings) `{HL : HashingLaws, JL : JoseLaws settings}.

(** The account after a login. *)
Definition logged_in (user : User) (body : VerifyIn) (now : timestamp) : User :=
  user <| u_device_fingerprint := Some (vi_device_fingerprint body) |>
       <| u_token_version ::= λ v, (v + 1)%Z |> <| u_last_seen_at := Some now |>.

Lemma verify_ok_inv body client ua draws w out w' :
  verify settings body client ua draws w = (Ok out, w') →
  ∃ user,
    user_by_phone (vi_phone_number body) (w_tables w) = Some user ∧
    u_status user = ACTIVE ∧ account_expired user (w_now w) = false ∧
    (otp_verify settings (u_id user) (vi_otp_code body) (mk_rstate (w_now w) (w_otp w))).1 = Ok true ∧
    verify_military_id (vi_military_id body) (u_hashed_military_id user) = true ∧
    users (w_tables w') = <[u_id user := logged_in user body (w_now w)]> (users (w_tables w)) ∧
    w_committed w' = w_tables w' ∧ w_now w' = w_now w ∧
    access_token out = create_access_token settings (u_id user) (u_token_version user + 1)
                         (u_role user) (w_now w) (ld_jti draws) ∧
    ∃ x, user_sessions (w_tables w') !! session_id out = Some x ∧ s_user_id x = u_id user ∧
      s_refresh_token_hash x = hash_refresh_token (refresh_token out) ∧
      s_revoked_at x = None ∧
      s_expires_at x = (w_now w + days (REFRESH_TOKEN_EXPIRE_DAYS settings))%Z.
Proof.
  unfold verify. intros Hr. invert_ok Hr; invert_world;
    apply db_add_session_inv in Hrun3 as ->;
    apply redis_otp_inv in Hrun1 as (s' & Hotp & ->);
    apply negb_false_iff, andb_true_iff in Hif as [-> Hmil]; exists a0; reflect_bools;
    (split_and!; [done|done|done|by rewrite Hotp|done|done|done|done|done|]);
    (eexists; split; [apply lookup_insert_eq|done]).
Qed.

Lemma db_add_session_err x w e w' :
  db_add_session x w = (Err e, w') → e = IntegrityError "user_sessions" ∧ w' = w.
Proof. unfold db_add_session. intros Hr. invert_err Hr; [..]; invert_world; naive_solver. Qed.

(** The token a login returns authenticates the account at once, with its version raised
    by one. *)
Lemma login_token_current body client ua draws w out w' :
  (0 ≤ ACCESS_TOKEN_EXPIRE_MINUTES settings)%Z →
  verify settings body client ua draws w = (Ok out, w') →
  ∃ user, user_by_phone (vi_phone_number body) (w_tables w) = Some user ∧
    users (w_tables w') = <[u_id user := logged_in user body (w_now w)]> (users (w_tables w)) ∧
    get_current_user settings (Some (access_token out)) w'
      = (Ok (logged_in user body (w_now w)), w').
Proof.
  intros Hexp Hv. apply verify_ok_inv in Hv
    as (user & Hu & Hact & _ & _ & _ & Husers & _ & Hnow & -> & _).
  exists user. split; [done|]. split; [done|].
  rewrite (current_user_run settings). unfold token_user. rewrite Husers, lookup_insert_eq, Hnow.
  rewrite decide_True; [done|]. split_and!; [|done|done].
  unfold token_exp, minutes, second. apply Z.div_le_mono; lia.
Qed.

(** C36. A refused login says nothing: whether the phone is unknown, the account
    suspended or expired, the code wrong, spent or late, or the military id wrong, the
    answer is the same 401, and no account changes. (A refresh token that was drawn
    before is the one other error.) *)
Theorem login_refusal_uniform body client ua draws w e w' :
  (∀ user, user_by_phone (vi_phone_number body) (w_tables w) = Some user →
     ∃ bound o, otp_rel settings bound (u_id user) o (mk_rstate (w_now w) (w_otp w))
                ∧ (0 ≤ bound < 2 ^ 63 - 1)%Z) →
  verify settings body client ua draws w = (Err e, w') →
  e = IntegrityError "user_sessions" ∨
  (e = LOGIN_ERROR ∧ users (w_tables w') = users (w_tables w)).
Proof.
  intros Hotp Hv. unfold verify in Hv. invert_err Hv; invert_world; try (by right).
  - destruct (Hotp a0) as (bound & o & Ho & Hb); [done|].
    apply redis_otp_inv in Hv as (s' & Hv & _).
    pose proof (otp_verify_sim settings bound (u_id a0) (vi_otp_code body) o _ Ho Hb) as Hs.
    destruct (spec_verify _ _ _ _) as [b o']. destruct Hs as (s2 & Hs & _). congruence.
  - apply redis_otp_inv in Hrun1 as (s' & _ & ->). by right.
  - apply db_add_session_err in Hv as [-> _]. by left.
Qed.

(** ** Requesting a code *)

(** The answer to a request that the limiter let pass. *)
Lemma request_otp_run body client draws w r w1 :
  redis_otp (rate_limit_otp (ro_phone_number body) (client_ip client)) w = (Ok r, w1) →
  (request_otp settings body client draws w).1
  = match user_by_phone (ro_phone_number body) (w_tables w) with
    | Some user =>
        if decide (u_status user = ACTIVE ∧ ENV settings ≠ "development")
        then Err (NotImplementedError "Production SMS provider not configured yet")
        else Ok (mk_RequestOtpOut "If this number is registered, a code has been sent." r)
    | None => Ok (mk_RequestOtpOut "If this number is registered, a code has been sent." r)
    end.
Proof.
  intros Hr. unfold request_otp. rewrite (step_ok _ _ _ _ _ Hr).
  apply redis_otp_inv in Hr as (s' & _ & ->).
  unfold query. set (w1 := w <| w_otp := _ |>).
  rewrite (step_ok _ _ w1 (user_by_phone (ro_phone_number body) (w_tables w)) w1) by done.
  destruct (user_by_phone _ _) as [user|]; [|done].
  unfold send_otp. case_decide as Ha; [|by rewrite decide_False by naive_solver].
  case_decide as Hd; [rewrite decide_False by naive_solver|rewrite decide_True by done]; done.
Qed.

(** In development the answer to a code request does not depend on the database:
    the same number from the same address at the same time gets the same answer
    whether it is registered or not, active or not. *)
Theorem request_otp_uniform body client draws w t :
  ENV settings = "development" →
  (request_otp settings body client draws (w <| w_tables := t |>)).1
  = (request_otp settings body client draws w).1.
Proof.
  intros Henv. set (w2 := w <| w_tables := t |>).
  destruct (redis_otp (rate_limit_otp (ro_phone_number body) (client_ip client)) w)
    as [[r|e] w1] eqn:E.
  - destruct (redis_otp_inv _ _ _ _ E) as (s' & Hs & _).
    assert (∃ w1', redis_otp (rate_limit_otp (ro_phone_number body) (client_ip client)) w2
                   = (Ok r, w1')) as [w1' E'].
    { unfold redis_otp, zoom. cbn. rewrite Hs. by eexists. }
    rewrite (request_otp_run _ _ _ _ _ _ E), (request_otp_run _ _ _ _ _ _ E').
    repeat case_match; naive_solver.
  - destruct (redis_otp_inv _ _ _ _ E) as (s' & Hs & _).
    unfold request_otp. rewrite (step_err _ _ _ _ _ E).
    rewrite (step_err _ _ w2 e (w2 <| w_otp := rs_db s' |>)); [done|].
    unfold redis_otp, zoom. cbn. by rewrite Hs.
Qed.

(** Outside development the answer tells the numbers apart: of the requests the
    limiter lets pass, exactly those for an active account fail, since no SMS provider
    is wired. *)
Theorem request_otp_oracle body client draws w r w1 :
  ENV settings ≠ "development" →
  redis_otp (rate_limit_otp (ro_phone_number body) (client_ip client)) w = (Ok r, w1) →
  (∃ e, (request_otp settings body client draws w).1 = Err e) ↔
  ∃ user, user_by_phone (ro_phone_number body) (w_tables w) = Some user ∧ u_status user = ACTIVE.
Proof.
  intros Henv Hr. rewrite (request_otp_run _ _ _ _ _ _ Hr).
  destruct (user_by_phone _ _) as [user|]; [|naive_solver]. case_decide; naive_solver.
Qed.
End Login.

(** ** Sessions *)

Definition sessions_wf (t : tables) : Prop :=
  ∀ k s, user_sessions t !! k = Some s → s_id s = k.

(** The session list: exactly the user's sessions that are neither revoked nor
    expired, newest first; reading it changes nothing. *)
Theorem list_sessions_spec user w :
  ∃ l, list_sessions user w = (Ok (SessionOut_of <$> l), w) ∧
    StronglySorted (λ s s', s_created_at s' ≤ s_created_at s)%Z l ∧
    ∀ s, s ∈ l ↔ (∃ k, user_sessions (w_tables w) !! k = Some s) ∧
      s_user_id s = u_id user ∧ s_revoked_at s = None ∧ (w_now w < s_expires_at s)%Z.
Proof.
  eexists. split; [reflexivity|]. split; [apply order_by_desc_sorted|].
  intros s. rewrite order_by_desc_perm, elem_of_select. unfold session_active.
  rewrite !andb_true_iff, !bool_decide_eq_true, Z.ltb_lt. naive_solver.
Qed.

(** Revoking a session: it succeeds exactly for an unrevoked session of the
    caller; then that session alone changes - it gets its revocation time -, the
    change is committed, and the caller's devices, and no others, are told. Any other
    identifier - unknown, revoked before, or another user's - gets the same 404 and
    nothing changes. *)
Theorem revoke_session_spec sid user w :
  sessions_wf (w_tables w) →
  match user_sessions (w_tables w) !! sid with
  | Some s =>
      if decide (s_user_id s = u_id user ∧ s_revoked_at s = None) then
        ∃ w', revoke_session sid user w = (Ok tt, w') ∧
          user_sessions (w_tables w')
            = <[sid := s <| s_revoked_at := Some (w_now w) |>]> (user_sessions (w_tables w)) ∧
          users (w_tables w') = users (w_tables w) ∧
          w_committed w' = w_tables w' ∧
          w_outbox w' = (w_outbox w ++ [(user_channel (u_id user),
            JObj [("type", JStr "session_revoked"); ("session_id", JStr (uuid_str sid))])])%list
      else revoke_session sid user w = (Err (HTTPException 404 "session not found"), w)
  | None => revoke_session sid user w = (Err (HTTPException 404 "session not found"), w)
  end.
Proof.
  intros Hwf. unfold revoke_session.
  set (p := λ s, bool_decide (s_id s = sid) && bool_decide (s_user_id s = u_id user)
                 && bool_decide (s_revoked_at s = None)).
  assert (∀ s, p s = true ↔ s_id s = sid ∧ s_user_id s = u_id user ∧ s_revoked_at s = None) as Hp.
  { intros s. unfold p. rewrite !andb_true_iff, !bool_decide_eq_true. tauto. }
  rewrite query_step. destruct (user_sessions (w_tables w) !! sid) as [s|] eqn:Es.
  - case_decide as Hd.
    + assert (scalar (user_sessions (w_tables w)) p = Some s) as ->.
      { eapply scalar_unique; [exact Es|apply Hp; by rewrite (Hwf _ _ Es)|].
        intros k' y Hk' [Hy _]%Hp. rewrite (Hwf _ _ Hk') in Hy. congruence. }
      wstep. rewrite (Hwf _ _ Es). eexists. done.
    + assert (scalar (user_sessions (w_tables w)) p = None) as ->; [|done].
      apply scalar_None. intros k x Hx. apply not_true_is_false. intros [Hi Ho]%Hp.
      rewrite (Hwf _ _ Hx) in Hi. subst k. naive_solver.
  - assert (scalar (user_sessions (w_tables w)) p = None) as ->; [|done].
    apply scalar_None. intros k x Hx. apply not_true_is_false. intros [Hi Ho]%Hp.
    rewrite (Hwf _ _ Hx) in Hi. congruence.
Qed.

(** Revoking a session leaves every access token as valid as it was: requests
    from the kicked device keep being authenticated until its token expires. *)
Theorem revoke_keeps_access_tokens settings `{Jose} sid user w w' creds :
  revoke_session sid user w = (Ok tt, w') →
  (get_current_user settings creds w').1 = (get_current_user settings creds w).1.
Proof.
  intros Hr. assert (users (w_tables w') = users (w_tables w) ∧ w_now w' = w_now w) as [Hu Hn].
  { unfold revoke_session in Hr. invert_ok Hr. invert_world. by injection Hr as <-. }
  by apply current_user_ext.
Qed.

(** ** A concrete deployment, for examples *)

Module Sample.
Definition alice : User :=
  mk_User (uid 7) 0 "+201001234567" "Alice" (Some "alice") None None
    (@hash_military_id Toy.hashing "MIL-4457" "s") "" None 1 ACTIVE SOLDIER None None false
    None true.
Definition session1 : UserSession :=
  mk_UserSession (uid 20) 5 (uid 7) "h" "10.0.0.1" None None None None None (10 * day) None.
Definition tables0 : tables :=
  empty_tables <| users := {[uid 7 := alice]} |> <| user_sessions := {[uid 20 := session1]} |>.
(** Alice has just been sent the code 123456. *)
Definition world0 : world :=
  (redis_otp (issue default_settings (uid 7) "123456")
     ((empty_world 0) <| w_tables := tables0 |> <| w_committed := tables0 |>)).2.
Definition body : VerifyIn :=
  mk_VerifyIn "+201001234567" "123456" "MIL-4457" "0123456789abcdef".
Definition draws : login_draws := mk_login_draws (uid 30) "refresh" "j".
Definition login := @verify default_settings Toy.hashing Toy.jose.
End Sample.

Lemma login_refusal_uniform_witness :
  let body := mk_VerifyIn "+201001234567" "123456" "MIL-0000" "0123456789abcdef" in
  let r := Sample.login body (Some "10.0.0.1") None Sample.draws Sample.world0 in
  r.1 = Err LOGIN_ERROR ∧ users (w_tables r.2) = users (w_tables Sample.world0).
Proof.
  intros body r. assert (r.1 = Err LOGIN_ERROR) as Hr by (vm_compute; reflexivity).
  split; [done|].
  destruct (@login_refusal_uniform default_settings Toy.hashing Toy.jose body
    (Some "10.0.0.1") None Sample.draws Sample.world0 LOGIN_ERROR r.2) as [H|[_ H]].
  - intros user Hu.
    replace user with Sample.alice by (apply (inj Some); rewrite <- Hu; by vm_compute).
    exists 0%Z, (spec_issue default_settings 0 "123456"). split; [|done].
    split; vm_compute; done.
  - unfold r in *. rewrite <- Hr. by apply surjective_pairing.
  - done.
  - exact H.
Defined.

Lemma request_otp_uniform_witness :
  let body := mk_RequestOtpIn "+201001234567" in
  (request_otp default_settings body None [] (Sample.world0 <| w_tables := empty_tables |>)).1
  = (request_otp default_settings body None [] Sample.world0).1.
Proof. intros body. apply (request_otp_uniform default_settings). reflexivity. Defined.

Lemma request_otp_oracle_witness :
  let settings := default_settings <| ENV := "production" |> in
  ∃ e, (request_otp settings (mk_RequestOtpIn "+201001234567") None [] Sample.world0).1 = Err e.
Proof.
  intros settings.
  destruct (is_ok_run (redis_otp (rate_limit_otp "+201001234567" "unknown")) Sample.world0)
    as (r & w1 & E); [by vm_compute|].
  apply (request_otp_oracle settings (mk_RequestOtpIn "+201001234567") None [] _ r w1);
    [done|exact E|].
  exists Sample.alice. split; vm_compute; reflexivity.
Defined.

Lemma revoke_session_spec_witness :
  ∃ w', revoke_session (uid 20) Sample.alice Sample.world0 = (Ok tt, w') ∧
        w_committed w' = w_tables w'.
Proof.
  assert (sessions_wf (w_tables Sample.world0)) as Hwf.
  { intros k s Hs.
    change (user_sessions (w_tables Sample.world0))
      with ({[uid 20 := Sample.session1]} : gmap UUID UserSession) in Hs.
    by apply lookup_singleton_Some in Hs as [<- <-]. }
  pose proof (revoke_session_spec (uid 20) Sample.alice Sample.world0 Hwf) as H.
  change (user_sessions (w_tables Sample.world0) !! uid 20) with (Some Sample.session1) in H.
  cbn iota in H. rewrite decide_True in H by done. destruct H as (w' & H & _ & _ & Hc & _).
  by exists w'.
Defined.

Lemma revoke_keeps_access_tokens_witness :
  let token := @create_access_token default_settings Toy.jose (uid 7) 1 "soldier" 0 "j" in
  ∃ w', revoke_session (uid 20) Sample.alice Sample.world0 = (Ok tt, w') ∧
    (@get_current_user default_settings Toy.jose (Some token) w').1 = Ok Sample.alice.
Proof.
  intros token.
  destruct (is_ok_run (revoke_session (uid 20) Sample.alice) Sample.world0)
    as ([] & w' & E); [by vm_compute|].
  exists w'. split; [done|].
  rewrite (@revoke_keeps_access_tokens default_settings Toy.jose _ _ _ _ (Some token) E).
  vm_compute. reflexivity.
Defined.
