(* ===== verification/Scripts.v ===== *)
(** [scripts/seed_dev_users.py] and [scripts/dev_get_otp.py]: the two development scripts, over the
    tables and the one-time codes of the application. *)

From S2P Require Import Prelude Effects PyStr Uuid Redis Models Config World Security Otp Auth.
From stdpp Require Import pretty.
From Stdlib Require Import String.

Local Open Scope string_scope.

(** ** [seed_dev_users.py] *)

(** An entry of [SEED_USERS]; the entries themselves are parameters, their names are Arabic. *)
Record SeedUser := mk_SeedUser {
  su_phone_number : string;
  su_full_name : string;
  su_username : string;
  su_military_id : string;
  su_department : string;
  su_role : UserRole
}.

Section Seed.
Context `{Hashing}.

(** The attributes the script sets. *)
Definition seeded (spec : SeedUser) (salt : string) (user : User) : User :=
  user <| u_full_name := su_full_name spec |> <| u_username := Some (su_username spec) |>
       <| u_department := Some (su_department spec) |> <| u_role := (su_role spec : string) |>
       <| u_status := (ACTIVE : string) |>
       <| u_hashed_military_id := hash_military_id (su_military_id spec) salt |>.

(** The body of the loop: whether the user is new, and so waits for the flush; the session does
    not flush before a query. *)
Definition seed_user (entry : SeedUser * string) : prog world bool :=
  let '(spec, salt) := entry in
  user ← query (user_by_phone (su_phone_number spec));
  match user with
  | None => mret true
  | Some user => db_change (λ t, t <| users ::= <[u_id user := seeded spec salt user]> |>) ;; mret false
  end.

(** The flush: the [UPDATE]s, where user names have to be unique, then the [INSERT]s of the new
    users - which have no [hashed_password], a column that is not nullable. *)
Definition usernames_unique (t : tables) : bool :=
  forallb (λ u, forallb (λ v, bool_decide (u_id u = u_id v) || bool_decide (u_username u ≠ u_username v)
                            || bool_decide (u_username u = None)) (rows (users t))) (rows (users t)).
Definition flush (new : list bool) : prog world unit :=
  t ← gets w_tables;
  ensure (usernames_unique t) (IntegrityError "users.username") ;;
  ensure (negb (existsb id new)) (IntegrityError "users.hashed_password").

(** [main], with the salts of the hashes. *)
Definition seed_main (entries : list (SeedUser * string)) : prog world unit :=
  session_local (
    new ← map_each seed_user entries;
    flush new ;;
    commit).
End Seed.

(** ** [dev_get_otp.py] *)

(** [main]: the exit status and the line printed. *)
Definition dev_get_otp (settings : Settings) (phone : string) : prog world (Z * string) :=
  if negb (String.eqb (ENV settings) "development")
  then mret (2, "REFUSED: this script only runs when ENV=development")%Z else
  user ← session_local (query (user_by_phone phone));
  match user with
  | None => mret (1, "No user with phone " ++ phone)%Z
  | Some user =>
      code ← redis_otp (redis_get ("otp:" ++ uuid_str (u_id user)));
      match code with
      | None => mret (1, "No active OTP for " ++ phone)%Z
      | Some code => mret (0, phone ++ "  ->  OTP: " ++ code)%Z
      end
  end.

(** ** Facts *)

Section Facts.
Context `{HashingLaws}.

(** One entry: its user, found by the phone number, is set; the others stay. *)
Lemma seed_user_run spec salt w :
  users_wf (w_tables w) →
  ∃ w1, seed_user (spec, salt) w
        = (Ok (bool_decide (user_by_phone (su_phone_number spec) (w_tables w) = None)), w1) ∧
    w_committed w1 = w_committed w ∧ users_wf (w_tables w1) ∧
    ∀ phone, user_by_phone phone (w_tables w1)
             = if decide (phone = su_phone_number spec)
               then seeded spec salt <$> user_by_phone phone (w_tables w)
               else user_by_phone phone (w_tables w).
Proof.
  intros Hwf. unfold seed_user. rewrite query_step.
  destruct (user_by_phone (su_phone_number spec) (w_tables w)) as [u|] eqn:Eu.
  - rewrite db_change_step. eexists. split; [done|]. split; [done|].
    apply user_by_phone_Some in Eu as [Hu Hp]; [|done]. destruct Hwf as [Hid Hph].
    assert (users_wf ((w_tables w) <| users ::= <[u_id u := seeded spec salt u]> |>)) as Hwf1.
    { split; cbn.
      - intros k v [[<- <-]|[_ Hv]]%lookup_insert_Some; [done|by apply Hid].
      - intros k k' v v' Hv Hv' E. apply lookup_insert_Some in Hv as [[<- <-]|[Hne Hv]], Hv' as [[<- <-]|[Hne' Hv']].
        + done.
        + by apply (Hph (u_id u) k' u v').
        + by apply (Hph k (u_id u) v u).
        + by apply (Hph k k' v v'). }
    assert (user_by_phone (su_phone_number spec) (w_tables w) = Some u) as Eu
      by (by apply user_by_phone_Some).
    split; [done|]. intros phone. cbn [w_tables over]. apply option_eq. intros v.
    rewrite (user_by_phone_Some _ _ _ Hwf1). cbn [users over]. case_decide as Hphone.
    + subst phone. rewrite Eu. cbn. split.
      * intros [[[_ ->]|[Hne Hv]]%lookup_insert_Some Hpv]; [done|]. destruct Hne.
        apply (Hph _ _ u v); [done|done|congruence].
      * intros [= <-]. cbn. by rewrite lookup_insert_eq.
    + rewrite user_by_phone_Some by done. split.
      * intros [[[_ <-]|[Hne Hv]]%lookup_insert_Some Hpv]; [cbn in Hpv; congruence|done].
      * intros [Hv Hpv]. split; [|done]. rewrite lookup_insert_ne; [done|]. intros E.
        rewrite <- E, Hu in Hv. congruence.
  - eexists. split; [done|]. split; [done|]. split; [done|]. intros phone.
    case_decide; [subst; by rewrite Eu|done].
Qed.

(** The loop. *)
Lemma seed_loop entries : ∀ w,
  users_wf (w_tables w) →
  ∃ new w1, map_each seed_user entries w = (Ok new, w1) ∧ w_committed w1 = w_committed w ∧
    (existsb id new = true ↔ ∃ e, e ∈ entries ∧ user_by_phone (su_phone_number e.1) (w_tables w) = None) ∧
    (∀ phone, phone ∉ ((λ e, su_phone_number e.1) <$> entries) →
       user_by_phone phone (w_tables w1) = user_by_phone phone (w_tables w)) ∧
    (NoDup ((λ e, su_phone_number e.1) <$> entries) → ∀ spec salt, (spec, salt) ∈ entries →
       user_by_phone (su_phone_number spec) (w_tables w1)
       = seeded spec salt <$> user_by_phone (su_phone_number spec) (w_tables w)).
Proof.
  induction entries as [|[spec salt] entries IH]; intros w Hwf.
  { exists [], w. split_and!; [done|done|cbn; set_solver|done|set_solver]. }
  destruct (seed_user_run spec salt w Hwf) as (w1 & E1 & Hc1 & Hwf1 & H1).
  destruct (IH w1 Hwf1) as (new & w2 & E2 & Hc2 & Hnew & Hout & Hin).
  eexists _, w2. split; [cbn [map_each]; rewrite (bind_ok _ _ _ _ _ E1), (bind_ok _ _ _ _ _ E2); done|].
  split; [congruence|]. split; [|split].
  - cbn [existsb id]. rewrite orb_true_iff, bool_decide_eq_true, Hnew. split.
    + intros [Hn|(e & He & Hn)]; [exists (spec, salt); set_solver|]. exists e. split; [by right|].
      rewrite H1 in Hn. case_decide as Hp; [|done]. by apply fmap_None in Hn.
    + intros (e & [->|He]%elem_of_cons & Hn); [by left|]. right. exists e. split; [done|].
      rewrite H1. case_decide; [by rewrite Hn|done].
  - cbn [fmap list_fmap fst]. intros phone Hp. apply not_elem_of_cons in Hp as [Hne Hp].
    by rewrite (Hout phone Hp), H1, decide_False.
  - cbn [fmap list_fmap fst]. intros Hnd spec' salt' He. apply NoDup_cons in Hnd as [Hn Hnd].
    apply elem_of_cons in He as [[= -> ->]|He].
    + by rewrite (Hout _ Hn), H1, decide_True.
    + rewrite (Hin Hnd spec' salt' He), H1, decide_False; [done|]. intros E. apply Hn. rewrite <- E.
      apply list_elem_of_fmap. by exists (spec', salt').
Qed.

(** The seeding script never creates a user: with an entry whose phone number has no user it
    fails with a constraint violation and leaves the database as it was. When every entry has its
    user, and it does not fail, each of them is then active, with the entry's name and role, and
    is the user that the entry's military id opens; users of other numbers stay as they were. *)
Theorem seed_updates_only entries w :
  users_wf (w_committed w) → NoDup ((λ e, su_phone_number e.1) <$> entries) →
  (∀ e, e ∈ entries → bcrypt_salt e.2) →
  match seed_main entries w with
  | (Err e, w1) => (∃ c, e = IntegrityError c) ∧ w_committed w1 = w_committed w
  | (Ok _, w1) =>
      (∀ spec salt, (spec, salt) ∈ entries → ∃ u u',
         user_by_phone (su_phone_number spec) (w_committed w) = Some u ∧
         user_by_phone (su_phone_number spec) (w_committed w1) = Some u' ∧ u_id u' = u_id u ∧
         u_status u' = ACTIVE ∧ u_role u' = su_role spec ∧ u_username u' = Some (su_username spec) ∧
         verify_military_id (su_military_id spec) (u_hashed_military_id u') = true) ∧
      (∀ phone, phone ∉ ((λ e, su_phone_number e.1) <$> entries) →
         user_by_phone phone (w_committed w1) = user_by_phone phone (w_committed w))
  end.
Proof.
  intros Hwf Hnd Hsalts. set (w0 := w <| w_tables := w_committed w |>).
  destruct (seed_loop entries w0 Hwf) as (new & w1 & E & Hc & Hnew & Hout & Hin).
  assert ((new0 ← map_each seed_user entries; flush new0 ;; commit) w0
    = if usernames_unique (w_tables w1)
      then if existsb id new then (Err (IntegrityError "users.hashed_password"), w1)
           else (Ok tt, w1 <| w_committed := w_tables w1 |>)
      else (Err (IntegrityError "users.username"), w1)) as Ebody.
  { rewrite (step_ok _ _ _ _ _ E). unfold flush. rewrite step_assoc.
    rewrite (step_ok (gets w_tables) _ w1 (w_tables w1) w1 eq_refl).
    destruct (usernames_unique _); [|done]. by destruct (existsb id new). }
  unfold seed_main. rewrite (session_local_run _ _ _ _ (surjective_pairing _)). fold w0. rewrite Ebody.
  destruct (usernames_unique _); [|split; [by eexists|exact Hc]].
  destruct (existsb id new) eqn:Hex; [split; [by eexists|exact Hc]|].
  cbn [fst snd w_committed over]. split; [|exact Hout]. intros spec salt He.
  rewrite (Hin Hnd spec salt He). cbn [w_tables over].
  destruct (user_by_phone (su_phone_number spec) (w_committed w)) as [u|] eqn:Eu.
  - exists u, (seeded spec salt u). cbn [w0 w_tables over]. subst w0. cbn. rewrite Eu. split_and!; try done.
    apply (verify_hash_password (strip (su_military_id spec))), (Hsalts (spec, salt) He).
  - destruct Hnew as [_ Hnew]. discriminate Hnew. by exists (spec, salt).
Qed.

(** The second script shows exactly the code that was issued: in development, for the number of a
    user, it prints the code as long as it lives, and says there is none after that; anywhere but
    in development it refuses. *)
Theorem dev_get_otp_shows settings phone user code d w :
  user_by_phone phone (w_committed w) = Some user →
  ∃ w1, redis_otp (issue settings (u_id user) code) w = (Ok code, w1) ∧
  let w2 := w1 <| w_now ::= λ now, (now + Z.of_N d)%Z |> in
  (dev_get_otp settings phone w2).1
  = Ok (if negb (String.eqb (ENV settings) "development")
        then (2, "REFUSED: this script only runs when ENV=development")
        else if (Z.of_N d <? OTP_TTL_SECONDS settings * second) then (0, phone ++ "  ->  OTP: " ++ code)
        else (1, "No active OTP for " ++ phone))%Z.
Proof.
  intros Hu. eexists. split; [reflexivity|]. cbv zeta. unfold dev_get_otp. destruct (negb _); [done|].
  erewrite step_ok by (apply session_local_run; reflexivity). cbn [w_tables w_committed over]. rewrite Hu.
  unfold redis_otp at 1, zoom. redis_run. cbn -[live code_key attempts_key Z.mul second].
  change ("otp:" ++ uuid_str (u_id user)) with (code_key (u_id user)).
  rewrite live_delete_ne by discriminate. rewrite live_insert_eq. unfold expired, deadline.
  cbn -[Z.mul second].
  destruct (Z.ltb_spec (Z.of_N d) (OTP_TTL_SECONDS settings * second)),
    (Z.leb_spec (w_now w + OTP_TTL_SECONDS settings * second) (w_now w + Z.of_N d)); try lia; done.
Qed.
End Facts.

(** ** Applied *)

Module Barracks.
Definition user (n : nat) (phone : string) : User :=
  mk_User (uid n) 0 phone "Name" None None None "h" "p" None 1 SUSPENDED SOLDIER None None false None false.
Definition tables0 : tables := empty_tables <| users := {[uid 7 := user 7 "+201000000001"]} |>.
Definition world0 : world := (empty_world 5) <| w_tables := tables0 |> <| w_committed := tables0 |>.
Definition ahmed : SeedUser := mk_SeedUser "+201000000001" "Ahmed" "ahmed" "MIL-1001" "Ops" OFFICER.
Definition khaled : SeedUser := mk_SeedUser "+201000000002" "Khaled" "khaled" "MIL-1002" "Ops" OFFICER.
Lemma barracks_wf : users_wf tables0.
Proof.
  split; cbn.
  - by intros k u [<- <-]%lookup_singleton_Some.
  - by intros k k' u u' [<- <-]%lookup_singleton_Some [<- <-]%lookup_singleton_Some.
Qed.
Lemma barracks_phone : user_by_phone "+201000000001" tables0 = Some (user 7 "+201000000001").
Proof. apply user_by_phone_Some; [apply barracks_wf|]. split; [apply lookup_singleton_eq|done]. Qed.
End Barracks.

Lemma seed_updates_only_witness :
  ∃ e w1, @seed_main Toy.hashing [(Barracks.ahmed, "s"); (Barracks.khaled, "t")] Barracks.world0
          = (Err (IntegrityError e), w1) ∧ w_committed w1 = w_committed Barracks.world0.
Proof.
  pose proof (@seed_updates_only Toy.hashing Toy.hashing_laws [(Barracks.ahmed, "s"); (Barracks.khaled, "t")]
                Barracks.world0 Barracks.barracks_wf) as H.
  destruct (seed_main _ _) as [[[]|e] w1].
  - destruct H as [H _].
    + cbn. apply NoDup_cons. split; [|apply NoDup_singleton]. by intros ?%list_elem_of_singleton.
    + intros ? _. exact I.
    + destruct (H Barracks.khaled "t" ltac:(set_solver)) as (u & _ & Hu & _).
      apply user_by_phone_Some in Hu as [Hu Hp]; [|apply Barracks.barracks_wf].
      change (users _) with ({[uid 7 := Barracks.user 7 "+201000000001"]} : gmap UUID User) in Hu.
      apply lookup_singleton_Some in Hu as [_ <-]. discriminate Hp.
  - destruct H as [[c ->] Hc].
    + cbn. apply NoDup_cons. split; [|apply NoDup_singleton]. by intros ?%list_elem_of_singleton.
    + intros ? _. exact I.
    + by exists c, w1.
Defined.

Lemma dev_get_otp_shows_witness :
  ∃ w1, redis_otp (issue default_settings (uid 7) "123456") Barracks.world0 = (Ok "123456", w1) ∧
    (dev_get_otp default_settings "+201000000001" (w1 <| w_now ::= λ now, (now + Z.of_N 60)%Z |>)).1
    = Ok (0%Z, "+201000000001  ->  OTP: 123456").
Proof.
  destruct (dev_get_otp_shows default_settings "+201000000001" (Barracks.user 7 "+201000000001") "123456" 60
              Barracks.world0 Barracks.barracks_phone) as (w1 & E & H).
  exists w1. split; [exact E|exact H].
Defined.
