(* ===== verification/Storage.v ===== *)
(** [app/services/storage_service.py]: objects in MinIO.

    The MinIO client is an interface: whether a removal, a read or a write fails is
    [minio_down], and what it stores is the map [w_objects]. *)

From S2P Require Import Prelude Effects PyStr Models World Config.
From stdpp Require Import pretty.
From Stdlib Require Import String.

Local Open Scope string_scope.

(** [ALLOWED_MIME_TYPES.get(mime)] *)
Definition ALLOWED_MIME_TYPES (mime_type : string) : option string :=
  match mime_type with
  | "image/jpeg" => Some ".jpg"
  | "image/png" => Some ".png"
  | "image/webp" => Some ".webp"
  | "video/mp4" => Some ".mp4"
  | "audio/ogg" => Some ".ogg"
  | "audio/mpeg" => Some ".mp3"
  | "application/pdf" => Some ".pdf"
  | _ => None
  end.

Definition MAX_UPLOAD_BYTES : Z := 50 * 1024 * 1024.

(** When the client raises an [S3Error] other than [NoSuchKey], and the URL it signs:
    method, bucket, key, lifetime in seconds. *)
Class Minio := {
  minio_down : string → string → bool;
  presigned : string → string → string → Z → string
}.

Section Storage.
Context (settings : Settings) `{Minio}.

(** [ensure_buckets], on the buckets there are; nothing calls it. *)
Definition ensure_buckets : prog (gset string) unit :=
  for_each (λ bucket,
    exists_ ← gets (λ buckets, bool_decide (bucket ∈ buckets));
    if negb exists_ then modify (λ buckets, {[bucket]} ∪ buckets) else mret tt)
    [MINIO_BUCKET_AVATARS settings; MINIO_BUCKET_ATTACHMENTS settings].

(** [presign_upload]; [hex] is [uuid4().hex]. *)
Definition presign_upload (bucket mime_type hex : string) : res (string * string) :=
  match ALLOWED_MIME_TYPES mime_type with
  | None => Err (ValueError ("MIME type not allowed: " ++ mime_type))
  | Some ext =>
      let object_key := hex ++ ext in
      Ok (object_key,
          presigned "PUT" bucket object_key (MINIO_PRESIGN_EXPIRY_SECONDS settings))
  end.

Definition presign_download (bucket object_key : string) : string :=
  presigned "GET" bucket object_key (MINIO_PRESIGN_EXPIRY_SECONDS settings).
Definition presign_download_ttl (bucket object_key : string) (ttl_seconds : Z) : string :=
  presigned "GET" bucket object_key ttl_seconds.

(** [self._client.put_object] and [get_object]. *)
Definition client_put (bucket key : string) (data : list byte) : prog world unit :=
  ensure (negb (minio_down bucket key)) (StorageError "put_object") ;;
  modify (λ w, w <| w_objects ::= <[(bucket, key) := data]> |>).
Definition client_get (bucket key : string) : prog world (list byte) :=
  ensure (negb (minio_down bucket key)) (StorageError "get_object") ;;
  data ← gets (λ w, w_objects w !! (bucket, key));
  some_or_raise data (StorageError "NoSuchKey").

Definition put_object (bucket : string) (data : list byte) (suffix hex : string)
    : prog world string :=
  let object_key := hex ++ suffix in
  client_put bucket object_key data ;; mret object_key.

Definition staging_key (upload_id : string) (index : Z) : string :=
  "staging/" ++ upload_id ++ "/" ++ pretty index.

Definition put_staging_chunk (upload_id : string) (index : Z) (data : list byte)
    : prog world unit :=
  client_put (MINIO_BUCKET_ATTACHMENTS settings) (staging_key upload_id index) data.

(** [range(total_chunks)] *)
Definition range (n : Z) : list Z := Z.of_nat <$> seq 0 (Z.to_nat n).

Definition assemble_staging (upload_id : string) (total_chunks : Z) : prog world (list byte) :=
  parts ← map_each (λ i, client_get (MINIO_BUCKET_ATTACHMENTS settings) (staging_key upload_id i))
    (range total_chunks);
  mret (List.concat parts).

(** [delete_object]: removing an absent object is not an error. *)
Definition delete_object (bucket object_key : string) : prog world unit :=
  ensure (negb (minio_down bucket object_key)) (StorageError "remove_object") ;;
  modify (λ w, w <| w_objects ::= delete (bucket, object_key) |>).

Definition delete_staging (upload_id : string) (total_chunks : Z) : prog world unit :=
  for_each (λ i, delete_object (MINIO_BUCKET_ATTACHMENTS settings) (staging_key upload_id i))
    (range total_chunks).
End Storage.

(** ** Facts *)

(** The buckets are there afterwards, and no other is made or lost. *)
Lemma ensure_buckets_run settings B :
  ensure_buckets settings B
  = (Ok tt, B ∪ {[MINIO_BUCKET_AVATARS settings; MINIO_BUCKET_ATTACHMENTS settings]}).
Proof.
  unfold ensure_buckets. cbn [for_each]. run.
  destruct (bool_decide_reflect (MINIO_BUCKET_AVATARS settings ∈ B)); cbn;
    case_bool_decide; cbn; f_equal; set_solver.
Qed.

Lemma ALLOWED_MIME_TYPES_ext m e :
  ALLOWED_MIME_TYPES m = Some e → e ∈ [".jpg"; ".png"; ".webp"; ".mp4"; ".ogg"; ".mp3"; ".pdf"].
Proof.
  unfold ALLOWED_MIME_TYPES. intros H.
  repeat (lazymatch type of H with
          | (match ?x with _ => _ end) = _ => destruct x
          end; try discriminate H); injection H as <-; by repeat constructor.
Qed.
