(* ===== verification/Media.v ===== *)
(** [app/api/routes/media.py]: chunked, resumable uploads and view links. *)

From S2P Require Import Prelude Effects PyStr Uuid Redis Models Json World Config Storage.
From stdpp Require Import pretty.
From Stdlib Require Import String.

Local Open Scope string_scope.

Definition CHUNK_SIZE : Z := 5 * 1024 * 1024.
Definition UPLOAD_STATE_TTL : Z := 24 * 3600.
Definition PRESIGN_VIEW_TTL : Z := 300.

Record UploadInitIn := mk_UploadInitIn {
  ui_filename : string; ui_mime_type : string; ui_total_size : Z
}.

(** The fields' constraints. *)
Definition validate_UploadInitIn (filename mime_type : string) (total_size : Z)
    : option UploadInitIn :=
  if (String.length filename <=? 255)%nat && (0 <? total_size)%Z
     && (total_size <=? MAX_UPLOAD_BYTES)%Z
  then Some (mk_UploadInitIn filename mime_type total_size) else None.

Record UploadInitOut := mk_UploadInitOut {
  io_upload_id : string; io_chunk_size : Z; io_total_chunks : Z
}.
Record UploadStatusOut := mk_UploadStatusOut {
  uso_upload_id : string;
  uso_total_chunks : Z;
  uso_received_chunks : list Z;
  uso_missing_chunks : list Z;
  uso_complete : bool
}.
Record UploadCompleteOut := mk_UploadCompleteOut {
  uc_media_key : string;
  uc_mime_type : string;
  uc_size_bytes : Z;
  uc_thumbnail_key : option string
}.
Record PresignedOut := mk_PresignedOut { po_url : string; po_expires_in : Z }.

(** What [background_tasks.add_task(_process_ocr, ...)] schedules. *)
Record OcrTask := mk_OcrTask {
  ot_file_bytes : list byte; ot_mime_type : string; ot_user_id : string; ot_media_key : string
}.

Definition state_key (upload_id : string) : string := "upload:" ++ upload_id.
Definition chunks_key (upload_id : string) : string := "upload:chunks:" ++ upload_id.

(** Pillow, for the images [_process_image] handles: opening and loading (which fails on what
    is no image, or when Pillow is not installed), the mode of an image, its conversion to RGB,
    JPEG encoding at a quality, optimised or not, and a copy cut to a thumbnail. [None] is an
    exception. *)
Class Pillow := {
  image : Type;
  image_open : list byte → option image;
  image_mode : image → string;
  convert_rgb : image → option image;
  save_jpeg : image → Z → bool → option (list byte);
  copy_thumbnail : image → Z → option image
}.
(** What Pillow raises once an image is open; nobody catches it. *)
Definition PILLOW_ERROR : exn := PlainException "PIL".

Definition NOT_FOUND : exn := HTTPException 404 "upload not found or expired".

(** [_load_state] *)
Definition load_state (upload_id user_id : string) : prog world (list (string * scalar_json)) :=
  raw ← redis_sessions (redis_get (state_key upload_id));
  raw ← some_or_raise raw NOT_FOUND;
  state ← some_or_raise (loads raw) (ValueError "json");
  owner ← some_or_raise (member_str "user_id" state) (KeyError "user_id");
  ensure (String.eqb owner user_id) NOT_FOUND ;;
  mret state.

(** [state[key]] *)
Definition state_int (state : list (string * scalar_json)) (key : string) : prog world Z :=
  some_or_raise (member_int key state) (KeyError key).
Definition state_str (state : list (string * scalar_json)) (key : string) : prog world string :=
  some_or_raise (member_str key state) (KeyError key).

(** [int(i) for i in await redis_sessions.smembers(...)] *)
Definition received_chunks (upload_id : string) : prog world (list Z) :=
  members ← redis_sessions (redis_smembers (chunks_key upload_id));
  map_each (λ i, some_or_raise (int_of_str i) (ValueError "int")) (elements members).

(** The integers of [range(total)] that are not in [received]. *)
Definition missing_chunks (total : Z) (received : list Z) : list Z :=
  List.filter (λ i, negb (bool_decide (i ∈ received))) (range total).

(** [str(list)] *)
Fixpoint join_ints (l : list Z) : string :=
  match l with
  | [] => ""
  | [i] => pretty i
  | i :: l => pretty i ++ ", " ++ join_ints l
  end.
Definition py_list (l : list Z) : string := "[" ++ join_ints l ++ "]".

(** [(body.total_size + CHUNK_SIZE - 1) // CHUNK_SIZE] *)
Definition chunk_count (total_size : Z) : Z := (total_size + CHUNK_SIZE - 1) / CHUNK_SIZE.

(** [_ext_for] *)
Definition ext_for (mime : string) : string := default "" (ALLOWED_MIME_TYPES mime).

(** What [upload_init] keeps of an upload. *)
Definition upload_state (user_id filename mime_type : string) (total_size total_chunks : Z)
    : list (string * scalar_json) :=
  [("user_id", SStr user_id); ("filename", SStr filename); ("mime_type", SStr mime_type);
   ("total_size", SInt total_size); ("total_chunks", SInt total_chunks)].

(** [upload_init]; [upload_id] is what [token_urlsafe(24)] returned. *)
Definition upload_init (upload_id : string) (body : UploadInitIn) (user : User)
    : prog world UploadInitOut :=
  ensure (bool_decide (ALLOWED_MIME_TYPES (ui_mime_type body) ≠ None))
    (HTTPException 415 ("MIME type not allowed: " ++ ui_mime_type body)) ;;
  let total_chunks := chunk_count (ui_total_size body) in
  redis_sessions (redis_set (state_key upload_id)
    (dumps (upload_state (uuid_str (u_id user)) (ui_filename body) (ui_mime_type body)
              (ui_total_size body) total_chunks))
    (Some UPLOAD_STATE_TTL)) ;;
  mret (mk_UploadInitOut upload_id CHUNK_SIZE total_chunks).

Section Media.
Context (settings : Settings) `{Minio, Pillow}.

(** [upload_chunk] *)
Definition upload_chunk (upload_id : string) (chunk_index : Z) (data : list byte) (user : User)
    : prog world unit :=
  state ← load_state upload_id (uuid_str (u_id user));
  total ← state_int state "total_chunks";
  ensure ((0 <=? chunk_index)%Z && (chunk_index <? total)%Z)
    (HTTPException 400 "chunk index out of range") ;;
  ensure (negb (CHUNK_SIZE <? Z.of_nat (List.length data))%Z)
    (HTTPException 413 "chunk too large") ;;
  ensure (bool_decide (data ≠ [])) (HTTPException 400 "empty chunk") ;;
  put_staging_chunk settings upload_id chunk_index data ;;
  redis_sessions (redis_sadd (chunks_key upload_id) {[pretty chunk_index]}) ;;
  redis_sessions (redis_expire (chunks_key upload_id) UPLOAD_STATE_TTL) ;;
  mret tt.

(** [upload_status] *)
Definition upload_status (upload_id : string) (user : User) : prog world UploadStatusOut :=
  state ← load_state upload_id (uuid_str (u_id user));
  received ← received_chunks upload_id;
  let received := merge_sort Z.le received in
  total ← state_int state "total_chunks";
  let missing := missing_chunks total received in
  mret (mk_UploadStatusOut upload_id total received missing (bool_decide (missing = []))).

(** [_process_image]; [None] when an exception of Pillow leaves it. *)
Definition process_image (data : list byte) : option (list byte * option (list byte)) :=
  match image_open data with
  | None => Some (data, None)
  | Some img =>
      out ← (if (512 * 1024 <? Z.of_nat (List.length data))%Z then
               rgb ← (if bool_decide (image_mode img ∈ ["RGB"; "L"]) then Some img
                      else convert_rgb img);
               buf ← save_jpeg rgb 85 true;
               Some (if (List.length buf <? List.length data)%nat then buf else data)
             else Some data);
      thumb_img ← copy_thumbnail img 320;
      thumb_rgb ← convert_rgb thumb_img;
      tbuf ← save_jpeg thumb_rgb 70 false;
      Some (out, Some tbuf)
  end.

(** [upload_complete]; [hex1] and [hex2] are what [uuid4().hex] returns to the calls of
    [put_object]. It returns the response and the background task. *)
Definition upload_complete (upload_id hex1 hex2 : string) (user : User)
    : prog world (UploadCompleteOut * OcrTask) :=
  state ← load_state upload_id (uuid_str (u_id user));
  received ← received_chunks upload_id;
  total ← state_int state "total_chunks";
  let missing := missing_chunks total received in
  ensure (bool_decide (missing = []))
    (HTTPException 409 ("upload incomplete — missing chunks: " ++ py_list (take 20 missing))) ;;
  assembled ← assemble_staging settings upload_id total;
  size ← state_int state "total_size";
  (if negb (Z.of_nat (List.length assembled) =? size)%Z then
     delete_staging settings upload_id total ;;
     raise (HTTPException 400 "size mismatch — re-upload")
   else mret tt) ;;
  mime ← state_str state "mime_type";
  user_id ← state_str state "user_id";
  at_ ← (if startswith "image/" mime then
           processed ← some_or_raise (process_image assembled) PILLOW_ERROR;
           let '(assembled, thumb) := (processed : list byte * option (list byte)) in
           match thumb with
           | Some thumb =>
               k ← put_object (MINIO_BUCKET_ATTACHMENTS settings) thumb "_thumb.jpg" hex1;
               mret (assembled, Some k)
           | None => mret (assembled, None)
           end
         else mret (assembled, None));
  let '(assembled, thumbnail_key) := (at_ : list byte * option string) in
  media_key ← put_object (MINIO_BUCKET_ATTACHMENTS settings) assembled (ext_for mime) hex2;
  delete_staging settings upload_id total ;;
  redis_sessions (redis_delete [state_key upload_id; chunks_key upload_id]) ;;
  mret (mk_UploadCompleteOut media_key mime (Z.of_nat (List.length assembled)) thumbnail_key,
        mk_OcrTask assembled mime user_id media_key).

(** [presigned_view_url] *)
Definition presigned_view_url (media_key : string) : PresignedOut :=
  mk_PresignedOut
    (presign_download_ttl (MINIO_BUCKET_ATTACHMENTS settings) media_key PRESIGN_VIEW_TTL)
    PRESIGN_VIEW_TTL.
End Media.

(** ** An upload, from its first chunk to the stored object *)

(** The slice of [data] a client sends as chunk [i]. *)
Definition chunk (data : list byte) (i : Z) : list byte :=
  take (Z.to_nat CHUNK_SIZE) (drop (Z.to_nat (i * CHUNK_SIZE)) data).

Lemma concat_slices {A} (c n : nat) (l : list A) :
  List.concat ((λ i, take c (drop (i * c) l)) <$> seq 0 n) = take (n * c) l.
Proof.
  induction n as [|n IH]; [done|].
  rewrite seq_S, fmap_app, List.concat_app, IH. cbn [fmap list_fmap List.concat Nat.add].
  rewrite app_nil_r, take_take_drop. f_equal. lia.
Qed.

Lemma slice_not_nil {A} (c k : nat) (l : list A) :
  (0 < c)%nat → (k < List.length l)%nat → take c (drop k l) ≠ [].
Proof.
  intros Hc Hk E%(f_equal List.length). rewrite length_take, length_drop in E. cbn in E. lia.
Qed.

(** Enough chunks cover the data, and put together they are the data. *)
Lemma chunk_count_covers n : (0 ≤ n)%Z → (n ≤ chunk_count n * CHUNK_SIZE)%Z.
Proof. unfold chunk_count, CHUNK_SIZE. intros Hn. Z.to_euclidean_division_equations. lia. Qed.

Lemma chunk_nonempty n i :
  (0 ≤ i < chunk_count n)%Z → (i * CHUNK_SIZE < n)%Z.
Proof. unfold chunk_count, CHUNK_SIZE. intros Hn. Z.to_euclidean_division_equations. lia. Qed.

Lemma chunk_count_nonneg n : (0 ≤ n)%Z → (0 ≤ chunk_count n)%Z.
Proof. unfold chunk_count, CHUNK_SIZE. intros Hn. Z.to_euclidean_division_equations. lia. Qed.

Lemma concat_chunks data :
  List.concat (chunk data <$> range (chunk_count (Z.of_nat (List.length data)))) = data.
Proof.
  unfold range. rewrite <- list_fmap_compose.
  set (n := Z.to_nat (chunk_count (Z.of_nat (List.length data)))).
  transitivity (List.concat ((λ i, take (Z.to_nat CHUNK_SIZE)
                   (drop (i * Z.to_nat CHUNK_SIZE) data)) <$> seq 0 n)).
  - f_equal. apply list_fmap_ext. intros _ i _. cbn. unfold chunk. do 2 f_equal.
    unfold CHUNK_SIZE. lia.
  - rewrite concat_slices. apply take_ge. subst n.
    pose proof (chunk_count_covers (Z.of_nat (List.length data)) ltac:(lia)) as H.
    pose proof (chunk_count_nonneg (Z.of_nat (List.length data)) ltac:(lia)).
    assert (0 ≤ CHUNK_SIZE)%Z by done. nia.
Qed.

Lemma elem_of_range n i : i ∈ range n ↔ (0 ≤ i < n)%Z.
Proof.
  unfold range. rewrite list_elem_of_fmap. split.
  - intros (k & -> & Hk%elem_of_seq). lia.
  - intros Hi. exists (Z.to_nat i). split; [lia|]. apply elem_of_seq. lia.
Qed.

Lemma missing_nil total received :
  missing_chunks total received = [] ↔ ∀ i, (0 ≤ i < total)%Z → i ∈ received.
Proof.
  unfold missing_chunks. split.
  - intros H i Hi. destruct (decide (i ∈ received)) as [|Hn]; [done|]. exfalso.
    assert (i ∈ List.filter (λ i, negb (bool_decide (i ∈ received))) (range total)) as Hin;
      [|rewrite H in Hin; by apply elem_of_nil in Hin].
    apply list_elem_of_In, filter_In. rewrite <- list_elem_of_In, elem_of_range.
    split; [done|]. by rewrite bool_decide_eq_false_2.
  - intros H. destruct (List.filter _ _) as [|i l] eqn:E; [done|].
    assert (i ∈ i :: l) as Hin by set_solver. rewrite <- E in Hin.
    apply list_elem_of_In, filter_In in Hin as [Hr Hb].
    rewrite <- list_elem_of_In, elem_of_range in Hr.
    rewrite bool_decide_eq_true_2 in Hb; [done|by apply H].
Qed.

Lemma elem_of_missing total received i :
  i ∈ missing_chunks total received ↔ (0 ≤ i < total)%Z ∧ i ∉ received.
Proof.
  unfold missing_chunks. rewrite list_elem_of_In, filter_In, <- list_elem_of_In, elem_of_range.
  rewrite negb_true_iff, bool_decide_eq_false. done.
Qed.

(** The set of indices, as Redis keeps it. *)
Definition index_set (D : gset Z) : gset string := set_map (pretty : Z → string) D.

Lemma map_each_ints {S} (l : list string) (D : gset Z) (s : S) :
  (∀ x, x ∈ l → ∃ i, i ∈ D ∧ x = pretty i) →
  ∃ r, map_each (λ i, some_or_raise (int_of_str i) (ValueError "int")) l s = (Ok r, s) ∧
    l = pretty <$> r.
Proof.
  induction l as [|x l IH]; intros H; [by exists []|].
  destruct IH as (r & Hr & Hel); [set_solver|].
  destruct (H x) as (i & Hi & ->); [set_solver|].
  exists (i :: r). cbn [map_each]. unfold bind. rewrite int_of_str_pretty. cbn [some_or_raise ret].
  change (bind ?m ?k) with (m ≫= k). rewrite Hr. split; [done|]. cbn. by f_equal.
Qed.

Section Uploads.
Context (settings : Settings) `{Minio, Pillow}.
Context (upload_id filename mime : string) (user : User) (data : list byte).

(** [size] is the size declared at the start; it gives the number of chunks sent. *)
Context (size : Z) (Htotal : chunk_count size = chunk_count (Z.of_nat (List.length data))).

Let total : Z := chunk_count size.
Let state := upload_state (uuid_str (u_id user)) filename mime size total.
Let bucket : string := MINIO_BUCKET_ATTACHMENTS settings.

(** What Redis says of the upload begun at [t0], of which the chunks in [D] have arrived. *)
Record tracked (t0 : timestamp) (D : gset Z) (w : world) : Prop := {
  up_time : (w_now w < deadline t0 UPLOAD_STATE_TTL)%Z;
  up_state : w_sessions w !! state_key upload_id
             = Some (mk_entry (RStr (dumps state)) (Some (deadline t0 UPLOAD_STATE_TTL)));
  up_chunks : (D = ∅ ∧ live (w_now w) (w_sessions w) (chunks_key upload_id) = None) ∨
    ∃ e, w_sessions w !! chunks_key upload_id = Some (mk_entry (RSet (index_set D)) (Some e))
         ∧ D ≠ ∅ ∧ (deadline t0 UPLOAD_STATE_TTL ≤ e)%Z;
  up_range : ∀ i, i ∈ D → (0 ≤ i < total)%Z
}.

(** And they are staged. *)
Record uploading (t0 : timestamp) (D : gset Z) (w : world) : Prop := {
  up_tracked :> tracked t0 D w;
  up_objects : ∀ i, i ∈ D → w_objects w !! (bucket, staging_key upload_id i) = Some (chunk data i)
}.

Lemma keys_differ : state_key upload_id ≠ chunks_key upload_id.
Proof.
  unfold state_key, chunks_key. intros E%(f_equal String.length).
  rewrite !length_append in E. cbn in E. lia.
Qed.

Lemma state_read t0 D w :
  tracked t0 D w →
  redis_sessions (redis_get (state_key upload_id)) w = (Ok (Some (dumps state)), w).
Proof.
  intros Ht. unfold redis_sessions, zoom. redis_run. unfold live. cbn [rs_db rs_now].
  rewrite (up_state _ _ _ Ht). unfold expired. cbn [e_exp].
  rewrite (proj2 (Z.leb_gt _ _)) by apply Ht. by destruct w.
Qed.

Lemma load_state_run t0 D w :
  tracked t0 D w → load_state upload_id (uuid_str (u_id user)) w = (Ok state, w).
Proof.
  intros Ht. unfold load_state. rewrite (step_ok _ _ _ _ _ (state_read _ _ _ Ht)).
  rewrite some_step, loads_dumps, some_step.
  change (member_str "user_id" state) with (Some (uuid_str (u_id user))).
  by rewrite some_step, String.eqb_refl.
Qed.

(** Nothing in the way: no call of the client fails. *)
Context (Hup : ∀ key, minio_down bucket key = false).

Lemma client_put_run key d w :
  client_put bucket key d w = (Ok tt, w <| w_objects ::= <[(bucket, key) := d]> |>).
Proof. unfold client_put. by rewrite Hup. Qed.
Lemma client_get_run key d w :
  w_objects w !! (bucket, key) = Some d → client_get bucket key w = (Ok d, w).
Proof.
  intros Hd. unfold client_get. rewrite Hup. cbn [negb]. rewrite ensure_true_step.
  rewrite (step_ok _ _ w (Some d) w); [done|]. unfold gets. by rewrite Hd.
Qed.

Lemma staging_key_inj i j : staging_key upload_id i = staging_key upload_id j → i = j.
Proof.
  unfold staging_key. intros E%(append_inj_l "staging/")%append_inj_l%(append_inj_l "/").
  by apply (inj pretty).
Qed.

Lemma index_set_insert i D : index_set ({[i]} ∪ D) = index_set D ∪ {[pretty i]}.
Proof. unfold index_set. rewrite set_map_union_L, set_map_singleton_L. set_solver. Qed.

Lemma live_lookup now (db : redis) k v e :
  db !! k = Some (mk_entry v (Some e)) → (now < e)%Z → live now db k = Some (mk_entry v (Some e)).
Proof.
  intros Hk Hn. unfold live. rewrite Hk. unfold expired. cbn [e_exp].
  by rewrite (proj2 (Z.leb_gt _ _)).
Qed.

(** The two commands that record a chunk. *)
Lemma record_chunk_run t0 D w i :
  uploading t0 D w →
  ∃ ex n, redis_sessions (redis_sadd (chunks_key upload_id) {[pretty i]}) w
    = (Ok n, w <| w_sessions ::= <[chunks_key upload_id :=
               mk_entry (RSet (index_set ({[i]} ∪ D))) ex]> |>) ∧
    match ex with Some e => (w_now w < e)%Z | None => True end.
Proof.
  intros Hu. unfold redis_sessions, zoom. redis_run. cbn [rs_db rs_now].
  assert (∀ m : gset string, m ∪ {[pretty i]} ≠ ∅) as Hne by set_solver.
  destruct (up_chunks _ _ _ Hu) as [[-> Hc]|(e & Hc & _ & He)].
  - rewrite Hc. cbn [mbind option_bind]. rewrite decide_False by apply Hne.
    eexists None, _. split; [|done]. rewrite index_set_insert. cbn. by rewrite Hc.
  - pose proof (up_time _ _ _ Hu). rewrite (live_lookup _ _ _ _ _ Hc) by lia.
    rewrite decide_False by apply Hne. cbn [mbind option_bind e_exp].
    eexists (Some e), _. split; [|lia]. rewrite index_set_insert. cbn.
    by rewrite (live_lookup _ _ _ _ _ Hc) by lia.
Qed.

Lemma expire_after_write_run k secs v ex w :
  match ex with Some e => (w_now w < e)%Z | None => True end →
  redis_sessions (redis_expire k secs) (w <| w_sessions ::= <[k := mk_entry v ex]> |>)
  = (Ok true, w <| w_sessions ::= <[k := mk_entry v (Some (deadline (w_now w) secs))]> |>).
Proof.
  intros Hex. unfold redis_sessions, zoom. redis_run. cbn [rs_db rs_now over]. cbn.
  unfold live. rewrite lookup_insert_eq. unfold expired. cbn [e_exp].
  assert (match ex with Some t => (t <=? w_now w)%Z | None => false end = false) as ->
    by (destruct ex; [by apply Z.leb_gt|done]).
  unfold over. cbn. by rewrite insert_insert_eq.
Qed.

Lemma chunk_length i : (Z.of_nat (List.length (chunk data i)) ≤ CHUNK_SIZE)%Z.
Proof. unfold chunk. rewrite length_take. assert (0 ≤ CHUNK_SIZE)%Z by done. lia. Qed.

Lemma chunk_not_nil i : (0 ≤ i < total)%Z → chunk data i ≠ [].
Proof.
  unfold total. rewrite Htotal. intros Hi. pose proof (chunk_nonempty _ _ Hi) as Hlt.
  apply slice_not_nil.
  - assert (0 < CHUNK_SIZE)%Z by done. lia.
  - assert (0 ≤ i * CHUNK_SIZE)%Z by (apply Z.mul_nonneg_nonneg; [lia|done]). lia.
Qed.

Lemma upload_chunk_run t0 D w i :
  uploading t0 D w → (t0 ≤ w_now w)%Z → (0 ≤ i < total)%Z →
  ∃ w', upload_chunk settings upload_id i (chunk data i) user w = (Ok tt, w') ∧
    uploading t0 ({[i]} ∪ D) w' ∧ w_now w' = w_now w.
Proof.
  intros Hu Ht Hi. unfold upload_chunk.
  rewrite (step_ok _ _ _ _ _ (load_state_run _ _ _ Hu)).
  change (state_int state "total_chunks") with (mret total : prog world Z). rewrite mret_step.
  rewrite (proj2 (andb_true_iff _ _)) by (rewrite Z.leb_le, Z.ltb_lt; lia).
  rewrite ensure_true_step. rewrite (proj2 (Z.ltb_ge _ _)) by apply chunk_length.
  cbn [negb]. rewrite ensure_true_step.
  rewrite bool_decide_eq_true_2 by by apply chunk_not_nil. rewrite ensure_true_step.
  unfold put_staging_chunk. rewrite (step_ok _ _ _ _ _ (client_put_run _ _ _)).
  set (w1 := w <| w_objects ::= _ |>).
  assert (uploading t0 D w1) as Hu1.
  { destruct Hu as [[H1 H2 H3 H4] H5]. split; [by split|]. intros j Hj. cbn.
    destruct (decide (j = i)) as [->|Hne]; [by rewrite lookup_insert_eq|].
    rewrite lookup_insert_ne by (intros E; apply Hne; symmetry; apply staging_key_inj; congruence). by apply H5. }
  destruct (record_chunk_run t0 D w1 i Hu1) as (ex & n & E & Hex).
  rewrite (step_ok _ _ _ _ _ E).
  rewrite (step_ok _ _ _ _ _ (expire_after_write_run _ _ _ _ _ Hex)). eexists. split; [done|].
  split; [|done]. destruct Hu1 as [[H1 H2 H3 H4] H5]. split; [split|].
  - done.
  - cbn. rewrite lookup_insert_ne by (apply not_eq_sym, keys_differ). exact H2.
  - right. eexists. cbn. rewrite lookup_insert_eq. split; [done|]. split; [set_solver|].
    unfold deadline. cbn. lia.
  - intros j [->%elem_of_singleton|Hj]%elem_of_union; [done|by apply H4].
  - intros j [->%elem_of_singleton|Hj]%elem_of_union; [|by apply H5].
    cbn. by rewrite lookup_insert_eq.
Qed.




Lemma received_run t0 D w :
  tracked t0 D w →
  ∃ l, received_chunks upload_id w = (Ok l, w) ∧ ∀ i, i ∈ l ↔ i ∈ D.
Proof.
  intros Hu. unfold received_chunks.
  assert (redis_sessions (redis_smembers (chunks_key upload_id)) w = (Ok (index_set D), w)) as E.
  { unfold redis_sessions, zoom. redis_run. cbn [rs_db rs_now].
    destruct (up_chunks _ _ _ Hu) as [[-> Hc]|(e & Hc & _ & He)].
    - rewrite Hc. by destruct w.
    - pose proof (up_time _ _ _ Hu). rewrite (live_lookup _ _ _ _ _ Hc) by lia. by destruct w. }
  rewrite (step_ok _ _ _ _ _ E).
  destruct (map_each_ints (elements (index_set D)) D w) as (r & Hr & El).
  { intros x Hx%elem_of_elements%elem_of_map. naive_solver. }
  exists r. split; [exact Hr|]. intros i.
  assert (pretty i ∈ elements (index_set D) ↔ i ∈ D) as <-.
  { rewrite elem_of_elements. unfold index_set. rewrite elem_of_map. split; [|naive_solver].
    intros (j & Ej%(inj pretty) & Hj). by subst. }
  rewrite El, list_elem_of_fmap. split; [by exists i|].
  intros (j & Ej%(inj pretty) & Hj). by subst.
Qed.

Lemma assemble_run t0 D w :
  uploading t0 D w → (∀ i, (0 ≤ i < total)%Z → i ∈ D) →
  assemble_staging settings upload_id total w = (Ok data, w).
Proof.
  intros Hu Hall. unfold assemble_staging.
  assert (∀ l, (∀ i, i ∈ l → i ∈ D) →
    map_each (λ i, client_get bucket (staging_key upload_id i)) l w = (Ok (chunk data <$> l), w)) as E.
  { induction l as [|i l IH]; intros Hl; [done|]. cbn [map_each]. unfold bind.
    rewrite (client_get_run _ (chunk data i)) by (apply Hu, Hl; set_solver).
    rewrite IH by set_solver. done. }
  rewrite (step_ok _ _ _ _ _ (E (range total) ltac:(intros i ?%elem_of_range; auto))).
  unfold mret, prog_ret, ret, total. by rewrite Htotal, concat_chunks.
Qed.

Lemma delete_staging_run n w :
  ∃ O, delete_staging settings upload_id n w = (Ok tt, w <| w_objects := O |>) ∧
    (∀ i, (0 ≤ i < n)%Z → O !! (bucket, staging_key upload_id i) = None) ∧
    (∀ b k, (∀ i, (b, k) ≠ (bucket, staging_key upload_id i)) → O !! (b, k) = w_objects w !! (b, k)).
Proof.
  unfold delete_staging.
  assert (∀ l w, ∃ O, for_each (λ i, delete_object bucket (staging_key upload_id i)) l w
    = (Ok tt, w <| w_objects := O |>) ∧
    (∀ i, i ∈ l ∨ w_objects w !! (bucket, staging_key upload_id i) = None →
       O !! (bucket, staging_key upload_id i) = None) ∧
    (∀ b k, (∀ i, (b, k) ≠ (bucket, staging_key upload_id i)) →
       O !! (b, k) = w_objects w !! (b, k))) as H1.
  { clear w. induction l as [|i l IH]; intros w.
    - exists (w_objects w). split; [by destruct w|]. split; [|done]. intros i [[]%elem_of_nil|]; done.
    - destruct (IH (w <| w_objects ::= delete (bucket, staging_key upload_id i) |>)) as (O & E & H1 & H2).
      exists O. cbn [for_each]. unfold bind, delete_object at 1. rewrite Hup. cbn [negb].
      split; [exact E|]. split.
      + intros j Hj. apply H1. cbn. destruct (decide (j = i)) as [->|Hne].
        * right. by rewrite lookup_delete_eq.
        * destruct Hj as [[->|Hj]%elem_of_cons|Hj]; [done|by left|right].
          rewrite lookup_delete_ne; [done|].
          intros Ek. apply Hne. symmetry. apply staging_key_inj. congruence.
      + intros b k Hk. rewrite H2 by done. cbn. by rewrite lookup_delete_ne. }
  destruct (H1 (range n) w) as (O & E & H2 & H3). exists O. split; [exact E|].
  split; [|done]. intros i Hi. apply H2. left. by apply elem_of_range.
Qed.

Lemma upload_init_run w :
  ALLOWED_MIME_TYPES mime ≠ None → live (w_now w) (w_sessions w) (chunks_key upload_id) = None →
  ∃ w', upload_init upload_id (mk_UploadInitIn filename mime size) user w
      = (Ok (mk_UploadInitOut upload_id CHUNK_SIZE total), w') ∧
    uploading (w_now w) ∅ w' ∧ w_now w' = w_now w.
Proof.
  intros Hm Hc. unfold upload_init. cbn [ui_mime_type ui_total_size ui_filename].
  rewrite bool_decide_eq_true_2, ensure_true_step by done.
  set (e := mk_entry (RStr (dumps state)) (Some (deadline (w_now w) UPLOAD_STATE_TTL))).
  set (w' := w <| w_sessions ::= <[state_key upload_id := e]> |>).
  rewrite (step_ok _ _ w tt w') by done.
  exists w'. split; [done|]. split; [|done]. split; [split|].
  - cbn. unfold deadline, UPLOAD_STATE_TTL, second. lia.
  - cbn. by rewrite lookup_insert_eq.
  - left. split; [done|]. cbn. rewrite live_insert_ne by apply keys_differ. done.
  - set_solver.
  - set_solver.
Qed.

(** What is to be stored, and the thumbnail: images pass through [_process_image]. *)
Definition processed : option (list byte * option (list byte)) :=
  if startswith "image/" mime then process_image data else Some (data, None).



(** The start of a completion with every chunk there, up to the size; and past a size that is right. *)
Ltac complete_begin Hu Hall :=
  let l := fresh in let El := fresh in let Hl := fresh in
  rewrite (step_ok _ _ _ _ _ (load_state_run _ _ _ Hu));
  destruct (received_run _ _ _ Hu) as (l & El & Hl); rewrite (step_ok _ _ _ _ _ El);
  change (state_int state "total_chunks") with (mret total : prog world Z); rewrite mret_step;
  rewrite (proj2 (missing_nil total l)) by (intros ? ?; apply Hl; auto);
  rewrite bool_decide_eq_true_2, ensure_true_step by done;
  rewrite (step_ok _ _ _ _ _ (assemble_run _ _ _ Hu Hall));
  change (state_int state "total_size") with (mret size : prog world Z); rewrite mret_step.



(** The size was declared wrong: the staged chunks go, the state and the set of indices
    stay. *)
Lemma mismatch_run t0 D w hex1 hex2 :
  size ≠ Z.of_nat (List.length data) → uploading t0 D w → (∀ i, (0 ≤ i < total)%Z → i ∈ D) →
  ∃ O, upload_complete settings upload_id hex1 hex2 user w
    = (Err (HTTPException 400 "size mismatch — re-upload"), w <| w_objects := O |>) ∧
    ∀ i, (0 ≤ i < total)%Z → O !! (bucket, staging_key upload_id i) = None.
Proof.
  intros Hsize Hu Hall. unfold upload_complete.
  complete_begin Hu Hall.
  rewrite (proj2 (Z.eqb_neq _ _)) by (apply not_eq_sym, Hsize). cbn [negb].
  destruct (delete_staging_run total w) as (O & E2 & HO1 & _).
  exists O. split; [|exact HO1]. rewrite step_assoc, (step_ok _ _ _ _ _ E2). done.
Qed.

(** What Redis says is all that [upload_status] reads. *)
Lemma status_run t0 D w :
  tracked t0 D w →
  ∃ r, upload_status upload_id user w
    = (Ok (mk_UploadStatusOut upload_id total r (missing_chunks total r)
             (bool_decide (missing_chunks total r = []))), w) ∧
    StronglySorted Z.le r ∧ ∀ i, i ∈ r ↔ i ∈ D.
Proof.
  intros Ht. unfold upload_status. rewrite (step_ok _ _ _ _ _ (load_state_run _ _ _ Ht)).
  destruct (received_run _ _ _ Ht) as (l & El & Hl). rewrite (step_ok _ _ _ _ _ El).
  change (state_int state "total_chunks") with (mret total : prog world Z). rewrite mret_step.
  eexists. split; [done|]. split; [apply (StronglySorted_merge_sort Z.le)|].
  intros i. rewrite merge_sort_Permutation. apply Hl.
Qed.

(** An upload all recorded but not staged cannot be completed. *)
Lemma complete_lost t0 D w hex1 hex2 :
  tracked t0 D w → (∀ i, (0 ≤ i < total)%Z → i ∈ D) → (0 < total)%Z →
  w_objects w !! (bucket, staging_key upload_id 0) = None →
  upload_complete settings upload_id hex1 hex2 user w = (Err (StorageError "NoSuchKey"), w).
Proof.
  intros Ht Hall Hpos Hlost. unfold upload_complete.
  rewrite (step_ok _ _ _ _ _ (load_state_run _ _ _ Ht)).
  destruct (received_run _ _ _ Ht) as (l & El & Hl). rewrite (step_ok _ _ _ _ _ El).
  change (state_int state "total_chunks") with (mret total : prog world Z). rewrite mret_step.
  rewrite (proj2 (missing_nil total l)) by (intros i Hi; apply Hl; auto).
  rewrite bool_decide_eq_true_2, ensure_true_step by done.
  apply step_err. unfold assemble_staging, range.
  assert (Z.to_nat total = S (pred (Z.to_nat total))) as -> by lia.
  cbn [seq fmap list_fmap map_each Z.of_nat]. apply step_err, bind_err. unfold client_get. rewrite Hup. cbn [negb].
  rewrite ensure_true_step. rewrite (step_ok _ _ w None w); [done|].
  unfold gets. f_equal. f_equal. exact Hlost.
Qed.
End Uploads.

(** ** Properties *)

Section Theorems.
Context (settings : Settings) `{Minio, Pillow}.

Definition attachments_up : Prop :=
  ∀ key, minio_down (MINIO_BUCKET_ATTACHMENTS settings) key = false.


(** C18. Uploads are private: whatever another user asks of an upload - to add a chunk, its
    status, to complete it - the answer is the same 404 as for an identifier that does not
    exist, and nothing changes. *)
Theorem upload_private upload_id filename mime user other size t0 D w i chunk_ hex1 hex2 :
  u_id other ≠ u_id user → tracked upload_id filename mime user size t0 D w →
  let absent := w <| w_sessions ::= delete (state_key upload_id) |> in
  ∀ v, v ∈ [w; absent] →
    upload_chunk settings upload_id i chunk_ other v = (Err NOT_FOUND, v) ∧
    upload_status upload_id other v = (Err NOT_FOUND, v) ∧
    upload_complete settings upload_id hex1 hex2 other v = (Err NOT_FOUND, v).
Proof.
  intros Hne Ht absent v Hv.
  assert (load_state upload_id (uuid_str (u_id other)) v = (Err NOT_FOUND, v)) as E.
  { apply elem_of_cons in Hv as [->|[->|[]%elem_of_nil]%elem_of_cons]; unfold load_state.
    - rewrite (step_ok _ _ _ _ _ (state_read _ _ _ _ _ _ _ _ Ht)), some_step, loads_dumps, some_step.
      change (member_str "user_id" _) with (Some (uuid_str (u_id user))). rewrite some_step.
      assert (String.eqb (uuid_str (u_id user)) (uuid_str (u_id other)) = false) as ->
        by (apply String.eqb_neq; intros ?%uuid_str_inj; done).
      by rewrite ensure_false_step.
    - unfold absent, redis_sessions, zoom. erewrite step_ok; [by rewrite none_step|]. redis_run.
      unfold live. cbn. by rewrite lookup_delete_eq. }
  unfold upload_chunk, upload_status, upload_complete. split_and!; by apply step_err.
Qed.

(** Resuming: the status names the chunks that arrived, in order, and the ones that are
    missing, each of them once, and says the upload is complete exactly when none is. *)
Theorem upload_status_spec upload_id filename mime user size t0 D w :
  tracked upload_id filename mime user size t0 D w →
  ∃ s, upload_status upload_id user w = (Ok s, w) ∧
    uso_total_chunks s = chunk_count size ∧
    StronglySorted Z.le (uso_received_chunks s) ∧
    (∀ i, i ∈ uso_received_chunks s ↔ i ∈ D) ∧
    (∀ i, i ∈ uso_missing_chunks s ↔ (0 ≤ i < chunk_count size)%Z ∧ i ∉ D) ∧
    (uso_complete s = true ↔ ∀ i, (0 ≤ i < chunk_count size)%Z → i ∈ D).
Proof.
  intros Ht. destruct (status_run upload_id filename mime user size t0 D w Ht)
    as (r & E & Hs & Hr). eexists. split; [exact E|]. cbn.
  split_and!; [done|done|done| |].
  - intros i. by rewrite elem_of_missing, Hr.
  - rewrite bool_decide_eq_true, missing_nil. by setoid_rewrite Hr.
Qed.

(** C40. After a size mismatch an upload is stuck: when every chunk has arrived, but their bytes are
    not as many as declared (though they make as many chunks), [upload_complete] answers 400,
    tells the client to upload again and deletes the staged chunks, but keeps them recorded as
    received: the status then says that the upload is complete with nothing missing, and
    completing it again fails inside the storage client. *)
Theorem upload_mismatch_stuck upload_id filename mime user data size t0 D w hex1 hex2 :
  attachments_up → size ≠ Z.of_nat (List.length data) → (0 < chunk_count size)%Z →
  chunk_count size = chunk_count (Z.of_nat (List.length data)) →
  uploading settings upload_id filename mime user data size t0 D w →
  (∀ i, (0 ≤ i < chunk_count size)%Z → i ∈ D) →
  ∃ w' s, upload_complete settings upload_id hex1 hex2 user w
      = (Err (HTTPException 400 "size mismatch — re-upload"), w') ∧
    upload_status upload_id user w' = (Ok s, w') ∧ uso_missing_chunks s = [] ∧
    uso_complete s = true ∧
    upload_complete settings upload_id hex1 hex2 user w' = (Err (StorageError "NoSuchKey"), w').
Proof.
  intros Hup Hne Hpos Heq Hu Hall.
  destruct (mismatch_run settings upload_id filename mime user data size Heq Hup
    t0 D w hex1 hex2 Hne Hu Hall) as (O & E & HO).
  set (w' := w <| w_objects := O |>) in *.
  assert (tracked upload_id filename mime user size t0 D w') as Ht by (destruct Hu as [[] _]; by split).
  destruct (status_run upload_id filename mime user size t0 D w' Ht) as (r & Es & _ & Hr).
  assert (missing_chunks (chunk_count size) r = []) as Hm
    by (apply missing_nil; intros i Hi; by apply Hr, Hall).
  rewrite Hm in Es. exists w'. eexists. split; [exact E|]. split; [exact Es|].
  split; [done|]. split; [done|].
  eapply complete_lost; [done|exact Ht|done|done|]. apply HO. lia.
Qed.
End Theorems.

(** ** At concrete inputs: one byte of video, declared as one byte or as two. *)
Module Clip.
Definition user (n : nat) : User :=
  mk_User (uid n) 0 "+201001234567" "U" None None None "" "" None 1 ACTIVE SOLDIER None None
    false None true.
Definition minio : Minio := {| minio_down _ _ := false; presigned _ _ _ _ := "" |}.
Definition pillow : Pillow := {|
  image := unit; image_open _ := None; image_mode _ := "RGB"; convert_rgb := Some;
  save_jpeg _ _ _ := Some []; copy_thumbnail i _ := Some i
|}.
Definition clip : list byte := [x2a].
Definition key : string := "media-upload-id".

(** The upload as [upload_init] leaves it, and once its chunk has arrived. *)
Lemma begun size :
  ∃ w, @uploading default_settings key "clip.mp4" "video/mp4" (user 1) clip size 0 ∅ w ∧
       w_now w = 0%Z.
Proof.
  destruct (upload_init_run default_settings key "clip.mp4" "video/mp4" (user 1) clip size
    (empty_world 0)) as (w & _ & Hu & Hn); [done|done|]. by exists w.
Qed.

Lemma arrived size :
  chunk_count size = 1%Z →
  ∃ w, @uploading default_settings key "clip.mp4" "video/mp4" (user 1) clip size 0 {[0%Z]} w.
Proof.
  intros Hc. destruct (begun size) as (w & Hu & Hn).
  destruct (@upload_chunk_run default_settings minio key "clip.mp4" "video/mp4"
    (user 1) clip size Hc (λ _, eq_refl) 0 ∅ w 0 Hu) as (w' & _ & Hu' & _);
    [by rewrite Hn|by rewrite Hc|].
  exists w'. by rewrite union_empty_r_L in Hu'.
Qed.
End Clip.


Lemma upload_private_witness :
  ∃ w, (@upload_complete default_settings Clip.minio Clip.pillow Clip.key "0a" "0b" (Clip.user 2) w).1
       = Err NOT_FOUND.
Proof.
  destruct (Clip.arrived 1 eq_refl) as [w Hu]. exists w.
  destruct (@upload_private default_settings Clip.minio Clip.pillow Clip.key "clip.mp4"
    "video/mp4" (Clip.user 1) (Clip.user 2) 1 0 {[0%Z]} w 0 [] "0a" "0b") with (v := w)
    as (_ & _ & E).
  - vm_compute. discriminate.
  - exact (up_tracked _ _ _ _ _ _ _ _ _ _ Hu).
  - constructor.
  - by rewrite E.
Defined.

Lemma upload_status_spec_witness :
  ∃ w s, upload_status Clip.key (Clip.user 1) w = (Ok s, w) ∧ uso_complete s = true.
Proof.
  destruct (Clip.arrived 1 eq_refl) as [w Hu]. exists w.
  destruct (upload_status_spec Clip.key "clip.mp4" "video/mp4" (Clip.user 1) 1 0 {[0%Z]} w
    (up_tracked _ _ _ _ _ _ _ _ _ _ Hu)) as (s & E & _ & _ & _ & _ & Hc).
  exists s. split; [exact E|]. apply Hc. intros i [H1 H2].
  assert (i = 0%Z) as -> by (change (chunk_count 1) with 1%Z in H2; lia).
  by apply elem_of_singleton.
Defined.

Lemma upload_mismatch_stuck_witness :
  ∃ w s, upload_status Clip.key (Clip.user 1) w = (Ok s, w) ∧ uso_complete s = true ∧
    @upload_complete default_settings Clip.minio Clip.pillow Clip.key "0a" "0b" (Clip.user 1) w
    = (Err (StorageError "NoSuchKey"), w).
Proof.
  destruct (Clip.arrived 2 eq_refl) as [w Hu].
  destruct (@upload_mismatch_stuck default_settings Clip.minio Clip.pillow Clip.key "clip.mp4"
    "video/mp4" (Clip.user 1) Clip.clip 2 0 {[0%Z]} w "0a" "0b") as (w' & s & _ & E & _ & Hc & E').
  - done.
  - vm_compute. discriminate.
  - reflexivity.
  - reflexivity.
  - exact Hu.
  - intros i [H1 H2]. assert (i = 0%Z) as -> by (change (chunk_count 2) with 1%Z in H2; lia).
    by apply elem_of_singleton.
  - exists w', s. split; [exact E|]. split; [exact Hc|exact E'].
Defined.
