(* ===== verification/Messages.v ===== *)
(** [app/services/message_service.py] and [app/services/self_destruct_worker.py]: the
    life of a message - sent, delivered, read, unsent, destructed. *)

From S2P Require Import Prelude Effects PyStr Uuid Redis Models World Pubsub Config Storage.
From Stdlib Require Import String.

Local Open Scope string_scope.

Definition UNSEND_WINDOW : Z := minutes 5.
Definition BATCH_SIZE : nat := 500.

(** [db.add(msg)] and the flush: the foreign keys, the range of an [Integer] column and the
    lengths of texts. *)
Definition exists_or_null {A} (t : gmap UUID A) (k : option UUID) : bool :=
  match k with Some k => bool_decide (is_Some (t !! k)) | None => true end.
Definition int4 (z : option Z) : bool :=
  match z with Some z => (- 2 ^ 31 <=? z)%Z && (z <? 2 ^ 31)%Z | None => true end.
(** The length of a [String(n)] column. *)
Definition varchar (n : nat) (s : option string) : bool :=
  match s with Some s => (String.length s <=? n)%nat | None => true end.
Definition row_fits (m : Message) : bool :=
  int4 (m_destruct_after_seconds m) && varchar 20 (Some (m_message_type m))
  && varchar 500 (m_media_object_key m) && varchar 100 (m_media_mime_type m).

Definition db_add_message (m : Message) : prog world unit :=
  t ← query id;
  ensure (row_fits m) (ValueError "value out of range for its column") ;;
  ensure (exists_or_null (users t) (m_sender_id m) && exists_or_null (users t) (m_recipient_id m)
          && exists_or_null (groups t) (m_group_id m)
          && bool_decide (messages t !! m_id m = None)) (IntegrityError "messages") ;;
  db_change (λ t, t <| messages ::= <[m_id m := m]> |>).

(** The [Message(...)] of [save_message]. [if destruct_after_seconds] is false for
    [None] and for 0. *)
Definition new_message (mid : UUID) (now : timestamp) (sender_id : UUID)
    (recipient_id group_id : option UUID) (message_type : string)
    (content_ciphertext media_object_key media_mime_type : option string)
    (destruct_after_seconds : option Z) : Message :=
  mk_Message mid now (Some sender_id) recipient_id group_id message_type
    content_ciphertext media_object_key media_mime_type None SENT (Some now) None
    (bool_decide (destruct_after_seconds ≠ None))
    destruct_after_seconds
    (match destruct_after_seconds with
     | Some d => if decide (d = 0)%Z then None else Some (now + seconds d)%Z
     | None => None
     end)
    false None false.

(** [save_message]; [mid] is the fresh primary key. *)
Definition save_message (mid sender_id : UUID) (recipient_id group_id : option UUID)
    (message_type : string) (content_ciphertext media_object_key media_mime_type : option string)
    (destruct_after_seconds : option Z) : prog world Message :=
  now ← utcnow;
  let msg := new_message mid now sender_id recipient_id group_id message_type
    content_ciphertext media_object_key media_mime_type destruct_after_seconds in
  db_add_message msg ;;
  commit ;;
  mret msg.

(** The check that [mark_delivered] and [mark_read] share. *)
Definition is_participant (msg : Message) (user_id : UUID) (t : tables) : bool :=
  match m_group_id msg with
  | Some gid =>
      bool_decide (is_Some (scalar (group_members t)
        (λ m, bool_decide (gm_group_id m = gid) && bool_decide (gm_user_id m = user_id))))
  | None =>
      bool_decide (m_sender_id msg = Some user_id)
      || bool_decide (m_recipient_id msg = Some user_id)
  end.

Definition put_message (m : Message) : prog world unit :=
  db_change (λ t, t <| messages ::= <[m_id m := m]> |>).

Definition mark_delivered (message_id user_id : UUID) : prog world (option Message) :=
  msg ← query (λ t, messages t !! message_id);
  match msg with
  | None => mret None
  | Some msg =>
      participant ← query (is_participant msg user_id);
      if negb participant then mret None
      else if bool_decide (m_delivered_at msg = None) then
        now ← utcnow;
        let msg := msg <| m_delivered_at := Some now |> in
        put_message msg ;; commit ;; mret (Some msg)
      else mret (Some msg)
  end.

(** What a first reading at [now] does to a message. *)
Definition read_message (msg : Message) (now : timestamp) : Message :=
  let msg := msg <| m_status := READ |> <| m_read_at := Some now |> in
  let msg := if bool_decide (m_delivered_at msg = None)
             then msg <| m_delivered_at := m_read_at msg |> else msg in
  match m_destruct_after_seconds msg with
  | Some d =>
      if m_is_self_destruct msg && negb (d =? 0)%Z && bool_decide (m_destruct_at msg = None)
      then msg <| m_destruct_at := Some (now + seconds d)%Z |> else msg
  | None => msg
  end.

Definition mark_read (message_id user_id : UUID) : prog world (option Message) :=
  msg ← query (λ t, messages t !! message_id);
  match msg with
  | None => mret None
  | Some msg =>
      participant ← query (is_participant msg user_id);
      if negb participant then mret None
      else if bool_decide (m_status msg ≠ READ) then
        now ← utcnow;
        let msg := read_message msg now in
        put_message msg ;; commit ;; mret (Some msg)
      else mret (Some msg)
  end.

(** The wiping both retractions do. *)
Definition unsent (msg : Message) (now : timestamp) : Message :=
  msg <| m_content_ciphertext := None |> <| m_media_object_key := None |>
      <| m_media_mime_type := None |> <| m_deleted_for_everyone := true |>
      <| m_deleted_at := Some now |>.

Definition unsend_message (message_id sender_id : UUID) : prog world Message :=
  msg ← query (λ t, messages t !! message_id ≫= λ m,
                 if decide (m_sender_id m = Some sender_id) then Some m else None);
  msg ← some_or_raise msg (UnsendDenied "message not found or not owned by caller");
  now ← utcnow;
  ensure (negb (UNSEND_WINDOW <? now - m_created_at msg)%Z)
    (UnsendDenied "unsend window (5 minutes) has passed") ;;
  let msg := unsent msg now in
  put_message msg ;;
  commit ;;
  mret msg.

(** ** The self-destruct worker *)

Definition destructed (msg : Message) (now : timestamp) : Message :=
  msg <| m_content_ciphertext := None |> <| m_media_object_key := None |>
      <| m_media_mime_type := None |> <| m_is_destructed := true |>
      <| m_deleted_at := Some now |>.

(** The [WHERE] clause of the sweep. *)
Definition due (now : timestamp) (m : Message) : bool :=
  negb (m_is_destructed m) &&
  match m_destruct_at m with Some t => (t <=? now)%Z | None => false end.

Section Worker.
Context (settings : Settings) `{Minio}.

(** The loop's body once the media object is gone: wipe, audit, tell both parties. *)
Definition wipe_message (now : timestamp) (msg : Message) : prog world bool :=
  let msg := destructed msg now in
  put_message msg ;;
  add_audit ((audit None "message.self_destructed" true)
    <| al_resource_type := Some "message" |>
    <| al_resource_id := Some (uuid_str (m_id msg)) |>
    <| al_metadata := Some (JObj [("had_media",
         JBool (bool_decide (m_media_object_key msg ≠ None)))]) |>) ;;
  let event := JObj [("type", JStr "unsend"); ("message_id", JStr (uuid_str (m_id msg)))] in
  (match m_recipient_id msg with Some r => publish r event | None => mret tt end) ;;
  (match m_sender_id msg with Some s => publish s event | None => mret tt end) ;;
  mret true.

(** The body of the loop: whether the message was wiped. When its object cannot be
    deleted it is left for the next sweep. *)
Definition sweep_message (now : timestamp) (msg : Message) : prog world bool :=
  if truthy_opt (m_media_object_key msg) then
    deleted ← try_except
      (delete_object (MINIO_BUCKET_ATTACHMENTS settings) (default "" (m_media_object_key msg)) ;;
       mret true)
      (λ _, mret false);
    if (deleted : bool) then wipe_message now msg else mret false
  else wipe_message now msg.

Fixpoint sweep_loop (now : timestamp) (expired : list Message) (wiped : Z) : prog world Z :=
  match expired with
  | [] => mret wiped
  | msg :: expired =>
      w ← sweep_message now msg;
      sweep_loop now expired (if (w : bool) then wiped + 1 else wiped)%Z
  end.

Definition sweep_once : prog world Z :=
  now ← utcnow;
  session_local
    (expired ← query (λ t, take BATCH_SIZE (select (messages t) (due now)));
     wiped ← sweep_loop now expired 0;
     commit ;;
     mret wiped).

End Worker.

(** ** The life of a message *)

(** When the timer of a message runs out, counted from its sending. *)
Definition timer (m : Message) : option timestamp :=
  match m_destruct_after_seconds m with
  | Some d => if decide (d = 0)%Z then None else Some (m_created_at m + seconds d)%Z
  | None => None
  end.

Definition content_gone (m : Message) : Prop :=
  m_content_ciphertext m = None ∧ m_media_object_key m = None ∧ m_media_mime_type m = None
  ∧ m_deleted_at m ≠ None.

(** What every stored message satisfies, at instant [now]. *)
Record msg_wf (now : timestamp) (m : Message) : Prop := {
  wf_status : m_status m = SENT ∧ m_read_at m = None ∨ m_status m = READ ∧ m_read_at m ≠ None;
  wf_delivered : m_delivered_at m ≠ None;
  wf_flag : m_is_self_destruct m = bool_decide (m_destruct_after_seconds m ≠ None);
  wf_timer : m_destruct_at m = timer m;
  wf_gone : m_deleted_for_everyone m || m_is_destructed m = true → content_gone m;
  wf_destructed : m_is_destructed m = true →
    ∃ t, m_destruct_at m = Some t ∧ (t ≤ now)%Z
}.

(** How a message may change: who, what kind, when and for how long stay; content, media and
    the time of deletion change only by a retraction or a destruction; retractions and
    readings are never undone. *)
Record evolves (m m' : Message) : Prop := {
  ev_id : m_id m' = m_id m;
  ev_type : m_message_type m' = m_message_type m ∧ m_media_size_bytes m' = m_media_size_bytes m;
  ev_timer : m_delivered_at m' = m_delivered_at m ∧ m_is_self_destruct m' = m_is_self_destruct m
             ∧ m_destruct_at m' = m_destruct_at m;
  ev_whole : m_deleted_for_everyone m' || m_is_destructed m' = false →
    m_content_ciphertext m' = m_content_ciphertext m
    ∧ m_media_object_key m' = m_media_object_key m ∧ m_media_mime_type m' = m_media_mime_type m
    ∧ m_deleted_at m' = m_deleted_at m;
  ev_parties : m_sender_id m' = m_sender_id m ∧ m_recipient_id m' = m_recipient_id m
               ∧ m_group_id m' = m_group_id m;
  ev_sent : m_created_at m' = m_created_at m;
  ev_after : m_destruct_after_seconds m' = m_destruct_after_seconds m;
  ev_content : m_content_ciphertext m' = m_content_ciphertext m ∨ m_content_ciphertext m' = None;
  ev_media : m_media_object_key m' = m_media_object_key m ∨ m_media_object_key m' = None;
  ev_unsent : m_deleted_for_everyone m = true → m_deleted_for_everyone m' = true;
  ev_destructed : m_is_destructed m = true → m_is_destructed m' = true;
  ev_read : m_status m = READ → m_status m' = READ ∧ m_read_at m' = m_read_at m
}.

#[global] Instance evolves_refl : Reflexive evolves.
Proof. intros m. by split; auto. Qed.
#[global] Instance evolves_trans : Transitive evolves.
Proof.
  intros m1 m2 m3 [Hi1 Ht1 Hl1 Hw1 Hp1 Hs1 Ha1 Hc1 Hm1 Hu1 Hd1 Hr1]
    [Hi2 Ht2 Hl2 Hw2 Hp2 Hs2 Ha2 Hc2 Hm2 Hu2 Hd2 Hr2].
  split; try congruence; auto.
  - destruct Ht1, Ht2. split; congruence.
  - destruct Hl1 as (? & ? & ?), Hl2 as (? & ? & ?). split_and!; congruence.
  - intros [Hu3 Hd3]%orb_false_iff.
    destruct Hw2 as (? & ? & ? & ?); [by rewrite Hu3, Hd3|].
    destruct Hw1 as (? & ? & ? & ?); [|split_and!; congruence].
    apply orb_false_iff. split; apply not_true_is_false; [intros ?%Hu2|intros ?%Hd2]; congruence.
  - destruct Hp1 as (? & ? & ?), Hp2 as (? & ? & ?). split_and!; congruence.
  - destruct Hc1, Hc2; (left; congruence) || (right; congruence).
  - destruct Hm1, Hm2; (left; congruence) || (right; congruence).
  - intros [H1 H2]%Hr1. destruct (Hr2 H1). split; congruence.
Qed.

Definition msgs_wf (now : timestamp) (M : gmap UUID Message) : Prop :=
  ∀ k m, M !! k = Some m → m_id m = k ∧ msg_wf now m.

(** No message is ever removed, and each evolves. *)
Definition history (M M' : gmap UUID Message) : Prop :=
  ∀ k m, M !! k = Some m → ∃ m', M' !! k = Some m' ∧ evolves m m'.

#[global] Instance history_refl : Reflexive history.
Proof. intros M k m H. by exists m. Qed.
#[global] Instance history_trans : Transitive history.
Proof.
  intros M1 M2 M3 H12 H23 k m H. destruct (H12 k m H) as (m2 & H2 & ?).
  destruct (H23 k m2 H2) as (m3 & H3 & ?). exists m3. split; [done|by etrans].
Qed.

(** The message tables of a world, while a session may be open on it. *)
Record msgs_ok (w : world) : Prop := {
  ok_open : msgs_wf (w_now w) (messages (w_tables w));
  ok_committed : msgs_wf (w_now w) (messages (w_committed w));
  ok_history : history (messages (w_committed w)) (messages (w_tables w))
}.

(** From [w] to [w'] the messages stay well-formed and only their history grows. *)
Definition kept (w w' : world) : Prop :=
  msgs_ok w' ∧ w_now w' = w_now w ∧
  history (messages (w_committed w)) (messages (w_committed w')).

Definition keeps {A} (m : prog world A) : Prop := ∀ w, msgs_ok w → kept w (m w).2.

Lemma history_insert M k m :
  (∀ m0, M !! k = Some m0 → evolves m0 m) → history M (<[k := m]> M).
Proof.
  intros Hev k' m0 Hm0. destruct (decide (k = k')) as [<-|Hne].
  - rewrite lookup_insert_eq. eauto.
  - rewrite lookup_insert_ne by done. by exists m0.
Qed.

Lemma msgs_wf_insert now M k m :
  msgs_wf now M → m_id m = k → msg_wf now m → msgs_wf now (<[k := m]> M).
Proof.
  intros HM Hid Hm k' m0. destruct (decide (k = k')) as [<-|Hne].
  - rewrite lookup_insert_eq. by intros [= <-].
  - rewrite lookup_insert_ne by done. apply HM.
Qed.

Lemma msg_wf_later now now' m : (now ≤ now')%Z → msg_wf now m → msg_wf now' m.
Proof. intros Hle []. split; try done. naive_solver lia. Qed.

Lemma kept_refl w : msgs_ok w → kept w w.
Proof. done. Qed.

Lemma kept_trans w1 w2 w3 : kept w1 w2 → (msgs_ok w2 → kept w2 w3) → kept w1 w3.
Proof.
  intros (Hok & Hn & Hh) H. destruct (H Hok) as (? & ? & ?).
  split_and!; [done|congruence|by etrans].
Qed.

(** A change that does not touch the messages or the clock. *)
Lemma kept_same w w' :
  msgs_ok w → w_now w' = w_now w → messages (w_tables w') = messages (w_tables w) →
  messages (w_committed w') = messages (w_committed w) → kept w w'.
Proof.
  intros [] Hn Ht Hc. split_and!; [|done|by rewrite Hc].
  split; by rewrite ?Hn, ?Ht, ?Hc.
Qed.

Lemma kept_commit w : msgs_ok w → kept w (w <| w_committed := w_tables w |>).
Proof. intros []. split_and!; [by split|done|done]. Qed.

Lemma kept_put m w :
  (∀ m0, messages (w_tables w) !! m_id m = Some m0 → evolves m0 m) → msg_wf (w_now w) m →
  msgs_ok w → kept w (put_message m w).2.
Proof.
  intros Hev Hm []. split_and!; [split|done|done]; cbn.
  - by apply msgs_wf_insert.
  - done.
  - etrans; [done|by apply history_insert].
Qed.

Lemma keeps_bind {A B} (m : prog world A) (k : A → prog world B) :
  keeps m → (∀ a, keeps (k a)) → keeps (m ≫= k).
Proof.
  intros Hm Hk w Hw. unfold mbind, prog_bind, bind. specialize (Hm w Hw).
  destruct (m w) as [[a|e] w1]; [|done]. eapply kept_trans; [done|]. apply Hk.
Qed.

Lemma keeps_rollback : keeps rollback.
Proof. intros w []. split_and!; [by split|done|done]. Qed.

Lemma keeps_session {A} (m : prog world A) : keeps m → keeps (session_local m).
Proof.
  intros Hm. apply keeps_bind; [apply keeps_rollback|]. intros _ w Hw.
  unfold try_finally. specialize (Hm w Hw). destruct (m w) as [r w1].
  eapply kept_trans; [done|]. apply keeps_rollback.
Qed.

(** ** Every operation keeps the messages *)

Lemma save_message_run mid sender recipient gid ty content media mime after w :
  let msg := new_message mid (w_now w) sender recipient gid ty content media mime after in
  row_fits msg = true →
  exists_or_null (users (w_tables w)) (Some sender)
    && exists_or_null (users (w_tables w)) recipient
    && exists_or_null (groups (w_tables w)) gid = true →
  messages (w_tables w) !! mid = None →
  save_message mid sender recipient gid ty content media mime after w
  = (Ok msg, let t := (w_tables w) <| messages ::= <[mid := msg]> |> in
             w <| w_tables := t |> <| w_committed := t |>).
Proof.
  intros msg Hi Hf Hm. unfold save_message, db_add_message. wstep. fold msg.
  rewrite Hi. wstep.
  change (m_sender_id msg) with (Some sender). change (m_recipient_id msg) with recipient.
  change (m_group_id msg) with gid. change (m_id msg) with mid.
  cbv beta delta [id] in *. rewrite Hf, bool_decide_true by done. cbn [andb]. by wstep.
Qed.

Lemma keeps_save mid sender recipient group_id ty content media mime after :
  keeps (save_message mid sender recipient group_id ty content media mime after).
Proof.
  intros w Hw. unfold save_message, db_add_message. wstep.
  destruct (row_fits _); wstep; [|by apply kept_refl].
  destruct (_ && _) eqn:E; wstep; [|by apply kept_refl].
  apply andb_true_iff in E as [_ Hfresh%bool_decide_eq_true]. cbn in Hfresh.
  eapply kept_trans; [|apply kept_commit].
  refine (kept_put (new_message mid _ _ _ _ _ _ _ _ _) w _ _ Hw); cbn.
  - by rewrite Hfresh.
  - split; cbn; try done. by left.
Qed.

(** [mark_delivered] finds every message delivered: saving did it. *)
Lemma keeps_delivered mid user_id : keeps (mark_delivered mid user_id).
Proof.
  intros w Hw. unfold mark_delivered. wstep.
  destruct (messages (w_tables w) !! mid) as [m|] eqn:Em; [|by apply kept_refl]. wstep.
  destruct (ok_open _ Hw _ _ Em) as [_ Hm].
  destruct (negb _); [by apply kept_refl|].
  rewrite bool_decide_false by apply (wf_delivered _ _ Hm). by apply kept_refl.
Qed.

(** A first reading only records the reading: the timer was set at sending, or there
    is none. *)
Lemma read_message_parties m now :
  m_id (read_message m now) = m_id m ∧ m_sender_id (read_message m now) = m_sender_id m
  ∧ m_recipient_id (read_message m now) = m_recipient_id m.
Proof. unfold read_message. by repeat case_match. Qed.

Lemma read_message_eq now m :
  msg_wf now m →
  read_message m now = m <| m_status := READ |> <| m_read_at := Some now |>.
Proof.
  intros [_ Hd _ Ht _ _]. unfold read_message.
  rewrite bool_decide_false by done. cbn.
  assert (∀ d, m_destruct_after_seconds m = Some d →
    negb (d =? 0)%Z && bool_decide (m_destruct_at m = None) = false) as Hno.
  { intros d Hs. rewrite Ht. unfold timer. rewrite Hs.
    case_decide; [by subst d|]. rewrite bool_decide_false by done. by rewrite andb_false_r. }
  destruct (m_destruct_after_seconds m) as [d|]; [|done].
  by rewrite <- andb_assoc, Hno, andb_false_r.
Qed.

Lemma read_message_wf now m :
  msg_wf now m → m_status m ≠ READ →
  msg_wf now (read_message m now) ∧ evolves m (read_message m now).
Proof.
  intros Hm Hs. rewrite read_message_eq by done. destruct Hm. split; split; cbn; auto. by intros H; destruct Hs.
Qed.

Lemma keeps_read mid user_id : keeps (mark_read mid user_id).
Proof.
  intros w Hw. unfold mark_read. wstep.
  destruct (messages (w_tables w) !! mid) as [m|] eqn:Em; [|by apply kept_refl]. wstep.
  destruct (ok_open _ Hw _ _ Em) as [Hid Hm].
  destruct (negb _); [by apply kept_refl|].
  case_bool_decide as Hs; [|by apply kept_refl]. wstep.
  destruct (read_message_wf _ _ Hm Hs) as [Hwf Hev].
  eapply kept_trans; [|apply kept_commit]. apply (kept_put _ w); [|done|done].
  rewrite (ev_id _ _ Hev), Hid, Em. by intros m0 [= <-].
Qed.

Lemma unsent_wf now m : msg_wf now m → msg_wf now (unsent m now) ∧ evolves m (unsent m now).
Proof. intros []. split; split; cbn; auto; [by intros _|done]. Qed.

Lemma keeps_unsend mid user_id : keeps (unsend_message mid user_id).
Proof.
  intros w Hw. unfold unsend_message. wstep.
  destruct (messages (w_tables w) !! mid) as [m|] eqn:Em; [|by apply kept_refl]. cbn.
  destruct (ok_open _ Hw _ _ Em) as [Hid Hm].
  case_decide; [|by apply kept_refl]. wstep.
  destruct (negb _); wstep; [|by apply kept_refl].
  destruct (unsent_wf _ _ Hm) as [Hwf Hev].
  eapply kept_trans; [|apply kept_commit]. apply (kept_put _ w); [|done|done].
  cbn. rewrite Hid, Em. by intros m0 [= <-].
Qed.

(** ** The sweep, message by message *)

Section Sweep.
Context (settings : Settings) `{Minio}.

(** The object store lets the message go. *)
Definition wipeable (m : Message) : bool :=
  negb (truthy_opt (m_media_object_key m)
        && minio_down (MINIO_BUCKET_ATTACHMENTS settings) (default "" (m_media_object_key m))).

Definition wiped_audit (m : Message) : AuditLog :=
  (audit None "message.self_destructed" true)
    <| al_resource_type := Some "message" |>
    <| al_resource_id := Some (uuid_str (m_id m)) |>
    <| al_metadata := Some (JObj [("had_media", JBool false)]) |>.

(** The frames that tell both parties. *)
Definition wiped_frames (m : Message) : list (string * json) :=
  let event := JObj [("type", JStr "unsend"); ("message_id", JStr (uuid_str (m_id m)))] in
  match m_recipient_id m with Some r => [(user_channel r, event)] | None => [] end
  ++ match m_sender_id m with Some s => [(user_channel s, event)] | None => [] end.

Definition wipe (now : timestamp) (m : Message) (M : gmap UUID Message) : gmap UUID Message :=
  if wipeable m then <[m_id m := destructed m now]> M else M.

(** What the sweep of one message, and of a list, does to the world. *)
Record swept (now : timestamp) (l : list Message) (w w' : world) : Prop := {
  sw_now : w_now w' = w_now w;
  sw_committed : w_committed w' = w_committed w;
  sw_messages : messages (w_tables w') = foldl (λ M m, wipe now m M) (messages (w_tables w)) l;
  sw_audit : audit_logs (w_tables w')
    = (audit_logs (w_tables w) ++ (wiped_audit <$> List.filter wipeable l))%list;
  sw_outbox : w_outbox w'
    = (w_outbox w ++ List.concat (wiped_frames <$> List.filter wipeable l))%list
}.

Lemma swept_nil now w : swept now [] w w.
Proof. split; cbn; by rewrite ?app_nil_r. Qed.

Lemma swept_app now l1 l2 w1 w2 w3 :
  swept now l1 w1 w2 → swept now l2 w2 w3 → swept now (l1 ++ l2) w1 w3.
Proof.
  intros [? ? Hm1 Ha1 Ho1] [? ? Hm2 Ha2 Ho2]. split; try congruence.
  - by rewrite foldl_app, Hm2, Hm1.
  - rewrite Ha2, Ha1, List.filter_app, fmap_app. by rewrite app_assoc.
  - by rewrite Ho2, Ho1, List.filter_app, fmap_app, List.concat_app, app_assoc.
Qed.

Lemma wipe_message_run now m w :
  wipeable m = true → ∃ w', wipe_message now m w = (Ok true, w') ∧ swept now [m] w w'.
Proof.
  intros Hw. unfold wipe_message, put_message, publish. cbv zeta.
  assert (foldl (λ M m, wipe now m M) (messages (w_tables w)) [m]
          = <[m_id m := destructed m now]> (messages (w_tables w))) as Hmsgs.
  { cbn. unfold wipe. by rewrite Hw. }
  assert (List.filter wipeable [m] = [m]) as Hf by (cbn; by rewrite Hw).
  destruct (m_recipient_id (destructed m now)) as [r|] eqn:Er,
    (m_sender_id (destructed m now)) as [s|] eqn:Es; wstep;
    (eexists; split; [reflexivity|]);
    (split; cbn -[List.filter foldl]; rewrite ?Hmsgs, ?Hf; try done);
    unfold wiped_frames; cbn in Er, Es |- *; rewrite ?Er, ?Es; cbn;
    by rewrite <- ?app_assoc, ?app_nil_r.
Qed.

Lemma sweep_message_run now m w :
  ∃ w', sweep_message settings now m w = (Ok (wipeable m), w') ∧ swept now [m] w w'.
Proof.
  unfold sweep_message. destruct (truthy_opt (m_media_object_key m)) eqn:Ek.
  2: { assert (wipeable m = true) as Hw by (unfold wipeable; by rewrite Ek).
       rewrite Hw. by apply wipe_message_run. }
  set (key := default "" (m_media_object_key m)).
  set (w1 := if minio_down (MINIO_BUCKET_ATTACHMENTS settings) key then w
             else w <| w_objects ::= delete (MINIO_BUCKET_ATTACHMENTS settings, key) |>).
  assert (try_except (delete_object (MINIO_BUCKET_ATTACHMENTS settings) key ;; mret true)
    (λ _, mret false) w = (Ok (wipeable m), w1)) as Hdel.
  { unfold wipeable, try_except, delete_object, w1. rewrite Ek. fold key. wstep.
    by destruct (minio_down _ key). }
  rewrite (step_ok _ _ _ _ _ Hdel). destruct (wipeable m) eqn:Hw.
  - destruct (wipe_message_run now m w1 Hw) as (w' & Hr & [? ? Hm Ha Ho]).
    exists w'. split; [done|]. unfold w1 in *. destruct (minio_down _ key); by split.
  - exists w1. split; [done|]. unfold w1, wipeable in *. rewrite Ek in Hw. fold key in Hw.
    destruct (minio_down _ key) eqn:Ed; [|done].
    split; try done; cbn; unfold wipe, wipeable; rewrite ?Ek; fold key; rewrite ?Ed; cbn;
      by rewrite ?app_nil_r.
Qed.

Lemma sweep_loop_run now l n w :
  ∃ w', sweep_loop settings now l n w
        = (Ok (n + Z.of_nat (List.length (List.filter wipeable l)))%Z, w')
    ∧ swept now l w w'.
Proof.
  revert n w. induction l as [|m l IH]; intros n w.
  { exists w. cbn. rewrite Z.add_0_r. split; [done|apply swept_nil]. }
  destruct (sweep_message_run now m w) as (w1 & Hr & Hs1).
  destruct (IH (if wipeable m then n + 1 else n)%Z w1) as (w2 & Hl & Hs2).
  exists w2. cbn [sweep_loop]. rewrite (step_ok _ _ _ _ _ Hr), Hl.
  split; [|by apply (swept_app now [m] l w w1 w2)].
  cbn [List.filter]. destruct (wipeable m); cbn [List.length]; do 2 f_equal; lia.
Qed.

(** The sweep as one function of the tables. *)
Lemma sweep_once_run w :
  let batch := take BATCH_SIZE (select (messages (w_committed w)) (due (w_now w))) in
  ∃ w' w1, sweep_once settings w
        = (Ok (Z.of_nat (List.length (List.filter wipeable batch))), w')
    ∧ w_tables w' = w_tables w1 ∧ w_committed w' = w_tables w1 ∧ w_now w' = w_now w
    ∧ w_outbox w' = w_outbox w1
    ∧ swept (w_now w) batch (w <| w_tables := w_committed w |>) w1.
Proof.
  intros batch. destruct (sweep_loop_run (w_now w) batch 0 (w <| w_tables := w_committed w |>))
    as (w1 & Hl & Hs).
  eexists _, w1. split.
  { unfold sweep_once. rewrite utcnow_step. apply session_local_run.
    rewrite query_step. cbn [w_tables over]. fold batch.
    rewrite (step_ok _ _ _ _ _ Hl), commit_step. reflexivity. }
  split_and!; try done. apply (sw_now _ _ _ _ Hs).
Qed.

(** ** The batch: distinct messages, each as it is stored *)

Lemma foldl_wipe_lookup now l M k :
  NoDup (m_id <$> l) → (∀ m, m ∈ l → M !! m_id m = Some m) →
  foldl (λ M m, wipe now m M) M l !! k
  = match M !! k with
    | Some m => Some (if bool_decide (k ∈ m_id <$> l) && wipeable m
                      then destructed m now else m)
    | None => None
    end.
Proof.
  revert M. induction l as [|m l IH]; intros M Hnd Hin.
  { cbn. by destruct (M !! k). }
  cbn [fmap list_fmap] in Hnd. apply NoDup_cons in Hnd as [Hm Hnd]. cbn [foldl].
  pose proof (Hin m ltac:(set_solver)) as HMm.
  assert (∀ m', m' ∈ l → wipe now m M !! m_id m' = Some m') as Hin'.
  { intros m' Hm'. unfold wipe. assert (m_id m ≠ m_id m') as Hne.
    { intros Heq. apply Hm. rewrite Heq. by apply list_elem_of_fmap_2. }
    case_match; rewrite ?lookup_insert_ne by done; apply Hin; set_solver. }
  rewrite IH by done. unfold wipe. destruct (decide (k = m_id m)) as [->|Hne].
  - rewrite HMm, (bool_decide_true (m_id m ∈ m_id <$> m :: l)) by set_solver.
    rewrite bool_decide_false by done. cbn [andb].
    destruct (wipeable m); [by rewrite lookup_insert_eq|by rewrite HMm].
  - replace ((if wipeable m then <[m_id m := destructed m now]> M else M) !! k) with (M !! k)
      by (case_match; by rewrite ?lookup_insert_ne).
    rewrite (bool_decide_ext (k ∈ m_id <$> m :: l) (k ∈ m_id <$> l)) by set_solver. done.
Qed.

Lemma batch_facts now M :
  msgs_wf now M →
  let batch := take BATCH_SIZE (select M (due now)) in
  NoDup (m_id <$> batch) ∧ ∀ m, m ∈ batch → M !! m_id m = Some m ∧ due now m = true.
Proof.
  intros HM batch. split.
  - apply (NoDup_fmap_sublist _ _ (select M (due now))); [apply sublist_take|].
    apply NoDup_select. intros k m Hk. by apply HM.
  - intros m Hm. assert (m ∈ select M (due now)) as Hs.
    { eapply sublist_subseteq; [apply sublist_take|exact Hm]. }
    apply elem_of_select in Hs as [Hd [k Hk]]. by destruct (HM k m Hk) as [-> _].
Qed.

Lemma destructed_wf now m :
  msg_wf now m → due now m = true → msg_wf now (destructed m now) ∧ evolves m (destructed m now).
Proof.
  intros [] Hd. split; split; cbn; auto.
  - by intros _.
  - intros _. unfold due in Hd. apply andb_true_iff in Hd as [_ Hd].
    destruct (m_destruct_at m) as [t|]; [|done]. exists t. split; [done|lia].
  - by rewrite orb_true_r.
Qed.

(** ** What a sweep does, as one equation on the stored messages *)
Lemma sweep_once_spec w :
  msgs_wf (w_now w) (messages (w_committed w)) →
  let M := messages (w_committed w) in
  let batch := take BATCH_SIZE (select M (due (w_now w))) in
  ∃ w', sweep_once settings w
        = (Ok (Z.of_nat (List.length (List.filter wipeable batch))), w')
    ∧ w_now w' = w_now w ∧ w_tables w' = w_committed w'
    ∧ (∀ k, messages (w_committed w') !! k
         = (λ m, if bool_decide (k ∈ m_id <$> batch) && wipeable m
                 then destructed m (w_now w) else m) <$> M !! k)
    ∧ audit_logs (w_committed w')
      = (audit_logs (w_committed w) ++ (wiped_audit <$> List.filter wipeable batch))%list
    ∧ w_outbox w' = (w_outbox w ++ List.concat (wiped_frames <$> List.filter wipeable batch))%list.
Proof.
  intros HM M batch.
  destruct (sweep_once_run w) as (w' & w1 & Hr & Ht & Hc & Hn & Ho & [_ _ Hm Ha Hout]).
  destruct (batch_facts _ _ HM) as [Hnd Hin]. fold M batch in Hr, Hm, Ha, Hout, Hnd, Hin.
  exists w'. split_and!; [done|done|congruence| | |].
  - intros k. rewrite Hc, Hm. cbn [w_tables over]. rewrite foldl_wipe_lookup; [|done|].
    + unfold M. by destruct (messages (w_committed w) !! k).
    + intros m Hmb. by apply Hin.
  - by rewrite Hc, Ha.
  - by rewrite Ho, Hout.
Qed.

Lemma keeps_sweep : keeps (sweep_once settings).
Proof.
  intros w Hw. set (M := messages (w_committed w)).
  set (batch := take BATCH_SIZE (select M (due (w_now w)))).
  destruct (sweep_once_spec w (ok_committed _ Hw)) as (w' & -> & Hn & Ht & Hm & _). cbn [snd].
  destruct (batch_facts _ _ (ok_committed _ Hw)) as [_ Hin]. fold M batch in Hm, Hin.
  assert (∀ k m, M !! k = Some m → let m' := if bool_decide (k ∈ m_id <$> batch) && wipeable m
    then destructed m (w_now w) else m in m_id m' = k ∧ msg_wf (w_now w) m' ∧ evolves m m') as Hev.
  { intros k m Hk. destruct (ok_committed _ Hw k m Hk) as [Hid Hwf].
    destruct (bool_decide_reflect (k ∈ m_id <$> batch)) as [Hb|]; cbn; [|done].
    destruct (wipeable m); [|done].
    apply list_elem_of_fmap in Hb as (m2 & -> & Hb). destruct (Hin m2 Hb) as [Hk2 Hd].
    assert (m2 = m) as -> by congruence.
    by destruct (destructed_wf _ _ Hwf Hd). }
  assert (msgs_wf (w_now w) (messages (w_committed w'))) as Hwf'.
  { intros k m'. rewrite Hm. intros (m & Hk & ->)%fmap_Some. destruct (Hev k m) as (? & ? & ?); done. }
  split_and!; [split|done|].
  - by rewrite Ht, Hn.
  - by rewrite Hn.
  - by rewrite Ht.
  - intros k m Hk. rewrite Hm. fold M in Hk |- *. rewrite Hk. eexists. split; [done|]. by apply Hev.
Qed.
End Sweep.

Lemma msgs_ok_elapse d w : (0 ≤ d)%Z → msgs_ok w → msgs_ok (elapse d w).
Proof.
  intros Hd [Ho Hc Hh]. split; cbn; [| |done]; intros k m Hk;
    [destruct (Ho k m Hk)|destruct (Hc k m Hk)]; split; try done;
    apply (msg_wf_later (w_now w)); [lia|done|lia|done].
Qed.

(** ** Progress of the sweep *)

Section Progress.
Context (settings : Settings) `{Minio}.


(** MinIO deletes the attachments it is asked to. *)
Definition storage_up : Prop :=
  ∀ key, minio_down (MINIO_BUCKET_ATTACHMENTS settings) key = false.

Lemma storage_up_wipeable m : storage_up → wipeable settings m = true.
Proof. intros Hup. unfold wipeable. by rewrite Hup, andb_false_r. Qed.

Lemma filter_wipeable l : storage_up → List.filter (wipeable settings) l = l.
Proof.
  intros Hup. induction l as [|m l IH]; [done|]. cbn. by rewrite storage_up_wipeable, IH.
Qed.








End Progress.

(** ** Runs of the operations *)

Inductive msg_op :=
| OpSave (mid sender : UUID) (recipient group_id : option UUID) (message_type : string)
    (content media mime : option string) (after : option Z)
| OpDelivered (mid user_id : UUID)
| OpRead (mid user_id : UUID)
| OpUnsend (mid user_id : UUID)
| OpSweep
| OpWait (delay : N).

Section Runs.
Context (settings : Settings) `{Minio}.

(** Each operation in a session of its own, as the WebSocket handler and the worker
    call them. *)
Definition run_op (op : msg_op) : prog world unit :=
  match op with
  | OpSave mid sender recipient gid ty content media mime after =>
      session_local (save_message mid sender recipient gid ty content media mime after) ;; mret tt
  | OpDelivered mid user_id => session_local (mark_delivered mid user_id) ;; mret tt
  | OpRead mid user_id => session_local (mark_read mid user_id) ;; mret tt
  | OpUnsend mid user_id => session_local (unsend_message mid user_id) ;; mret tt
  | OpSweep => sweep_once settings ;; mret tt
  | OpWait delay => modify (elapse (Z.of_N delay))
  end.

(** A run: an operation that raises leaves the next ones to run. *)
Definition run_ops (ops : list msg_op) (w : world) : world :=
  foldl (λ w op, (run_op op w).2) w ops.

Lemma run_op_ok op w :
  msgs_ok w →
  msgs_ok (run_op op w).2 ∧
  history (messages (w_committed w)) (messages (w_committed (run_op op w).2)).
Proof.
  intros Hw.
  assert (∀ {A} (m : prog world A), keeps m → keeps (m ;; mret tt)) as Hdone.
  { intros A m Hm. apply keeps_bind; [done|]. intros _ w1 Hw1. by apply kept_refl. }
  assert (∀ m : prog world unit, keeps m → msgs_ok (m w).2 ∧
    history (messages (w_committed w)) (messages (w_committed (m w).2))) as Hkeep.
  { intros m Hm. by destruct (Hm w Hw) as (? & _ & ?). }
  destruct op; cbn [run_op]; try (apply Hkeep, Hdone; try apply keeps_session).
  - apply keeps_save.
  - apply keeps_delivered.
  - apply keeps_read.
  - apply keeps_unsend.
  - apply keeps_sweep.
  - split; [|done]. by apply msgs_ok_elapse; [lia|].
Qed.

Lemma run_ops_ok ops w :
  msgs_ok w →
  msgs_ok (run_ops ops w) ∧
  history (messages (w_committed w)) (messages (w_committed (run_ops ops w))).
Proof.
  revert w. induction ops as [|op ops IH]; intros w Hw; [done|]. cbn.
  destruct (run_op_ok op w Hw) as [Hw1 Hh1]. destruct (IH _ Hw1) as [Hw2 Hh2].
  split; [done|by etrans].
Qed.

Lemma msgs_ok_empty w :
  messages (w_tables w) = ∅ → messages (w_committed w) = ∅ → msgs_ok w.
Proof. intros Ht Hc. split; rewrite ?Ht, ?Hc; by intros ??. Qed.

(** Only a sending adds a message, and it adds the one it was asked to. *)
Definition no_new (w w' : world) : Prop :=
  ∀ k, messages (w_tables w) !! k = None → messages (w_committed w) !! k = None →
       messages (w_tables w') !! k = None ∧ messages (w_committed w') !! k = None.

Lemma no_new_put m w :
  is_Some (messages (w_tables w) !! m_id m) →
  no_new w ((put_message m ;; commit) w).2.
Proof.
  intros [m0 Hm] k Ht Hc. unfold put_message. wstep. cbn.
  rewrite lookup_insert_ne by congruence. done.
Qed.

Lemma session_committed {A} (m : prog world A) w :
  w_committed ((session_local m ;; mret tt) w).2
  = w_committed (m (w <| w_tables := w_committed w |>)).2.
Proof.
  unfold session_local, rollback, modify, mbind, prog_bind, bind, try_finally.
  by destruct (m _) as [[a|e] w1].
Qed.

Lemma session_no_new {A} (m : prog world A) w k :
  (∀ w, msgs_ok w → no_new w (m w).2) → msgs_ok w →
  messages (w_committed w) !! k = None →
  messages (w_committed ((session_local m ;; mret tt) w).2) !! k = None.
Proof.
  intros Hm [_ Hc _] Hk. rewrite session_committed.
  by apply (Hm (w <| w_tables := w_committed w |>)).
Qed.

Lemma delivered_no_new mid user_id w : msgs_ok w → no_new w (mark_delivered mid user_id w).2.
Proof.
  intros Hw. unfold mark_delivered. wstep.
  destruct (messages (w_tables w) !! mid) as [m|] eqn:Em; [|done]. wstep.
  destruct (ok_open _ Hw _ _ Em) as [_ Hm]. destruct (negb _); [done|].
  by rewrite bool_decide_false by apply (wf_delivered _ _ Hm).
Qed.

Lemma read_no_new mid user_id w : msgs_ok w → no_new w (mark_read mid user_id w).2.
Proof.
  intros Hw. unfold mark_read. wstep.
  destruct (messages (w_tables w) !! mid) as [m|] eqn:Em; [|done]. wstep.
  destruct (ok_open _ Hw _ _ Em) as [Hid Hm]. destruct (negb _); [done|].
  case_bool_decide; [|done]. wstep. apply (no_new_put (read_message m (w_now w)) w).
  rewrite (proj1 (read_message_parties m _)), Hid. eauto.
Qed.

Lemma unsend_no_new mid user_id w : msgs_ok w → no_new w (unsend_message mid user_id w).2.
Proof.
  intros Hw. unfold unsend_message. wstep.
  destruct (messages (w_tables w) !! mid) as [m|] eqn:Em; [|done]. cbn.
  destruct (ok_open _ Hw _ _ Em) as [Hid _]. case_decide; [|done]. wstep.
  destruct (negb _); wstep; [|done]. apply (no_new_put (unsent m (w_now w)) w). cbn. rewrite Hid. eauto.
Qed.

Lemma run_op_new op w k m :
  msgs_ok w → messages (w_committed w) !! k = None →
  messages (w_committed (run_op op w).2) !! k = Some m →
  ∃ sender r g ty content media mime after,
    op = OpSave k sender r g ty content media mime after ∧
    m = new_message k (w_now w) sender r g ty content media mime after.
Proof.
  intros Hw Hk. destruct op; cbn [run_op].
  - rewrite session_committed. unfold save_message, db_add_message. wstep.
    destruct (row_fits _); wstep; [|cbn; congruence].
    destruct (_ && _); wstep; [|cbn; congruence]. cbn.
    destruct (decide (mid = k)) as [->|Hne].
    + rewrite lookup_insert_eq. intros [= <-]. by do 8 eexists.
    + rewrite lookup_insert_ne by done. congruence.
  - rewrite session_no_new; [done|apply delivered_no_new|done|done].
  - rewrite session_no_new; [done|apply read_no_new|done|done].
  - rewrite session_no_new; [done|apply unsend_no_new|done|done].
  - destruct (sweep_once_spec settings w (ok_committed _ Hw)) as (w' & E & _ & _ & Hm & _).
    rewrite (step_ok _ _ _ _ _ E). cbn. by rewrite Hm, Hk.
  - cbn. congruence.
Qed.

(** Every stored message was sent in the run, and is what that sending and its later
    history made of it. *)
Lemma run_ops_origin ops w k m :
  messages (w_tables w) = ∅ → messages (w_committed w) = ∅ →
  messages (w_committed (run_ops ops w)) !! k = Some m →
  ∃ before after sender r g ty content media mime delay,
    ops = (before ++ OpSave k sender r g ty content media mime delay :: after)%list ∧
    evolves (new_message k (w_now (run_ops before w)) sender r g ty content media mime delay) m.
Proof.
  intros Ht Hc. revert m. induction ops as [|op ops IH] using rev_ind; intros m.
  { cbn. by rewrite Hc. }
  unfold run_ops at 1. rewrite foldl_app. cbn [foldl]. fold (run_ops ops w). intros Hm.
  destruct (run_ops_ok ops w (msgs_ok_empty w Ht Hc)) as [Hok _].
  destruct (messages (w_committed (run_ops ops w)) !! k) as [m0|] eqn:E.
  - destruct (IH m0 eq_refl) as (before & after & s & r & g & ty & c & me & mi & d & -> & Hev).
    exists before, (after ++ [op])%list, s, r, g, ty, c, me, mi, d. split; [by rewrite <- app_assoc|].
    destruct (run_op_ok op _ Hok) as [_ Hh]. destruct (Hh k m0 E) as (m' & Hm' & ?).
    rewrite Hm in Hm'. injection Hm' as ->. by etrans.
  - destruct (run_op_new op _ k m Hok E Hm) as (s & r & g & ty & c & me & mi & d & -> & ->).
    by exists ops, [], s, r, g, ty, c, me, mi, d.
Qed.

(** C7. The invariant of messages, over every run: starting from an empty table, after any
    sequence of sends, receipts, unsends, sweeps and waits, every stored message was sent in
    the run, and it still has the sender, the recipient, the group, the type, the sending time,
    the delivery time, the delay and the timer of that sending; its content, its media and its
    MIME type are those sent, and it has no time of deletion, unless it is marked retracted or
    destructed - and then all three are gone. It is marked delivered; it is read exactly when it
    has a reading time; its timer, if any, is its sending time plus its delay; and only
    messages whose timer ran out are destructed. *)
Theorem messages_invariant ops w :
  messages (w_tables w) = ∅ → messages (w_committed w) = ∅ →
  let w' := run_ops ops w in
  ∀ k m, messages (w_committed w') !! k = Some m →
    m_id m = k ∧ msg_wf (w_now w') m ∧
    ∃ before after sender r g ty content media mime delay,
      ops = (before ++ OpSave k sender r g ty content media mime delay :: after)%list ∧
      evolves (new_message k (w_now (run_ops before w)) sender r g ty content media mime delay) m.
Proof.
  intros Ht Hc w' k m Hm. destruct (run_ops_ok ops w (msgs_ok_empty w Ht Hc)) as [Hok _].
  destruct (ok_committed _ Hok k m Hm). split_and!; [done|done|]. by apply run_ops_origin.
Qed.

(** Nothing is erased from the record and nothing comes back: a message once stored
    is still stored after any further run, with the same sender, recipient, group and
    sending time; lost content and media stay lost; an unsend, a destruction and a
    reading are never undone. *)
Theorem messages_tombstones ops ops' w k m :
  messages (w_tables w) = ∅ → messages (w_committed w) = ∅ →
  messages (w_committed (run_ops ops w)) !! k = Some m →
  ∃ m', messages (w_committed (run_ops (ops ++ ops') w)) !! k = Some m' ∧ evolves m m'.
Proof.
  intros Ht Hc Hk. destruct (run_ops_ok ops w (msgs_ok_empty w Ht Hc)) as [Hok _].
  unfold run_ops at 1. rewrite foldl_app.
  destruct (run_ops_ok ops' _ Hok) as [_ Hh]. by apply Hh.
Qed.

(** "Burn after reading" never starts at reading: for every message a run can
    produce, a first reading by a participant records the reading and leaves the
    timer as sending set it. *)
Theorem read_keeps_timer ops w mid user_id m :
  messages (w_tables w) = ∅ → messages (w_committed w) = ∅ →
  let w1 := run_ops ops w in
  messages (w_committed w1) !! mid = Some m → m_status m ≠ READ →
  is_participant m user_id (w_committed w1) = true →
  ∃ m', messages (w_committed (run_op (OpRead mid user_id) w1).2) !! mid = Some m' ∧
    m' = m <| m_status := READ |> <| m_read_at := Some (w_now w1) |> ∧
    m_destruct_at m' = timer m.
Proof.
  intros Ht Hc w1 Hm Hs Hp. destruct (run_ops_ok ops w (msgs_ok_empty w Ht Hc)) as [Hok _].
  fold w1 in Hok. destruct (ok_committed _ Hok mid m Hm) as [Hid Hwf].
  exists (read_message m (w_now w1)). rewrite (read_message_eq _ _ Hwf).
  split; [|by rewrite <- (wf_timer _ _ Hwf)].
  cbn [run_op]. erewrite (step_ok (session_local _)).
  2: { apply session_local_run. unfold mark_read. rewrite query_step. cbn [w_tables over].
       rewrite Hm, query_step. cbn [w_tables over]. rewrite Hp. cbn [negb].
       rewrite bool_decide_true by done. unfold put_message. wstep. reflexivity. }
  cbn. rewrite <- Hid at 1. rewrite (ev_id _ _ (proj2 (read_message_wf _ _ Hwf Hs))).
  rewrite lookup_insert_eq. by rewrite read_message_eq.
Qed.
End Runs.

(** Unsend: the sender, and only the sender, retracts a message, up to five minutes
    after sending and not later; the stored row then keeps who and when but no
    content, and the change is committed. Every refusal says why and changes
    nothing. *)
Theorem unsend_message_spec mid user_id w :
  unsend_message mid user_id w =
  match messages (w_tables w) !! mid with
  | Some m =>
      if decide (m_sender_id m = Some user_id) then
        if decide (w_now w - m_created_at m ≤ UNSEND_WINDOW)%Z then
          let m' := unsent m (w_now w) in
          let t := (w_tables w) <| messages ::= <[m_id m := m']> |> in
          (Ok m', w <| w_tables := t |> <| w_committed := t |>)
        else (Err (UnsendDenied "unsend window (5 minutes) has passed"), w)
      else (Err (UnsendDenied "message not found or not owned by caller"), w)
  | None => (Err (UnsendDenied "message not found or not owned by caller"), w)
  end.
Proof.
  unfold unsend_message. rewrite query_step.
  destruct (messages (w_tables w) !! mid) as [m|]; [|done]. cbn [mbind option_bind].
  case_decide; [|done]. wstep. destruct (Z.ltb_spec UNSEND_WINDOW (w_now w - m_created_at m)).
  - cbn [negb]. wstep. by rewrite decide_False by lia.
  - cbn [negb]. rewrite decide_True by lia. unfold put_message. by wstep.
Qed.

Section SweepTheorems.
Context (settings : Settings) `{Minio}.

(** C20. One sweep: of the messages whose timer ran out and that are not destructed yet,
    up to five hundred are taken; exactly those whose attachment can be deleted (or
    that have none) lose their content and are marked destructed, every other
    message stays as it was; the result counts them; the log gets one entry for each,
    and both parties of each are told. The log entry always says the message had no
    media: the code reads the key after wiping it. *)
Theorem sweep_once_effect w :
  msgs_ok w →
  let M := messages (w_committed w) in
  let batch := take BATCH_SIZE (select M (due (w_now w))) in
  let wiped := List.filter (wipeable settings) batch in
  ∃ w', sweep_once settings w = (Ok (Z.of_nat (List.length wiped)), w')
    ∧ (∀ k, messages (w_committed w') !! k
         = (λ m, if bool_decide (k ∈ m_id <$> batch) && wipeable settings m
                 then destructed m (w_now w) else m) <$> M !! k)
    ∧ audit_logs (w_committed w') = (audit_logs (w_committed w) ++ (wiped_audit <$> wiped))%list
    ∧ w_outbox w' = (w_outbox w ++ List.concat (wiped_frames <$> wiped))%list.
Proof.
  intros Hok M batch wiped.
  destruct (sweep_once_spec settings w (ok_committed _ Hok))
    as (w' & Hr & _ & _ & Hm & Ha & Ho). by exists w'.
Qed.


(** A message sent to self-destruct after zero seconds never does: in every run it
    keeps its flag and is never destructed. *)
Theorem zero_delay_never_destructed ops w k m :
  messages (w_tables w) = ∅ → messages (w_committed w) = ∅ →
  messages (w_committed (run_ops settings ops w)) !! k = Some m →
  m_destruct_after_seconds m = Some 0%Z →
  m_is_self_destruct m = true ∧ m_is_destructed m = false.
Proof.
  intros Ht Hc Hk Hz. destruct (run_ops_ok settings ops w (msgs_ok_empty w Ht Hc)) as [Hok _].
  destruct (ok_committed _ Hok k m Hk) as [_ []]. split.
  - rewrite wf_flag0, Hz. done.
  - apply not_true_is_false. intros Hd. destruct (wf_destructed0 Hd) as (t & Htm & _).
    rewrite wf_timer0 in Htm. unfold timer in Htm. by rewrite Hz in Htm.
Qed.
End SweepTheorems.

(** ** A concrete conversation, for examples *)

Module Chat.
Definition user (n : nat) : User :=
  mk_User (uid n) 0 "+201001234567" "U" None None None "" "" None 1 ACTIVE SOLDIER None None
    false None true.
Definition tables0 : tables :=
  empty_tables <| users := {[uid 7 := user 7; uid 8 := user 8]} |>.
Definition world0 : world := (empty_world 0) <| w_tables := tables0 |> <| w_committed := tables0 |>.
Definition minio : Minio := {| minio_down _ _ := false; presigned _ _ _ _ := "" |}.
(** User 7 writes to user 8, to be wiped after [after] seconds. *)
Definition send (after : option Z) : msg_op :=
  OpSave (uid 100) (uid 7) (Some (uid 8)) None "text" (Some "hi") None None after.
Definition run (ops : list msg_op) : world := @run_ops default_settings minio ops world0.
End Chat.

Lemma messages_invariant_witness :
  let ops := [Chat.send None; OpRead (uid 100) (uid 8); OpUnsend (uid 100) (uid 7)] in
  ∃ m, messages (w_committed (Chat.run ops)) !! uid 100 = Some m
       ∧ m_id m = uid 100 ∧ msg_wf 0 m ∧ m_deleted_for_everyone m = true
       ∧ ∃ before after sender r g ty content media mime delay,
           ops = (before ++ OpSave (uid 100) sender r g ty content media mime delay :: after)%list ∧
           evolves (new_message (uid 100) (w_now (Chat.run before))
                      sender r g ty content media mime delay) m.
Proof.
  intros ops. destruct (messages (w_committed (Chat.run ops)) !! uid 100) as [m|] eqn:E;
    [|by vm_compute in E].
  destruct (@messages_invariant default_settings Chat.minio ops Chat.world0
              eq_refl eq_refl (uid 100) m E) as (Hid & Hwf & Ho).
  exists m. split_and!; [done|done|exact Hwf| |exact Ho].
  assert (m_deleted_for_everyone <$> messages (w_committed (Chat.run ops)) !! uid 100 = Some true)
    as H by (vm_compute; reflexivity).
  rewrite E in H. by injection H.
Defined.

Lemma messages_tombstones_witness :
  ∃ m m', messages (w_committed (Chat.run [Chat.send None])) !! uid 100 = Some m ∧
    messages (w_committed (Chat.run [Chat.send None; OpUnsend (uid 100) (uid 7)])) !! uid 100
    = Some m' ∧ evolves m m'.
Proof.
  destruct (messages (w_committed (Chat.run [Chat.send None])) !! uid 100) as [m|] eqn:E;
    [|by vm_compute in E].
  destruct (@messages_tombstones default_settings Chat.minio [Chat.send None]
    [OpUnsend (uid 100) (uid 7)] Chat.world0 (uid 100) m eq_refl eq_refl E) as (m' & ? & ?).
  by exists m, m'.
Defined.

Lemma read_keeps_timer_witness :
  ∃ m', messages (w_committed (Chat.run [Chat.send (Some 10%Z); OpWait 5%N; OpRead (uid 100) (uid 8)]))
        !! uid 100 = Some m' ∧ m_destruct_at m' = Some (seconds 10).
Proof.
  set (ops := [Chat.send (Some 10%Z); OpWait 5%N]).
  destruct (messages (w_committed (Chat.run ops)) !! uid 100) as [m|] eqn:E; [|by vm_compute in E].
  assert (timer m = Some (seconds 10) ∧ m_status m = SENT ∧
    is_participant m (uid 8) (w_committed (Chat.run ops)) = true) as (Ht & Hs & Hp).
  { assert (m = mk_Message (uid 100) 0 (Some (uid 7)) (Some (uid 8)) None "text" (Some "hi")
      None None None SENT (Some 0%Z) None true (Some 10%Z) (Some (seconds 10)) false None false) as ->.
    { apply (inj Some). rewrite <- E. vm_compute. reflexivity. }
    done. }
  destruct (@read_keeps_timer default_settings Chat.minio ops Chat.world0 (uid 100) (uid 8) m)
    as (m' & Hm' & _ & Hd); [done|done|exact E|by rewrite Hs|exact Hp|].
  exists m'. split; [exact Hm'|by rewrite Hd].
Defined.

Lemma sweep_once_effect_witness :
  let w := Chat.run [Chat.send (Some 1%Z); OpWait 2000000%N] in
  ∃ w', @sweep_once default_settings Chat.minio w = (Ok 1%Z, w').
Proof.
  intros w. assert (msgs_ok w) as Hok by by apply run_ops_ok, msgs_ok_empty.
  destruct (@sweep_once_effect default_settings Chat.minio w Hok) as (w' & Hr & _).
  exists w'. rewrite Hr. f_equal.
Defined.


Lemma zero_delay_never_destructed_witness :
  let w := Chat.run [Chat.send (Some 0%Z); OpWait 2000000%N; OpSweep] in
  ∃ m, messages (w_committed w) !! uid 100 = Some m ∧
       m_is_self_destruct m = true ∧ m_is_destructed m = false.
Proof.
  intros w. destruct (messages (w_committed w) !! uid 100) as [m|] eqn:E; [|by vm_compute in E].
  exists m. split; [done|].
  apply (@zero_delay_never_destructed default_settings Chat.minio
    [Chat.send (Some 0%Z); OpWait 2000000%N; OpSweep] Chat.world0 (uid 100) m); try done.
  assert (m_destruct_after_seconds <$> messages (w_committed w) !! uid 100 = Some (Some 0%Z)) as H
    by (vm_compute; reflexivity).
  rewrite E in H. by injection H.
Defined.
