(* ===== verification/WsManager.v ===== *)
(** [ConnectionManager] of [app/services/ws_manager.py]: which devices are connected,
    in this replica's memory and in Redis, the presence it derives, and the abstract
    registry it implements. *)

From S2P Require Import Prelude Effects PyStr Uuid Redis Models World Pubsub.
From Stdlib Require Import Ascii String.

Local Open Scope string_scope.

Definition CONN_TTL_SECONDS : Z := 90.

Definition conn_key (connection_id : string) : string := "ws:conn:" ++ connection_id.
Definition user_key (user_id : UUID) : string := "ws:user:" ++ uuid_str user_id.
Definition online_key : string := "ws:online".

(** [json.dumps] of an object of two texts that need no escape. *)
Definition quoted (s : string) : string :=
  let q := String (ascii_of_nat 34) "" in q ++ s ++ q.
Definition conn_json (user_id : UUID) (connected_at : timestamp) : string :=
  "{" ++ quoted "user_id" ++ ": " ++ quoted (uuid_str user_id) ++ ", "
  ++ quoted "connected_at" ++ ": " ++ quoted (isoformat connected_at) ++ "}".

(** The Redis halves. A pipeline is one MULTI/EXEC transaction. *)
Definition register_redis (user_id : UUID) (connection_id : string) : prog rstate unit :=
  now ← gets rs_now;
  redis_set (conn_key connection_id) (conn_json user_id now) (Some CONN_TTL_SECONDS) ;;
  redis_sadd (user_key user_id) {[connection_id]} ;;
  redis_sadd online_key {[uuid_str user_id]} ;;
  mret tt.

Definition unregister_pipe (user_id : UUID) (connection_id : string) : prog rstate unit :=
  redis_delete [conn_key connection_id] ;;
  redis_srem (user_key user_id) {[connection_id]} ;;
  mret tt.

Definition unregister_redis (user_id : UUID) (connection_id : string) : prog rstate unit :=
  unregister_pipe user_id connection_id ;;
  remaining ← redis_scard (user_key user_id);
  if decide (remaining = 0)%Z
  then redis_srem online_key {[uuid_str user_id]} ;; mret tt
  else mret tt.

(** [register]; [connection_id] is what [token_hex(16)] returned. *)
Definition register (user_id : UUID) (connection_id : string) : prog world string :=
  modify (λ w, w <| w_local ::= <[connection_id := user_id]> |>) ;;
  redis_sessions (register_redis user_id connection_id) ;;
  mret connection_id.

Definition heartbeat (connection_id : string) : prog world unit :=
  redis_sessions (redis_expire (conn_key connection_id) CONN_TTL_SECONDS) ;; mret tt.

Definition unregister (user_id : UUID) (connection_id : string) : prog world unit :=
  modify (λ w, w <| w_local ::= delete connection_id |>) ;;
  redis_sessions (unregister_redis user_id connection_id).

Definition online_count : prog world Z := redis_sessions (redis_scard online_key).
Definition is_online (user_id : UUID) : prog world bool :=
  redis_sessions (redis_sismember online_key (uuid_str user_id)).

Definition send_local (connection_id : string) (payload : json) : prog world bool :=
  ws ← gets (λ w, w_local w !! connection_id);
  match ws with
  | None => mret false
  | Some _ => send_json connection_id payload ;; mret true
  end.

(** Python's truth value of [d.get(key)]. *)
Definition json_truthy (v : option json) : bool :=
  match v with
  | None | Some JNull => false
  | Some (JBool b) => b
  | Some (JInt z) => negb (z =? 0)%Z
  | Some (JStr s) => truthy s
  | Some (JList l) => match l with [] => false | _ => true end
  | Some (JObj l) => match l with [] => false | _ => true end
  end.

(** The body of the loop of [listen_ocr_alerts] for one message whose data parsed as
    the object [fields]; [user_id] goes into a key through an f-string, here for the
    texts the publisher sends. *)
Definition on_ocr_alert (fields : list (string * json)) : prog world unit :=
  let file_id := json_get "file_id" fields in
  let user_id := json_get "user_id" fields in
  let keyword := json_get "keyword" fields in
  if negb (json_truthy file_id && json_truthy user_id && json_truthy keyword) then mret tt
  else
    match file_id, user_id, keyword with
    | Some f, Some (JStr u), Some k =>
        let ws_payload := JObj [("type", JStr "ocr_alert"); ("file_id", f); ("keyword", k)] in
        conns ← redis_sessions (redis_smembers ("ws:user:" ++ u));
        for_each (λ conn_id, send_local conn_id ws_payload ;; mret tt) (elements conns)
    | _, _, _ => mret tt
    end.

(** [broadcast_typing] *)
Definition broadcast_typing (chat_id user_id : UUID) (is_typing : bool) : prog world unit :=
  group ← query (λ t, groups t !! chat_id);
  participants ←
    match group with
    | Some _ =>
        ms ← query (λ t, select (group_members t)
          (λ m, bool_decide (gm_group_id m = chat_id) && negb (bool_decide (gm_user_id m = user_id))));
        mret (Some (gm_user_id <$> ms))
    | None =>
        exists_ ← query (λ t, scalar (messages t) (λ m,
          (bool_decide (m_sender_id m = Some user_id) && bool_decide (m_recipient_id m = Some chat_id)
           || bool_decide (m_sender_id m = Some chat_id) && bool_decide (m_recipient_id m = Some user_id))
          && bool_decide (m_group_id m = None)));
        mret (match exists_ with None => None | Some _ => Some [chat_id] end)
    end;
  match participants with
  | None => mret tt
  | Some participant_ids =>
      let payload := JObj [("type", JStr (if is_typing then "typing_start" else "typing_stop"));
                           ("from", JStr (uuid_str user_id))] in
      for_each (λ pid, publish pid payload) participant_ids
  end.

(** [broadcast_delivered] *)
Definition broadcast_delivered (chat_id message_id sender_id : UUID) : prog world unit :=
  publish sender_id (JObj [("type", JStr "delivered"); ("message_id", JStr (uuid_str message_id))]).

(** [broadcast_read]: the channel of a deleted account is spelled with [None]. *)
Definition broadcast_read (chat_id message_id reader_id : UUID) : prog world unit :=
  group ← query (λ t, groups t !! chat_id);
  participants ←
    match group with
    | Some _ =>
        ms ← query (λ t, select (group_members t) (λ m, bool_decide (gm_group_id m = chat_id)));
        mret (Some ((λ m, Some (gm_user_id m)) <$> ms))
    | None =>
        msg ← query (λ t, messages t !! message_id);
        mret ((λ msg, [if bool_decide (m_recipient_id msg = Some reader_id)
                       then m_sender_id msg else m_recipient_id msg]) <$> msg)
    end;
  match participants with
  | None => mret tt
  | Some participant_ids =>
      let payload := JObj [("type", JStr "read"); ("message_id", JStr (uuid_str message_id))] in
      for_each (λ pid : option UUID,
        redis_publish ("chan:user:" ++ match pid with Some u => uuid_str u | None => "None" end)
          payload) participant_ids
  end.

(** ** Sets in the store *)

(** Key [k] holds the set [S], without expiry; the empty set is an absent key. *)
Definition set_at (k : string) (S : gset string) (s : rstate) : Prop :=
  match live (rs_now s) (rs_db s) k with
  | None => S = ∅
  | Some (mk_entry (RSet m) None) => m = S ∧ S ≠ ∅
  | Some _ => False
  end.

(** [s'] differs from [s] at key [k] only. *)
Definition only (k : string) (s s' : rstate) : Prop :=
  rs_now s' = rs_now s ∧ ∀ k', k' ≠ k → rs_db s' !! k' = rs_db s !! k'.

Lemma set_at_only k k' S s s' : only k s s' → k' ≠ k → set_at k' S s → set_at k' S s'.
Proof. intros [Hn Hd] Hne. unfold set_at. by rewrite Hn, (live_ext _ _ (rs_db s) k' (Hd k' Hne)). Qed.

Lemma set_at_wait k S s d :
  set_at k S s → set_at k S (s <| rs_now ::= λ t, (t + Z.of_N d)%Z |>).
Proof.
  unfold set_at. cbn. rewrite (live_later (rs_now s) (rs_now s + Z.of_N d)) by lia.
  by destruct (live _ _ _) as [[[] []]|].
Qed.

Lemma look_set_run k S s : set_at k S s → look_set k s = (Ok S, s).
Proof.
  unfold set_at. redis_run. intros H.
  destruct (live _ _ k) as [[[] []]|]; try done; [by destruct H as [-> _]|by subst].
Qed.

Lemma put_set_run k S S' s :
  set_at k S s → ∃ s', put_set k S' s = (Ok tt, s') ∧ set_at k S' s' ∧ only k s s'.
Proof.
  unfold set_at at 1. intros H. unfold put_set.
  rewrite (step_ok _ _ s (live (rs_now s) (rs_db s) k) s) by done.
  assert ((live (rs_now s) (rs_db s) k ≫= e_exp) = None) as He.
  { by destruct (live _ _ k) as [[[] []]|]. }
  case_decide as HS.
  - eexists. split_and!; [done| |].
    + unfold set_at. cbn. by rewrite live_delete_eq.
    + split; [done|]. intros k' Hk. cbn. by rewrite lookup_delete_ne.
  - eexists. split_and!; [done| |].
    + unfold set_at. cbn. rewrite live_insert_eq. unfold expired. cbn. rewrite He. by split.
    + split; [done|]. intros k' Hk. cbn. by rewrite lookup_insert_ne.
Qed.

Lemma sadd_run k S ms s :
  set_at k S s → ∃ n s', redis_sadd k ms s = (Ok n, s') ∧ set_at k (S ∪ ms) s' ∧ only k s s'.
Proof.
  intros H. destruct (put_set_run k S (S ∪ ms) s H) as (s' & Hp & ? & ?).
  eexists _, s'. split; [|done]. unfold redis_sadd.
  rewrite (step_ok _ _ _ _ _ (look_set_run _ _ _ H)), (step_ok _ _ _ _ _ Hp). done.
Qed.

Lemma srem_run k S ms s :
  set_at k S s → ∃ n s', redis_srem k ms s = (Ok n, s') ∧ set_at k (S ∖ ms) s' ∧ only k s s'.
Proof.
  intros H. destruct (put_set_run k S (S ∖ ms) s H) as (s' & Hp & ? & ?).
  eexists _, s'. split; [|done]. unfold redis_srem.
  rewrite (step_ok _ _ _ _ _ (look_set_run _ _ _ H)), (step_ok _ _ _ _ _ Hp). done.
Qed.

(** ** The abstract registry: the devices of every connected user *)

Abbreviation registry := (gmap UUID (gset string)).

Definition devices (C : registry) (u : UUID) : gset string := default ∅ (C !! u).
Definition connect (C : registry) (u : UUID) (c : string) : registry :=
  <[u := devices C u ∪ {[c]}]> C.
Definition disconnect (C : registry) (u : UUID) (c : string) : registry :=
  let S := devices C u ∖ {[c]} in
  if decide (S = ∅) then delete u C else <[u := S]> C.

(** The store holds the registry: every user's devices, and the users that have one. *)
Definition online_set (C : registry) : gset string := set_map uuid_str (dom C).
Definition reg_rel (C : registry) (s : rstate) : Prop :=
  (∀ u, set_at (user_key u) (devices C u) s) ∧
  set_at online_key (online_set C) s ∧
  ∀ u S, C !! u = Some S → S ≠ ∅.

#[local] Instance uuid_str_Inj : Inj (=) (=) uuid_str := uuid_str_inj.

Lemma user_key_inj u v : user_key u = user_key v → u = v.
Proof. intros H%(append_inj_l "ws:user:"). by apply uuid_str_inj. Qed.
Lemma user_key_online u : user_key u ≠ online_key.
Proof. by intros [=]. Qed.
Lemma conn_key_user c u : user_key u ≠ conn_key c.
Proof. by intros [=]. Qed.
Lemma conn_key_online c : online_key ≠ conn_key c.
Proof. by intros [=]. Qed.
#[local] Hint Resolve user_key_online conn_key_user conn_key_online not_eq_sym : core.

Lemma reg_rel_only C k s s' :
  only k s s' → (∀ u, user_key u ≠ k) → online_key ≠ k → reg_rel C s → reg_rel C s'.
Proof.
  intros Hk Hu Ho (H1 & H2 & H3). split_and!; [|by eapply set_at_only|done].
  intros u. by eapply set_at_only.
Qed.

Lemma register_run C u c s :
  reg_rel C s → ∃ s', register_redis u c s = (Ok tt, s') ∧ rs_now s' = rs_now s ∧
    reg_rel (connect C u c) s'.
Proof.
  intros Hr. unfold register_redis.
  rewrite (step_ok _ _ s (rs_now s) s) by done.
  set (s0 := s <| rs_db ::= <[conn_key c := mk_entry (RStr (conn_json u (rs_now s)))
                              (Some (deadline (rs_now s) CONN_TTL_SECONDS))]> |>).
  rewrite (step_ok _ _ s tt s0) by done.
  assert (reg_rel C s0) as (Hu & Ho & Hne).
  { apply (reg_rel_only C (conn_key c) s); [|auto|auto|done].
    split; [done|]. intros k Hk. cbn. by rewrite lookup_insert_ne. }
  destruct (sadd_run (user_key u) _ {[c]} s0 (Hu u)) as (n & s1 & H1 & Hs1 & Ho1).
  rewrite (step_ok _ _ _ _ _ H1).
  assert (set_at online_key (online_set C) s1) as Ho' by (eapply set_at_only; [done|auto|done]).
  destruct (sadd_run online_key _ {[uuid_str u]} s1 Ho') as (n2 & s2 & H2 & Hs2 & Ho2).
  rewrite (step_ok _ _ _ _ _ H2). exists s2. split; [done|].
  split; [by rewrite (proj1 Ho2), (proj1 Ho1)|].
  assert (∀ v, v ≠ u → user_key v ≠ user_key u) as Hv by (intros v Hv ?%user_key_inj; done).
  split_and!.
  - intros v. eapply set_at_only; [done|auto|]. unfold devices, connect.
    destruct (decide (v = u)) as [->|Hvu].
    + by rewrite lookup_insert_eq.
    + rewrite lookup_insert_ne by done. eapply set_at_only; [done|auto|apply Hu].
  - unfold online_set, connect. rewrite dom_insert_L, set_map_union_L, set_map_singleton_L.
    by rewrite union_comm_L.
  - intros v S. unfold connect. destruct (decide (v = u)) as [->|Hvu].
    + rewrite lookup_insert_eq. intros [= <-]. set_solver.
    + rewrite lookup_insert_ne by done. apply Hne.
Qed.

Lemma dom_disconnect C u c :
  dom (disconnect C u c) = if decide (devices C u ∖ {[c]} = ∅) then dom C ∖ {[u]} else {[u]} ∪ dom C.
Proof. unfold disconnect. case_decide; [apply dom_delete_L|apply dom_insert_L]. Qed.

Lemma devices_disconnect C u c v :
  devices (disconnect C u c) v = if decide (v = u) then devices C u ∖ {[c]} else devices C v.
Proof.
  unfold disconnect. case_decide as HS; unfold devices at 1; case_decide as Hv; subst.
  - by rewrite lookup_delete_eq, HS.
  - by rewrite lookup_delete_ne.
  - by rewrite lookup_insert_eq.
  - by rewrite lookup_insert_ne.
Qed.

Lemma scard_run k S s : set_at k S s → redis_scard k s = (Ok (Z.of_nat (size S)), s).
Proof. intros H. unfold redis_scard. by rewrite (step_ok _ _ _ _ _ (look_set_run _ _ _ H)). Qed.

(** The pipeline of [unregister]: the device is gone, the presence not yet updated. *)
Lemma unregister_pipe_run C u c s :
  reg_rel C s → ∃ s', unregister_pipe u c s = (Ok tt, s') ∧ rs_now s' = rs_now s ∧
    (∀ v, set_at (user_key v) (devices (disconnect C u c) v) s') ∧
    set_at online_key (online_set C) s'.
Proof.
  intros Hr. unfold unregister_pipe.
  set (s0 := s <| rs_db ::= delete (conn_key c) |>).
  assert (reg_rel C s0) as (Hu & Ho & Hne).
  { apply (reg_rel_only C (conn_key c) s); [|auto|auto|done].
    split; [done|]. intros k Hk. cbn. by rewrite lookup_delete_ne. }
  rewrite (step_ok _ _ s (match live (rs_now s) (rs_db s) (conn_key c) with
                          | Some _ => 0 + 1 | None => 0 end)%Z s0) by done.
  destruct (srem_run (user_key u) _ {[c]} s0 (Hu u)) as (n & s1 & H1 & Hs1 & Ho1).
  rewrite (step_ok _ _ _ _ _ H1). exists s1. split_and!; [done|by rewrite (proj1 Ho1)| |].
  - intros v. rewrite devices_disconnect. case_decide as Hv; [by subst|].
    eapply set_at_only; [done|intros ?%user_key_inj; done|apply Hu].
  - by eapply set_at_only; [done|auto|].
Qed.

Lemma unregister_run C u c s :
  reg_rel C s → ∃ s', unregister_redis u c s = (Ok tt, s') ∧ rs_now s' = rs_now s ∧
    reg_rel (disconnect C u c) s'.
Proof.
  intros Hr. destruct (unregister_pipe_run C u c s Hr) as (s1 & H1 & Hn & Hu & Ho).
  destruct Hr as (_ & _ & Hne). unfold unregister_redis. rewrite (step_ok _ _ _ _ _ H1).
  rewrite (step_ok _ _ _ _ _ (scard_run _ _ _ (Hu u))).
  assert (∀ v S, disconnect C u c !! v = Some S → S ≠ ∅) as Hne'.
  { intros v S. unfold disconnect. case_decide as HS.
    - rewrite lookup_delete_Some. intros [_ H]. by eapply Hne.
    - rewrite lookup_insert_Some. intros [[_ <-]|[_ H]]; [done|by eapply Hne]. }
  rewrite devices_disconnect, (decide_True (P := u = u)) by done.
  destruct (decide (devices C u ∖ {[c]} = ∅)) as [HS|HS].
  - rewrite HS, size_empty, decide_True by done.
    destruct (srem_run online_key _ {[uuid_str u]} s1 Ho) as (n & s2 & H2 & Hs2 & Ho2).
    rewrite (step_ok _ _ _ _ _ H2). exists s2. split_and!; [done|by rewrite (proj1 Ho2)|].
    split_and!; [| |done].
    + intros v. eapply set_at_only; [done|auto|apply Hu].
    + unfold online_set. rewrite dom_disconnect, decide_True by done.
      replace (set_map uuid_str (dom C ∖ {[u]}) : gset string)
        with (online_set C ∖ {[uuid_str u]}); [done|].
      apply set_eq. intros x. unfold online_set.
      rewrite elem_of_difference, elem_of_singleton, !elem_of_map. split.
      * intros [(v & -> & Hv) Hx]. exists v. split; [done|]. set_solver.
      * intros (v & -> & [Hv Hvu]%elem_of_difference). split; [by exists v|].
        intros ->%uuid_str_inj. set_solver.
  - assert (size (devices C u ∖ {[c]}) ≠ 0%nat) as Hsz.
    { intros H0%size_empty_inv. by apply HS, leibniz_equiv. }
    rewrite decide_False by lia. exists s1. split_and!; [done|done|].
    split_and!; [done| |done]. unfold online_set. rewrite dom_disconnect, decide_False by done.
    replace ({[u]} ∪ dom C) with (dom C); [done|].
    assert (u ∈ dom C); [|set_solver]. apply elem_of_dom. unfold devices in HS.
    destruct (C !! u); [done|]. exfalso. apply HS. cbn. set_solver.
Qed.

(** Queries. *)
Lemma online_count_run C s :
  reg_rel C s → redis_scard online_key s = (Ok (Z.of_nat (size C)), s).
Proof.
  intros (_ & Ho & _). rewrite (scard_run _ _ _ Ho). unfold online_set.
  unfold set_map. rewrite size_list_to_set, length_fmap.
  - change (List.length (elements (dom C))) with (size (dom C)). by rewrite size_dom.
  - apply (NoDup_fmap_2 _), NoDup_elements.
Qed.

Lemma is_online_run C u s :
  reg_rel C s → redis_sismember online_key (uuid_str u) s = (Ok (bool_decide (u ∈ dom C)), s).
Proof.
  intros (_ & Ho & _). unfold redis_sismember. rewrite (step_ok _ _ _ _ _ (look_set_run _ _ _ Ho)).
  unfold mret, prog_ret, ret, online_set. do 2 f_equal. apply bool_decide_ext. rewrite elem_of_map. split.
  - by intros (v & ->%uuid_str_inj & Hv).
  - intros Hu. by exists u.
Qed.

(** ** Runs of the registry *)

Inductive reg_op :=
| Connect (user_id : UUID) (connection_id : string)
| Disconnect (user_id : UUID) (connection_id : string)
| Heartbeat (connection_id : string)
| Wait (delay : N).

Definition run_reg_op (op : reg_op) : prog world unit :=
  match op with
  | Connect u c => register u c ;; mret tt
  | Disconnect u c => unregister u c
  | Heartbeat c => heartbeat c
  | Wait d => modify (elapse (Z.of_N d))
  end.

Definition spec_reg_op (C : registry) (op : reg_op) : registry :=
  match op with
  | Connect u c => connect C u c
  | Disconnect u c => disconnect C u c
  | Heartbeat _ | Wait _ => C
  end.

Definition reg_world (C : registry) (w : world) : Prop :=
  reg_rel C (mk_rstate (w_now w) (w_sessions w)).

Lemma empty_registry_world w : w_sessions w = ∅ → reg_world ∅ w.
Proof.
  intros Hw. unfold reg_world. rewrite Hw. split_and!; [done|done|]. intros v S. by rewrite lookup_empty.
Qed.

Lemma redis_sessions_run {A} (m : prog rstate A) w r s' :
  m (mk_rstate (w_now w) (w_sessions w)) = (r, s') →
  redis_sessions m w = (r, w <| w_sessions := rs_db s' |>).
Proof. intros Hm. unfold redis_sessions, zoom. by rewrite Hm. Qed.

Lemma is_online_world C to w :
  reg_world C w → is_online to w = (Ok (bool_decide (to ∈ dom C)), w).
Proof.
  intros Hr. unfold is_online. rewrite (redis_sessions_run _ _ _ _ (is_online_run C to _ Hr)).
  unfold over. by destruct w.
Qed.

Lemma reg_op_sim op C w :
  reg_world C w → ∃ w', run_reg_op op w = (Ok tt, w') ∧ reg_world (spec_reg_op C op) w'.
Proof.
  intros Hr. destruct op as [u c|u c|c|d]; cbn [run_reg_op spec_reg_op].
  - unfold register. set (w0 := w <| w_local ::= <[c := u]> |>).
    destruct (register_run C u c (mk_rstate (w_now w0) (w_sessions w0)) Hr) as ([n db] & Hs & Hn & Hr').
    eexists. rewrite step_assoc. rewrite (step_ok _ _ w tt w0) by done. rewrite step_assoc.
    rewrite (step_ok _ _ _ _ _ (redis_sessions_run _ w0 _ _ Hs)).
    split; [done|]. unfold reg_world. cbn in *. by rewrite <- Hn.
  - unfold unregister. set (w0 := w <| w_local ::= delete c |>).
    destruct (unregister_run C u c (mk_rstate (w_now w0) (w_sessions w0)) Hr) as ([n db] & Hs & Hn & Hr').
    eexists. rewrite (step_ok _ _ w tt w0) by done. rewrite (redis_sessions_run _ w0 _ _ Hs).
    split; [done|]. unfold reg_world. cbn in *. by rewrite <- Hn.
  - unfold heartbeat. set (s0 := mk_rstate (w_now w) (w_sessions w)).
    assert (∃ b s', redis_expire (conn_key c) CONN_TTL_SECONDS s0 = (Ok b, s') ∧
      only (conn_key c) s0 s') as (b & [n db] & Hs & Ho).
    { redis_run. destruct (live _ _ (conn_key c)) as [e|].
      - eexists _, _. split; [done|]. split; [done|]. intros k Hk. cbn. by rewrite lookup_insert_ne.
      - by eexists _, _. }
    eexists. rewrite (step_ok _ _ _ _ _ (redis_sessions_run _ w _ _ Hs)). split; [done|].
    apply (reg_rel_only C (conn_key c) s0); [|auto|auto|done].
    destruct Ho as [Hn Hd]. by split.
  - eexists. split; [done|]. destruct Hr as (Hu & Ho & Hne). split_and!; [| |done].
    + intros u. exact (set_at_wait _ _ _ d (Hu u)).
    + exact (set_at_wait _ _ _ d Ho).
Qed.

(** Run every operation, then ask who is online and how many. *)
Definition presence (ops : list reg_op) (u : UUID) : prog world (bool * Z) :=
  for_each run_reg_op ops ;;
  b ← is_online u;
  n ← online_count;
  mret (b, n).

Lemma reg_ops_sim ops C w :
  reg_world C w →
  ∃ w', for_each run_reg_op ops w = (Ok tt, w') ∧ reg_world (foldl spec_reg_op C ops) w'.
Proof.
  revert C w. induction ops as [|op ops IH]; intros C w Hr; [by exists w|].
  destruct (reg_op_sim op C w Hr) as (w1 & H1 & Hr1). destruct (IH _ _ Hr1) as (w2 & H2 & Hr2).
  exists w2. cbn [for_each foldl]. by rewrite (bind_ok _ _ _ _ _ H1).
Qed.

(** C15. Presence, for operations that run one at a time: after any sequence of
    connections, disconnections, heartbeats and waits of any devices, a user is online
    exactly when one of their devices connected and did not disconnect since, and the
    count is the number of such users. Every operation succeeds; neither time nor
    missing heartbeats take anyone offline. *)
Theorem presence_correct ops u w :
  w_sessions w = ∅ →
  let C := foldl spec_reg_op ∅ ops in
  ∃ w', presence ops u w = (Ok (bool_decide (devices C u ≠ ∅), Z.of_nat (size C)), w').
Proof.
  intros Hw C.
  assert (reg_world ∅ w) as Hr.
  { unfold reg_world. rewrite Hw. split_and!; [done|done|]. intros v S. by rewrite lookup_empty. }
  destruct (reg_ops_sim ops ∅ w Hr) as (w1 & H1 & Hr1). fold C in Hr1.
  assert (bool_decide (u ∈ dom C) = bool_decide (devices C u ≠ ∅)) as Hb.
  { apply bool_decide_ext. destruct Hr1 as (_ & _ & Hne). unfold devices. rewrite elem_of_dom. split.
    - intros [S HS]. rewrite HS. by eapply Hne.
    - destruct (C !! u); [done|]. by intros []. }
  eexists. unfold presence. rewrite (step_ok _ _ _ _ _ H1). unfold is_online.
  rewrite (step_ok _ _ _ _ _ (redis_sessions_run _ _ _ _ (is_online_run C u _ Hr1))).
  unfold online_count. set (w2 := w1 <| w_sessions := _ |>).
  rewrite (step_ok _ _ _ _ _ (redis_sessions_run _ w2 _ _ (online_count_run C _ Hr1))).
  rewrite Hb. reflexivity.
Qed.

Lemma presence_correct_witness :
  let ops := [Connect (uid 1) "a"; Connect (uid 1) "b"; Disconnect (uid 1) "a"; Wait 100000000] in
  (presence ops (uid 1) (empty_world 0)).1 = Ok (true, 1%Z).
Proof.
  intros ops. destruct (presence_correct ops (uid 1) (empty_world 0) eq_refl) as [w' H].
  rewrite H. vm_compute. reflexivity.
Defined.

(** ** The race between a disconnection and a new connection *)

(** Where a call of [unregister] stands: before each of its three exchanges with
    Redis. *)
Inductive upc := UPipe | UScard | USrem | UDone.

Definition unregister_step (user_id : UUID) (connection_id : string) (p : upc) : prog rstate upc :=
  match p with
  | UPipe => unregister_pipe user_id connection_id ;; mret UScard
  | UScard =>
      remaining ← redis_scard (user_key user_id);
      mret (if decide (remaining = 0)%Z then USrem else UDone)
  | USrem => redis_srem online_key {[uuid_str user_id]} ;; mret UDone
  | UDone => mret UDone
  end.

(** The three exchanges, uninterrupted, are [unregister]. *)
Theorem unregister_steps user_id connection_id s :
  (p ← unregister_step user_id connection_id UPipe;
   p ← unregister_step user_id connection_id p;
   p ← unregister_step user_id connection_id p;
   mret tt) s = unregister_redis user_id connection_id s.
Proof.
  unfold unregister_redis. run.
  cbn [unregister_step]. run. destruct (unregister_pipe _ _ s) as [[[]|e] s1]; [|done].
  cbn [unregister_step]. run. destruct (redis_scard _ s1) as [[n|e] s2]; [|done].
  case_decide; cbn [unregister_step]; run; [|done].
  by destruct (redis_srem _ _ s2) as [[]].
Qed.

(** When a device connects between the count and the removal of a disconnection,
    the user ends up connected but not online: no message reaches their presence, and
    pushes go out as if they were away. *)
Theorem presence_race :
  let u := uid 1 in
  ∃ s, (register_redis u "a" ;;
        p ← unregister_step u "a" UPipe;
        p ← unregister_step u "a" p;
        register_redis u "b" ;;
        p ← unregister_step u "a" p;
        mret p) (mk_rstate 0 ∅) = (Ok UDone, s) ∧
    (redis_smembers (user_key u) s).1 = Ok {["b"]} ∧
    (redis_sismember online_key (uuid_str u) s).1 = Ok false.
Proof.
  destruct (is_ok_run (register_redis (uid 1) "a" ;;
        p ← unregister_step (uid 1) "a" UPipe;
        p ← unregister_step (uid 1) "a" p;
        register_redis (uid 1) "b" ;;
        p ← unregister_step (uid 1) "a" p;
        mret p) (mk_rstate 0 ∅)) as (p & s & E); [by vm_compute|].
  exists s.
  assert (p = UDone ∧ (redis_smembers (user_key (uid 1)) s).1 = Ok {["b"]}
          ∧ (redis_sismember online_key (uuid_str (uid 1)) s).1 = Ok false) as (-> & ? & ?).
  { match type of E with ?m ?w = _ =>
      assert ((m w).1 = Ok p) as H1 by (by rewrite E); assert ((m w).2 = s) as H2 by (by rewrite E)
    end.
    rewrite <- H2. split_and!; [|by vm_compute|by vm_compute].
    apply (f_equal (λ r, match r with Ok p => p | Err _ => UPipe end)) in H1. rewrite <- H1. vm_compute. reflexivity. }
  split_and!; [exact E|assumption|assumption].
Qed.
