(* ===== verification/Chats.v ===== *)
(** [app/api/routes/chats.py]: the list of conversations and the history of one. *)

From S2P Require Import Prelude Effects PyStr Uuid Redis Models World Messages WsManager.
From Stdlib Require Import String.

Local Open Scope string_scope.

Record ConversationOut := mk_ConversationOut {
  co_peer_id : UUID;
  co_peer_name : string;
  co_peer_avatar_url : option string;
  co_is_online : bool;
  co_last_message_preview : option string;
  co_last_message_at : option timestamp;
  co_unread_count : Z
}.

Record MessageOut := mk_MessageOut {
  mo_id : UUID;
  mo_sender_id : option UUID;
  mo_recipient_id : option UUID;
  mo_message_type : string;
  mo_content_ciphertext : option string;
  mo_status : string;
  mo_created_at : timestamp;
  mo_deleted_for_everyone : bool
}.

(** [MessageOut.model_validate(m)] *)
Definition MessageOut_of (m : Message) : MessageOut :=
  mk_MessageOut (m_id m) (m_sender_id m) (m_recipient_id m) (m_message_type m)
    (m_content_ciphertext m) (m_status m) (m_created_at m) (m_deleted_for_everyone m).

(** [coalesce(nullif(sender_id, user_id), recipient_id)] *)
Definition peer_expr (user_id : UUID) (m : Message) : option UUID :=
  match m_sender_id m with
  | Some s => if decide (s = user_id) then m_recipient_id m else Some s
  | None => m_recipient_id m
  end.

(** The rows of the subquery [latest] before grouping. *)
Definition in_latest (user_id : UUID) (m : Message) : bool :=
  (bool_decide (m_sender_id m = Some user_id) || bool_decide (m_recipient_id m = Some user_id))
  && bool_decide (m_group_id m = None) && negb (m_is_destructed m).

(** [max(created_at)] of a group of rows. *)
Definition max_created (l : list Message) : option timestamp :=
  foldr (λ m acc, Some (match acc with Some t => Z.max t (m_created_at m) | None => m_created_at m end))
    None l.

(** The join of [User] with the grouped subquery: the peers that have a row, each with the
    latest time. *)
Definition conversations (user_id : UUID) (t : tables) : list (User * timestamp) :=
  omap (λ peer,
    match max_created (select (messages t)
            (λ m, in_latest user_id m && bool_decide (peer_expr user_id m = Some (u_id peer)))) with
    | Some last_at => Some (peer, last_at)
    | None => None
    end) (rows (users t)).

(** Messages from one to the other, in either direction. *)
Definition between (a b : UUID) (m : Message) : bool :=
  (bool_decide (m_sender_id m = Some a) && bool_decide (m_recipient_id m = Some b))
  || (bool_decide (m_sender_id m = Some b) && bool_decide (m_recipient_id m = Some a)).

(** [list_conversations] *)
Definition list_conversations (user : User) : prog world (list ConversationOut) :=
  rows ← query (λ t, order_by_desc (λ r : User * timestamp, r.2) (conversations (u_id user) t));
  map_each (λ '(peer, last_at),
    last_msg ← query (λ t, head (order_by_desc m_created_at
      (select (messages t) (λ m, between (u_id user) (u_id peer) m && negb (m_is_destructed m)))));
    unread ← query (λ t, List.length (select (messages t) (λ m,
      bool_decide (m_sender_id m = Some (u_id peer))
      && bool_decide (m_recipient_id m = Some (u_id user))
      && bool_decide (m_status m ≠ "read") && negb (m_is_destructed m))));
    let preview :=
      match last_msg with
      | Some m =>
          if m_deleted_for_everyone m then None
          else Some (take_str 20 (if truthy_opt (m_content_ciphertext m)
                                  then default "" (m_content_ciphertext m)
                                  else "[" ++ m_message_type m ++ "]"))
      | None => None
      end in
    online ← is_online (u_id peer);
    mret (mk_ConversationOut (u_id peer) (u_full_name peer) None online preview (Some last_at)
            (Z.of_nat unread))) rows.

(** The [WHERE] clause of [message_history]. *)
Definition in_history (user_id peer_id : UUID) (before : option timestamp) (m : Message) : bool :=
  between user_id peer_id m && negb (m_is_destructed m)
  && match before with Some b => (m_created_at m <? b)%Z | None => true end.

(** [message_history]; PostgreSQL refuses a negative [LIMIT], which [le=100] lets through. *)
Definition message_history (peer_id : UUID) (before : option timestamp) (limit : Z) (user : User)
    : prog world (list MessageOut) :=
  peer ← query (λ t, users t !! peer_id);
  ensure (bool_decide (peer ≠ None)) (HTTPException 404 "peer not found") ;;
  ensure (0 <=? limit)%Z (ValueError "LIMIT must not be negative") ;;
  ms ← query (λ t, take (Z.to_nat limit) (order_by_desc m_created_at
          (select (messages t) (in_history (u_id user) peer_id before))));
  mret (MessageOut_of <$> rev ms).

(** ** Reading a conversation page by page *)

(** No two of the messages were sent at the same instant. *)
Definition distinct_times (l : list Message) : Prop := NoDup (m_created_at <$> l).

Lemma distinct_times_eq l m m' :
  distinct_times l → m ∈ l → m' ∈ l → m_created_at m = m_created_at m' → m = m'.
Proof.
  unfold distinct_times. induction l as [|x l IH]; [by intros _ []%elem_of_nil|].
  cbn [fmap list_fmap]. intros [Hx Hl]%NoDup_cons.
  assert (∀ y, y ∈ l → m_created_at y ≠ m_created_at x) as Hne.
  { intros y Hy E. apply Hx, list_elem_of_fmap. by exists y. }
  intros [->|Hm]%elem_of_cons [->|Hm']%elem_of_cons E; [done| |by destruct (Hne m Hm)|by apply IH].
  by destruct (Hne m' Hm').
Qed.

(** Sorting commutes with a further condition. *)
Lemma order_by_desc_filter (p q : Message → bool) (t : gmap UUID Message) :
  distinct_times (select t p) →
  order_by_desc m_created_at (select t (λ m, p m && q m))
  = List.filter q (order_by_desc m_created_at (select t p)).
Proof.
  intros Hd. rewrite select_and. apply (StronglySorted_unique_strong (desc m_created_at)).
  - intros x y Hx Hy Hxy Hyx. unfold desc in *.
    rewrite order_by_desc_perm in Hx.
    apply list_elem_of_In, filter_In in Hx as [Hx _]. apply list_elem_of_In, filter_In in Hy as [Hy _].
    rewrite <- list_elem_of_In in Hx, Hy. rewrite order_by_desc_perm in Hy.
    apply (distinct_times_eq (select t p)); [done..|lia].
  - apply order_by_desc_sorted.
  - apply StronglySorted_filter, order_by_desc_sorted.
  - rewrite order_by_desc_perm. by apply filter_perm, symmetry, order_by_desc_perm.
Qed.

(** In a list sorted by time, what is older than an element is what follows it. *)
Lemma older_suffix l1 m l2 :
  StronglySorted (desc m_created_at) (l1 ++ m :: l2) → distinct_times (l1 ++ m :: l2) →
  List.filter (λ x, (m_created_at x <? m_created_at m)%Z) (l1 ++ m :: l2) = l2.
Proof.
  intros Hs Hd. rewrite List.filter_app.
  assert (List.filter (λ x, (m_created_at x <? m_created_at m)%Z) l1 = []) as ->.
  { apply filter_nil_iff. intros x Hx. apply Z.ltb_ge.
    apply (StronglySorted_app_1_elem_of _ _ _ _ _ Hs Hx). by left. }
  cbn. rewrite Z.ltb_irrefl. apply filter_all. intros x Hx. apply Z.ltb_lt.
  apply StronglySorted_app_1_r in Hs. apply StronglySorted_cons in Hs as [Hm _].
  rewrite Forall_forall in Hm. specialize (Hm x Hx). unfold desc in Hm.
  assert (m_created_at x ≠ m_created_at m); [|lia]. intros E.
  unfold distinct_times in Hd. rewrite fmap_app in Hd. apply NoDup_app in Hd as (_ & _ & Hd).
  cbn in Hd. apply NoDup_cons in Hd as [Hd _]. apply Hd, list_elem_of_fmap. by exists x.
Qed.

(** A client walking back: each page asks for what is older than the oldest message so
    far; the walk ends at an empty page. *)
Fixpoint walk_back (fuel : nat) (peer_id : UUID) (before : option timestamp) (limit : Z)
    (user : User) : prog world (list MessageOut) :=
  match fuel with
  | O => mret []
  | S fuel =>
      page ← message_history peer_id before limit user;
      match page with
      | [] => mret []
      | oldest :: _ =>
          older ← walk_back fuel peer_id (Some (mo_created_at oldest)) limit user;
          mret (older ++ page)%list
      end
  end.

Section Walk.
Context (user : User) (peer_id : UUID) (limit : Z) (w : world).
Context (Hpeer : is_Some (users (w_tables w) !! peer_id)) (Hlimit : (0 < limit)%Z).

(** The whole conversation, latest first. *)
Definition conversation : list Message :=
  order_by_desc m_created_at (select (messages (w_tables w)) (in_history (u_id user) peer_id None)).

Context (Hdist : distinct_times
  (select (messages (w_tables w)) (in_history (u_id user) peer_id None))).

Lemma conversation_distinct : distinct_times conversation.
Proof. unfold distinct_times, conversation. by rewrite order_by_desc_perm. Qed.

Lemma history_run before :
  message_history peer_id before limit user w =
  (Ok (MessageOut_of <$> rev (take (Z.to_nat limit)
     (List.filter (λ m, match before with Some b => (m_created_at m <? b)%Z | None => true end)
        conversation))), w).
Proof.
  unfold message_history. rewrite query_step. destruct Hpeer as [p ->].
  rewrite bool_decide_eq_true_2, ensure_true_step by done.
  rewrite (proj2 (Z.leb_le _ _)), ensure_true_step, query_step by lia.
  unfold conversation. rewrite <- order_by_desc_filter by done.
  by rewrite (select_ext _ (in_history (u_id user) peer_id before) (λ m,
    in_history (u_id user) peer_id None m
    && match before with Some b => (m_created_at m <? b)%Z | None => true end))
    by (intros m; unfold in_history; by rewrite andb_true_r).
Qed.

Lemma walk_run fuel before newer rest :
  conversation = (newer ++ rest)%list →
  List.filter (λ m, match before with Some b => (m_created_at m <? b)%Z | None => true end)
    conversation = rest →
  (List.length rest < fuel)%nat →
  walk_back fuel peer_id before limit user w = (Ok (MessageOut_of <$> rev rest), w).
Proof.
  revert before newer rest. induction fuel as [|fuel IH]; intros before newer rest Hc Hf Hl; [lia|].
  cbn [walk_back]. rewrite (step_ok _ _ _ _ _ (history_run before)), Hf.
  destruct (take (Z.to_nat limit) rest) as [|x l] eqn:Et.
  { destruct rest; [done|]. destruct (Z.to_nat limit) eqn:En; [lia|done]. }
  assert (∃ l1 m, x :: l = l1 ++ [m])%list as (l1 & m & El)
    by (destruct (exists_last (l := x :: l)) as (l1 & m & ?); [done|eauto]).
  rewrite El in *. rewrite rev_app_distr. cbn [rev app fmap list_fmap mo_created_at MessageOut_of].
  set (older := skipn (Z.to_nat limit) rest).
  assert (rest = l1 ++ m :: older)%list as Hr.
  { rewrite <- (firstn_skipn (Z.to_nat limit) rest), Et, <- app_assoc. done. }
  assert (conversation = (newer ++ l1) ++ m :: older)%list as Hc'
    by (by rewrite Hc, Hr, <- app_assoc).
  rewrite (step_ok _ _ w (MessageOut_of <$> rev older) w).
  - unfold mret, prog_ret. rewrite Hr, rev_app_distr. cbn [rev]. rewrite <- app_assoc, !fmap_app. done.
  - apply (IH _ ((newer ++ l1) ++ [m]))%list.
    + rewrite Hc'. by rewrite <- !app_assoc.
    + rewrite Hc'. apply older_suffix; rewrite <- Hc';
        [apply order_by_desc_sorted|apply conversation_distinct].
    + rewrite Hr, length_app in Hl. cbn in Hl. lia.
Qed.
End Walk.

(** C19. Paging loses nothing: walking a conversation back page by page - each page asking for
    what is older than the oldest message seen - ends, and returns every message between the
    two users that is not destructed once, oldest first, whatever the page size; provided no
    two of them were sent at the same instant. *)
Theorem history_pages user peer_id limit fuel w :
  is_Some (users (w_tables w) !! peer_id) → (0 < limit)%Z →
  let all := select (messages (w_tables w))
    (λ m, between (u_id user) peer_id m && negb (m_is_destructed m)) in
  distinct_times all → (List.length all < fuel)%nat →
  ∃ ms, walk_back fuel peer_id None limit user w = (Ok (MessageOut_of <$> ms), w) ∧
    ms ≡ₚ all ∧ StronglySorted (λ m m', m_created_at m ≤ m_created_at m')%Z ms.
Proof.
  intros Hp Hl. cbv zeta.
  rewrite <- (select_ext _ (in_history (u_id user) peer_id None))
    by (intros m; unfold in_history; by rewrite andb_true_r).
  intros Hd Hf. exists (rev (conversation user peer_id w)). split_and!.
  - apply (walk_run user peer_id limit w Hp Hl Hd fuel None []); [done| |].
    + by apply filter_all.
    + unfold conversation. by rewrite order_by_desc_perm.
  - unfold conversation. by rewrite <- Permutation_rev, order_by_desc_perm.
  - apply StronglySorted_rev, order_by_desc_sorted.
Qed.

(** ** The list of conversations *)

Lemma max_created_None l : max_created l = None ↔ l = [].
Proof. destruct l; [done|]. cbn. by split. Qed.

Lemma max_created_Some l t :
  max_created l = Some t →
  (∃ m, m ∈ l ∧ m_created_at m = t) ∧ ∀ m, m ∈ l → (m_created_at m ≤ t)%Z.
Proof.
  revert t. induction l as [|x l IH]; intros t; cbn [max_created foldr]; [done|].
  fold (max_created l). destruct (max_created l) as [t'|] eqn:E; intros [= <-].
  - destruct (IH t' eq_refl) as ((m & Hm & <-) & Hmax). split.
    + destruct (Z.max_spec (m_created_at m) (m_created_at x)) as [[_ ->]|[_ ->]];
        [exists x|exists m]; split; try done; [by left|by right].
    + intros m' [->|Hm']%elem_of_cons; [lia|]. specialize (Hmax m' Hm'). lia.
  - apply max_created_None in E as ->. split; [exists x; split; [by left|done]|].
    by intros m' ->%list_elem_of_singleton.
Qed.

(** The first in descending order is a latest one. *)
Lemma head_order_by_desc {A} (f : A → Z) l x :
  x ∈ l → ∃ y, head (order_by_desc f l) = Some y ∧ y ∈ l ∧ ∀ z, z ∈ l → (f z ≤ f y)%Z.
Proof.
  intros Hx. pose proof (order_by_desc_perm f l) as Hp. pose proof (order_by_desc_sorted f l) as Hs.
  destruct (order_by_desc f l) as [|y l'].
  { rewrite <- Hp in Hx. by apply elem_of_nil in Hx. }
  exists y. split; [done|]. split; [rewrite <- Hp; by left|]. intros z Hz. rewrite <- Hp in Hz.
  apply StronglySorted_cons in Hs as [Hall _]. rewrite Forall_forall in Hall.
  apply elem_of_cons in Hz as [->|Hz]; [lia|]. exact (Hall z Hz).
Qed.

(** The direct messages with [p] that have not been destructed. *)
Definition live_with (user_id p : UUID) (m : Message) : bool :=
  between user_id p m && bool_decide (m_group_id m = None) && negb (m_is_destructed m).

Lemma in_latest_with u p m :
  m_sender_id m ≠ None →
  in_latest u m && bool_decide (peer_expr u m = Some p) = live_with u p m.
Proof.
  intros Hs. apply eq_true_iff_eq. unfold in_latest, live_with, peer_expr, between.
  destruct (m_sender_id m) as [s|]; [|done].
  rewrite !andb_true_iff, !orb_true_iff, !andb_true_iff, !bool_decide_eq_true.
  case_decide; naive_solver congruence.
Qed.

(** What the user has not read of [p]'s messages. *)
Definition unread_from (user_id p : UUID) (m : Message) : bool :=
  bool_decide (m_sender_id m = Some p) && bool_decide (m_recipient_id m = Some user_id)
  && bool_decide (m_status m ≠ "read") && negb (m_is_destructed m).

(** A row of the list. *)
Definition row_ok (C : registry) (t : tables) (user_id : UUID) (c : ConversationOut) : Prop :=
  let p := co_peer_id c in
  (∃ last_at, co_last_message_at c = Some last_at ∧
     (∃ k m, messages t !! k = Some m ∧ live_with user_id p m = true ∧ m_created_at m = last_at) ∧
     (∀ k m, messages t !! k = Some m → live_with user_id p m = true →
        (m_created_at m ≤ last_at)%Z)) ∧
  co_unread_count c = Z.of_nat (List.length (select (messages t) (unread_from user_id p))) ∧
  co_is_online c = bool_decide (p ∈ dom C) ∧
  (∃ peer, users t !! p = Some peer ∧ co_peer_name c = u_full_name peer) ∧
  ∃ k m, messages t !! k = Some m ∧ between user_id p m = true ∧ m_is_destructed m = false ∧
    (∀ k' m', messages t !! k' = Some m' → between user_id p m' = true → m_is_destructed m' = false →
       (m_created_at m' ≤ m_created_at m)%Z) ∧
    co_last_message_preview c
    = (if m_deleted_for_everyone m then None
       else Some (take_str 20 (if truthy_opt (m_content_ciphertext m)
                               then default "" (m_content_ciphertext m)
                               else "[" ++ m_message_type m ++ "]"))).

Section Conversations.
Context (C : registry) (user : User) (w : world).
Context (Hreg : reg_world C w).
Context (Hkeys : ∀ k u, users (w_tables w) !! k = Some u → u_id u = k).
Context (Hsent : ∀ k m, messages (w_tables w) !! k = Some m → m_sender_id m ≠ None).
Abbreviation t := (w_tables w).

Lemma latest_with p :
  select (messages t) (λ m, in_latest (u_id user) m && bool_decide (peer_expr (u_id user) m = Some p))
  = select (messages t) (live_with (u_id user) p).
Proof.
  apply select_ext_in. intros k m Hm. by apply in_latest_with, (Hsent k).
Qed.

Lemma elem_of_conversations p last_at :
  (p, last_at) ∈ conversations (u_id user) t ↔
  users t !! u_id p = Some p ∧
  max_created (select (messages t) (live_with (u_id user) (u_id p))) = Some last_at.
Proof.
  unfold conversations. rewrite list_elem_of_omap. split.
  - intros (p' & [k Hk]%elem_of_rows & E). rewrite latest_with in E.
    destruct (max_created _) as [t'|] eqn:Em; [|done]. injection E as <- <-.
    split; [by rewrite (Hkeys _ _ Hk)|done].
  - intros [Hp Em]. exists p. split; [by apply elem_of_rows; exists (u_id p)|].
    by rewrite latest_with, Em.
Qed.

(** The peers listed, each once. *)
Lemma NoDup_conversations : NoDup ((λ r : User * timestamp, u_id r.1) <$> conversations (u_id user) t).
Proof.
  unfold conversations. rewrite list_fmap_omap.
  pose proof (NoDup_select (users t) (λ _, true) u_id (λ k x H, Hkeys k x H)) as Hn.
  unfold select in Hn. rewrite (filter_all (λ _, true)) in Hn by done. revert Hn.
  induction (rows (users t)) as [|u l IH]; [done|]. cbn [fmap list_fmap].
  intros [Hu Hl]%NoDup_cons. cbn. destruct (max_created _); cbn; [|by apply IH].
  apply NoDup_cons. split; [|by apply IH].
  intros (x & Hx & E)%list_elem_of_omap. apply Hu.
  destruct (max_created _); [|done]. injection E as <-. by apply list_elem_of_fmap_2.
Qed.

(** The row of one peer. *)
Definition conversation_row (r : User * timestamp) : ConversationOut :=
  let '(peer, last_at) := r in
  mk_ConversationOut (u_id peer) (u_full_name peer) None (bool_decide (u_id peer ∈ dom C))
    (match head (order_by_desc m_created_at (select (messages t)
             (λ m, between (u_id user) (u_id peer) m && negb (m_is_destructed m)))) with
     | Some m =>
         if m_deleted_for_everyone m then None
         else Some (take_str 20 (if truthy_opt (m_content_ciphertext m)
                                 then default "" (m_content_ciphertext m)
                                 else "[" ++ m_message_type m ++ "]"))
     | None => None
     end) (Some last_at)
    (Z.of_nat (List.length (select (messages t) (unread_from (u_id user) (u_id peer))))).

Lemma list_conversations_run :
  list_conversations user w =
  (Ok (conversation_row <$> order_by_desc (λ r : User * timestamp, r.2) (conversations (u_id user) t)), w).
Proof.
  unfold list_conversations. rewrite query_step. apply map_each_pure. intros [peer last_at] _.
  rewrite !query_step. by rewrite (step_ok _ _ _ _ _ (is_online_world C (u_id peer) w Hreg)).
Qed.

Lemma conversation_row_ok r :
  r ∈ conversations (u_id user) t → row_ok C t (u_id user) (conversation_row r).
Proof.
  destruct r as [p last_at]. intros [Hp Hm]%elem_of_conversations.
  apply max_created_Some in Hm as [(m & [Hl [k Hk]]%elem_of_select & Em) Hmax].
  split; [exists last_at; split_and!; [done|by exists k, m|]|split_and!; [done|done|by exists p|]].
  - intros k' m' Hk' Hl'. apply Hmax, elem_of_select. by split; [|exists k'].
  - cbn [co_peer_id conversation_row co_last_message_preview].
    set (p0 := λ m, between (u_id user) (u_id p) m && negb (m_is_destructed m)).
    destruct (head_order_by_desc m_created_at (select (messages t) p0) m) as (m' & -> & Hm' & Hle).
    { apply elem_of_select. split; [|by exists k]. unfold live_with, p0 in *.
      by apply andb_prop in Hl as [[-> _]%andb_prop ->]. }
    apply elem_of_select in Hm' as [[Hb Hd%negb_true_iff]%andb_prop [k' Hk']].
    exists k', m'. split_and!; [done..| |done]. intros k2 m2 Hk2 Hb2 Hd2.
    apply Hle, elem_of_select. split; [|by exists k2]. unfold p0. by rewrite Hb2, Hd2.
Qed.
End Conversations.

(** C25. The list of conversations, where every message has a sender, every user is stored under
    the own id and the presence registry is sound: it has exactly one row for
    every user with whom a direct message that is not destructed was exchanged, the most
    recently active first; a row gives the peer's name, the time of the latest such message,
    the exact number of the peer's messages not yet read, whether the peer has a connected
    device, and as preview the first twenty characters of a latest message between the two that
    is not destructed - its content, or its type in brackets when that is empty - and none when
    that message was taken back. *)
Theorem list_conversations_spec C user w :
  reg_world C w →
  (∀ k u, users (w_tables w) !! k = Some u → u_id u = k) →
  (∀ k m, messages (w_tables w) !! k = Some m → m_sender_id m ≠ None) →
  ∃ cs, list_conversations user w = (Ok cs, w) ∧
    StronglySorted (λ c c', default 0 (co_last_message_at c') ≤ default 0 (co_last_message_at c))%Z cs ∧
    NoDup (co_peer_id <$> cs) ∧
    (∀ p, p ∈ co_peer_id <$> cs ↔ is_Some (users (w_tables w) !! p) ∧
       ∃ k m, messages (w_tables w) !! k = Some m ∧ live_with (u_id user) p m = true) ∧
    Forall (row_ok C (w_tables w) (u_id user)) cs.
Proof.
  intros Hreg Hkeys Hsent. eexists. split; [by apply (list_conversations_run C)|].
  set (rs := conversations (u_id user) (w_tables w)).
  assert (∀ l, co_peer_id <$> (conversation_row C user w <$> l) = (λ r : User * timestamp, u_id r.1) <$> l)
    as Hids by (intros l; rewrite <- list_fmap_compose; by apply list_fmap_ext; intros ? []).
  split_and!.
  - pose proof (order_by_desc_sorted (λ r : User * timestamp, r.2) rs) as Hs. revert Hs.
    generalize (order_by_desc (λ r : User * timestamp, r.2) rs). intros l.
    induction 1 as [|[p a] l _ IH Hx]; cbn [fmap list_fmap]; constructor; [done|].
    apply Forall_fmap. eapply Forall_impl; [exact Hx|]. by intros [].
  - rewrite Hids, order_by_desc_perm. by apply NoDup_conversations.
  - intros p. rewrite Hids, order_by_desc_perm, list_elem_of_fmap. split.
    + intros ([u a] & -> & Hr). apply (elem_of_conversations user w Hkeys Hsent) in Hr as [Hu Hm].
      split; [by eexists|]. apply max_created_Some in Hm as [(m & [Hl [k Hk]]%elem_of_select & _) _].
      by exists k, m.
    + intros ([u Hu] & k & m & Hk & Hl). pose proof (Hkeys _ _ Hu) as <-.
      destruct (max_created (select (messages (w_tables w)) (live_with (u_id user) (u_id u)))) as [a|] eqn:E.
      * exists (u, a). split; [done|]. by apply elem_of_conversations.
      * apply max_created_None in E. assert (m ∈ @nil Message) as []%not_elem_of_nil.
        rewrite <- E. apply elem_of_select. by split; [|exists k].
  - rewrite order_by_desc_perm. apply Forall_fmap, Forall_forall. intros r Hr.
    by apply conversation_row_ok.
Qed.

(** Two messages from user 7 to user 8. *)
Module Page.
Definition message (n : nat) (at_ : timestamp) : Message :=
  new_message (uid n) at_ (uid 7) (Some (uid 8)) None "text" (Some "hi") None None None.
Definition tables0 : tables :=
  Chat.tables0 <| messages := {[uid 100 := message 100 10; uid 101 := message 101 20]} |>.
Definition world0 : world := (empty_world 30) <| w_tables := tables0 |> <| w_committed := tables0 |>.
End Page.

Lemma history_pages_witness :
  ∃ ms, walk_back 3 (uid 7) None 1 (Chat.user 8) Page.world0 = (Ok (MessageOut_of <$> ms), Page.world0)
    ∧ List.length ms = 2%nat.
Proof.
  destruct (history_pages (Chat.user 8) (uid 7) 1 3 Page.world0) as (ms & E & Hp & _).
  - exists (Chat.user 7). reflexivity.
  - done.
  - apply (bool_decide_unpack _). vm_compute. reflexivity.
  - apply Nat.leb_le. vm_compute. reflexivity.
  - exists ms. split; [exact E|]. rewrite Hp. vm_compute. reflexivity.
Defined.

Lemma list_conversations_spec_witness :
  ∃ cs, list_conversations (Chat.user 8) Page.world0 = (Ok cs, Page.world0) ∧
    co_peer_id <$> cs = [uid 7] ∧ Forall (row_ok ∅ (w_tables Page.world0) (uid 8)) cs.
Proof.
  assert (∀ k u, users Page.tables0 !! k = Some u → u_id u = k) as Hk.
  { intros k u. change (users Page.tables0) with
      ({[uid 7 := Chat.user 7; uid 8 := Chat.user 8]} : gmap UUID User).
    intros [[<- <-]|[_ [<- <-]%lookup_singleton_Some]]%lookup_insert_Some; done. }
  assert (∀ k m, messages Page.tables0 !! k = Some m → m_sender_id m ≠ None) as Hs.
  { intros k m. change (messages Page.tables0) with
      ({[uid 100 := Page.message 100 10; uid 101 := Page.message 101 20]} : gmap UUID Message).
    by intros [[<- <-]|[_ [<- <-]%lookup_singleton_Some]]%lookup_insert_Some. }
  destruct (list_conversations_spec ∅ (Chat.user 8) Page.world0
    (empty_registry_world Page.world0 eq_refl) Hk Hs) as (cs & E & _ & _ & _ & Hrows).
  exists cs. split; [exact E|]. split; [|exact Hrows].
  assert (match (list_conversations (Chat.user 8) Page.world0).1 with
          | Ok l => co_peer_id <$> l | Err _ => [] end = [uid 7]) as H by (vm_compute; reflexivity).
  by rewrite E in H.
Defined.
