(* ===== verification/Broadcasts.v ===== *)
(** [app/api/routes/broadcasts.py]: the urgent broadcasts a user has not tapped away yet,
    their acknowledgement, and the device token for pushes. *)

From S2P Require Import Prelude Effects PyStr Uuid Redis Models Schemas World.
From Stdlib Require Import String.

Local Open Scope string_scope.

Record BroadcastItemOut := mk_BroadcastItemOut {
  bi_id : UUID;
  bi_title : string;
  bi_body : string;
  bi_priority : string;
  bi_created_at : timestamp
}.

(** [BroadcastItemOut.model_validate(b)] *)
Definition BroadcastItemOut_of (b : Broadcast) : BroadcastItemOut :=
  mk_BroadcastItemOut (b_id b) (b_title b) (b_body b) (b_priority b) (b_created_at b).

(** [FcmTokenIn]: its one field, validated. *)
Definition validate_FcmTokenIn (token : string) : res string :=
  if length_between 32 512 token then Ok token
  else Err (HTTPException 422 "token").

(** The acknowledgement of a broadcast by a user. *)
Definition ack_of (broadcast_id user_id : UUID) (a : BroadcastAck) : bool :=
  bool_decide (ba_broadcast_id a = broadcast_id) && bool_decide (ba_user_id a = user_id).
Definition acked (broadcast_id user_id : UUID) (t : tables) : option BroadcastAck :=
  scalar (broadcast_acks t) (ack_of broadcast_id user_id).

(** The [WHERE] clause of [unacked_broadcasts]; [None] is [IS NULL]. *)
Definition addressed (user : User) (b : Broadcast) : bool :=
  bool_decide (b_department b = None) || bool_decide (b_department b = u_department user).
Definition shown (user : User) (t : tables) (b : Broadcast) : bool :=
  bool_decide (b_id b ∉ (ba_broadcast_id <$>
    select (broadcast_acks t) (λ a, bool_decide (ba_user_id a = u_id user))))
  && addressed user b.

(** [unacked_broadcasts] *)
Definition unacked_broadcasts (user : User) : prog world (list BroadcastItemOut) :=
  rows ← query (λ t, order_by_desc b_created_at (select (broadcasts t) (shown user t)));
  mret (BroadcastItemOut_of <$> rows).

(** [db.add(BroadcastAck(...))] with its flush: the foreign keys and the unique index. *)
Definition db_add_ack (a : BroadcastAck) : prog world unit :=
  t ← query id;
  ensure (bool_decide (is_Some (broadcasts t !! ba_broadcast_id a))
          && bool_decide (is_Some (users t !! ba_user_id a))
          && bool_decide (broadcast_acks t !! ba_id a = None)
          && bool_decide (acked (ba_broadcast_id a) (ba_user_id a) t = None))
    (IntegrityError "broadcast_acks") ;;
  db_change (λ t, t <| broadcast_acks ::= <[ba_id a := a]> |>).

(** [ack_broadcast]; [aid] is the primary key of the row it may add. *)
Definition ack_broadcast (aid broadcast_id : UUID) (user : User) : prog world unit :=
  broadcast ← query (λ t, broadcasts t !! broadcast_id);
  ensure (bool_decide (broadcast ≠ None)) (HTTPException 404 "broadcast not found") ;;
  existing ← query (acked broadcast_id (u_id user));
  match existing with
  | None => db_add_ack (mk_BroadcastAck aid broadcast_id (u_id user)) ;; commit
  | Some _ => mret tt
  end.

(** [register_fcm_token] *)
Definition register_fcm_token (body : string) (user : User) : prog world unit :=
  token ← lift (validate_FcmTokenIn body);
  db_change (λ t, t <| users ::= alter (λ u, u <| u_fcm_token := Some token |>) (u_id user) |>) ;;
  commit.

(** ** Acknowledging *)

Lemma ack_of_iff b u a : ack_of b u a = true ↔ ba_broadcast_id a = b ∧ ba_user_id a = u.
Proof. unfold ack_of. rewrite andb_true_iff, !bool_decide_eq_true. tauto. Qed.

Lemma shown_iff user t b :
  shown user t b = true ↔ acked (b_id b) (u_id user) t = None ∧ addressed user b = true.
Proof.
  unfold shown. rewrite andb_true_iff, bool_decide_eq_true. f_equiv.
  unfold acked. rewrite scalar_None. split.
  - intros Hn k a Hk. apply not_true_iff_false. intros [Hb Hu]%ack_of_iff. apply Hn.
    apply list_elem_of_fmap. exists a. split; [done|]. apply elem_of_select.
    split; [by apply bool_decide_eq_true|by exists k].
  - intros Hn (a & E & [Hu [k Hk]]%elem_of_select)%list_elem_of_fmap.
    apply bool_decide_eq_true in Hu. specialize (Hn k a Hk).
    by rewrite (proj2 (ack_of_iff _ _ _) (conj (eq_sym E) Hu)) in Hn.
Qed.

(** The acknowledgements a run of the handlers can meet: stored under their keys, one per
    broadcast and user. *)
Definition acks_ok (t : tables) : Prop :=
  ∀ b u, unique_by (broadcast_acks t) (ack_of b u).

Lemma acked_add t a b u :
  acks_ok t → broadcast_acks t !! ba_id a = None → acked (ba_broadcast_id a) (ba_user_id a) t = None →
  acks_ok (t <| broadcast_acks ::= <[ba_id a := a]> |>) ∧
  acked b u (t <| broadcast_acks ::= <[ba_id a := a]> |>) = if ack_of b u a then Some a else acked b u t.
Proof.
  intros Hok Hk Hn. assert (acks_ok (t <| broadcast_acks ::= <[ba_id a := a]> |>)) as Hok'.
  { intros b' u'. apply unique_by_insert; [apply Hok|].
    intros [<- <-]%ack_of_iff k y Hy Hf. unfold acked in Hn. rewrite scalar_None in Hn.
    by rewrite (Hn k y Hy) in Hf. }
  split; [done|]. unfold acked. apply scalar_insert; [apply Hok'|].
  intros x Hx. by rewrite Hk in Hx.
Qed.

(** The banners [unacked_broadcasts] returns. *)
Lemma unacked_run user w :
  unacked_broadcasts user w =
  (Ok (BroadcastItemOut_of <$>
         order_by_desc b_created_at (select (broadcasts (w_tables w)) (shown user (w_tables w)))), w).
Proof. done. Qed.

(** What a user has acknowledged is no banner any more. *)
Lemma unacked_after t t' user v bid w w' :
  broadcasts t' = broadcasts t →
  (∀ b u, acked b u t' = None ↔ acked b u t = None ∧ ¬ (b = bid ∧ u = u_id user)) →
  w_tables w = t → w_tables w' = t' →
  ∃ items items', unacked_broadcasts v w = (Ok items, w) ∧
    unacked_broadcasts v w' = (Ok items', w') ∧
    items' ≡ₚ (if decide (u_id v = u_id user)
               then List.filter (λ b, negb (bool_decide (bi_id b = bid))) items else items).
Proof.
  intros Hb Ha <- <-. eexists _, _. split; [apply unacked_run|]. split; [apply unacked_run|].
  rewrite Hb. rewrite (select_ext _ (shown v (w_tables w')) (λ b, shown v (w_tables w) b &&
    negb (bool_decide (b_id b = bid) && bool_decide (u_id v = u_id user)))).
  - rewrite select_and. case_decide as E.
    + rewrite filter_fmap. apply fmap_Permutation. rewrite order_by_desc_perm.
      rewrite (filter_ext (λ b, negb (bool_decide (b_id b = bid) && bool_decide (u_id v = u_id user)))
        (λ b, negb (bool_decide (b_id b = bid))));
        [|intros b; by rewrite (bool_decide_eq_true_2 _ E), andb_true_r].
      apply filter_perm. by rewrite order_by_desc_perm.
    + apply fmap_Permutation. rewrite !order_by_desc_perm, filter_all; [done|].
      intros b _. by rewrite (bool_decide_eq_false_2 _ E), andb_false_r.
  - intros b. apply eq_true_iff_eq. rewrite andb_true_iff, !shown_iff, Ha, negb_true_iff,
      andb_false_iff, !bool_decide_eq_false.
    destruct (decide (b_id b = bid)), (decide (u_id v = u_id user)); naive_solver.
Qed.

(** Acknowledging a broadcast: an unknown one is 404 and nothing changes. Otherwise the
    handler succeeds, also when it is repeated; from then on the user's banners are those of
    before less this one; the banners of every other user are unchanged; and there is still
    at most one acknowledgement per broadcast and user. *)
Theorem ack_broadcast_spec aid bid user w :
  let t := w_tables w in
  acks_ok t →
  broadcast_acks t !! aid = None → is_Some (users t !! u_id user) →
  let '(r, w') := ack_broadcast aid bid user w in
  match broadcasts t !! bid with
  | None => r = Err (HTTPException 404 "broadcast not found") ∧ w' = w
  | Some _ =>
      r = Ok tt ∧ acks_ok (w_tables w') ∧
      ∀ v, ∃ items items', unacked_broadcasts v w = (Ok items, w) ∧
        unacked_broadcasts v w' = (Ok items', w') ∧
        items' ≡ₚ (if decide (u_id v = u_id user)
                   then List.filter (λ b, negb (bool_decide (bi_id b = bid))) items else items)
  end.
Proof.
  cbv zeta. intros Hok Hk Hu. destruct (ack_broadcast aid bid user w) as [r w'] eqn:E.
  unfold ack_broadcast in E. rewrite query_step in E.
  destruct (broadcasts (w_tables w) !! bid) as [b|] eqn:Hb.
  2: { by injection E as <- <-. }
  rewrite bool_decide_eq_true_2, ensure_true_step, query_step in E by done.
  destruct (acked bid (u_id user) (w_tables w)) as [a|] eqn:Ha.
  - injection E as <- <-. split_and!; [done..|]. intros v.
    apply (unacked_after (w_tables w) (w_tables w)); [done| |done..].
    intros b' u. split; [|tauto]. intros Hn. split; [done|]. intros [-> ->]. congruence.
  - destruct (acked_add (w_tables w) (mk_BroadcastAck aid bid (u_id user)) bid (u_id user)
      Hok Hk Ha) as [Hok' _].
    unfold db_add_ack in E. rewrite step_assoc, query_step in E. cbn [ba_broadcast_id ba_user_id ba_id id] in E.
    rewrite !bool_decide_eq_true_2 in E by (done || by rewrite Hb).
    cbn [andb] in E. rewrite step_assoc, ensure_true_step, db_change_step in E.
    injection E as <- <-. split_and!; [done|exact Hok'|]. intros v.
    apply (unacked_after (w_tables w)
      ((w_tables w) <| broadcast_acks ::= <[aid := mk_BroadcastAck aid bid (u_id user)]> |>));
      [done| |done..].
    intros b' u. destruct (acked_add (w_tables w) (mk_BroadcastAck aid bid (u_id user)) b' u
      Hok Hk Ha) as [_ Ha']. cbn [ba_id] in Ha'. rewrite Ha'.
    destruct (ack_of b' u _) eqn:Hf.
    + apply ack_of_iff in Hf as [<- <-]. cbn. naive_solver.
    + split; [|tauto]. intros Hn. split; [done|]. intros [-> ->].
      by rewrite (proj2 (ack_of_iff _ _ _)) in Hf by done.
Qed.

(** One broadcast to everyone, and two users. *)
Module Banner.
Definition user (n : nat) : User :=
  mk_User (uid n) 0 "+201001234567" "U" None (Some "ops") None "" "" None 1 ACTIVE UADMIN None None
    false None true.
Definition alarm : Broadcast := mk_Broadcast (uid 50) 0 "Drill" "At noon" None "urgent" None.
Definition tables0 : tables :=
  empty_tables <| users := {[uid 7 := user 7; uid 8 := user 8]} |>
               <| broadcasts := {[uid 50 := alarm]} |>.
Definition world0 : world := (empty_world 5) <| w_tables := tables0 |> <| w_committed := tables0 |>.
End Banner.

Lemma ack_broadcast_spec_witness :
  ∃ w', ack_broadcast (uid 60) (uid 50) (Banner.user 7) Banner.world0 = (Ok tt, w') ∧
    unacked_broadcasts (Banner.user 7) w' = (Ok [], w') ∧
    unacked_broadcasts (Banner.user 8) w' = (Ok [BroadcastItemOut_of Banner.alarm], w').
Proof.
  pose proof (ack_broadcast_spec (uid 60) (uid 50) (Banner.user 7) Banner.world0) as H.
  cbv zeta in H. change (broadcasts _ !! uid 50) with (Some Banner.alarm) in H.
  destruct (ack_broadcast _ _ _ _) as [r w'].
  destruct H as (-> & _ & H); [intros b u k k' x y Hx; discriminate Hx|done|by eexists|].
  exists w'. split; [reflexivity|].
  pose proof (H (Banner.user 7)) as (i7 & i7' & E7 & -> & P7).
  pose proof (H (Banner.user 8)) as (i8 & i8' & E8 & -> & P8).
  clear H. rewrite decide_True in P7 by done. rewrite decide_False in P8 by done.
  injection E7 as E7. injection E8 as E8. vm_compute in E7. vm_compute in E8. subst i7 i8.
  apply Permutation_nil_r in P7 as ->. apply Permutation_singleton_r in P8 as ->.
  split; reflexivity.
Defined.
