(* ===== verification/Push.v ===== *)
(** [app/services/push_service.py]: notifications through Firebase.

    Firebase is an interface: whether the Admin SDK initialises, and which device
    tokens it rejects. *)

From S2P Require Import Prelude Effects PyStr Models World Config.
From Stdlib Require Import String.

Local Open Scope string_scope.

Class Fcm := {
  firebase_init_ok : bool;
  fcm_rejects : string → bool
}.

Section Push.
Context (settings : Settings) `{Fcm}.

(** [_ensure_init]; the answer is cached, and the same at every call. *)
Definition ensure_init : bool := truthy (FIREBASE_CREDENTIALS_FILE settings) && firebase_init_ok.

(** [send_message_push]; [messaging.send] raises for a rejected token. *)
Definition send_message_push (fcm_token sender_name preview peer_id : string) : prog world unit :=
  if negb ensure_init then mret tt
  else
    ensure (negb (fcm_rejects fcm_token)) (StorageError "messaging.send") ;;
    fcm_send (mk_push [fcm_token] sender_name (take_str 80 preview)
                [("kind", "dm"); ("peer_id", peer_id)]).

(** The loop [for i in range(0, len(tokens), 500)]: one multicast per slice. [fuel]
    bounds the number of slices; the number of tokens is enough. *)
Fixpoint push_batches (fuel : nat) (title body broadcast_id : string) (tokens : list string)
    (delivered : Z) : prog world Z :=
  match fuel, tokens with
  | _, [] | O, _ => mret delivered
  | S fuel, _ =>
      let batch := take 500 tokens in
      fcm_send (mk_push batch title (take_str 120 body)
                  [("kind", "broadcast"); ("broadcast_id", broadcast_id)]) ;;
      let success_count := Z.of_nat (List.length (List.filter (λ t, negb (fcm_rejects t)) batch)) in
      push_batches fuel title body broadcast_id (drop 500 tokens) (delivered + success_count)%Z
  end.

Definition send_broadcast_push (fcm_tokens : list string) (title body broadcast_id : string)
    : prog world Z :=
  if negb ensure_init || bool_decide (fcm_tokens = []) then mret 0%Z
  else push_batches (List.length fcm_tokens) title body broadcast_id fcm_tokens 0.

(** ** Properties *)

Lemma push_batches_S fuel title body bid tokens n :
  tokens ≠ [] →
  push_batches (S fuel) title body bid tokens n
  = (fcm_send (mk_push (take 500 tokens) title (take_str 120 body)
       [("kind", "broadcast"); ("broadcast_id", bid)]) ;;
     push_batches fuel title body bid (drop 500 tokens)
       (n + Z.of_nat (List.length (List.filter (λ t, negb (fcm_rejects t)) (take 500 tokens))))%Z).
Proof. by destruct tokens. Qed.

Lemma push_batches_run fuel title body bid tokens n w :
  (List.length tokens ≤ fuel)%nat →
  ∃ batches, push_batches fuel title body bid tokens n w
    = (Ok (n + Z.of_nat (List.length (List.filter (λ t, negb (fcm_rejects t)) tokens)))%Z,
       w <| w_pushes ::= λ l, (l ++ batches)%list |>)
    ∧ List.concat (p_tokens <$> batches) = tokens
    ∧ Forall (λ p, (1 ≤ List.length (p_tokens p) ≤ 500)%nat ∧ p_title p = title
               ∧ p_body p = take_str 120 body
               ∧ p_data p = [("kind", "broadcast"); ("broadcast_id", bid)]) batches.
Proof.
  revert tokens n w. induction fuel as [|fuel IH]; intros tokens n w Hf.
  { destruct tokens; [|cbn in Hf; lia]. exists []. cbn. rewrite Z.add_0_r. split_and!; [|done|done].
    unfold over. cbn. rewrite app_nil_r. by destruct w. }
  destruct tokens as [|t tokens].
  { exists []. cbn. rewrite Z.add_0_r. split_and!; [|done|done].
    unfold over. cbn. rewrite app_nil_r. by destruct w. }
  remember (t :: tokens) as l eqn:El.
  assert (1 ≤ List.length l)%nat as Hlen by (rewrite El; cbn; lia). clear El t tokens.
  set (p := mk_push (take 500 l) title (take_str 120 body)
              [("kind", "broadcast"); ("broadcast_id", bid)]).
  destruct (IH (drop 500 l)
    (n + Z.of_nat (List.length (List.filter (λ t, negb (fcm_rejects t)) (take 500 l))))%Z
    (w <| w_pushes ::= λ l, (l ++ [p])%list |>)) as (batches & Hr & Hc & Hall).
  { rewrite length_drop. lia. }
  exists (p :: batches). split_and!.
  - rewrite push_batches_S by (intros ->; cbn in Hlen; lia). fold p.
    rewrite (step_ok _ _ w tt (w <| w_pushes ::= λ l, (l ++ [p])%list |>)) by done.
    rewrite Hr. f_equal.
    + f_equal. rewrite <- (take_drop 500 l) at 3. rewrite List.filter_app, length_app. lia.
    + unfold over. cbn. by rewrite <- app_assoc.
  - cbn [fmap list_fmap List.concat]. rewrite Hc. unfold p; cbn [p_tokens]. apply take_drop.
  - constructor; [|done]. unfold p; cbn [p_tokens p_title p_body p_data].
    rewrite length_take. split_and!; [lia|lia|done|done|done].
Qed.

(** The batches of a broadcast push: the tokens in order, one to five hundred at a time,
    each with the title, the first 120 characters of the body and the broadcast's id. *)
Definition broadcast_batches (tokens : list string) (title body bid : string) (batches : list push)
    (n : Z) : Prop :=
  (if ensure_init
   then List.concat (p_tokens <$> batches) = tokens ∧
        n = Z.of_nat (List.length (List.filter (λ t, negb (fcm_rejects t)) tokens))
   else batches = [] ∧ n = 0%Z) ∧
  Forall (λ p, (1 ≤ List.length (p_tokens p) ≤ 500)%nat ∧ p_title p = title
             ∧ p_body p = take_str 120 body
             ∧ p_data p = [("kind", "broadcast"); ("broadcast_id", bid)]) batches.

Lemma send_broadcast_push_run tokens title body bid w :
  ∃ batches n, send_broadcast_push tokens title body bid w
    = (Ok n, w <| w_pushes ::= λ l, (l ++ batches)%list |>)
    ∧ broadcast_batches tokens title body bid batches n.
Proof.
  unfold broadcast_batches.
  assert (w = w <| w_pushes ::= λ l, (l ++ [])%list |>) as Hw.
  { unfold over. cbn. rewrite app_nil_r. by destruct w. }
  unfold send_broadcast_push. destruct ensure_init; cbn [negb orb].
  - case_bool_decide as Ht.
    + subst tokens. exists [], 0%Z. split_and!; [by rewrite <- Hw|done|done|done].
    + destruct (push_batches_run (List.length tokens) title body bid tokens 0 w)
        as (batches & Hr & Hc & Hall); [done|]. by eexists batches, _.
  - exists [], 0%Z. split_and!; [by rewrite <- Hw|done|done|done].
Qed.
End Push.
