(* ===== verification/Admin.v ===== *)
(** [app/api/routes/admin.py]: the administrators' guard, the user list and its search,
    suspension, live figures and urgent broadcasts. *)

From S2P Require Import Prelude Effects PyStr Uuid Redis Models Config Schemas World Pubsub.
From S2P Require Import Security Push WsManager Broadcasts.
From Stdlib Require Import String Ascii.

Local Open Scope string_scope.

(** [require_superadmin], given the current user. *)
Definition require_superadmin (user : User) : prog world User :=
  if bool_decide (u_role user = UADMIN) || bool_decide (u_role user = SUPERADMIN) then mret user
  else raise (HTTPException 403 "superadmin role required").

(** ** Schemas *)

Record AdminUserOut := mk_AdminUserOut {
  au_id : UUID;
  au_full_name : string;
  au_phone_number : string;
  au_department : option string;
  au_role : string;
  au_status : string;
  au_last_seen_at : option timestamp;
  au_created_at : timestamp
}.
Definition AdminUserOut_of (u : User) : AdminUserOut :=
  mk_AdminUserOut (u_id u) (u_full_name u) (u_phone_number u) (u_department u) (u_role u)
    (u_status u) (u_last_seen_at u) (u_created_at u).

Record SetStatusIn := mk_SetStatusIn { ss_action : string; ss_reason : string }.
Definition validate_SetStatusIn (body : SetStatusIn) : res SetStatusIn :=
  if (bool_decide (ss_action body = "suspend") || bool_decide (ss_action body = "activate"))
     && length_between 5 500 (ss_reason body)
  then Ok body else Err (HTTPException 422 "SetStatusIn").

Record StatsOut := mk_StatsOut {
  st_online_now : Z;
  st_total_users : Z;
  st_active_users : Z;
  st_suspended_users : Z;
  st_messages_today : Z;
  st_storage_used_bytes : Z
}.

Record BroadcastIn := mk_BroadcastIn {
  bin_title : string;
  bin_body : string;
  bin_department : option string
}.
Definition validate_BroadcastIn (body : BroadcastIn) : res BroadcastIn :=
  if length_between 2 120 (bin_title body) && length_between 2 2000 (bin_body body)
     && match bin_department body with Some d => length_between 0 80 d | None => true end
  then Ok body else Err (HTTPException 422 "BroadcastIn").

Record BroadcastOut := mk_BroadcastOut {
  bo_id : UUID;
  bo_title : string;
  bo_target_users : Z;
  bo_push_delivered : Z
}.

(** ** The user list *)

(** SQL's [LIKE]: [%] stands for any text, [_] for any character, [\c] for [c]. *)
Fixpoint like_rest (m : list ascii → bool) (s : list ascii) : bool :=
  m s || match s with [] => false | _ :: s' => like_rest m s' end.
Fixpoint like (p : list ascii) (s : list ascii) {struct p} : bool :=
  match p with
  | [] => match s with [] => true | _ => false end
  | c :: p =>
      if decide (c = "%"%char) then like_rest (like p) s
      else if decide (c = "_"%char) then match s with [] => false | _ :: s => like p s end
      else if decide (c = "\"%char) then
        match p with
        | [] => false
        | e :: p => match s with [] => false | x :: s => bool_decide (x = e) && like p s end
        end
      else match s with [] => false | x :: s => bool_decide (x = c) && like p s end
  end.

(** [column.ilike(pattern)] *)
Definition ilike (s pattern : string) : bool :=
  like (list_ascii_of_string (lower pattern)) (list_ascii_of_string (lower s)).

(** The [WHERE] clauses of [list_users]. *)
Definition in_user_list (department user_status q : option string) (u : User) : bool :=
  (if truthy_opt department then bool_decide (u_department u = department) else true)
  && (if truthy_opt user_status then bool_decide (Some (u_status u) = user_status) else true)
  && (if truthy_opt q then
        let pattern := "%" ++ default "" q ++ "%" in
        ilike (u_full_name u) pattern || ilike (u_phone_number u) pattern
      else true).

(** [list_users]; PostgreSQL refuses a negative [LIMIT], which [le=200] lets through. *)
Definition list_users (department user_status q : option string) (limit offset : Z)
    (admin : User) : prog world (list AdminUserOut) :=
  require_superadmin admin ;;
  ensure (0 <=? limit)%Z (ValueError "LIMIT must not be negative") ;;
  users ← query (λ t, take (Z.to_nat limit) (skipn (Z.to_nat offset)
    (order_by_desc u_created_at (select (users t) (in_user_list department user_status q)))));
  mret (AdminUserOut_of <$> users).

(** ** Suspension *)

(** The row of [target] once the action is done. *)
Definition with_action (suspend : bool) (target : User) : User :=
  if suspend
  then target <| u_status := (SUSPENDED : string) |> <| u_token_version ::= Z.succ |>
  else target <| u_status := (ACTIVE : string) |>.

Definition put_user (u : User) : prog world unit :=
  db_change (λ t, t <| users ::= <[u_id u := u]> |>).

(** [set_user_status] *)
Definition set_user_status (user_id : UUID) (body : SetStatusIn) (admin : User)
    : prog world AdminUserOut :=
  require_superadmin admin ;;
  body ← lift (validate_SetStatusIn body);
  target ← query (λ t, users t !! user_id);
  target ← some_or_raise target (HTTPException 404 "user not found");
  ensure (negb (bool_decide (u_role target = SUPERADMIN) && bool_decide (u_role admin ≠ SUPERADMIN)))
    (HTTPException 403 "cannot modify a superadmin") ;;
  let suspend := bool_decide (ss_action body = "suspend") in
  let target := with_action suspend target in
  put_user target ;;
  action ← (if (suspend : bool) then
              publish (u_id target) (JObj [("type", JStr "account_suspended")]) ;;
              mret USER_SUSPENDED
            else mret USER_REACTIVATED);
  add_audit ((audit (Some (u_id admin)) (action : AuditAction) true)
    <| al_actor_role := Some (u_role admin) |> <| al_resource_type := Some "user" |>
    <| al_resource_id := Some (uuid_str (u_id target)) |>
    <| al_description := Some (ss_reason body) |>) ;;
  commit ;;
  mret (AdminUserOut_of target).

(** ** Live figures *)

(** [sum(media_size_bytes)], where [NULL] counts for nothing. *)
Definition storage_sum (l : list Message) : Z :=
  foldr (λ m acc, (default 0 (m_media_size_bytes m) + acc)%Z) 0%Z l.

(** [live_stats] *)
Definition live_stats (admin : User) : prog world StatsOut :=
  require_superadmin admin ;;
  now ← utcnow;
  let today_start := (date_of now * day)%Z in
  total ← query (λ t, List.length (rows (users t)));
  active ← query (λ t, List.length (select (users t) (λ u, bool_decide (u_status u = ACTIVE))));
  suspended ← query (λ t, List.length (select (users t) (λ u, bool_decide (u_status u = SUSPENDED))));
  messages_today ← query (λ t, List.length (select (messages t)
                                 (λ m, (today_start <=? m_created_at m)%Z)));
  storage ← query (λ t, storage_sum (rows (messages t)));
  online ← online_count;
  mret (mk_StatsOut online (Z.of_nat total) (Z.of_nat active) (Z.of_nat suspended)
          (Z.of_nat messages_today) storage).

(** ** Urgent broadcasts *)

Section Broadcast.
Context (settings : Settings) `{Fcm}.

(** [db.add(broadcast)] with its flush. *)
Definition db_add_broadcast (b : Broadcast) : prog world unit :=
  t ← query id;
  ensure (bool_decide (broadcasts t !! b_id b = None)) (IntegrityError "broadcasts") ;;
  db_change (λ t, t <| broadcasts ::= <[b_id b := b]> |>).

(** The [WHERE] clauses of [target_q]. *)
Definition targeted (department : option string) (u : User) : bool :=
  bool_decide (u_status u = ACTIVE)
  && (if truthy_opt department then bool_decide (u_department u = department) else true).

(** The frame for devices that are connected. *)
Definition broadcast_frame (b : Broadcast) : json :=
  JObj [("type", JStr "broadcast"); ("broadcast_id", JStr (uuid_str (b_id b)));
        ("title", JStr (b_title b)); ("body", JStr (b_body b));
        ("department", jopt (b_department b))].

(** [send_broadcast]; [bid] is the fresh primary key. *)
Definition send_broadcast (bid : UUID) (body : BroadcastIn) (admin : User)
    : prog world BroadcastOut :=
  require_superadmin admin ;;
  body ← lift (validate_BroadcastIn body);
  now ← utcnow;
  let broadcast := mk_Broadcast bid now (bin_title body) (bin_body body) (bin_department body)
                     "urgent" (Some (u_id admin)) in
  db_add_broadcast broadcast ;;
  targets ← query (λ t, select (users t) (targeted (bin_department body)));
  add_audit ((audit (Some (u_id admin)) "admin.broadcast.sent" true)
    <| al_actor_role := Some (u_role admin) |> <| al_resource_type := Some "broadcast" |>
    <| al_resource_id := Some (uuid_str (b_id broadcast)) |>
    <| al_metadata := Some (JObj [("department", jopt (bin_department body));
                                  ("targets", JInt (Z.of_nat (List.length targets)))]) |>) ;;
  commit ;;
  publish_broadcast (broadcast_frame broadcast) ;;
  let tokens := omap (λ u, if truthy_opt (u_fcm_token u) then u_fcm_token u else None) targets in
  delivered ← send_broadcast_push settings tokens (bin_title body) (bin_body body)
                (uuid_str (b_id broadcast));
  mret (mk_BroadcastOut (b_id broadcast) (b_title broadcast)
          (Z.of_nat (List.length targets)) delivered).
End Broadcast.

(** ** Searching *)

Definition wildcard (c : ascii) : bool :=
  bool_decide (c = "%"%char) || bool_decide (c = "_"%char) || bool_decide (c = "\"%char).

Lemma like_rest_iff m s :
  like_rest m s = true ↔ ∃ s1 s2, s = (s1 ++ s2)%list ∧ m s2 = true.
Proof.
  induction s as [|c s IH]; cbn; rewrite orb_true_iff.
  - split; [intros [H|[=]]; by exists [], []|].
    intros (s1 & s2 & E & H). symmetry in E. apply app_nil in E as [-> ->]. by left.
  - rewrite IH. split.
    + intros [H|(s1 & s2 & -> & H)]; [by exists [], (c :: s)|by exists (c :: s1), s2].
    + intros ([|c' s1] & s2 & E & H); cbn in E; [subst s2; by left|].
      injection E as <- ->. right. by exists s1, s2.
Qed.

(** Text without wildcards stands for itself. *)
Lemma like_plain q p s :
  Forall (λ c, wildcard c = false) q →
  like (q ++ p) s = true ↔ ∃ s', s = (q ++ s')%list ∧ like p s' = true.
Proof.
  intros Hq. revert s. induction Hq as [|c q Hc _ IH]; intros s.
  - split; [intros H; by exists s|by intros (s' & -> & H)].
  - unfold wildcard in Hc. rewrite !orb_false_iff, !bool_decide_eq_false in Hc.
    destruct Hc as [[H1 H2] H3]. cbn [like app].
    rewrite !decide_False by done. destruct s as [|x s].
    + split; [done|by intros (s' & E & _)].
    + rewrite andb_true_iff, bool_decide_eq_true, IH. split.
      * intros [-> (s' & -> & H)]. by exists s'.
      * intros (s' & [= -> ->] & H). split; [done|by exists s'].
Qed.

Lemma like_infix q s :
  Forall (λ c, wildcard c = false) q →
  like ("%"%char :: q ++ ["%"%char]) s = true ↔ ∃ s1 s2, s = (s1 ++ q ++ s2)%list.
Proof.
  intros Hq. cbn [like]. rewrite decide_True, like_rest_iff by done. split.
  - intros (s1 & s2 & -> & (s3 & -> & _)%like_plain); [by exists s1, s3|done].
  - intros (s1 & s2 & ->). exists s1, (q ++ s2)%list. split; [done|].
    apply like_plain; [done|]. exists s2. split; [done|]. cbn. rewrite decide_True by done.
    apply like_rest_iff. exists s2, []. by rewrite app_nil_r.
Qed.

Lemma list_ascii_app s1 s2 :
  list_ascii_of_string (s1 ++ s2) = (list_ascii_of_string s1 ++ list_ascii_of_string s2)%list.
Proof. induction s1 as [|c s1 IH]; [done|]. rewrite append_cons. cbn. by rewrite IH. Qed.

Lemma lower_app s1 s2 : lower (s1 ++ s2) = lower s1 ++ lower s2.
Proof. unfold lower. induction s1 as [|c s1 IH]; [done|]. rewrite append_cons. cbn. by rewrite append_cons, IH. Qed.

Lemma list_ascii_inj s1 s2 : list_ascii_of_string s1 = list_ascii_of_string s2 → s1 = s2.
Proof. intros H. by rewrite <- (string_of_list_ascii_of_string s1), H, string_of_list_ascii_of_string. Qed.

Lemma wildcard_lower c : wildcard c = false → wildcard (lower_char c) = false.
Proof. destruct c as [[] [] [] [] [] [] [] []]; by vm_compute. Qed.

(** [q] occurs in [s], in whatever case. *)
Definition occurs (q s : string) : Prop := ∃ s1 s2, lower s = s1 ++ lower q ++ s2.

Lemma ilike_occurs q s :
  Forall (λ c, wildcard c = false) (list_ascii_of_string q) →
  ilike s ("%" ++ q ++ "%") = true ↔ occurs q s.
Proof.
  intros Hq. unfold ilike, occurs. rewrite !lower_app, !list_ascii_app.
  change (list_ascii_of_string (lower "%")) with ["%"%char]. cbn [app]. rewrite like_infix.
  - split.
    + intros (s1 & s2 & E). exists (string_of_list_ascii s1), (string_of_list_ascii s2).
      apply list_ascii_inj. by rewrite E, !list_ascii_app, !list_ascii_of_string_of_list_ascii.
    + intros (s1 & s2 & ->). rewrite !list_ascii_app. by eexists _, _.
  - clear s. unfold lower. induction q as [|c q IH]; cbn in *; [done|].
    apply Forall_cons in Hq as [Hc Hq]. constructor; [by apply wildcard_lower|by apply IH].
Qed.

(** The administrators' user list: anyone else is refused; otherwise it is the page
    [offset, offset + limit) of one list, latest accounts first, of exactly the users that
    have the department and the status asked for and whose name or phone number contains the
    text searched for, in whatever case, when that text has no wildcard of [LIKE]. *)
Theorem list_users_spec department user_status q limit offset admin w :
  (0 ≤ limit)%Z → Forall (λ c, wildcard c = false) (list_ascii_of_string q) →
  let r := list_users department user_status (Some q) limit offset admin w in
  if bool_decide (u_role admin = UADMIN) || bool_decide (u_role admin = SUPERADMIN) then
    ∃ all, r = (Ok (AdminUserOut_of <$> take (Z.to_nat limit) (skipn (Z.to_nat offset) all)), w) ∧
      StronglySorted (desc u_created_at) all ∧
      ∀ u, u ∈ all ↔ (∃ k, users (w_tables w) !! k = Some u) ∧
        (∀ d, department = Some d → d ≠ "" → u_department u = Some d) ∧
        (∀ s, user_status = Some s → s ≠ "" → u_status u = s) ∧
        (q ≠ "" → occurs q (u_full_name u) ∨ occurs q (u_phone_number u))
  else r = (Err (HTTPException 403 "superadmin role required"), w).
Proof.
  intros Hl Hq. cbv zeta. unfold list_users, require_superadmin.
  destruct (_ || _); [|done]. rewrite mret_step, (proj2 (Z.leb_le _ _)), ensure_true_step, query_step by done.
  eexists. split; [done|]. split; [apply order_by_desc_sorted|].
  intros u. rewrite order_by_desc_perm, elem_of_select. rewrite Logic.and_comm. f_equiv.
  unfold in_user_list. rewrite !andb_true_iff, Logic.and_assoc. f_equiv; [|f_equiv].
  - destruct department as [[|c d]|]; cbn [truthy_opt truthy]; [naive_solver| |naive_solver].
    rewrite bool_decide_eq_true. naive_solver.
  - destruct user_status as [[|c d]|]; cbn [truthy_opt truthy]; [naive_solver| |naive_solver].
    rewrite bool_decide_eq_true.
    split; [by intros [= E] s [= <-] _|intros E; f_equal; by apply E].
  - destruct q as [|c q]; cbn [truthy_opt truthy default]; [naive_solver|].
    rewrite orb_true_iff, !ilike_occurs by done. naive_solver.
Qed.

(** ** Suspending *)

Definition is_admin (u : User) : Prop := u_role u = UADMIN ∨ u_role u = SUPERADMIN.

Lemma require_superadmin_run {B} u (k : User → prog world B) w :
  (require_superadmin u ≫= k) w =
  if bool_decide (u_role u = UADMIN) || bool_decide (u_role u = SUPERADMIN) then k u w
  else (Err (HTTPException 403 "superadmin role required"), w).
Proof. unfold require_superadmin. by destruct (_ || _). Qed.

Lemma is_admin_true u :
  bool_decide (u_role u = UADMIN) || bool_decide (u_role u = SUPERADMIN) = true ↔ is_admin u.
Proof. unfold is_admin. by rewrite orb_true_iff, !bool_decide_eq_true. Qed.

(** Whom [admin] may act on. *)
Definition may_modify (admin target : User) : Prop :=
  is_admin admin ∧ (u_role target = SUPERADMIN → u_role admin = SUPERADMIN).

(** The audit entry of an action. *)
Definition status_audit (suspend : bool) (user_id : UUID) (reason : string) (admin : User) : AuditLog :=
  (audit (Some (u_id admin)) (if suspend then USER_SUSPENDED else USER_REACTIVATED) true)
    <| al_actor_role := Some (u_role admin) |> <| al_resource_type := Some "user" |>
    <| al_resource_id := Some (uuid_str user_id) |> <| al_description := Some reason |>.

(** The world once the action is done. *)
Definition status_world (suspend : bool) (reason : string) (target admin : User) (w : world) : world :=
  let t := (w_tables w)
    <| users ::= <[u_id target := with_action suspend target]> |>
    <| audit_logs ::= λ l, (l ++ [status_audit suspend (u_id target) reason admin])%list |> in
  w <| w_tables := t |> <| w_committed := t |>
    <| w_outbox ::= λ o, (o ++ if suspend then [(user_channel (u_id target),
                                  JObj [("type", JStr "account_suspended")])] else [])%list |>.

Lemma set_user_status_run user_id body admin target w :
  users (w_tables w) !! user_id = Some target → validate_SetStatusIn body = Ok body →
  may_modify admin target →
  set_user_status user_id body admin w =
  (Ok (AdminUserOut_of (with_action (bool_decide (ss_action body = "suspend")) target)),
   status_world (bool_decide (ss_action body = "suspend")) (ss_reason body) target admin w).
Proof.
  intros Ht Hv [Ha Hs]. unfold set_user_status. rewrite require_superadmin_run.
  rewrite (proj2 (is_admin_true admin) Ha). rewrite Hv. cbn [lift].
  rewrite (step_ok _ _ w body w) by done.
  rewrite query_step, Ht, some_step.
  replace (negb _) with true.
  2: { symmetry. apply negb_true_iff, andb_false_iff. rewrite !bool_decide_eq_false.
       destruct (decide (u_role target = SUPERADMIN)); [right; tauto|by left]. }
  rewrite ensure_true_step. cbv zeta. unfold put_user, publish. rewrite db_change_step.
  destruct (bool_decide _); unfold status_world, with_action; wstep;
    rewrite ?app_nil_r; unfold over; cbn; by rewrite ?app_nil_r.
Qed.

Lemma set_user_status_inv user_id body admin w out w' :
  set_user_status user_id body admin w = (Ok out, w') →
  ∃ target, users (w_tables w) !! user_id = Some target ∧ validate_SetStatusIn body = Ok body ∧
    may_modify admin target.
Proof.
  intros H. unfold set_user_status in H. rewrite require_superadmin_run in H.
  destruct (_ || _) eqn:Ha; [|done]. apply is_admin_true in Ha.
  destruct (validate_SetStatusIn body) as [b|] eqn:Hv; [|done].
  assert (b = body) as -> by (unfold validate_SetStatusIn in Hv; case_match; congruence).
  rewrite (step_ok _ _ w body w), query_step in H by done.
  destruct (users (w_tables w) !! user_id) as [target|] eqn:Ht; [|done]. rewrite some_step in H.
  destruct (negb _) eqn:Hs; [|done]. exists target. split_and!; [done..|].
  split; [done|]. apply negb_true_iff, andb_false_iff in Hs.
  rewrite !bool_decide_eq_false in Hs. intros Hr.
  destruct (decide (u_role admin = SUPERADMIN)); [done|]. naive_solver.
Qed.

Lemma set_user_status_err user_id body admin w e w' :
  set_user_status user_id body admin w = (Err e, w') → w' = w.
Proof.
  intros E. unfold set_user_status in E. rewrite require_superadmin_run in E.
  destruct (_ || _); [|by injection E as _ <-].
  destruct (validate_SetStatusIn body) as [b|]; [|by injection E as _ <-].
  rewrite (step_ok _ _ w b w), query_step in E by done.
  destruct (users (w_tables w) !! user_id) as [target|]; [|by injection E as _ <-].
  rewrite some_step in E. destruct (negb _); [|by injection E as _ <-].
  exfalso. revert E. rewrite ensure_true_step. cbv zeta. unfold put_user, publish.
  rewrite db_change_step. destruct (bool_decide _); by wstep.
Qed.

(** Changing an account's status succeeds exactly for an administrator, a well-formed
    request with its reason, and an existing account that is not a superadmin's unless the
    actor is one; a refused request changes nothing at all; a successful one commits the
    new status of that account alone, one audit entry with actor, action and reason, and -
    when suspending - the notice on the account's own channel. *)
Theorem set_user_status_spec user_id body admin w :
  (∀ k u, users (w_tables w) !! k = Some u → u_id u = k) →
  let '(r, w') := set_user_status user_id body admin w in
  let suspend := bool_decide (ss_action body = "suspend") in
  match r with
  | Ok out => ∃ target, users (w_tables w) !! user_id = Some target ∧ may_modify admin target ∧
      validate_SetStatusIn body = Ok body ∧
      users (w_committed w') = <[user_id := with_action suspend target]> (users (w_tables w)) ∧
      audit_logs (w_committed w') =
        (audit_logs (w_tables w) ++ [status_audit suspend user_id (ss_reason body) admin])%list ∧
      w_outbox w' = (w_outbox w ++ if suspend then [(user_channel user_id,
        JObj [("type", JStr "account_suspended")])] else [])%list
  | Err _ => w' = w ∧
      ∀ target, users (w_tables w) !! user_id = Some target →
        validate_SetStatusIn body = Ok body → ¬ may_modify admin target
  end.
Proof.
  intros Hid. destruct (set_user_status user_id body admin w) as [[out|e] w'] eqn:E; cbv zeta.
  - destruct (set_user_status_inv _ _ _ _ _ _ E) as (target & Ht & Hv & Hm). exists target.
    rewrite (set_user_status_run _ _ _ _ _ Ht Hv Hm) in E. injection E as _ <-.
    unfold status_world. cbn. by rewrite (Hid _ _ Ht).
  - split.
    + by apply set_user_status_err in E.
    + intros target Ht Hv Hm. by rewrite (set_user_status_run _ _ _ _ _ Ht Hv Hm) in E.
Qed.

Section Lockout.
Context (settings : Settings) `{JoseLaws settings}.

(** Suspension locks the account out at once: whatever access token was or will be minted
    for it, authentication fails while it is suspended; and when it is reactivated, every
    token minted before the suspension stays dead. *)
Theorem suspension_locks_out user_id reason admin w out w1 :
  (∀ k u, users (w_tables w) !! k = Some u → u_id u = k) →
  set_user_status user_id (mk_SetStatusIn "suspend" reason) admin w = (Ok out, w1) →
  ∃ target, users (w_tables w) !! user_id = Some target ∧
    (∀ ver role t0 jti,
       get_current_user settings (Some (create_access_token settings user_id ver role t0 jti)) w1
       = (Err CREDENTIALS_ERROR, w1)) ∧
    (∀ reason' admin' out' w2 ver role t0 jti,
       set_user_status user_id (mk_SetStatusIn "activate" reason') admin' w1 = (Ok out', w2) →
       (ver ≤ u_token_version target)%Z →
       get_current_user settings (Some (create_access_token settings user_id ver role t0 jti)) w2
       = (Err CREDENTIALS_ERROR, w2)).
Proof.
  intros Hid E. destruct (set_user_status_inv _ _ _ _ _ _ E) as (target & Ht & Hv & Hm).
  pose proof (Hid _ _ Ht) as Hk. exists target. split; [done|].
  rewrite (set_user_status_run _ _ _ _ _ Ht Hv Hm) in E. injection E as _ <-.
  assert (users (w_tables (status_world true reason target admin w)) !! user_id
    = Some (with_action true target)) as Ht1 by (cbn; by rewrite Hk, lookup_insert_eq).
  split.
  - intros ver role t0 jti. rewrite (current_user_run settings). unfold token_user.
    change (bool_decide _) with true. cbn [ss_reason]. rewrite Ht1.
    rewrite decide_False; [done|]. cbn. by intros (_ & [=] & _).
  - intros reason' admin' out' w2 ver role t0 jti E2 Hver.
    change (bool_decide _) with true in E2. cbn [ss_reason] in E2.
    destruct (set_user_status_inv _ _ _ _ _ _ E2) as (target2 & Ht2 & Hv2 & Hm2).
    rewrite (set_user_status_run _ _ _ _ _ Ht2 Hv2 Hm2) in E2. injection E2 as _ <-.
    rewrite Ht1 in Ht2. injection Ht2 as <-.
    rewrite (current_user_run settings). unfold token_user. cbn. rewrite Hk, lookup_insert_eq.
    rewrite decide_False; [done|]. cbn. lia.
Qed.
End Lockout.

(** ** Broadcasting *)

Section Broadcasting.
Context (settings : Settings) `{Fcm}.

(** The broadcast a request makes. *)
Definition made (bid : UUID) (body : BroadcastIn) (admin : User) (now : timestamp) : Broadcast :=
  mk_Broadcast bid now (bin_title body) (bin_body body) (bin_department body) "urgent"
    (Some (u_id admin)).

(** The device tokens of users. *)
Definition device_tokens (l : list User) : list string :=
  omap (λ u, if truthy_opt (u_fcm_token u) then u_fcm_token u else None) l.

(** Whom a push goes to, and who sees the banner. *)
Lemma elem_of_targets t department u :
  (∀ k u, users t !! k = Some u → u_id u = k) →
  u ∈ select (users t) (targeted department) ↔
  users t !! u_id u = Some u ∧ u_status u = ACTIVE ∧
    ∀ d, department = Some d → d ≠ "" → u_department u = Some d.
Proof.
  intros Hids. rewrite elem_of_select, Logic.and_comm. f_equiv.
  - split; [intros [k Hk]; by rewrite (Hids _ _ Hk)|by eexists].
  - unfold targeted. rewrite andb_true_iff, bool_decide_eq_true. f_equiv.
    destruct department as [[|c d]|]; cbn [truthy_opt truthy]; [naive_solver| |naive_solver].
    rewrite bool_decide_eq_true. naive_solver.
Qed.

Lemma addressed_iff v b :
  addressed v b = true ↔ b_department b = None ∨ b_department b = u_department v.
Proof. unfold addressed. by rewrite orb_true_iff, !bool_decide_eq_true. Qed.

(** The banners once a fresh broadcast is stored. *)
Lemma unacked_insert b t v :
  broadcasts t !! b_id b = None →
  select (<[b_id b := b]> (broadcasts t)) (shown v t) ≡ₚ
  if shown v t b then b :: select (broadcasts t) (shown v t) else select (broadcasts t) (shown v t).
Proof. apply select_insert. Qed.

(** C24. An urgent broadcast by an administrator, with a fresh id: the handler succeeds; the
    broadcast is committed; one frame goes out on the broadcast channel; when Firebase is
    configured and initialised, one push, in batches of one to five hundred tokens, goes to the
    device token of every active user of the department that has one - each user once, in the
    order of the users - and the answer counts the pushes accepted; when it is not, no push
    goes out and the answer counts none; either way the answer counts the users meant; and
    from then on every user whose department it names, or every user when it names none, has
    one more banner, while nobody else's banners change. *)
Theorem send_broadcast_spec bid body admin w :
  is_admin admin → validate_BroadcastIn body = Ok body →
  broadcasts (w_tables w) !! bid = None →
  (∀ k u, users (w_tables w) !! k = Some u → u_id u = k) →
  (∀ k a, broadcast_acks (w_tables w) !! k = Some a → ba_broadcast_id a ≠ bid) →
  let b := made bid body admin (w_now w) in
  ∃ out w' targets, send_broadcast settings bid body admin w = (Ok out, w') ∧
    broadcasts (w_committed w') = <[bid := b]> (broadcasts (w_tables w)) ∧
    w_outbox w' = (w_outbox w ++ [(BROADCAST_CHANNEL, broadcast_frame b)])%list ∧
    NoDup (u_id <$> targets) ∧
    (∀ u, u ∈ targets ↔ users (w_tables w) !! u_id u = Some u ∧ u_status u = ACTIVE ∧
       ∀ d, bin_department body = Some d → d ≠ "" → u_department u = Some d) ∧
    bo_target_users out = Z.of_nat (List.length targets) ∧
    (∃ batches, w_pushes w' = (w_pushes w ++ batches)%list ∧
       (if ensure_init settings
        then List.concat (p_tokens <$> batches) = device_tokens targets ∧
             bo_push_delivered out
             = Z.of_nat (List.length (List.filter (λ t, negb (fcm_rejects t)) (device_tokens targets)))
        else batches = [] ∧ bo_push_delivered out = 0%Z) ∧
       Forall (λ p, (1 ≤ List.length (p_tokens p) ≤ 500)%nat ∧ p_title p = bin_title body
                  ∧ p_body p = take_str 120 (bin_body body)
                  ∧ p_data p = [("kind", "broadcast"); ("broadcast_id", uuid_str bid)]) batches) ∧
    ∀ v, ∃ items items', unacked_broadcasts v w = (Ok items, w) ∧
      unacked_broadcasts v w' = (Ok items', w') ∧
      items' ≡ₚ if decide (bin_department body = None ∨ bin_department body = u_department v)
                then BroadcastItemOut_of b :: items else items.
Proof.
  intros Ha Hv Hb Hids Hacks. cbv zeta. unfold send_broadcast.
  rewrite require_superadmin_run, (proj2 (is_admin_true admin) Ha), Hv. cbn [lift].
  rewrite (step_ok _ _ w body w), utcnow_step by done. cbv zeta.
  fold (made bid body admin (w_now w)). set (b := made bid body admin (w_now w)).
  unfold db_add_broadcast. rewrite step_assoc, query_step. cbn [id].
  rewrite bool_decide_eq_true_2 by exact Hb. rewrite step_assoc, ensure_true_step.
  rewrite db_change_step, query_step, add_audit_step, commit_step.
  unfold publish_broadcast. rewrite redis_publish_step.
  change (omap _ ?l) with (device_tokens l).
  match goal with |- context [(send_broadcast_push _ ?tk ?ti ?bo ?bi ≫= _) ?w1] =>
    destruct (send_broadcast_push_run settings tk ti bo bi w1) as (batches & n & Hr & Hbatches)
  end.
  rewrite (step_ok _ _ _ _ _ Hr). eexists _, _, _. split; [reflexivity|].
  split_and!; [done|done|by apply NoDup_select|intros u; by apply elem_of_targets|done|by exists batches|].
  intros v. eexists _, _. split; [apply unacked_run|]. split; [apply unacked_run|].
  etrans; [apply fmap_Permutation; etrans;
    [apply order_by_desc_perm|exact (unacked_insert b (w_tables w) v Hb)]|].
  replace (shown v (w_tables w) b) with (addressed v b).
  - assert (∀ l, BroadcastItemOut_of <$> l ≡ₚ BroadcastItemOut_of <$> order_by_desc b_created_at l)
      as Hp by (intros l; apply fmap_Permutation; symmetry; apply order_by_desc_perm).
    pose proof (addressed_iff v b) as Hav. change (b_department b) with (bin_department body) in Hav.
    case_decide as Hd.
    + rewrite (proj2 Hav Hd). cbn [fmap list_fmap]. by apply perm_skip.
    + destruct (addressed v b); [by destruct Hd; apply Hav|apply Hp].
  - apply eq_true_iff_eq. rewrite shown_iff. split; [|tauto]. intros Had. split; [|done].
    unfold acked. apply scalar_None. intros k a Hk. apply not_true_iff_false.
    intros [E _]%ack_of_iff. by apply (Hacks k a Hk).
Qed.
End Broadcasting.

Module Desk.
Definition member (n : nat) : User := (Banner.user n) <| u_role := (SOLDIER : string) |>
  <| u_fcm_token := Some "token" |>.
Definition tables0 : tables :=
  empty_tables <| users := {[uid 7 := Banner.user 7; uid 8 := member 8]} |>.
Definition world0 : world := (empty_world 5) <| w_tables := tables0 |> <| w_committed := tables0 |>.
Definition suspend : SetStatusIn := mk_SetStatusIn "suspend" "lost device".
Definition fcm : Fcm := {| firebase_init_ok := true; fcm_rejects _ := false |}.
Definition drill : BroadcastIn := mk_BroadcastIn "Drill" "At noon" (Some "ops").

Lemma ids k u : users tables0 !! k = Some u → u_id u = k.
Proof.
  change (users tables0) with ({[uid 7 := Banner.user 7; uid 8 := member 8]} : gmap UUID User).
  by intros [[<- <-]|[_ [<- <-]%lookup_singleton_Some]]%lookup_insert_Some.
Qed.
End Desk.

Lemma list_users_spec_witness :
  ∃ all, list_users (Some "ops") (Some "active") (Some "u") 50 0 (Banner.user 7) Desk.world0
         = (Ok (AdminUserOut_of <$> take 50 all), Desk.world0) ∧ Desk.member 8 ∈ all.
Proof.
  destruct (list_users_spec (Some "ops") (Some "active") "u" 50 0 (Banner.user 7) Desk.world0)
    as (all & E & _ & Hall); [done|by repeat constructor|].
  exists all. split; [exact E|]. apply Hall. split; [by exists (uid 8)|].
  split; [by intros d [= <-] _|]. split; [by intros s [= <-] _|].
  intros _. left. by exists "", "".
Defined.

Lemma set_user_status_spec_witness :
  ∃ w', set_user_status (uid 8) Desk.suspend (Banner.user 7) Desk.world0
    = (Ok (AdminUserOut_of (with_action true (Desk.member 8))), w') ∧
    users (w_committed w') !! uid 8 = Some (with_action true (Desk.member 8)).
Proof.
  pose proof (set_user_status_spec (uid 8) Desk.suspend (Banner.user 7) Desk.world0 Desk.ids) as H.
  assert ((set_user_status (uid 8) Desk.suspend (Banner.user 7) Desk.world0).1
    = Ok (AdminUserOut_of (with_action true (Desk.member 8)))) as E by (vm_compute; reflexivity).
  destruct (set_user_status _ _ _ _) as [r w']. cbn [fst] in E. subst r.
  destruct H as (target & Ht & _ & _ & Hu & _). exists w'. split; [reflexivity|].
  rewrite Hu, lookup_insert_eq. change (Some (Desk.member 8) = Some target) in Ht.
  injection Ht as <-. reflexivity.
Defined.

Lemma suspension_locks_out_witness :
  ∃ w1, (set_user_status (uid 8) Desk.suspend (Banner.user 7) Desk.world0).2 = w1 ∧
    (@get_current_user default_settings Toy.jose
      (Some (@create_access_token default_settings Toy.jose (uid 8) 1 "soldier" 0 "jti")) w1).1
    = Err CREDENTIALS_ERROR.
Proof.
  destruct (is_ok_run (set_user_status (uid 8) Desk.suspend (Banner.user 7)) Desk.world0)
    as (out & w1 & E); [by vm_compute|].
  exists w1. split; [by rewrite E|].
  destruct (@suspension_locks_out default_settings Toy.jose (Toy.jose_laws _) (uid 8) "lost device"
    (Banner.user 7) Desk.world0 out w1 Desk.ids E) as (_ & _ & Hdead & _).
  by rewrite Hdead.
Defined.

Lemma send_broadcast_spec_witness :
  let settings := default_settings <| FIREBASE_CREDENTIALS_FILE := "firebase.json" |> in
  ∃ out w', @send_broadcast settings Desk.fcm (uid 50) Desk.drill (Banner.user 7)
      Desk.world0 = (Ok out, w') ∧
    List.concat (p_tokens <$> w_pushes w') = ["token"] ∧
    ∃ item, unacked_broadcasts (Desk.member 8) w' = (Ok [item], w').
Proof.
  intros settings.
  destruct (@send_broadcast_spec settings Desk.fcm (uid 50) Desk.drill (Banner.user 7)
    Desk.world0) as (out & w' & targets & E & _ & _ & Hnd & Hin & Hn & (batches & Hp & Hb & _) & Hv).
  - by left.
  - reflexivity.
  - reflexivity.
  - exact Desk.ids.
  - intros k a Hk. discriminate Hk.
  - exists out, w'. split; [exact E|]. split.
    + replace (w_pushes w') with ((@send_broadcast settings Desk.fcm (uid 50) Desk.drill (Banner.user 7)
        Desk.world0).2.(w_pushes)) by (by rewrite E).
      vm_compute. reflexivity.
    + destruct (Hv (Desk.member 8)) as (items & items' & E1 & E2 & Hi).
      injection E1 as E1. vm_compute in E1. subst items.
      rewrite E2. eexists. f_equal. f_equal. apply Permutation_singleton_r, Hi.
Defined.
