(* ===== verification/Receipts.v ===== *)
(** [app/api/routes/receipts.py]: delivery and reading receipts, and typing, over HTTP. *)

From S2P Require Import Prelude Effects PyStr Uuid Redis Models World Pubsub Config Storage.
From S2P Require Import Messages WsManager.
From Stdlib Require Import String.

Local Open Scope string_scope.

(** [_verify_chat_participant] *)
Definition verify_chat_participant (message_id user_id : UUID)
    : prog world (UUID * option UUID * option UUID) :=
  msg ← query (λ t, messages t !! message_id);
  msg ← some_or_raise msg (HTTPException 404 "Message not found");
  participant ← query (is_participant msg user_id);
  ensure participant (HTTPException 403 "Not a participant of this chat") ;;
  mret (m_id msg, m_sender_id msg,
        match m_group_id msg with Some _ => None | None => m_recipient_id msg end).

(** Whether the user is the recipient of a direct message, or a member of the group. *)
Definition is_recipient (msg : Message) (user_id : UUID) (t : tables) : bool :=
  match m_group_id msg with
  | None => bool_decide (m_recipient_id msg = Some user_id)
  | Some gid =>
      bool_decide (is_Some (scalar (group_members t)
        (λ m, bool_decide (gm_group_id m = gid) && bool_decide (gm_user_id m = user_id))))
  end.

Definition NOT_RECIPIENT : exn :=
  HTTPException 403 "You are not the recipient of this message".

(** The message [mark_message_delivered] selects. *)
Definition deliverable (chat_id message_id : UUID) (user : User) (t : tables) : option Message :=
  match messages t !! message_id with
  | Some m =>
      if (bool_decide (m_recipient_id m = Some (u_id user)) && bool_decide (m_group_id m = None))
         || (bool_decide (m_group_id m = Some chat_id) && bool_decide (m_recipient_id m = None))
      then Some m else None
  | None => None
  end.

(** The sender's channel: [str(None)] is ["None"]. *)
Definition notify_sender (chat_id message_id : UUID) (sender : option UUID) : prog world unit :=
  match sender with
  | Some s => broadcast_delivered chat_id message_id s
  | None => redis_publish "chan:user:None"
      (JObj [("type", JStr "delivered"); ("message_id", JStr (uuid_str message_id))])
  end.

(** [mark_message_delivered] *)
Definition mark_message_delivered (chat_id message_id : UUID) (current_user : User)
    : prog world unit :=
  session_local
    (msg ← query (deliverable chat_id message_id current_user);
     msg ← some_or_raise msg (HTTPException 404 "Message not found or not in this chat");
     r ← query (is_recipient msg (u_id current_user));
     ensure r NOT_RECIPIENT ;;
     updated ← mark_delivered message_id (u_id current_user);
     updated ← some_or_raise updated (HTTPException 304 "Already delivered or read");
     notify_sender chat_id message_id (m_sender_id updated)).

(** [mark_message_read] *)
Definition mark_message_read (chat_id message_id : UUID) (current_user : User)
    : prog world unit :=
  session_local
    (msg ← query (λ t, messages t !! message_id);
     msg ← some_or_raise msg (HTTPException 404 "Message not found");
     r ← query (is_recipient msg (u_id current_user));
     ensure r NOT_RECIPIENT ;;
     updated ← mark_read message_id (u_id current_user);
     updated ← some_or_raise updated (HTTPException 304 "Already read");
     broadcast_read chat_id message_id (u_id current_user)).

(** A direct message between two users exists. *)
Definition direct_chat (a b : UUID) (t : tables) : bool :=
  bool_decide (is_Some (scalar (messages t) (λ m,
    (bool_decide (m_sender_id m = Some a) && bool_decide (m_recipient_id m = Some b)
     || bool_decide (m_sender_id m = Some b) && bool_decide (m_recipient_id m = Some a))
    && bool_decide (m_group_id m = None)))).

(** [update_typing] *)
Definition update_typing (chat_id : UUID) (typing : bool) (current_user : User)
    : prog world unit :=
  session_local
    (group ← query (λ t, groups t !! chat_id);
     (match group with
      | Some _ =>
          member ← query (λ t, scalar (group_members t) (λ m,
            bool_decide (gm_group_id m = chat_id) && bool_decide (gm_user_id m = u_id current_user)));
          ensure (bool_decide (member ≠ None)) (HTTPException 403 "Not a member of this group")
      | None =>
          exists_ ← query (direct_chat (u_id current_user) chat_id);
          ensure exists_ (HTTPException 403 "No direct chat with this user")
      end) ;;
     broadcast_typing chat_id (u_id current_user) typing).

(** ** Properties *)

(** The recipient of a message takes part in its chat: [mark_delivered] and [mark_read]
    never refuse him, and the 304 of the routes is never sent. *)
Lemma recipient_participant m u t : is_recipient m u t = true → is_participant m u t = true.
Proof.
  unfold is_recipient, is_participant. destruct (m_group_id m); [done|].
  intros ->. by rewrite orb_true_r.
Qed.

(** Whom a reading is told to: the members of the group the URL names, or else the other
    party of the message. *)
Definition told_of_reading (chat_id : UUID) (m : Message) (reader : UUID) (t : tables)
    : list (option UUID) :=
  match groups t !! chat_id with
  | Some _ => (λ x, Some (gm_user_id x)) <$>
                select (group_members t) (λ x, bool_decide (gm_group_id x = chat_id))
  | None => [if bool_decide (m_recipient_id m = Some reader) then m_sender_id m
             else m_recipient_id m]
  end.
Definition channel_of (p : option UUID) : string :=
  "chan:user:" ++ match p with Some u => uuid_str u | None => "None" end.
Definition read_frame (mid : UUID) : json :=
  JObj [("type", JStr "read"); ("message_id", JStr (uuid_str mid))].

Lemma for_each_publish {A} (ch : A → string) p (l : list A) w :
  for_each (λ x, redis_publish (ch x) p) l w
  = (Ok tt, w <| w_outbox ::= λ o, (o ++ ((λ x, (ch x, p)) <$> l))%list |>).
Proof.
  revert w. induction l as [|x l IH]; intros w.
  - cbn. unfold over. cbn. rewrite app_nil_r. by destruct w.
  - cbn [for_each]. unfold bind. cbn [redis_publish modify]. unfold redis_publish, modify.
    fold (redis_publish (ch x) p). rewrite IH. unfold over. cbn. by rewrite <- app_assoc.
Qed.

Lemma broadcast_read_run chat_id mid reader m w :
  messages (w_tables w) !! mid = Some m →
  broadcast_read chat_id mid reader w
  = (Ok tt, w <| w_outbox ::= λ o, (o ++ ((λ p, (channel_of p, read_frame mid)) <$>
       told_of_reading chat_id m reader (w_tables w)))%list |>).
Proof.
  intros Hm. unfold broadcast_read, told_of_reading. rewrite query_step.
  destruct (groups (w_tables w) !! chat_id).
  - rewrite step_assoc, query_step, mret_step. apply (for_each_publish channel_of).
  - rewrite step_assoc, query_step, mret_step, Hm. apply (for_each_publish channel_of).
Qed.

(** What reading a message leaves in its row. *)
Definition after_reading (m : Message) (now : timestamp) : Message :=
  if bool_decide (m_status m ≠ READ) then read_message m now else m.

Lemma mark_read_run mid u m w :
  messages (w_tables w) !! mid = Some m → m_id m = mid → is_participant m u (w_tables w) = true →
  w_committed w = w_tables w →
  ∃ w', mark_read mid u w = (Ok (Some (after_reading m (w_now w))), w') ∧
    w_committed w' = w_tables w' ∧ w_outbox w' = w_outbox w ∧
    messages (w_tables w') = <[mid := after_reading m (w_now w)]> (messages (w_tables w)) ∧
    groups (w_tables w') = groups (w_tables w) ∧
    group_members (w_tables w') = group_members (w_tables w).
Proof.
  intros Hm Hid Hp Hc. unfold mark_read, after_reading.
  rewrite query_step, Hm, query_step, Hp. cbn [negb]. case_bool_decide as Hs.
  - rewrite utcnow_step. unfold put_message. rewrite db_change_step, commit_step.
    eexists. split; [done|]. cbn. by rewrite (proj1 (read_message_parties m (w_now w))), Hid.
  - exists w. by rewrite insert_id.
Qed.

Lemma told_of_reading_ext chat_id m m' reader t t' :
  groups t' = groups t → group_members t' = group_members t →
  m_sender_id m' = m_sender_id m → m_recipient_id m' = m_recipient_id m →
  told_of_reading chat_id m' reader t' = told_of_reading chat_id m reader t.
Proof. unfold told_of_reading. by intros -> -> -> ->. Qed.

(** Reading receipts over HTTP: an unknown message is 404 and a message to someone else
    403, and nothing changes; otherwise the message is read - the first time with its
    reading time, later without a change, and never answered 304 - and the notice goes to
    every member of the group the URL names when there is such a group, whatever group
    or user the message was sent to, and else to the other party of the message. *)
Theorem read_receipt_spec chat_id mid user w :
  (∀ m, messages (w_committed w) !! mid = Some m → m_id m = mid) →
  let t := w_committed w in
  let '(r, w') := mark_message_read chat_id mid user w in
  match messages t !! mid with
  | None => r = Err (HTTPException 404 "Message not found") ∧ w' = w <| w_tables := t |>
  | Some m =>
      if is_recipient m (u_id user) t then
        r = Ok tt ∧
        messages (w_committed w') = <[mid := after_reading m (w_now w)]> (messages t) ∧
        w_outbox w' = (w_outbox w ++ ((λ p, (channel_of p, read_frame mid)) <$>
                         told_of_reading chat_id m (u_id user) t))%list
      else r = Err NOT_RECIPIENT ∧ w' = w <| w_tables := t |>
  end.
Proof.
  intros Hid. cbv zeta. unfold mark_message_read. set (w0 := w <| w_tables := w_committed w |>).
  destruct (session_local _ w) as [r w'] eqn:E.
  erewrite session_local_run in E by (fold w0; apply surjective_pairing). fold w0 in E.
  rewrite query_step in E. change (messages (w_tables w0)) with (messages (w_committed w)) in E.
  destruct (messages (w_committed w) !! mid) as [m|] eqn:Hm.
  2: { rewrite none_step in E. by injection E as <- <-. }
  rewrite some_step, query_step in E.
  change (is_recipient m (u_id user) (w_tables w0))
    with (is_recipient m (u_id user) (w_committed w)) in E.
  destruct (is_recipient m (u_id user) (w_committed w)) eqn:Hr.
  2: { rewrite ensure_false_step in E. by injection E as <- <-. }
  rewrite ensure_true_step in E.
  destruct (mark_read_run mid (u_id user) m w0 Hm (Hid m eq_refl)
    (recipient_participant _ _ _ Hr) eq_refl) as (w1 & E1 & Hc & Ho & HM & HG & HGM).
  rewrite (step_ok _ _ _ _ _ E1), some_step in E.
  set (m1 := after_reading m (w_now w0)) in *.
  rewrite (broadcast_read_run chat_id mid (u_id user) m1 w1) in E
    by by rewrite HM, lookup_insert_eq.
  injection E as <- <-. split; [done|]. cbn. split; [by rewrite Hc, HM|]. rewrite Ho.
  do 2 f_equal. assert (m_sender_id m1 = m_sender_id m ∧ m_recipient_id m1 = m_recipient_id m)
    as [Hs1 Hs2] by (subst m1; unfold after_reading; case_bool_decide; [apply read_message_parties|done]).
  by apply told_of_reading_ext.
Qed.

Module Note.
Definition message : Message :=
  new_message (uid 100) 0 (uid 7) (Some (uid 8)) None "text" (Some "hi") None None None.
Definition tables0 : tables := Chat.tables0 <| messages := {[uid 100 := message]} |>.
Definition world0 : world := (empty_world 5) <| w_tables := tables0 |> <| w_committed := tables0 |>.
End Note.

Lemma read_receipt_spec_witness :
  ∃ w', mark_message_read (uid 7) (uid 100) (Chat.user 8) Note.world0 = (Ok tt, w') ∧
    w_outbox w' = [(user_channel (uid 7), read_frame (uid 100))].
Proof.
  pose proof (read_receipt_spec (uid 7) (uid 100) (Chat.user 8) Note.world0) as H.
  cbv zeta in H. change (messages (w_committed Note.world0) !! uid 100) with (Some Note.message) in H.
  change (is_recipient Note.message _ _) with true in H.
  change (told_of_reading (uid 7) Note.message _ _) with [Some (uid 7)] in H.
  destruct (mark_message_read _ _ _ _) as [r w'].
  destruct H as (-> & _ & Ho); [by intros m [= <-]|]. exists w'. split; [reflexivity|exact Ho].
Defined.
