(* ===== verification/Ocr.v ===== *)
(** [app/ocr.py], [app/redis.py], [app/api/routes/ocr.py], [app/push.py] and the background
    task [_process_ocr] of [app/api/routes/media.py]: keyword alerts on uploaded files. *)

From S2P Require Import Prelude Effects PyStr Uuid Redis Models Json World Config Storage.
From S2P Require Import Media Push.
From Stdlib Require Import Ascii String.

Local Open Scope string_scope.

(** ** Texts *)

(** [re.sub(r'[^a-z0-9\s]', ' ', text)] *)
Definition is_alnum (c : ascii) : bool := is_lower c || is_digit c.
Definition blank_punctuation (c : ascii) : ascii :=
  if is_alnum c || is_space c then c else " "%char.

(** [re.sub(r'\s+', ' ', text)]; [prev] says that the run has its space already. *)
Fixpoint collapse (prev : bool) (s : string) : string :=
  match s with
  | EmptyString => ""
  | String c s' =>
      if is_space c then (if prev then collapse true s' else String " " (collapse true s'))
      else String c (collapse false s')
  end.

Definition normalize_text (text : string) : string :=
  let text := lower text in
  let text := str_map blank_punctuation text in
  strip (collapse false text).

(** The extraction libraries: Tesseract, PyPDF2, python-docx and openpyxl, on the contents
    of a file, and Python's UTF-8 decoder that ignores errors; [None] when they raise. *)
Class Extractors := {
  image_to_string : list byte → option string;
  pdf_pages : list byte → option (list string);
  docx_paragraphs : list byte → option (list string);
  xlsx_rows : list byte → option (list (list (option string)));
  decode_utf8 : list byte → string
}.

Definition newline : string := String "010" "".

Section Extract.
Context `{Extractors}.

(** [extract_text] *)
Definition extract_text (file : list byte) (mime_type : string) : string :=
  default ""
    (if startswith "image/" mime_type then image_to_string file
     else if bool_decide (mime_type = "application/pdf") then join newline <$> pdf_pages file
     else if bool_decide (mime_type ∈
       ["application/vnd.openxmlformats-officedocument.wordprocessingml.document";
        "application/msword"]) then join newline <$> docx_paragraphs file
     else if bool_decide (mime_type ∈
       ["application/vnd.openxmlformats-officedocument.spreadsheetml.sheet";
        "application/vnd.ms-excel"]) then
       (λ rows, join newline (List.filter truthy ((λ row, join " " (omap id row)) <$> rows)))
         <$> xlsx_rows file
     else if startswith "text/" mime_type then Some (decode_utf8 file)
     else Some "").
End Extract.

Definition words (s : string) : gset string := list_to_set (split_ws s).

(** [contains_keywords] *)
Definition contains_keywords (text : string) (keywords : gset string) : bool :=
  negb (bool_decide (words (normalize_text text) ∩ keywords = ∅)).

(** ** Keywords and alerts in Redis, database 0 *)

Definition keywords_key (user_id : string) : string := "user:" ++ user_id ++ ":ocr_keywords".

(** [get_user_keywords], which [load_user_keywords] calls *)
Definition get_user_keywords (user_id : string) : prog world (gset string) :=
  try_except (redis_pubsub (redis_smembers (keywords_key user_id))) (λ _, mret ∅).
Definition load_user_keywords : string → prog world (gset string) := get_user_keywords.

(** [set_user_keywords] *)
Definition set_user_keywords (user_id : string) (keywords : gset string) : prog world bool :=
  try_except
    (redis_pubsub (redis_delete [keywords_key user_id]) ;;
     (if decide (keywords = ∅) then mret tt
      else redis_pubsub (redis_sadd (keywords_key user_id) keywords) ;; mret tt) ;;
     mret true)
    (λ _, mret false).

(** [publish_ocr_alert] *)
Definition publish_ocr_alert (file_id user_id keyword : string) : prog world bool :=
  try_except
    (redis_publish "ocr:alerts" (JObj [("file_id", JStr file_id); ("user_id", JStr user_id);
       ("keyword", JStr keyword)]) ;;
     mret true)
    (λ _, mret false).

Definition alert_key (file_id : string) : string := "ocr:alert:" ++ file_id.

(** [set_alert_flag] *)
Definition set_alert_flag (file_id : string) (ttl : Z) : prog world bool :=
  try_except (redis_pubsub (redis_set (alert_key file_id) "1" (Some ttl)) ;; mret true)
    (λ _, mret false).

(** ** The background task *)

Section Process.
Context `{Extractors}.

(** [_process_ocr]. The module imports neither [normalize_text] nor [logging]: both names
    are unbound when the task reads them. The temporary file is removed in every case. *)
Definition process_ocr (task : OcrTask) : prog world unit :=
  try_except
    (let text := extract_text (ot_file_bytes task) (ot_mime_type task) in
     if negb (truthy text) then mret tt
     else
       keywords ← load_user_keywords (ot_user_id task);
       if decide (keywords = ∅) then mret tt
       else
         normalized ← raise (NameError "normalize_text");
         match List.find (λ kw, str_in kw normalized) (elements keywords) with
         | Some kw =>
             if truthy kw then
               publish_ocr_alert (ot_media_key task) (ot_user_id task) kw ;;
               set_alert_flag (ot_media_key task) 300 ;;
               mret tt
             else mret tt
         | None => mret tt
         end)
    (λ _, raise (NameError "logger")).
End Process.

(** ** The routes: each awaits what is no coroutine, after the call was made *)

(** [get_ocr_keywords] *)
Definition get_ocr_keywords (current_user : User) : prog world (list string) :=
  get_user_keywords (uuid_str (u_id current_user)) ;; raise TypeError.

(** [[k.strip().lower() for k in payload.keywords if k.strip()]] *)
Definition normalized_keywords (keywords : list string) : list string :=
  (λ k, lower (strip k)) <$> List.filter (λ k, truthy (strip k)) keywords.

(** [set_ocr_keywords] *)
Definition set_ocr_keywords (keywords : list string) (current_user : User)
    : prog world (list string) :=
  set_user_keywords (uuid_str (u_id current_user)) (list_to_set (normalized_keywords keywords)) ;;
  raise TypeError.

(** [delete_ocr_keywords] *)
Definition delete_ocr_keywords (current_user : User) : prog world unit :=
  set_user_keywords (uuid_str (u_id current_user)) ∅ ;; raise TypeError.

(** ** Pushing an alert *)

(** The environment variables Firebase needs. *)
Record firebase_env := mk_firebase_env {
  FIREBASE_PROJECT_ID : option string;
  FIREBASE_CLIENT_EMAIL : option string;
  FIREBASE_PRIVATE_KEY : option string
}.

Definition set_var (v : option string) : bool :=
  match v with Some s => truthy s | None => false end.

Section PushAlert.
Context `{Fcm} (env : firebase_env).

(** [_initialize_firebase] *)
Definition initialize_firebase : bool :=
  set_var (FIREBASE_PROJECT_ID env) && set_var (FIREBASE_CLIENT_EMAIL env)
  && set_var (FIREBASE_PRIVATE_KEY env) && firebase_init_ok.

(** [_get_fcm_token]; [user_id] is compared with a UUID column. *)
Definition get_fcm_token (user_id : string) : prog world (option string) :=
  session_local
    (query (λ t, uuid ← uuid_parse user_id; u ← users t !! uuid; u_fcm_token u)).

(** [send_ocr_push] *)
Definition send_ocr_push (user_id file_id keyword : string) : prog world unit :=
  if negb initialize_firebase then mret tt
  else
    token ← get_fcm_token user_id;
    match token with
    | Some token =>
        if truthy token then
          try_except
            (ensure (negb (fcm_rejects token)) (StorageError "messaging.send") ;;
             fcm_send (mk_push [token] "" ""
               [("type", "ocr_alert"); ("file_id", file_id); ("keyword", keyword)]))
            (λ _, mret tt)
        else mret tt
    | None => mret tt
    end.
End PushAlert.

(** ** Facts *)

(** Words of [a-z0-9] separated by single spaces; [prev] says a space came before. *)
Fixpoint tidy (prev : bool) (s : string) : Prop :=
  match s with
  | EmptyString => True
  | String c s' =>
      (c = " "%char ∧ prev = false ∧ tidy true s') ∨ (is_alnum c = true ∧ tidy false s')
  end.

Lemma tidy_weaken b s : tidy b s → tidy false s.
Proof. destruct s; cbn; naive_solver. Qed.

Lemma alnum_char c :
  is_alnum c = true → lower_char c = c ∧ blank_punctuation c = c ∧ is_space c = false.
Proof.
  unfold is_alnum. intros H. destruct c as [[] [] [] [] [] [] [] []]; try discriminate H; done.
Qed.

Lemma blanked_char c :
  is_space (blank_punctuation c) = true ∨ is_alnum (blank_punctuation c) = true.
Proof.
  unfold blank_punctuation. destruct (is_alnum c) eqn:Ha; [right; exact Ha|].
  destruct (is_space c) eqn:Hs; cbn; by left.
Qed.

Lemma collapse_tidy b s : tidy b (collapse b (str_map blank_punctuation s)).
Proof.
  revert b. induction s as [|c s IH]; intros b; [done|]. cbn [str_map collapse].
  destruct (blanked_char c) as [Hc|Hc].
  - rewrite Hc. destruct b; [apply IH|]. cbn. left. split_and!; [done|done|apply IH].
  - destruct (alnum_char _ Hc) as (_ & _ & ->). cbn. right. split; [done|apply IH].
Qed.

Lemma lstrip_tidy b s : tidy b s → tidy false (lstrip is_space s).
Proof.
  revert b. induction s as [|c s IH]; intros b H; [done|]. cbn [lstrip].
  destruct (is_space c) eqn:Hc; [|by apply tidy_weaken with b].
  destruct H as [(_ & _ & H)|[Ha _]]; [by eapply IH|].
  destruct (alnum_char _ Ha) as (_ & _ & ?). congruence.
Qed.

Lemma rstrip_tidy b s : tidy b s → tidy b (rstrip is_space s).
Proof.
  revert b. induction s as [|c s IH]; intros b H; [done|]. cbn [rstrip].
  destruct H as [(-> & -> & H)|[Ha H]]; specialize (IH _ H).
  - destruct (rstrip is_space s) eqn:E; cbn; [done|]. left. done.
  - destruct (alnum_char _ Ha) as (_ & _ & Hs). destruct (rstrip is_space s) eqn:E.
    + rewrite Hs. cbn. by right.
    + cbn. by right.
Qed.

Lemma tidy_fixed b s :
  tidy b s → collapse b (str_map blank_punctuation (lower s)) = s.
Proof.
  unfold lower. revert b. induction s as [|c s IH]; intros b H; [done|].
  cbn [str_map collapse]. destruct H as [(-> & -> & H)|[Ha H]].
  - change (blank_punctuation (lower_char " ")) with " "%char.
    change (is_space " ") with true. by rewrite IH.
  - destruct (alnum_char _ Ha) as (-> & -> & ->). by rewrite IH.
Qed.

Lemma normalize_tidy t : tidy false (normalize_text t) ∧ strip (normalize_text t) = normalize_text t.
Proof.
  unfold normalize_text. split; [|apply strip_idem]. unfold strip, strip_chars.
  eapply rstrip_tidy, lstrip_tidy, collapse_tidy.
Qed.

(** The words of a tidy text are of [a-z0-9]. *)
Definition keyword (k : string) : Prop := truthy k = true ∧ str_all is_alnum k = true.

Lemma split_go_tidy cur b s w :
  str_all is_alnum cur = true → tidy b s → w ∈ split_go cur s → keyword w.
Proof.
  revert cur b. induction s as [|c s IH]; intros cur b Hcur H; cbn [split_go].
  - destruct (truthy cur) eqn:E; [|by intros []%elem_of_nil].
    intros ->%list_elem_of_singleton. by split.
  - destruct H as [(-> & _ & H)|[Ha H]].
    + change (is_space " ") with true. cbn iota. destruct (truthy cur) eqn:E.
      * intros [->|Hw]%elem_of_cons; [by split|]. revert Hw. by apply (IH _ true).
      * by apply (IH _ true).
    + destruct (alnum_char _ Ha) as (_ & _ & ->). apply (IH _ false); [|done].
      rewrite str_all_app, Hcur. cbn. by rewrite Ha.
Qed.

(** ** Properties *)

(** Normalisation is canonical: its result is words of [a-z0-9] separated by single
    spaces, normalising again changes nothing, and a text matches a set of keywords exactly
    when one of them is a word of its normal form. So a keyword with any other character -
    blanks and punctuation are kept when keywords are stored - never matches. *)
Theorem normalize_text_spec text keywords :
  tidy false (normalize_text text) ∧
  normalize_text (normalize_text text) = normalize_text text ∧
  (contains_keywords text keywords = true ↔
     ∃ k, k ∈ keywords ∧ k ∈ split_ws (normalize_text text)) ∧
  (contains_keywords text keywords = true → ∃ k, k ∈ keywords ∧ keyword k).
Proof.
  destruct (normalize_tidy text) as [Ht Hs].
  assert (contains_keywords text keywords = true ↔
     ∃ k, k ∈ keywords ∧ k ∈ split_ws (normalize_text text)) as Hc.
  { unfold contains_keywords, words. rewrite negb_true_iff, bool_decide_eq_false. split.
    - intros [k Hk]%set_choose_L. exists k. set_solver.
    - intros (k & H1 & H2) E.
      assert (k ∈ (list_to_set (split_ws (normalize_text text)) ∩ keywords : gset string)) as Hin;
        [|by rewrite E in Hin].
      apply elem_of_intersection. split; [by apply elem_of_list_to_set|done]. }
  split; [done|]. split; [|split; [done|]].
  - unfold normalize_text at 1. rewrite (tidy_fixed false) by done. exact Hs.
  - intros (k & H1 & H2)%Hc. exists k. split; [done|].
    by apply (split_go_tidy "" false (normalize_text text)).
Qed.

Lemma get_user_keywords_reads u w : ∃ ks, get_user_keywords u w = (Ok ks, w).
Proof.
  unfold get_user_keywords, redis_pubsub, zoom, try_except. redis_run. cbn [rs_db rs_now].
  destruct (live _ _ _) as [[[] e]|]; eexists; by destruct w.
Qed.

(** No alert is ever sent: whatever the file says and whichever keywords its owner has,
    the background task publishes nothing, raises no flag and changes nothing at all; it
    ends in a [NameError] as soon as there is text to look at and a keyword to look for. *)
Theorem process_ocr_never_alerts `{Extractors} task w :
  ∃ keywords, get_user_keywords (ot_user_id task) w = (Ok keywords, w) ∧
    process_ocr task w
    = ((if negb (truthy (extract_text (ot_file_bytes task) (ot_mime_type task)))
           || bool_decide (keywords = ∅)
        then Ok tt else Err (NameError "logger")), w).
Proof.
  destruct (get_user_keywords_reads (ot_user_id task) w) as [ks E]. exists ks. split; [done|].
  unfold process_ocr, try_except. destruct (truthy _) eqn:Ht; cbn [negb orb]; [|done].
  unfold load_user_keywords. rewrite (step_ok _ _ _ _ _ E).
  case_bool_decide as Hk; [by rewrite decide_True|by rewrite decide_False].
Qed.

(** What was stored is what is read, whatever the key held before. *)
Lemma set_get_keywords u ks w :
  ∃ w', set_user_keywords u ks w = (Ok true, w') ∧ get_user_keywords u w' = (Ok ks, w').
Proof.
  set (k := keywords_key u).
  set (w1 := w <| w_pubsub ::= delete k |>).
  assert (∃ n, redis_pubsub (redis_delete [k]) w = (Ok n, w1)) as [n E1].
  { unfold redis_pubsub, zoom. redis_run. by eexists. }
  assert (live (w_now w1) (w_pubsub w1) k = None) as Hk by apply live_delete_eq.
  clearbody w1.
  unfold set_user_keywords, get_user_keywords, try_except. fold k.
  rewrite (step_ok _ _ _ _ _ E1). case_decide as Hks.
  - subst ks. rewrite mret_step. exists w1. split; [done|].
    unfold redis_pubsub, zoom. redis_run. cbn [rs_db rs_now]. rewrite Hk. by destruct w1.
  - set (w2 := w1 <| w_pubsub ::= <[k := mk_entry (RSet ks) None]> |>).
    assert (∃ n, redis_pubsub (redis_sadd k ks) w1 = (Ok n, w2)) as [n2 E2].
    { unfold redis_pubsub, zoom. redis_run. cbn [rs_db rs_now]. rewrite Hk.
      rewrite union_empty_l_L, decide_False by done. cbn. rewrite Hk. by eexists. }
    assert (live (w_now w2) (w_pubsub w2) k = Some (mk_entry (RSet ks) None)) as Hk2
      by (unfold live; cbn; by rewrite lookup_insert_eq).
    clearbody w2. rewrite step_assoc, (step_ok _ _ _ _ _ E2), mret_step.
    exists w2. split; [done|].
    unfold redis_pubsub, zoom. redis_run. cbn [rs_db rs_now]. rewrite Hk2. by destruct w2.
Qed.

(** Storing keywords takes effect and fails: the set is replaced by the stripped,
    lower-case forms of the keywords that are not blank, and is what is read from then on;
    the route then awaits a boolean and answers with an error. *)
Theorem set_ocr_keywords_effect kws user w :
  ∃ w', set_ocr_keywords kws user w = (Err TypeError, w') ∧
    get_user_keywords (uuid_str (u_id user)) w'
    = (Ok (list_to_set (normalized_keywords kws)), w').
Proof.
  destruct (set_get_keywords (uuid_str (u_id user)) (list_to_set (normalized_keywords kws)) w)
    as (w' & E & Hr). exists w'. split; [|done].
  unfold set_ocr_keywords. by rewrite (step_ok _ _ _ _ _ E).
Qed.
