(* ===== verification/WebSocket.v ===== *)
(** [app/api/routes/websocket.py]: the chat socket - ticket, frames, relay. *)

From S2P Require Import Prelude Effects PyStr Uuid Redis Models Schemas World Pubsub Config.
From S2P Require Import Security Otp Auth Storage Messages WsManager Push.
From stdpp Require Import pretty.
From Stdlib Require Import String.

Local Open Scope string_scope.

(** [_uuid_or_none]: [UUID(str(value))]. The text of a list or an object holds a
    bracket or a quote, or is too short: it is no UUID; neither are [None] and the
    booleans. *)
Definition uuid_or_none (value : option json) : option UUID :=
  match value with
  | Some (JStr s) => uuid_parse s
  | Some (JInt z) => uuid_parse (pretty z)
  | _ => None
  end.

(** A value of a frame bound to a text column: anything but a text or [null] is
    rejected by the driver. *)
Definition text_field (v : option json) : res (option string) :=
  match v with
  | None | Some JNull => Ok None
  | Some (JStr s) => Ok (Some s)
  | _ => Err TypeError
  end.

(** [destruct_after]: [timedelta] and the integer column take a number. *)
Definition int_field (v : option json) : res (option Z) :=
  match v with
  | None | Some JNull => Ok None
  | Some (JInt z) => Ok (Some z)
  | Some (JBool b) => Ok (Some (if b then 1 else 0)%Z)
  | _ => Err TypeError
  end.

(** [frame.get(key)] copied into another frame. *)
Definition copied (v : option json) : json := default JNull v.

(** [v == s] for a value of a frame and a text. *)
Definition json_is (v : option json) (s : string) : bool :=
  match v with Some (JStr s') => String.eqb s' s | _ => false end.

(** An incoming frame: text that is not JSON, or a document. *)
Inductive ws_event :=
| Garbage
| Frame (doc : json).

Section WebSocket.
Context (settings : Settings) `{Fcm}.
Context (repr : json → string).       (* [str] of a value that is not a text *)

Definition str_of (v : option json) : string :=
  match v with
  | Some (JStr s) => s
  | None => repr JNull
  | Some v => repr v
  end.

Definition error_frame (text : string) : json :=
  JObj [("type", JStr "error"); ("detail", JStr text)].

(** [_handle_frame]; [mid] is the id a stored message would get. *)
Definition handle_frame (user_id : UUID) (connection_id : string) (mid : UUID)
    (frame : list (string * json)) : prog world unit :=
  let frame_type := json_get "type" frame in
  let is_type := json_is frame_type in
  if is_type "ping" then
    heartbeat connection_id ;;
    send_json connection_id (JObj [("type", JStr "pong")])
  else if is_type "presence" then
    n ← online_count;
    send_json connection_id (JObj [("type", JStr "presence"); ("online_users", JInt n)])
  else if is_type "typing_start" || is_type "typing_stop" then
    match uuid_or_none (json_get "to" frame) with
    | None => mret tt
    | Some to => publish to (JObj [("type", copied frame_type); ("from", JStr (uuid_str user_id))])
    end
  else if is_type "text" || is_type "image" || is_type "file" then
    match uuid_or_none (json_get "to" frame) with
    | None => send_json connection_id (error_frame "missing/invalid 'to'")
    | Some to =>
        msg ← session_local
          (content ← lift (text_field (json_get "content" frame));
           media_key ← lift (text_field (json_get "media_key" frame));
           media_mime ← lift (text_field (json_get "media_mime" frame));
           destruct_after ← lift (int_field (json_get "destruct_after" frame));
           msg ← save_message mid user_id (Some to) None (str_of frame_type) content media_key
                   media_mime destruct_after;
           online ← is_online to;
           (if (online : bool) then mret tt
            else
              recipient ← query (λ t, users t !! to);
              sender ← query (λ t, users t !! user_id);
              match recipient, sender with
              | Some recipient, Some sender =>
                  match u_fcm_token recipient with
                  | Some token =>
                      if truthy token then
                        let preview := if truthy_opt content then default "" content
                                       else "[" ++ str_of frame_type ++ "]" in
                        send_message_push settings token (u_full_name sender) preview
                          (uuid_str user_id)
                      else mret tt
                  | None => mret tt
                  end
              | _, _ => mret tt
              end) ;;
           mret msg);
        send_json connection_id (JObj [("type", JStr "ack");
          ("client_ref", copied (json_get "client_ref" frame));
          ("message_id", JStr (uuid_str (m_id msg)));
          ("created_at", JStr (isoformat (m_created_at msg)))]) ;;
        publish to (JObj [("type", JStr "message");
          ("message_id", JStr (uuid_str (m_id msg)));
          ("message_type", copied frame_type);
          ("from", JStr (uuid_str user_id));
          ("content", copied (json_get "content" frame));
          ("media_key", copied (json_get "media_key" frame));
          ("media_mime", copied (json_get "media_mime" frame));
          ("created_at", JStr (isoformat (m_created_at msg)))])
    end
  else if is_type "message_delivered" || is_type "message_read" then
    match uuid_or_none (json_get "message_id" frame) with
    | None => mret tt
    | Some message_id =>
        msg ← session_local (if is_type "message_delivered"
                             then mark_delivered message_id user_id
                             else mark_read message_id user_id);
        match msg ≫= m_sender_id with
        | Some sender => publish sender (JObj [("type", JStr "receipt");
            ("message_id", JStr (uuid_str message_id));
            ("status", JStr (if is_type "message_read" then "read" else "delivered"))])
        | None => mret tt
        end
    end
  else if is_type "unsend" then
    match uuid_or_none (json_get "message_id" frame) with
    | None => mret tt
    | Some message_id =>
        msg ← session_local (try_except
          (msg ← unsend_message message_id user_id; mret (Some msg))
          (λ e, match e with
                | UnsendDenied text => send_json connection_id (error_frame text) ;; mret None
                | _ => raise e
                end));
        match msg with
        | None => mret tt
        | Some msg =>
            let event := JObj [("type", JStr "unsend"); ("message_id", JStr (uuid_str message_id))] in
            (match m_recipient_id msg with Some r => publish r event | None => mret tt end) ;;
            publish user_id event
        end
    end
  else send_json connection_id (error_frame ("unsupported frame type: " ++ str_of frame_type)).

(** One turn of the receive loop. [frame.get] fails on a document that is no object. *)
Definition on_event (user_id : UUID) (connection_id : string) (ev : UUID * ws_event)
    : prog world unit :=
  let '(mid, ev) := ev in
  match ev with
  | Garbage => send_json connection_id (error_frame "invalid JSON frame")
  | Frame (JObj frame) => handle_frame user_id connection_id mid frame
  | Frame _ => raise AttributeError
  end.

(** How a socket ends: refused with 1008, or served and closed. *)
Inductive closed := Refused | Served.

(** [chat_socket]: the client presents [ticket], sends [events] and disconnects. An
    exception of a handler ends the loop; the registry entry is removed either way.
    The relay task is [relay_item]. *)
Definition chat_socket (t connection_id : string) (events : list (UUID * ws_event))
    : prog world closed :=
  ensure (length_between 16 64 t) (HTTPException 403 "ticket") ;;
  user_id_raw ← redis_sessions (redis_getdel (ticket_key t));
  match user_id_raw with
  | None => mret Refused
  | Some user_id_raw =>
      user_id ← some_or_raise (uuid_parse user_id_raw)
        (ValueError "badly formed hexadecimal UUID string");
      connection_id ← register user_id connection_id;
      try_finally
        (n ← online_count;
         now ← utcnow;
         send_json connection_id (JObj [("type", JStr "welcome");
           ("connection_id", JStr connection_id); ("online_users", JInt n);
           ("server_time", JStr (isoformat now))]) ;;
         for_each (on_event user_id connection_id) events ;;
         mret Served)
        (unregister user_id connection_id)
  end.

(** [_relay_loop]: one published item, subscribed to on [channel], for the socket of
    [user_id]. Both branches of the code send it. *)
Definition relay_item (user_id : UUID) (connection_id : string) (item : string * json)
    : prog world unit :=
  let '(channel, frame) := item in
  if bool_decide (channel = user_channel user_id) || bool_decide (channel = BROADCAST_CHANNEL)
  then send_json connection_id frame
  else mret tt.
End WebSocket.

(** ** What a handler may say, and as whom *)

(** A published frame that names a sender names [user_id]. *)
Definition from_self (user_id : UUID) (item : string * json) : Prop :=
  ∀ fields v, item.2 = JObj fields → json_get "from" fields = Some v → v = JStr (uuid_str user_id).

(** The sender stored under a key, in the session or committed. *)
Definition stored_sender (w : world) (k : UUID) (s : option UUID) : Prop :=
  m_sender_id <$> messages (w_tables w) !! k = Some s ∨
  m_sender_id <$> messages (w_committed w) !! k = Some s.

(** Rows are stored under their id. *)
Definition keyed (w : world) : Prop :=
  ∀ k m, messages (w_tables w) !! k = Some m ∨ messages (w_committed w) !! k = Some m → m_id m = k.

(** The clock and the sessions database are as they were, the keys [K] aside. *)
Definition sessions_kept (K : gset string) (w w' : world) : Prop :=
  w_now w' = w_now w ∧ ∀ k, k ∉ K → w_sessions w' !! k = w_sessions w !! k.
#[global] Instance sessions_kept_pre K : PreOrder (sessions_kept K).
Proof.
  split; [done|]. intros w1 w2 w3 [N1 H1] [N2 H2]. split; [congruence|].
  intros k Hk. by rewrite H2, H1.
Qed.

(** From [w] to [w'] only [user_id] has spoken, through the socket [c] only, and in Redis
    only that socket's own entry is touched. *)
Definition spoke (user_id : UUID) (c : string) (w w' : world) : Prop :=
  keyed w → keyed w' ∧
  (∃ o, w_outbox w' = (w_outbox w ++ o)%list ∧ Forall (from_self user_id) o) ∧
  (∃ s, w_sent w' = (w_sent w ++ s)%list ∧ Forall (λ x, x.1 = c) s) ∧
  (∀ k s, stored_sender w' k s → s = Some user_id ∨ stored_sender w k s) ∧
  sessions_kept {[conn_key c]} w w'.

Definition speaks (user_id : UUID) (c : string) {A} (m : prog world A) : Prop :=
  ∀ w, spoke user_id c w (m w).2.

Section Speaks.
Context (u : UUID) (c : string).

#[local] Instance spoke_refl : Reflexive (spoke u c).
Proof.
  intros w Hw. split_and!; [done|exists []|exists []|by right|done]; by rewrite app_nil_r.
Qed.
#[local] Instance spoke_trans : Transitive (spoke u c).
Proof.
  intros w1 w2 w3 H12 H23 Hw1.
  destruct (H12 Hw1) as (Hw2 & (o1 & H1 & F1) & (s1 & G1 & E1) & M1 & K1).
  destruct (H23 Hw2) as (Hw3 & (o2 & H2 & F2) & (s2 & G2 & E2) & M2 & K2).
  split_and!; [done| | | |by etrans].
  - exists (o1 ++ o2)%list. rewrite H2, H1, app_assoc. split; [done|]. by apply Forall_app.
  - exists (s1 ++ s2)%list. rewrite G2, G1, app_assoc. split; [done|]. by apply Forall_app.
  - intros k s [?|?]%M2; [by left|by apply M1].
Qed.

(** Changes that say nothing. *)
Lemma spoke_silent w w' :
  w_outbox w' = w_outbox w → w_sent w' = w_sent w → (keyed w → keyed w') →
  (∀ k s, stored_sender w' k s → s = Some u ∨ stored_sender w k s) →
  sessions_kept {[conn_key c]} w w' → spoke u c w w'.
Proof.
  intros Ho Hs Hk Hm Hr Hw. split_and!; [auto|exists []|exists []|done|done]; by rewrite app_nil_r.
Qed.

Lemma speaks_bind {A B} (m : prog world A) (k : A → prog world B) :
  speaks u c m → (∀ a, speaks u c (k a)) → speaks u c (m ≫= k).
Proof.
  intros Hm Hk w. unfold mbind, prog_bind, bind. specialize (Hm w).
  destruct (m w) as [[a|e] w1]; [|done]. etrans; [exact Hm|apply Hk].
Qed.
Lemma speaks_pure {A} (m : prog world A) : (∀ w, (m w).2 = w) → speaks u c m.
Proof. intros Hm w. by rewrite Hm. Qed.
Lemma redis_sessions_kept {A} K (m : prog rstate A) w :
  framed K m → sessions_kept K w (redis_sessions m w).2.
Proof.
  intros Hm. unfold redis_sessions, zoom. specialize (Hm (mk_rstate (w_now w) (w_sessions w))).
  destruct (m _) as [r s']. split; [done|apply Hm].
Qed.
Lemma speaks_sessions {A} (m : prog rstate A) :
  framed {[conn_key c]} m → speaks u c (redis_sessions m).
Proof.
  intros Hm w. pose proof (redis_sessions_kept _ m w Hm) as Hk. revert Hk.
  unfold redis_sessions, zoom. destruct (m _). intros Hk. by apply spoke_silent; [..|right|].
Qed.
Lemma speaks_send f : speaks u c (send_json c f).
Proof.
  intros w Hw. split_and!; [done|exists []; by rewrite app_nil_r| |by right|done].
  exists [(c, f)]. split; [done|]. by constructor.
Qed.
Lemma speaks_publish v p : from_self u (user_channel v, p) → speaks u c (publish v p).
Proof.
  intros Hp w Hw. split_and!; [done| |exists []; by rewrite app_nil_r|by right|done].
  exists [(user_channel v, p)]. split; [done|]. by constructor.
Qed.
Lemma speaks_fcm p : speaks u c (fcm_send p).
Proof. intros w. by apply spoke_silent; [..|right|]. Qed.
Lemma speaks_rollback : speaks u c rollback.
Proof.
  intros w. apply spoke_silent; [done|done| | |done].
  - intros Hw k m [H|H]; apply Hw; by right.
  - intros k s [H|H]; right; by right.
Qed.
Lemma speaks_commit : speaks u c commit.
Proof.
  intros w. apply spoke_silent; [done|done| | |done].
  - intros Hw k m [H|H]; apply Hw; by left.
  - intros k s [H|H]; right; by left.
Qed.
Lemma speaks_finally {A} (m : prog world A) f :
  speaks u c m → speaks u c f → speaks u c (try_finally m f).
Proof.
  intros Hm Hf w. unfold try_finally. specialize (Hm w). destruct (m w) as [r w1].
  specialize (Hf w1). destruct (f w1) as [[] w2]; (etrans; [exact Hm|exact Hf]).
Qed.
Lemma speaks_except {A} (m : prog world A) h :
  speaks u c m → (∀ e, speaks u c (h e)) → speaks u c (try_except m h).
Proof.
  intros Hm Hh w. unfold try_except. specialize (Hm w). destruct (m w) as [[a|e] w1]; [done|].
  etrans; [exact Hm|apply Hh].
Qed.
Lemma speaks_session {A} (m : prog world A) : speaks u c m → speaks u c (session_local m).
Proof.
  intros Hm. apply speaks_bind; [apply speaks_rollback|]. intros _.
  by apply speaks_finally; [|apply speaks_rollback].
Qed.

(** Storing a message under its id: a new one of the user's, or a newer version. *)
Lemma spoke_put m w :
  m_sender_id m = Some u ∨ stored_sender w (m_id m) (m_sender_id m) →
  spoke u c w (put_message m w).2.
Proof.
  intros Hm. apply spoke_silent; [done|done| | |done].
  { intros Hw k m' [H|H]; [|apply Hw; by right]. cbn in H.
    apply lookup_insert_Some in H as [[<- <-]|[_ H]]; [done|apply Hw; by left]. }
  intros k s [H|H]; [|right; by right]. cbn in H. destruct (decide (k = m_id m)) as [->|Hne].
  - rewrite lookup_insert_eq in H. injection H as <-. naive_solver.
  - rewrite lookup_insert_ne in H by done. right. by left.
Qed.

Lemma speaks_save mid recipient gid ty content media mime after :
  speaks u c (save_message mid u recipient gid ty content media mime after).
Proof.
  intros w. unfold save_message, db_add_message. wstep.
  destruct (row_fits _); wstep; [|done]. destruct (_ && _); wstep; [|done].
  etrans; [|apply speaks_commit].
  apply (spoke_put (new_message mid _ _ _ _ _ _ _ _ _) w). by left.
Qed.

(** A newer version of a stored message. *)
Lemma spoke_update k m m' w :
  keyed w → messages (w_tables w) !! k = Some m → m_id m' = m_id m →
  m_sender_id m' = m_sender_id m → spoke u c w ((put_message m' ;; commit) w).2.
Proof.
  intros Hw Hm Hid Hs. etrans; [|apply speaks_commit]. apply (spoke_put m' w). right. left.
  rewrite Hid, (Hw k m) by by left. by rewrite Hm, Hs.
Qed.

Lemma speaks_delivered mid user_id : speaks u c (mark_delivered mid user_id).
Proof.
  intros w Hw. unfold mark_delivered. wstep.
  destruct (messages (w_tables w) !! mid) as [m|] eqn:Em; [|by apply spoke_refl]. wstep.
  destruct (negb _); [by apply spoke_refl|]. case_bool_decide; [|by apply spoke_refl]. wstep.
  by apply (spoke_update mid m (m <| m_delivered_at := Some (w_now w) |>) w Hw Em).
Qed.

Lemma speaks_read mid user_id : speaks u c (mark_read mid user_id).
Proof.
  intros w Hw. unfold mark_read. wstep.
  destruct (messages (w_tables w) !! mid) as [m|] eqn:Em; [|by apply spoke_refl]. wstep.
  destruct (negb _); [by apply spoke_refl|]. case_bool_decide; [|by apply spoke_refl]. wstep.
  destruct (read_message_parties m (w_now w)) as (? & ? & _).
  by apply (spoke_update mid m (read_message m (w_now w)) w Hw Em).
Qed.

Lemma speaks_unsend mid user_id : speaks u c (unsend_message mid user_id).
Proof.
  intros w Hw. unfold unsend_message. wstep.
  destruct (messages (w_tables w) !! mid) as [m|] eqn:Em; [|by apply spoke_refl]. cbn.
  case_decide; [|by apply spoke_refl]. wstep. destruct (negb _); wstep; [|by apply spoke_refl].
  by apply (spoke_update mid m (unsent m (w_now w)) w Hw Em).
Qed.
End Speaks.

Create HintDb speaks.
#[export] Hint Resolve speaks_send speaks_fcm speaks_rollback speaks_commit
  speaks_session speaks_save speaks_delivered speaks_read speaks_unsend : speaks.

Section Frames.
Context (settings : Settings) `{Fcm} (repr : json → string) (u : UUID) (c : string).

Ltac solve_speaks :=
  repeat lazymatch goal with
  | |- speaks _ _ (_ ≫= _) => apply speaks_bind; [|intros]
  | |- speaks _ _ (session_local _) => apply speaks_session
  | |- speaks _ _ (try_except _ _) => apply speaks_except; [|intros]
  | |- speaks _ _ (publish _ _) => apply speaks_publish; intros ?? [= <-]; cbn; by intros [= <-]
  | |- speaks _ _ (match _ with _ => _ end) => case_match
  | |- speaks _ _ (let _ := _ in _) => cbv zeta
  | |- _ => first [solve [eauto with speaks] | solve [by apply speaks_pure] | idtac]
  end.

Lemma speaks_push token name preview peer : speaks u c (send_message_push settings token name preview peer).
Proof.
  unfold send_message_push. case_match; [by apply speaks_pure|].
  apply speaks_bind; [|eauto with speaks]. apply speaks_pure. intros w.
  unfold ensure. by case_match.
Qed.
#[local] Hint Resolve speaks_push : speaks.

Lemma handle_frame_speaks mid frame : speaks u c (handle_frame settings repr u c mid frame).
Proof.
  unfold handle_frame, heartbeat, online_count, is_online. solve_speaks; apply speaks_sessions;
    unfold redis_scard, redis_sismember, look_set; solve_framed.
Qed.

(** C13. Nobody speaks for another: whatever frame a client sends, every frame the
    server publishes for it names, if anyone, that client's user as its sender; every
    message stored anew has that user as its sender; and only that client's own socket
    is written to. *)
Theorem handle_frame_as_self mid frame w :
  keyed w →
  let w' := (handle_frame settings repr u c mid frame w).2 in
  (∃ o, w_outbox w' = (w_outbox w ++ o)%list ∧ Forall (from_self u) o) ∧
  (∃ s, w_sent w' = (w_sent w ++ s)%list ∧ Forall (λ x, x.1 = c) s) ∧
  ∀ k s, stored_sender w' k s → s = Some u ∨ stored_sender w k s.
Proof. intros Hw. by destruct (handle_frame_speaks mid frame w Hw) as (_ & ? & ? & ? & _). Qed.

(** ** A content message, end to end *)

(** The frame a stored message is relayed as, and its acknowledgement. *)
Definition relayed (frame : list (string * json)) (msg : Message) : json :=
  JObj [("type", JStr "message");
    ("message_id", JStr (uuid_str (m_id msg)));
    ("message_type", copied (json_get "type" frame));
    ("from", JStr (uuid_str u));
    ("content", copied (json_get "content" frame));
    ("media_key", copied (json_get "media_key" frame));
    ("media_mime", copied (json_get "media_mime" frame));
    ("created_at", JStr (isoformat (m_created_at msg)))].
Definition acked (frame : list (string * json)) (msg : Message) : json :=
  JObj [("type", JStr "ack"); ("client_ref", copied (json_get "client_ref" frame));
    ("message_id", JStr (uuid_str (m_id msg)));
    ("created_at", JStr (isoformat (m_created_at msg)))].

(** The notification, when the recipient is away and can get one. *)
Definition away_push (online : bool) (t : tables) (to : UUID) (ty : string)
    (content : option string) : list push :=
  match users t !! to, users t !! u with
  | Some recipient, Some sender =>
      match u_fcm_token recipient with
      | Some token =>
          if negb online && truthy token && ensure_init settings
          then [mk_push [token] (u_full_name sender)
                  (take_str 80 (if truthy_opt content then default "" content
                                else "[" ++ ty ++ "]"))
                  [("kind", "dm"); ("peer_id", uuid_str u)]]
          else []
      | None => []
      end
  | _, _ => []
  end.

Lemma pushes_nil w : w = w <| w_pushes ::= λ l, (l ++ [])%list |>.
Proof. unfold over. cbn. rewrite app_nil_r. by destruct w. Qed.

(** The notification block of the handler. *)
Lemma away_push_run online to ty content w :
  (∀ token, fcm_rejects token = false) →
  (if (online : bool) then mret tt
   else
     recipient ← query (λ t, users t !! to);
     sender ← query (λ t, users t !! u);
     match recipient, sender with
     | Some recipient, Some sender =>
         match u_fcm_token recipient with
         | Some token =>
             if truthy token then
               let preview := if truthy_opt content then default "" content
                              else "[" ++ ty ++ "]" in
               send_message_push settings token (u_full_name sender) preview (uuid_str u)
             else mret tt
         | None => mret tt
         end
     | _, _ => mret tt
     end) w
  = (Ok tt, w <| w_pushes ::= λ l, (l ++ away_push online (w_tables w) to ty content)%list |>).
Proof.
  intros Hf. unfold away_push. destruct online.
  { rewrite pushes_nil at 1. by repeat case_match. }
  wstep. destruct (users (w_tables w) !! to) as [r|]; [|by rewrite pushes_nil at 1].
  destruct (users (w_tables w) !! u) as [s|]; [|by rewrite pushes_nil at 1].
  destruct (u_fcm_token r) as [token|]; [|by rewrite pushes_nil at 1].
  destruct (truthy token); [|by rewrite pushes_nil at 1]. unfold send_message_push.
  destruct (ensure_init settings); cbn [negb andb]; [|by rewrite pushes_nil at 1].
  rewrite Hf. cbn [negb]. by wstep.
Qed.

(** C14. A content frame - of type text, image or file - end to end: from a stored user to a stored recipient, with texts
    and a delay where they belong and no longer than their columns, a fresh message id and a sound presence registry, and
    while Firebase rejects no device token, the message is stored and committed exactly as
    sent, by the socket's user, at this instant - type, content, media, MIME type and delay
    those of the frame, marked self-destructing exactly when the frame has a delay, its timer
    the sending time plus a delay other than 0 - and no other message changes; the socket gets
    one acknowledgement with its id and time; the recipient's channel, and no other, gets the
    message with the same id and content; and one push goes out exactly when the recipient has
    no device connected, has a push token, and Firebase is up. *)
Theorem content_frame_spec mid frame ty to content media mime after C w :
  json_get "type" frame = Some (JStr ty) → ty ∈ ["text"; "image"; "file"] →
  uuid_or_none (json_get "to" frame) = Some to →
  text_field (json_get "content" frame) = Ok content →
  text_field (json_get "media_key" frame) = Ok media →
  text_field (json_get "media_mime" frame) = Ok mime →
  int_field (json_get "destruct_after" frame) = Ok after → int4 after = true →
  varchar 500 media = true → varchar 100 mime = true →
  is_Some (users (w_committed w) !! u) → is_Some (users (w_committed w) !! to) →
  messages (w_committed w) !! mid = None →
  reg_world C w → (∀ token, fcm_rejects token = false) →
  ∃ msg w', handle_frame settings repr u c mid frame w = (Ok tt, w') ∧
    messages (w_committed w') = <[mid := msg]> (messages (w_committed w)) ∧
    m_id msg = mid ∧ m_sender_id msg = Some u ∧ m_recipient_id msg = Some to ∧
    m_group_id msg = None ∧ m_message_type msg = ty ∧ m_content_ciphertext msg = content ∧
    m_media_object_key msg = media ∧ m_media_mime_type msg = mime ∧
    m_destruct_after_seconds msg = after ∧ m_is_self_destruct msg = bool_decide (after ≠ None) ∧
    m_destruct_at msg = match after with
                        | Some d => if decide (d = 0)%Z then None else Some (w_now w + seconds d)%Z
                        | None => None
                        end ∧
    m_is_destructed msg = false ∧ m_deleted_for_everyone msg = false ∧
    m_created_at msg = w_now w ∧ m_status msg = SENT ∧
    w_sent w' = (w_sent w ++ [(c, acked frame msg)])%list ∧
    w_outbox w' = (w_outbox w ++ [(user_channel to, relayed frame msg)])%list ∧
    w_pushes w' = (w_pushes w ++ away_push (bool_decide (to ∈ dom C)) (w_committed w) to ty content)%list.
Proof.
  intros Hty Hin Hto Hc Hm Hmi Ha H4 Hvm Hvi Hu Hr Hmid HC Hfcm.
  assert (∀ s, json_is (json_get "type" frame) s = String.eqb ty s) as His by (intros s; by rewrite Hty).
  set (w0 := w <| w_tables := w_committed w |>).
  set (msg := new_message mid (w_now w) u (Some to) None ty content media mime after).
  set (t1 := (w_committed w) <| messages ::= <[mid := msg]> |>).
  set (w1 := w0 <| w_tables := t1 |> <| w_committed := t1 |>).
  set (w2 := w1 <| w_pushes ::= λ l, (l ++ away_push (bool_decide (to ∈ dom C)) t1 to ty content)%list |>).
  exists msg. eexists. split.
  - unfold handle_frame. rewrite !His, Hto, Hc, Hm, Hmi, Ha.
    unfold str_of at 1. rewrite Hty.
    rewrite !(elem_of_cons), elem_of_nil in Hin.
    assert (String.eqb ty "ping" = false ∧ String.eqb ty "presence" = false ∧
      String.eqb ty "typing_start" || String.eqb ty "typing_stop" = false ∧
      String.eqb ty "text" || String.eqb ty "image" || String.eqb ty "file" = true)
      as (-> & -> & -> & ->) by (by destruct Hin as [->|[->|[->|[]]]]).
    rewrite (step_ok _ _ w msg (w2 <| w_tables := w_committed w2 |>)).
    2: { apply session_local_run. fold w0. unfold lift.
         rewrite !(step_ok _ _ w0 _ w0 (eq_refl _)).
         change (str_of repr (Some (JStr ty))) with ty.
         assert (save_message mid u (Some to) None ty content media mime after w0 = (Ok msg, w1)) as Hs.
         { apply save_message_run; [| |done].
           - unfold row_fits. cbn [new_message m_destruct_after_seconds m_message_type m_media_object_key
               m_media_mime_type]. rewrite H4, Hvm, Hvi.
             by destruct Hin as [->|[->|[->|[]]]].
           - cbn. rewrite !bool_decide_true by done. done. }
         rewrite (step_ok _ _ _ _ _ Hs).
         assert (reg_world C w1) as HC1 by exact HC.
         rewrite (step_ok _ _ _ _ _ (is_online_world C to w1 HC1)).
         rewrite (step_ok _ _ _ _ _ (away_push_run _ to ty content w1 Hfcm)). reflexivity. }
    unfold publish. wstep. reflexivity.
  - split_and!; try done; unfold relayed; by rewrite Hty.
Qed.
End Frames.

(** ** Tickets *)

Section Tickets.
Context (settings : Settings) `{Fcm} (repr : json → string).

Definition reg_keys (u : UUID) (c : string) : gset string := {[conn_key c; user_key u; online_key]}.

Lemma register_framed u c : framed (reg_keys u c) (register_redis u c).
Proof.
  unfold register_redis, redis_sadd, look_set, put_set, reg_keys. solve_framed.
Qed.

Lemma unregister_framed u c : framed (reg_keys u c) (unregister_redis u c).
Proof.
  unfold unregister_redis, unregister_pipe, redis_srem, redis_scard, look_set, put_set, reg_keys.
  solve_framed.
Qed.

Lemma ticket_not_reg u c t : ticket_key t ∉ reg_keys u c.
Proof. unfold reg_keys. rewrite !not_elem_of_union, !not_elem_of_singleton. by split_and!; intros [=]. Qed.

(** Registering and unregistering, on the world: the registry moves, the clock and the
    other keys of the sessions database do not, and nobody is written to. *)
Record unheard (w w' : world) : Prop := {
  uh_outbox : w_outbox w' = w_outbox w;
  uh_sent : w_sent w' = w_sent w;
  uh_tables : w_tables w' = w_tables w;
  uh_committed : w_committed w' = w_committed w
}.

Lemma register_world C u c w :
  reg_world C w → ∃ w', register u c w = (Ok c, w') ∧ reg_world (connect C u c) w' ∧
    sessions_kept (reg_keys u c) w w' ∧ unheard w w'.
Proof.
  intros Hr. set (w0 := w <| w_local ::= <[c := u]> |>).
  destruct (register_run C u c (mk_rstate (w_now w0) (w_sessions w0)) Hr) as ([n db] & Hs & Hn & Hr').
  pose proof (register_framed u c (mk_rstate (w_now w0) (w_sessions w0))) as Hf. rewrite Hs in Hf.
  eexists. unfold register. rewrite (step_ok _ _ w tt w0) by done.
  rewrite (step_ok _ _ _ _ _ (redis_sessions_run _ w0 _ _ Hs)).
  split; [done|]. split; [unfold reg_world; cbn in *; by rewrite <- Hn|]. split; [|done].
  split; [done|apply Hf].
Qed.

Lemma unregister_world C u c w :
  reg_world C w → ∃ w', unregister u c w = (Ok tt, w') ∧ reg_world (disconnect C u c) w' ∧
    sessions_kept (reg_keys u c) w w' ∧ unheard w w'.
Proof.
  intros Hr. set (w0 := w <| w_local ::= delete c |>).
  destruct (unregister_run C u c (mk_rstate (w_now w0) (w_sessions w0)) Hr) as ([n db] & Hs & Hn & Hr').
  pose proof (unregister_framed u c (mk_rstate (w_now w0) (w_sessions w0))) as Hf. rewrite Hs in Hf.
  eexists. unfold unregister. rewrite (step_ok _ _ w tt w0) by done.
  rewrite (redis_sessions_run _ w0 _ _ Hs).
  split; [done|]. split; [unfold reg_world; cbn in *; by rewrite <- Hn|]. split; [|done].
  split; [done|apply Hf].
Qed.

(** What a handler does to the socket's own entry leaves the registry alone. *)
Lemma reg_world_kept C k w w' :
  (∀ v, user_key v ≠ k) → online_key ≠ k → sessions_kept {[k]} w w' → reg_world C w → reg_world C w'.
Proof.
  intros Hv Ho [Hn Hk]. apply (reg_rel_only C k); [|done|done].
  split; [done|]. intros k' Hne. apply Hk. by rewrite elem_of_singleton.
Qed.

Lemma online_count_world C w : reg_world C w → online_count w = (Ok (Z.of_nat (size C)), w).
Proof.
  intros Hr. unfold online_count. rewrite (redis_sessions_run _ _ _ _ (online_count_run C _ Hr)).
  unfold over. by destruct w.
Qed.

(** Without a live ticket the socket is refused, and nothing changes. *)
Lemma chat_refused t c events w :
  length_between 16 64 t = true → live (w_now w) (w_sessions w) (ticket_key t) = None →
  chat_socket settings repr t c events w = (Ok Refused, w).
Proof.
  intros Hlen Hnone. unfold chat_socket. rewrite Hlen, ensure_true_step.
  rewrite (step_ok _ _ _ _ _ (redis_sessions_run _ w _ _ (getdel_none _ (mk_rstate (w_now w) (w_sessions w)) Hnone))).
  by destruct w.
Qed.

(** What a client sends over its socket. *)
Lemma event_speaks u c ev : speaks u c (on_event settings repr u c ev).
Proof.
  destruct ev as [mid [|[]]]; cbn [on_event]; try by apply speaks_pure.
  - apply speaks_send.
  - apply handle_frame_speaks.
Qed.
Lemma events_speak u c events :
  speaks u c (for_each (on_event settings repr u c) events ;; mret Served).
Proof.
  apply speaks_bind; [|intros; by apply speaks_pure].
  induction events as [|ev events IH]; [by apply speaks_pure|].
  apply (speaks_bind u c (on_event settings repr u c ev)); [apply event_speaks|]. by intros [].
Qed.

Definition welcome (c : string) (online : Z) (now : timestamp) : json :=
  JObj [("type", JStr "welcome"); ("connection_id", JStr c); ("online_users", JInt online);
        ("server_time", JStr (isoformat now))].

(** A live ticket of [u] is consumed by the socket it opens: whatever the client sends, it is
    greeted first and only its own socket is written to, what is published names nobody but
    [u], and the registry is left as [u]'s connection and disconnection leave it. *)
Lemma chat_served t c frames u ex C w :
  length_between 16 64 t = true →
  live (w_now w) (w_sessions w) (ticket_key t) = Some (mk_entry (RStr (uuid_str u)) ex) →
  reg_world C w → keyed w →
  ∃ r w', chat_socket settings repr t c frames w = (r, w') ∧ r ≠ Ok Refused ∧
    reg_world (disconnect (connect C u c) u c) w' ∧
    (∃ o, w_outbox w' = (w_outbox w ++ o)%list ∧ Forall (from_self u) o) ∧
    (∃ s, w_sent w' = (w_sent w ++ (c, welcome c (Z.of_nat (size (connect C u c))) (w_now w)) :: s)%list ∧
          Forall (λ x, x.1 = c) s) ∧
    w_now w' = w_now w ∧ w_sessions w' !! ticket_key t = None.
Proof.
  intros Hlen Hlive HC Hkd.
  set (s1 := mk_rstate (w_now w) (w_sessions w)).
  set (w2 := w <| w_sessions := delete (ticket_key t) (w_sessions w) |>).
  assert (redis_sessions (redis_getdel (ticket_key t)) w = (Ok (Some (uuid_str u)), w2)) as Hget
    by exact (redis_sessions_run _ w _ _ (getdel_str _ _ _ s1 Hlive)).
  assert (reg_world C w2) as HC2.
  { apply (reg_world_kept C (ticket_key t) w); [by intros v [=]|by intros [=]| |done].
    split; [done|]. intros k Hk%not_elem_of_singleton. cbn. by rewrite lookup_delete_ne. }
  destruct (register_world C u c w2 HC2) as (w3 & Hreg & HC3 & [Hn3 Hk3] & [Ho3 Hs3 Ht3 Hc3]).
  set (w4 := (send_json c (welcome c (Z.of_nat (size (connect C u c))) (w_now w3)) w3).2).
  assert (keyed w4) as Hkd4.
  { intros k m. change (w_tables w4) with (w_tables w3). change (w_committed w4) with (w_committed w3).
    rewrite Ht3, Hc3. apply Hkd. }
  destruct (events_speak u c frames w4 Hkd4) as (_ & (o & Ho & Fo) & (sent & Hs & Fs) & _ & Hk5).
  destruct ((for_each (on_event settings repr u c) frames ;; mret Served) w4) as [r w5] eqn:E. cbn [snd] in *.
  assert (reg_world (connect C u c) w5) as HC5.
  { apply (reg_world_kept _ (conn_key c) w4); [by intros v [=]|by intros [=]|done|exact HC3]. }
  destruct (unregister_world _ u c w5 HC5) as (w6 & Hun & HC6 & [Hn6 Hk6] & [Ho6 Hs6 _ _]).
  exists r, w6. split_and!.
  - unfold chat_socket. rewrite Hlen, ensure_true_step, (step_ok _ _ _ _ _ Hget), uuid_parse_str.
    rewrite some_step, (step_ok _ _ _ _ _ Hreg). unfold try_finally.
    rewrite (step_ok _ _ _ _ _ (online_count_world _ _ HC3)), utcnow_step.
    rewrite (step_ok _ _ w3 tt w4) by done. rewrite E. by rewrite Hun.
  - revert E. unfold mbind, prog_bind, bind. destruct (for_each _ frames w4) as [[]]; by intros [= <- <-].
  - done.
  - exists o. split; [|done]. rewrite Ho6, Ho. change (w_outbox w4) with (w_outbox w3). by rewrite Ho3.
  - exists sent. split; [|done]. rewrite Hs6, Hs.
    change (w_sent w4) with (w_sent w3 ++ [(c, welcome c (Z.of_nat (size (connect C u c))) (w_now w3))])%list.
    rewrite Hs3, Hn3. by rewrite <- app_assoc.
  - rewrite Hn6, (proj1 Hk5). exact Hn3.
  - rewrite Hk6 by apply ticket_not_reg.
    rewrite (proj2 Hk5) by (apply not_elem_of_singleton; by intros [=]).
    change (w_sessions w4) with (w_sessions w3). rewrite Hk3 by apply ticket_not_reg.
    by apply lookup_delete_eq.
Qed.
End Tickets.

(** ** The relay *)

(** The relay: over any sequence of published items, a user's socket receives
    exactly those published to that user or broadcast, in order and unchanged - no
    item published to another user. *)
Theorem relay_exact u c items w :
  let mine := List.filter (λ i : string * json,
    bool_decide (i.1 = user_channel u) || bool_decide (i.1 = BROADCAST_CHANNEL)) items in
  for_each (relay_item u c) items w
  = (Ok tt, w <| w_sent ::= λ l, (l ++ ((λ i, (c, i.2)) <$> mine))%list |>) ∧
  ∀ v p, v ≠ u → (user_channel v, p) ∉ mine.
Proof.
  intros mine. split.
  - subst mine. revert w. induction items as [|[ch p] items IH]; intros w.
    { unfold over. cbn. rewrite app_nil_r. by destruct w. }
    cbn [for_each relay_item List.filter fst].
    destruct (bool_decide (ch = _) || _).
    + rewrite (bind_ok _ _ w tt (w <| w_sent ::= λ l, (l ++ [(c, p)])%list |>)) by done.
      rewrite IH. unfold over. cbn. by rewrite <- app_assoc.
    + by rewrite (bind_ok _ _ w tt w).
  - intros v p Hv Hin. unfold mine in Hin.
    rewrite list_elem_of_In, filter_In in Hin. destruct Hin as [_ Hin]. cbn in Hin.
    apply orb_true_iff in Hin as [Hin|Hin]; apply bool_decide_eq_true in Hin.
    + by apply user_channel_inj in Hin.
    + by apply user_channel_not_broadcast in Hin.
Qed.

(** ** Examples *)

Module Socket.
Definition fcm : Fcm := {| firebase_init_ok := true; fcm_rejects _ := false |}.
Definition repr (v : json) : string := "?".
Definition frame : list (string * json) :=
  [("type", JStr "text"); ("to", JStr (uuid_str (uid 8))); ("content", JStr "hi");
   ("destruct_after", JInt 30)].
End Socket.

Lemma handle_frame_as_self_witness :
  let w' := (@handle_frame default_settings Socket.fcm Socket.repr (uid 7) "c" (uid 100)
               Socket.frame Chat.world0).2 in
  ∃ o, w_outbox w' = o ∧ Forall (from_self (uid 7)) o.
Proof.
  intros w'. destruct (@handle_frame_as_self default_settings Socket.fcm Socket.repr (uid 7) "c"
    (uid 100) Socket.frame Chat.world0) as [(o & Ho & Hf) _].
  - intros k m [H|H]; vm_compute in H; discriminate.
  - exists o. split; [exact Ho|exact Hf].
Defined.

Lemma content_frame_spec_witness :
  ∃ msg w', @handle_frame default_settings Socket.fcm Socket.repr (uid 7) "c" (uid 100)
              Socket.frame Chat.world0 = (Ok tt, w') ∧
    messages (w_committed w') !! uid 100 = Some msg ∧ m_content_ciphertext msg = Some "hi" ∧
    m_destruct_at msg = Some (seconds 30).
Proof.
  destruct (@content_frame_spec default_settings Socket.fcm Socket.repr (uid 7) "c" (uid 100)
    Socket.frame "text" (uid 8) (Some "hi") None None (Some 30%Z) ∅ Chat.world0)
    as (msg & w' & H & Hm & _ & _ & _ & _ & _ & Hc & _ & _ & _ & _ & Hd & _);
    [reflexivity|set_solver|by apply uuid_parse_str|reflexivity|reflexivity|reflexivity|reflexivity
    |reflexivity|reflexivity|reflexivity|by exists (Chat.user 7)|by exists (Chat.user 8)|reflexivity
    |by apply empty_registry_world|done|].
  exists msg, w'. split; [exact H|]. split; [|split; [exact Hc|exact Hd]].
  rewrite Hm. apply lookup_insert_eq.
Defined.

