(* ===== verification/Keyspace.v ===== *)
(** The types of the Redis keys of the first backend: three databases that many components
    share, every key in the family - and of the type - its name says.

    Redis keys are untyped names, so nothing but convention keeps a component from
    reading what another wrote as something else. The schema states the convention,
    [typed] that a world follows it; a handler is [safe] when it keeps the world typed
    and never fails on the type or the form of what it finds. ([Keys] names a client that
    [app/core/redis.py] does not have, and has its own store.) *)

From S2P Require Import Prelude Effects PyStr Uuid Redis Models Json Schemas World Pubsub Config.
From S2P Require Import Security Otp Auth Scripts Storage Media Messages WsManager Push Ocr WebSocket.
From stdpp Require Import pretty.
From Stdlib Require Import Ascii String.

Local Open Scope string_scope.

(** ** The schema *)

(** What a key holds: a text, an integer that [INCR] keeps, or a set of texts, of some form. *)
Inductive ty :=
| TText (P : string → Prop)
| TInt
| TSet (P : string → Prop).

Definition has_type (v : rval) (t : ty) : Prop :=
  match t, v with
  | TText P, RStr s => P s
  | TInt, RInt _ => True
  | TSet P, RSet m => set_Forall P m
  | _, _ => False
  end.

Definition any (s : string) : Prop := True.
Definition is_uuid (s : string) : Prop := ∃ u, s = uuid_str u.
Definition is_index (s : string) : Prop := ∃ i : Z, s = pretty i.
Definition is_upload (s : string) : Prop :=
  ∃ user filename mime size total, s = dumps (upload_state user filename mime size total).

Abbreviation schema := (string → option ty).

(** Database 1: codes and the limits on asking for them. *)
Definition otp_schema (k : string) : option ty :=
  if startswith "otp:attempts:" k || startswith "otp:hourly:" k || startswith "otp:ip:" k
  then Some TInt
  else if startswith "otp:" k then Some (TText any) else None.

(** Database 2: connections, presence, tickets and uploads. *)
Definition sessions_schema (k : string) : option ty :=
  if startswith "ws:conn:" k then Some (TText any)
  else if startswith "ws:user:" k then Some (TSet any)
  else if startswith "ws:online" k then Some (TSet is_uuid)
  else if startswith "ws:ticket:" k then Some (TText is_uuid)
  else if startswith "upload:chunks:" k then Some (TSet is_index)
  else if startswith "upload:" k then Some (TText is_upload) else None.

(** Database 0: the keywords of each user, and the flags of alerts. *)
Definition pubsub_schema (k : string) : option ty :=
  if startswith "user:" k then Some (TSet any)
  else if startswith "ocr:alert:" k then Some (TText any) else None.

(** Every key of a database belongs to a family and has its type. *)
Definition db_typed (sc : schema) (s : rstate) : Prop :=
  map_Forall (λ k e, ∃ t, sc k = Some t ∧ has_type (e_val e) t) (rs_db s).

Record typed (w : world) : Prop := {
  typed_pubsub : db_typed pubsub_schema (mk_rstate (w_now w) (w_pubsub w));
  typed_otp : db_typed otp_schema (mk_rstate (w_now w) (w_otp w));
  typed_sessions : db_typed sessions_schema (mk_rstate (w_now w) (w_sessions w))
}.

(** The errors that say that a value is not of the type, or not of the form, it is read as:
    every error of a Redis command but the overflow of a counter, a missing member of an
    object, a text that is no JSON, no integer, no UUID. *)
Definition mistyped (e : exn) : bool :=
  match e with
  | RedisError d => negb (String.eqb d "increment or decrement would overflow")
  | KeyError _ => true
  | ValueError d => bool_decide (d ∈ ["json"; "int"; "badly formed hexadecimal UUID string"])
  | _ => false
  end.

(** ** Safe programs *)

Create HintDb safe.

(** [m] keeps [I], returns what satisfies [Q], and raises no [mistyped] error. *)
Definition safe {S A} (I : S → Prop) (m : prog S A) (Q : A → Prop) : Prop :=
  ∀ s, I s → I (m s).2 ∧ match (m s).1 with Ok a => Q a | Err e => mistyped e = false end.

Abbreviation tt_ := (λ _, True) (only parsing).

Section Safe.
Context {S : Type} (I : S → Prop).

Lemma safe_ret {A} (a : A) (Q : A → Prop) : Q a → safe I (mret a) Q.
Proof. intros Ha s Hs. by split. Qed.
Lemma safe_ret_any {A} (a : A) : safe I (mret a) tt_.
Proof. by apply safe_ret. Qed.
Lemma safe_raise {A} e (Q : A → Prop) : mistyped e = false → safe I (raise e) Q.
Proof. intros He s Hs. by split. Qed.
Lemma safe_raise_none {A} e : mistyped e = false → safe I (raise (A := A) e) (λ _, False).
Proof. apply safe_raise. Qed.
Lemma safe_conseq {A} (m : prog S A) (P Q : A → Prop) : safe I m P → (∀ a, P a → Q a) → safe I m Q.
Proof.
  intros Hm HPQ s Hs. destruct (Hm s Hs) as [H1 H2]. split; [done|].
  destruct (m s) as [[a|e] s']; [by apply HPQ|done].
Qed.
Lemma safe_weaken {A} (m : prog S A) (P : A → Prop) : safe I m P → safe I m tt_.
Proof. intros Hm. by eapply safe_conseq. Qed.
Lemma safe_bind {A B} (m : prog S A) (k : A → prog S B) (P : A → Prop) (Q : B → Prop) :
  safe I m P → (∀ a, P a → safe I (k a) Q) → safe I (m ≫= k) Q.
Proof.
  intros Hm Hk s Hs. unfold mbind, prog_bind, bind. destruct (Hm s Hs) as [H1 H2].
  destruct (m s) as [[a|e] s']; [by apply Hk|done].
Qed.
Lemma safe_gets {A} (f : S → A) : safe I (gets f) tt_.
Proof. intros s Hs. by split. Qed.
Lemma safe_get : safe I Effects.get tt_.
Proof. intros s Hs. by split. Qed.
Lemma safe_modify f : (∀ s, I s → I (f s)) → safe I (modify f) tt_.
Proof. intros Hf s Hs. split; [by apply Hf|done]. Qed.
Lemma safe_ensure b e : (b = false → mistyped e = false) → safe I (ensure b e) (λ _, b = true).
Proof. intros He s Hs. destruct b; split; naive_solver. Qed.
Lemma safe_some {A} (o : option A) e :
  (o = None → mistyped e = false) → safe I (some_or_raise o e) (λ a, o = Some a).
Proof. intros He s Hs. destruct o; split; naive_solver. Qed.
Lemma safe_lift {A} (r : res A) :
  (∀ e, r = Err e → mistyped e = false) → safe I (lift r) tt_.
Proof. intros He s Hs. split; [done|]. cbn. destruct r; naive_solver. Qed.
Lemma safe_for_each {A} (f : A → prog S unit) l :
  (∀ x, x ∈ l → safe I (f x) tt_) → safe I (for_each f l) tt_.
Proof.
  induction l as [|x l IH]; intros Hf; [by apply safe_ret|].
  apply (safe_bind (f x) _ tt_); [apply Hf; by left|]. intros _ _. apply IH. intros. apply Hf. by right.
Qed.
Lemma safe_map_each {A B} (f : A → prog S B) l :
  (∀ x, x ∈ l → safe I (f x) tt_) → safe I (map_each f l) tt_.
Proof.
  induction l as [|x l IH]; intros Hf; [by apply safe_ret|].
  apply (safe_bind (f x) _ tt_); [apply Hf; by left|]. intros y _.
  apply (safe_bind (map_each f l) (λ ys, ret (y :: ys)) tt_); [|intros ys _; by apply safe_ret].
  apply IH. intros. apply Hf. by right.
Qed.
Lemma safe_except {A} (m : prog S A) h Q :
  safe I m Q → (∀ e, mistyped e = false → safe I (h e) Q) → safe I (try_except m h) Q.
Proof.
  intros Hm Hh s Hs. unfold try_except. destruct (Hm s Hs) as [H1 H2].
  destruct (m s) as [[a|e] s']; [done|]. by apply Hh.
Qed.
Lemma safe_finally {A} (m : prog S A) f Q :
  safe I m Q → safe I f tt_ → safe I (try_finally m f) Q.
Proof.
  intros Hm Hf s Hs. unfold try_finally. destruct (Hm s Hs) as [H1 H2].
  destruct (m s) as [r s']. destruct (Hf s' H1) as [H3 H4]. by destruct (f s') as [[] ?].
Qed.
End Safe.

#[export] Hint Resolve safe_ret_any safe_gets safe_get safe_ensure safe_some : safe.
#[export] Hint Extern 2 (safe _ (raise _) ?Q) =>
  (tryif is_evar Q then apply safe_raise_none else apply safe_raise); done : safe.
#[export] Hint Extern 1 (mistyped _ = false) => reflexivity : safe.
#[export] Hint Extern 5 (safe _ (mret _) _) => apply safe_ret; solve [eauto with safe] : safe.

(** Go through a program: the hints give what a statement returns, or nothing is known of it. *)
Ltac safe_go :=
  lazymatch goal with
  | |- safe ?I (?m ≫= ?k) ?Q =>
      first [ eapply (safe_bind I m k _ Q); [solve [eauto with safe]|cbv beta; intros ? ?; safe_go]
            | apply (safe_bind I m k tt_ Q); [safe_go|intros ? _; safe_go] ]
  | |- safe _ (match ?x with _ => _ end) _ => destruct x eqn:?; safe_go
  | |- safe _ (try_except _ _) _ => apply safe_except; [safe_go|intros ? ?; safe_go]
  | |- safe _ (try_finally _ _) _ => apply safe_finally; safe_go
  | |- safe _ (for_each _ _) _ => apply safe_for_each; intros ? _; safe_go
  | |- _ => first [ solve [eauto with safe] | solve [eapply safe_weaken; eauto with safe] | idtac ]
  end.

(** ** The commands *)

Section Commands.
Context (sc : schema).
Implicit Types (k : string) (t : ty).
Abbreviation rsafe := (safe (db_typed sc)).

Lemma safe_put k v ex t : sc k = Some t → has_type v t → rsafe (put k v ex) tt_.
Proof.
  intros Hk Hv. apply safe_modify. intros s Hs. apply map_Forall_insert_2; [|done]. by exists t.
Qed.
Lemma safe_drop k : rsafe (Redis.drop k) tt_.
Proof. apply safe_modify. intros s Hs. by apply map_Forall_delete. Qed.

(** What a command sees under a key of type [t]. *)
Lemma safe_look k t : sc k = Some t → rsafe (look k) (λ o, ∀ e, o = Some e → has_type (e_val e) t).
Proof.
  intros Hk s Hs. split; [done|]. cbn. intros e [He _]%live_Some.
  destruct (Hs _ _ He) as (t' & Ht' & Hv). congruence.
Qed.
Lemma safe_look_any k :
  rsafe (look k) (λ o, ∀ e, o = Some e → ∃ t, sc k = Some t ∧ has_type (e_val e) t).
Proof. intros s Hs. split; [done|]. cbn. intros e [He _]%live_Some. exact (Hs _ _ He). Qed.

Lemma safe_set k v ex P : sc k = Some (TText P) → P v → rsafe (redis_set k v ex) tt_.
Proof.
  intros Hk Hv. eapply safe_bind; [apply safe_get|]. intros s _. by apply safe_put with (TText P).
Qed.
Lemma safe_rget k P :
  sc k = Some (TText P) → rsafe (redis_get k) (λ o, ∀ v, o = Some v → P v).
Proof.
  intros Hk. eapply safe_bind; [by apply safe_look|]. intros [[v ex]|] Hv; cbn beta.
  - specialize (Hv _ eq_refl). destruct v; try done. apply safe_ret. by intros ? [= <-].
  - by apply safe_ret.
Qed.
Lemma safe_getdel k P :
  sc k = Some (TText P) → rsafe (redis_getdel k) (λ o, ∀ v, o = Some v → P v).
Proof.
  intros Hk. eapply safe_bind; [by apply safe_rget|]. intros [v|] Hv; [|by apply safe_ret].
  eapply safe_bind; [apply safe_drop|]. intros _ _. by apply safe_ret.
Qed.
Lemma safe_delete ks : rsafe (redis_delete ks) tt_.
Proof.
  induction ks as [|k ks IH]; [by apply safe_ret|]. cbn [redis_delete].
  eapply safe_bind; [apply safe_look_any|]. intros e _.
  eapply safe_bind; [apply safe_drop|]. intros _ _.
  eapply safe_bind; [apply IH|]. intros n _. by apply safe_ret.
Qed.
Lemma safe_exists k : rsafe (redis_exists k) tt_.
Proof. eapply safe_bind; [apply safe_look_any|]. intros e _. by apply safe_ret. Qed.
Lemma safe_ttl k : rsafe (redis_ttl k) tt_.
Proof.
  eapply safe_bind; [apply safe_get|]. intros s _. eapply safe_bind; [apply safe_look_any|].
  intros [[v [ex|]]|] _; by apply safe_ret.
Qed.
Lemma safe_expire k secs : rsafe (redis_expire k secs) tt_.
Proof.
  eapply safe_bind; [apply safe_get|]. intros s _. eapply safe_bind; [apply safe_look_any|].
  intros [e|] He; [|by apply safe_ret]. destruct (He _ eq_refl) as (t & Ht & Hv).
  eapply safe_bind; [by apply safe_put with t|]. intros _ _. by apply safe_ret.
Qed.
Lemma safe_incr k : sc k = Some TInt → rsafe (redis_incr k) tt_.
Proof.
  intros Hk. eapply safe_bind; [by apply safe_look|]. intros [[v ex]|] Hv; cbn beta.
  - specialize (Hv _ eq_refl). destruct v as [|z| | |]; try done. destruct (z =? _)%Z; [by apply safe_raise|].
    eapply safe_bind; [by apply safe_put with TInt|]. intros _ _. by apply safe_ret.
  - eapply safe_bind; [by apply safe_put with TInt|]. intros _ _. by apply safe_ret.
Qed.

Lemma safe_look_set k P : sc k = Some (TSet P) → rsafe (look_set k) (set_Forall P).
Proof.
  intros Hk. eapply safe_bind; [by apply safe_look|]. intros [[v ex]|] Hv; cbn beta.
  - specialize (Hv _ eq_refl). destruct v; by try apply safe_ret.
  - apply safe_ret. intros x Hx. set_solver.
Qed.
Lemma safe_put_set k m P : sc k = Some (TSet P) → set_Forall P m → rsafe (put_set k m) tt_.
Proof.
  intros Hk Hm. eapply safe_bind; [by apply safe_look|]. intros e _.
  case_decide; [apply safe_drop|by apply safe_put with (TSet P)].
Qed.
Lemma safe_sadd k ms P : sc k = Some (TSet P) → set_Forall P ms → rsafe (redis_sadd k ms) tt_.
Proof.
  intros Hk Hms. eapply safe_bind; [by apply safe_look_set|]. intros m Hm.
  eapply safe_bind; [eapply safe_put_set; [done|by apply set_Forall_union]|]. intros _ _. by apply safe_ret.
Qed.
Lemma safe_srem k ms P : sc k = Some (TSet P) → rsafe (redis_srem k ms) tt_.
Proof.
  intros Hk. eapply safe_bind; [by apply safe_look_set|]. intros m Hm.
  eapply safe_bind; [eapply safe_put_set; [done|]|intros _ _; by apply safe_ret].
  intros x Hx. apply Hm. set_solver.
Qed.
Lemma safe_scard k P : sc k = Some (TSet P) → rsafe (redis_scard k) tt_.
Proof. intros Hk. eapply safe_bind; [by apply safe_look_set|]. intros m _. by apply safe_ret. Qed.
Lemma safe_sismember k x P : sc k = Some (TSet P) → rsafe (redis_sismember k x) tt_.
Proof. intros Hk. eapply safe_bind; [by apply safe_look_set|]. intros m _. by apply safe_ret. Qed.
End Commands.

#[export] Hint Resolve safe_set safe_rget safe_getdel safe_delete safe_exists safe_ttl safe_expire
  safe_incr safe_look_set safe_sadd safe_srem safe_scard safe_sismember : safe.

(** ** The keys have the types the schema gives them *)

Lemma startswith_split p s : startswith p s = true → ∃ s', s = p ++ s'.
Proof.
  revert s. induction p as [|c p IH]; intros s H; [by exists s|]. destruct s as [|d s]; [done|].
  cbn in H. destruct (Ascii.ascii_dec c d) as [->|]; [|done]. destruct (IH _ H) as [s' ->]. by exists s'.
Qed.

(** A UUID starts with no text that has a colon. *)
Lemma startswith_uuid p u : no_colon p = false → startswith p (uuid_str u) = false.
Proof.
  intros Hp. apply not_true_iff_false. intros [s E]%startswith_split.
  pose proof (uuid_str_avoids u ":" eq_refl) as Hu. rewrite E, str_all_app in Hu.
  unfold no_colon in Hp. by rewrite Hp in Hu.
Qed.

Lemma otp_code u : otp_schema (code_key u) = Some (TText any).
Proof.
  assert (∀ p, startswith ("otp:" ++ p) (code_key u) = startswith p (uuid_str u)) as H by done.
  unfold otp_schema. change "otp:attempts:" with ("otp:" ++ "attempts:").
  change "otp:hourly:" with ("otp:" ++ "hourly:"). change "otp:ip:" with ("otp:" ++ "ip:").
  by rewrite !H, !startswith_uuid.
Qed.
Lemma otp_attempts u : otp_schema (attempts_key u) = Some TInt.
Proof. reflexivity. Qed.
Lemma otp_cooldown phone : otp_schema (cooldown_key phone) = Some (TText any).
Proof. by destruct phone. Qed.
Lemma otp_hourly phone : otp_schema (hourly_key phone) = Some TInt.
Proof. by destruct phone. Qed.
Lemma otp_ip ip : otp_schema (ip_key ip) = Some TInt.
Proof. by destruct ip. Qed.

Lemma sessions_conn c : sessions_schema (conn_key c) = Some (TText any).
Proof. by destruct c. Qed.
Lemma sessions_user u : sessions_schema (user_key u) = Some (TSet any).
Proof. reflexivity. Qed.
Lemma sessions_named_user u : sessions_schema ("ws:user:" ++ u) = Some (TSet any).
Proof. by destruct u. Qed.
Lemma sessions_online : sessions_schema online_key = Some (TSet is_uuid).
Proof. reflexivity. Qed.
Lemma sessions_ticket t : sessions_schema (ticket_key t) = Some (TText is_uuid).
Proof. by destruct t. Qed.
Lemma sessions_chunks id : sessions_schema (chunks_key id) = Some (TSet is_index).
Proof. by destruct id. Qed.
(** The one name that two families claim: the state of an upload called [chunks:...]. *)
Lemma sessions_state id :
  startswith "chunks:" id = false → sessions_schema (state_key id) = Some (TText is_upload).
Proof.
  intros H. destruct id as [|c id]; [done|].
  change (sessions_schema (state_key (String c id)))
    with (if startswith "chunks:" (String c id) then Some (TSet is_index) else Some (TText is_upload)).
  by rewrite H.
Qed.

Lemma pubsub_keywords u : pubsub_schema (keywords_key u) = Some (TSet any).
Proof. by destruct u. Qed.
Lemma pubsub_alert f : pubsub_schema (alert_key f) = Some (TText any).
Proof. by destruct f. Qed.

Lemma any_ok s : any s.
Proof. reflexivity. Qed.
Lemma any_set (m : gset string) : set_Forall any m.
Proof. by intros x _. Qed.
Lemma uuid_ok u : is_uuid (uuid_str u).
Proof. by exists u. Qed.
Lemma uuid_set u : set_Forall is_uuid ({[uuid_str u]} : gset string).
Proof. apply set_Forall_singleton, uuid_ok. Qed.
Lemma index_set_ok (i : Z) : set_Forall is_index ({[pretty i]} : gset string).
Proof. apply set_Forall_singleton. by exists i. Qed.

#[export] Hint Resolve otp_code otp_attempts otp_cooldown otp_hourly otp_ip sessions_conn sessions_user
  sessions_named_user sessions_online sessions_ticket sessions_chunks sessions_state pubsub_keywords
  pubsub_alert any_ok any_set uuid_ok uuid_set index_set_ok : safe.

(** ** Redis from a handler *)

Lemma safe_redis_otp {A} (m : prog rstate A) Q : safe (db_typed otp_schema) m Q → safe typed (redis_otp m) Q.
Proof.
  intros Hm w [H1 H2 H3]. destruct (Hm _ H2) as [H4 H5]. unfold redis_otp, zoom.
  destruct (m _) as [r s]. by split.
Qed.
Lemma safe_redis_sessions {A} (m : prog rstate A) Q :
  safe (db_typed sessions_schema) m Q → safe typed (redis_sessions m) Q.
Proof.
  intros Hm w [H1 H2 H3]. destruct (Hm _ H3) as [H4 H5]. unfold redis_sessions, zoom.
  destruct (m _) as [r s]. by split.
Qed.
Lemma safe_redis_pubsub {A} (m : prog rstate A) Q :
  safe (db_typed pubsub_schema) m Q → safe typed (redis_pubsub m) Q.
Proof.
  intros Hm w [H1 H2 H3]. destruct (Hm _ H1) as [H4 H5]. unfold redis_pubsub, zoom.
  destruct (m _) as [r s]. by split.
Qed.

(** The other effects leave Redis alone. *)
Lemma safe_quiet (f : world → world) :
  (∀ w, w_pubsub (f w) = w_pubsub w ∧ w_otp (f w) = w_otp w ∧ w_sessions (f w) = w_sessions w) →
  safe typed (modify f) tt_.
Proof.
  intros Hf. apply safe_modify. intros w [H1 H2 H3]. destruct (Hf w) as (E1 & E2 & E3).
  split; unfold db_typed; cbn; by rewrite ?E1, ?E2, ?E3.
Qed.
#[export] Hint Resolve safe_redis_otp safe_redis_sessions safe_redis_pubsub : safe.
#[export] Hint Extern 3 (safe typed (modify _) _) => apply safe_quiet; done : safe.

Lemma safe_query {A} (f : tables → A) : safe typed (query f) tt_.
Proof. apply safe_gets. Qed.
Lemma safe_utcnow : safe typed utcnow tt_.
Proof. apply safe_gets. Qed.
Lemma safe_db_change f : safe typed (db_change f) tt_.
Proof. by apply safe_quiet. Qed.
Lemma safe_commit : safe typed commit tt_.
Proof. by apply safe_quiet. Qed.
Lemma safe_rollback : safe typed rollback tt_.
Proof. by apply safe_quiet. Qed.
Lemma safe_audit a : safe typed (add_audit a) tt_.
Proof. by apply safe_quiet. Qed.
Lemma safe_publish c p : safe typed (redis_publish c p) tt_.
Proof. by apply safe_quiet. Qed.
Lemma safe_send c p : safe typed (send_json c p) tt_.
Proof. by apply safe_quiet. Qed.
Lemma safe_fcm p : safe typed (fcm_send p) tt_.
Proof. by apply safe_quiet. Qed.
#[export] Hint Resolve safe_query safe_utcnow safe_db_change safe_commit safe_rollback safe_audit
  safe_publish safe_send safe_fcm : safe.

Lemma safe_get_db {A} (m : prog world A) : safe typed m tt_ → safe typed (get_db m) tt_.
Proof. intros Hm. unfold get_db. safe_go. Qed.
Lemma safe_session_local {A} (m : prog world A) Q : safe typed m Q → safe typed (session_local m) Q.
Proof. intros Hm. unfold session_local. safe_go. Qed.
#[export] Hint Resolve safe_get_db safe_session_local : safe.
Ltac safe_session := repeat (apply safe_session_local; safe_go).

(** ** Every handler that uses Redis *)

Section Handlers.
Context (settings : Settings) `{Hashing, Jose, Minio, Pillow, Fcm, Extractors} (repr : json → string).

(** One-time codes. *)
Lemma safe_issue u code : safe (db_typed otp_schema) (issue settings u code) tt_.
Proof. unfold issue. safe_go. Qed.
Lemma safe_otp_verify u code : safe (db_typed otp_schema) (otp_verify settings u code) tt_.
Proof. unfold otp_verify. safe_go. Qed.
Lemma safe_rate_limit phone ip : safe (db_typed otp_schema) (rate_limit_otp phone ip) tt_.
Proof. unfold rate_limit_otp. safe_go. Qed.
Hint Resolve safe_issue safe_otp_verify safe_rate_limit : safe.

Lemma safe_request_otp body client draws : safe typed (request_otp settings body client draws) tt_.
Proof. unfold request_otp, send_otp. safe_go. Qed.
Lemma safe_add_session s : safe typed (db_add_session s) tt_.
Proof. unfold db_add_session. safe_go. Qed.
Hint Resolve safe_add_session : safe.
Lemma safe_login body client agent draws : safe typed (verify settings body client agent draws) tt_.
Proof. unfold verify. safe_go. Qed.
Lemma safe_ticket user t : safe typed (create_ws_ticket user t) tt_.
Proof. unfold create_ws_ticket. safe_go. Qed.
Lemma safe_dev_get_otp phone : safe typed (dev_get_otp settings phone) tt_.
Proof. unfold dev_get_otp. safe_go. Qed.

(** Uploads. *)
Lemma safe_client_put bucket key data : safe typed (client_put bucket key data) tt_.
Proof. unfold client_put. safe_go. Qed.
Lemma safe_client_get bucket key : safe typed (client_get bucket key) tt_.
Proof. unfold client_get. safe_go. Qed.
Lemma safe_delete_object bucket key : safe typed (delete_object bucket key) tt_.
Proof. unfold delete_object. safe_go. Qed.
Hint Resolve safe_client_put safe_client_get safe_delete_object : safe.
Lemma safe_put_object bucket data suffix hex : safe typed (put_object bucket data suffix hex) tt_.
Proof. unfold put_object. safe_go. Qed.
Lemma safe_delete_staging id n : safe typed (delete_staging settings id n) tt_.
Proof. unfold delete_staging. safe_go. Qed.
Lemma safe_assemble id n : safe typed (assemble_staging settings id n) tt_.
Proof.
  unfold assemble_staging. eapply safe_bind; [apply safe_map_each|]; intros; eauto with safe.
Qed.
Lemma safe_put_staging id i data : safe typed (put_staging_chunk settings id i data) tt_.
Proof. apply safe_client_put. Qed.
Hint Resolve safe_put_object safe_delete_staging safe_assemble safe_put_staging : safe.

(** What [_load_state] returns is what [upload_init] wrote. *)
Definition upload_members (state : list (string * scalar_json)) : Prop :=
  ∃ user filename mime size total, state = upload_state user filename mime size total.

Lemma safe_load_state id user :
  startswith "chunks:" id = false → safe typed (load_state id user) upload_members.
Proof.
  intros Hid. unfold load_state. eapply safe_bind; [eauto with safe|]. intros raw Hraw.
  eapply safe_bind; [eauto with safe|]. cbn. intros text ->.
  destruct (Hraw _ eq_refl) as (u & f & m & size & total & ->). rewrite loads_dumps.
  change (safe typed (owner ← some_or_raise (Some u) (KeyError "user_id");
    ensure (String.eqb owner user) NOT_FOUND ;; mret (upload_state u f m size total)) upload_members).
  eapply safe_bind; [eauto with safe|]. intros owner _. eapply safe_bind; [eauto with safe|].
  intros _ _. apply safe_ret. by exists u, f, m, size, total.
Qed.
Lemma safe_state_int state key :
  upload_members state → key ∈ ["total_size"; "total_chunks"] → safe typed (state_int state key) tt_.
Proof.
  intros (u & f & m & size & total & ->) Hk. eapply safe_weaken, safe_some.
  apply elem_of_cons in Hk as [->|[->|Hk%elem_of_nil]%elem_of_cons]; done.
Qed.
Lemma safe_state_str state key :
  upload_members state → key ∈ ["user_id"; "mime_type"] → safe typed (state_str state key) tt_.
Proof.
  intros (u & f & m & size & total & ->) Hk. eapply safe_weaken, safe_some.
  apply elem_of_cons in Hk as [->|[->|Hk%elem_of_nil]%elem_of_cons]; done.
Qed.
Lemma safe_received id : safe typed (received_chunks id) tt_.
Proof.
  unfold received_chunks. eapply safe_bind; [apply safe_redis_sessions; eauto with safe|].
  intros members Hm. apply safe_map_each. intros x Hx%elem_of_elements.
  destruct (Hm _ Hx) as [i ->]. eapply safe_weaken, safe_some. by rewrite int_of_str_pretty.
Qed.
Hint Resolve safe_load_state safe_state_int safe_state_str safe_received : safe.
Hint Extern 1 (_ ∈ _) => by (repeat constructor) : safe.

Lemma safe_upload_init id body user :
  startswith "chunks:" id = false → safe typed (upload_init id body user) tt_.
Proof.
  intros Hid. unfold upload_init. eapply safe_bind; [eauto with safe|]. intros _ _. cbv zeta.
  eapply safe_bind; [|intros _ _; by apply safe_ret].
  apply safe_redis_sessions. eapply safe_set; [by apply sessions_state|]. by eexists _, _, _, _, _.
Qed.
Lemma safe_upload_chunk id i data user :
  startswith "chunks:" id = false → safe typed (upload_chunk settings id i data user) tt_.
Proof. intros Hid. unfold upload_chunk. safe_go. Qed.
Lemma safe_upload_status id user :
  startswith "chunks:" id = false → safe typed (upload_status id user) tt_.
Proof. intros Hid. unfold upload_status. safe_go. Qed.
Lemma safe_upload_complete id hex1 hex2 user :
  startswith "chunks:" id = false → safe typed (upload_complete settings id hex1 hex2 user) tt_.
Proof. intros Hid. unfold upload_complete. safe_go. Qed.

(** An id that names the chunks of another upload finds no state, and nothing is changed. *)
Lemma load_state_chunks id user w :
  startswith "chunks:" id = true → typed w →
  ∃ e, load_state id user w = (Err e, w) ∧ (e = NOT_FOUND ∨ e = wrongtype).
Proof.
  intros [id' ->]%startswith_split [_ _ Hw]. unfold load_state, redis_sessions, zoom. redis_run. cbn [rs_db rs_now].
  destruct (live _ _ _) as [[v ex]|] eqn:E; [|exists NOT_FOUND; by destruct w; auto].
  destruct (live_Some _ _ _ _ E) as [E' _]. destruct (Hw _ _ E') as (t & Ht & Hv).
  change (state_key ("chunks:" ++ id')) with (chunks_key id') in Ht.
  rewrite sessions_chunks in Ht. injection Ht as <-. destruct v; try done.
  exists wrongtype. destruct w; auto.
Qed.

(** Keywords and alerts. *)
Lemma safe_keywords user : safe typed (get_user_keywords user) tt_.
Proof. unfold get_user_keywords. safe_go. Qed.
Lemma safe_set_keywords user keywords : safe typed (set_user_keywords user keywords) tt_.
Proof. unfold set_user_keywords. safe_go. Qed.
Lemma safe_alert_flag f ttl : safe typed (set_alert_flag f ttl) tt_.
Proof. unfold set_alert_flag. safe_go. Qed.
Lemma safe_publish_alert f u k : safe typed (publish_ocr_alert f u k) tt_.
Proof. unfold publish_ocr_alert. safe_go. Qed.
Hint Resolve safe_keywords safe_set_keywords safe_alert_flag safe_publish_alert : safe.
Lemma safe_get_keywords user : safe typed (get_ocr_keywords user) tt_.
Proof. unfold get_ocr_keywords. safe_go. Qed.
Lemma safe_put_keywords user keywords : safe typed (set_ocr_keywords keywords user) tt_.
Proof. unfold set_ocr_keywords. safe_go. Qed.
Lemma safe_delete_keywords user : safe typed (delete_ocr_keywords user) tt_.
Proof. unfold delete_ocr_keywords. safe_go. Qed.
Lemma safe_process_ocr task : safe typed (process_ocr task) tt_.
Proof. unfold process_ocr, load_user_keywords. safe_go. Qed.

(** The registry and the socket. *)
Lemma safe_register u c : safe typed (register u c) tt_.
Proof. unfold register, register_redis. safe_go. apply safe_redis_sessions. safe_go. Qed.
Lemma safe_unregister u c : safe typed (unregister u c) tt_.
Proof.
  unfold unregister, unregister_redis, unregister_pipe. safe_go. apply safe_redis_sessions. safe_go.
Qed.
Lemma safe_heartbeat c : safe typed (heartbeat c) tt_.
Proof. unfold heartbeat. safe_go. Qed.
Lemma safe_online_count : safe typed online_count tt_.
Proof. unfold online_count. safe_go. Qed.
Lemma safe_is_online u : safe typed (is_online u) tt_.
Proof. unfold is_online. safe_go. Qed.
Lemma safe_publish_user u p : safe typed (publish u p) tt_.
Proof. apply safe_publish. Qed.
Hint Resolve safe_register safe_unregister safe_heartbeat safe_online_count safe_is_online safe_publish_user : safe.

Lemma safe_on_ocr_alert fields : safe typed (on_ocr_alert fields) tt_.
Proof. unfold on_ocr_alert, send_local. safe_go. Qed.
Lemma safe_save mid s r g ty c mk mm after : safe typed (save_message mid s r g ty c mk mm after) tt_.
Proof. unfold save_message, db_add_message. safe_go. Qed.
Lemma safe_mark_delivered m u : safe typed (mark_delivered m u) tt_.
Proof. unfold mark_delivered, put_message. safe_go. Qed.
Lemma safe_mark_read m u : safe typed (mark_read m u) tt_.
Proof. unfold mark_read, put_message. safe_go. Qed.
Lemma safe_unsend m u : safe typed (unsend_message m u) tt_.
Proof. unfold unsend_message, put_message. safe_go. Qed.
Lemma safe_push token sender preview peer : safe typed (send_message_push settings token sender preview peer) tt_.
Proof. unfold send_message_push. safe_go. Qed.
Hint Resolve safe_save safe_mark_delivered safe_mark_read safe_unsend safe_push : safe.
Lemma safe_text_field v : safe typed (lift (text_field v)) tt_.
Proof. apply safe_lift. by destruct v as [[]|]; intros ? [= <-]. Qed.
Lemma safe_int_field v : safe typed (lift (int_field v)) tt_.
Proof. apply safe_lift. by destruct v as [[]|]; intros ? [= <-]. Qed.
Hint Resolve safe_text_field safe_int_field : safe.
Lemma safe_handle_frame u c mid frame : safe typed (handle_frame settings repr u c mid frame) tt_.
Proof. unfold handle_frame. safe_go; safe_session. Qed.
Hint Resolve safe_handle_frame : safe.
Lemma safe_event u c ev : safe typed (on_event settings repr u c ev) tt_.
Proof. unfold on_event. safe_go. Qed.
Hint Resolve safe_event : safe.
Lemma safe_chat_socket t c events : safe typed (chat_socket settings repr t c events) tt_.
Proof.
  unfold chat_socket. eapply safe_bind; [eauto with safe|]. intros _ _.
  eapply safe_bind; [eauto with safe|]. intros [raw|] Hraw; [|by apply safe_ret].
  destruct (Hraw _ eq_refl) as [u ->]. eapply safe_bind; [apply safe_some|].
  { by rewrite uuid_parse_str. }
  intros v _. safe_go.
Qed.

(** ** Serving *)

(** A request, or another thing that uses Redis: a socket's life, an alert relayed, a task, the
    script that shows a code. *)
Inductive redis_op :=
| RequestOtp (body : RequestOtpIn) (client : option string) (draws : list Z)
| Login (body : VerifyIn) (client agent : option string) (draws : login_draws)
| DevGetOtp (phone : string)
| Ticket (user : User) (t : string)
| Socket (t connection_id : string) (events : list (UUID * ws_event))
| RelayAlert (fields : list (string * json))
| UploadInit (id : string) (body : UploadInitIn) (user : User)
| UploadChunk (id : string) (i : Z) (data : list byte) (user : User)
| UploadStatus (id : string) (user : User)
| UploadComplete (id hex1 hex2 : string) (user : User)
| GetKeywords (user : User)
| SetKeywords (keywords : list string) (user : User)
| DeleteKeywords (user : User)
| OcrRun (task : OcrTask).

(** [m] and nothing of its result. *)
Definition void {A} (m : prog world A) : prog world unit := m ;; mret tt.

Definition serve_op (op : redis_op) : prog world unit :=
  match op with
  | RequestOtp body client draws => void (get_db (request_otp settings body client draws))
  | Login body client agent draws => void (get_db (verify settings body client agent draws))
  | DevGetOtp phone => void (dev_get_otp settings phone)
  | Ticket user t => void (create_ws_ticket user t)
  | Socket t c events => void (chat_socket settings repr t c events)
  | RelayAlert fields => on_ocr_alert fields
  | UploadInit id body user => void (upload_init id body user)
  | UploadChunk id i data user => upload_chunk settings id i data user
  | UploadStatus id user => void (upload_status id user)
  | UploadComplete id hex1 hex2 user => void (upload_complete settings id hex1 hex2 user)
  | GetKeywords user => void (get_ocr_keywords user)
  | SetKeywords keywords user => void (set_ocr_keywords keywords user)
  | DeleteKeywords user => delete_ocr_keywords user
  | OcrRun task => process_ocr task
  end.

(** The answers to operations, each after a delay. *)
Fixpoint serve (ops : list (Z * redis_op)) (w : world) : list (res unit) * world :=
  match ops with
  | [] => ([], w)
  | (delay, op) :: ops =>
      let '(r, w) := serve_op op (elapse delay w) in
      let '(rs, w) := serve ops w in (r :: rs, w)
  end.

(** The upload whose state an operation reads. *)
Definition upload_read (op : redis_op) : option string :=
  match op with
  | UploadChunk id _ _ _ | UploadStatus id _ | UploadComplete id _ _ _ => Some id
  | _ => None
  end.

(** The ids the server draws have no colon: [token_urlsafe]. *)
Definition drawn (op : redis_op) : Prop :=
  match op with UploadInit id _ _ => no_colon id = true | _ => True end.

Lemma safe_void {A} (m : prog world A) : safe typed m tt_ → safe typed (void m) tt_.
Proof. intros Hm. eapply safe_bind; [exact Hm|]. intros; by apply safe_ret. Qed.

(** An operation on an id of the form [chunks:...]. *)
Lemma serve_chunks op id w :
  upload_read op = Some id → startswith "chunks:" id = true → typed w →
  ∃ e, serve_op op w = (Err e, w) ∧ (e = NOT_FOUND ∨ e = wrongtype).
Proof.
  intros Hop Hid Hw.
  destruct op; try discriminate Hop; injection Hop as ->; cbn [serve_op];
    destruct (load_state_chunks id (uuid_str (u_id user)) w Hid Hw) as (e & He & Ho);
    exists e; (split; [|done]); unfold void, upload_chunk, upload_status, upload_complete;
    by repeat rewrite (step_err _ _ _ _ _ He) || rewrite step_assoc.
Qed.

Lemma no_colon_chunks id : no_colon id = true → startswith "chunks:" id = false.
Proof.
  intros Hid. apply not_true_iff_false. intros [s ->]%startswith_split. by cbn in Hid.
Qed.

Lemma serve_safe op :
  drawn op → (∀ id, upload_read op = Some id → startswith "chunks:" id = false) →
  safe typed (serve_op op) tt_.
Proof.
  intros Hd Hid.
  destruct op; cbn [serve_op]; try apply safe_void;
    auto using safe_get_db, safe_request_otp, safe_login, safe_dev_get_otp, safe_ticket, safe_chat_socket,
      safe_on_ocr_alert, safe_upload_init, no_colon_chunks, safe_upload_chunk, safe_upload_status,
      safe_upload_complete, safe_process_ocr, safe_get_keywords, safe_put_keywords, safe_delete_keywords.
Qed.

Lemma typed_elapse d w : typed w → typed (elapse d w).
Proof. by intros [? ? ?]. Qed.

(** C16. The keys of Redis stay typed: from a world where every key is of the family its name says
    and holds what that family holds, whatever is requested, connected, relayed and run, after
    whatever delays, leaves such a world; and no operation ever fails on the type or the form
    of what it finds there, with one exception - an upload id of the form [chunks:x], which
    names the chunks of another upload and can be answered with WRONGTYPE. *)
Theorem redis_well_typed ops w :
  typed w → Forall (λ o, drawn o.2) ops →
  let '(rs, w') := serve ops w in
  typed w' ∧
  Forall2 (λ o r, ∀ e, r = Err e → mistyped e = true →
             e = wrongtype ∧ ∃ x, upload_read o.2 = Some ("chunks:" ++ x)) ops rs.
Proof.
  intros Hw Hops. revert w Hw. induction Hops as [|[d op] ops Hd Hops IH]; intros w Hw; [done|].
  cbn [serve]. apply (typed_elapse d) in Hw. generalize dependent (elapse d w). clear w. intros w Hw.
  destruct (serve_op op w) as [r w1] eqn:E.
  assert (typed w1 ∧ ∀ e, r = Err e → mistyped e = true →
            e = wrongtype ∧ ∃ x, upload_read op = Some ("chunks:" ++ x)) as [Hw1 Hr].
  { destruct (default false (startswith "chunks:" <$> upload_read op)) eqn:Hc.
    - destruct (upload_read op) as [id|] eqn:Eid; [|done]. cbn in Hc.
      destruct (serve_chunks op id w Eid Hc Hw) as (e & He & Ho). rewrite He in E. injection E as <- <-.
      apply startswith_split in Hc as [x ->]. split; [done|]. intros ? [= <-]. naive_solver.
    - destruct (serve_safe op Hd) with w as [Hs1 Hs2]; [|done|].
      { intros id Eid. by rewrite Eid in Hc. }
      rewrite E in Hs1, Hs2. split; [done|]. intros e -> He. cbn in Hs2. congruence. }
  specialize (IH w1 Hw1). destruct (serve ops w1) as [rs w2]. destruct IH as [IH1 IH2].
  split; [done|]. by constructor.
Qed.

(** The exception is real: the status of [chunks:x] breaks for anybody while chunks of [x] are there. *)
Lemma chunks_wrongtype id user m ex w :
  live (w_now w) (w_sessions w) (chunks_key id) = Some (mk_entry (RSet m) ex) →
  upload_status ("chunks:" ++ id) user w = (Err wrongtype, w).
Proof.
  intros E. unfold upload_status.
  assert (load_state ("chunks:" ++ id) (uuid_str (u_id user)) w = (Err wrongtype, w)) as He.
  { change (live (w_now w) (w_sessions w) (state_key ("chunks:" ++ id)) = Some (mk_entry (RSet m) ex)) in E.
    unfold load_state, redis_sessions, zoom. redis_run. cbn [rs_db rs_now]. rewrite E. by destruct w. }
  by rewrite (step_err _ _ _ _ _ He).
Qed.
End Handlers.

(** ** A witness *)

Lemma typed_empty now : typed (empty_world now).
Proof. split; apply map_Forall_empty. Qed.

#[local] Existing Instance Toy.hashing.
#[local] Existing Instance Toy.jose.
#[local] Existing Instance Clip.minio.
#[local] Existing Instance Clip.pillow.
#[local] Existing Instance Socket.fcm.
#[local] Instance no_text : Extractors := {|
  image_to_string _ := None; pdf_pages _ := None; docx_paragraphs _ := None; xlsx_rows _ := None;
  decode_utf8 _ := "" |}.

Module Typing.
Definition ops : list (Z * redis_op) :=
  [(0, RequestOtp (mk_RequestOtpIn "+201000000001") None [1; 2; 3; 4; 5; 6]);
   (second, Ticket (Chat.user 7) "a-ticket-of-the-server");
   (second, Socket "a-ticket-of-the-server" "c1" []);
   (second, UploadInit "abc" (mk_UploadInitIn "a.pdf" "application/pdf" 1) (Chat.user 7));
   (second, UploadChunk "abc" 0 [x00] (Chat.user 7));
   (second, UploadStatus "abc" (Chat.user 7));
   (second, UploadStatus "chunks:abc" (Chat.user 8));
   (second, DeleteKeywords (Chat.user 7))]%Z.

(** The answers: the exception, and the routes of the keywords, which await what is no coroutine. *)
Lemma ops_answers :
  (serve default_settings (λ _, "") ops (empty_world 0)).1
  = [Ok tt; Ok tt; Ok tt; Ok tt; Ok tt; Ok tt; Err wrongtype; Err TypeError].
Proof. vm_compute. reflexivity. Qed.
End Typing.

Lemma redis_well_typed_witness :
  let '(rs, w') := serve default_settings (λ _, "") Typing.ops (empty_world 0) in
  typed w' ∧
  Forall2 (λ o r, ∀ e, r = Err e → mistyped e = true →
             e = wrongtype ∧ ∃ x, upload_read o.2 = Some ("chunks:" ++ x)) Typing.ops rs.
Proof.
  apply (redis_well_typed default_settings (λ _, "") Typing.ops (empty_world 0));
    [apply typed_empty|by repeat constructor].
Defined.
