(* ===== verification/Groups.v ===== *)
(** [app/api/routes/groups.py]: creating groups, asking to join them and deciding the
    requests. *)

From S2P Require Import Prelude Effects PyStr Uuid Redis Models World.
From Stdlib Require Import String.

Local Open Scope string_scope.

Record GroupOut := mk_GroupOut {
  go_id : UUID;
  go_name : string;
  go_description : option string;
  go_group_type : string;
  go_is_announcement_group : bool;
  go_join_approval_required : bool;
  go_member_count : Z;
  go_my_role : option string
}.
#[export] Instance eta_GroupOut : Eta GroupOut := λ g,
  mk_GroupOut (go_id g) (go_name g) (go_description g) (go_group_type g)
    (go_is_announcement_group g) (go_join_approval_required g) (go_member_count g)
    (go_my_role g).

(** [GroupOut.model_validate(group)]: a [Group] has neither [member_count] nor
    [my_role]. *)
Definition GroupOut_of (g : Group) : GroupOut :=
  mk_GroupOut (g_id g) (g_name g) (g_description g) (g_group_type g)
    (g_is_announcement_group g) (g_join_approval_required g) 0 None.

Record MemberOut := mk_MemberOut {
  mo_user_id : UUID; mo_full_name : string; mo_role : string; mo_is_muted : bool
}.

Record CreateGroupIn := mk_CreateGroupIn {
  cg_name : string;
  cg_description : option string;
  cg_is_announcement_group : bool;
  cg_join_approval_required : bool
}.

Record JoinRequestOut := mk_JoinRequestOut {
  jo_id : UUID; jo_user_id : UUID; jo_status : string; jo_message : option string;
  jo_created_at : timestamp
}.

(** [JoinRequestOut.model_validate(r)] *)
Definition JoinRequestOut_of (r : GroupJoinRequest) : JoinRequestOut :=
  mk_JoinRequestOut (jr_id r) (jr_user_id r) (jr_status r) (jr_message r) (jr_created_at r).

(** [_membership] *)
Definition in_group (group_id user_id : UUID) (m : GroupMember) : bool :=
  bool_decide (gm_group_id m = group_id) && bool_decide (gm_user_id m = user_id).
Definition membership (group_id user_id : UUID) (t : tables) : option GroupMember :=
  scalar (group_members t) (in_group group_id user_id).

(** [_require_admin_member] *)
Definition require_admin_member (group_id user_id : UUID) : prog world GroupMember :=
  member ← query (membership group_id user_id);
  match member with
  | Some member =>
      if can_manage_members member then mret member
      else raise (HTTPException 403 "group admin role required")
  | None => raise (HTTPException 403 "group admin role required")
  end.

(** [db.add(GroupMember(...))] and [db.add(GroupJoinRequest(...))] with their flush: the
    foreign keys, and one row per group and user. *)
Definition parents_exist (group_id user_id : UUID) (t : tables) : bool :=
  bool_decide (is_Some (groups t !! group_id)) && bool_decide (is_Some (users t !! user_id)).

Definition db_add_member (m : GroupMember) : prog world unit :=
  t ← query id;
  ensure (parents_exist (gm_group_id m) (gm_user_id m) t
          && bool_decide (group_members t !! gm_id m = None)
          && bool_decide (membership (gm_group_id m) (gm_user_id m) t = None))
    (IntegrityError "group_members") ;;
  db_change (λ t, t <| group_members ::= <[gm_id m := m]> |>).

Definition for_group (group_id user_id : UUID) (r : GroupJoinRequest) : bool :=
  bool_decide (jr_group_id r = group_id) && bool_decide (jr_user_id r = user_id).
Definition request_of (group_id user_id : UUID) (t : tables) : option GroupJoinRequest :=
  scalar (join_requests t) (for_group group_id user_id).

Definition db_add_join_request (r : GroupJoinRequest) : prog world unit :=
  t ← query id;
  ensure (parents_exist (jr_group_id r) (jr_user_id r) t
          && bool_decide (join_requests t !! jr_id r = None)
          && bool_decide (request_of (jr_group_id r) (jr_user_id r) t = None))
    (IntegrityError "group_join_requests") ;;
  db_change (λ t, t <| join_requests ::= <[jr_id r := r]> |>).

Definition put_request (r : GroupJoinRequest) : prog world unit :=
  db_change (λ t, t <| join_requests ::= <[jr_id r := r]> |>).

Definition db_add_group (g : Group) : prog world unit :=
  t ← query id;
  ensure (bool_decide (groups t !! g_id g = None)) (IntegrityError "groups") ;;
  db_change (λ t, t <| groups ::= <[g_id g := g]> |>).

(** [my_groups] *)
Definition my_groups (user : User) : prog world (list GroupOut) :=
  rows ← query (λ t, order_by_desc (λ r : Group * string, g_created_at r.1)
    (omap (λ m, match groups t !! gm_group_id m with
                | Some g => if g_is_archived g then None else Some (g, gm_role m)
                | None => None
                end)
       (select (group_members t) (λ m, bool_decide (gm_user_id m = u_id user)))));
  map_each (λ '(group, my_role),
    count ← query (λ t, List.length (select (group_members t)
                          (λ m, bool_decide (gm_group_id m = g_id group))));
    mret ((GroupOut_of group) <| go_member_count := Z.of_nat count |>
                              <| go_my_role := Some my_role |>)) rows.

(** The [Group(...)] and the [GroupMember(...)]s the handlers build. *)
Definition new_group (gid : UUID) (now : timestamp) (body : CreateGroupIn) : Group :=
  mk_Group gid now (cg_name body) (cg_description body) "task_force" 200 false false
    (cg_is_announcement_group body) (cg_join_approval_required body).
Definition new_member (mid group_id user_id : UUID) (role : GroupRole) (now : timestamp)
    : GroupMember :=
  mk_GroupMember mid group_id user_id role now false.

(** [create_group]; [gid] and [mid] are the fresh primary keys. *)
Definition create_group (gid mid : UUID) (body : CreateGroupIn) (user : User)
    : prog world GroupOut :=
  now ← utcnow;
  let group := new_group gid now body in
  db_add_group group ;;
  db_add_member (new_member mid (g_id group) (u_id user) OWNER now) ;;
  add_audit ((audit (Some (u_id user)) GROUP_CREATED true)
    <| al_actor_role := Some (u_role user) |> <| al_resource_type := Some "group" |>
    <| al_resource_id := Some (uuid_str (g_id group)) |>) ;;
  commit ;;
  mret ((GroupOut_of group) <| go_member_count := 1%Z |>
                            <| go_my_role := Some (OWNER : string) |>).

(** [group_members], as a handler *)
Definition group_members_route (group_id : UUID) (user : User) : prog world (list MemberOut) :=
  m ← query (membership group_id (u_id user));
  ensure (bool_decide (m ≠ None)) (HTTPException 403 "not a member of this group") ;;
  rows ← query (λ t, order_by (λ r : GroupMember * string, gm_joined_at r.1)
    (omap (λ m, match users t !! gm_user_id m with
                | Some u => Some (m, u_full_name u)
                | None => None
                end)
       (select (group_members t) (λ m, bool_decide (gm_group_id m = group_id)))));
  mret ((λ '(m, name), mk_MemberOut (gm_user_id m) name (gm_role m) (gm_is_muted m)) <$> rows).

(** The row [request_join] writes: the existing request, or a new one. *)
Definition asked (rid group_id : UUID) (message : option string) (user : User)
    (now : timestamp) (group : Group) (existing : option GroupJoinRequest) : GroupJoinRequest :=
  let req := default (mk_GroupJoinRequest rid now group_id (u_id user) PENDING None None None)
               existing in
  req <| jr_message := message |>
      <| jr_status := if negb (g_join_approval_required group)
                      then (APPROVED : string) else (PENDING : string) |>.

(** [request_join]; [mid] and [rid] are the primary keys of the rows it may add. *)
Definition request_join (mid rid group_id : UUID) (message : option string) (user : User)
    : prog world JoinRequestOut :=
  group ← query (λ t, groups t !! group_id);
  group ← some_or_raise group (HTTPException 404 "group not found");
  ensure (negb (g_is_archived group)) (HTTPException 404 "group not found") ;;
  m ← query (membership group_id (u_id user));
  ensure (bool_decide (m = None)) (HTTPException 409 "already a member") ;;
  existing ← query (request_of group_id (u_id user));
  ensure (negb (match existing with
                | Some r => bool_decide (jr_status r = PENDING)
                | None => false
                end)) (HTTPException 409 "request already pending") ;;
  now ← utcnow;
  (if negb (g_join_approval_required group)
   then db_add_member (new_member mid group_id (u_id user) MEMBER now)
   else mret tt) ;;
  let req := asked rid group_id message user now group existing in
  (match existing with
   | None => db_add_join_request req
   | Some _ => put_request req
   end) ;;
  commit ;;
  mret (JoinRequestOut_of req).

(** [pending_requests] *)
Definition pending_requests (group_id : UUID) (user : User) : prog world (list JoinRequestOut) :=
  require_admin_member group_id (u_id user) ;;
  rows ← query (λ t, select (join_requests t)
    (λ r, bool_decide (jr_group_id r = group_id) && bool_decide (jr_status r = PENDING)));
  mret (JoinRequestOut_of <$> rows).

(** The request [decide_request] looks for. *)
Definition pending_request (group_id request_id : UUID) (t : tables)
    : option GroupJoinRequest :=
  match join_requests t !! request_id with
  | Some r => if bool_decide (jr_group_id r = group_id) && bool_decide (jr_status r = PENDING)
              then Some r else None
  | None => None
  end.

(** A request once [user] has decided it. *)
Definition decided (r : GroupJoinRequest) (approve : bool) (user : User) (now : timestamp)
    : GroupJoinRequest :=
  r <| jr_status := if approve then (APPROVED : string) else (REJECTED : string) |>
    <| jr_decided_by_id := Some (u_id user) |> <| jr_decided_at := Some now |>.

(** [decide_request]; [mid] is the primary key of the membership an approval adds. *)
Definition decide_request (mid group_id request_id : UUID) (approve : bool) (user : User)
    : prog world JoinRequestOut :=
  require_admin_member group_id (u_id user) ;;
  req ← query (pending_request group_id request_id);
  req ← some_or_raise req (HTTPException 404 "pending request not found");
  now ← utcnow;
  let req := decided req approve user now in
  put_request req ;;
  (if (approve : bool) then
     db_add_member (new_member mid group_id (jr_user_id req) MEMBER now) ;;
     add_audit ((audit (Some (u_id user)) GROUP_MEMBER_ADDED true)
       <| al_actor_role := Some (u_role user) |> <| al_resource_type := Some "group" |>
       <| al_resource_id := Some (uuid_str group_id) |>
       <| al_metadata := Some (JObj [("new_member", JStr (uuid_str (jr_user_id req)))]) |>)
   else mret tt) ;;
  commit ;;
  mret (JoinRequestOut_of req).

(** ** What the group tables satisfy *)

(** A decided request says whether its author is a member: [APPROVED] if and only if. *)
Definition settled (t : tables) (r : GroupJoinRequest) : Prop :=
  (jr_status r = PENDING ∨ jr_status r = APPROVED ∨ jr_status r = REJECTED) ∧
  (jr_status r = APPROVED ↔ membership (jr_group_id r) (jr_user_id r) t ≠ None).

Record roster_ok (t : tables) : Prop := {
  gw_group_ids : ∀ k g, groups t !! k = Some g → g_id g = k;
  gw_member_ids : ∀ k m, group_members t !! k = Some m → gm_id m = k;
  gw_request_ids : ∀ k r, join_requests t !! k = Some r → jr_id r = k;
  (* one membership and one request per group and user, of existing rows *)
  gw_one_member : ∀ g u, unique_by (group_members t) (in_group g u);
  gw_one_request : ∀ g u, unique_by (join_requests t) (for_group g u);
  gw_member_of : ∀ k m, group_members t !! k = Some m → is_Some (groups t !! gm_group_id m);
  gw_request_for : ∀ k r, join_requests t !! k = Some r →
    is_Some (groups t !! jr_group_id r) ∧ is_Some (users t !! jr_user_id r);
  (* every group has its owner, and nobody else manages it *)
  gw_owner : ∀ k g, groups t !! k = Some g →
    ∃ u m, membership k u t = Some m ∧ gm_role m = OWNER;
  gw_roles : ∀ k m, group_members t !! k = Some m →
    gm_role m = (OWNER : string) ∨ gm_role m = (MEMBER : string);
  gw_one_owner : ∀ k k' m m', group_members t !! k = Some m → group_members t !! k' = Some m' →
    gm_group_id m = gm_group_id m' → gm_role m = OWNER → gm_role m' = OWNER → k = k'
}.
(** And a request is approved exactly when its author has become a member. *)
Definition groups_wf (t : tables) : Prop :=
  roster_ok t ∧ ∀ k r, join_requests t !! k = Some r → settled t r.

Lemma in_group_iff g u m : in_group g u m = true ↔ gm_group_id m = g ∧ gm_user_id m = u.
Proof. unfold in_group. rewrite andb_true_iff, !bool_decide_eq_true. tauto. Qed.
Lemma for_group_iff g u r : for_group g u r = true ↔ jr_group_id r = g ∧ jr_user_id r = u.
Proof. unfold for_group. rewrite andb_true_iff, !bool_decide_eq_true. tauto. Qed.

Lemma membership_Some g u t m :
  membership g u t = Some m →
  gm_group_id m = g ∧ gm_user_id m = u ∧ ∃ k, group_members t !! k = Some m.
Proof. intros [H ?]%scalar_Some. apply in_group_iff in H. tauto. Qed.

Lemma membership_None g u t k m :
  membership g u t = None → group_members t !! k = Some m →
  gm_group_id m = g → gm_user_id m = u → False.
Proof.
  intros H Hk Hg Hu. pose proof (proj1 (scalar_None _ _) H k m Hk) as E.
  assert (in_group g u m = true) by by apply in_group_iff. congruence.
Qed.

Lemma membership_ext g u t t' :
  group_members t' = group_members t → membership g u t' = membership g u t.
Proof. unfold membership. by intros ->. Qed.

(** The memberships once a fresh one is stored. *)
Lemma membership_add g u t t' m :
  roster_ok t → group_members t' = <[gm_id m := m]> (group_members t) →
  group_members t !! gm_id m = None → membership (gm_group_id m) (gm_user_id m) t = None →
  membership g u t' = if in_group g u m then Some m else membership g u t.
Proof.
  intros Hwf E Hk Hn. unfold membership. rewrite E. apply scalar_insert; [|intros ? E0; rewrite Hk in E0; discriminate E0].
  apply unique_by_insert; [apply (gw_one_member _ Hwf)|].
  intros [<- <-]%in_group_iff k y Hy [Hg Hu]%in_group_iff.
  destruct (membership_None _ _ _ _ _ Hn Hy Hg Hu).
Qed.

(** Storing a membership of a known group for one who has none. *)
Lemma roster_add_member t m :
  roster_ok t → is_Some (groups t !! gm_group_id m) → group_members t !! gm_id m = None →
  membership (gm_group_id m) (gm_user_id m) t = None → gm_role m = MEMBER →
  roster_ok (t <| group_members ::= <[gm_id m := m]> |>).
Proof.
  intros Hwf Hg Hk Hn Hrole. split; cbn; try apply Hwf.
  - intros k m0 [[<- <-]|[_ H]]%lookup_insert_Some; [done|]. by apply Hwf.
  - intros g u. apply unique_by_insert; [apply Hwf|].
    intros [<- <-]%in_group_iff k y Hy [? ?]%in_group_iff.
    destruct (membership_None _ _ _ _ _ Hn Hy); done.
  - intros k m0 [[<- <-]|[_ H]]%lookup_insert_Some; [done|]. by eapply Hwf.
  - intros k g H. destruct (gw_owner _ Hwf k g H) as (u & m0 & Hm0 & Ho). exists u, m0.
    rewrite (membership_add _ _ t _ m) by done. split; [|done].
    destruct (in_group k u m) eqn:E; [|done]. apply in_group_iff in E as [<- <-]. congruence.
  - intros k m0 [[<- <-]|[_ H]]%lookup_insert_Some; [by right|]. by eapply Hwf.
  - intros k k' m0 m' [[<- <-]|[_ H]]%lookup_insert_Some [[<- <-]|[_ H']]%lookup_insert_Some;
      try done; intros ? Ho Ho'; try (cbn in *; congruence). by eapply (gw_one_owner _ Hwf).
Qed.

(** Storing a request in its own row, or in a new one when there was none. *)
Definition request_slot (t : tables) (r : GroupJoinRequest) : Prop :=
  request_of (jr_group_id r) (jr_user_id r) t = None ∨
  ∃ r0, join_requests t !! jr_id r = Some r0 ∧ jr_group_id r0 = jr_group_id r
        ∧ jr_user_id r0 = jr_user_id r.

Lemma request_slot_unique t r k y :
  roster_ok t → request_slot t r → join_requests t !! k = Some y →
  for_group (jr_group_id r) (jr_user_id r) y = true → k = jr_id r.
Proof.
  intros Hwf [Hn|(r0 & Hr0 & Hg & Hu)] Hy Hf.
  - unfold request_of in Hn. rewrite scalar_None in Hn. by rewrite (Hn k y Hy) in Hf.
  - eapply (gw_one_request _ Hwf); [done..|]. by apply for_group_iff.
Qed.

Lemma roster_put_request t r :
  roster_ok t → is_Some (groups t !! jr_group_id r) → is_Some (users t !! jr_user_id r) →
  request_slot t r →
  roster_ok (t <| join_requests ::= <[jr_id r := r]> |>).
Proof.
  intros Hwf Hg Hu Hs. split; cbn; try apply Hwf.
  - intros k m0 [[<- <-]|[_ H]]%lookup_insert_Some; [done|]. by apply Hwf.
  - intros g u. apply unique_by_insert; [apply Hwf|].
    intros [<- <-]%for_group_iff k y Hy Hf. by eapply request_slot_unique.
  - intros k m0 [[<- <-]|[_ H]]%lookup_insert_Some; [done|]. by eapply Hwf.
Qed.

(** A request put, its author's membership as its status says. *)
Lemma wf_put_request t r :
  groups_wf t → is_Some (groups t !! jr_group_id r) → is_Some (users t !! jr_user_id r) →
  request_slot t r → settled t r →
  groups_wf (t <| join_requests ::= <[jr_id r := r]> |>).
Proof.
  intros [Hwf Hset] Hg Hu Hs Hr. split; [by apply roster_put_request|].
  cbn. intros k r' [[<- <-]|[_ H]]%lookup_insert_Some; [done|]. by eapply Hset.
Qed.

(** A request approved and its author admitted. *)
Lemma wf_admit t m r :
  groups_wf t → is_Some (groups t !! gm_group_id m) → is_Some (users t !! gm_user_id m) →
  group_members t !! gm_id m = None →
  membership (gm_group_id m) (gm_user_id m) t = None → gm_role m = MEMBER →
  request_slot t r → jr_group_id r = gm_group_id m → jr_user_id r = gm_user_id m →
  jr_status r = APPROVED →
  groups_wf (t <| group_members ::= <[gm_id m := m]> |> <| join_requests ::= <[jr_id r := r]> |>).
Proof.
  intros [Hwf Hset] Hg Hu Hk Hn Hrole Hs Hrg Hru Hst.
  pose proof (roster_add_member t m Hwf Hg Hk Hn Hrole) as Hwf'.
  split; [apply roster_put_request; [done|by rewrite Hrg|by rewrite Hru|exact Hs]|].
  assert (∀ g u, membership g u
      (t <| group_members ::= <[gm_id m := m]> |> <| join_requests ::= <[jr_id r := r]> |>)
    = if in_group g u m then Some m else membership g u t) as Hmem
    by (intros; by apply membership_add).
  cbn. intros k r' [[<- <-]|[Hne H]]%lookup_insert_Some.
  - split; [tauto|]. rewrite Hmem, Hrg, Hru, (proj2 (in_group_iff _ _ _)); done.
  - destruct (Hset k r' H) as [H1 H2]. split; [done|]. rewrite Hmem, H2.
    destruct (in_group _ _ m) eqn:E; [|done]. apply in_group_iff in E as [E1 E2].
    exfalso. apply Hne. symmetry. eapply request_slot_unique; [done..|].
    apply for_group_iff. split; congruence.
Qed.

(** A group founded with its owner. *)
Lemma wf_found t g m :
  groups_wf t → groups t !! g_id g = None → group_members t !! gm_id m = None →
  gm_group_id m = g_id g → gm_role m = OWNER →
  groups_wf (t <| groups ::= <[g_id g := g]> |> <| group_members ::= <[gm_id m := m]> |>).
Proof.
  intros [Hwf Hset] Hg Hk Hgm Hrole.
  assert (∀ k m0, group_members t !! k = Some m0 → gm_group_id m0 ≠ g_id g) as Hfresh.
  { intros k m0 H E. destruct (gw_member_of _ Hwf k m0 H) as [? ?]. congruence. }
  assert (∀ u, membership (g_id g) u t = None) as Hnone.
  { intros u. destruct (membership _ u t) as [m0|] eqn:E; [|done].
    apply membership_Some in E as (E & _ & k & Hk0). by destruct (Hfresh k m0 Hk0). }
  set (t' := (t <| groups ::= _ |>) <| group_members ::= _ |>).
  assert (∀ g' u, membership g' u t' = if in_group g' u m then Some m else membership g' u t)
    as Hmem by (intros; apply membership_add; [done..|by rewrite Hgm]).
  split; [split; subst t'; cbn; try apply Hwf|].
  - intros k m0 [[<- <-]|[_ H]]%lookup_insert_Some; [done|]. by apply Hwf.
  - intros k m0 [[<- <-]|[_ H]]%lookup_insert_Some; [done|]. by apply Hwf.
  - intros g' u. apply unique_by_insert; [apply Hwf|].
    intros [<- <-]%in_group_iff k y Hy [? ?]%in_group_iff.
    destruct (Hfresh k y Hy). congruence.
  - intros k m0 [[<- <-]|[_ H]]%lookup_insert_Some; [by rewrite Hgm, lookup_insert_eq|].
    rewrite lookup_insert_ne by (intros ?; by eapply Hfresh). by eapply Hwf.
  - intros k r Hr. destruct (gw_request_for _ Hwf k r Hr) as [[g' Hg'] ?]. split; [|done].
    rewrite lookup_insert_ne by congruence. eauto.
  - intros k g' [[<- <-]|[Hne H]]%lookup_insert_Some.
    + exists (gm_user_id m), m. rewrite Hmem, (proj2 (in_group_iff _ _ _)); done.
    + destruct (gw_owner _ Hwf k g' H) as (u & m0 & Hm0 & Ho). exists u, m0. split; [|done].
      rewrite Hmem. destruct (in_group k u m) eqn:E; [|done].
      apply in_group_iff in E as [E _]. congruence.
  - intros k m0 [[<- <-]|[_ H]]%lookup_insert_Some; [by left|]. by eapply Hwf.
  - intros k k' m0 m' [[<- <-]|[_ H]]%lookup_insert_Some [[<- <-]|[_ H']]%lookup_insert_Some;
      try done; intros Heq Ho Ho'.
    + destruct (Hfresh k' m' H'). congruence.
    + destruct (Hfresh k m0 H). congruence.
    + by eapply (gw_one_owner _ Hwf).
  - intros k r Hr. destruct (Hset k r Hr) as [H1 H2]. split; [done|].
    rewrite Hmem, H2. destruct (in_group _ _ m) eqn:E; [|done].
    apply in_group_iff in E as [E1 E2]. destruct (gw_request_for _ Hwf k r Hr) as [[? ?] _].
    congruence.
Qed.

(** ** Running the handlers *)

(** A primary key no row uses yet. *)
Definition fresh_for {A} (t : gmap UUID A) (k : UUID) : Prop := t !! k = None.

Lemma parents_exist_iff g u t :
  parents_exist g u t = true ↔ is_Some (groups t !! g) ∧ is_Some (users t !! u).
Proof. unfold parents_exist. rewrite andb_true_iff, !bool_decide_eq_true. done. Qed.

Lemma db_add_member_ok m w u w' :
  db_add_member m w = (Ok u, w') →
  w' = w <| w_tables ::= over group_members (<[gm_id m := m]>) |> ∧
  is_Some (groups (w_tables w) !! gm_group_id m) ∧ is_Some (users (w_tables w) !! gm_user_id m)
  ∧ group_members (w_tables w) !! gm_id m = None
  ∧ membership (gm_group_id m) (gm_user_id m) (w_tables w) = None.
Proof.
  intros H. unfold db_add_member in H. invert_ok H. invert_world. cbn [id] in *.
  reflect_bools. destruct (proj1 (parents_exist_iff _ _ _) H). done.
Qed.

Lemma db_add_member_run m w :
  is_Some (groups (w_tables w) !! gm_group_id m) → is_Some (users (w_tables w) !! gm_user_id m) →
  group_members (w_tables w) !! gm_id m = None →
  membership (gm_group_id m) (gm_user_id m) (w_tables w) = None →
  db_add_member m w = (Ok tt, w <| w_tables ::= over group_members (<[gm_id m := m]>) |>).
Proof.
  intros Hg Hu Hk Hn. unfold db_add_member. wstep. cbn [id].
  rewrite (proj2 (parents_exist_iff _ _ _)), !bool_decide_eq_true_2 by done. done.
Qed.

Lemma db_add_member_err m w e w' : db_add_member m w = (Err e, w') → w' = w.
Proof. intros H. unfold db_add_member in H. invert_err H; by invert_world. Qed.

Lemma db_add_join_request_ok r w u w' :
  db_add_join_request r w = (Ok u, w') →
  w' = w <| w_tables ::= over join_requests (<[jr_id r := r]>) |> ∧
  is_Some (groups (w_tables w) !! jr_group_id r) ∧ is_Some (users (w_tables w) !! jr_user_id r)
  ∧ join_requests (w_tables w) !! jr_id r = None
  ∧ request_of (jr_group_id r) (jr_user_id r) (w_tables w) = None.
Proof.
  intros H. unfold db_add_join_request in H. invert_ok H. invert_world. cbn [id] in *.
  reflect_bools. destruct (proj1 (parents_exist_iff _ _ _) H). done.
Qed.

Lemma db_add_join_request_run r w :
  is_Some (groups (w_tables w) !! jr_group_id r) → is_Some (users (w_tables w) !! jr_user_id r) →
  join_requests (w_tables w) !! jr_id r = None →
  request_of (jr_group_id r) (jr_user_id r) (w_tables w) = None →
  db_add_join_request r w = (Ok tt, w <| w_tables ::= over join_requests (<[jr_id r := r]>) |>).
Proof.
  intros Hg Hu Hk Hn. unfold db_add_join_request. wstep. cbn [id].
  rewrite (proj2 (parents_exist_iff _ _ _)), !bool_decide_eq_true_2 by done. done.
Qed.


Section Handlers.
Implicit Types w : world.

(** The tables a handler has left, all of them committed. *)
Definition leaves w (t : tables) w' : Prop :=
  w' = w <| w_tables := t |> <| w_committed := t |>.

Lemma create_group_ok gid mid body user w out w' :
  create_group gid mid body user w = (Ok out, w') →
  let t := w_tables w in
  let g := new_group gid (w_now w) body in
  let m := new_member mid gid (u_id user) OWNER (w_now w) in
  groups t !! gid = None ∧ group_members t !! mid = None ∧ is_Some (users t !! u_id user) ∧
  ∃ a, leaves w (t <| groups ::= <[gid := g]> |> <| group_members ::= <[mid := m]> |>
                   <| audit_logs ::= λ l, (l ++ [a])%list |>) w'.
Proof.
  intros H. unfold create_group, db_add_group in H. cbv zeta in H. invert_ok H. invert_world.
  apply db_add_member_ok in Hrun2 as (-> & _ & Hu & Hk & _).
  reflect_bools. cbn in *. split_and!; [done..|]. eexists. done.
Qed.

Definition join_tables (mid rid gid : UUID) (message : option string) (user : User)
    (now : timestamp) (g : Group) (t : tables) : tables :=
  let r := asked rid gid message user now g (request_of gid (u_id user) t) in
  (if g_join_approval_required g then t
   else t <| group_members ::= <[mid := new_member mid gid (u_id user) MEMBER now]> |>)
  <| join_requests ::= <[jr_id r := r]> |>.

Lemma request_join_ok mid rid gid message user w out w' :
  request_join mid rid gid message user w = (Ok out, w') →
  let t := w_tables w in
  ∃ g, groups t !! gid = Some g ∧ g_is_archived g = false ∧
    membership gid (u_id user) t = None ∧
    (∀ r, request_of gid (u_id user) t = Some r → jr_status r ≠ PENDING) ∧
    (g_join_approval_required g = false → group_members t !! mid = None) ∧
    (request_of gid (u_id user) t = None → is_Some (users t !! u_id user)) ∧
    out = JoinRequestOut_of (asked rid gid message user (w_now w) g
                               (request_of gid (u_id user) t)) ∧
    leaves w (join_tables mid rid gid message user (w_now w) g t) w'.
Proof.
  intros H. cbv zeta. unfold request_join in H. invert_ok H.
  all: invert_world; reflect_bools.
  all: match goal with E : _ = request_of _ _ _ |- _ => rewrite <- E end.
  all: match goal with E : groups _ !! _ = Some ?g |- _ =>
         exists g; split; [exact E|]; unfold join_tables end.
  all: split; [done|]; split; [done|]; split; [by intros ? [= <-] || done|].
  all: try (match goal with E : db_add_member _ _ = _ |- _ =>
         apply db_add_member_ok in E as (-> & _ & _ & Hk & _) end).
  all: try (match goal with E : db_add_join_request _ _ = _ |- _ =>
         apply db_add_join_request_ok in E as (-> & _ & Hu & _) end).
  all: unfold put_request in *; invert_world.
  all: match goal with E : _ = request_of _ _ _ |- _ => rewrite <- E end.
  all: match goal with E : g_join_approval_required _ = _ |- _ => rewrite E end.
  all: cbn in *; done.
Qed.

Lemma require_admin_ok gid uid w m w' :
  require_admin_member gid uid w = (Ok m, w') →
  w' = w ∧ membership gid uid (w_tables w) = Some m ∧ can_manage_members m = true.
Proof.
  intros H. unfold require_admin_member in H. invert_ok H. invert_world.
  destruct (membership _ _ _) as [m0|]; [|done].
  destruct (can_manage_members m0) eqn:E; [|done]. by injection H as <- <-.
Qed.

Lemma require_admin_run gid uid w :
  require_admin_member gid uid w =
  (match membership gid uid (w_tables w) with
   | Some m => if can_manage_members m then Ok m
               else Err (HTTPException 403 "group admin role required")
   | None => Err (HTTPException 403 "group admin role required")
   end, w).
Proof.
  unfold require_admin_member. rewrite query_step.
  destruct (membership _ _ _) as [m|]; [|done]. by destruct (can_manage_members m).
Qed.

Definition decide_tables (mid gid : UUID) (r : GroupJoinRequest) (approve : bool)
    (user : User) (now : timestamp) (t : tables) : tables :=
  let t := t <| join_requests ::= <[jr_id r := decided r approve user now]> |> in
  if approve then
    t <| group_members ::= <[mid := new_member mid gid (jr_user_id r) MEMBER now]> |>
      <| audit_logs ::= λ l, (l ++ [(audit (Some (u_id user)) GROUP_MEMBER_ADDED true)
           <| al_actor_role := Some (u_role user) |> <| al_resource_type := Some "group" |>
           <| al_resource_id := Some (uuid_str gid) |>
           <| al_metadata := Some (JObj [("new_member", JStr (uuid_str (jr_user_id r)))]) |>])%list |>
  else t.

Lemma decide_request_ok mid gid rid approve user w out w' :
  decide_request mid gid rid approve user w = (Ok out, w') →
  let t := w_tables w in
  ∃ m r, membership gid (u_id user) t = Some m ∧ can_manage_members m = true ∧
    pending_request gid rid t = Some r ∧
    (approve = true → group_members t !! mid = None ∧ membership gid (jr_user_id r) t = None
                      ∧ is_Some (groups t !! gid) ∧ is_Some (users t !! jr_user_id r)) ∧
    out = JoinRequestOut_of (decided r approve user (w_now w)) ∧
    leaves w (decide_tables mid gid r approve user (w_now w) t) w'.
Proof.
  intros H. cbv zeta. unfold decide_request in H. invert_ok H.
  all: match goal with E : require_admin_member _ _ _ = (Ok ?m, _) |- _ =>
         apply require_admin_ok in E as (-> & Hm & Hcan); exists m end.
  all: unfold put_request in *; invert_world.
  all: match goal with E : pending_request _ _ _ = Some ?r |- _ => exists r; rewrite E end.
  all: split; [done|]; split; [done|]; split; [done|].
  - match goal with E : db_add_member _ _ = _ |- _ =>
      apply db_add_member_ok in E as (-> & Hg & Hu & Hk & Hn) end.
    invert_world. done.
  - done.
Qed.

(** A handler that raises has committed nothing. *)
Definition atomic {A} (h : prog world A) : Prop :=
  ∀ w e w', h w = (Err e, w') → w_committed w' = w_committed w.

Lemma db_add_join_request_err r w e w' : db_add_join_request r w = (Err e, w') → w' = w.
Proof. intros H. unfold db_add_join_request in H. invert_err H; by invert_world. Qed.

Ltac atomic_member :=
  repeat match goal with
  | E : db_add_member _ _ = (Err _, _) |- _ => apply db_add_member_err in E as ->
  | E : db_add_member _ _ = (Ok _, _) |- _ => apply db_add_member_ok in E as (-> & _)
  | E : db_add_join_request _ _ = (Err _, _) |- _ => apply db_add_join_request_err in E as ->
  | E : db_add_join_request _ _ = (Ok _, _) |- _ => apply db_add_join_request_ok in E as (-> & _)
  | E : require_admin_member _ _ _ = (Ok _, _) |- _ => apply require_admin_ok in E as (-> & _)
  | E : require_admin_member _ _ _ = (Err _, _) |- _ =>
      rewrite require_admin_run in E; injection E as _ <-
  end.

Lemma create_group_atomic gid mid body user : atomic (create_group gid mid body user).
Proof.
  intros w e w' H. unfold create_group, db_add_group in H. cbv zeta in H.
  invert_err H; invert_world; atomic_member; done.
Qed.
Lemma request_join_atomic mid rid gid message user :
  atomic (request_join mid rid gid message user).
Proof.
  intros w e w' H. unfold request_join, put_request in H. cbv zeta in H.
  invert_err H; invert_world; atomic_member; invert_world; atomic_member; done.
Qed.
Lemma decide_request_atomic mid gid rid approve user :
  atomic (decide_request mid gid rid approve user).
Proof.
  intros w e w' H. unfold decide_request, put_request in H. cbv zeta in H.
  invert_err H; atomic_member; invert_world; atomic_member; done.
Qed.
End Handlers.

(** ** The handlers on well-formed tables *)

Lemma wf_ext t t' :
  users t' = users t → groups t' = groups t → group_members t' = group_members t →
  join_requests t' = join_requests t → groups_wf t → groups_wf t'.
Proof.
  intros Eu Eg Em Er [[] Hset].
  split; [split|]; unfold settled, membership in *; rewrite ?Eu, ?Eg, ?Em, ?Er; done.
Qed.

Lemma pending_request_Some gid rid t r :
  pending_request gid rid t = Some r ↔
  join_requests t !! rid = Some r ∧ jr_group_id r = gid ∧ jr_status r = PENDING.
Proof.
  unfold pending_request. destruct (join_requests t !! rid) as [r0|]; [|naive_solver].
  destruct (_ && _) eqn:E; [|rewrite andb_false_iff, !bool_decide_eq_false in E; naive_solver].
  reflect_bools. naive_solver.
Qed.

Lemma request_of_Some gid uid t r :
  request_of gid uid t = Some r →
  jr_group_id r = gid ∧ jr_user_id r = uid ∧ ∃ k, join_requests t !! k = Some r.
Proof. intros [H ?]%scalar_Some. apply for_group_iff in H. tauto. Qed.

(** The author of a pending request is not a member yet. *)
Lemma pending_outside t k r :
  groups_wf t → join_requests t !! k = Some r → jr_status r = PENDING →
  membership (jr_group_id r) (jr_user_id r) t = None.
Proof.
  intros [_ Hset] Hk Hp. destruct (Hset k r Hk) as [_ H]. rewrite Hp in H.
  destruct (membership _ _ _); [|done]. discriminate (proj2 H ltac:(done)).
Qed.

Lemma asked_slot rid gid message user now g t :
  groups_wf t →
  let e := request_of gid (u_id user) t in
  let r := asked rid gid message user now g e in
  jr_group_id r = gid ∧ jr_user_id r = u_id user ∧ request_slot t r ∧
  jr_status r = (if g_join_approval_required g then PENDING : string else APPROVED : string).
Proof.
  intros [Hwf _]. cbv zeta. destruct (request_of gid (u_id user) t) as [r0|] eqn:E.
  - pose proof E as (Hg & Hu & k & Hk)%request_of_Some. cbn [asked default].
    split_and!; try done; [|cbn; by destruct (g_join_approval_required g)].
    right. exists r0. cbn. by rewrite (gw_request_ids _ Hwf k r0 Hk).
  - split_and!; try done; [by left|cbn; by destruct (g_join_approval_required g)].
Qed.

Lemma wf_create t gid mid body user now a :
  groups_wf t → groups t !! gid = None → group_members t !! mid = None →
  groups_wf (t <| groups ::= <[gid := new_group gid now body]> |>
               <| group_members ::= <[mid := new_member mid gid (u_id user) OWNER now]> |>
               <| audit_logs ::= λ l, (l ++ [a])%list |>).
Proof.
  intros Hwf Hg Hm.
  pose proof (wf_found t (new_group gid now body) (new_member mid gid (u_id user) OWNER now)
    Hwf Hg Hm eq_refl eq_refl) as H.
  revert H. by apply wf_ext.
Qed.

Lemma wf_join t mid rid gid message user now g :
  groups_wf t → groups t !! gid = Some g →
  (request_of gid (u_id user) t = None → is_Some (users t !! u_id user)) →
  membership gid (u_id user) t = None →
  (g_join_approval_required g = false → group_members t !! mid = None) →
  groups_wf (join_tables mid rid gid message user now g t).
Proof.
  intros Hwf Hg Hu0 Hn Hk. unfold join_tables.
  assert (is_Some (users t !! u_id user)) as Hu.
  { destruct (request_of gid (u_id user) t) as [r|] eqn:E; [|by apply Hu0].
    apply request_of_Some in E as (_ & <- & k & E). apply (gw_request_for _ (proj1 Hwf) _ _ E). }
  destruct (asked_slot rid gid message user now g t Hwf) as (Erg & Eru & Hslot & Est).
  cbv zeta in *. set (r := asked _ _ _ _ _ _ _) in *.
  destruct (g_join_approval_required g) eqn:Happ.
  - apply wf_put_request; [done|by rewrite Erg, Hg|by rewrite Eru|done|].
    split; [by left|]. by rewrite Est, Erg, Eru, Hn.
  - apply (wf_admit t (new_member mid gid (u_id user) MEMBER now)); cbn; try done; eauto.
Qed.

Lemma wf_decide t mid gid rid r approve user now :
  groups_wf t → pending_request gid rid t = Some r →
  (approve = true → group_members t !! mid = None) →
  groups_wf (decide_tables mid gid r approve user now t).
Proof.
  intros Hwf (Hr & Hg & Hp)%pending_request_Some Hk. subst gid.
  pose proof (pending_outside t rid r Hwf Hr Hp) as Hn.
  destruct (gw_request_for _ (proj1 Hwf) _ _ Hr) as [Hgr Hus].
  pose proof (gw_request_ids _ (proj1 Hwf) _ _ Hr) as Hid. subst rid.
  set (r' := decided r approve user now).
  assert (request_slot t r') as Hslot by (right; by exists r).
  unfold decide_tables. destruct approve.
  - pose proof (wf_admit t (new_member mid (jr_group_id r) (jr_user_id r) MEMBER now) r'
      Hwf Hgr Hus (Hk eq_refl) Hn eq_refl Hslot eq_refl eq_refl eq_refl) as H.
    revert H. by apply wf_ext.
  - apply (wf_put_request t r'); try done.
    split; [by right; right|]. cbn. by rewrite Hn.
Qed.

(** ** The group routes as a system *)

Inductive group_op :=
| OpCreate (gid mid : UUID) (body : CreateGroupIn) (user : User)
| OpJoin (mid rid group_id : UUID) (message : option string) (user : User)
| OpDecide (mid group_id request_id : UUID) (approve : bool) (user : User)
| OpWait (d : Z).

(** Each request runs in a session of its own. *)
Definition run_group_op (op : group_op) (w : world) : world :=
  match op with
  | OpCreate gid mid body user => (get_db (create_group gid mid body user) w).2
  | OpJoin mid rid gid message user => (get_db (request_join mid rid gid message user) w).2
  | OpDecide mid gid rid approve user => (get_db (decide_request mid gid rid approve user) w).2
  | OpWait d => elapse d w
  end.
Definition run_group_ops (ops : list group_op) (w : world) : world := foldl (flip run_group_op) w ops.

Lemma get_db_atomic {A} (h : prog world A) w :
  atomic h →
  let w0 := w <| w_tables := w_committed w |> in
  (∃ e, (get_db h w).1 = Err e ∧ (h w0).1 = Err e ∧ w_committed (get_db h w).2 = w_committed w) ∨
  (∃ a w1, h w0 = (Ok a, w1) ∧ get_db h w = (Ok a, w1 <| w_committed := w_tables w1 |>)).
Proof.
  intros Hat. cbv zeta. set (w0 := w <| w_tables := w_committed w |>).
  assert (get_db h w = try_except (r ← h; commit ;; mret r) (λ e, rollback ;; raise e) w0) as ->
    by done.
  destruct (h w0) as [[a|e] w1] eqn:E; unfold try_except.
  - right. exists a, w1. split; [done|]. by rewrite (step_ok _ _ w0 a w1).
  - left. exists e. rewrite (step_err _ _ w0 e w1) by done. split; [done|]. split; [done|].
    apply (Hat _ _ _ E).
Qed.

(** What an operation does to the committed tables: nothing, or a handler's work. *)
Lemma group_op_cases op w :
  let t := w_committed w in
  let t' := w_committed (run_group_op op w) in
  t' = t ∨
  match op with
  | OpCreate gid mid body user =>
      groups t !! gid = None ∧ group_members t !! mid = None ∧ is_Some (users t !! u_id user) ∧
      ∃ a, t' = t <| groups ::= <[gid := new_group gid (w_now w) body]> |>
                  <| group_members ::= <[mid := new_member mid gid (u_id user) OWNER (w_now w)]> |>
                  <| audit_logs ::= λ l, (l ++ [a])%list |>
  | OpJoin mid rid gid message user =>
      ∃ g, groups t !! gid = Some g ∧ g_is_archived g = false ∧
        membership gid (u_id user) t = None ∧
        (g_join_approval_required g = false → group_members t !! mid = None) ∧
        (request_of gid (u_id user) t = None → is_Some (users t !! u_id user)) ∧
        t' = join_tables mid rid gid message user (w_now w) g t
  | OpDecide mid gid rid approve user =>
      ∃ m r, membership gid (u_id user) t = Some m ∧ can_manage_members m = true ∧
        pending_request gid rid t = Some r ∧
        (approve = true → group_members t !! mid = None ∧ membership gid (jr_user_id r) t = None) ∧
        t' = decide_tables mid gid r approve user (w_now w) t
  | OpWait _ => False
  end.
Proof.
  cbv zeta. destruct op as [gid mid body user|mid rid gid message user
    |mid gid rid approve user|d]; cbn [run_group_op]; [| | |by left].
  - destruct (get_db_atomic (create_group gid mid body user) w) as [(e & _ & _ & E)|(out & w1 & E & Eg)];
      [apply create_group_atomic|by left|]. right. rewrite Eg.
    apply create_group_ok in E as (H1 & H2 & H3 & a & H).
    unfold leaves in H. subst w1. split_and!; [done..|by exists a].
  - destruct (get_db_atomic (request_join mid rid gid message user) w) as [(e & _ & _ & E)|(out & w1 & E & Eg)];
      [apply request_join_atomic|by left|]. right. rewrite Eg.
    apply request_join_ok in E as (g & H1 & H2 & H3 & _ & H4 & H5 & _ & H).
    unfold leaves in H. subst w1. exists g. split_and!; done.
  - destruct (get_db_atomic (decide_request mid gid rid approve user) w) as [(e & _ & _ & E)|(out & w1 & E & Eg)];
      [apply decide_request_atomic|by left|]. right. rewrite Eg.
    apply decide_request_ok in E as (m & r & H1 & H2 & H3 & H4 & _ & H).
    unfold leaves in H. subst w1. exists m, r. split_and!; try done. intros Ha. destruct (H4 Ha) as (? & ? & ?). done.
Qed.

Lemma run_group_op_wf op w :
  groups_wf (w_committed w) → groups_wf (w_committed (run_group_op op w)).
Proof.
  intros Hwf. destruct (group_op_cases op w) as [->|H]; [done|].
  destruct op as [gid mid body user|mid rid gid message user|mid gid rid approve user|d].
  - destruct H as (Hg & Hm & _ & a & ->). by apply wf_create.
  - destruct H as (g & Hg & _ & Hn & Hk & Hu & ->). by apply wf_join.
  - destruct H as (m & r & _ & _ & Hr & Hk & ->). eapply wf_decide; [done..|].
    intros Ha. by destruct (Hk Ha).
  - done.
Qed.

Lemma manager_owner t g u m :
  groups_wf t → membership g u t = Some m → can_manage_members m = true → gm_role m = OWNER.
Proof.
  intros [Hwf _] (_ & _ & k & Hk)%membership_Some Hcan.
  destruct (gw_roles _ Hwf _ _ Hk) as [|E]; [done|].
  unfold can_manage_members in Hcan. by rewrite E in Hcan.
Qed.

Lemma membership_join t mid rid gid message user now g h u :
  groups_wf t → membership gid (u_id user) t = None →
  (g_join_approval_required g = false → group_members t !! mid = None) →
  membership h u (join_tables mid rid gid message user now g t) =
  if negb (g_join_approval_required g) && in_group h u (new_member mid gid (u_id user) MEMBER now)
  then Some (new_member mid gid (u_id user) MEMBER now) else membership h u t.
Proof.
  intros [Hwf _] Hn Hk. unfold join_tables.
  destruct (g_join_approval_required g); [done|]. cbn [negb andb].
  by apply membership_add; auto.
Qed.

Lemma membership_decide t mid gid r approve user now h u :
  groups_wf t →
  (approve = true → group_members t !! mid = None ∧ membership gid (jr_user_id r) t = None) →
  membership h u (decide_tables mid gid r approve user now t) =
  if approve && in_group h u (new_member mid gid (jr_user_id r) MEMBER now)
  then Some (new_member mid gid (jr_user_id r) MEMBER now) else membership h u t.
Proof.
  intros [Hwf _] Hk. unfold decide_tables. destruct approve; [|done].
  destruct Hk as [Hk Hn]; [done|]. cbn [andb]. by apply membership_add.
Qed.

(** The branch of [request_join] that succeeds. *)
Lemma request_join_run mid rid gid message user w g :
  let t := w_tables w in
  groups t !! gid = Some g → g_is_archived g = false → is_Some (users t !! u_id user) →
  membership gid (u_id user) t = None →
  (∀ r, request_of gid (u_id user) t = Some r → jr_status r ≠ PENDING) →
  group_members t !! mid = None → join_requests t !! rid = None →
  let t' := join_tables mid rid gid message user (w_now w) g t in
  request_join mid rid gid message user w =
  (Ok (JoinRequestOut_of (asked rid gid message user (w_now w) g (request_of gid (u_id user) t))),
   w <| w_tables := t' |> <| w_committed := t' |>).
Proof.
  cbv zeta. intros Hg Ha Hu Hn Hp Hm Hr. unfold request_join, join_tables, put_request.
  rewrite query_step, Hg, some_step, Ha. cbn [negb].
  rewrite ensure_true_step, query_step, Hn. rewrite bool_decide_eq_true_2 by done.
  rewrite ensure_true_step, query_step.
  assert (negb match request_of gid (u_id user) (w_tables w) with
     | Some r => bool_decide (jr_status r = PENDING) | None => false end = true) as ->.
  { destruct (request_of _ _ _) as [r|] eqn:E; [|done]. by rewrite bool_decide_eq_false_2 by auto. }
  rewrite ensure_true_step, utcnow_step.
  destruct (g_join_approval_required g); cbn [negb];
    [rewrite mret_step|rewrite (step_ok _ _ _ _ _ (db_add_member_run (new_member mid gid (u_id user) MEMBER (w_now w)) w
      (mk_is_Some _ _ Hg) Hu Hm Hn))];
    (destruct (request_of gid (u_id user) (w_tables w)) as [r|] eqn:E; [done|]);
    (erewrite step_ok by (apply db_add_join_request_run; [by exists g|done..]); done).
Qed.

Lemma request_of_put t t' r :
  roster_ok t → request_slot t r → join_requests t' = <[jr_id r := r]> (join_requests t) →
  request_of (jr_group_id r) (jr_user_id r) t' = Some r.
Proof.
  intros Hwf Hs E. unfold request_of. rewrite E. apply (scalar_by _ _ (jr_id r)).
  - apply unique_by_insert; [apply (gw_one_request _ Hwf)|].
    intros _ k y Hy Hf. by eapply request_slot_unique.
  - by rewrite lookup_insert_eq.
  - by apply for_group_iff.
Qed.

Lemma request_of_join t mid rid gid message user now g :
  groups_wf t →
  request_of gid (u_id user) (join_tables mid rid gid message user now g t) =
  Some (asked rid gid message user now g (request_of gid (u_id user) t)).
Proof.
  intros Hwf. destruct (asked_slot rid gid message user now g t Hwf) as (Erg & Eru & Hslot & _).
  cbv zeta in *. set (r := asked _ _ _ _ _ _ _) in *.
  pose proof (request_of_put t (join_tables mid rid gid message user now g t) r
    (proj1 Hwf) Hslot) as H.
  rewrite Erg, Eru in H. apply H. unfold join_tables. by destruct (g_join_approval_required g).
Qed.

(** The branch of [decide_request] that succeeds. *)
Lemma decide_request_run mid gid rid approve user w m req :
  let t := w_tables w in
  groups_wf t → group_members t !! mid = None →
  membership gid (u_id user) t = Some m → can_manage_members m = true →
  pending_request gid rid t = Some req →
  let t' := decide_tables mid gid req approve user (w_now w) t in
  decide_request mid gid rid approve user w =
  (Ok (JoinRequestOut_of (decided req approve user (w_now w))),
   w <| w_tables := t' |> <| w_committed := t' |>).
Proof.
  cbv zeta. intros Hwf Hk Hm Hcan Hreq. unfold decide_request, put_request, decide_tables.
  rewrite (step_ok _ _ w m w) by (by rewrite require_admin_run, Hm, Hcan).
  rewrite query_step, Hreq, some_step. wstep. destruct approve; [|done].
  apply pending_request_Some in Hreq as (Hr & Hg & Hp).
  pose proof (pending_outside _ _ _ Hwf Hr Hp) as Hn.
  destruct (gw_request_for _ (proj1 Hwf) _ _ Hr) as [Hgr Hus]. rewrite Hg in *.
  rewrite step_assoc. erewrite step_ok by (by apply db_add_member_run). by wstep.
Qed.

Lemma pending_request_decided t mid gid rid req approve user now :
  groups_wf t → pending_request gid rid t = Some req →
  pending_request gid rid (decide_tables mid gid req approve user now t) = None.
Proof.
  intros [Hwf _] (Hr & _)%pending_request_Some. pose proof (gw_request_ids _ Hwf _ _ Hr) as <-.
  assert (join_requests (decide_tables mid gid req approve user now t) =
    <[jr_id req := decided req approve user now]> (join_requests t)) as E
    by by destruct approve.
  unfold pending_request. rewrite E, lookup_insert_eq.
  destruct approve; by rewrite andb_false_r.
Qed.

Lemma request_of_decided t mid rid req approve user now :
  groups_wf t → join_requests t !! rid = Some req →
  request_of (jr_group_id req) (jr_user_id req)
    (decide_tables mid (jr_group_id req) req approve user now t) =
  Some (decided req approve user now).
Proof.
  intros [Hwf _] Hr. pose proof (gw_request_ids _ Hwf _ _ Hr) as <-.
  apply (request_of_put t _ (decided req approve user now)); [done|by right; exists req|].
  by destruct approve.
Qed.

(** C10. The group routes keep the tables well-formed: one membership and one request per
    group and user, an owner for every group who alone manages it, a request approved
    exactly when its author is a member - whatever sequence of requests is served. *)
Theorem groups_invariant ops w :
  groups_wf (w_committed w) → groups_wf (w_committed (run_group_ops ops w)).
Proof.
  revert w. induction ops as [|op ops IH]; intros w Hwf; [done|].
  cbn. by apply IH, run_group_op_wf.
Qed.

(** C11. Nobody becomes a member of a group but by founding it (as its owner), by joining it
    while it is open and not archived, or by the approval, by the group's owner, of the
    pending request he made. *)
Theorem membership_origin op w g u m :
  groups_wf (w_committed w) →
  let t := w_committed w in
  membership g u t = None →
  membership g u (w_committed (run_group_op op w)) = Some m →
  match op with
  | OpCreate gid _ _ user => g = gid ∧ u = u_id user ∧ gm_role m = OWNER
  | OpJoin _ _ gid _ user =>
      g = gid ∧ u = u_id user ∧ gm_role m = MEMBER ∧
      ∃ group, groups t !! g = Some group ∧ g_join_approval_required group = false
               ∧ g_is_archived group = false
  | OpDecide _ gid rid approve user =>
      g = gid ∧ approve = true ∧ gm_role m = MEMBER ∧
      (∃ owner, membership g (u_id user) t = Some owner ∧ gm_role owner = OWNER) ∧
      ∃ r, pending_request g rid t = Some r ∧ jr_user_id r = u
  | OpWait _ => False
  end.
Proof.
  cbv zeta. intros Hwf Hn Hm. destruct (group_op_cases op w) as [E|H]; [congruence|].
  destruct op as [gid mid body user|mid rid gid message user|mid gid rid approve user|d].
  - destruct H as (Hg & Hk & _ & a & E). rewrite E in Hm.
    set (t0 := w_committed w) in *.
    assert (membership gid (u_id user) t0 = None) as Hn0.
    { destruct (membership gid _ t0) as [m0|] eqn:E0; [|done].
      apply membership_Some in E0 as (<- & _ & k & E0).
      destruct (gw_member_of _ (proj1 Hwf) _ _ E0). congruence. }
    rewrite (membership_add _ _ t0 _ (new_member mid gid (u_id user) OWNER (w_now w))) in Hm
      by (apply Hwf || done).
    destruct (in_group _ _ _) eqn:Ei; [|congruence]. apply in_group_iff in Ei as [<- <-].
    by injection Hm as <-.
  - destruct H as (G & HG & Ha & Hn0 & Hk & _ & E). rewrite E, membership_join in Hm by done.
    destruct (g_join_approval_required G) eqn:Happ; cbn [negb andb] in Hm; [congruence|].
    destruct (in_group _ _ _) eqn:Ei; [|congruence]. apply in_group_iff in Ei as [<- <-].
    injection Hm as <-. split_and!; eauto.
  - destruct H as (a & r & Ha & Hcan & Hr & Hk & E). rewrite E, membership_decide in Hm by done.
    destruct approve; cbn [andb] in Hm; [|congruence].
    destruct (in_group _ _ _) eqn:Ei; [|congruence]. apply in_group_iff in Ei as [<- <-].
    injection Hm as <-. split_and!; try done; [|by exists r].
    exists a. split; [done|]. by eapply manager_owner.
  - done.
Qed.

(** [request_join]: an unknown or archived group is 404; a member, or a user whose request
    is pending, is refused with 409; otherwise the user is admitted at once when the group is
    open, and left with a pending request when it is not. No other membership changes. *)
Theorem request_join_spec mid rid gid message user w :
  groups_wf (w_tables w) → is_Some (users (w_tables w) !! u_id user) →
  group_members (w_tables w) !! mid = None → join_requests (w_tables w) !! rid = None →
  let t := w_tables w in
  let '(r, w') := request_join mid rid gid message user w in
  match groups t !! gid with
  | Some g =>
      if g_is_archived g then r = Err (HTTPException 404 "group not found") ∧ w' = w
      else if bool_decide (is_Some (membership gid (u_id user) t)) then
        r = Err (HTTPException 409 "already a member") ∧ w' = w
      else if bool_decide (jr_status <$> request_of gid (u_id user) t = Some (PENDING : string)) then
        r = Err (HTTPException 409 "request already pending") ∧ w' = w
      else
        ∃ req, r = Ok (JoinRequestOut_of req) ∧
          request_of gid (u_id user) (w_committed w') = Some req ∧
          jr_message req = message ∧
          jr_status req = (if g_join_approval_required g then PENDING : string
                           else APPROVED : string) ∧
          ∀ h u, membership h u (w_committed w') =
            if negb (g_join_approval_required g)
               && in_group h u (new_member mid gid (u_id user) MEMBER (w_now w))
            then Some (new_member mid gid (u_id user) MEMBER (w_now w))
            else membership h u t
  | None => r = Err (HTTPException 404 "group not found") ∧ w' = w
  end.
Proof.
  intros Hwf Hu Hm Hr. cbv zeta. destruct (request_join _ _ _ _ _ w) as [r w'] eqn:E.
  destruct (groups (w_tables w) !! gid) as [g|] eqn:Hg.
  2: { unfold request_join in E. rewrite query_step, Hg, none_step in E. by injection E as <- <-. }
  pose proof E as E0. unfold request_join in E. rewrite query_step, Hg, some_step in E.
  destruct (g_is_archived g) eqn:Harch; cbn [negb] in E.
  { rewrite ensure_false_step in E. by injection E as <- <-. }
  rewrite ensure_true_step, query_step in E.
  destruct (membership gid (u_id user) (w_tables w)) as [m|] eqn:Hmem.
  { rewrite bool_decide_eq_false_2, ensure_false_step in E by done.
    rewrite bool_decide_eq_true_2 by done. by injection E as <- <-. }
  rewrite bool_decide_eq_true_2, ensure_true_step, query_step in E by done.
  rewrite bool_decide_eq_false_2 by (by intros []).
  destruct (request_of gid (u_id user) (w_tables w)) as [r0|] eqn:Hreq;
    [destruct (decide (jr_status r0 = PENDING)) as [Hp|Hp]|].
  { rewrite bool_decide_eq_true_2, ensure_false_step in E by done.
    rewrite bool_decide_eq_true_2 by (cbn; by rewrite Hp). by injection E as <- <-. }
  all: rewrite bool_decide_eq_false_2 by (by intros [= ?]).
  all: rewrite (request_join_run mid rid gid message user w g), Hreq in E0
    by (done || (rewrite Hreq; by intros ? [= <-])).
  all: injection E0 as <- <-; eexists; split; [done|].
  all: destruct (asked_slot rid gid message user (w_now w) g (w_tables w) Hwf)
    as (Erg & Eru & Hslot & Est); cbv zeta in *; rewrite Hreq in *.
  all: rewrite <- Hreq; split; [by apply request_of_join|].
  all: split; [done|]; split; [by rewrite Hreq|].
  all: intros h u; by apply (membership_join (w_tables w)).
Qed.

(** [decide_request], on every branch: only the owner decides (403), only a pending
    request of that group is decided (404); a rejection changes no membership, and an
    approval admits the author, as a member, and logs it. *)
Theorem decide_request_spec mid gid rid approve user w :
  groups_wf (w_tables w) → group_members (w_tables w) !! mid = None →
  let t := w_tables w in
  let '(r, w') := decide_request mid gid rid approve user w in
  let t' := w_committed w' in
  if decide (gm_role <$> membership gid (u_id user) t = Some (OWNER : string)) then
      match pending_request gid rid t with
      | Some req =>
          let req' := decided req approve user (w_now w) in
          let m := new_member mid gid (jr_user_id req) MEMBER (w_now w) in
          r = Ok (JoinRequestOut_of req') ∧
          pending_request gid rid t' = None ∧
          request_of gid (jr_user_id req) t' = Some req' ∧
          (∀ h u, membership h u t' =
             if approve && in_group h u m then Some m else membership h u t) ∧
          (al_action <$> audit_logs t') =
            ((al_action <$> audit_logs t) ++
             (if approve then [GROUP_MEMBER_ADDED : string] else []))%list
      | None => r = Err (HTTPException 404 "pending request not found") ∧ w' = w
      end
  else r = Err (HTTPException 403 "group admin role required") ∧ w' = w.
Proof.
  intros Hwf Hm. cbv zeta. destruct (decide_request _ _ _ _ _ w) as [r w'] eqn:E.
  case_decide as Hrole.
  2: { unfold decide_request in E. rewrite (step_err _ _ w (HTTPException 403 "group admin role required") w) in E; [by injection E as <- <-|].
    rewrite require_admin_run. destruct (membership _ _ _) as [m|] eqn:Hmem; [|done].
    destruct (can_manage_members m) eqn:Hcan; [|done].
    destruct Hrole. cbn. f_equal. by eapply manager_owner. }
  destruct (membership gid (u_id user) (w_tables w)) as [m|] eqn:Hmem; [|done].
  assert (can_manage_members m = true) as Hcan
    by (injection Hrole as Hrole; unfold can_manage_members; by rewrite Hrole).
  destruct (pending_request gid rid (w_tables w)) as [req|] eqn:Hreq.
  2: { unfold decide_request in E. rewrite (step_ok _ _ w m w) in E
         by (by rewrite require_admin_run, Hmem, Hcan).
    rewrite query_step, Hreq, none_step in E. by injection E as <- <-. }
  rewrite (decide_request_run mid gid rid approve user w m req) in E by done.
  injection E as <- <-. cbn [w_committed].
  pose proof Hreq as (Hr & Hg & Hp)%pending_request_Some.
  pose proof (pending_outside _ _ _ Hwf Hr Hp) as Hn. rewrite Hg in Hn.
  split; [done|]. split; [|split; [|split]].
  - by apply pending_request_decided.
  - rewrite <- Hg. by apply request_of_decided with rid.
  - intros h u. by apply membership_decide.
  - unfold decide_tables. destruct approve; cbn; [by rewrite fmap_app|by rewrite app_nil_r].
Qed.

(** ** At concrete inputs: user 1 founds a group that asks for approval, user 2 asks to
    join. *)
Module Squad.
Definition user (n : nat) : User :=
  mk_User (uid n) 0 "+201001234567" "U" None None None "" "" None 1 ACTIVE SOLDIER None None
    false None true.
Definition tables0 : tables :=
  empty_tables <| users := {[uid 1 := user 1; uid 2 := user 2]} |>.
Definition world0 : world := (empty_world 0) <| w_tables := tables0 |> <| w_committed := tables0 |>.
Definition found (approval : bool) : group_op :=
  OpCreate (uid 10) (uid 20) (mk_CreateGroupIn "squad" None false approval) (user 1).
Definition ask : group_op := OpJoin (uid 21) (uid 30) (uid 10) (Some "let me in") (user 2).
Definition accept : group_op := OpDecide (uid 22) (uid 10) (uid 30) true (user 1).
Definition pending : world := run_group_ops [found true; ask] world0.
(** A session opened on a world. *)
Definition session (w : world) : world := w <| w_tables := w_committed w |>.
End Squad.

Lemma empty_groups_wf U : groups_wf (empty_tables <| users := U |>).
Proof. repeat split; cbn; intros; by simplify_map_eq. Qed.

Lemma run_group_ops_wf ops w :
  groups_wf (w_committed w) → groups_wf (w_committed (run_group_ops ops w)).
Proof.
  revert w. induction ops as [|op ops IH]; intros w Hwf; [done|].
  cbn. by apply IH, run_group_op_wf.
Qed.

Lemma squad_wf ops : groups_wf (w_committed (run_group_ops ops Squad.world0)).
Proof. apply run_group_ops_wf, empty_groups_wf. Qed.

Lemma groups_invariant_witness :
  groups_wf (w_committed (run_group_ops [Squad.found true; Squad.ask; Squad.accept] Squad.world0))
  ∧ gm_role <$> membership (uid 10) (uid 2)
      (w_committed (run_group_ops [Squad.found true; Squad.ask; Squad.accept] Squad.world0))
    = Some "member".
Proof.
  split; [|vm_compute; reflexivity].
  apply (groups_invariant [Squad.found true; Squad.ask; Squad.accept] Squad.world0).
  apply (empty_groups_wf {[uid 1 := Squad.user 1; uid 2 := Squad.user 2]}).
Defined.

Lemma membership_origin_witness :
  ∃ owner r, membership (uid 10) (uid 1) (w_committed Squad.pending) = Some owner ∧
    gm_role owner = OWNER ∧
    pending_request (uid 10) (uid 30) (w_committed Squad.pending) = Some r ∧ jr_user_id r = uid 2.
Proof.
  destruct (membership (uid 10) (uid 2) (w_committed (run_group_op Squad.accept Squad.pending)))
    as [m|] eqn:E; [|by vm_compute in E].
  destruct (membership_origin Squad.accept Squad.pending (uid 10) (uid 2) m
    (squad_wf [Squad.found true; Squad.ask]) ltac:(vm_compute; reflexivity) E)
    as (_ & _ & _ & (owner & H1 & H2) & r & H3 & H4).
  exists owner, r. split_and!; assumption.
Defined.

Lemma request_join_spec_witness :
  ∃ req, (request_join (uid 21) (uid 30) (uid 10) None (Squad.user 2)
            (Squad.session (run_group_ops [Squad.found false] Squad.world0))).1 = Ok (JoinRequestOut_of req) ∧
         jr_status req = (APPROVED : string).
Proof.
  pose proof (request_join_spec (uid 21) (uid 30) (uid 10) None (Squad.user 2)
    (Squad.session (run_group_ops [Squad.found false] Squad.world0)) (squad_wf [Squad.found false])) as H.
  cbv zeta in H.
  set (w := Squad.session (run_group_ops [Squad.found false] Squad.world0)) in *.
  assert ((λ g, (g_is_archived g, g_join_approval_required g)) <$> groups (w_tables w) !! uid 10
          = Some (false, false)) as Eg by (vm_compute; reflexivity).
  destruct (groups (w_tables w) !! uid 10) as [g|]; [|discriminate Eg].
  injection Eg as Ea Ep. rewrite Ea, Ep in H.
  destruct (request_join _ _ _ _ _ w) as [r w'].
  rewrite !bool_decide_eq_false_2 in H by (vm_compute; by intros []).
  destruct H as (req & Hr & _ & _ & Hst & _); [vm_compute; eauto|vm_compute; reflexivity..|].
  exists req. split; [exact Hr|exact Hst].
Defined.

Lemma decide_request_spec_witness :
  ∃ req, (decide_request (uid 22) (uid 10) (uid 30) false (Squad.user 1) (Squad.session Squad.pending)).1
         = Ok (JoinRequestOut_of req) ∧ jr_status req = (REJECTED : string).
Proof.
  assert (gm_role <$> membership (uid 10) (uid 1) (w_tables (Squad.session Squad.pending))
          = Some (OWNER : string)) as Hrole by (vm_compute; reflexivity).
  assert (group_members (w_tables (Squad.session Squad.pending)) !! uid 22 = None) as Hk
    by (vm_compute; reflexivity).
  destruct (pending_request (uid 10) (uid 30) (w_tables (Squad.session Squad.pending))) as [req|] eqn:Hreq;
    [|by vm_compute in Hreq].
  assert (groups_wf (w_tables (Squad.session Squad.pending))) as Hwf by exact (squad_wf [Squad.found true; Squad.ask]).
  revert Hrole Hk Hreq Hwf. generalize (Squad.session Squad.pending). intros w Hrole Hk Hreq Hwf.
  pose proof (decide_request_spec (uid 22) (uid 10) (uid 30) false (Squad.user 1) w Hwf Hk) as H.
  cbv zeta in H. destruct (decide_request _ _ _ _ _ w) as [r w'].
  rewrite decide_True, Hreq in H by exact Hrole. destruct H as [Hr _].
  exists (decided req false (Squad.user 1) (w_now w)). split; [exact Hr|reflexivity].
Defined.
