(* ===== verification/Frame.v ===== *)
(** What a program can do to the state, as a preorder it stays within.

    Invariants and "nothing is lost" properties of the whole server are relations between
    the state before a handler and the state after it, whether it returns or raises. They
    are closed under the constructs of the monad, so a handler is within a relation when
    its statements are: a statement that the relation does not see is found by the hints
    of [frame]; the few that it sees have lemmas. *)

From S2P Require Import Prelude Effects PyStr Uuid Redis Models World Pubsub Config Auth Media WsManager WebSocket.
From Stdlib Require Import String.

Definition within {S A} (R : relation S) (m : prog S A) : Prop := ∀ s, R s (m s).2.

Create HintDb frame.

Section Within.
Context {S : Type} (R : relation S) `{!PreOrder R}.

Lemma within_still {A} (m : prog S A) : (∀ s, (m s).2 = s) → within R m.
Proof. intros Hm s. by rewrite Hm. Qed.
Lemma within_ret {A} (a : A) : within R (mret a).
Proof. by apply within_still. Qed.
Lemma within_raise {A} e : within R (raise (A := A) e).
Proof. by apply within_still. Qed.
Lemma within_gets {A} (f : S → A) : within R (gets f).
Proof. by apply within_still. Qed.
Lemma within_lift {A} (r : res A) : within R (lift r).
Proof. by apply within_still. Qed.
Lemma within_ensure b e : within R (ensure b e).
Proof. apply within_still. by destruct b. Qed.
Lemma within_some {A} (o : option A) e : within R (some_or_raise o e).
Proof. apply within_still. by destruct o. Qed.

(** One state, and what is known of the value it gives, for the statements that need it. *)
Lemma within_step {A B} (m : prog S A) (k : A → prog S B) s :
  R s (m s).2 → (∀ a s', m s = (Ok a, s') → R s' (k a s').2) → R s ((m ≫= k) s).2.
Proof.
  unfold mbind, prog_bind, bind. destruct (m s) as [[a|e] s'] eqn:E; [|done].
  intros Hm Hk. etrans; [exact Hm|by apply Hk].
Qed.
Lemma within_bind {A B} (m : prog S A) (k : A → prog S B) :
  within R m → (∀ a, within R (k a)) → within R (m ≫= k).
Proof. intros Hm Hk s. apply within_step; [apply Hm|]. intros a s' _. apply Hk. Qed.
Lemma within_for_each {A} (f : A → prog S unit) l : (∀ x, within R (f x)) → within R (for_each f l).
Proof.
  intros Hf. induction l as [|x l IH]; [by apply within_ret|].
  apply (within_bind (f x)); [apply Hf|]. by intros [].
Qed.
Lemma within_map_each {A B} (f : A → prog S B) l : (∀ x, within R (f x)) → within R (map_each f l).
Proof.
  intros Hf. induction l as [|x l IH]; [by apply within_ret|].
  apply (within_bind (f x)); [apply Hf|]. intros y.
  apply (within_bind (map_each f l)); [done|]. intros ys. by apply within_ret.
Qed.
Lemma within_except {A} (m : prog S A) h :
  within R m → (∀ e, within R (h e)) → within R (try_except m h).
Proof.
  intros Hm Hh s. unfold try_except. specialize (Hm s). destruct (m s) as [[a|e] s']; [done|].
  etrans; [exact Hm|apply Hh].
Qed.
Lemma within_finally {A} (m : prog S A) f : within R m → within R f → within R (try_finally m f).
Proof.
  intros Hm Hf s. unfold try_finally. specialize (Hm s). destruct (m s) as [r s'].
  specialize (Hf s'). destruct (f s') as [[] s'']; by etrans.
Qed.
End Within.

(** ** Relations on worlds *)

(** A program of the sessions database that leaves every ticket of a socket alone. *)
Definition ticketless {A} (m : prog rstate A) : Prop := ∃ K, framed K m ∧ ∀ t, ticket_key t ∉ K.

(** A relation that sees the tables, the clock and the tickets of sockets only, and to which it
    is all one whether the session commits or rolls back. *)
Class Tracks (R : relation world) : Prop := {
  tracks_pre :: PreOrder R;
  tracks_same : ∀ w w', w_now w' = w_now w → w_tables w' = w_tables w →
    w_committed w' = w_committed w → w_sessions w' = w_sessions w → R w w';
  tracks_sessions : ∀ A (m : prog rstate A), ticketless m → within R (redis_sessions m);
  tracks_commit : within R commit;
  tracks_rollback : within R rollback
}.

(** One that does not see the tickets either. *)
Class Blind (R : relation world) : Prop := {
  blind_pre :: PreOrder R;
  blind_same : ∀ w w', w_now w' = w_now w → w_tables w' = w_tables w →
    w_committed w' = w_committed w → R w w';
  blind_commit : within R commit;
  blind_rollback : within R rollback
}.
Lemma blind_sessions R `{!Blind R} {A} (m : prog rstate A) : within R (redis_sessions m).
Proof. intros w. unfold redis_sessions, zoom. destruct (m _). by apply blind_same. Qed.
#[export] Instance blind_tracks R `{!Blind R} : Tracks R.
Proof.
  split; [apply _| | |apply blind_commit|apply blind_rollback].
  - intros. by apply blind_same.
  - intros A m _. apply blind_sessions, _.
Qed.

(** *** What leaves the tickets alone *)

Lemma ticketless_of {A} K (m : prog rstate A) : framed K m → (∀ t, ticket_key t ∉ K) → ticketless m.
Proof. intros. by exists K. Qed.
Lemma ticketless_read {A} (m : prog rstate A) : framed ∅ m → ticketless m.
Proof. intros Hm. apply (ticketless_of ∅); [done|]. intros t. apply not_elem_of_empty. Qed.

Lemma ticketless_get k : ticketless (redis_get k).
Proof. apply ticketless_read. unfold redis_get. solve_framed. Qed.
Lemma ticketless_smembers k : ticketless (redis_smembers k).
Proof. apply ticketless_read. unfold redis_smembers, look_set. solve_framed. Qed.
Lemma ticketless_scard k : ticketless (redis_scard k).
Proof. apply ticketless_read. unfold redis_scard, look_set. solve_framed. Qed.
Lemma ticketless_sismember k x : ticketless (redis_sismember k x).
Proof. apply ticketless_read. unfold redis_sismember, look_set. solve_framed. Qed.
Lemma ticketless_register u c : ticketless (register_redis u c).
Proof. apply (ticketless_of (reg_keys u c)); [apply register_framed|apply ticket_not_reg]. Qed.
Lemma ticketless_unregister u c : ticketless (unregister_redis u c).
Proof. apply (ticketless_of (reg_keys u c)); [apply unregister_framed|apply ticket_not_reg]. Qed.
Ltac ticketless_keys K :=
  apply (ticketless_of K);
  [unfold redis_sadd, look_set, put_set; solve_framed|
   intros ?; rewrite ?not_elem_of_union, ?not_elem_of_singleton; split_and?; by intros [=]].
Lemma ticketless_heartbeat c secs : ticketless (redis_expire (conn_key c) secs).
Proof. ticketless_keys ({[conn_key c]} : gset string). Qed.
Lemma ticketless_state id v ex : ticketless (redis_set (state_key id) v ex).
Proof. ticketless_keys ({[state_key id]} : gset string). Qed.
Lemma ticketless_chunk id ms : ticketless (redis_sadd (chunks_key id) ms).
Proof. ticketless_keys ({[chunks_key id]} : gset string). Qed.
Lemma ticketless_expire id secs : ticketless (redis_expire (chunks_key id) secs).
Proof. ticketless_keys ({[chunks_key id]} : gset string). Qed.
Lemma ticketless_done id : ticketless (redis_delete [state_key id; chunks_key id]).
Proof. ticketless_keys ({[state_key id; chunks_key id]} : gset string). Qed.
#[export] Hint Resolve ticketless_get ticketless_smembers ticketless_scard ticketless_sismember
  ticketless_register ticketless_unregister ticketless_heartbeat ticketless_state ticketless_chunk
  ticketless_expire ticketless_done : frame.

Section Tracks.
Context (R : relation world) `{!Tracks R}.

Lemma within_modify f :
  (∀ w, w_now (f w) = w_now w ∧ w_tables (f w) = w_tables w ∧ w_committed (f w) = w_committed w
        ∧ w_sessions (f w) = w_sessions w) →
  within R (modify f).
Proof. intros Hf w. destruct (Hf w) as (? & ? & ? & ?). by apply tracks_same. Qed.
Lemma within_redis_otp {A} (m : prog rstate A) : within R (redis_otp m).
Proof. intros w. unfold redis_otp, zoom. destruct (m _). by apply tracks_same. Qed.
Lemma within_redis_sessions {A} (m : prog rstate A) : ticketless m → within R (redis_sessions m).
Proof. apply tracks_sessions. Qed.
Lemma within_redis_pubsub {A} (m : prog rstate A) : within R (redis_pubsub m).
Proof. intros w. unfold redis_pubsub, zoom. destruct (m _). by apply tracks_same. Qed.
Lemma within_query {A} (f : tables → A) : within R (query f).
Proof. apply within_gets, _. Qed.
Lemma within_utcnow : within R utcnow.
Proof. apply within_gets, _. Qed.
Lemma within_redis_publish c p : within R (redis_publish c p).
Proof. by apply within_modify. Qed.
Lemma within_publish u p : within R (publish u p).
Proof. by apply within_modify. Qed.
Lemma within_send c p : within R (send_json c p).
Proof. by apply within_modify. Qed.
Lemma within_fcm p : within R (fcm_send p).
Proof. by apply within_modify. Qed.

Lemma within_session {A} (m : prog world A) : within R m → within R (session_local m).
Proof.
  intros Hm. apply within_bind; [apply _|apply tracks_rollback|]. intros _.
  apply within_finally; [apply _|done|apply tracks_rollback].
Qed.
Lemma within_get_db {A} (m : prog world A) : within R m → within R (get_db m).
Proof.
  intros Hm. apply within_bind; [apply _|apply tracks_rollback|]. intros _.
  apply within_except; [apply _| |].
  - apply within_bind; [apply _|done|]. intros a. apply within_bind; [apply _|apply tracks_commit|].
    intros _. apply within_ret, _.
  - intros e. apply within_bind; [apply _|apply tracks_rollback|]. intros _. apply within_raise, _.
Qed.
End Tracks.

#[export] Hint Resolve within_ret within_raise within_gets within_lift within_ensure within_some
  within_redis_otp within_redis_sessions within_redis_pubsub within_query within_utcnow
  within_redis_publish within_publish within_send within_fcm tracks_commit tracks_rollback
  blind_sessions : frame.
#[export] Hint Extern 1 (PreOrder _) => exact _ : frame.
#[export] Hint Extern 1 (Tracks _) => exact _ : frame.
#[export] Hint Extern 1 (Blind _) => exact _ : frame.
#[export] Hint Extern 3 (within _ (modify _)) => apply within_modify; [exact _|by intros] : frame.

(** Go through a program, statement by statement; what no hint closes is left. *)
Ltac frame_go :=
  lazymatch goal with
  | |- within _ (_ ≫= _) => apply within_bind; [exact _|frame_go|intros ?; cbv beta; frame_go]
  | |- within _ (match ?x with _ => _ end) => destruct x; frame_go
  | |- within _ (try_except _ _) => apply within_except; [exact _|frame_go|intros ?; frame_go]
  | |- within _ (try_finally _ _) => apply within_finally; [exact _|frame_go|frame_go]
  | |- within _ (session_local _) =>
      first [solve [eauto 3 with frame] | apply within_session; [exact _|frame_go]]
  | |- within _ (get_db _) => first [solve [eauto 3 with frame] | apply within_get_db; [exact _|frame_go]]
  | |- within _ (for_each _ _) => apply within_for_each; [exact _|intros ?; cbv beta; frame_go]
  | |- within _ (map_each _ _) => apply within_map_each; [exact _|intros ?; cbv beta; frame_go]
  | |- _ => try solve [eauto 3 with frame]
  end.

(** ** What a session does to the tables *)

(** The open session's tables have grown out of the committed ones, and both keep growing. *)
Definition grown (le : relation tables) (w w' : world) : Prop :=
  le (w_committed w) (w_tables w) →
  le (w_committed w') (w_tables w') ∧ le (w_committed w) (w_committed w').

#[export] Instance grown_blind le `{!PreOrder le} : Blind (grown le).
Proof.
  split.
  - split; [by intros w Hw|]. intros w1 w2 w3 H12 H23 H1. destruct (H12 H1) as [H2 H12'].
    destruct (H23 H2) as [H3 H23']. split; [done|by etrans].
  - intros w w' _ Ht Hc. unfold grown. by rewrite Ht, Hc.
  - intros w Hw. by split.
  - intros w Hw. by split.
Qed.

Section Grown.
Context (le : relation tables) `{!PreOrder le}.

(** A change of the session's tables along the relation. *)
Lemma grown_change f w : le (w_tables w) (f (w_tables w)) → grown le w (db_change f w).2.
Proof. intros Hf Hw. split; [by etrans|done]. Qed.
Lemma within_change f : (∀ t, le t (f t)) → within (grown le) (db_change f).
Proof. intros Hf w. by apply grown_change. Qed.

(** What it means once the session is over: the committed tables have grown. *)
Lemma grown_idle {A} (m : prog world A) w :
  within (grown le) m → w_tables w = w_committed w → le (w_committed w) (w_committed (m w).2).
Proof. intros Hm Hw. apply Hm. by rewrite Hw. Qed.
End Grown.

(** A session leaves no uncommitted change behind. *)
Lemma get_db_idle {A} (m : prog world A) w : w_tables (get_db m w).2 = w_committed (get_db m w).2.
Proof.
  unfold get_db, rollback, commit. run. by match goal with |- context [m ?x] => destruct (m x) as [[]] end.
Qed.
Lemma session_idle {A} (m : prog world A) w :
  w_tables (session_local m w).2 = w_committed (session_local m w).2.
Proof.
  unfold session_local, rollback. run. by match goal with |- context [m ?x] => destruct (m x) as [[]] end.
Qed.

(** The rest of a program, at one state, when all of it is within the relation. *)
Ltac frame_rest :=
  match goal with
  | |- ?R ?w (snd (?m ?w)) => let Hm := fresh in assert (within R m) as Hm by frame_go; apply Hm
  end.

(** No session is open. *)
Definition idle (w : world) : Prop := w_tables w = w_committed w.
Definition stays_idle (w w' : world) : Prop := idle w → idle w'.
#[export] Instance stays_idle_blind : Blind stays_idle.
Proof.
  split.
  - split; [by intros w Hw|]. unfold stays_idle. intros ???; auto.
  - intros w w' _ Ht Hc. unfold stays_idle, idle. by rewrite Ht, Hc.
  - by intros w _.
  - by intros w _.
Qed.
Lemma idle_session {A} (m : prog world A) : within stays_idle (session_local m).
Proof. intros w _. apply session_idle. Qed.
Lemma idle_get_db {A} (m : prog world A) : within stays_idle (get_db m).
Proof. intros w _. apply get_db_idle. Qed.
#[export] Hint Resolve idle_session idle_get_db : frame.
