(* ===== verification/Server.v ===== *)
(** The first backend as one system: every request of [app/main.py]'s routers, with the
    authentication in front of it, the chat socket, the alert relay and the self-destruct
    worker, in any order - and what holds of all of its runs.

    The handlers of [app/api/routes/keys.py] are not among the requests: the Redis client they
    name does not exist ([Keys]). *)

From S2P Require Import Prelude Effects PyStr Uuid Redis Models Json Schemas World Pubsub Config.
From S2P Require Import Security Otp Auth Storage Media Messages WsManager Chats Broadcasts Push Admin.
From S2P Require Import Receipts Ocr WebSocket Groups Keyspace Frame.
From Stdlib Require Import String.

Local Open Scope string_scope.

(** ** The record only grows *)

(** The audit log accounts for an account's having got its status: an entry names the account,
    the action, its reason and the administrator who acted, with that user's role. *)
Definition accounted (t : tables) (l : list AuditLog) (k : UUID) (status : string) : Prop :=
  ∃ suspend reason admin, status_audit suspend k reason admin ∈ l ∧
    status = (if (suspend : bool) then SUSPENDED : string else ACTIVE : string) ∧
    length_between 5 500 reason = true ∧ is_admin admin ∧
    ∃ row, users t !! u_id admin = Some row ∧ u_role row = u_role admin.

(** How an account can change while the entries [l] are made: it keeps its id, its number and
    its role; its token version only rises; a change of status is accounted for. *)
Record account_le (t : tables) (l : list AuditLog) (k : UUID) (u u' : User) : Prop := {
  al_id : u_id u' = u_id u;
  al_phone : u_phone_number u' = u_phone_number u;
  al_role : u_role u' = u_role u;
  al_version : (u_token_version u ≤ u_token_version u')%Z;
  al_status : u_status u' = u_status u ∨ accounted t l k (u_status u')
}.

(** What no operation takes back: entries of the audit log, rows of any table, groups,
    memberships, broadcasts and acknowledgements as they are, and accounts. *)
Record record_le (t t' : tables) : Prop := {
  rl_users : ∃ l, audit_logs t' = (audit_logs t ++ l)%list ∧
    ∀ k u, users t !! k = Some u → ∃ u', users t' !! k = Some u' ∧ account_le t l k u u';
  rl_groups : groups t ⊆ groups t';
  rl_members : group_members t ⊆ group_members t';
  rl_broadcasts : broadcasts t ⊆ broadcasts t';
  rl_acks : broadcast_acks t ⊆ broadcast_acks t';
  rl_sessions : dom (user_sessions t) ⊆@{gset UUID} dom (user_sessions t');
  rl_requests : dom (join_requests t) ⊆@{gset UUID} dom (join_requests t');
  rl_messages : dom (messages t) ⊆@{gset UUID} dom (messages t');
  rl_no_user : dom (users t') ⊆@{gset UUID} dom (users t)
}.
Lemma account_refl t l k u : account_le t l k u u.
Proof. split; [done..|lia|by left]. Qed.
Lemma account_trans t1 t2 l1 l2 k u1 u2 u3 :
  (∀ k' row', users t2 !! k' = Some row' → ∃ row, users t1 !! k' = Some row ∧ u_role row' = u_role row) →
  account_le t1 l1 k u1 u2 → account_le t2 l2 k u2 u3 → account_le t1 (l1 ++ l2) k u1 u3.
Proof.
  intros Ht [] []. split; [congruence..|lia|].
  destruct al_status1 as [E|(b & reason & a & Ha & ? & ? & ? & row' & (row & Hrow & Hr)%Ht & ?)].
  - rewrite E. destruct al_status0 as [?|(b & reason & a & Ha & ? & ? & ? & ?)]; [by left|right].
    exists b, reason, a. rewrite elem_of_app. auto.
  - right. exists b, reason, a. rewrite elem_of_app. split_and!; auto. exists row. split; congruence.
Qed.
#[export] Instance record_le_pre : PreOrder record_le.
Proof.
  split.
  - intros t. split; try done. exists []. rewrite app_nil_r. split; [done|].
    intros k u Hu. exists u. split; [done|apply account_refl].
  - intros t1 t2 t3 [] []. split; try by etrans.
    destruct rl_users0 as (l1 & E1 & H1), rl_users1 as (l2 & E2 & H2). exists (l1 ++ l2)%list.
    split; [by rewrite E2, E1, app_assoc|].
    intros k u Hu. destruct (H1 k u Hu) as (u2 & Hu2 & Hle). destruct (H2 k u2 Hu2) as (u3 & Hu3 & Hle').
    exists u3. split; [done|]. eapply account_trans; [|exact Hle|exact Hle'].
    intros k' row' Hk'. destruct (users t1 !! k') as [row|] eqn:Erow.
    + destruct (H1 _ _ Erow) as (? & ? & []). exists row. split; congruence.
    + apply elem_of_dom_2, rl_no_user0, elem_of_dom in Hk' as [? ?]. congruence.
Qed.

(** The tables keep their keys in order and grow. *)
Definition tables_wf (t : tables) : Prop := users_wf t ∧ acks_ok t.
Definition evolve (t t' : tables) : Prop := tables_wf t → tables_wf t' ∧ record_le t t'.
#[export] Instance evolve_pre : PreOrder evolve.
Proof.
  split; [by intros t Ht; split|]. intros t1 t2 t3 H12 H23 H1. destruct (H12 H1) as [H2 ?].
  destruct (H23 H2) as [? ?]. split; [done|by etrans].
Qed.

(** Changes that leave the users and the acknowledgements alone. *)
Lemma evolve_same t t' :
  users t' = users t → broadcast_acks t' = broadcast_acks t → (∃ l, audit_logs t' = audit_logs t ++ l)%list →
  groups t ⊆ groups t' → group_members t ⊆ group_members t' → broadcasts t ⊆ broadcasts t' →
  dom (user_sessions t) ⊆@{gset UUID} dom (user_sessions t') →
  dom (join_requests t) ⊆@{gset UUID} dom (join_requests t') →
  dom (messages t) ⊆@{gset UUID} dom (messages t') → evolve t t'.
Proof.
  intros Hu Ha [l Hl] ?????? [Hwf Hok]. split; [split; unfold users_wf, acks_ok; by rewrite ?Hu, ?Ha|].
  split; rewrite ?Hu, ?Ha; try done. exists l. split; [done|]. intros k u Hk. exists u.
  split; [done|apply account_refl].
Qed.
Ltac evolve_same :=
  apply evolve_same; cbn;
  first [done | by apply insert_subseteq | rewrite dom_insert; set_solver
    | (exists []; by rewrite app_nil_r) | by eexists | idtac].

(** A user changed, while the entries [l] were made. *)
Lemma evolve_user t u u' l :
  users t !! u_id u = Some u → (tables_wf t → account_le t l (u_id u) u u') →
  evolve t (t <| users ::= <[u_id u := u']> |> <| audit_logs ::= λ l', (l' ++ l)%list |>).
Proof.
  intros Hu Hle Hwf. specialize (Hle Hwf). pose proof (al_id _ _ _ _ _ Hle) as Hid.
  pose proof (al_phone _ _ _ _ _ Hle) as Hph. destruct Hwf as [[Hk Hp] Ha].
  split; [split; [split|done]|].
  - intros k v. cbn. rewrite lookup_insert_Some. intros [[<- <-]|[_ ?]]; [congruence|by apply Hk].
  - assert (∀ k v, users (t <| users ::= <[u_id u := u']> |>) !! k = Some v →
      ∃ v0, users t !! k = Some v0 ∧ u_phone_number v0 = u_phone_number v) as Hold.
    { intros k v. cbn. rewrite lookup_insert_Some. intros [[<- <-]|[_ ?]]; [by exists u|by exists v]. }
    intros k k' v v' (w & Hw & <-)%Hold (w' & Hw' & <-)%Hold. by apply Hp.
  - split; cbn; try done.
    + exists l. split; [done|]. intros k v Hkv. destruct (decide (k = u_id u)) as [->|].
      * rewrite lookup_insert_eq. exists u'. split; [done|]. by simplify_eq.
      * rewrite lookup_insert_ne by done. exists v. split; [done|apply account_refl].
    + rewrite dom_insert. apply elem_of_dom_2 in Hu. set_solver.
Qed.

Lemma evolve_touch t u u' :
  users t !! u_id u = Some u → u_id u' = u_id u → u_phone_number u' = u_phone_number u →
  u_role u' = u_role u → u_status u' = u_status u → (u_token_version u ≤ u_token_version u')%Z →
  evolve t (t <| users ::= <[u_id u := u']> |>).
Proof.
  intros Hu Hid Hph Hr Hst Hv.
  replace (t <| users ::= _ |>) with (t <| users ::= <[u_id u := u']> |> <| audit_logs ::= λ l, (l ++ [])%list |>).
  - apply evolve_user; [done|]. split; [done..|by left].
  - destruct t. unfold over. cbn. by rewrite app_nil_r.
Qed.

Abbreviation grows := (within (grown evolve)).
Lemma still_refl w : grown evolve w w.
Proof. reflexivity. Qed.

Lemma grows_audit a : grows (add_audit a).
Proof. apply within_change; [apply _|]. intros t. evolve_same. Qed.
Lemma grows_put_message m : grows (put_message m).
Proof. apply within_change; [apply _|]. intros t. evolve_same. Qed.
Lemma grows_put_request r : grows (put_request r).
Proof. apply within_change; [apply _|]. intros t. evolve_same. Qed.

(** [db.add]: the row is new. *)
Lemma grows_add_message m : grows (db_add_message m).
Proof. unfold db_add_message. frame_go. apply within_change; [apply _|]. intros t'. evolve_same. Qed.
Lemma grows_add_session s : grows (db_add_session s).
Proof. unfold db_add_session. frame_go. apply within_change; [apply _|]. intros t'. evolve_same. Qed.
Lemma grows_add_request r : grows (db_add_join_request r).
Proof. unfold db_add_join_request. frame_go. apply within_change; [apply _|]. intros t'. evolve_same. Qed.
Lemma grows_add_group g : grows (db_add_group g).
Proof.
  intros w. unfold db_add_group. wstep. destruct (bool_decide _) eqn:Hb; wstep; [|apply still_refl].
  reflect_bools. apply grown_change; [apply _|]. evolve_same.
Qed.
Lemma grows_add_member m : grows (db_add_member m).
Proof.
  intros w. destruct (db_add_member m w) as [[[]|e] w'] eqn:E.
  - apply db_add_member_ok in E as (-> & _ & _ & Hk & _). cbn [snd].
    apply (grown_change _ (λ t, t <| group_members ::= <[gm_id m := m]> |>)). evolve_same.
  - apply db_add_member_err in E as ->. apply still_refl.
Qed.
Lemma grows_add_broadcast b : grows (db_add_broadcast b).
Proof.
  intros w. unfold db_add_broadcast. wstep.
  destruct (bool_decide _) eqn:Hb; wstep; [|apply still_refl]. reflect_bools.
  apply grown_change; [apply _|]. evolve_same.
Qed.
Lemma grows_add_ack a : grows (db_add_ack a).
Proof.
  intros w. unfold db_add_ack. wstep.
  destruct (_ && _) eqn:Hb; wstep; [|apply still_refl]. reflect_bools.
  apply grown_change; [apply _|]. intros [Hu Ha]. split; [split; [done|by apply (acked_add _ _ (ba_broadcast_id a) (ba_user_id a))]|].
  split; cbn; try done; [|by apply insert_subseteq].
  exists []. rewrite app_nil_r. split; [done|]. intros k u Hk. exists u. split; [done|apply account_refl].
Qed.
#[export] Hint Resolve grows_audit grows_put_message grows_put_request grows_add_message grows_add_session
  grows_add_request grows_add_group grows_add_member grows_add_broadcast grows_add_ack : frame.

(** ** The handlers *)

Section Handlers.
Context (settings : Settings).
Context `{HH : Hashing, HJ : Jose, HM : Minio, HP : Pillow, HF : Fcm, HE : Extractors} (repr : json → string).

(** The two statements that change a user, the administrator's aside. *)
Lemma grows_login body client agent draws : grows (verify settings body client agent draws).
Proof.
  intros w. unfold verify. rewrite query_step. destruct (user_by_phone _ _) as [u|] eqn:Eu; wstep; [|apply still_refl].
  apply within_step; [apply _|by apply within_ensure, _|]. intros [] ? [_ ->]%ensure_ok_inv. wstep.
  apply within_step; [apply _|by apply within_ensure, _|]. intros [] ? [_ ->]%ensure_ok_inv.
  apply within_step; [apply _|apply within_redis_otp, _|]. intros ok w1 (s' & _ & ->)%redis_otp_inv.
  set (w1 := w <| w_otp := _ |>).
  assert (user_by_phone (vi_phone_number body) (w_tables w1) = Some u) as Eu1 by done.
  clearbody w1. generalize (w_now w) as now. clear Eu. intros now. cbv zeta.
  apply within_step; [apply _| |].
  { frame_rest. }
  intros [] w2 Hw2.
  assert (w2 = w1) as ->.
  { destruct (negb _) in Hw2; [|by injection Hw2]. by repeat (apply step_ok_inv in Hw2 as (? & ? & _ & Hw2)). }
  clear Hw2. apply within_step; [apply _| |].
  - apply (grown_change _ (λ t, t <| users ::= <[u_id u := _]> |>)).
    intros Hwf. pose proof Hwf as [Hu _]. apply user_by_phone_Some in Eu1 as [Hk _]; [|done].
    revert Hwf. apply evolve_touch; [done..|]. cbn. lia.
  - intros [] w2 _. frame_rest.
Qed.
Lemma grows_fcm_token body user : grows (register_fcm_token body user).
Proof.
  unfold register_fcm_token. frame_go. intros w. apply grown_change; [apply _|].
  destruct (users (w_tables w) !! u_id user) as [u|] eqn:Eu.
  - intros Hwf. pose proof Hwf as [[Hk _] _]. pose proof (Hk _ _ Eu) as Hid.
    rewrite <- Hid in Eu |- *.
    replace ((w_tables w) <| users ::= alter _ (u_id u) |>)
      with ((w_tables w) <| users ::= <[u_id u := u <| u_fcm_token := Some a |>]> |>).
    + revert Hwf. by apply evolve_touch.
    + unfold over. cbn. f_equal. apply map_eq. intros k. destruct (decide (k = u_id u)) as [->|].
      * by rewrite lookup_insert_eq, lookup_alter_eq, Eu.
      * by rewrite lookup_insert_ne, lookup_alter_ne by done.
  - replace ((w_tables w) <| users ::= alter _ (u_id user) |>) with (w_tables w); [reflexivity|].
    unfold over. cbn. destruct (w_tables w). cbn in *. f_equal. symmetry.
    apply map_eq. intros k. destruct (decide (k = u_id user)) as [->|].
    + by rewrite lookup_alter_eq, Eu.
    + by rewrite lookup_alter_ne.
Qed.

(** ** Requests *)

(** The endpoints anybody may call. *)
Inductive open_call :=
| RequestCode (body : RequestOtpIn) (client : option string) (draws : list Z)
| LogIn (body : VerifyIn) (client agent : option string) (draws : login_draws).

(** The endpoints that [Depends(get_current_user)] guards, with their arguments; the fresh
    ids and what is drawn at random are arguments too. *)
Inductive guarded_call :=
| WsTicket (t : string)
| ListSessions
| RevokeSession (session_id : UUID)
| ListConversations
| History (peer_id : UUID) (before : option timestamp) (limit : Z)
| Delivered (chat_id message_id : UUID)
| Read (chat_id message_id : UUID)
| Typing (chat_id : UUID) (typing : bool)
| MyGroups
| CreateGroup (gid mid : UUID) (body : CreateGroupIn)
| Members (group_id : UUID)
| Join (mid rid group_id : UUID) (message : option string)
| JoinRequests (group_id : UUID)
| Decide (mid group_id request_id : UUID) (approve : bool)
| InitUpload (upload_id : string) (body : UploadInitIn)
| PutChunk (upload_id : string) (chunk_index : Z) (data : list byte)
| Upload (upload_id : string)
| CompleteUpload (upload_id hex1 hex2 : string)
| MediaUrl (media_key : string)
| Unacked
| Ack (aid broadcast_id : UUID)
| FcmToken (body : string)
| ListUsers (department user_status q : option string) (limit offset : Z)
| SetStatus (user_id : UUID) (body : SetStatusIn)
| Stats
| SendBroadcast (bid : UUID) (body : BroadcastIn)
| Keywords
| PutKeywords (keywords : list string)
| ForgetKeywords.

Definition open_handler (c : open_call) : prog world unit :=
  match c with
  | RequestCode body client draws => void (request_otp settings body client draws)
  | LogIn body client agent draws => void (verify settings body client agent draws)
  end.

(** What a handler does, and the background task it leaves. *)
Definition quiet {A} (m : prog world A) : prog world (option OcrTask) := m ;; mret None.
Definition handler (c : guarded_call) (user : User) : prog world (option OcrTask) :=
  match c with
  | WsTicket t => quiet (create_ws_ticket user t)
  | ListSessions => quiet (list_sessions user)
  | RevokeSession sid => quiet (revoke_session sid user)
  | ListConversations => quiet (list_conversations user)
  | History peer_id before limit => quiet (message_history peer_id before limit user)
  | Delivered chat_id message_id => quiet (mark_message_delivered chat_id message_id user)
  | Read chat_id message_id => quiet (mark_message_read chat_id message_id user)
  | Typing chat_id typing => quiet (update_typing chat_id typing user)
  | MyGroups => quiet (my_groups user)
  | CreateGroup gid mid body => quiet (create_group gid mid body user)
  | Members group_id => quiet (group_members_route group_id user)
  | Join mid rid group_id message => quiet (request_join mid rid group_id message user)
  | JoinRequests group_id => quiet (pending_requests group_id user)
  | Decide mid group_id request_id approve => quiet (decide_request mid group_id request_id approve user)
  | InitUpload upload_id body => quiet (upload_init upload_id body user)
  | PutChunk upload_id i data => quiet (upload_chunk settings upload_id i data user)
  | Upload upload_id => quiet (upload_status upload_id user)
  | CompleteUpload upload_id hex1 hex2 =>
      done ← upload_complete settings upload_id hex1 hex2 user; mret (Some done.2)
  | MediaUrl media_key => quiet (mret (presigned_view_url settings media_key))
  | Unacked => quiet (unacked_broadcasts user)
  | Ack aid broadcast_id => quiet (ack_broadcast aid broadcast_id user)
  | FcmToken body => quiet (register_fcm_token body user)
  | ListUsers department user_status q limit offset =>
      quiet (list_users department user_status q limit offset user)
  | SetStatus user_id body => quiet (set_user_status user_id body user)
  | Stats => quiet (live_stats user)
  | SendBroadcast bid body => quiet (send_broadcast settings bid body user)
  | Keywords => quiet (get_ocr_keywords user)
  | PutKeywords keywords => quiet (set_ocr_keywords keywords user)
  | ForgetKeywords => quiet (delete_ocr_keywords user)
  end.

(** One request: the session, the current user, the handler; then its background task, whose
    errors nobody sees. *)
Inductive http_request :=
| Anybody (c : open_call)
| Bearer (creds : option jwt) (c : guarded_call).

Definition authenticated (creds : option jwt) (c : guarded_call) : prog world (option OcrTask) :=
  user ← get_current_user settings creds; handler c user.
Definition respond (r : http_request) : prog world unit :=
  match r with
  | Anybody c => get_db (open_handler c)
  | Bearer creds c =>
      task ← get_db (authenticated creds c);
      match task with
      | Some task => try_except (process_ocr task) (λ _, mret tt)
      | None => mret tt
      end
  end.

(** Everything that happens to the server: requests, the lives of sockets, alerts to relay,
    sweeps of the worker, time. *)
Inductive event :=
| Request (r : http_request)
| ChatSocket (t connection_id : string) (frames : list (UUID * ws_event))
| OcrAlert (fields : list (string * json))
| SweepDue
| Pass (d : N).

Definition happen (e : event) : prog world unit :=
  match e with
  | Request r => respond r
  | ChatSocket t c frames => void (chat_socket settings repr t c frames)
  | OcrAlert fields => on_ocr_alert fields
  | SweepDue => void (sweep_once settings)
  | Pass d => modify (elapse (Z.of_N d))
  end.
Definition history_of (es : list event) (w : world) : world := foldl (λ w e, (happen e w).2) w es.

(** ** What changes no table *)

Section Neutral.
Context (R : relation world) `{!Tracks R}.

Lemma within_current_user creds : within R (get_current_user settings creds).
Proof. unfold get_current_user. frame_go. Qed.
(** What the handlers call. *)
Lemma within_push_batches fuel title body bid tokens n : within R (push_batches fuel title body bid tokens n).
Proof.
  revert tokens n. induction fuel as [|fuel IH]; intros [|t tokens] n; cbn [push_batches]; frame_go.
Qed.
Lemma within_load_state id user : within R (load_state id user).
Proof. unfold load_state. frame_go. Qed.
Lemma within_received id : within R (received_chunks id).
Proof. unfold received_chunks. frame_go. Qed.
Lemma within_state_int state key : within R (state_int state key).
Proof. apply within_some, _. Qed.
Lemma within_state_str state key : within R (state_str state key).
Proof. apply within_some, _. Qed.
Lemma within_put_staging id i data : within R (put_staging_chunk settings id i data).
Proof. unfold put_staging_chunk, client_put. frame_go. Qed.
Lemma within_assemble id n : within R (assemble_staging settings id n).
Proof. unfold assemble_staging, client_get. frame_go. Qed.
Lemma within_delete_staging id n : within R (delete_staging settings id n).
Proof. unfold delete_staging, delete_object. frame_go. Qed.
Lemma within_put_object bucket data suffix hex : within R (put_object bucket data suffix hex).
Proof. unfold put_object, client_put. frame_go. Qed.
Lemma within_require_admin group_id user_id : within R (require_admin_member group_id user_id).
Proof. unfold require_admin_member. frame_go. Qed.
Lemma within_superadmin user : within R (require_superadmin user).
Proof. unfold require_superadmin. frame_go. Qed.
Lemma within_typing chat_id u typing : within R (broadcast_typing chat_id u typing).
Proof. unfold broadcast_typing. frame_go. Qed.
Lemma within_notify chat_id mid s : within R (notify_sender chat_id mid s).
Proof. unfold notify_sender, broadcast_delivered. frame_go. Qed.
Lemma within_told chat_id mid u : within R (broadcast_read chat_id mid u).
Proof. unfold broadcast_read. frame_go. Qed.
Lemma within_broadcast_push tokens title body bid :
  within R (send_broadcast_push settings tokens title body bid).
Proof. unfold send_broadcast_push. frame_go. apply within_push_batches. Qed.
Lemma within_get_keywords u : within R (get_user_keywords u).
Proof. unfold get_user_keywords. frame_go. Qed.
Lemma within_set_keywords u keywords : within R (set_user_keywords u keywords).
Proof. unfold set_user_keywords. frame_go. Qed.
Hint Resolve within_get_keywords within_set_keywords : frame.
Lemma within_process_ocr task : within R (process_ocr task).
Proof. unfold process_ocr, load_user_keywords, publish_ocr_alert, set_alert_flag. frame_go. Qed.
Lemma within_ocr_alert fields : within R (on_ocr_alert fields).
Proof. unfold on_ocr_alert, send_local. frame_go. Qed.
Lemma within_push_message token name preview peer : within R (send_message_push settings token name preview peer).
Proof. unfold send_message_push. frame_go. Qed.
End Neutral.
Hint Resolve within_load_state within_received within_state_int within_state_str within_put_staging
  within_assemble within_delete_staging within_put_object within_require_admin within_superadmin
  within_typing within_notify within_told within_broadcast_push within_get_keywords within_set_keywords
  within_process_ocr within_ocr_alert within_push_message : frame.

(** ** Relations that follow the server *)

(** A relation that holds along every statement that changes a table, the founding and joining
    of groups and the administrator's hand on an account left aside (and the tickets, which it
    may see). *)
Class Follows (R : relation world) : Prop := {
  follows_tracks :: Tracks R;
  follows_audit a : within R (add_audit a);
  follows_login body client agent draws : within R (verify settings body client agent draws);
  follows_revoke k s : within R (db_change (λ t, t <| user_sessions ::= <[k := s]> |>));
  follows_fcm_token body user : within R (register_fcm_token body user);
  follows_save mid sender recipient gid ty content media mime after :
    within R (save_message mid sender recipient gid ty content media mime after);
  follows_delivered mid u : within R (mark_delivered mid u);
  follows_read mid u : within R (mark_read mid u);
  follows_unsend mid u : within R (unsend_message mid u);
  follows_sweep : within R (sweep_once settings);
  follows_ack a : within R (db_add_ack a);
  follows_broadcast b : within R (db_add_broadcast b)
}.
Hint Resolve follows_audit follows_login follows_revoke follows_fcm_token follows_save
  follows_delivered follows_read follows_unsend follows_sweep follows_ack follows_broadcast : frame.

Definition group_call (c : guarded_call) : bool :=
  match c with CreateGroup _ _ _ | Join _ _ _ _ | Decide _ _ _ _ => true | _ => false end.

Definition delicate (c : guarded_call) : bool :=
  match c with SetStatus _ _ | WsTicket _ => true | _ => group_call c end.

Section Follows.
Context (R : relation world) `{!Follows R}.

Lemma within_open c : within R (open_handler c).
Proof. destruct c; cbn [open_handler]; unfold void, request_otp, send_otp; frame_go. Qed.

Lemma within_handler c user :
  (delicate c = true → within R (handler c user)) → within R (handler c user).
Proof.
  intros Hg. destruct (delicate c) eqn:E; [by apply Hg|]. clear Hg.
  destruct c; try discriminate E; cbn [handler]; unfold quiet; frame_go;
    unfold create_ws_ticket, list_sessions, revoke_session, list_conversations, message_history,
      mark_message_delivered, mark_message_read, update_typing, my_groups, group_members_route,
      pending_requests, upload_init, upload_chunk, upload_status, upload_complete, unacked_broadcasts,
      ack_broadcast, list_users, live_stats, send_broadcast, get_ocr_keywords, set_ocr_keywords,
      delete_ocr_keywords; frame_go.
Qed.

(** The socket. *)
Lemma within_frame u c mid frame : within R (handle_frame settings repr u c mid frame).
Proof. unfold handle_frame, heartbeat, online_count, is_online. frame_go. Qed.
Hint Resolve within_frame : frame.
Definition consumes (t : string) : Prop := within R (redis_sessions (redis_getdel (ticket_key t))).
Lemma within_socket t c frames : consumes t → within R (chat_socket settings repr t c frames).
Proof. intros Ht. unfold chat_socket, register, unregister, online_count, on_event. frame_go. Qed.

Lemma within_guarded creds c :
  (∀ user, within R (handler c user)) → within R (get_db (authenticated creds c)).
Proof.
  intros Hc. apply within_get_db; [apply _|].
  by apply within_bind; [apply _|apply within_current_user, _|].
Qed.

Lemma within_event e :
  (∀ creds c, e = Request (Bearer creds c) → delicate c = true → within R (get_db (authenticated creds c))) →
  (∀ t c frames, e = ChatSocket t c frames → consumes t) →
  (∀ d, e ≠ Pass d) → within R (happen e).
Proof.
  intros Hg Ht Hd. destruct e as [[c|creds c]|t c frames|fields| |d]; cbn [happen respond]; unfold void.
  - apply within_get_db; [apply _|apply within_open].
  - apply within_bind; [apply _| |intros [task|]; frame_go].
    destruct (delicate c) eqn:Ec; [by eapply Hg|]. apply within_guarded.
    intros user. by apply within_handler; rewrite Ec.
  - apply within_bind; [apply _|by eapply within_socket, Ht|]. intros. apply within_ret, _.
  - frame_go.
  - frame_go.
  - by destruct (Hd d).
Qed.
End Follows.

Lemma ticket_blind R `{!Blind R} t user : within R (handler (WsTicket t) user).
Proof. cbn [handler]. unfold quiet, create_ws_ticket. frame_go. Qed.
Lemma event_blind R `{!Follows R, !Blind R} e :
  (∀ creds c, e = Request (Bearer creds c) → delicate c = true →
     (∀ t, c ≠ WsTicket t) → within R (get_db (authenticated creds c))) →
  (∀ d, e ≠ Pass d) → within R (happen e).
Proof.
  intros Hg Hd. apply within_event; [apply _| | |done].
  - intros creds c E Hc. destruct c; try (by eapply Hg). apply within_guarded; [apply _|].
    intros user. apply ticket_blind, _.
  - intros t c frames _. apply blind_sessions, _.
Qed.

(** *** The record *)

Lemma grows_save mid sender recipient gid ty content media mime after :
  grows (save_message mid sender recipient gid ty content media mime after).
Proof. unfold save_message. frame_go. Qed.
Lemma grows_delivered mid u : grows (mark_delivered mid u).
Proof. unfold mark_delivered. frame_go. Qed.
Lemma grows_read mid u : grows (mark_read mid u).
Proof. unfold mark_read. frame_go. Qed.
Lemma grows_unsend mid u : grows (unsend_message mid u).
Proof. unfold unsend_message. frame_go. Qed.
Lemma grows_sweep_loop now l n : grows (sweep_loop settings now l n).
Proof.
  revert n. induction l as [|m l IH]; intros n; cbn [sweep_loop];
    unfold sweep_message, wipe_message, delete_object; frame_go.
Qed.
Hint Resolve grows_sweep_loop : frame.
Lemma grows_sweep : grows (sweep_once settings).
Proof. unfold sweep_once. frame_go. Qed.
Lemma grows_revoke k s : grows (db_change (λ t, t <| user_sessions ::= <[k := s]> |>)).
Proof. apply within_change; [apply _|]. intros t. evolve_same. Qed.
#[local] Instance evolve_follows : Follows (grown evolve).
Proof.
  split; auto using grows_audit, grows_login, grows_revoke, grows_fcm_token, grows_save,
    grows_delivered, grows_read, grows_unsend, grows_sweep, grows_add_ack, grows_add_broadcast.
  apply _.
Qed.
Lemma grows_group_call c user : group_call c = true → grows (handler c user).
Proof.
  intros E. destruct c; try discriminate E; cbn [handler];
    unfold quiet, create_group, request_join, decide_request, require_admin_member; frame_go.
Qed.

(** The administrator's hand, when the actor is a user with the role the actor shows. *)
Lemma grows_set_status user_id body admin w :
  (tables_wf (w_tables w) →
   ∃ row, users (w_tables w) !! u_id admin = Some row ∧ u_role row = u_role admin) →
  grown evolve w (set_user_status user_id body admin w).2.
Proof.
  intros Hrow. destruct (set_user_status user_id body admin w) as [[out|e] w'] eqn:E.
  2: { apply set_user_status_err in E as ->. apply still_refl. }
  destruct (set_user_status_inv _ _ _ _ _ _ E) as (target & Ht & Hv & Hm).
  rewrite (set_user_status_run _ _ _ _ _ Ht Hv Hm) in E. injection E as _ <-.
  set (t := w_tables w) in *. intros Hw. cbn. split; [reflexivity|]. etrans; [exact Hw|].
  clear Hw. fold t. intros Hwf. pose proof Hwf as [[Hk _] _]. pose proof (Hk _ _ Ht) as Hid.
  rewrite Hid. revert Hwf. rewrite <- Hid.
  apply (evolve_user _ _ _ [_]); [by rewrite Hid|]. intros Hwf.
  split; [by destruct (bool_decide _)..|destruct (bool_decide _); cbn; lia|right].
  exists (bool_decide (ss_action body = "suspend")), (ss_reason body), admin.
  split_and!; [by apply list_elem_of_singleton|by destruct (bool_decide _)| |apply Hm|by apply Hrow].
  unfold validate_SetStatusIn in Hv. destruct (_ && _) eqn:Hb; [|done]. by apply andb_true_iff in Hb as [_ ?].
Qed.

(** *** The rosters *)

(** The tables of groups as they were, and no user lost. *)
Record roster_same (t t' : tables) : Prop := {
  rs_groups : groups t' = groups t;
  rs_members : group_members t' = group_members t;
  rs_requests : join_requests t' = join_requests t;
  rs_users : dom (users t) ⊆@{gset UUID} dom (users t')
}.
#[local] Instance roster_same_pre : PreOrder roster_same.
Proof. split; [done|]. intros ??? [] []. split; try congruence. by etrans. Qed.
Ltac roster_change := apply within_change; [exact _|intros ?; split; cbn; first [done|set_solver]].
#[local] Hint Extern 2 (within (grown roster_same) (db_change _)) => roster_change : frame.

Lemma roster_audit a : within (grown roster_same) (add_audit a).
Proof. roster_change. Qed.
Hint Resolve roster_audit : frame.
Lemma roster_sweep_loop now l n : within (grown roster_same) (sweep_loop settings now l n).
Proof.
  revert n. induction l as [|m l IH]; intros n; cbn [sweep_loop];
    unfold sweep_message, wipe_message, delete_object, put_message; frame_go.
Qed.
Hint Resolve roster_sweep_loop : frame.
#[local] Instance roster_follows : Follows (grown roster_same).
Proof.
  split; [apply _|..]; intros;
    unfold verify, db_add_session, register_fcm_token,
      save_message, db_add_message, mark_delivered, mark_read, unsend_message, put_message, sweep_once,
      db_add_ack, db_add_broadcast; frame_go.
Qed.

(** What [get_db] does around an authenticated handler: nothing when the caller is refused, and
    otherwise the handler in a session of its own. *)
Lemma current_user_still creds w : (get_current_user settings creds w).2 = w.
Proof. symmetry. revert w. change (within eq (get_current_user settings creds)). unfold get_current_user. frame_go. Qed.
Lemma current_user_row creds w user w' :
  get_current_user settings creds w = (Ok user, w') → ∃ k, users (w_tables w) !! k = Some user ∧ u_status user = ACTIVE.
Proof.
  intros E. pose proof (current_user_still creds w) as Hs. rewrite E in Hs. cbn in Hs. subst w'.
  unfold get_current_user in E. destruct creds as [creds|]; [|done]. rewrite utcnow_step in E.
  destruct (decode_access_token _ _ _) as [payload|]; [|done].
  apply step_ok_inv in E as ([user_id ver] & w1 & Hm & E).
  match type of Hm with ?m w = _ => assert (within eq m) as Hw by frame_go; specialize (Hw w) end.
  rewrite Hm in Hw. cbn in Hw. subst w1. rewrite query_step in E.
  destruct (users (w_tables w) !! user_id) as [u|] eqn:Eu; [|done].
  do 2 (case_decide; [done|]). injection E as ->. exists user_id. split; [done|].
  destruct (decide (u_status user = ACTIVE)); naive_solver.
Qed.

(** The session of a request: the handler alone, as the user of the token, or nothing. *)
Definition fresh_session (w : world) : world := w <| w_tables := w_committed w |>.
Lemma get_db_guarded creds c w :
  match get_current_user settings creds (fresh_session w) with
  | (Ok user, _) => get_db (authenticated creds c) w = get_db (handler c user) w
  | (Err e, _) => get_db (authenticated creds c) w = (Err e, fresh_session w)
  end.
Proof.
  pose proof (current_user_still creds (fresh_session w)) as Hs.
  destruct (get_current_user settings creds (fresh_session w)) as [[user|e] w1] eqn:E; cbn in Hs; subst w1;
    unfold get_db, authenticated, rollback, commit, fresh_session in *; run; rewrite E; done.
Qed.
Lemma get_db_quiet {A} (m : prog world A) w : (get_db (quiet m) w).2 = (get_db m w).2.
Proof.
  unfold get_db, quiet, rollback, commit. run.
  by match goal with |- context [m ?x] => destruct (m x) as [[]] end.
Qed.

(** A group request is one of the operations of [Groups], or nothing. *)
Definition group_op_of (c : guarded_call) (user : User) : group_op :=
  match c with
  | CreateGroup gid mid body => OpCreate gid mid body user
  | Join mid rid group_id message => OpJoin mid rid group_id message user
  | Decide mid group_id request_id approve => OpDecide mid group_id request_id approve user
  | _ => Groups.OpWait 0
  end.
Lemma group_call_op c user w :
  group_call c = true → (get_db (handler c user) w).2 = run_group_op (group_op_of c user) w.
Proof. destruct c; intros E; try discriminate E; cbn; apply get_db_quiet. Qed.

Lemma groups_wf_same t t' : roster_same t t' → groups_wf t → groups_wf t'.
Proof.
  intros [Eg Em Er Hu] [Hr Hs]. split.
  - destruct Hr. split; unfold membership in *; rewrite ?Eg, ?Em, ?Er; try done.
    intros k r Hk. destruct (gw_request_for k r Hk) as [? Hx]. split; [done|].
    apply elem_of_dom, Hu. by apply elem_of_dom.
  - unfold settled, membership in *. by rewrite Em, Er.
Qed.

(** *** The messages *)

Definition msgs_kept (w w' : world) : Prop := msgs_ok w → kept w w'.
#[local] Instance msgs_kept_blind : Blind msgs_kept.
Proof.
  split; [split| | |].
  - intros w Hw. by apply kept_refl.
  - intros w1 w2 w3 H12 H23 Hw. eapply kept_trans; [by apply H12|apply H23].
  - intros w w' Hn Ht Hc Hw. apply kept_same; [done..| |]; by rewrite ?Ht, ?Hc.
  - intros w Hw. by apply kept_commit.
  - apply keeps_rollback.
Qed.
#[local] Hint Extern 2 (within msgs_kept (db_change _)) => (intros ? ?; by apply kept_same) : frame.
Lemma kept_audit a : within msgs_kept (add_audit a).
Proof. intros w Hw. by apply kept_same. Qed.
Hint Resolve kept_audit : frame.
#[local] Instance msgs_follows : Follows msgs_kept.
Proof.
  split; [apply _|..]; intros;
    try solve [apply keeps_save|apply keeps_delivered|apply keeps_read|apply keeps_unsend|apply keeps_sweep];
    unfold verify, db_add_session, register_fcm_token, db_add_ack, db_add_broadcast; frame_go.
Qed.
Lemma kept_delicate c user : delicate c = true → within msgs_kept (handler c user).
Proof.
  intros E. destruct c; try discriminate E; cbn [handler];
    unfold quiet, create_group, request_join, decide_request, require_admin_member, db_add_group, db_add_member,
      db_add_join_request, put_request, set_user_status, require_superadmin, put_user, create_ws_ticket; frame_go.
Qed.

(** *** Redis *)

Definition drawn_call (c : guarded_call) : Prop :=
  match c with InitUpload id _ => no_colon id = true | _ => True end.
Definition drawn_event (e : event) : Prop :=
  match e with Request (Bearer _ c) => drawn_call c | _ => True end.

Lemma safe_current_user creds : safe typed (get_current_user settings creds) tt_.
Proof.
  intros w Hw. rewrite current_user_still. split; [done|].
  destruct (get_current_user settings creds w) as [[user|e] w1] eqn:E; [done|]. cbn [fst].
  unfold get_current_user in E. destruct creds as [creds|]; [|by injection E as <-].
  rewrite utcnow_step in E. destruct (decode_access_token _ _ _) as [payload|]; [|by injection E as <-].
  apply step_err_inv in E as [E|([uid ver] & w2 & _ & E)].
  - revert E. run. unfold payload_item, py_UUID, py_int. intros E. repeat (case_match; simplify_eq/=; try done).
  - rewrite query_step in E. repeat case_match; (discriminate E || by injection E as <-).
Qed.

(** The upload a request reads. *)
Definition call_reads (c : guarded_call) : option string :=
  match c with PutChunk id _ _ | Upload id | CompleteUpload id _ _ => Some id | _ => None end.

Lemma safe_validated {A} (r : res A) : (∀ e, r = Err e → ∃ d, e = HTTPException 422 d) → safe typed (lift r) tt_.
Proof. intros Hr. apply safe_lift. by intros e [d ->]%Hr. Qed.
Lemma safe_fcm_in body : safe typed (lift (validate_FcmTokenIn body)) tt_.
Proof. apply safe_validated. unfold validate_FcmTokenIn. intros e. case_match; naive_solver. Qed.
Lemma safe_status_in body : safe typed (lift (validate_SetStatusIn body)) tt_.
Proof. apply safe_validated. unfold validate_SetStatusIn. intros e. case_match; naive_solver. Qed.
Lemma safe_broadcast_in body : safe typed (lift (validate_BroadcastIn body)) tt_.
Proof. apply safe_validated. unfold validate_BroadcastIn. intros e. case_match; naive_solver. Qed.
Lemma safe_push_batches fuel title body bid tokens n :
  safe typed (push_batches fuel title body bid tokens n) tt_.
Proof.
  revert tokens n. induction fuel as [|fuel IH]; intros [|t tokens] n; cbn [push_batches]; safe_go.
Qed.
Hint Resolve safe_fcm_in safe_status_in safe_broadcast_in safe_push_batches safe_upload_complete : safe.
Lemma safe_quiet_call {A} (m : prog world A) : safe typed m tt_ → safe typed (quiet m) tt_.
Proof. intros Hm. eapply safe_bind; [exact Hm|]. intros; by apply safe_ret. Qed.
Lemma safe_handler c user :
  drawn_call c → (∀ id, call_reads c = Some id → startswith "chunks:" id = false) →
  safe typed (handler c user) tt_.
Proof.
  intros Hd Hid. destruct c; cbn [handler]; try apply safe_quiet_call;
    auto using safe_ticket, safe_upload_init, no_colon_chunks, safe_upload_chunk, safe_upload_status,
      safe_get_keywords, safe_put_keywords, safe_delete_keywords.
  all: unfold list_sessions, revoke_session, list_conversations, message_history,
      mark_message_delivered, mark_message_read, update_typing, my_groups, group_members_route,
      pending_requests, create_group, request_join, decide_request, db_add_group, db_add_member,
      db_add_join_request, put_request, unacked_broadcasts, ack_broadcast, db_add_ack, register_fcm_token,
      list_users, set_user_status, put_user, live_stats, send_broadcast, db_add_broadcast,
      require_admin_member, require_superadmin, send_broadcast_push, broadcast_typing, notify_sender,
      broadcast_delivered, broadcast_read, mark_delivered, mark_read, put_message.
  all: safe_go.
  all: first [apply safe_map_each; intros [] _|apply safe_session_local]; safe_go.
Qed.

Lemma handler_chunks c id user w :
  call_reads c = Some id → startswith "chunks:" id = true → typed w → (handler c user w).2 = w.
Proof.
  intros Hc Hid Hw. destruct (load_state_chunks id (uuid_str (u_id user)) w Hid Hw) as (e & He & _).
  destruct c; try discriminate Hc; injection Hc as ->; cbn [handler];
    unfold quiet, upload_chunk, upload_status, upload_complete;
    by repeat rewrite (step_err _ _ _ _ _ He) || rewrite step_assoc.
Qed.
Lemma typed_handler c user w : drawn_call c → typed w → typed (handler c user w).2.
Proof.
  intros Hd Hw. destruct (default false (startswith "chunks:" <$> call_reads c)) eqn:Hc.
  - destruct (call_reads c) as [id|] eqn:Eid; [|done]. by rewrite (handler_chunks _ _ _ _ Eid Hc).
  - apply (safe_handler c user Hd); [|done]. intros id Eid. by rewrite Eid in Hc.
Qed.
Lemma typed_get_db {A} (m : prog world A) w :
  (∀ w, typed w → typed (m w).2) → typed w → typed (get_db m w).2.
Proof.
  intros Hm [H1 H2 H3]. unfold get_db, rollback, commit. run.
  assert (typed (fresh_session w)) as Hw by by split. specialize (Hm _ Hw). unfold fresh_session in Hm.
  destruct (m _) as [[a|e] w1]; cbn in Hm |- *; by destruct Hm.
Qed.

Lemma safe_sweep : safe typed (sweep_once settings) tt_.
Proof.
  assert (∀ now l n, safe typed (sweep_loop settings now l n) tt_).
  { intros now l. induction l as [|m l IH]; intros n; cbn [sweep_loop];
      unfold sweep_message, wipe_message, put_message, delete_object; safe_go. }
  unfold sweep_once. safe_go. apply safe_session_local. safe_go.
Qed.
Lemma safe_open c : safe typed (open_handler c) tt_.
Proof. destruct c; cbn [open_handler]; apply safe_void; auto using safe_request_otp, safe_login. Qed.

Lemma typed_event e w : drawn_event e → typed w → typed (happen e w).2.
Proof.
  intros Hd Hw. destruct e as [[c|creds c]|t c frames|fields| |d]; cbn [happen respond].
  - apply typed_get_db; [|done]. intros w1. apply (safe_open c).
  - assert (typed (get_db (authenticated creds c) w).2) as H1.
    { apply typed_get_db; [|done]. intros w1 H1. unfold authenticated. run.
      pose proof (current_user_still creds w1) as Hs.
      destruct (get_current_user settings creds w1) as [[user|e] w2]; cbn in Hs; subst w2; [|done].
      by apply typed_handler. }
    unfold mbind, prog_bind, bind. destruct (get_db _ w) as [[[task|]|e] w1]; try done. cbn in H1.
    unfold try_except. pose proof (safe_process_ocr task w1 H1) as [H2 _].
    by destruct (process_ocr task w1) as [[[]|e] w2].
  - apply (safe_void (chat_socket settings repr t c frames)); [apply safe_chat_socket|done].
  - by apply safe_on_ocr_alert.
  - by apply (safe_void (sweep_once settings)); [apply safe_sweep|].
  - by apply typed_elapse.
Qed.

Lemma grows_status_call creds c :
  (∃ user_id body, c = SetStatus user_id body) → grows (get_db (authenticated creds c)).
Proof.
  intros (user_id & body & ->). apply within_get_db; [apply _|]. intros w. unfold authenticated.
  apply within_step; [apply _|apply within_current_user, _|]. intros user w1 E.
  destruct (current_user_row _ _ _ _ E) as (k & Hk & _).
  pose proof (current_user_still creds w) as Hs. rewrite E in Hs. cbn in Hs. subst w1. cbn [handler]. unfold quiet.
  apply within_step; [apply _| |intros; apply within_ret, _].
  apply grows_set_status. intros [[Hid _] _]. exists user. by rewrite (Hid _ _ Hk).
Qed.

(** ** The invariant *)

(** What every state of the server satisfies, between events: no session is open; users have
    their keys and numbers of their own; rosters agree with the join requests; one
    acknowledgement per broadcast and user; messages are well-formed; Redis is typed. *)
Record server_ok (w : world) : Prop := {
  ok_idle : idle w;
  ok_users : users_wf (w_committed w);
  ok_groups : groups_wf (w_committed w);
  ok_acks : acks_ok (w_committed w);
  ok_messages : msgs_wf (w_now w) (messages (w_committed w));
  ok_redis : typed w
}.

Lemma idle_event e w : idle w → idle (happen e w).2.
Proof.
  enough (within stays_idle (happen e)) as Hw by apply Hw.
  destruct e as [[c|creds c]|t c frames|fields| |d]; cbn [happen respond]; unfold void; [frame_go..|intros w' Hi; exact Hi].
  all: unfold sweep_once, chat_socket, register, unregister, online_count, on_event, handle_frame, heartbeat, is_online; frame_go.
Qed.

Lemma passes e : (∃ d, e = Pass d) ∨ ∀ d, e ≠ Pass d.
Proof. destruct e; eauto. Qed.

Lemma record_event e w :
  idle w → tables_wf (w_committed w) →
  tables_wf (w_committed (happen e w).2) ∧ record_le (w_committed w) (w_committed (happen e w).2).
Proof.
  intros Hi. change (evolve (w_committed w) (w_committed (happen e w).2)).
  destruct (passes e) as [[d ->]|Hd]; [reflexivity|].
  apply (grown_idle evolve); [|exact Hi]. apply event_blind; [apply _..| |done].
  intros creds c _ Hc Ht. destruct (group_call c) eqn:Eg.
  - apply within_guarded; [apply _|]. intros user. by apply grows_group_call.
  - apply grows_status_call. destruct c; naive_solver.
Qed.

Lemma groups_event e w : idle w → groups_wf (w_committed w) → groups_wf (w_committed (happen e w).2).
Proof.
  intros Hi Hw.
  assert ((∀ creds c, e = Request (Bearer creds c) → group_call c = false) → (∀ d, e ≠ Pass d) →
    groups_wf (w_committed (happen e w).2)) as Hother.
  { intros Hc Hd. eapply groups_wf_same; [|exact Hw]. apply (grown_idle roster_same); [|exact Hi].
    apply event_blind; [apply _..| |done]. intros creds c E1 E2 Ht. apply within_guarded; [apply _|].
    pose proof (Hc _ _ E1). destruct c; try done. intros user. cbn [handler].
    unfold quiet, set_user_status, require_superadmin, put_user. frame_go. }
  destruct e as [[c|creds c]|t c frames|fields| |d]; try (apply Hother; [naive_solver|done]); [|done].
  destruct (group_call c) eqn:Ec; [|apply Hother; naive_solver]. cbn [happen respond].
  pose proof (get_db_guarded creds c w) as Hg.
  destruct (get_current_user _ _ _) as [[user|err] w1].
  - pose proof (run_group_op_wf (group_op_of c user) w Hw) as H1. rewrite <- group_call_op in H1 by done.
    unfold mbind, prog_bind, bind. rewrite Hg.
    destruct (get_db (handler c user) w) as [[[task|]|err] w2] eqn:E; [|exact H1..].
    exfalso. destruct c; try discriminate Ec; cbn in E; unfold get_db, quiet, commit, rollback in E; revert E; run;
      repeat case_match; naive_solver.
  - by rewrite (step_err _ _ _ _ _ Hg).
Qed.

Lemma messages_event e w : msgs_ok w →
  msgs_ok (happen e w).2 ∧ history (messages (w_committed w)) (messages (w_committed (happen e w).2)) ∧
  (w_now w ≤ w_now (happen e w).2)%Z.
Proof.
  intros Hw. destruct (passes e) as [[d ->]|Hd].
  - split_and!; [by apply msgs_ok_elapse; [lia|]|done|cbn; lia].
  - enough (within msgs_kept (happen e)) as He by (destruct (He w Hw) as (? & -> & ?); split_and!; [done..|lia]).
    apply event_blind; [apply _..| |done].
    intros creds c _ Hc _. apply within_guarded; [apply _|]. intros user. by apply kept_delicate.
Qed.

Lemma msgs_ok_idle w : server_ok w → msgs_ok w.
Proof. intros [Hi ? ? ? Hm ?]. split; by rewrite ?Hi. Qed.

Lemma server_event e w :
  server_ok w → drawn_event e →
  server_ok (happen e w).2 ∧ record_le (w_committed w) (w_committed (happen e w).2) ∧
  history (messages (w_committed w)) (messages (w_committed (happen e w).2)) ∧
  (w_now w ≤ w_now (happen e w).2)%Z.
Proof.
  intros Hok Hd. destruct (messages_event e w (msgs_ok_idle w Hok)) as (Hm & Hh & Hn).
  destruct Hok as [Hi Hu Hg Ha _ Ht].
  destruct (record_event e w Hi (conj Hu Ha)) as [[? ?] ?].
  split_and!; [split|done..]; try done.
  - by apply idle_event.
  - by apply groups_event.
  - apply Hm.
  - by apply typed_event.
Qed.

Lemma server_history es w :
  server_ok w → Forall drawn_event es →
  server_ok (history_of es w) ∧ record_le (w_committed w) (w_committed (history_of es w)) ∧
  history (messages (w_committed w)) (messages (w_committed (history_of es w))) ∧
  (w_now w ≤ w_now (history_of es w))%Z.
Proof.
  intros Hok Hes. revert w Hok. induction Hes as [|e es He Hes IH]; intros w Hok; [by split_and!|].
  destruct (server_event e w Hok He) as (Hok1 & Hr & Hh & Hn).
  destruct (IH _ Hok1) as (Hok2 & Hr2 & Hh2 & Hn2). cbn [history_of foldl].
  split_and!; [done|by etrans|by etrans|by etrans].
Qed.

(** ** Tokens that stay dead *)

(** The token of [uid] with version [ver], minted at [t0], is expired, superseded, or of nobody. *)
Definition dead (uid : UUID) (ver : Z) (t0 : timestamp) (w : world) : Prop :=
  (token_exp settings t0 < w_now w / second)%Z ∨
  match users (w_committed w) !! uid with
  | Some user => (ver < u_token_version user)%Z
  | None => True
  end.

Lemma dead_later uid ver t0 w w' :
  record_le (w_committed w) (w_committed w') → (w_now w ≤ w_now w')%Z → dead uid ver t0 w → dead uid ver t0 w'.
Proof.
  intros [(l & _ & Hu) _ _ _ _ _ _ _ Hno] Hn [He|Hd]; [left|right].
  - assert (w_now w / second ≤ w_now w' / second)%Z by (by apply Z.div_le_mono). lia.
  - destruct (users (w_committed w) !! uid) as [u|] eqn:E.
    + destruct (Hu _ _ E) as (u' & -> & []). lia.
    + destruct (users (w_committed w') !! uid) eqn:E'; [|done].
      apply elem_of_dom_2, Hno, elem_of_dom in E' as [? ?]. congruence.
Qed.

Lemma fresh_idle w : idle w → fresh_session w = w.
Proof. intros Hi. unfold idle in Hi. unfold fresh_session. rewrite <- Hi. by destruct w. Qed.

Lemma dead_refused `{!JoseLaws settings} uid ver role t0 jti c w :
  idle w → dead uid ver t0 w →
  respond (Bearer (Some (create_access_token settings uid ver role t0 jti)) c) w = (Err CREDENTIALS_ERROR, w).
Proof.
  intros Hi Hd. cbn [respond].
  pose proof (get_db_guarded (Some (create_access_token settings uid ver role t0 jti)) c w) as Hg.
  rewrite fresh_idle, (current_user_run settings) in Hg by done. apply (step_err _ _ _ _ w).
  assert (token_user settings uid ver t0 w = None) as E; [|by rewrite E in Hg].
  unfold token_user. rewrite Hi. destruct Hd as [He|Hd], (users (w_committed w) !! uid); try done.
  all: rewrite decide_False; [done|lia].
Qed.

(** A request in a session of its own, as it succeeds. *)
Lemma get_db_ok {A} (m : prog world A) w a w1 :
  idle w → get_db m w = (Ok a, w1) → ∃ w', m w = (Ok a, w') ∧ w1 = w' <| w_committed := w_tables w' |>.
Proof.
  intros Hi. pose proof (fresh_idle w Hi) as Hf. unfold fresh_session in Hf.
  unfold get_db, rollback, commit. run. rewrite Hf.
  destruct (m w) as [[b|e] w']; cbn; [|done]. intros [= <- <-]. eauto.
Qed.

Lemma suspend_request creds user_id reason w :
  idle w →
  (respond (Bearer creds (SetStatus user_id (mk_SetStatusIn "suspend" reason))) w).1 = Ok tt →
  ∃ target admin, users (w_committed w) !! user_id = Some target ∧
    (respond (Bearer creds (SetStatus user_id (mk_SetStatusIn "suspend" reason))) w).2
    = status_world true reason target admin w.
Proof.
  intros Hi. destruct (respond _ w) as [r w1] eqn:E. cbn [fst snd]. intros ->.
  pose proof (get_db_guarded creds (SetStatus user_id (mk_SetStatusIn "suspend" reason)) w) as Hg.
  cbn [respond] in E. apply step_ok_inv in E as (task & w2 & E1 & E2).
  destruct (get_current_user _ _ _) as [[admin|e] ?]; rewrite E1 in Hg; [|done].
  symmetry in Hg. apply get_db_ok in Hg as (w3 & E3 & ->); [|done].
  cbn [handler] in E3. apply step_ok_inv in E3 as (out & w4 & E4 & [= <- <-]). injection E2 as <-.
  destruct (set_user_status_inv _ _ _ _ _ _ E4) as (target & Ht & Hv & Hm).
  rewrite (set_user_status_run _ _ _ _ _ Ht Hv Hm) in E4. injection E4 as _ <-.
  exists target, admin. split; [by rewrite <- Hi|done].
Qed.

(** ** Tickets *)

(** What a history does to the entry of one ticket, up to [P] at the instant of each event. *)
Section Ticket.
Context (t : string) (P : timestamp → relation (option entry)) `{!∀ n, PreOrder (P n)}.

Definition at_ticket (w w' : world) : Prop :=
  w_now w' = w_now w ∧ P (w_now w) (w_sessions w !! ticket_key t) (w_sessions w' !! ticket_key t).
#[local] Instance at_ticket_pre : PreOrder at_ticket.
Proof.
  split; [by split|]. intros w1 w2 w3 [N1 H1] [N2 H2]. split; [congruence|].
  etrans; [exact H1|]. by rewrite <- N1.
Qed.
Lemma at_ticket_framed {A} K (m : prog rstate A) :
  framed K m → ticket_key t ∉ K → within at_ticket (redis_sessions m).
Proof. intros Hm Hk w. destruct (redis_sessions_kept K m w Hm) as [Hn Hs]. split; [done|]. by rewrite Hs. Qed.
#[local] Instance at_ticket_tracks : Tracks at_ticket.
Proof.
  split; [apply _| | |by intros w..].
  - intros w w' Hn _ _ Hs. split; [done|]. by rewrite Hs.
  - intros A m (K & Hm & Hk). by apply (at_ticket_framed K).
Qed.
#[local] Hint Extern 2 (within at_ticket (db_change _)) => (intros ?; by split) : frame.
Lemma at_ticket_audit a : within at_ticket (add_audit a).
Proof. by intros w. Qed.
#[local] Hint Resolve at_ticket_audit : frame.
Lemma at_ticket_sweep_loop now l n : within at_ticket (sweep_loop settings now l n).
Proof.
  revert n. induction l as [|m l IH]; intros n; cbn [sweep_loop];
    unfold sweep_message, wipe_message, delete_object, put_message; frame_go.
Qed.
#[local] Hint Resolve at_ticket_sweep_loop : frame.
#[local] Instance at_ticket_follows : Follows at_ticket.
Proof.
  split; [apply _|..]; intros;
    unfold verify, db_add_session, register_fcm_token,
      save_message, db_add_message, mark_delivered, mark_read, unsend_message, put_message, sweep_once,
      db_add_ack, db_add_broadcast; frame_go.
Qed.

Lemma at_ticket_other {A} (m : prog rstate A) t' :
  framed {[ticket_key t']} m → t' ≠ t → within at_ticket (redis_sessions m).
Proof.
  intros Hm Hne. apply (at_ticket_framed {[ticket_key t']}); [done|].
  apply not_elem_of_singleton. intros E%(append_inj_l "ws:ticket:"). congruence.
Qed.
Lemma at_ticket_event e :
  (∀ creds, e ≠ Request (Bearer creds (WsTicket t))) → (∀ d, e ≠ Pass d) →
  (∀ c frames, e = ChatSocket t c frames → consumes at_ticket t) → within at_ticket (happen e).
Proof.
  intros Ht Hd Hc. apply within_event; [apply _| | |done].
  - intros creds c -> Hdel. apply within_guarded; [apply _|]. intros user.
    destruct c; try discriminate Hdel; cbn [handler].
    { unfold quiet, create_ws_ticket. apply within_bind; [apply _| |frame_go].
      apply within_bind; [apply _| |frame_go]. apply (at_ticket_other _ t0); [solve_framed|].
      intros ->. by apply (Ht creds). }
    all: unfold quiet, create_group, request_join, decide_request, require_admin_member, db_add_group,
      db_add_member, db_add_join_request, put_request, set_user_status, require_superadmin, put_user; frame_go.
  - intros t' c frames E. destruct (decide (t' = t)) as [->|]; [by eapply Hc|].
    apply (at_ticket_other _ t'); [solve_framed|done].
Qed.
End Ticket.

(** Events that do not draw the ticket again, and that do not present it either. *)
Definition not_drawn (t : string) (e : event) : Prop := ∀ creds, e ≠ Request (Bearer creds (WsTicket t)).
Definition not_shown (t : string) (e : event) : Prop := ∀ c frames, e ≠ ChatSocket t c frames.

(** Until it is presented a ticket is as it was; one that is gone stays gone. *)
Lemma ticket_kept t es w :
  Forall (not_drawn t) es → Forall (not_shown t) es →
  w_sessions (history_of es w) !! ticket_key t = w_sessions w !! ticket_key t.
Proof.
  intros Hd Hs. revert w. induction es as [|e es IH]; intros w; [done|].
  apply Forall_cons in Hd as [He Hd], Hs as [Hse Hs]. cbn [history_of foldl].
  fold (history_of es (happen e w).2). rewrite IH by done. destruct (passes e) as [[d ->]|Hp]; [done|].
  destruct (at_ticket_event t (λ _, eq) e) with (s := w) as [_ H]; [done|done| |by rewrite H].
  intros c frames ->. by destruct (Hse c frames).
Qed.

Definition alive (now : timestamp) (e : option entry) : option entry :=
  e ≫= λ e, if expired now e then None else Some e.
Definition gone (now : timestamp) (e e' : option entry) : Prop := alive now e = None → alive now e' = None.
#[local] Instance gone_pre now : PreOrder (gone now).
Proof. split; [by intros e He|]. unfold gone. auto. Qed.

Lemma ticket_gone t es w :
  Forall (not_drawn t) es → live (w_now w) (w_sessions w) (ticket_key t) = None →
  let w' := history_of es w in live (w_now w') (w_sessions w') (ticket_key t) = None.
Proof.
  intros Hd. revert w. induction Hd as [|e es He Hd IH]; intros w Hg; [done|].
  cbn [history_of foldl]. fold (history_of es (happen e w).2). apply IH. clear IH.
  destruct (passes e) as [[d ->]|Hp].
  { cbn. rewrite (live_later (w_now w)) by lia. by rewrite Hg. }
  assert (consumes (at_ticket t gone) t) as Hcons.
  { intros w1. split; [unfold redis_sessions, zoom; by destruct (redis_getdel _ _)|]. intros Hg1.
    by rewrite (redis_sessions_run _ w1 _ _ (getdel_none _ (mk_rstate (w_now w1) (w_sessions w1)) Hg1)). }
  destruct (at_ticket_event t gone e He Hp (λ _ _ _, Hcons) w) as [Hn Hk].
  rewrite Hn. apply Hk, Hg.
Qed.

(** The answered request for a ticket. *)
Lemma ticket_request creds t w w1 :
  idle w → respond (Bearer creds (WsTicket t)) w = (Ok tt, w1) →
  ∃ user, get_current_user settings creds w = (Ok user, w) ∧
    w_sessions w1 = <[ticket_key t := mk_entry (RStr (uuid_str (u_id user)))
                        (Some (deadline (w_now w) WS_TICKET_TTL_SECONDS))]> (w_sessions w).
Proof.
  intros Hi E. pose proof (get_db_guarded creds (WsTicket t) w) as Hg.
  pose proof (current_user_still creds w) as Hs. rewrite fresh_idle in Hg by done.
  cbn [respond] in E. apply step_ok_inv in E as (task & w2 & E1 & E2). rewrite E1 in Hg.
  destruct (get_current_user settings creds w) as [[user|e] w0]; [|done]. cbn in Hs. subst w0.
  exists user. split; [done|]. symmetry in Hg. apply get_db_ok in Hg as (w3 & E3 & ->); [|done].
  cbn [handler] in E3. apply step_ok_inv in E3 as (out & w4 & E4 & [= <- <-]). injection E2 as <-.
  unfold create_ws_ticket in E4. apply step_ok_inv in E4 as ([] & w5 & E5 & [= _ <-]).
  revert E5. unfold redis_sessions, zoom. redis_run. by intros [= <-].
Qed.

(** C22. A ticket opens one socket. Once the server, in any good state, has answered a user's
    request for a ticket (of sixteen to sixty-four characters), whatever else happens, as long as
    nobody presents it and the presence registry is sound: a socket opened with it within thirty
    seconds is not refused - whatever frames its client sends, the client is greeted first, no
    other socket is written to, what is published for it names nobody but that user, and
    the registry is left as the user's connection and
    disconnection leave it - and after that socket, and past thirty seconds at once, every
    socket opened with the ticket is refused, whatever happens in between. (The server draws
    tickets at random: no later request draws the same one.) *)
Theorem ws_ticket_once es creds t c frames C w w1 :
  length_between 16 64 t = true → server_ok w →
  respond (Bearer creds (WsTicket t)) w = (Ok tt, w1) →
  Forall drawn_event es → Forall (not_drawn t) es → Forall (not_shown t) es →
  let w2 := history_of es w1 in
  reg_world C w2 →
  ∃ user, get_current_user settings creds w = (Ok user, w) ∧
    if decide (w_now w2 < deadline (w_now w) WS_TICKET_TTL_SECONDS)%Z then
      ∃ r w3, chat_socket settings repr t c frames w2 = (r, w3) ∧ r ≠ Ok Refused ∧
        reg_world (disconnect (connect C (u_id user) c) (u_id user) c) w3 ∧
        (∃ o, w_outbox w3 = (w_outbox w2 ++ o)%list ∧ Forall (from_self (u_id user)) o) ∧
        (∃ s, w_sent w3 = (w_sent w2 ++ (c, welcome c (Z.of_nat (size (connect C (u_id user) c))) (w_now w2)) :: s)%list ∧
              Forall (λ x, x.1 = c) s) ∧
        ∀ es' c' frames', Forall (not_drawn t) es' →
          let w4 := history_of es' w3 in
          chat_socket settings repr t c' frames' w4 = (Ok Refused, w4)
    else
      ∀ es' c' frames', Forall (not_drawn t) es' →
        let w4 := history_of es' w2 in
        chat_socket settings repr t c' frames' w4 = (Ok Refused, w4).
Proof.
  intros Hlen Hw Hreq Hes Hnd Hns w2 HC. pose proof Hw as [Hi _ _ _ _ _].
  destruct (ticket_request _ _ _ _ Hi Hreq) as (user & Hu & Hs1). exists user. split; [done|].
  destruct (server_event (Request (Bearer creds (WsTicket t))) w Hw I) as (Hw1 & _).
  cbn [happen] in Hw1. rewrite Hreq in Hw1. cbn [snd] in Hw1.
  destruct (server_history es w1 Hw1 Hes) as ([Hi2 _ _ _ Hm2 _] & _). fold w2 in Hi2, Hm2.
  assert (w_sessions w2 !! ticket_key t = Some (mk_entry (RStr (uuid_str (u_id user)))
    (Some (deadline (w_now w) WS_TICKET_TTL_SECONDS)))) as Hk.
  { unfold w2. rewrite ticket_kept by done. rewrite Hs1. apply lookup_insert_eq. }
  case_decide as Hd.
  - destruct (chat_served settings repr t c frames (u_id user)
      (Some (deadline (w_now w) WS_TICKET_TTL_SECONDS)) C w2 Hlen) as (r & w3 & E & Hr & HC3 & Ho & Hs & _ & Hg).
    { unfold live. rewrite Hk. unfold expired. cbn [e_exp]. by rewrite (proj2 (Z.leb_gt _ _)) by lia. }
    { done. }
    { intros k m. unfold idle in Hi2. rewrite Hi2. intros [H|H]; by apply Hm2. }
    exists r, w3. split_and!; [done..|]. intros es' c' frames' Hnd' w4.
    apply chat_refused, ticket_gone; [done..|]. unfold live. by rewrite Hg.
  - intros es' c' frames' Hnd' w4. apply chat_refused, ticket_gone; [done..|].
    unfold live. rewrite Hk. unfold expired. cbn [e_exp]. by rewrite (proj2 (Z.leb_le _ _)) by lia.
Qed.

Section Claims.
Context `{!JoseLaws settings}.

(** C3. The whole first backend keeps its invariant: from any good state, after any sequence of
    requests (each with its authentication, its session and its background task), chat sockets
    with their frames, relayed alerts, sweeps of the self-destruct worker and waits, no session
    is left open; accounts have their own ids and phone numbers; every group has its owner, one
    membership and one join request per user, and its roster agrees with the requests; one
    acknowledgement per broadcast and user; messages are well-formed; and the three Redis
    databases hold the types the code reads. *)
Theorem server_invariant es w :
  server_ok w → Forall drawn_event es → server_ok (history_of es w).
Proof. intros Hw Hes. by apply server_history. Qed.

(** C1. Nobody is promoted and nothing is erased, whatever happens to the server: over any history
    the audit log only grows; an account keeps its id, its number and its role, its token version
    only rises, and a change of its status has an entry in the log that names the account, the
    action, a reason of at least five characters and a user with an administrator's role; no
    session, join request or message disappears; groups, memberships, broadcasts and
    acknowledgements stay as they are; a message keeps its record and what it lost stays lost. *)
Theorem record_permanent es w :
  server_ok w → Forall drawn_event es →
  record_le (w_committed w) (w_committed (history_of es w)) ∧
  history (messages (w_committed w)) (messages (w_committed (history_of es w))).
Proof. intros Hw Hes. by destruct (server_history es w Hw Hes) as (_ & ? & ? & _). Qed.

(** C6. A dead token stays dead: one that has expired, that a later login or a suspension has
    superseded, or that names no account, opens none of the guarded endpoints in any later state
    of the server; the answer is the credentials error and nothing changes. *)
Theorem tokens_stay_dead es uid ver role t0 jti c w :
  server_ok w → Forall drawn_event es → dead uid ver t0 w →
  let w' := history_of es w in
  respond (Bearer (Some (create_access_token settings uid ver role t0 jti)) c) w' = (Err CREDENTIALS_ERROR, w').
Proof.
  intros Hw Hes Hd. destruct (server_history es w Hw Hes) as ([Hi ? ? ? ? ?] & Hr & _ & Hn).
  apply dead_refused; [done|]. by eapply dead_later.
Qed.

(** C2. Suspended for good: once the server has answered an administrator's request to suspend an
    account, no token minted for it before - with its token version of then or an earlier one -
    opens a guarded endpoint again, whatever happens afterwards, reactivation included. *)
Theorem suspended_for_good es creds user_id reason ver role t0 jti c target w :
  server_ok w → Forall drawn_event es →
  users (w_committed w) !! user_id = Some target → (ver ≤ u_token_version target)%Z →
  let suspension := Bearer creds (SetStatus user_id (mk_SetStatusIn "suspend" reason)) in
  (respond suspension w).1 = Ok tt →
  let w' := history_of (Request suspension :: es) w in
  respond (Bearer (Some (create_access_token settings user_id ver role t0 jti)) c) w' = (Err CREDENTIALS_ERROR, w').
Proof.
  intros Hw Hes Ht Hver suspension Hok w'.
  pose proof Hw as [Hi [Hid _] _ _ _ _].
  destruct (suspend_request _ _ _ _ Hi Hok) as (target' & admin & Ht' & E).
  rewrite Ht in Ht'. injection Ht' as <-.
  destruct (server_event (Request suspension) w Hw I) as (Hw1 & _).
  change (happen (Request suspension) w) with (respond suspension w) in Hw1.
  unfold w'. cbn [history_of foldl happen]. fold (history_of es (respond suspension w).2).
  destruct (server_history es _ Hw1 Hes) as ([Hi' ? ? ? ? ?] & Hr & _ & Hn).
  apply dead_refused; [done|]. eapply dead_later; [exact Hr|exact Hn|]. right.
  fold suspension in E. rewrite E. cbn. rewrite (Hid _ _ Ht), lookup_insert_eq. cbn. lia.
Qed.

(** C17. A login replaces the account's tokens: in any good state, and with a token lifetime that
    is not negative, once the server has answered a login, the token of the answer authenticates the account, with its version raised by one; and every token
    minted for the account with the version it had before or an earlier one - on whatever
    device, with whatever expiry - is refused by every guarded endpoint from then on, whatever
    happens afterwards. *)
Theorem login_rotates_tokens es body client agent draws out w1 w :
  (0 ≤ ACCESS_TOKEN_EXPIRE_MINUTES settings)%Z →
  server_ok w → Forall drawn_event es →
  get_db (verify settings body client agent draws) w = (Ok out, w1) →
  ∃ user, user_by_phone (vi_phone_number body) (w_committed w) = Some user ∧
    get_current_user settings (Some (access_token out)) w1
      = (Ok (logged_in user body (w_now w)), w1) ∧
    let w' := history_of (Request (Anybody (LogIn body client agent draws)) :: es) w in
    ∀ ver role t0 jti c, (ver ≤ u_token_version user)%Z →
      respond (Bearer (Some (create_access_token settings (u_id user) ver role t0 jti)) c) w'
      = (Err CREDENTIALS_ERROR, w').
Proof.
  intros Hexp Hw Hes Hlogin. pose proof Hw as [Hi _ _ _ _ _].
  set (login := Request (Anybody (LogIn body client agent draws))).
  assert ((happen login w).2 = w1) as Hhap.
  { cbn. pose proof (get_db_quiet (verify settings body client agent draws) w) as Hq.
    rewrite Hlogin in Hq. cbn [snd] in Hq. rewrite <- Hq. unfold get_db, quiet, void, rollback, commit. run.
    by match goal with |- context [verify ?a ?b ?c ?d ?e ?x] => destruct (verify a b c d e x) as [[]] end. }
  apply get_db_ok in Hlogin as (w0 & Hv & ->); [|done].
  destruct (login_token_current settings _ _ _ _ _ _ _ Hexp Hv) as (user & Hu & Husers & Hcur).
  exists user. split; [by rewrite <- Hi|]. split.
  { apply verify_ok_inv in Hv as (_ & _ & _ & _ & _ & _ & _ & Hc & _). rewrite <- Hc.
    replace (w0 <| w_committed := w_committed w0 |>) with w0 by (by destruct w0). exact Hcur. }
  intros w' ver role t0 jti c Hver.
  destruct (server_event login w Hw I) as (Hw1 & _). rewrite Hhap in Hw1.
  unfold w'. cbn [history_of foldl]. rewrite Hhap. fold (history_of es (w0 <| w_committed := w_tables w0 |>)).
  destruct (server_history es _ Hw1 Hes) as ([Hi' ? ? ? ? ?] & Hr & _ & Hn).
  apply dead_refused; [done|]. eapply dead_later; [exact Hr|exact Hn|]. right.
  cbn. rewrite Husers, lookup_insert_eq. cbn. lia.
Qed.
End Claims.
End Handlers.

(** ** A day at the server *)

#[local] Existing Instance Toy.hashing.
#[local] Existing Instance Toy.jose.
#[local] Existing Instance Toy.jose_laws.
#[local] Existing Instance Clip.minio.
#[local] Existing Instance Clip.pillow.
#[local] Existing Instance Socket.fcm.
#[local] Existing Instance no_text.

Module Post.
(** An administrator and a soldier, with their tokens. *)
Definition soldier : User := (Desk.member 8) <| u_phone_number := "+201000000008" |>.
Definition tables0 : tables := empty_tables <| users := {[uid 7 := Banner.user 7; uid 8 := soldier]} |>.
Definition world0 : world := (empty_world 5) <| w_tables := tables0 |> <| w_committed := tables0 |>.
Definition token (n : nat) : jwt := create_access_token default_settings (uid n) 1 "role" 0 "j".
Definition ticket : string := "a-ticket-of-the-server".
Definition suspension : http_request :=
  Bearer (Some (token 7)) (SetStatus (uid 8) (mk_SetStatusIn "suspend" "lost device")).
Definition text : json :=
  JObj [("type", JStr "text"); ("to", JStr (uuid_str (uid 7))); ("content", JStr "still here")].

(** What follows the suspension: the soldier opens the socket with an earlier ticket and writes; a
    sweep; an hour; the administrator relents. *)
Definition after : list event :=
  [ChatSocket ticket "c" [(uid 100, Frame text)];
   SweepDue;
   Pass (Z.to_N (minutes 10));
   Request (Bearer (Some (token 7)) (SetStatus (uid 8) (mk_SetStatusIn "activate" "found again")))].
Definition day : list event :=
  Request (Bearer (Some (token 8)) (WsTicket ticket)) :: Request suspension :: after.

Lemma rows k u : users tables0 !! k = Some u → (k = uid 7 ∧ u = Banner.user 7) ∨ (k = uid 8 ∧ u = soldier).
Proof.
  change (users tables0) with ({[uid 7 := Banner.user 7; uid 8 := soldier]} : gmap UUID User).
  intros [[<- <-]|[_ [<- <-]%lookup_singleton_Some]]%lookup_insert_Some; auto.
Qed.
Lemma good : server_ok world0.
Proof.
  split.
  - done.
  - split; [by intros k u [[-> ->]|[-> ->]]%rows|].
    by intros k k' u u' [[-> ->]|[-> ->]]%rows [[-> ->]|[-> ->]]%rows.
  - split; [split|]; try (intros ??; try intros ?; cbn; rewrite ?lookup_empty; done).
    all: intros g u k k' x x'; cbn; rewrite lookup_empty; done.
  - intros b u k k' x x'. cbn. by rewrite lookup_empty.
  - intros k m. cbn. by rewrite lookup_empty.
  - split; apply map_Forall_empty.
Qed.
Lemma drawn : Forall drawn_event day.
Proof. by repeat constructor. Qed.
End Post.

Lemma server_invariant_witness : server_ok (history_of default_settings Socket.repr Post.day Post.world0).
Proof. exact (server_invariant default_settings Socket.repr Post.day Post.world0 Post.good Post.drawn). Defined.

Lemma record_permanent_witness :
  ∃ u, users (w_committed (history_of default_settings Socket.repr Post.day Post.world0)) !! uid 8 = Some u ∧
    u_role u = (SOLDIER : string).
Proof.
  destruct (record_permanent default_settings Socket.repr Post.day Post.world0 Post.good Post.drawn)
    as [[(l & _ & H) _ _ _ _ _ _ _ _] _].
  destruct (H (uid 8) Post.soldier) as (u & Hu & Hle); [vm_compute; reflexivity|].
  exists u. split; [exact Hu|]. rewrite (al_role _ _ _ _ _ Hle). reflexivity.
Defined.

Lemma tokens_stay_dead_witness :
  let w' := history_of default_settings Socket.repr Post.day Post.world0 in
  respond default_settings (Bearer (Some (create_access_token default_settings (uid 8) 0 "role" 0 "j")) Unacked) w'
  = (Err CREDENTIALS_ERROR, w').
Proof.
  apply (tokens_stay_dead default_settings Socket.repr Post.day (uid 8) 0 "role" 0 "j" Unacked Post.world0
    Post.good Post.drawn).
  right. change (users (w_committed Post.world0) !! uid 8) with (Some Post.soldier). reflexivity.
Defined.

Lemma suspended_for_good_witness :
  let w' := history_of default_settings Socket.repr (Request Post.suspension :: Post.after) Post.world0 in
  respond default_settings (Bearer (Some (Post.token 8)) ListConversations) w' = (Err CREDENTIALS_ERROR, w').
Proof.
  apply (suspended_for_good default_settings Socket.repr Post.after (Some (Post.token 7)) (uid 8) "lost device"
    1 "role" 0 "j" ListConversations Post.soldier Post.world0 Post.good).
  - by repeat constructor.
  - reflexivity.
  - done.
  - vm_compute. reflexivity.
Defined.

(** The soldier's ticket opens the socket over which the soldier writes, and nothing later. *)
Lemma ws_ticket_once_witness :
  let w1 := (respond default_settings (Bearer (Some (Post.token 8)) (WsTicket Post.ticket)) Post.world0).2 in
  ∃ r w3, chat_socket default_settings Socket.repr Post.ticket "c" [(uid 100, Frame Post.text)] w1 = (r, w3) ∧
    r ≠ Ok Refused ∧
    let w4 := history_of default_settings Socket.repr Post.after w3 in
    chat_socket default_settings Socket.repr Post.ticket "c2" [] w4 = (Ok Refused, w4).
Proof.
  intros w1.
  assert (respond default_settings (Bearer (Some (Post.token 8)) (WsTicket Post.ticket)) Post.world0 = (Ok tt, w1))
    as Hreq.
  { apply injective_projections; [vm_compute; reflexivity|reflexivity]. }
  assert (reg_world ∅ w1) as HC.
  { destruct (ticket_request default_settings _ _ _ _ (ok_idle _ Post.good) Hreq) as (user & _ & Hs).
    apply (reg_world_kept ∅ (ticket_key Post.ticket) Post.world0); [by intros v [=]|by intros [=]| |].
    - split; [vm_compute; reflexivity|]. intros k Hk%not_elem_of_singleton.
      by rewrite Hs, lookup_insert_ne.
    - by apply empty_registry_world. }
  destruct (ws_ticket_once default_settings Socket.repr [] (Some (Post.token 8)) Post.ticket "c"
    [(uid 100, Frame Post.text)] ∅ Post.world0 w1 eq_refl Post.good Hreq ltac:(constructor) ltac:(constructor)
    ltac:(constructor) HC) as (user & _ & H).
  rewrite decide_True in H by (vm_compute; reflexivity).
  destruct H as (r & w3 & E & Hr & _ & _ & _ & Hlater). exists r, w3. split; [exact E|]. split; [exact Hr|].
  apply Hlater. by repeat constructor.
Defined.

Module Door.
(** Alice asks for a code and logs in; later she takes a ticket, and time passes. *)
Definition tables0 : tables := empty_tables <| users := {[uid 7 := Sample.alice]} |>.
Definition world0 : world := (empty_world 5) <| w_tables := tables0 |> <| w_committed := tables0 |>.
Definition called : world :=
  history_of default_settings Socket.repr
    [Request (Anybody (RequestCode (mk_RequestOtpIn "+201001234567") None [1; 2; 3; 4; 5; 6]%Z))] world0.
Definition login : prog world (VerifyOut jwt) :=
  get_db (verify default_settings Sample.body None None Sample.draws).
Definition later : list event := [Request (Bearer None Stats); Pass 60000000].

Lemma door_good : server_ok world0.
Proof.
  assert (∀ k u, users tables0 !! k = Some u → k = uid 7 ∧ u = Sample.alice) as Hrow.
  { intros k u. change (users tables0) with ({[uid 7 := Sample.alice]} : gmap UUID User).
    by intros [<- <-]%lookup_singleton_Some. }
  split.
  - done.
  - split; [by intros k u [-> ->]%Hrow|]. by intros k k' u u' [-> ->]%Hrow [-> ->]%Hrow.
  - split; [split|]; try (intros ??; try intros ?; cbn; rewrite ?lookup_empty; done).
    all: intros g u k k' x x'; cbn; rewrite lookup_empty; done.
  - intros b u k k' x x'. cbn. by rewrite lookup_empty.
  - intros k m. cbn. by rewrite lookup_empty.
  - split; apply map_Forall_empty.
Qed.
Lemma called_good : server_ok called.
Proof. apply server_history; [apply door_good|by repeat constructor]. Qed.
End Door.

Lemma login_rotates_tokens_witness :
  let w' := history_of default_settings Socket.repr
    (Request (Anybody (LogIn Sample.body None None Sample.draws)) :: Door.later) Door.called in
  respond default_settings
    (Bearer (Some (create_access_token default_settings (uid 7) 1 "soldier" 0 "old")) ListSessions) w'
  = (Err CREDENTIALS_ERROR, w').
Proof.
  destruct (is_ok_run Door.login Door.called) as (out & w1 & E); [by vm_compute|].
  destruct (login_rotates_tokens default_settings Socket.repr Door.later Sample.body None None Sample.draws
    out w1 Door.called) as (user & Hu & _ & H); [done|exact Door.called_good|by repeat constructor|exact E|].
  replace user with Sample.alice in H by (apply (inj Some); rewrite <- Hu; by vm_compute).
  exact (H 1%Z "soldier" 0%Z "old" ListSessions ltac:(done)).
Defined.

(** The administrator is told that live sockets drop at once; but the server never looks at the
    account again once a ticket is out: the suspended soldier's message is stored. *)
Example suspended_still_writes :
  let w' := history_of default_settings Socket.repr Post.day Post.world0 in
  (u_status <$> users (w_committed (history_of default_settings Socket.repr (take 2 Post.day) Post.world0)) !! uid 8,
   m_content_ciphertext <$> messages (w_committed w') !! uid 100, al_action <$> audit_logs (w_committed w'))
  = (Some (SUSPENDED : string), Some (Some "still here"), [USER_SUSPENDED : string; USER_REACTIVATED : string]).
Proof. vm_compute. reflexivity. Qed.
