(* ===== verification/Routing.v ===== *)
(** The routers of [app/main.py] and of [backend/app/main.py]: which endpoint answers a request.

    A router is the list of its routes, in the order of the decorators; [include_router] puts a
    prefix before each path. That a request goes to the first route whose method and path match
    is Starlette's, an interface. *)

From S2P Require Import Prelude PyStr Config.
From Stdlib Require Import String Ascii.

Local Open Scope string_scope.

(** ** Routes *)

(** A path, between its slashes: fixed text, or a parameter, which takes any non-empty text. *)
Inductive seg := Lit (s : string) | Param (x : string).
#[export] Instance seg_eq_dec : EqDecision seg.
Proof. solve_decision. Defined.

Record route := mk_route { method : string; template : list seg; endpoint : string }.
#[export] Instance route_eq_dec : EqDecision route.
Proof. solve_decision. Defined.

Definition include_router (prefix : list seg) (router : list route) : list route :=
  (λ r, mk_route (method r) (prefix ++ template r)%list (endpoint r)) <$> router.

(** A path that a request asks for, and whether a route has it. *)
Definition path_of (ss : list string) : string := foldr (λ s p, "/" ++ s ++ p) "" ss.
Definition no_slash (s : string) : bool := str_all (λ c, negb (Ascii.eqb c "/"%char)) s.
Fixpoint has_path (t : list seg) (ss : list string) : bool :=
  match t, ss with
  | [], [] => true
  | Lit l :: t, s :: ss => String.eqb l s && has_path t ss
  | Param _ :: t, s :: ss => negb (String.eqb s "") && has_path t ss
  | _, _ => false
  end.
Definition takes (m : string) (ss : list string) (r : route) : bool :=
  String.eqb (method r) m && has_path (template r) ss.

(** Starlette's router: the endpoint that answers a method and a path. *)
Class Starlette := answers : list route → string → string → option string.
Class StarletteLaws `{Starlette} : Prop :=
  answers_first rs m ss : forallb no_slash ss = true →
    answers rs m (path_of ss) = endpoint <$> find (takes m ss) rs.

(** ** The first backend *)

Definition auth_router : list route := include_router [Lit "auth"] [
  mk_route "POST" [Lit "request-otp"] "request_otp";
  mk_route "POST" [Lit "verify"] "verify";
  mk_route "POST" [Lit "ws-ticket"] "create_ws_ticket";
  mk_route "GET" [Lit "sessions"] "list_sessions";
  mk_route "DELETE" [Lit "sessions"; Param "session_id"] "revoke_session"].
Definition chats_router : list route := include_router [Lit "chats"] [
  mk_route "GET" [] "list_conversations";
  mk_route "GET" [Param "peer_id"; Lit "messages"] "message_history"].
Definition groups_router : list route := include_router [Lit "groups"] [
  mk_route "GET" [] "my_groups";
  mk_route "POST" [] "create_group";
  mk_route "GET" [Param "group_id"; Lit "members"] "group_members";
  mk_route "POST" [Param "group_id"; Lit "join"] "request_join";
  mk_route "GET" [Param "group_id"; Lit "join-requests"] "pending_requests";
  mk_route "POST" [Param "group_id"; Lit "join-requests"; Param "request_id"] "decide_request"].
Definition media_router : list route := include_router [Lit "media"] [
  mk_route "POST" [Lit "upload"; Lit "init"] "upload_init";
  mk_route "PUT" [Lit "upload"; Param "upload_id"; Lit "chunk"; Param "chunk_index"] "upload_chunk";
  mk_route "GET" [Lit "upload"; Param "upload_id"] "upload_status";
  mk_route "POST" [Lit "upload"; Param "upload_id"; Lit "complete"] "upload_complete";
  mk_route "GET" [Param "media_key"; Lit "url"] "presigned_view_url"].
Definition broadcasts_router : list route := include_router [Lit "broadcasts"] [
  mk_route "GET" [Lit "unacked"] "unacked_broadcasts";
  mk_route "POST" [Param "broadcast_id"; Lit "ack"] "ack_broadcast";
  mk_route "POST" [Lit "fcm-token"] "register_fcm_token"].
Definition admin_router : list route := include_router [Lit "admin"] [
  mk_route "GET" [Lit "users"] "list_users";
  mk_route "POST" [Lit "users"; Param "user_id"; Lit "status"] "set_user_status";
  mk_route "GET" [Lit "stats"] "live_stats";
  mk_route "POST" [Lit "broadcast"] "send_broadcast"].
Definition ocr_router : list route := [
  mk_route "GET" [Lit "ocr"; Lit "keywords"] "get_ocr_keywords";
  mk_route "POST" [Lit "ocr"; Lit "keywords"] "set_ocr_keywords";
  mk_route "DELETE" [Lit "ocr"; Lit "keywords"] "delete_ocr_keywords"].
Definition receipts_router : list route := [
  mk_route "POST" [Lit "chats"; Param "chat_id"; Lit "messages"; Param "message_id"; Lit "delivered"]
    "mark_message_delivered";
  mk_route "POST" [Lit "chats"; Param "chat_id"; Lit "messages"; Param "message_id"; Lit "read"] "mark_message_read";
  mk_route "POST" [Lit "chats"; Param "chat_id"; Lit "typing"] "update_typing"].
Definition keys_router : list route := [
  mk_route "GET" [Lit "keys"; Lit "prekeys"; Param "user_id"] "get_prekeys";
  mk_route "POST" [Lit "keys"; Lit "identity"] "register_identity_key";
  mk_route "POST" [Lit "keys"; Lit "prekey"] "upload_prekey";
  mk_route "POST" [Lit "keys"; Lit "signed_prekey"] "upload_signed_prekey"].

(** The application's, [API_PREFIX] given by the texts between its slashes. *)
Definition api_router : list route :=
  (auth_router ++ chats_router ++ groups_router ++ media_router ++ broadcasts_router ++ admin_router ++
   ocr_router ++ receipts_router ++ keys_router)%list.
Definition app_routes (API_PREFIX : list string) : list route :=
  (include_router (Lit <$> API_PREFIX) api_router ++ [mk_route "GET" [Lit "health"] "health_check"])%list.

(** ** The second backend's last two *)

Definition channels_router : list route := [
  mk_route "POST" [Lit ""] "create_channel";
  mk_route "GET" [Lit ""] "read_channels";
  mk_route "GET" [Param "channel_id"] "read_channel";
  mk_route "PUT" [Param "channel_id"] "update_channel";
  mk_route "DELETE" [Param "channel_id"] "delete_channel";
  mk_route "POST" [Param "channel_id"; Lit "posts"] "create_channel_post";
  mk_route "GET" [Param "channel_id"; Lit "posts"] "read_channel_posts";
  mk_route "POST" [Param "channel_id"; Lit "subscribe"] "subscribe_to_channel";
  mk_route "DELETE" [Param "channel_id"; Lit "unsubscribe"] "unsubscribe_from_channel";
  mk_route "GET" [Param "channel_id"; Lit "analytics"] "read_channel_analytics"].
Definition communities_router : list route := [
  mk_route "POST" [Lit ""] "create_community";
  mk_route "GET" [Lit ""] "read_communities";
  mk_route "GET" [Param "community_id"] "read_community";
  mk_route "PUT" [Param "community_id"] "update_community";
  mk_route "DELETE" [Param "community_id"] "delete_community";
  mk_route "POST" [Param "community_id"; Lit "members"] "add_community_member";
  mk_route "GET" [Param "community_id"; Lit "members"] "read_community_members";
  mk_route "POST" [Param "community_id"; Lit "events"] "create_community_event";
  mk_route "GET" [Param "community_id"; Lit "events"] "read_community_events";
  mk_route "POST" [Param "community_id"; Lit "events"; Param "event_id"; Lit "rsvp"] "rsvp_to_community_event";
  mk_route "POST" [Param "community_id"; Lit "resources"] "add_community_resource";
  mk_route "GET" [Param "community_id"; Lit "resources"] "read_community_resources"].

(** Included one after the other, under one prefix. *)
Definition backend_routes (API_PREFIX : list string) (before after : list route) : list route :=
  (before ++ include_router (Lit <$> API_PREFIX) channels_router ++
   include_router (Lit <$> API_PREFIX) communities_router ++ after)%list.

(** ** Overlaps *)

(** The paths that two templates share, as a template. *)
Fixpoint common (t1 t2 : list seg) : option (list seg) :=
  match t1, t2 with
  | [], [] => Some []
  | Lit l1 :: t1, Lit l2 :: t2 => if String.eqb l1 l2 then cons (Lit l1) <$> common t1 t2 else None
  | Lit l :: t1, Param _ :: t2 | Param _ :: t1, Lit l :: t2 =>
      if String.eqb l "" then None else cons (Lit l) <$> common t1 t2
  | Param x :: t1, Param _ :: t2 => cons (Param x) <$> common t1 t2
  | _, _ => None
  end.

Lemma has_path_common t1 t2 ss :
  has_path t1 ss = true → has_path t2 ss = true →
  ∃ t, common t1 t2 = Some t ∧ has_path t ss = true.
Proof.
  revert t2 ss. induction t1 as [|[l1|x1] t1 IH]; intros [|[l2|x2] t2] [|s ss]; try done; cbn; [by eexists|..].
  all: intros [H1 H1']%andb_true_iff [H2 H2']%andb_true_iff.
  all: destruct (IH _ _ H1' H2') as (t & -> & Ht); cbn.
  all: rewrite ?negb_true_iff, ?String.eqb_eq, ?String.eqb_neq in *; subst.
  - rewrite String.eqb_refl. eexists. split; [done|]. cbn. by rewrite String.eqb_refl.
  - apply String.eqb_neq in H2. rewrite H2. eexists. split; [done|]. cbn. by rewrite String.eqb_refl.
  - apply String.eqb_neq in H1. rewrite H1. eexists. split; [done|]. cbn. by rewrite String.eqb_refl.
  - apply String.eqb_neq in H1. eexists. split; [done|]. cbn. by rewrite H1.
Qed.

Lemma has_path_lits p ss : has_path (Lit <$> p) ss = true → ss = p.
Proof.
  revert ss. induction p as [|l p IH]; intros [|s ss]; try done. cbn.
  intros [->%String.eqb_eq ->%IH]%andb_true_iff. done.
Qed.

(** The only path that two routes of the first backend share: the state of the upload [url], which
    comes first, and the link of the object [upload]. *)
Definition shared_path : list string := ["media"; "upload"; "url"].

(** [r] is not hidden by a route before it, unless at that path. *)
Definition clear (r1 r : route) : bool :=
  negb (String.eqb (method r1) (method r)) ||
  match common (template r1) (template r) with
  | None => true
  | Some t => String.eqb (endpoint r) "presigned_view_url" && bool_decide (t = Lit <$> shared_path)
  end.
Fixpoint ordered (rs : list route) : bool :=
  match rs with
  | [] => true
  | r1 :: rs => forallb (clear r1) rs && ordered rs
  end.

Lemma api_ordered : ordered api_router = true.
Proof. vm_compute. reflexivity. Qed.

Lemma find_ordered rs r ss :
  ordered rs = true → r ∈ rs → has_path (template r) ss = true →
  (endpoint r = "presigned_view_url" → ss ≠ shared_path) → find (takes (method r) ss) rs = Some r.
Proof.
  intros Ho Hr Hp Hs. induction rs as [|r1 rs IH]; [by apply not_elem_of_nil in Hr|].
  cbn in Ho |- *. apply andb_true_iff in Ho as [Hc Ho].
  destruct (takes (method r) ss r1) eqn:E; apply elem_of_cons in Hr as [->|Hr]; try done.
  - apply andb_true_iff in E as [Hm%String.eqb_eq E].
    rewrite forallb_forall in Hc. apply list_elem_of_In, Hc in Hr. unfold clear in Hr.
    rewrite Hm, String.eqb_refl in Hr. cbn in Hr.
    destruct (has_path_common _ _ _ E Hp) as (t & Et & Ht). rewrite Et in Hr.
    apply andb_true_iff in Hr as [He%String.eqb_eq ->%bool_decide_eq_true]. by destruct (Hs He); apply (has_path_lits shared_path).
  - unfold takes in E. by rewrite String.eqb_refl, Hp in E.
  - auto.
Qed.

(** What a prefix does to a path. *)
Lemma has_path_prefix p t ss : has_path ((Lit <$> p) ++ t)%list (p ++ ss)%list = has_path t ss.
Proof. induction p as [|s p IH]; [done|]. cbn. by rewrite String.eqb_refl. Qed.
Lemma has_path_prefix_inv p t ss :
  has_path ((Lit <$> p) ++ t)%list ss = true → ∃ ss', ss = (p ++ ss')%list ∧ has_path t ss' = true.
Proof.
  revert ss. induction p as [|l p IH]; [eauto|]. intros [|s ss]; [done|]. cbn.
  intros [->%String.eqb_eq (ss' & -> & ?)%IH]%andb_true_iff. eauto.
Qed.
Lemma find_prefix p m ss rs :
  endpoint <$> find (takes m (p ++ ss)) (include_router (Lit <$> p) rs) = endpoint <$> find (takes m ss) rs.
Proof.
  induction rs as [|r rs IH]; [done|]. cbn. unfold takes at 1. cbn. rewrite has_path_prefix.
  change (String.eqb (method r) m && has_path (template r) ss) with (takes m ss r). by destruct (takes m ss r).
Qed.
Lemma find_app (f : route → bool) l1 l2 :
  find f (l1 ++ l2)%list = match find f l1 with Some r => Some r | None => find f l2 end.
Proof. induction l1 as [|r l1 IH]; [done|]. cbn. by destruct (f r). Qed.

Definition not_health (r : route) : bool :=
  match template r with Lit l :: _ => negb (String.eqb l "health") | _ => false end.
Lemma api_not_health : forallb not_health api_router = true.
Proof. vm_compute. reflexivity. Qed.
Lemma health_free p : find (takes "GET" ["health"]) (include_router (Lit <$> p) api_router) = None.
Proof.
  pose proof api_not_health as H. revert H. generalize api_router. intros rs.
  induction rs as [|r rs IH]; [done|]. cbn. intros [Hr H]%andb_true_iff.
  assert (takes "GET" ["health"] (mk_route (method r) ((Lit <$> p) ++ template r)%list (endpoint r)) = false) as ->;
    [|by apply IH].
  unfold takes. cbn. apply andb_false_iff. right. unfold not_health in Hr.
  destruct (template r) as [|[l|] t]; try done. apply negb_true_iff in Hr.
  destruct p as [|s [|s' p]]; cbn; [by rewrite Hr|by rewrite andb_false_r..].
Qed.

(** The routes of communities with a twin among the channels'. *)
Definition hidden : list string :=
  ["create_community"; "read_communities"; "read_community"; "update_community"; "delete_community"].
Fixpoint twin (t1 t2 : list seg) : bool :=
  match t1, t2 with
  | [], [] => true
  | Lit l1 :: t1, Lit l2 :: t2 => String.eqb l1 l2 && twin t1 t2
  | Param _ :: t1, Param _ :: t2 => twin t1 t2
  | _, _ => false
  end.
Lemma has_path_twin t1 t2 ss : twin t1 t2 = true → has_path t1 ss = has_path t2 ss.
Proof.
  revert t2 ss. induction t1 as [|[l1|x1] t1 IH]; intros [|[l2|x2] t2] ss; try done; cbn.
  - intros [->%String.eqb_eq ?]%andb_true_iff. destruct ss; [done|]. by rewrite (IH t2).
  - intros ?. destruct ss; [done|]. by rewrite (IH t2).
Qed.
Lemma twin_prefix p t1 t2 : twin t1 t2 = true → twin ((Lit <$> p) ++ t1)%list ((Lit <$> p) ++ t2)%list = true.
Proof. intros H. induction p as [|s p IH]; [done|]. cbn. by rewrite String.eqb_refl. Qed.
Lemma channels_not_hidden : forallb (λ r, negb (bool_decide (endpoint r ∈ hidden))) channels_router = true.
Proof. vm_compute. reflexivity. Qed.
Lemma hidden_twins :
  forallb (λ r, negb (bool_decide (endpoint r ∈ hidden)) ||
    existsb (λ r1, String.eqb (method r1) (method r) && twin (template r1) (template r)) channels_router)
    communities_router = true.
Proof. vm_compute. reflexivity. Qed.

Section Dispatch.
Context `{StarletteLaws}.

(** C37. Every endpoint of the first backend can be reached: a request with the method of a route
    and a path of its form, whatever fills its parameters, is answered by that route's endpoint
    and by none declared before it - but for the link of an object named [upload], whose path is
    that of the state of the upload [url]. *)
Theorem app_routes_reachable p r ss :
  r ∈ app_routes p → forallb no_slash ss = true → has_path (template r) ss = true →
  (endpoint r = "presigned_view_url" → ss ≠ (p ++ shared_path)%list) →
  answers (app_routes p) (method r) (path_of ss) = Some (endpoint r).
Proof.
  intros Hr Hss Hp Hs. rewrite answers_first by done. unfold app_routes in *. rewrite find_app.
  apply elem_of_app in Hr as [Hr| ->%list_elem_of_singleton].
  - apply list_elem_of_fmap in Hr as (r0 & -> & Hr0). cbn [method template endpoint] in Hp, Hs |- *.
    apply has_path_prefix_inv in Hp as (ss' & -> & Hp).
    pose proof (find_prefix p (method r0) ss' api_router) as E.
    rewrite (find_ordered _ _ _ api_ordered Hr0 Hp) in E; [|intros He ->; by apply Hs].
    destruct (find _ (include_router _ _)); [exact E|discriminate E].
  - apply (has_path_lits ["health"]) in Hp as ->. cbn [method endpoint]. by rewrite health_free.
Qed.

(** C38. Five routes of the second backend are dead: whatever is included before the channels and
    after the communities, no request is answered by the creation, the listing, the reading, the
    change or the deletion of a community, since both routers hang under one prefix and the
    channels', which come first, have the same paths. *)
Theorem communities_hidden p before after m ss e :
  e ∈ hidden → forallb no_slash ss = true → (∀ r, r ∈ (before ++ after)%list → endpoint r ≠ e) →
  answers (backend_routes p before after) m (path_of ss) ≠ Some e.
Proof.
  intros He Hss Hother. rewrite answers_first by done. unfold backend_routes. rewrite !find_app.
  destruct (find _ before) as [r|] eqn:E1; cbv match.
  { apply find_some in E1 as [Hin _]. apply list_elem_of_In in Hin. intros [= Er]. revert Er. apply Hother. set_solver. }
  destruct (find _ (include_router _ channels_router)) as [r|] eqn:E2; cbv match.
  { apply find_some in E2 as [Hin _]. apply list_elem_of_In in Hin. apply list_elem_of_fmap in Hin as (r0 & -> & Hr0).
    cbn [endpoint fmap option_fmap option_map]. pose proof channels_not_hidden as Hc. rewrite forallb_forall in Hc. apply list_elem_of_In, Hc in Hr0.
    apply negb_true_iff, bool_decide_eq_false in Hr0. congruence. }
  destruct (find _ (include_router _ communities_router)) as [r|] eqn:E3; cbv match.
  - intros [= Er]. apply find_some in E3 as [Hin Ht]. apply list_elem_of_In in Hin.
    apply list_elem_of_fmap in Hin as (r0 & -> & Hr0). cbn [endpoint] in Er.
    pose proof hidden_twins as Hc. rewrite forallb_forall in Hc. apply list_elem_of_In, Hc in Hr0.
    rewrite Er, bool_decide_eq_true_2 in Hr0 by done.
    cbn [negb orb] in Hr0. apply existsb_exists in Hr0 as (r1 & Hr1 & Htw).
    assert (takes m ss (mk_route (method r1) ((Lit <$> p) ++ template r1)%list (endpoint r1)) = false) as Hf.
    { apply (find_none _ _ E2), list_elem_of_In, list_elem_of_fmap. eexists. split; [done|]. by apply list_elem_of_In. }
    revert Ht Hf. unfold takes. cbn [method template]. apply andb_true_iff in Htw as [->%String.eqb_eq Hs].
    rewrite (has_path_twin _ _ _ (twin_prefix p _ _ Hs)). congruence.
  - destruct (find _ after) as [r|] eqn:E4; [|done]. cbn. apply find_some in E4 as [Hin _]. apply list_elem_of_In in Hin.
    intros [= Er]. revert Er. apply Hother. set_solver.
Qed.
End Dispatch.

(** ** Starlette, for the witnesses *)

Module Matcher.
(** The texts between the slashes of a path. *)
Fixpoint cut (s : string) : string * list string :=
  match s with
  | EmptyString => ("", [])
  | String c s => let '(x, l) := cut s in
      if Ascii.eqb c "/" then ("", x :: l) else (String c x, l)
  end.

Lemma cut_app s t : no_slash s = true → cut (s ++ t) = (s ++ (cut t).1, (cut t).2).
Proof.
  induction s as [|c s IH]; [intros _; apply surjective_pairing|]. unfold no_slash in *. cbn [str_all].
  intros [Hc%negb_true_iff H]%andb_true_iff. change (String c s ++ t) with (String c (s ++ t)).
  cbn [cut]. by rewrite IH, Hc.
Qed.
Lemma cut_path ss : forallb no_slash ss = true → cut (path_of ss) = ("", ss).
Proof.
  induction ss as [|s ss IH]; [done|]. cbn [forallb]. intros [Hs H]%andb_true_iff.
  change (path_of (s :: ss)) with (String "/" (s ++ path_of ss)). cbn [cut].
  rewrite cut_app, IH by done. cbn. by rewrite append_nil_r.
Qed.

#[export] Instance starlette : Starlette := λ rs m p, endpoint <$> find (takes m (cut p).2) rs.
#[export] Instance starlette_laws : StarletteLaws.
Proof. intros rs m ss Hss. unfold answers, starlette. by rewrite cut_path. Qed.
End Matcher.
#[local] Existing Instance Matcher.starlette.
#[local] Existing Instance Matcher.starlette_laws.

Definition v1 : list string := ["api"; "v1"].
Lemma app_routes_reachable_witness :
  answers (app_routes v1) "GET" "/api/v1/media/a-photo.jpg/url" = Some "presigned_view_url".
Proof.
  apply (app_routes_reachable v1
    (mk_route "GET" [Lit "api"; Lit "v1"; Lit "media"; Param "media_key"; Lit "url"] "presigned_view_url")
    ["api"; "v1"; "media"; "a-photo.jpg"; "url"]); [|reflexivity..|discriminate].
  apply (bool_decide_unpack _). vm_compute. exact I.
Defined.

Lemma communities_hidden_witness :
  answers (backend_routes v1 [] []) "POST" "/api/v1/" ≠ Some "create_community" ∧
  answers (backend_routes v1 [] []) "POST" "/api/v1/" = Some "create_channel" ∧
  answers (backend_routes v1 [] []) "DELETE" "/api/v1/5" = Some "delete_channel".
Proof.
  split; [|by vm_compute].
  apply (communities_hidden v1 [] [] "POST" ["api"; "v1"; ""] "create_community"); [|reflexivity|].
  - apply (bool_decide_unpack _). vm_compute. exact I.
  - intros r Hr. by apply not_elem_of_nil in Hr.
Defined.

(** The clash of the first backend. *)
Example upload_link_hidden :
  answers (app_routes v1) "GET" "/api/v1/media/upload/url" = Some "upload_status".
Proof. vm_compute. reflexivity. Qed.
