(* ===== verification/Migrations.v ===== *)
(** [alembic/env.py]: how the migrations are set up and run, with or without a connection.

    The options of [alembic.ini] are kept by Python's [configparser], whose treatment of [%] in a
    value is modelled; the migration context, the engine and the connection are Alembic's and
    SQLAlchemy's: what they are asked to do is a list of steps; what may go wrong in them, and
    what Alembic's transaction adds around a block, an interface. *)

From S2P Require Import Prelude Effects PyStr Config.
From stdpp Require Import pretty.
From Stdlib Require Import Ascii String.

Local Open Scope string_scope.

(** ** The options *)

Definition percent : ascii := "%"%char.

(** [BasicInterpolation.before_set], once [%%] is taken out: each [%] opens a reference [%(name)s]. *)
Fixpoint refs_only (name : option string) (s : string) : bool :=
  match name, s with
  | None, EmptyString => true
  | None, String c s =>
      if Ascii.eqb c percent
      then match s with
           | String d s => Ascii.eqb d "("%char && refs_only (Some "") s
           | EmptyString => false
           end
      else refs_only None s
  | Some _, EmptyString => false
  | Some name, String c s =>
      if Ascii.eqb c ")"%char
      then match s with
           | String d s => truthy name && Ascii.eqb d "s"%char && refs_only None s
           | EmptyString => false
           end
      else refs_only (Some (name ++ String c "")) s
  end.
Definition percent_ok (v : string) : bool := refs_only None (replace "%%" "" v).

(** [BasicInterpolation.before_get]: [%%] is a percent sign, a reference the value it names,
    read the same way. *)
Definition INTERPOLATION_ERROR : exn := PlainException "InterpolationError".
Fixpoint expand (refer : string → res string) (name : option string) (s : string) : res string :=
  match name, s with
  | None, EmptyString => Ok ""
  | None, String c s =>
      let '(pre, rest) :=
        if Ascii.eqb c percent
        then match s with
             | String d s =>
                 if Ascii.eqb d percent then (Ok "%", expand refer None s)
                 else if Ascii.eqb d "("%char then (Ok "", expand refer (Some "") s)
                 else (Err INTERPOLATION_ERROR, Ok "")
             | EmptyString => (Err INTERPOLATION_ERROR, Ok "")
             end
        else (Ok (String c ""), expand refer None s) in
      match pre, rest with Ok x, Ok y => Ok (x ++ y) | Err e, _ => Err e | _, Err e => Err e end
  | Some _, EmptyString => Err INTERPOLATION_ERROR
  | Some name, String c s =>
      if Ascii.eqb c ")"%char
      then match s with
           | String d s =>
               if truthy name && Ascii.eqb d "s"%char
               then match refer name, expand refer None s with
                    | Ok x, Ok y => Ok (x ++ y) | Err e, _ => Err e | _, Err e => Err e
                    end
               else Err INTERPOLATION_ERROR
           | EmptyString => Err INTERPOLATION_ERROR
           end
      else expand refer (Some (name ++ String c "")) s
  end.
Fixpoint interpolate (depth : nat) (options : list (string * string)) (v : string) : res string :=
  match depth with
  | O => Err INTERPOLATION_ERROR
  | S depth => expand (λ name,
      match list_find (λ o, o.1 = name) options with
      | Some (_, (_, v)) => interpolate depth options v
      | None => Err INTERPOLATION_ERROR
      end) None v
  end.
Definition MAX_INTERPOLATION_DEPTH : nat := 10.

(** The section [alembic] of [alembic.ini]. *)
Definition alembic_ini : list (string * string) :=
  [("script_location", "alembic"); ("prepend_sys_path", "."); ("version_path_separator", "os");
   ("sqlalchemy.url", "")].

(** ** What is asked of Alembic and SQLAlchemy *)

Record context_conf := mk_context_conf {
  cc_url : option string;
  cc_connection : bool;
  cc_literal_binds : bool;
  cc_paramstyle : option string;
  cc_compare_type : bool;
  cc_compare_server_default : bool
}.
Inductive step :=
| Configure (c : context_conf)
| Begin | Commit
| RunMigrations
| Engine (url : string) | Connect | Disconnect | Dispose.

Record astate := mk_astate {
  a_options : list (string * string);
  a_logging : bool;
  a_steps : list step
}.
#[export] Instance eta_astate : Eta astate := λ a, mk_astate (a_options a) (a_logging a) (a_steps a).

Definition do_step (x : step) : prog astate unit := modify (λ a, a <| a_steps ::= λ l, (l ++ [x])%list |>).

(** Whether the dialect of a URL is asynchronous; what connecting and what the migrations raise;
    and [with context.begin_transaction()] around a block, offline or over a connection. *)
Class Migrating := {
  async_dialect : string → bool;
  connecting : option exn;
  migrating : option exn;
  begin_transaction : bool → prog astate unit → prog astate unit
}.
(** SQLAlchemy's dialect over psycopg2 is synchronous. Offline, Alembic's transaction is the
    directives BEGIN before the block and COMMIT after it: a block that raises has no COMMIT. *)
Class MigratingLaws `{Migrating} : Prop := {
  psycopg2_sync : ∀ rest, async_dialect ("postgresql+psycopg2://" ++ rest) = false;
  offline_directives : ∀ body a,
    begin_transaction true body a = (do_step Begin ;; body ;; do_step Commit) a
}.

Definition failing (e : option exn) : prog astate unit :=
  match e with Some e => raise e | None => mret tt end.

(** ** [env.py] *)

Section Env.
Context (settings : Settings) `{Migrating}.

Definition set_main_option (name v : string) : prog astate unit :=
  ensure (percent_ok v) (ValueError "invalid interpolation syntax") ;;
  modify (λ a, a <| a_options ::= λ l, ((λ o, if String.eqb o.1 name then (name, v) else o) <$> l) |>).
Definition get_main_option (name : string) : prog astate string :=
  options ← gets a_options;
  o ← some_or_raise (list_find (λ o, o.1 = name) options) (KeyError name);
  lift (interpolate MAX_INTERPOLATION_DEPTH options o.2.2).
(** [config.get_section]: every option of the section, interpolated. *)
Definition get_section : prog astate (list (string * string)) :=
  options ← gets a_options;
  map_each (λ o, v ← lift (interpolate MAX_INTERPOLATION_DEPTH options o.2); mret (o.1, v)) options.

Definition run_migrations : prog astate unit := do_step RunMigrations ;; failing migrating.

Definition run_migrations_offline : prog astate unit :=
  url ← get_main_option "sqlalchemy.url";
  do_step (Configure (mk_context_conf (Some url) false true (Some "named") true true)) ;;
  begin_transaction true run_migrations.

Definition do_run_migrations : prog astate unit :=
  do_step (Configure (mk_context_conf None true false None true true)) ;;
  begin_transaction false run_migrations.

(** [async_engine_from_config] *)
Definition async_engine_from_config (section : list (string * string)) : prog astate unit :=
  o ← some_or_raise (list_find (λ o, o.1 = "sqlalchemy.url") section) (KeyError "url");
  ensure (async_dialect o.2.2)
    (PlainException "The asyncio extension requires an async driver to be used") ;;
  do_step (Engine o.2.2).

Definition run_async_migrations : prog astate unit :=
  section ← get_section;
  async_engine_from_config section ;;
  failing connecting ;;
  do_step Connect ;;
  try_finally do_run_migrations (do_step Disconnect) ;;
  do_step Dispose.
Definition run_migrations_online : prog astate unit := run_async_migrations.

(** The module: the URL, the logging if there is a configuration file, and one of the two. *)
Definition env (config_file offline : bool) : prog astate unit :=
  set_main_option "sqlalchemy.url" (sync_database_url settings) ;;
  (if config_file then modify (λ a, a <| a_logging := true |>) else mret tt) ;;
  if offline then run_migrations_offline else run_migrations_online.
End Env.

Definition initial : astate := mk_astate alembic_ini false [].

(** ** What comes of it *)

Definition no_percent (s : string) : bool := str_all (λ c, negb (Ascii.eqb c percent)) s.

Lemma replace_no_percent s : no_percent s = true → replace "%%" "" s = s.
Proof.
  unfold replace. induction s as [|c s IH]; [done|]. unfold no_percent in *. cbn [str_all].
  intros [Hc%negb_true_iff H]%andb_true_iff. apply Ascii.eqb_neq in Hc. cbn [replace_go String.prefix].
  destruct (ascii_dec "%" c) as [<-|]; [done|]. by rewrite IH.
Qed.
Lemma accepted_no_percent s : no_percent s = true → percent_ok s = true.
Proof.
  intros H. unfold percent_ok. rewrite replace_no_percent by done. revert H. unfold no_percent.
  induction s as [|c s IH]; [done|]. cbn [str_all refs_only].
  intros [->%negb_true_iff H]%andb_true_iff. by apply IH.
Qed.

(** Text without a percent sign is read as it is, whatever follows it. *)
Lemma expand_text refer p s :
  no_percent p = true →
  expand refer None (p ++ s) = match expand refer None s with Ok y => Ok (p ++ y) | Err e => Err e end.
Proof.
  unfold no_percent. induction p as [|c p IH]; [intros _; change ("" ++ s) with s; by destruct (expand refer None s)|]. cbn [str_all].
  intros [Hc%negb_true_iff H]%andb_true_iff.
  change (String c p ++ s) with (String c (p ++ s)). cbn [expand]. rewrite Hc, IH by done.
  by destruct (expand refer None s).
Qed.
Lemma interpolate_no_percent d options s : no_percent s = true → interpolate (S d) options s = Ok s.
Proof.
  intros H. cbn [interpolate]. rewrite <- (append_nil_r s) at 1. rewrite expand_text by done. cbn.
  by rewrite append_nil_r.
Qed.

Section Spec.
Context (settings : Settings) `{Migrating}.

Definition url_options (url : string) : list (string * string) :=
  [("script_location", "alembic"); ("prepend_sys_path", "."); ("version_path_separator", "os");
   ("sqlalchemy.url", url)].
(** What the script of the migrations comes to: one that stops in the middle is not committed. *)
Definition transaction : list step :=
  [Begin; RunMigrations] ++ match migrating with None => [Commit] | Some _ => [] end.
Definition outcome : res unit := match migrating with None => Ok tt | Some e => Err e end.

Lemma begin_transaction_run `{!MigratingLaws} a :
  begin_transaction true run_migrations a = (outcome, a <| a_steps ::= λ l, (l ++ transaction)%list |>).
Proof.
  rewrite offline_directives. unfold run_migrations, outcome, transaction, do_step, failing. destruct a, migrating;
    unfold over, mbind, prog_bind, bind, try_except, modify, raise, mret, prog_ret, ret; cbn;
    by rewrite <- !app_assoc.
Qed.

Lemma env_accepted config_file offline :
  percent_ok (sync_database_url settings) = true →
  env settings config_file offline initial =
  (if offline then run_migrations_offline else run_migrations_online)
    (mk_astate (url_options (sync_database_url settings)) config_file []).
Proof.
  intros Ha. unfold env, set_main_option. rewrite Ha. by destruct config_file, offline.
Qed.

(** What reading the options gives: an error, or the URL with its driver as it was. *)
Lemma interpolate_driver d options rest :
  (∃ e, interpolate (S d) options ("postgresql+psycopg2://" ++ rest) = Err e) ∨
  ∃ v, interpolate (S d) options ("postgresql+psycopg2://" ++ rest) = Ok ("postgresql+psycopg2://" ++ v).
Proof.
  cbn [interpolate]. rewrite expand_text by done. destruct (expand _ None rest); eauto.
Qed.
Lemma get_section_url cf rest :
  let a := mk_astate (url_options ("postgresql+psycopg2://" ++ rest)) cf [] in
  (∃ e, get_section a = (Err e, a)) ∨
  ∃ v, get_section a = (Ok (url_options ("postgresql+psycopg2://" ++ v)), a).
Proof.
  cbv zeta. unfold get_section, url_options. set (u := "postgresql+psycopg2://" ++ rest).
  destruct (interpolate_driver 9 (url_options u) rest) as [[e He]|[v Hv]]; [left; exists e|right; exists v].
  all: unfold url_options in *; unfold mbind, prog_bind, mret, prog_ret, bind, ret, gets; cbn [a_options map_each].
  all: unfold bind, ret, lift, mbind, prog_bind, mret, prog_ret; cbn [fst snd].
  all: rewrite !(interpolate_no_percent 9) by done; fold u in He || fold u in Hv;
    unfold MAX_INTERPOLATION_DEPTH; first [by rewrite He|by rewrite Hv].
Qed.

Lemma offline_run `{!MigratingLaws} cf url :
  no_percent url = true →
  run_migrations_offline (mk_astate (url_options url) cf []) =
  (outcome, mk_astate (url_options url) cf
    (Configure (mk_context_conf (Some url) false true (Some "named") true true) :: transaction)).
Proof.
  intros Hu. unfold run_migrations_offline, get_main_option, do_step.
  unfold mbind, prog_bind, bind, gets, some_or_raise, ret, lift, modify. cbn [a_options].
  change (list_find _ (url_options url)) with (Some (3%nat, ("sqlalchemy.url", url))). cbv beta iota. cbn [fst snd].
  unfold MAX_INTERPOLATION_DEPTH. rewrite interpolate_no_percent by done. by rewrite begin_transaction_run.
Qed.

Lemma online_run `{!MigratingLaws} cf rest :
  ∃ e, run_migrations_online (mk_astate (url_options ("postgresql+psycopg2://" ++ rest)) cf [])
       = (Err e, mk_astate (url_options ("postgresql+psycopg2://" ++ rest)) cf []).
Proof.
  unfold run_migrations_online, run_async_migrations.
  destruct (get_section_url cf rest) as [[e He]|[v Hv]]; [exists e; by rewrite (step_err _ _ _ _ _ He)|].
  rewrite (step_ok _ _ _ _ _ Hv). unfold async_engine_from_config.
  change (list_find _ (url_options _)) with (Some (3%nat, ("sqlalchemy.url", "postgresql+psycopg2://" ++ v))).
  unfold mbind, prog_bind, some_or_raise, ret, bind. cbv beta iota. cbn [snd]. rewrite psycopg2_sync. by eexists.
Qed.

(** C39. How the migrations come out, for any settings. Without a connection ([alembic upgrade
    --sql]): when no percent sign is in the URL, Alembic is configured with the URL of the synchronous
    driver, literal binds, the named paramstyle and type comparison, and the migrations run inside the
    transaction: the script begins, has the migrations and is committed - or, when one fails,
    stops before the commit and passes the error on; when the password holds a percent sign
    that [configparser] does not take for its own, nothing is configured and the URL is refused. With
    a connection: never - the asynchronous engine is asked for over a synchronous driver, and no
    connection is opened, no transaction begun. *)
Theorem migrations_spec `{!MigratingLaws} config_file offline :
  let url := sync_database_url settings in
  (no_percent url = true → offline = true →
   env settings config_file offline initial =
     (outcome, mk_astate (url_options url) config_file
       (Configure (mk_context_conf (Some url) false true (Some "named") true true) :: transaction))) ∧
  (percent_ok url = false →
   env settings config_file offline initial = (Err (ValueError "invalid interpolation syntax"), initial)) ∧
  (offline = false → ∃ e a, env settings config_file offline initial = (Err e, a) ∧ a_steps a = []).
Proof.
  intros url. destruct (percent_ok url) eqn:Ha.
  - split_and!; [|done|].
    + intros Hn ->. rewrite env_accepted by done. by apply offline_run.
    + intros ->. rewrite env_accepted by done. unfold sync_database_url, dsn.
      destruct (online_run config_file (POSTGRES_USER settings ++ ":" ++ POSTGRES_PASSWORD settings
        ++ "@" ++ POSTGRES_HOST settings ++ ":" ++ pretty (POSTGRES_PORT settings) ++ "/" ++ POSTGRES_DB settings))
        as [e He]. exists e. eexists. split; [exact He|done].
  - assert (env settings config_file offline initial = (Err (ValueError "invalid interpolation syntax"), initial)) as E.
    { unfold env, set_main_option. fold url. by rewrite Ha. }
    split_and!; [|done|intros _; rewrite E; by eexists _, _].
    intros Hn%accepted_no_percent. congruence.
Qed.
End Spec.

(** ** A deployment *)

Module Postgres.
#[export] Instance server : Migrating := {|
  async_dialect := String.prefix "postgresql+asyncpg://"; connecting := None; migrating := None;
  begin_transaction _ body := do_step Begin ;; body ;; do_step Commit |}.
#[export] Instance server_laws : MigratingLaws.
Proof. by split. Qed.
Definition settings (password : string) : Settings := default_settings <| POSTGRES_PASSWORD := password |>.
End Postgres.
#[local] Existing Instance Postgres.server.
#[local] Existing Instance Postgres.server_laws.

Lemma migrations_spec_witness :
  (∃ a, env (Postgres.settings "secret") true true initial = (Ok tt, a) ∧
     tail (a_steps a) = [Begin; RunMigrations; Commit]) ∧
  (env (Postgres.settings "p%40ss") true true initial).1 = Err (ValueError "invalid interpolation syntax") ∧
  ∃ e a, env (Postgres.settings "secret") true false initial = (Err e, a) ∧ a_steps a = [].
Proof.
  destruct (migrations_spec (Postgres.settings "secret") true true) as [H1 _].
  destruct (migrations_spec (Postgres.settings "p%40ss") true true) as (_ & H2 & _).
  destruct (migrations_spec (Postgres.settings "secret") true false) as (_ & _ & H3).
  split; [rewrite H1 by done; by eexists|]. split; [by rewrite H2|]. by apply H3.
Defined.
