(* ===== verification/Keys.v ===== *)
(** [app/services/encryption_service.py] and [app/api/routes/keys.py]: the directory of
    Signal keys and sessions in Redis, and its routes.

    The cryptography of the file is a stand-in that returns constants; the directory is
    what it implements. (Neither file imports as it is: [redis] of [app.core.redis] and
    [List] are missing. The model is the code with the names that are meant.) *)

From S2P Require Import Prelude Effects PyStr Uuid Redis Models Json.
From stdpp Require Import pretty.
From Stdlib Require Import String.

Local Open Scope string_scope.

(** ** [EncryptionService] *)

Definition identity_key (user_id : UUID) : string := "signal:identity:" ++ uuid_str user_id.
Definition prekeys_key (user_id : UUID) : string := "signal:prekeys:" ++ uuid_str user_id.
Definition signed_prekey_key (user_id : UUID) (key_id : Z) : string :=
  "signal:signed_prekey:" ++ uuid_str user_id ++ ":" ++ pretty key_id.
Definition session_key (user_id remote_user_id : UUID) : string :=
  "signal:session:" ++ uuid_str user_id ++ ":" ++ uuid_str remote_user_id.

(** [json.loads(data)] *)
Definition load (data : string) : prog rstate json :=
  some_or_raise (loads_json data) (ValueError "json").

(** [data = await redis.get(key); if data: return json.loads(data); return None] *)
Definition get_json (key : string) : prog rstate (option json) :=
  data ← redis_get key;
  match data with
  | Some data => if truthy data then v ← load data; mret (Some v) else mret None
  | None => mret None
  end.

Definition store_identity_key (user_id : UUID) (key : json) : prog rstate unit :=
  redis_set (identity_key user_id) (dumps_json key) None.
Definition get_identity_key (user_id : UUID) : prog rstate (option json) :=
  get_json (identity_key user_id).

Definition store_pre_key (user_id : UUID) (key_id : Z) (key_pair : json) : prog rstate unit :=
  redis_hset (prekeys_key user_id) (pretty key_id) (dumps_json key_pair).
(** [get_pre_keys]; its [limit] is not used. *)
Definition get_pre_keys (user_id : UUID) : prog rstate (list (Z * json)) :=
  raw ← redis_hgetall (prekeys_key user_id);
  map_each (λ '(key_id_str, key_pair_json),
    key_id ← some_or_raise (int_of_str key_id_str) (ValueError "int");
    key_pair ← load key_pair_json;
    mret (key_id, key_pair)) (map_to_list raw).
Definition remove_pre_key (user_id : UUID) (key_id : Z) : prog rstate unit :=
  redis_hdel (prekeys_key user_id) (pretty key_id).

Definition signed_pre_key (key_pair : json) (signature : string) : json :=
  JObj [("key_pair", key_pair); ("signature", JStr signature)].
Definition store_signed_pre_key (user_id : UUID) (key_id : Z) (key_pair : json) (signature : string)
    : prog rstate unit :=
  redis_set (signed_prekey_key user_id key_id) (dumps_json (signed_pre_key key_pair signature)) None.
Definition get_signed_pre_key (user_id : UUID) (key_id : Z) : prog rstate (option json) :=
  get_json (signed_prekey_key user_id key_id).
Definition remove_signed_pre_key (user_id : UUID) (key_id : Z) : prog rstate unit :=
  redis_delete [signed_prekey_key user_id key_id] ;; mret tt.

Definition store_session (user_id remote_user_id : UUID) (session_state : json) : prog rstate unit :=
  redis_set (session_key user_id remote_user_id) (dumps_json session_state) None.
Definition load_session (user_id remote_user_id : UUID) : prog rstate (option json) :=
  get_json (session_key user_id remote_user_id).
Definition delete_session (user_id remote_user_id : UUID) : prog rstate unit :=
  redis_delete [session_key user_id remote_user_id] ;; mret tt.

(** The stand-ins. *)
Definition generate_identity_key_pair : json :=
  JObj [("public", JStr "mock_identity_public"); ("private", JStr "mock_identity_private")].
Definition generate_pre_key_pair : json :=
  JObj [("public", JStr "mock_prekey_public"); ("private", JStr "mock_prekey_private")].
Definition generate_signed_pre_key_pair : json * string :=
  (JObj [("public", JStr "mock_signed_prekey_public"); ("private", JStr "mock_signed_prekey_private")],
   "mock_signature").
Definition compute_x3dh (identity_key_pub signed_pre_key_pub signed_pre_key_priv
    one_time_pre_key_pub remote_identity_pub remote_signed_pre_key_pub
    remote_one_time_pre_key_pub : string) : string := "mock_shared_secret".
Definition derive_ratchet_keys (secret : string) : json :=
  JObj [("root_key", JStr "mock_root_key"); ("send_chain_key", JStr "mock_send_chain_key");
        ("receive_chain_key", JStr "mock_receive_chain_key")].
Definition encrypt_message (session_state : json) (plaintext : string) : json :=
  JObj [("ciphertext", JStr "mock_ciphertext");
        ("header", JObj [("sender_key_id", JInt 1); ("receiver_key_id", JInt 1);
                         ("counter", JInt 1); ("previous_counter", JInt 0)])].
Definition decrypt_message (session_state ciphertext_dict : json) : string := "mock_plaintext".

(** ** The routes *)

Record PreKeyResponse := mk_PreKeyResponse { pk_key_id : Z; pk_public_key : string }.
Record PreKeyUpload := mk_PreKeyUpload { pu_key_id : Z; pu_public_key : string }.
Record SignedPreKeyUpload := mk_SignedPreKeyUpload {
  su_key_id : Z;
  su_public_key : string;
  su_signature : string
}.

(** [PreKeyResponse(key_id=key_id, public_key=key_pair["public"])] *)
Definition PreKeyResponse_of (k : Z * json) : res PreKeyResponse :=
  match k.2 with
  | JObj fields =>
      match json_get "public" fields with
      | Some (JStr p) => Ok (mk_PreKeyResponse k.1 p)
      | Some _ => Err (ValueError "public_key")
      | None => Err (KeyError "public")
      end
  | _ => Err TypeError
  end.

(** [get_prekeys] *)
Definition get_prekeys (user_id current_user : UUID) : prog rstate (list PreKeyResponse) :=
  prekeys ← get_pre_keys user_id;
  ensure (bool_decide (prekeys ≠ [])) (HTTPException 404 "No prekeys found for user") ;;
  map_each (λ k, lift (PreKeyResponse_of k)) prekeys.

(** [register_identity_key]; the key the client sends is not used. *)
Definition register_identity_key (public_key : string) (current_user : UUID) : prog rstate unit :=
  store_identity_key current_user generate_identity_key_pair.

(** [upload_prekey] *)
Definition upload_prekey (prekey : PreKeyUpload) (current_user : UUID) : prog rstate unit :=
  store_pre_key current_user (pu_key_id prekey) generate_pre_key_pair.

(** [upload_signed_prekey] *)
Definition upload_signed_prekey (signed_prekey : SignedPreKeyUpload) (current_user : UUID)
    : prog rstate unit :=
  store_signed_pre_key current_user (su_key_id signed_prekey) generate_pre_key_pair
    "mock_signature_from_client".

(** ** What the service is a directory of *)

(** A key that holds one document. *)
Inductive doc_key :=
| KIdentity (user_id : UUID)
| KSigned (user_id : UUID) (key_id : Z)
| KSession (user_id remote_user_id : UUID).
#[export] Instance doc_key_eq_dec : EqDecision doc_key.
Proof. solve_decision. Defined.

Definition doc_key_str (k : doc_key) : string :=
  match k with
  | KIdentity u => identity_key u
  | KSigned u i => signed_prekey_key u i
  | KSession u r => session_key u r
  end.

(** The directory: the documents, and the pre-keys of each user. *)
Record directory := mk_directory {
  d_doc : doc_key → option json;
  d_pre : UUID → gmap Z json
}.
Definition set_doc (k : doc_key) (v : option json) (d : directory) : directory :=
  mk_directory (λ k', if decide (k = k') then v else d_doc d k') (d_pre d).
Definition set_pre (u : UUID) (f : gmap Z json → gmap Z json) (d : directory) : directory :=
  mk_directory (d_doc d) (λ u', if decide (u = u') then f (d_pre d u') else d_pre d u').

Inductive dir_op :=
| StoreIdentity (u : UUID) (key : json)
| StorePre (u : UUID) (key_id : Z) (key_pair : json)
| RemovePre (u : UUID) (key_id : Z)
| StoreSigned (u : UUID) (key_id : Z) (key_pair : json) (signature : string)
| RemoveSigned (u : UUID) (key_id : Z)
| StoreSession (u r : UUID) (state : json)
| DeleteSession (u r : UUID).

Definition run_dir_op (op : dir_op) : prog rstate unit :=
  match op with
  | StoreIdentity u k => store_identity_key u k
  | StorePre u i k => store_pre_key u i k
  | RemovePre u i => remove_pre_key u i
  | StoreSigned u i k g => store_signed_pre_key u i k g
  | RemoveSigned u i => remove_signed_pre_key u i
  | StoreSession u r v => store_session u r v
  | DeleteSession u r => delete_session u r
  end.

Definition spec_dir_op (d : directory) (op : dir_op) : directory :=
  match op with
  | StoreIdentity u k => set_doc (KIdentity u) (Some k) d
  | StorePre u i k => set_pre u (<[i := k]>) d
  | RemovePre u i => set_pre u (delete i) d
  | StoreSigned u i k g => set_doc (KSigned u i) (Some (signed_pre_key k g)) d
  | RemoveSigned u i => set_doc (KSigned u i) None d
  | StoreSession u r v => set_doc (KSession u r) (Some v) d
  | DeleteSession u r => set_doc (KSession u r) None d
  end.

(** How Redis holds it. *)
Definition hash_of (m : gmap Z json) : gmap string string := kmap pretty (dumps_json <$> m).
Definition doc_entry (v : json) : entry := mk_entry (RStr (dumps_json v)) None.
Definition holds (d : directory) (s : rstate) : Prop :=
  (∀ k, live (rs_now s) (rs_db s) (doc_key_str k) = doc_entry <$> d_doc d k) ∧
  (∀ u, live (rs_now s) (rs_db s) (prekeys_key u) =
        if decide (d_pre d u = ∅) then None else Some (mk_entry (RHash (hash_of (d_pre d u))) None)).

(** ** The keys are distinct *)

Lemma append_inj_len s1 s2 t1 t2 :
  String.length s1 = String.length s2 → s1 ++ t1 = s2 ++ t2 → s1 = s2 ∧ t1 = t2.
Proof.
  revert s2. induction s1 as [|c s1 IH]; intros [|c' s2] Hl; try discriminate Hl; [done|].
  rewrite !append_cons. intros [= <- E]. injection Hl as Hl. by destruct (IH s2 Hl E) as [-> ->].
Qed.

Lemma uuid_append_inj u v s t : uuid_str u ++ s = uuid_str v ++ t → u = v ∧ s = t.
Proof.
  intros [E Et]%append_inj_len; [|by rewrite !length_uuid_str]. by apply uuid_str_inj in E.
Qed.

Lemma doc_key_str_inj k k' : doc_key_str k = doc_key_str k' → k = k'.
Proof.
  destruct k as [u|u i|u r], k' as [u'|u' i'|u' r']; cbn [doc_key_str];
    unfold identity_key, signed_prekey_key, session_key; try discriminate.
  - intros E%append_inj_l%uuid_str_inj. by subst.
  - intros [-> E]%append_inj_l%uuid_append_inj. apply (append_inj_l ":") in E.
    apply (inj pretty) in E. by subst.
  - intros [-> E]%append_inj_l%uuid_append_inj. apply (append_inj_l ":"), uuid_str_inj in E. by subst.
Qed.

Lemma doc_key_prekeys k u : doc_key_str k ≠ prekeys_key u.
Proof. by destruct k. Qed.

Lemma prekeys_key_inj u v : prekeys_key u = prekeys_key v → u = v.
Proof. unfold prekeys_key. by intros E%append_inj_l%uuid_str_inj. Qed.

(** ** The service implements it *)

Section Directory.
Context (d : directory) (s : rstate) (Hd : holds d s).

Lemma get_json_run k : get_json (doc_key_str k) s = (Ok (d_doc d k), s).
Proof.
  unfold get_json. destruct Hd as [Hdoc _]. specialize (Hdoc k).
  assert (redis_get (doc_key_str k) s = (Ok (dumps_json <$> d_doc d k), s)) as E.
  { redis_run. rewrite Hdoc. by destruct (d_doc d k). }
  rewrite (step_ok _ _ _ _ _ E).
  destruct (d_doc d k) as [v|]; [|done]. cbn [fmap option_fmap option_map].
  rewrite dumps_json_truthy. unfold load. by rewrite loads_dumps_json.
Qed.

Lemma put_doc_holds k v : holds (set_doc k (Some v) d) (s <| rs_db ::= <[doc_key_str k := doc_entry v]> |>).
Proof.
  destruct Hd as [Hdoc Hpre]. split.
  - intros k'. cbn. destruct (decide (k = k')) as [<-|Hne]; [by rewrite live_insert_eq|].
    rewrite live_insert_ne; [apply Hdoc|]. by intros E%doc_key_str_inj.
  - intros u. cbn. rewrite live_insert_ne; [apply Hpre|apply doc_key_prekeys].
Qed.

Lemma drop_doc_holds k : holds (set_doc k None d) (s <| rs_db ::= delete (doc_key_str k) |>).
Proof.
  destruct Hd as [Hdoc Hpre]. split.
  - intros k'. cbn. destruct (decide (k = k')) as [<-|Hne]; [by rewrite live_delete_eq|].
    rewrite live_delete_ne; [apply Hdoc|]. by intros E%doc_key_str_inj.
  - intros u. cbn. rewrite live_delete_ne; [apply Hpre|apply doc_key_prekeys].
Qed.

Lemma set_run k v :
  redis_set (doc_key_str k) (dumps_json v) None s
  = (Ok tt, s <| rs_db ::= <[doc_key_str k := doc_entry v]> |>).
Proof. done. Qed.

Lemma delete_run k :
  (redis_delete [doc_key_str k] ;; mret tt) s = (Ok tt, s <| rs_db ::= delete (doc_key_str k) |>).
Proof. done. Qed.

Lemma look_hash_run u : look_hash (prekeys_key u) s = (Ok (hash_of (d_pre d u)), s).
Proof.
  destruct Hd as [_ Hpre]. redis_run. rewrite Hpre. case_decide as E; [|done].
  rewrite E. unfold hash_of. by rewrite fmap_empty, kmap_empty.
Qed.

Lemma hash_of_empty m : hash_of m = ∅ ↔ m = ∅.
Proof. unfold hash_of. rewrite (kmap_empty_iff pretty). apply fmap_empty_iff. Qed.

(** A write of the hash of [u]. *)
Lemma put_hash_holds u f :
  ∃ s', put_hash (prekeys_key u) (hash_of (f (d_pre d u))) s = (Ok tt, s') ∧ holds (set_pre u f d) s'.
Proof.
  destruct Hd as [Hdoc Hpre].
  rewrite put_hash_run.
  destruct (decide (f (d_pre d u) = ∅)) as [E|E].
  - rewrite decide_True by by rewrite hash_of_empty. eexists. split; [done|]. split.
    + intros k. cbn. rewrite live_delete_ne; [apply Hdoc|]. intros Ek. by apply (doc_key_prekeys k u).
    + intros u'. cbn. destruct (decide (u = u')) as [<-|Hne].
      * by rewrite live_delete_eq, decide_True.
      * rewrite live_delete_ne; [apply Hpre|]. by intros Ek%prekeys_key_inj.
  - rewrite decide_False by by rewrite hash_of_empty. eexists. split; [done|].
    assert ((live (rs_now s) (rs_db s) (prekeys_key u) ≫= e_exp) = None) as Hx.
    { rewrite Hpre. by case_decide. }
    split.
    + intros k. cbn. rewrite live_insert_ne; [apply Hdoc|]. intros Ek. by apply (doc_key_prekeys k u).
    + intros u'. cbn. cbn in Hx. rewrite Hx. destruct (decide (u = u')) as [<-|Hne].
      * by rewrite live_insert_eq, decide_False.
      * rewrite live_insert_ne; [apply Hpre|]. by intros Ek%prekeys_key_inj.
Qed.

Lemma get_pre_keys_run u :
  ∃ l, get_pre_keys u s = (Ok l, s) ∧ l ≡ₚ map_to_list (d_pre d u).
Proof.
  unfold get_pre_keys, redis_hgetall. rewrite (step_ok _ _ _ _ _ (look_hash_run u)).
  set (decode := λ kv : string * string, (default 0%Z (int_of_str kv.1), default JNull (loads_json kv.2))).
  exists (decode <$> map_to_list (hash_of (d_pre d u))). split.
  - apply map_each_pure. intros [k v] Hkv. apply elem_of_map_to_list in Hkv.
    unfold hash_of in Hkv. apply lookup_kmap_Some in Hkv as (i & -> & Hv); [|apply _].
    rewrite lookup_fmap in Hv. destruct (d_pre d u !! i) as [j|]; [|done]. injection Hv as <-.
    rewrite int_of_str_pretty, some_step. unfold load. rewrite loads_dumps_json, some_step.
    unfold decode. cbn. by rewrite int_of_str_pretty, loads_dumps_json.
  - unfold hash_of. rewrite map_to_list_kmap by apply _. rewrite map_to_list_fmap.
    rewrite <- !list_fmap_compose. rewrite (list_fmap_ext _ id); [by rewrite list_fmap_id|].
    intros i [k v] _.
    change ((default 0%Z (int_of_str (pretty k)), default JNull (loads_json (dumps_json v))) = (k, v)).
    by rewrite int_of_str_pretty, loads_dumps_json.
Qed.

Lemma dir_op_holds op : ∃ s', run_dir_op op s = (Ok tt, s') ∧ holds (spec_dir_op d op) s'.
Proof.
  destruct op as [u k|u i k|u i|u i k g|u i|u r v|u r]; cbn [run_dir_op spec_dir_op].
  - eexists. split; [apply (set_run (KIdentity u))|apply put_doc_holds].
  - unfold store_pre_key, redis_hset. rewrite (step_ok _ _ _ _ _ (look_hash_run u)).
    replace (<[pretty i := dumps_json k]> (hash_of (d_pre d u))) with (hash_of (<[i := k]> (d_pre d u)));
      [apply put_hash_holds|]. unfold hash_of. rewrite fmap_insert. apply (kmap_insert pretty).
  - unfold remove_pre_key, redis_hdel. rewrite (step_ok _ _ _ _ _ (look_hash_run u)).
    replace (delete (pretty i) (hash_of (d_pre d u))) with (hash_of (delete i (d_pre d u)));
      [apply put_hash_holds|]. unfold hash_of. rewrite fmap_delete. apply (kmap_delete pretty).
  - eexists. split; [apply (set_run (KSigned u i))|apply put_doc_holds].
  - eexists. split; [apply (delete_run (KSigned u i))|apply drop_doc_holds].
  - eexists. split; [apply (set_run (KSession u r))|apply put_doc_holds].
  - eexists. split; [apply (delete_run (KSession u r))|apply drop_doc_holds].
Qed.
End Directory.

Lemma dir_ops_hold ops d s :
  holds d s →
  ∃ s', for_each run_dir_op ops s = (Ok tt, s') ∧ holds (foldl spec_dir_op d ops) s'.
Proof.
  revert d s. induction ops as [|op ops IH]; intros d s Hd; [by exists s|].
  destruct (dir_op_holds d s Hd op) as (s1 & E1 & Hd1). cbn [for_each foldl].
  rewrite (bind_ok _ _ _ _ _ E1). by apply IH.
Qed.

(** C26. The service refines a directory: starting from Redis holding a directory, any sequence
    of stores and removals succeeds, and afterwards every query - of anybody's identity key,
    signed pre-key, session or pre-keys - returns exactly what the directory then holds and
    changes nothing; keys and sessions of different users, and of different pairs of users,
    never meet. *)
Theorem key_service_refines ops d s :
  holds d s →
  ∃ s', for_each run_dir_op ops s = (Ok tt, s') ∧
    let d' := foldl spec_dir_op d ops in
    (∀ u, get_identity_key u s' = (Ok (d_doc d' (KIdentity u)), s')) ∧
    (∀ u i, get_signed_pre_key u i s' = (Ok (d_doc d' (KSigned u i)), s')) ∧
    (∀ u r, load_session u r s' = (Ok (d_doc d' (KSession u r)), s')) ∧
    (∀ u, ∃ l, get_pre_keys u s' = (Ok l, s') ∧ l ≡ₚ map_to_list (d_pre d' u)).
Proof.
  intros (s' & E & Hd')%(dir_ops_hold ops). exists s'. split; [done|]. split_and!.
  - intros u. apply (get_json_run _ _ Hd' (KIdentity u)).
  - intros u i. apply (get_json_run _ _ Hd' (KSigned u i)).
  - intros u r. apply (get_json_run _ _ Hd' (KSession u r)).
  - intros u. by apply get_pre_keys_run.
Qed.

(** ** The routes *)

(** What a sequence of uploads, of several users, leaves to be fetched for [u]. *)
Definition uploaded (u : UUID) (ups : list (UUID * PreKeyUpload)) : gset Z :=
  list_to_set ((λ up, pu_key_id up.2) <$> List.filter (λ up, bool_decide (up.1 = u)) ups).
Definition upload_op (up : UUID * PreKeyUpload) : dir_op :=
  StorePre up.1 (pu_key_id up.2) generate_pre_key_pair.

Lemma uploads_run ups s :
  for_each (λ up, upload_prekey up.2 up.1) ups s = for_each run_dir_op (upload_op <$> ups) s.
Proof.
  revert s. induction ups as [|up ups IH]; intros s; [done|]. cbn [fmap list_fmap for_each].
  change (upload_prekey up.2 up.1) with (run_dir_op (upload_op up)).
  unfold bind. destruct (run_dir_op (upload_op up) s) as [[] s']; [apply IH|done].
Qed.

Lemma uploads_pre u ups d X :
  d_pre d u = gset_to_gmap generate_pre_key_pair X →
  d_pre (foldl spec_dir_op d (upload_op <$> ups)) u
  = gset_to_gmap generate_pre_key_pair (uploaded u ups ∪ X).
Proof.
  revert d X. induction ups as [|[v p] ups IH]; intros d X Hd.
  - etransitivity; [exact Hd|]. f_equal. set_solver.
  - cbn [fmap list_fmap foldl]. rewrite (IH _ (if decide (v = u) then {[pu_key_id p]} ∪ X else X)).
    + f_equal. unfold uploaded. cbn [List.filter fst]. case_bool_decide; case_decide; set_solver.
    + cbn. case_decide; [|done]. fold generate_pre_key_pair. rewrite Hd. by rewrite gset_to_gmap_union_singleton.
Qed.

(** Pre-keys through the routes, by anybody for anybody: once users without pre-keys have
    uploaded some, fetching those of [u] answers 404 if [u] uploaded none, and otherwise lists
    every key id [u] uploaded, once - each with the server's constant in place of the public key
    that was uploaded. Fetching changes nothing, so the next caller is given the same "one-time"
    keys. *)
Theorem prekey_exchange ups u d s :
  holds d s → d_pre d u = ∅ →
  ∃ s', for_each (λ up, upload_prekey up.2 up.1) ups s = (Ok tt, s') ∧
    ∀ caller,
    if decide (uploaded u ups = ∅)
    then get_prekeys u caller s' = (Err (HTTPException 404 "No prekeys found for user"), s')
    else ∃ l, get_prekeys u caller s' = (Ok l, s') ∧
           l ≡ₚ (λ i, mk_PreKeyResponse i "mock_prekey_public") <$> elements (uploaded u ups).
Proof.
  intros Hd Hpre. destruct (dir_ops_hold (upload_op <$> ups) d s Hd) as (s' & E & Hd').
  exists s'. rewrite uploads_run. split; [done|]. intros caller.
  destruct (get_pre_keys_run _ _ Hd' u) as (l & El & Hl).
  rewrite (uploads_pre u ups d ∅) in Hl by by rewrite Hpre, gset_to_gmap_empty.
  rewrite (right_id_L ∅ (∪)), map_to_list_gset_to_gmap in Hl.
  unfold get_prekeys. rewrite (step_ok _ _ _ _ _ El). case_decide as Hu.
  - rewrite Hu in Hl. apply Permutation_nil_r in Hl as ->. done.
  - rewrite bool_decide_true.
    2: { intros ->. apply Permutation_nil_l in Hl. apply Hu, leibniz_equiv_iff, elements_empty_iff.
         by destruct (elements _). }
    rewrite ensure_true_step. exists ((λ k, mk_PreKeyResponse k.1 "mock_prekey_public") <$> l). split.
    + apply map_each_pure. intros [i k] Hk. rewrite Hl in Hk.
      apply list_elem_of_fmap in Hk as (? & [= -> ->] & _). done.
    + rewrite Hl. by rewrite <- list_fmap_compose.
Qed.

(** ** Applied *)

Module Exchange.
Definition nothing : directory := mk_directory (λ _, None) (λ _, ∅).
Definition redis0 : rstate := mk_rstate 0 ∅.
Lemma nothing_holds : holds nothing redis0.
Proof. done. Qed.
Definition state : json := JObj [("counter", JInt 3); ("chain", JList [JStr "a"; JNull])].
Definition ops : list dir_op :=
  [StoreIdentity (uid 7) generate_identity_key_pair; StoreSession (uid 7) (uid 8) state;
   DeleteSession (uid 8) (uid 7)].
Definition ups : list (UUID * PreKeyUpload) :=
  [(uid 7, mk_PreKeyUpload 5 "mine"); (uid 8, mk_PreKeyUpload 6 "yours");
   (uid 7, mk_PreKeyUpload 5 "mine again")].
End Exchange.

Lemma key_service_refines_witness :
  ∃ s', for_each run_dir_op Exchange.ops Exchange.redis0 = (Ok tt, s') ∧
    load_session (uid 7) (uid 8) s' = (Ok (Some Exchange.state), s') ∧
    load_session (uid 8) (uid 7) s' = (Ok None, s').
Proof.
  destruct (key_service_refines Exchange.ops Exchange.nothing Exchange.redis0 Exchange.nothing_holds)
    as (s' & E & _ & _ & Hs & _).
  exists s'. split; [exact E|]. split; rewrite Hs; reflexivity.
Defined.

Lemma prekey_exchange_witness :
  ∃ s', for_each (λ up, upload_prekey up.2 up.1) Exchange.ups Exchange.redis0 = (Ok tt, s') ∧
    get_prekeys (uid 7) (uid 9) s' = (Ok [mk_PreKeyResponse 5 "mock_prekey_public"], s').
Proof.
  destruct (prekey_exchange Exchange.ups (uid 7) Exchange.nothing Exchange.redis0
              Exchange.nothing_holds eq_refl) as (s' & E & H).
  exists s'. split; [exact E|]. specialize (H (uid 9)).
  rewrite decide_False in H by (vm_compute; discriminate).
  destruct H as (l & El & Hl).
  assert (elements (uploaded (uid 7) Exchange.ups) = [5%Z]) as Hu by (vm_compute; reflexivity).
  rewrite Hu in Hl. apply Permutation_singleton_r in Hl. by rewrite Hl in El.
Defined.
