(* ===== verification/Base64.v ===== *)
(** Python's [base64.b64encode] and [base64.b64decode], on [bytes] as sequences of
    characters below 256.

    Decoding is that of [binascii.a2b_base64] outside strict mode: characters outside the
    alphabet are skipped, and nothing after the closing padding is read. *)

From S2P Require Import Prelude Effects PyStr.
From Stdlib Require Import Ascii String.

Local Open Scope string_scope.

(** ** The alphabet *)

Definition b64_char (n : N) : ascii :=
  (if n <? 26 then ascii_of_N (65 + n)
   else if n <? 52 then ascii_of_N (71 + n)
   else if n <? 62 then ascii_of_N (n - 4)
   else if n =? 62 then "+" else "/")%N%char.

Definition b64_value (c : ascii) : option N :=
  let n := code c in
  (if (65 <=? n) && (n <=? 90) then Some (n - 65)
   else if (97 <=? n) && (n <=? 122) then Some (n - 71)
   else if (48 <=? n) && (n <=? 57) then Some (n + 4)
   else if n =? 43 then Some 62
   else if n =? 47 then Some 63 else None)%N.

(** ** [b64encode(s).decode('utf-8')] *)

Fixpoint b64encode (s : string) : string :=
  match s with
  | String a (String b (String c s)) =>
      String (b64_char (code a / 4))
        (String (b64_char (code a mod 4 * 16 + code b / 16))
          (String (b64_char (code b mod 16 * 4 + code c / 64))
            (String (b64_char (code c mod 64)) (b64encode s))))
  | String a (String b EmptyString) =>
      String (b64_char (code a / 4))
        (String (b64_char (code a mod 4 * 16 + code b / 16))
          (String (b64_char (code b mod 16 * 4)) "="))
  | String a EmptyString =>
      String (b64_char (code a / 4)) (String (b64_char (code a mod 4 * 16)) "==")
  | EmptyString => ""
  end.

(** ** [b64decode(s)] *)

(** The loop of [a2b_base64]: the position in the group of four, the bits left over and the
    padding seen since the last character of the alphabet. *)
Fixpoint a2b (s : string) (quad_pos leftchar pads : N) : res string :=
  match s with
  | EmptyString =>
      if (quad_pos =? 0)%N then Ok ""
      else if (quad_pos =? 1)%N then Err (ValueError "Invalid base64-encoded string")
      else Err (ValueError "Incorrect padding")
  | String c s =>
      if Ascii.eqb c "=" then
        if (2 <=? quad_pos)%N then
          if (4 <=? quad_pos + (pads + 1))%N then Ok "" else a2b s quad_pos leftchar (pads + 1)
        else a2b s quad_pos leftchar pads
      else
        match b64_value c with
        | None => a2b s quad_pos leftchar pads
        | Some v =>
            if (quad_pos =? 0)%N then a2b s 1 v 0
            else
              let '(byte, quad_pos, leftchar) :=
                if (quad_pos =? 1)%N then (leftchar * 4 + v / 16, 2, v mod 16)%N
                else if (quad_pos =? 2)%N then (leftchar * 16 + v / 4, 3, v mod 4)%N
                else (leftchar * 64 + v, 0, 0)%N in
              match a2b s quad_pos leftchar 0 with
              | Ok t => Ok (String (ascii_of_N byte) t)
              | Err e => Err e
              end
        end
  end.

(** Of [bytes]. *)
Definition b64decode (s : string) : res string := a2b s 0 0 0.

(** Of a [str], which has to be ASCII. *)
Definition is_ascii (c : ascii) : bool := (code c <? 128)%N.
Definition b64decode_str (s : string) : res string :=
  if str_all is_ascii s then b64decode s
  else Err (ValueError "string argument should contain only ASCII characters").

(** ** Facts *)

Lemma b64_char_ok n :
  (n < 64)%N →
  b64_value (b64_char n) = Some n ∧ Ascii.eqb (b64_char n) "=" = false ∧ is_ascii (b64_char n) = true.
Proof.
  intros Hn. destruct n as [|p]; [done|]. by do 6 (try destruct p as [p|p|]); try lia.
Qed.

Lemma code_lt c : (code c < 256)%N.
Proof. apply N_ascii_bounded. Qed.

Lemma ascii_of_code c n : n = code c → ascii_of_N n = c.
Proof. intros ->. apply ascii_N_embedding. Qed.

(** One step at a character of the alphabet. *)
Lemma a2b_char n s q l p :
  (n < 64)%N →
  a2b (String (b64_char n) s) q l p =
  if (q =? 0)%N then a2b s 1 n 0
  else
    let '(byte, q, l) :=
      if (q =? 1)%N then (l * 4 + n / 16, 2, n mod 16)%N
      else if (q =? 2)%N then (l * 16 + n / 4, 3, n mod 4)%N
      else (l * 64 + n, 0, 0)%N in
    match a2b s q l 0 with
    | Ok t => Ok (String (ascii_of_N byte) t)
    | Err e => Err e
    end.
Proof. intros Hn. destruct (b64_char_ok n Hn) as (E & Hne & _). cbn [a2b]. by rewrite Hne, E. Qed.

(** Groups of three bytes. *)
Lemma triples_ind (P : string → Prop) :
  P "" → (∀ a, P (String a "")) → (∀ a b, P (String a (String b ""))) →
  (∀ a b c s, P s → P (String a (String b (String c s)))) → ∀ s, P s.
Proof.
  intros H0 H1 H2 H3 s. enough (P s ∧ (∀ a, P (String a s)) ∧ ∀ a b, P (String a (String b s))) by naive_solver.
  induction s as [|c s (IH & IH1 & IH2)]; [done|]. split_and!; auto.
Qed.

(** The remainders of a group are six bits each. *)
Local Ltac Zify.zify_post_hook ::= Z.to_euclidean_division_equations.

(** Decoding gives back what was encoded. *)
Lemma b64decode_encode s : b64decode (b64encode s) = Ok s.
Proof.
  unfold b64decode. induction s as [|a|a b|a b c s IH] using triples_ind; [done|..]; cbn [b64encode];
    pose proof (code_lt a); try pose proof (code_lt b); try pose proof (code_lt c);
    repeat (rewrite a2b_char by lia; cbn -[N.div N.modulo N.mul N.add a2b b64_char b64encode]);
    rewrite ?IH; cbn -[N.div N.modulo N.mul]; repeat (f_equal; try (apply ascii_of_code; lia)).
Qed.
