(* ===== verification/SignalKeys.v ===== *)
(** [backend/app/services/encryption_service.py] and [backend/app/api/routes/keys.py]: the
    server half of the Signal key exchange of the second backend.

    The identity keys are columns of the users table, whose other columns are not in the
    repository; pre-keys and sessions are in Redis. Every change of a user row is committed
    in the next statement, so one table stands for the session's view and the database. A
    handler of Flask is a function to a status and a JSON body: nothing escapes its
    [except Exception]. *)

From S2P Require Import Prelude Effects PyStr Redis Models Json Base64.
From stdpp Require Import pretty.
From Stdlib Require Import Ascii String.

Local Open Scope string_scope.

(** ** Outside the repository *)

(** The library [signalprotocol], as the service calls it; keys, ciphers and sessions are
    serialised as bytes. Random generation takes a seed. *)
Class Signal := {
  KeyPair : Type;
  IdentityKeyPair : string → option string → res KeyPair;
  IdentityKeyPair_generate : N → KeyPair;
  public_key : KeyPair → string;                    (* .get_public_key().serialize() *)
  private_key : KeyPair → string;                   (* .get_private_key().serialize() *)
  generate_signature : KeyPair → string → string;
  PreKey_generate : Z → N → res (string * string);  (* public, private *)
  SignedPreKey_generate : Z → N → string * string;
  PreKey_deserialize : string → res unit;
  import_ec : res unit;                             (* [from signalprotocol.ecc import ...] *)
  SessionBuilder : KeyPair → string → res unit;
  cipher_encrypt : string → string → res string;    (* SessionCipher(state).encrypt(bytes) *)
  cipher_decrypt : string → string → res string;
  utf8 : string → string;
  of_utf8 : string → res string
}.

(** ** State *)

Record user_keys := mk_user_keys {
  identity_public_key : option string;
  identity_private_key : option string
}.
Record kstate := mk_kstate { k_redis : rstate; k_users : gmap string user_keys }.
#[export] Instance eta_kstate : Eta kstate := λ s, mk_kstate (k_redis s) (k_users s).

Definition on_redis {A} (m : prog rstate A) : prog kstate A :=
  λ s, let '(r, r') := m (k_redis s) in (r, s <| k_redis := r' |>).

Definition put_user (user_id : string) (u : user_keys) : prog kstate unit :=
  modify (λ s, s <| k_users ::= <[user_id := u]> |>).
Definition get_user (user_id : string) : prog kstate (option user_keys) :=
  gets (λ s, k_users s !! user_id).

(** A Python [int] or [bool], which is an [int]. *)
Inductive key_id := IdInt (z : Z) | IdBool (b : bool).
Definition id_value (i : key_id) : Z :=
  match i with IdInt z => z | IdBool b => Z.b2z b end.
Definition id_str (i : key_id) : string :=
  match i with IdInt z => pretty z | IdBool true => "True" | IdBool false => "False" end.

(** A text that is there and not empty. *)
Definition given (o : option string) : option string :=
  match o with Some t => if truthy t then Some t else None | None => None end.

(** ** [EncryptionService] *)

Section Service.
Context `{Signal}.

Definition PREKEYS_HASH (user_id : string) : string := "user:" ++ user_id ++ ":prekeys".
Definition PREKEY_PRIVATE_PREFIX (user_id : string) : string := "user:" ++ user_id ++ ":prekey".
Definition SESSION_PREFIX (user_id : string) : string := "user:" ++ user_id ++ ":session".
Definition private_key_of (user_id id : string) : string :=
  PREKEY_PRIVATE_PREFIX user_id ++ ":" ++ id.
Definition signed_prekey_hash (user_id : string) : string := "user:" ++ user_id ++ ":signed_prekey".
Definition SIGNED_PRE_KEY_ID : Z := 0xFFFF.
Definition PREKEY_TTL : Z := 30 * 24 * 3600.

(** The stored identity key, when it loads. *)
Definition stored_identity (u : user_keys) : option KeyPair :=
  match given (identity_public_key u), given (identity_private_key u) with
  | Some p, Some q =>
      match b64decode_str p, b64decode_str q with
      | Ok pub, Ok priv =>
          match IdentityKeyPair pub (Some priv) with Ok k => Some k | Err _ => None end
      | _, _ => None
      end
  | _, _ => None
  end.

(** [_load_or_create_identity_key_pair] *)
Definition load_or_create_identity_key_pair (user_id : string) (seed : N) : prog kstate KeyPair :=
  user ← get_user user_id;
  match user ≫= stored_identity with
  | Some k => mret k
  | None =>
      let k := IdentityKeyPair_generate seed in
      put_user user_id (mk_user_keys (Some (b64encode (public_key k)))
                                     (Some (b64encode (private_key k)))) ;;
      mret k
  end.

Record EncryptionService := mk_EncryptionService {
  user_id : string;
  identity_key_pair : KeyPair
}.

(** [EncryptionService(user_id, redis_client)] *)
Definition new_EncryptionService (user_id : string) (seed : N) : prog kstate EncryptionService :=
  k ← load_or_create_identity_key_pair user_id seed;
  mret (mk_EncryptionService user_id k).

Definition generate_identity_key_pair (self : EncryptionService) : string * string :=
  (public_key (identity_key_pair self), private_key (identity_key_pair self)).

(** The private half in a hash of its own, for thirty days; the public half in the hash of
    the user's pre-keys. *)
Definition put_private (self : EncryptionService) (id private : string) : prog rstate unit :=
  redis_hset (private_key_of (user_id self) id) "private" (b64encode private) ;;
  redis_expire (private_key_of (user_id self) id) PREKEY_TTL ;;
  mret tt.
Definition put_public (self : EncryptionService) (id public : string) : prog rstate unit :=
  redis_hset (PREKEYS_HASH (user_id self)) id (b64encode public).

(** [int.from_bytes(os.urandom(4)) & 0x7FFFFFFF], drawn until it is not taken; [None] when the
    given draws run out. *)
Fixpoint draw_id (self : EncryptionService) (draws : list Z) : prog rstate (option (Z * list Z)) :=
  match draws with
  | [] => mret None
  | d :: draws =>
      let id := Z.land d 0x7FFFFFFF in
      taken ← redis_hexists (PREKEYS_HASH (user_id self)) (pretty id);
      if taken : bool then draw_id self draws else mret (Some (id, draws))
  end.

(** [generate_pre_keys]: the key ids and public keys for the client. [seeds] are those of the
    key pairs, [draws] those of the ids. *)
Fixpoint generate_pre_keys (self : EncryptionService) (seeds : list N) (draws : list Z)
    : prog rstate (option (list (Z * string))) :=
  match seeds with
  | [] => mret (Some [])
  | seed :: seeds =>
      drawn ← draw_id self draws;
      match drawn with
      | None => mret None
      | Some (id, draws) =>
          halves ← lift (PreKey_generate id seed);
          put_private self (pretty id) halves.2 ;;
          put_public self (pretty id) halves.1 ;;
          rest ← generate_pre_keys self seeds draws;
          mret (cons (id, b64encode halves.1) <$> rest)
      end
  end.

(** [generate_signed_pre_key] *)
Definition generate_signed_pre_key (self : EncryptionService) (seed : N) : prog rstate json :=
  let '(public, private) := SignedPreKey_generate SIGNED_PRE_KEY_ID seed in
  let signature := generate_signature (identity_key_pair self) public in
  put_private self ("signed:" ++ pretty SIGNED_PRE_KEY_ID) private ;;
  redis_hset (signed_prekey_hash (user_id self)) "publicKey" (b64encode public) ;;
  redis_hset (signed_prekey_hash (user_id self)) "signature" (b64encode signature) ;;
  redis_expire (signed_prekey_hash (user_id self)) PREKEY_TTL ;;
  mret (JObj [("publicKey", JStr (b64encode public)); ("keyId", JInt SIGNED_PRE_KEY_ID);
              ("signature", JStr (b64encode signature))]).

(** [store_pre_key]: a private key of the server's own, and the client's public key. *)
Definition store_pre_key (self : EncryptionService) (pre_key_id : key_id) (public_key : string)
    (seed : N) : prog rstate bool :=
  halves ← lift (PreKey_generate (id_value pre_key_id) seed);
  put_private self (id_str pre_key_id) halves.2 ;;
  put_public self (id_str pre_key_id) public_key ;;
  mret true.

(** [consume_pre_key]: a read, the two deletions in one transaction, a deletion. *)
Definition consume_read (self : EncryptionService) (pre_key_id : Z) : prog rstate (option string) :=
  v ← redis_hget (private_key_of (user_id self) (pretty pre_key_id)) "private"; mret (given v).
Definition consume_pipe (self : EncryptionService) (pre_key_id : Z) : prog rstate unit :=
  redis_hdel (private_key_of (user_id self) (pretty pre_key_id)) "private" ;;
  redis_hdel (PREKEYS_HASH (user_id self)) (pretty pre_key_id).
Definition consume_delete (self : EncryptionService) (pre_key_id : Z) : prog rstate unit :=
  redis_delete [private_key_of (user_id self) (pretty pre_key_id)] ;; mret tt.
Definition consume_pre_key (self : EncryptionService) (pre_key_id : Z) : prog rstate (option string) :=
  priv_key_b64 ← consume_read self pre_key_id;
  match priv_key_b64 with
  | None => mret None
  | Some priv_key_b64 =>
      consume_pipe self pre_key_id ;;
      consume_delete self pre_key_id ;;
      priv_key_bytes ← lift (b64decode priv_key_b64);
      mret (Some priv_key_bytes)
  end.

(** Sessions. *)
Definition session_key (self : EncryptionService) (remote_user_id : string) : string :=
  SESSION_PREFIX (user_id self) ++ ":" ++ remote_user_id.
Definition store_session (self : EncryptionService) (remote_user_id session_state : string)
    : prog rstate bool :=
  redis_set (session_key self remote_user_id) session_state None ;; mret true.
Definition load_session (self : EncryptionService) (remote_user_id : string)
    : prog rstate (option string) :=
  redis_get (session_key self remote_user_id).

(** [derive_shared_secret]: thirty-two random bytes. *)
Definition derive_shared_secret (identity_key pre_key ephemeral_key random : string)
    : prog rstate string :=
  lift (IdentityKeyPair identity_key None) ;;
  lift (PreKey_deserialize pre_key) ;;
  lift import_ec ;;
  mret random.

(** [encrypt_message]: with the stored session, or one of random bytes that it stores.
    [random_state] and [random_ratchet] are the draws of [os.urandom]. *)
Definition encrypt_message (self : EncryptionService) (plaintext remote_user_id : string)
    (random_state random_ratchet : string) : prog rstate json :=
  stored ← load_session self remote_user_id;
  state ← match given stored with
          | Some state => mret state
          | None =>
              lift (SessionBuilder (identity_key_pair self) remote_user_id) ;;
              store_session self remote_user_id random_state ;;
              mret random_state
          end;
  ciphertext ← lift (cipher_encrypt state (utf8 plaintext));
  mret (JObj [("ciphertext", JStr (b64encode ciphertext)); ("ratchetKey", JStr (b64encode random_ratchet));
              ("previousCounter", JInt 0); ("counter", JInt 0)]).

(** [decrypt_message] *)
Definition decrypt_message (self : EncryptionService) (ciphertext_b64 ratchet_key_b64 remote_user_id : string)
    : prog rstate string :=
  stored ← load_session self remote_user_id;
  state ← some_or_raise (given stored) (ValueError "No session found for decryption");
  ciphertext_bytes ← lift (b64decode_str ciphertext_b64);
  plaintext ← lift (cipher_decrypt state ciphertext_bytes);
  lift (of_utf8 plaintext).

(** ** The routes *)

(** What a handler answers. *)
Record response := mk_response { status : Z; body : json }.
Definition error (code : Z) (what : string) : response :=
  mk_response code (JObj [("error", JStr what)]).
Definition message (what : string) : response := mk_response 200 (JObj [("message", JStr what)]).

(** [try: m except Exception: return 500] *)
Definition guarded (m : prog kstate response) : prog kstate response :=
  try_except m (λ _, mret (error 500 "Internal server error")).

(** The JSON the client sent, as Python sees it: [not data], ['key' in data].
    [request.get_json()] may raise. *)
Definition falsy (data : json) : bool :=
  match data with
  | JNull => true
  | JBool b => negb b
  | JInt z => (z =? 0)%Z
  | JStr s => negb (truthy s)
  | JList l => match l with [] => true | _ => false end
  | JObj l => match l with [] => true | _ => false end
  end.
Definition is_jstr (key : string) (v : json) : bool :=
  match v with JStr s => String.eqb s key | _ => false end.
Definition has_key (key : string) (data : json) : res bool :=
  match data with
  | JObj fields => Ok (bool_decide (is_Some (json_get key fields)))
  | JList l => Ok (existsb (is_jstr key) l)
  | JStr s => Ok (str_in key s)
  | _ => Err TypeError
  end.
(** [not data or 'k1' not in data or ...] *)
Fixpoint missing_one (keys : list string) (data : json) : res bool :=
  match keys with
  | [] => Ok false
  | key :: keys =>
      match has_key key data with
      | Ok true => missing_one keys data
      | Ok false => Ok true
      | Err e => Err e
      end
  end.
Definition lacks (keys : list string) (data : json) : res bool :=
  if falsy data then Ok true else missing_one keys data.

(** [base64.b64decode(v)] of a JSON value. *)
Definition b64decode_json (v : json) : res string :=
  match v with JStr s => b64decode_str s | _ => Err TypeError end.
(** [isinstance(v, int) and v >= 0] *)
Definition natural_id (v : json) : option key_id :=
  match v with
  | JInt z => if (0 <=? z)%Z then Some (IdInt z) else None
  | JBool b => Some (IdBool b)
  | _ => None
  end.

(** [get_prekeys]; one entry of its answer: *)
Definition prekey_entry (kv : string * string) : prog kstate json :=
  let '(id, pub_key_b64) := kv in
  key_id ← some_or_raise (int_of_str id) (ValueError "int");
  mret (JObj [("publicKey", JStr pub_key_b64); ("keyId", JInt key_id)]).
Definition get_prekeys (user_id : string) : prog kstate response :=
  guarded (
    prekeys ← on_redis (redis_hgetall (PREKEYS_HASH user_id));
    if bool_decide (prekeys = ∅) then mret (error 404 "No prekeys found for user") else
    keys_list ← map_each prekey_entry (map_to_list prekeys);
    mret (mk_response 200 (JObj [("userId", JStr user_id); ("prekeys", JList keys_list)]))).

(** [upload_identity_key] *)
Definition upload_identity_key (user_id : string) (request : res json) : prog kstate response :=
  guarded (
    data ← lift request;
    bad ← lift (lacks ["publicKey"] data);
    if bad : bool then mret (error 400 "Public key is required") else
    public_key_b64 ← lift (json_item "publicKey" data);
    match public_key_b64, b64decode_json public_key_b64 with
    | JStr public_key_b64, Ok _ =>
        user ← get_user user_id;
        match user with
        | None => mret (error 404 "User not found")
        | Some user =>
            put_user user_id (mk_user_keys (Some public_key_b64) (identity_private_key user)) ;;
            mret (message "Identity key updated successfully")
        end
    | _, _ => mret (error 400 "Invalid public key format")
    end).

(** [upload_prekey] *)
Definition upload_prekey (user_id : string) (request : res json) (seed seed' : N) : prog kstate response :=
  guarded (
    data ← lift request;
    bad ← lift (lacks ["publicKey"; "keyId"] data);
    if bad : bool then mret (error 400 "Public key and key ID are required") else
    public_key_b64 ← lift (json_item "publicKey" data);
    id ← lift (json_item "keyId" data);
    match b64decode_json public_key_b64 with
    | Err _ => mret (error 400 "Invalid public key format")
    | Ok public_key_bytes =>
        match natural_id id with
        | None => mret (error 400 "Key ID must be a non-negative integer")
        | Some id =>
            enc_service ← new_EncryptionService user_id seed;
            success ← on_redis (store_pre_key enc_service id public_key_bytes seed');
            if success : bool then mret (message "Pre-key stored successfully")
            else mret (error 500 "Failed to store pre-key")
        end
    end).

(** [upload_signed_prekey] *)
Definition upload_signed_prekey (user_id : string) (request : res json) : prog kstate response :=
  guarded (
    data ← lift request;
    bad ← lift (lacks ["publicKey"; "keyId"; "signature"] data);
    if bad : bool then mret (error 400 "Public key, key ID, and signature are required") else
    public_key_b64 ← lift (json_item "publicKey" data);
    id ← lift (json_item "keyId" data);
    signature_b64 ← lift (json_item "signature" data);
    match public_key_b64, signature_b64, b64decode_json public_key_b64, b64decode_json signature_b64 with
    | JStr public_key_b64, JStr signature_b64, Ok _, Ok _ =>
        match natural_id id with
        | None => mret (error 400 "Key ID must be a non-negative integer")
        | Some _ =>
            on_redis (redis_hset (signed_prekey_hash user_id) "publicKey" public_key_b64 ;;
                      redis_hset (signed_prekey_hash user_id) "signature" signature_b64 ;;
                      redis_expire (signed_prekey_hash user_id) PREKEY_TTL) ;;
            mret (message "Signed pre-key stored successfully")
        end
    | _, _, _, _ => mret (error 400 "Invalid public key or signature format")
    end).

(** [get_signed_prekey] *)
Definition get_signed_prekey (user_id : string) : prog kstate response :=
  guarded (
    public_key_b64 ← on_redis (redis_hget (signed_prekey_hash user_id) "publicKey");
    signature_b64 ← on_redis (redis_hget (signed_prekey_hash user_id) "signature");
    match given public_key_b64, given signature_b64 with
    | Some public_key_b64, Some signature_b64 =>
        mret (mk_response 200 (JObj [("userId", JStr user_id); ("publicKey", JStr public_key_b64);
                                     ("signature", JStr signature_b64); ("keyId", JInt SIGNED_PRE_KEY_ID)]))
    | _, _ => mret (error 404 "Signed pre-key not found for user")
    end).

(** ** What the pre-keys are *)

(** The pre-keys of a user: the published halves, and the private halves with the moment each
    is dropped. *)
Record bundle := mk_bundle {
  published : gmap string string;
  privates : gmap string (string * Z)
}.
Definition private_now (b : bundle) (now : Z) (id : string) : option string :=
  '(k, t) ← privates b !! id; if (t <=? now)%Z then None else Some k.

Definition bundles := string → bundle.
Definition set_bundle (u : string) (b : bundle) (B : bundles) : bundles :=
  λ v, if decide (u = v) then b else B v.
Definition add_key (id public private : string) (t : Z) (b : bundle) : bundle :=
  mk_bundle (<[id := public]> (published b)) (<[id := (private, t)]> (privates b)).
Definition drop_key (id : string) (b : bundle) : bundle :=
  mk_bundle (delete id (published b)) (delete id (privates b)).

Inductive prekey_op :=
| Upload (u : string) (id : key_id) (public : string) (seed : N)
| Consume (u : string) (id : Z)
| Wait (d : N).
Definition op_user (op : prekey_op) : option string :=
  match op with Upload u _ _ _ | Consume u _ => Some u | Wait _ => None end.

(** What the operations mean: on the clock and the bundles, and what they answer - the key
    that is consumed. *)
Definition spec_step (st : Z * bundles) (op : prekey_op) : res (option string) * (Z * bundles) :=
  let '(now, B) := st in
  match op with
  | Upload u id public seed =>
      match PreKey_generate (id_value id) seed with
      | Ok halves => (Ok None, (now, set_bundle u
                     (add_key (id_str id) public halves.2 (deadline now PREKEY_TTL) (B u)) B))
      | Err e => (Err e, (now, B))
      end
  | Consume u id =>
      match given (private_now (B u) now (pretty id)) with
      | Some k => (Ok (Some k), (now, set_bundle u (drop_key (pretty id) (B u)) B))
      | None => (Ok None, (now, B))
      end
  | Wait d => (Ok None, (now + Z.of_N d, B)%Z)
  end.

(** The same by the service, whatever the identity key. *)
Definition run_prekey_op (kp : KeyPair) (op : prekey_op) : prog rstate (option string) :=
  match op with
  | Upload u id public seed => store_pre_key (mk_EncryptionService u kp) id public seed ;; mret None
  | Consume u id => consume_pre_key (mk_EncryptionService u kp) id
  | Wait d => modify (λ s, s <| rs_now ::= λ now, (now + Z.of_N d)%Z |>) ;; mret None
  end.

(** The answers of a run. *)
Fixpoint answers {S O A} (step : S → O → A * S) (ops : list O) (s : S) : list A * S :=
  match ops with
  | [] => ([], s)
  | op :: ops => let '(a, s) := step s op in let '(l, s) := answers step ops s in (a :: l, s)
  end.

(** How Redis holds the bundles. A user id is an identifier without a colon. *)
Definition hash_entry (m : gmap string string) : option entry :=
  if decide (m = ∅) then None else Some (mk_entry (RHash m) None).
Definition private_entry (kt : string * Z) : entry :=
  mk_entry (RHash {["private" := b64encode kt.1]}) (Some kt.2).
Definition alive (now : Z) (e : option entry) : option entry :=
  e ← e; if expired now e then None else Some e.
Definition stores (st : Z * bundles) (s : rstate) : Prop :=
  rs_now s = st.1 ∧ ∀ u, no_colon u = true →
    live (rs_now s) (rs_db s) (PREKEYS_HASH u) = hash_entry (b64encode <$> published (st.2 u)) ∧
    ∀ id, live (rs_now s) (rs_db s) (private_key_of u id)
          = alive (rs_now s) (private_entry <$> privates (st.2 u) !! id).

(** The keys of Redis that hold bundles are distinct. *)
Lemma prekeys_hash_inj u v :
  no_colon u = true → no_colon v = true → PREKEYS_HASH u = PREKEYS_HASH v → u = v.
Proof.
  unfold PREKEYS_HASH. intros Hu Hv E%append_inj_l. by apply no_colon_inj in E as [-> _].
Qed.

Lemma private_key_of_eq u i : private_key_of u i = "user:" ++ u ++ String ":" ("prekey:" ++ i).
Proof.
  unfold private_key_of, PREKEY_PRIVATE_PREFIX. by rewrite !append_assoc.
Qed.

Lemma private_key_of_inj u v i j :
  no_colon u = true → no_colon v = true → private_key_of u i = private_key_of v j → u = v ∧ i = j.
Proof.
  rewrite !private_key_of_eq. intros Hu Hv E%append_inj_l.
  apply no_colon_inj in E as [-> E]; [|done..]. by injection E.
Qed.

Lemma prekeys_hash_private u v i :
  no_colon u = true → no_colon v = true → PREKEYS_HASH u ≠ private_key_of v i.
Proof.
  rewrite private_key_of_eq. unfold PREKEYS_HASH. intros Hu Hv E%append_inj_l.
  apply no_colon_inj in E as [-> E]; [|done..]. discriminate E.
Qed.

(** *** Reading and writing them *)

Section Stored.
Context (now : Z) (B : bundles) (s : rstate) (Hs : stores (now, B) s).
Context (u : string) (kp : KeyPair) (Hu : no_colon u = true).
Local Abbreviation self := (mk_EncryptionService u kp).

Lemma stored_now : rs_now s = now.
Proof. by destruct Hs. Qed.

Lemma stored_public : live now (rs_db s) (PREKEYS_HASH u) = hash_entry (b64encode <$> published (B u)).
Proof. destruct Hs as [E H']. cbn in E. rewrite <- E. exact (proj1 (H' u Hu)). Qed.

Lemma stored_private id :
  live now (rs_db s) (private_key_of u id) = alive now (private_entry <$> privates (B u) !! id).
Proof. destruct Hs as [E H']. cbn in E. rewrite <- E. exact (proj2 (H' u Hu) id). Qed.

Lemma look_public_run :
  look_hash (PREKEYS_HASH u) s = (Ok (b64encode <$> published (B u)), s).
Proof.
  redis_run. rewrite stored_now, stored_public. unfold hash_entry. case_decide as E; [|done]. by rewrite E.
Qed.

Lemma look_private_run id :
  look_hash (private_key_of u id) s
  = (Ok (match private_now (B u) now id with
         | Some k => {["private" := b64encode k]}
         | None => ∅
         end), s).
Proof.
  redis_run. rewrite stored_now, stored_private. unfold private_now, alive.
  destruct (privates (B u) !! id) as [[k t]|]; [|done]. cbn. unfold expired, private_entry. cbn.
  by destruct (t <=? now)%Z.
Qed.

Lemma put_private_run id k :
  put_private self id k s
  = (Ok tt, s <| rs_db ::= <[private_key_of u id := private_entry (k, deadline now PREKEY_TTL)]> |>).
Proof.
  unfold put_private. cbn [user_id]. rewrite <- step_assoc.
  rewrite (step_ok _ _ _ _ _ (hset_expire_run _ _ _ _ _ _ (look_private_run id))).
  rewrite stored_now. unfold private_entry. cbn [fst snd].
  destruct (private_now (B u) now id); [by rewrite insert_singleton_eq|done].
Qed.

Lemma put_public_run id p :
  put_public self id p s
  = (Ok tt, s <| rs_db ::= <[PREKEYS_HASH u := mk_entry (RHash (b64encode <$> <[id := p]> (published (B u)))) None]> |>).
Proof.
  unfold put_public. cbn [user_id]. rewrite (hset_run _ _ _ _ _ look_public_run), fmap_insert.
  rewrite stored_now, stored_public. unfold hash_entry. by case_decide.
Qed.

(** A change of what is held for [u] alone. *)
Lemma stores_update b s' :
  rs_now s' = rs_now s →
  live now (rs_db s') (PREKEYS_HASH u) = hash_entry (b64encode <$> published b) →
  (∀ id, live now (rs_db s') (private_key_of u id) = alive now (private_entry <$> privates b !! id)) →
  (∀ k, k ≠ PREKEYS_HASH u → (∀ id, k ≠ private_key_of u id) → live now (rs_db s') k = live now (rs_db s) k) →
  stores (now, set_bundle u b B) s'.
Proof.
  intros Hnow Hpub Hpriv Hframe. rewrite stored_now in Hnow. split; [done|]. intros v Hv. rewrite Hnow.
  cbn [snd]. unfold set_bundle. case_decide as E; [by subst|].
  destruct Hs as [E' H']. cbn in E'. specialize (H' v Hv) as [Hp Hq]. rewrite E' in Hp, Hq.
  split; [|intros id]; rewrite Hframe; try done.
  - by intros ?%prekeys_hash_inj.
  - intros id. by apply prekeys_hash_private.
  - intros ?%eq_sym. by apply (prekeys_hash_private u v id).
  - intros id' [? _]%private_key_of_inj; [|done..]. by subst.
Qed.

Lemma put_private_stores id k :
  ∃ s', put_private self id k s = (Ok tt, s') ∧
    stores (now, set_bundle u (mk_bundle (published (B u))
                   (<[id := (k, deadline now PREKEY_TTL)]> (privates (B u)))) B) s'.
Proof.
  eexists. split; [apply put_private_run|]. apply stores_update; cbn -[PREKEYS_HASH private_key_of].
  - done.
  - rewrite live_insert_ne; [apply stored_public|]. intros E%eq_sym. by apply prekeys_hash_private in E.
  - intros id'. destruct (decide (id = id')) as [<-|Hne].
    + by rewrite live_insert_eq, lookup_insert_eq.
    + rewrite live_insert_ne, lookup_insert_ne; [apply stored_private|done|].
      by intros [_ ?]%private_key_of_inj.
  - intros k' _ Hk. apply live_insert_ne. intros <-. by apply (Hk id).
Qed.

Lemma put_public_stores id p :
  ∃ s', put_public self id p s = (Ok tt, s') ∧
    stores (now, set_bundle u (mk_bundle (<[id := p]> (published (B u))) (privates (B u))) B) s'.
Proof.
  eexists. split; [apply put_public_run|]. apply stores_update; cbn -[PREKEYS_HASH private_key_of].
  - done.
  - rewrite live_insert_eq. unfold hash_entry. rewrite fmap_insert, decide_False by apply insert_non_empty.
    done.
  - intros id'. rewrite live_insert_ne; [apply stored_private|]. by apply prekeys_hash_private.
  - intros k' Hk _. by apply live_insert_ne.
Qed.

Lemma consume_read_run id :
  consume_read self id s = (Ok (b64encode <$> given (private_now (B u) now (pretty id))), s).
Proof.
  unfold consume_read, redis_hget. cbn [user_id]. rewrite step_assoc.
  rewrite (step_ok _ _ _ _ _ (look_private_run (pretty id))), mret_step.
  destruct (private_now _ _ _) as [k|]; [|done]. rewrite lookup_singleton_eq. cbn.
  by destruct k as [|? [|? [|? k]]].
Qed.

Lemma consume_stores id k :
  given (private_now (B u) now (pretty id)) = Some k →
  ∃ s', (consume_pipe self id ;; consume_delete self id) s = (Ok tt, s') ∧
    stores (now, set_bundle u (drop_key (pretty id) (B u)) B) s'.
Proof.
  intros Hk. pose proof (look_private_run (pretty id)) as Hl.
  assert (private_now (B u) now (pretty id) = Some k) as E.
  { unfold given in Hk. split_matches; congruence. }
  rewrite E in Hl. unfold consume_pipe, consume_delete. cbn [user_id]. rewrite step_assoc.
  rewrite (step_ok _ _ _ _ _ (hdel_run _ _ _ _ Hl)). rewrite decide_True by apply delete_singleton_eq.
  set (s1 := s <| rs_db ::= delete (private_key_of u (pretty id)) |>).
  assert (look_hash (PREKEYS_HASH u) s1 = (Ok (b64encode <$> published (B u)), s1)) as Hl1.
  { pose proof look_public_run as Hp. revert Hp. redis_run. subst s1. cbn -[PREKEYS_HASH private_key_of].
    rewrite live_delete_ne; [|intros E'%eq_sym; by apply prekeys_hash_private in E'].
    by destruct (live _ _ _) as [[[]]|]; intros [= ->]. }
  rewrite (step_ok _ _ _ _ _ (hdel_run _ _ _ _ Hl1)).
  assert (live (rs_now s1) (rs_db s1) (PREKEYS_HASH u) ≫= e_exp = None) as ->.
  { subst s1. cbn -[PREKEYS_HASH private_key_of].
    rewrite live_delete_ne, stored_now, stored_public; [unfold hash_entry; by case_decide|].
    intros E'%eq_sym. by apply prekeys_hash_private in E'. }
  eexists. split; [done|]. subst s1. rewrite <- fmap_delete.
  set (h := b64encode <$> delete (pretty id) (published (B u))).
  apply stores_update; cbn -[PREKEYS_HASH private_key_of].
  - done.
  - rewrite live_delete_ne; [|intros E'%eq_sym; by apply prekeys_hash_private in E'].
    unfold hash_entry. fold h. case_decide; [by rewrite live_delete_eq|by rewrite live_insert_eq].
  - intros id'. destruct (decide (pretty id = id')) as [<-|Hne].
    + by rewrite live_delete_eq, lookup_delete_eq.
    + assert (private_key_of u (pretty id) ≠ private_key_of u id') as Hp
        by by intros [_ ?]%private_key_of_inj.
      assert (PREKEYS_HASH u ≠ private_key_of u id') as Hq by by apply prekeys_hash_private.
      rewrite live_delete_ne, lookup_delete_ne by done.
      case_decide; rewrite ?live_delete_ne, ?live_insert_ne, ?live_delete_ne by done; apply stored_private.
  - intros k' Hq Hp. specialize (Hp (pretty id)).
    case_decide; rewrite ?live_delete_ne, ?live_insert_ne, ?live_delete_ne by done; done.
Qed.
End Stored.

(** *** The service does what the operations mean *)

Lemma stores_ext now B B' s : (∀ u, B u = B' u) → stores (now, B) s → stores (now, B') s.
Proof. intros HB [Hn Hs]. split; [done|]. intros u Hu. cbn in *. rewrite <- HB. by apply Hs. Qed.

Lemma upload_run now B s u kp id public seed halves :
  stores (now, B) s → no_colon u = true → PreKey_generate (id_value id) seed = Ok halves →
  ∃ s', store_pre_key (mk_EncryptionService u kp) id public seed s = (Ok true, s') ∧
    stores (now, set_bundle u (add_key (id_str id) public halves.2 (deadline now PREKEY_TTL) (B u)) B) s'.
Proof.
  intros Hs Hu Hg. destruct (put_private_stores now B s Hs u kp Hu (id_str id) halves.2) as (s1 & E1 & Hs1).
  destruct (put_public_stores _ _ s1 Hs1 u kp Hu (id_str id) public) as (s2 & E2 & Hs2).
  exists s2. unfold store_pre_key. rewrite Hg. split.
  - rewrite (step_ok _ _ s halves s eq_refl), (step_ok _ _ _ _ _ E1), (step_ok _ _ _ _ _ E2). done.
  - revert Hs2. apply stores_ext. intros v. unfold set_bundle, add_key.
    case_decide; [|done]. by rewrite decide_True.
Qed.

Lemma consume_run now B s u kp id :
  stores (now, B) s → no_colon u = true →
  ∃ s', consume_pre_key (mk_EncryptionService u kp) id s
        = (Ok (given (private_now (B u) now (pretty id))), s') ∧
    stores (spec_step (now, B) (Consume u id)).2 s'.
Proof.
  intros Hs Hu. unfold consume_pre_key. rewrite (step_ok _ _ _ _ _ (consume_read_run _ _ _ Hs _ kp Hu id)).
  cbn [spec_step]. destruct (given _) as [k|] eqn:Hk; [|by exists s].
  destruct (consume_stores _ _ _ Hs _ kp Hu id k Hk) as (s' & E & Hs').
  exists s'. split; [|done]. cbn [fmap option_fmap option_map]. rewrite <- step_assoc.
  rewrite (step_ok _ _ _ _ _ E), b64decode_encode. done.
Qed.

Lemma prekey_op_run now B s kp op :
  stores (now, B) s → (∀ u, op_user op = Some u → no_colon u = true) →
  let '(a, st') := spec_step (now, B) op in
  ∃ s', run_prekey_op kp op s = (a, s') ∧ stores st' s'.
Proof.
  intros Hs Hop. destruct op as [u id public seed|u id|d]; cbn [run_prekey_op].
  - cbn [spec_step]. destruct (PreKey_generate _ _) as [halves|e] eqn:Hg.
    + destruct (upload_run now B s u kp id public seed halves Hs (Hop u eq_refl) Hg) as (s' & E & Hs').
      exists s'. by rewrite (step_ok _ _ _ _ _ E).
    + exists s. unfold store_pre_key. by rewrite Hg.
  - destruct (consume_run now B s u kp id Hs (Hop u eq_refl)) as (s' & E & Hs'). cbn [spec_step] in *.
    destruct (given _); by exists s'.
  - cbn [spec_step]. eexists. split; [done|]. destruct Hs as [Hn Hs]. cbn in Hn. split; [cbn; by rewrite Hn|].
    intros u Hu. destruct (Hs u Hu) as [Hp Hq]. cbn -[PREKEYS_HASH private_key_of] in *.
    split; [|intros id]; rewrite (live_later (rs_now s)) by lia; [rewrite Hp|rewrite Hq].
    + unfold hash_entry. by case_decide.
    + destruct (privates (B u) !! id) as [[k t]|]; [|done]. unfold alive, private_entry, expired. cbn.
      by destruct (Z.leb_spec t (rs_now s)); cbn;
        destruct (Z.leb_spec t (rs_now s + Z.of_N d)); try lia.
Qed.

Definition run_prekey (kp : KeyPair) (s : rstate) (op : prekey_op) : res (option string) * rstate :=
  run_prekey_op kp op s.

Lemma prekey_ops_run kp ops : ∀ now B s,
  stores (now, B) s → (∀ op u, op ∈ ops → op_user op = Some u → no_colon u = true) →
  let '(l, st') := answers spec_step ops (now, B) in
  ∃ s', answers (run_prekey kp) ops s = (l, s') ∧ stores st' s'.
Proof.
  induction ops as [|op ops IH]; intros now B s Hs Hops; [by exists s|].
  pose proof (prekey_op_run now B s kp op Hs (λ u, Hops op u ltac:(by left))) as H1.
  cbn [answers]. destruct (spec_step (now, B) op) as [a [now1 B1]]. destruct H1 as (s1 & E1 & Hs1).
  specialize (IH now1 B1 s1 Hs1 (λ op' u Hop, Hops op' u ltac:(by right))).
  destruct (answers spec_step ops (now1, B1)) as [l st']. destruct IH as (s' & E & Hs').
  exists s'. split; [|done]. unfold run_prekey at 1. by rewrite E1, E.
Qed.

(** *** The listing *)

Lemma on_redis_same {A} (m : prog rstate A) r k :
  m (k_redis k) = (r, k_redis k) → on_redis m k = (r, k).
Proof. intros E. unfold on_redis. rewrite E. by destruct k. Qed.

(** What the route lists for a user with these published keys. *)
Definition prekey_item (kv : string * string) : json :=
  JObj [("publicKey", JStr (b64encode kv.2)); ("keyId", JInt (default 0%Z (int_of_str kv.1)))].
Definition numeric (id : string) : Prop := is_Some (int_of_str id).
#[local] Instance numeric_dec id : Decision (numeric id).
Proof. apply _. Defined.
Definition lists (u : string) (pub : gmap string string) (r : response) : Prop :=
  if decide (pub = ∅) then r = error 404 "No prekeys found for user"
  else if decide (map_Forall (λ id _, numeric id) pub) then
    ∃ l, r = mk_response 200 (JObj [("userId", JStr u); ("prekeys", JList l)]) ∧
         l ≡ₚ prekey_item <$> map_to_list pub
  else r = error 500 "Internal server error".

Lemma get_prekeys_run now B u k :
  stores (now, B) (k_redis k) → no_colon u = true →
  ∃ r, get_prekeys u k = (Ok r, k) ∧ lists u (published (B u)) r.
Proof.
  intros Hs Hu. unfold get_prekeys, guarded, try_except.
  rewrite (step_ok _ _ _ _ _ (on_redis_same _ _ _ (look_public_run _ _ _ Hs u Hu))).
  unfold lists. case_decide as Hpub.
  { rewrite Hpub, fmap_empty, bool_decide_true by done. by eexists. }
  rewrite bool_decide_false by by rewrite fmap_empty_iff.
  set (g := λ kv : string * string,
         JObj [("publicKey", JStr kv.2); ("keyId", JInt (default 0%Z (int_of_str kv.1)))]).
  assert (∀ id pub, prekey_entry (id, pub) k
          = (match int_of_str id with Some _ => Ok (g (id, pub)) | None => Err (ValueError "int") end, k))
    as Hentry.
  { intros id pub. unfold prekey_entry, g. cbn. by destruct (int_of_str id). }
  case_decide as Hall.
  - eexists. split; [|eexists; split; [done|]].
    + rewrite (step_ok _ _ k (g <$> map_to_list (b64encode <$> published (B u))) k); [done|].
      apply map_each_pure. intros [id pub] Hx. rewrite Hentry.
      apply elem_of_map_to_list in Hx. rewrite lookup_fmap in Hx.
      destruct (published (B u) !! id) as [p|] eqn:Hp; [|done].
      by destruct (Hall id p Hp) as [z ->].
    + rewrite map_to_list_fmap, <- list_fmap_compose. done.
  - eexists. split; [|done].
    destruct (map_each_fails prekey_entry (map_to_list (b64encode <$> published (B u))) k) as [e E].
    + intros [id pub] _. eauto.
    + apply map_not_Forall in Hall as (id & p & Hp & Hn); [|apply _].
      exists (id, b64encode p), (ValueError "int"). rewrite Hentry, elem_of_map_to_list, lookup_fmap, Hp.
      split; [done|]. unfold numeric in Hn. rewrite <- eq_None_not_Some in Hn. by rewrite Hn.
    + by rewrite (step_err _ _ _ _ _ E).
Qed.

(** C27. The pre-keys of the service refine bundles of published and private halves: on Redis that
    stores bundles, uploads, consumptions and the passing of time, in any order and for any users,
    answer what they mean on bundles; and afterwards the listing of every user has exactly the
    published keys of the user's bundle, answers 404 when there are none - and 500 when one of
    them has an id that is not a number. *)
Theorem prekeys_refine kp ops now B s users :
  stores (now, B) s → (∀ op u, op ∈ ops → op_user op = Some u → no_colon u = true) →
  let '(l, st') := answers spec_step ops (now, B) in
  ∃ s', answers (run_prekey kp) ops s = (l, s') ∧
    ∀ u, no_colon u = true →
    ∃ r, get_prekeys u (mk_kstate s' users) = (Ok r, mk_kstate s' users) ∧ lists u (published (st'.2 u)) r.
Proof.
  intros Hs Hops. pose proof (prekey_ops_run kp ops now B s Hs Hops) as H1.
  destruct (answers spec_step ops (now, B)) as [l [now' B']]. destruct H1 as (s' & E & Hs').
  exists s'. split; [done|]. intros u Hu. by apply (get_prekeys_run now').
Qed.

(** *** One-time keys *)

Lemma spec_step_gone u id op now B :
  (∀ id' p seed, op = Upload u id' p seed → id_str id' ≠ id) →
  let B' := (spec_step (now, B) op).2.2 in
  (privates (B u) !! id = None → privates (B' u) !! id = None) ∧
  (published (B u) !! id = None → published (B' u) !! id = None).
Proof.
  intros Hop. destruct op as [v id' p seed|v id'|d]; cbn [spec_step]; [| |done].
  - destruct (PreKey_generate _ _); [|done]. cbn. unfold set_bundle. case_decide; [subst|done].
    cbn. by rewrite !lookup_insert_ne by eauto.
  - destruct (given _); [|done]. cbn. unfold set_bundle. case_decide; [subst|done].
    cbn. rewrite !lookup_delete_None. auto.
Qed.

Lemma spec_gone u id ops : ∀ now B,
  (∀ id' p seed, Upload u id' p seed ∈ ops → id_str id' ≠ id) →
  let B' := (answers spec_step ops (now, B)).2.2 in
  (privates (B u) !! id = None → privates (B' u) !! id = None) ∧
  (published (B u) !! id = None → published (B' u) !! id = None).
Proof.
  induction ops as [|op ops IH]; intros now B Hops; [done|].
  pose proof (spec_step_gone u id op now B) as H1. cbn [answers].
  destruct (spec_step (now, B) op) as [a [now1 B1]].
  specialize (IH now1 B1 ltac:(intros; eapply Hops; by right)).
  destruct (answers spec_step ops (now1, B1)) as [l [now2 B2]]. cbn in *.
  destruct H1 as [H1 H2]; [intros ? ? ? ->; eapply Hops; by left|]. naive_solver.
Qed.

(** C28. A pre-key is given out once: on Redis that stores bundles, for user ids without a colon,
    after the service has consumed one, whatever uploads,
    consumptions and waiting follow - uploads under that id by that user excepted - consuming it
    again finds nothing; the user's hash of published keys in Redis has no entry under its id;
    and what the listing answers is made of that hash. *)
Theorem consumed_once kp u id private ops now B s s1 users :
  stores (now, B) s → no_colon u = true →
  (∀ op v, op ∈ ops → op_user op = Some v → no_colon v = true) →
  (∀ id' p seed, Upload u id' p seed ∈ ops → id_str id' ≠ pretty id) →
  consume_pre_key (mk_EncryptionService u kp) id s = (Ok (Some private), s1) →
  let s2 := (answers (run_prekey kp) ops s1).2 in
  (consume_pre_key (mk_EncryptionService u kp) id s2).1 = Ok None ∧
  ∃ pub r, redis_hgetall (PREKEYS_HASH u) s2 = (Ok (b64encode <$> pub), s2) ∧
    pub !! pretty id = None ∧
    get_prekeys u (mk_kstate s2 users) = (Ok r, mk_kstate s2 users) ∧ lists u pub r.
Proof.
  intros Hs Hu Hcolon Hfresh E s2. destruct (consume_run now B s u kp id Hs Hu) as (s1' & E' & Hs1).
  rewrite E in E'. injection E' as Hk <-. cbn [spec_step] in Hs1. rewrite <- Hk in Hs1. cbn [snd] in Hs1.
  set (B1 := set_bundle u _ B) in Hs1.
  assert (B1 u = drop_key (pretty id) (B u)) as HB1 by (subst B1; unfold set_bundle; by rewrite decide_True).
  destruct (spec_gone u (pretty id) ops now B1 Hfresh) as [Hpriv Hpub].
  rewrite HB1 in Hpriv, Hpub. specialize (Hpriv (lookup_delete_eq _ _)). specialize (Hpub (lookup_delete_eq _ _)).
  pose proof (prekey_ops_run kp ops now B1 s1 Hs1 Hcolon) as Hrun.
  destruct (answers spec_step ops (now, B1)) as [l [now2 B2]]. destruct Hrun as (s2' & E2 & Hs2).
  subst s2. rewrite E2. cbn [snd] in *. split.
  - destruct (consume_run now2 B2 s2' u kp id Hs2 Hu) as (s3 & -> & _). cbn [fst].
    unfold private_now. by rewrite Hpriv.
  - destruct (get_prekeys_run now2 B2 u (mk_kstate s2' users) Hs2 Hu) as (r & Er & Hr).
    exists (published (B2 u)), r. split_and!; [|by apply Hpub|done|done].
    exact (look_public_run now2 B2 s2' Hs2 u Hu).
Qed.

(** But not against an interleaving: the read and the deletion are separate commands, and of two
    consumers that both read first, both are given the key. *)
Lemma consume_race kp u id private now B s :
  stores (now, B) s → no_colon u = true → given (private_now (B u) now (pretty id)) = Some private →
  let self := mk_EncryptionService u kp in
  ((a ← consume_read self id; b ← consume_read self id;
    consume_pipe self id ;; consume_delete self id ;; mret (a, b)) s).1
  = Ok (Some (b64encode private), Some (b64encode private)).
Proof.
  intros Hs Hu Hk self.
  rewrite !(step_ok _ _ _ _ _ (consume_read_run now B s Hs u kp Hu id)), Hk. cbn [fmap option_fmap option_map].
  destruct (consume_stores now B s Hs u kp Hu id private Hk) as (s' & E & _).
  rewrite <- step_assoc. by rewrite (step_ok _ _ _ _ _ E).
Qed.

(** *** Uploading *)

(** The body of an upload. *)
Definition prekey_body (p : string) (v : json) : json := JObj [("publicKey", JStr p); ("keyId", v)].

(** The identity key that loading leaves: the stored one, when it loads, else a new one. *)
Definition identity_after (seed : N) (o : option user_keys) : option user_keys :=
  match o ≫= stored_identity with
  | Some _ => o
  | None => Some (mk_user_keys (Some (b64encode (public_key (IdentityKeyPair_generate seed))))
                               (Some (b64encode (private_key (IdentityKeyPair_generate seed)))))
  end.

Lemma on_redis_run {A} (m : prog rstate A) a s' k :
  m (k_redis k) = (Ok a, s') → on_redis m k = (Ok a, k <| k_redis := s' |>).
Proof. intros E. unfold on_redis. by rewrite E. Qed.

Lemma new_service_run u seed k :
  ∃ kp k', new_EncryptionService u seed k = (Ok (mk_EncryptionService u kp), k') ∧
    k_redis k' = k_redis k ∧ k_users k' !! u = identity_after seed (k_users k !! u) ∧
    ∀ v, v ≠ u → k_users k' !! v = k_users k !! v.
Proof.
  unfold new_EncryptionService, load_or_create_identity_key_pair, get_user, identity_after.
  rewrite step_assoc, (step_ok _ _ k (k_users k !! u) k) by done.
  destruct (_ ≫= stored_identity) as [kp|]; [by eexists kp, k|].
  eexists _, _. split; [done|]. cbn. split; [done|]. split; [by rewrite lookup_insert_eq|].
  intros v Hv. by rewrite lookup_insert_ne.
Qed.

Lemma upload_prekey_run now B u p pub v id seed seed' halves k :
  stores (now, B) (k_redis k) → no_colon u = true →
  b64decode_str p = Ok pub → natural_id v = Some id → PreKey_generate (id_value id) seed' = Ok halves →
  ∃ k', upload_prekey u (Ok (prekey_body p v)) seed seed' k = (Ok (message "Pre-key stored successfully"), k') ∧
    stores (now, set_bundle u (add_key (id_str id) pub halves.2 (deadline now PREKEY_TTL) (B u)) B) (k_redis k') ∧
    k_users k' !! u = identity_after seed (k_users k !! u) ∧
    ∀ v, v ≠ u → k_users k' !! v = k_users k !! v.
Proof.
  intros Hs Hu Hp Hv Hg. destruct (new_service_run u seed k) as (kp & k1 & E1 & Hr & Hk & Hne).
  rewrite <- Hr in Hs. destruct (upload_run now B _ u kp id pub seed' halves Hs Hu Hg) as (s' & E2 & Hs').
  exists (k1 <| k_redis := s' |>). split; [|by destruct k1].
  unfold upload_prekey, guarded, try_except.
  rewrite (step_ok _ _ k (prekey_body p v) k eq_refl), (step_ok _ _ k false k eq_refl).
  rewrite (step_ok _ _ k (JStr p) k eq_refl), (step_ok _ _ k v k eq_refl). cbn [b64decode_json].
  rewrite Hp, Hv, (step_ok _ _ _ _ _ E1), (step_ok _ _ _ _ _ (on_redis_run _ _ _ _ E2)). done.
Qed.

(** An identity key that a client uploads does not survive the client's first pre-key: as the
    private half never reaches the server, the service finds no pair it can load, makes one of
    its own and stores that in place of the client's. *)
Theorem uploaded_identity_lost now B u keys p p' pub pub' v id seed seed' halves k :
  stores (now, B) (k_redis k) → no_colon u = true →
  k_users k !! u = Some keys → given (identity_private_key keys) = None →
  b64decode_str p = Ok pub → b64decode_str p' = Ok pub' → natural_id v = Some id →
  PreKey_generate (id_value id) seed' = Ok halves →
  ∃ k1 k2,
    upload_identity_key u (Ok (JObj [("publicKey", JStr p)])) k
      = (Ok (message "Identity key updated successfully"), k1) ∧
    k_users k1 !! u = Some (mk_user_keys (Some p) (identity_private_key keys)) ∧
    upload_prekey u (Ok (prekey_body p' v)) seed seed' k1 = (Ok (message "Pre-key stored successfully"), k2) ∧
    k_users k2 !! u = Some (mk_user_keys (Some (b64encode (public_key (IdentityKeyPair_generate seed))))
                                         (Some (b64encode (private_key (IdentityKeyPair_generate seed))))).
Proof.
  intros Hs Hu Hk Hpriv Hp Hp' Hv Hg.
  set (k1 := k <| k_users ::= <[u := mk_user_keys (Some p) (identity_private_key keys)]> |>).
  assert (k_users k1 !! u = Some (mk_user_keys (Some p) (identity_private_key keys))) as Hk1
    by apply lookup_insert_eq.
  destruct (upload_prekey_run now B u p' pub' v id seed seed' halves k1 Hs Hu Hp' Hv Hg)
    as (k2 & E2 & _ & Hid & _).
  exists k1, k2. split_and!; [|done|done|].
  - unfold upload_identity_key, guarded, try_except.
    rewrite (step_ok _ _ k (JObj [("publicKey", JStr p)]) k eq_refl), (step_ok _ _ k false k eq_refl).
    rewrite (step_ok _ _ k (JStr p) k eq_refl). cbn [b64decode_json]. rewrite Hp.
    rewrite (step_ok _ _ k (Some keys) k) by (unfold get_user, gets; by rewrite Hk). done.
  - rewrite Hid, Hk1. unfold identity_after, stored_identity. cbn. rewrite Hpriv.
    by destruct (truthy p).
Qed.

(** What nobody consumes stays. *)
Lemma spec_keeps u id ops : ∀ now (B : bundles),
  (∀ z : Z, id ≠ pretty z) → is_Some (published (B u) !! id) →
  is_Some (published ((answers spec_step ops (now, B)).2.2 u) !! id).
Proof.
  induction ops as [|op ops IH]; intros now B Hid Hin; [done|].
  cbn [answers].
  assert (is_Some (published ((spec_step (now, B) op).2.2 u) !! id)) as H1.
  { destruct op as [v id' p seed|v id'|d]; cbn [spec_step]; [| |done].
    - destruct (PreKey_generate _ _); [|done]. cbn. unfold set_bundle. case_decide; [subst|done].
      cbn. rewrite lookup_insert. case_decide; eauto.
    - destruct (given _); [|done]. cbn. unfold set_bundle. case_decide; [subst|done].
      cbn. by rewrite lookup_delete_ne. }
  destruct (spec_step (now, B) op) as [a [now1 B1]]. specialize (IH now1 B1 Hid H1).
  by destruct (answers spec_step ops (now1, B1)).
Qed.

(** An id that is [true] or [false] is taken for a number when it is uploaded and is no number
    when it is listed: from then on, whatever follows, everybody who asks for the pre-keys of
    that user gets an error. *)
Theorem boolean_id_blocks kp ops now B u p pub b seed seed' halves k :
  stores (now, B) (k_redis k) → no_colon u = true →
  (∀ op v, op ∈ ops → op_user op = Some v → no_colon v = true) →
  b64decode_str p = Ok pub → PreKey_generate (Z.b2z b) seed' = Ok halves →
  ∃ k1, upload_prekey u (Ok (prekey_body p (JBool b))) seed seed' k
        = (Ok (message "Pre-key stored successfully"), k1) ∧
    let k2 := k1 <| k_redis := (answers (run_prekey kp) ops (k_redis k1)).2 |> in
    get_prekeys u k2 = (Ok (error 500 "Internal server error"), k2).
Proof.
  intros Hs Hu Hcolon Hp Hg.
  destruct (upload_prekey_run now B u p pub (JBool b) (IdBool b) seed seed' halves k Hs Hu Hp eq_refl Hg)
    as (k1 & E1 & Hs1 & _).
  exists k1. split; [done|]. intros k2.
  set (B1 := set_bundle u _ B) in Hs1.
  assert (is_Some (published (B1 u) !! id_str (IdBool b))) as Hin.
  { subst B1. unfold set_bundle. rewrite decide_True by done. cbn [published add_key].
    rewrite lookup_insert_eq. eauto. }
  pose proof (prekey_ops_run kp ops now B1 _ Hs1 Hcolon) as Hrun.
  assert (¬ numeric (id_str (IdBool b))) as Hnum by (destruct b; by intros [z Hz]).
  assert (∀ z : Z, id_str (IdBool b) ≠ pretty z) as Hid.
  { intros z E. apply Hnum. rewrite E. exists z. apply int_of_str_pretty. }
  pose proof (spec_keeps u (id_str (IdBool b)) ops now B1 Hid Hin) as Hkeep.
  destruct (answers spec_step ops (now, B1)) as [l [now2 B2]]. destruct Hrun as (s2 & E2 & Hs2).
  subst k2. rewrite E2. cbn [snd] in *.
  destruct (get_prekeys_run now2 B2 u (k1 <| k_redis := s2 |>)) as (r & Er & Hr); [by destruct k1|done|].
  rewrite Er. revert Hr. unfold lists. destruct Hkeep as [q Hq]. rewrite decide_False, decide_False.
  - by intros ->.
  - intros Hall. by apply Hnum, (Hall _ q).
  - intros Hempty. by rewrite Hempty in Hq.
Qed.

(** *** Signed pre-keys *)

Definition signed_body (p : string) (v : json) (g : string) : json :=
  JObj [("publicKey", JStr p); ("keyId", v); ("signature", JStr g)].
Definition signed_answer (u p g : string) : response :=
  mk_response 200 (JObj [("userId", JStr u); ("publicKey", JStr p); ("signature", JStr g);
                         ("keyId", JInt 0xFFFF)]).
Definition later (d : N) (k : kstate) : kstate :=
  mk_kstate ((k_redis k) <| rs_now ::= λ now, (now + Z.of_N d)%Z |>) (k_users k).

(** C30. A signed pre-key that a client uploads is what everybody is given, for thirty days, and
    nothing is given after that; its key id is not kept, and a key or a signature that is the
    empty text counts as none. *)
Theorem signed_prekey_roundtrip u p g v id pub sig h k :
  look_hash (signed_prekey_hash u) (k_redis k) = (Ok h, k_redis k) →
  b64decode_str p = Ok pub → b64decode_str g = Ok sig → natural_id v = Some id →
  ∃ k1, upload_signed_prekey u (Ok (signed_body p v g)) k
        = (Ok (message "Signed pre-key stored successfully"), k1) ∧
    ∀ d, get_signed_prekey u (later d k1)
         = (Ok (if (Z.of_N d <? PREKEY_TTL * second)%Z && truthy p && truthy g then signed_answer u p g
                else error 404 "Signed pre-key not found for user"), later d k1).
Proof.
  intros Hl Hp Hg Hv. set (key := signed_prekey_hash u) in *.
  destruct (hset_look key "publicKey" p h (k_redis k) Hl) as (s1 & E1 & Hnow & Hl1).
  pose proof (hset_expire_run key "signature" g PREKEY_TTL _ s1 Hl1) as E2.
  set (h' := <["signature" := g]> (<["publicKey" := p]> h)) in *.
  exists (mk_kstate (s1 <| rs_db ::= <[key := mk_entry (RHash h') (Some (deadline (rs_now s1) PREKEY_TTL))]> |>) (k_users k)).
  split.
  - unfold upload_signed_prekey, guarded, try_except.
    rewrite (step_ok _ _ k (signed_body p v g) k eq_refl), (step_ok _ _ k false k eq_refl).
    rewrite (step_ok _ _ k (JStr p) k eq_refl), (step_ok _ _ k v k eq_refl), (step_ok _ _ k (JStr g) k eq_refl).
    cbn [b64decode_json]. rewrite Hp, Hg, Hv. fold key.
    erewrite step_ok by (apply on_redis_run; rewrite (step_ok _ _ _ _ _ E1); exact E2). by destruct k.
  - intros d. set (k2 := later d _).
    assert (∀ f, on_redis (redis_hget key f) k2
      = (Ok (if (Z.of_N d <? PREKEY_TTL * second)%Z then h' !! f else None), k2)) as Hget.
    { intros f. apply on_redis_same. unfold redis_hget, look_hash, look, gets. run. subst k2. cbn.
      rewrite live_insert_eq. unfold expired, deadline. cbn -[Z.mul PREKEY_TTL second].
      destruct (Z.ltb_spec (Z.of_N d) (PREKEY_TTL * second)),
        (Z.leb_spec (rs_now s1 + PREKEY_TTL * second) (rs_now s1 + Z.of_N d)); try lia; done. }
    unfold get_signed_prekey, guarded, try_except. fold key.
    rewrite (step_ok _ _ _ _ _ (Hget "publicKey")), (step_ok _ _ _ _ _ (Hget "signature")).
    destruct (Z.of_N d <? PREKEY_TTL * second)%Z; [|done]. subst h'.
    rewrite lookup_insert_ne, !lookup_insert_eq by done. cbn [given].
    by destruct (truthy p), (truthy g).
Qed.

(** *** Generating many *)

(** The ids that a row of draws yields: masked to 31 bits, without those taken and without
    repetition. *)
Definition mask (d : Z) : Z := Z.land d 0x7FFFFFFF.
Fixpoint new_ids (taken : gset string) (draws : list Z) : list Z :=
  match draws with
  | [] => []
  | d :: draws =>
      if decide (pretty (mask d) ∈ taken) then new_ids taken draws
      else mask d :: new_ids ({[pretty (mask d)]} ∪ taken) draws
  end.

Lemma mask_range d : (0 ≤ mask d < 2 ^ 31)%Z.
Proof. unfold mask. change 0x7FFFFFFF%Z with (Z.ones 31). rewrite Z.land_ones by lia. by apply Z.mod_pos_bound. Qed.

Lemma new_ids_spec draws : ∀ taken,
  NoDup (new_ids taken draws) ∧
  ∀ z, z ∈ new_ids taken draws → (0 ≤ z < 2 ^ 31)%Z ∧ pretty z ∉ taken.
Proof.
  induction draws as [|d draws IH]; intros taken; cbn [new_ids]; [split; [constructor|set_solver]|].
  case_decide as Hd; [apply IH|]. destruct (IH ({[pretty (mask d)]} ∪ taken)) as [Hnd Hin]. split.
  - constructor; [|done]. intros [_ H']%Hin. set_solver.
  - intros z [->|Hz]%elem_of_cons; [split; [apply mask_range|done]|].
    apply Hin in Hz as [? ?]. split; [done|set_solver].
Qed.

Lemma draw_id_run now B s u kp draws : ∀ z zs,
  stores (now, B) s → no_colon u = true →
  new_ids (dom (published (B u))) draws = z :: zs →
  ∃ rest, draw_id (mk_EncryptionService u kp) draws s = (Ok (Some (z, rest)), s) ∧
    new_ids ({[pretty z]} ∪ dom (published (B u))) rest = zs.
Proof.
  induction draws as [|d draws IH]; intros z zs Hs Hu E; [done|]. cbn [new_ids draw_id] in *. fold (mask d).
  rewrite (step_ok _ _ s (bool_decide (pretty (mask d) ∈ dom (published (B u)))) s).
  2: { unfold redis_hexists. cbn [user_id]. rewrite (step_ok _ _ _ _ _ (look_public_run now B s Hs u Hu)).
       unfold mret, prog_ret, ret. do 2 f_equal. apply bool_decide_ext.
       by rewrite lookup_fmap, fmap_is_Some, elem_of_dom. }
  case_decide as Hd.
  - rewrite bool_decide_true by done. by apply IH.
  - rewrite bool_decide_false by done. injection E as <- <-. by exists draws.
Qed.

(** What generating leaves: the bundle with the pairs added. *)
Definition add_pairs (t : Z) (pairs : list (Z * (string * string))) (b : bundle) : bundle :=
  foldl (λ b '(z, (public, private)), add_key (pretty z) public private t b) b pairs.

Lemma add_pairs_lookup t pairs : ∀ b,
  NoDup pairs.*1 → (∀ z, z ∈ pairs.*1 → published b !! pretty z = None) →
  (∀ z public private, (z, (public, private)) ∈ pairs →
     published (add_pairs t pairs b) !! pretty z = Some public ∧
     privates (add_pairs t pairs b) !! pretty z = Some (private, t)) ∧
  (∀ id, id ∉ (pretty <$> pairs.*1 : list string) →
     published (add_pairs t pairs b) !! id = published b !! id ∧
     privates (add_pairs t pairs b) !! id = privates b !! id).
Proof.
  induction pairs as [|[z [p q]] pairs IH]; intros b Hnd Hb; [split; [set_solver|done]|].
  cbn [fmap list_fmap fst] in Hnd. apply NoDup_cons in Hnd as [Hz Hnd].
  destruct (IH (add_key (pretty z) p q t b) Hnd) as [H1 H2].
  { intros z' Hz'. cbn. rewrite lookup_insert_ne; [apply Hb; by right|]. intros E%(inj pretty). congruence. }
  split.
  - intros z' p' q' [[= -> -> ->]|Hin]%elem_of_cons; [|by apply H1].
    destruct (H2 (pretty z)) as [Hp Hq].
    { intros (z' & E%(inj pretty) & Hz')%list_elem_of_fmap. congruence. }
    cbn [add_pairs foldl]. fold (add_pairs t pairs). unfold add_pairs in Hp, Hq. rewrite Hp, Hq. cbn. by rewrite !lookup_insert_eq.
  - intros id Hid. cbn [fmap list_fmap fst] in Hid. apply not_elem_of_cons in Hid as [Hne Hid].
    destruct (H2 id Hid) as [Hp Hq]. cbn [published privates add_key] in Hp, Hq.
    rewrite lookup_insert_ne in Hp by done. rewrite lookup_insert_ne in Hq by done. done.
Qed.

Lemma generate_run now u kp seeds : ∀ B s draws,
  stores (now, B) s → no_colon u = true →
  (∀ z seed, (0 ≤ z < 2 ^ 31)%Z → is_ok (PreKey_generate z seed) = true) →
  (List.length seeds ≤ List.length (new_ids (dom (published (B u))) draws))%nat →
  ∃ pairs s', generate_pre_keys (mk_EncryptionService u kp) seeds draws s
      = (Ok (Some ((λ zp, (zp.1, b64encode zp.2.1)) <$> pairs)), s') ∧
    pairs.*1 = take (List.length seeds) (new_ids (dom (published (B u))) draws) ∧
    Forall2 (λ seed zp, PreKey_generate zp.1 seed = Ok zp.2) seeds pairs ∧
    stores (now, set_bundle u (add_pairs (deadline now PREKEY_TTL) pairs (B u)) B) s'.
Proof.
  induction seeds as [|seed seeds IH]; intros B s draws Hs Hu Hgen Hlen.
  { exists [], s. split_and!; [done|done|constructor|]. revert Hs. apply stores_ext. intros v.
    unfold set_bundle. case_decide; [by subst|done]. }
  destruct (new_ids (dom (published (B u))) draws) as [|z zs] eqn:E; [cbn in Hlen; lia|].
  destruct (draw_id_run now B s u kp draws z zs Hs Hu E) as (rest & Ed & Er).
  pose proof (proj2 (new_ids_spec draws _) z ltac:(rewrite E; by left)) as [Hz _].
  specialize (Hgen z seed Hz) as Hg. destruct (PreKey_generate z seed) as [halves|] eqn:Eg; [|done].
  destruct (put_private_stores now B s Hs u kp Hu (pretty z) halves.2) as (s1 & E1 & Hs1).
  destruct (put_public_stores _ _ s1 Hs1 u kp Hu (pretty z) halves.1) as (s2 & E2 & Hs2).
  set (B2 := set_bundle u (add_key (pretty z) halves.1 halves.2 (deadline now PREKEY_TTL) (B u)) B).
  assert (stores (now, B2) s2) as Hs2'.
  { revert Hs2. apply stores_ext. intros v. subst B2. unfold set_bundle, add_key.
    case_decide; [|done]. by rewrite decide_True. }
  assert (B2 u = add_key (pretty z) halves.1 halves.2 (deadline now PREKEY_TTL) (B u)) as HB2
    by (subst B2; unfold set_bundle; by rewrite decide_True).
  destruct (IH B2 s2 rest Hs2' Hu Hgen) as (pairs & s3 & E3 & Hids & Hpairs & Hs3).
  { rewrite HB2. cbn [published add_key]. rewrite dom_insert_L, Er. cbn in Hlen. lia. }
  exists ((z, halves) :: pairs), s3. split_and!.
  - cbn [generate_pre_keys]. rewrite (step_ok _ _ _ _ _ Ed), Eg, (step_ok _ _ _ _ _ (eq_refl : lift (Ok halves) s = _)).
    rewrite (step_ok _ _ _ _ _ E1), (step_ok _ _ _ _ _ E2), (step_ok _ _ _ _ _ E3). done.
  - cbn. rewrite Hids, HB2. cbn [published add_key]. by rewrite dom_insert_L, Er.
  - by constructor.
  - revert Hs3. apply stores_ext. intros v. unfold set_bundle. case_decide.
    + rewrite HB2. by destruct halves.
    + subst B2. unfold set_bundle. by rewrite decide_False.
Qed.

(** C29. Generating pre-keys ends as soon as the draws have brought enough ids that are not taken,
    and makes exactly those: different numbers of 31 bits, none of them taken before, each
    published with the public half that is returned, its private half to be consumed for thirty
    days; and every key that was there before stays. *)
Theorem generate_pre_keys_spec now B s u kp seeds draws :
  stores (now, B) s → no_colon u = true →
  (∀ z seed, (0 ≤ z < 2 ^ 31)%Z → is_ok (PreKey_generate z seed) = true) →
  (List.length seeds ≤ List.length (new_ids (dom (published (B u))) draws))%nat →
  ∃ l B' s', generate_pre_keys (mk_EncryptionService u kp) seeds draws s = (Ok (Some l), s') ∧
    stores (now, B') s' ∧ (∀ v, v ≠ u → B' v = B v) ∧
    l.*1 = take (List.length seeds) (new_ids (dom (published (B u))) draws) ∧ NoDup l.*1 ∧
    (∀ z p, (z, p) ∈ l → (0 ≤ z < 2 ^ 31)%Z ∧ published (B u) !! pretty z = None ∧
       ∃ seed public private, PreKey_generate z seed = Ok (public, private) ∧ p = b64encode public ∧
         published (B' u) !! pretty z = Some public ∧
         privates (B' u) !! pretty z = Some (private, deadline now PREKEY_TTL)) ∧
    (∀ id public, published (B u) !! id = Some public →
       published (B' u) !! id = Some public ∧ privates (B' u) !! id = privates (B u) !! id).
Proof.
  intros Hs Hu Hgen Hlen.
  destruct (generate_run now u kp seeds B s draws Hs Hu Hgen Hlen) as (pairs & s' & E & Hids & Hpairs & Hs').
  destruct (new_ids_spec draws (dom (published (B u)))) as [Hnd Hnew].
  assert (NoDup pairs.*1) as Hnd' by (rewrite Hids; eapply sublist_NoDup; [exact Hnd|apply sublist_take]).
  assert (∀ z, z ∈ pairs.*1 → (0 ≤ z < 2 ^ 31)%Z ∧ published (B u) !! pretty z = None) as Hfree.
  { intros z Hz. rewrite Hids in Hz. apply elem_of_take in Hz as (i & Hz%list_elem_of_lookup_2 & _).
    apply Hnew in Hz as [? Hz]. split; [done|by apply not_elem_of_dom]. }
  destruct (add_pairs_lookup (deadline now PREKEY_TTL) pairs (B u) Hnd' (λ z Hz, proj2 (Hfree z Hz))) as [Hin Hout].
  eexists _, _, s'. split; [exact E|]. split; [exact Hs'|]. unfold set_bundle.
  assert (((λ zp : Z * (string * string), (zp.1, b64encode zp.2.1)) <$> pairs).*1 = pairs.*1) as Hl
    by (rewrite <- list_fmap_compose; done).
  rewrite Hl, decide_True by done. split_and!; [|done|done| |].
  - intros v Hv. by rewrite decide_False.
  - intros z p ([z' [public private]] & [= -> ->] & Hzp)%list_elem_of_fmap.
    destruct (Hfree z') as [? ?]; [apply list_elem_of_fmap; by exists (z', (public, private))|].
    split; [done|]. split; [done|]. destruct (Hin z' public private Hzp) as [? ?].
    apply list_elem_of_lookup in Hzp as [i Hi].
    destruct (Forall2_lookup_r _ _ _ _ _ Hpairs Hi) as (seed & _ & Hg). by exists seed, public, private.
  - intros id public Hid. destruct (Hout id) as [-> ->]; [|done].
    intros (z & -> & Hz)%list_elem_of_fmap. apply Hfree in Hz as [_ Hz]. congruence.
Qed.
End Service.

(** ** Applied *)

Module Chest.
(** A library whose keys are named after their seeds. *)
#[local] Instance signal : Signal := {|
  KeyPair := string * string;
  IdentityKeyPair p q := Ok (p, default "" q);
  IdentityKeyPair_generate seed := ("I" ++ pretty seed, "i" ++ pretty seed);
  public_key := fst;
  private_key := snd;
  generate_signature k m := k.2 ++ m;
  PreKey_generate z seed := Ok ("P" ++ pretty seed, "p" ++ pretty seed);
  SignedPreKey_generate z seed := ("S" ++ pretty seed, "s" ++ pretty seed);
  PreKey_deserialize _ := Ok tt;
  import_ec := Ok tt;
  SessionBuilder _ _ := Ok tt;
  cipher_encrypt state m := Ok (state ++ m);
  cipher_decrypt state m := Ok (String.substring (String.length state) (String.length m) m);
  utf8 m := m;
  of_utf8 m := Ok m
|}.
Definition kp : KeyPair := ("I", "i").
Definition nobody : bundles := λ _, mk_bundle ∅ ∅.
Definition redis0 : rstate := mk_rstate 0 ∅.
Lemma nobody_stored : stores (0%Z, nobody) redis0.
Proof. split; [done|]. intros u Hu. split; [|done].
  unfold hash_entry. by rewrite decide_True by apply fmap_empty.
Qed.
Definition state0 : kstate := mk_kstate redis0 {["7" := mk_user_keys None None]}.
Definition self : EncryptionService := mk_EncryptionService "7" kp.
Definition again : list prekey_op := [Wait 1000; Consume "7" 5].
Definition ops : list prekey_op := Upload "7" (IdInt 5) "key" 1 :: Consume "7" 5 :: again.
Lemma colons l op u :
  forallb (λ op, match op_user op with Some u => no_colon u | None => true end) l = true →
  op ∈ l → op_user op = Some u → no_colon u = true.
Proof. rewrite forallb_forall. intros Hl Hop%list_elem_of_In Hu. specialize (Hl op Hop). by rewrite Hu in Hl. Qed.
End Chest.
#[local] Existing Instance Chest.signal.

Lemma prekeys_refine_witness :
  ∃ s', answers (run_prekey Chest.kp) Chest.ops Chest.redis0 = ([Ok None; Ok (Some "p1"); Ok None; Ok None], s') ∧
    get_prekeys "7" (mk_kstate s' ∅) = (Ok (error 404 "No prekeys found for user"), mk_kstate s' ∅).
Proof.
  pose proof (prekeys_refine Chest.kp Chest.ops 0 Chest.nobody Chest.redis0 ∅ Chest.nobody_stored
                (λ op u, Chest.colons Chest.ops op u eq_refl)) as H.
  destruct (answers spec_step Chest.ops (0%Z, Chest.nobody)) as [l st] eqn:E.
  assert (l = [Ok None; Ok (Some "p1"); Ok None; Ok None]) as ->
    by (change l with (l, st).1; rewrite <- E; vm_compute; reflexivity).
  assert (published (st.2 "7") = ∅) as Hp
    by (change st with ([Ok None; Ok (Some "p1"); Ok None; Ok None], st).2; rewrite <- E; vm_compute; reflexivity).
  destruct H as (s' & Es & H). exists s'. split; [exact Es|].
  destruct (H "7" eq_refl) as (r & Er & Hr). unfold lists in Hr. rewrite Hp, decide_True in Hr by done.
  by rewrite Er, Hr.
Defined.

Lemma consumed_once_witness :
  ∃ s s1, consume_pre_key Chest.self 5 s = (Ok (Some "p1"), s1) ∧
    let s2 := (answers (run_prekey Chest.kp) Chest.again s1).2 in
    (consume_pre_key Chest.self 5 s2).1 = Ok None ∧
    ∃ pub, redis_hgetall (PREKEYS_HASH "7") s2 = (Ok (b64encode <$> pub), s2) ∧ pub !! pretty 5%Z = None.
Proof.
  destruct (upload_run 0 Chest.nobody Chest.redis0 "7" Chest.kp (IdInt 5) "key" 1 _
              Chest.nobody_stored eq_refl eq_refl) as (s & _ & Hs).
  destruct (consume_run _ _ s "7" Chest.kp 5 Hs eq_refl) as (s1 & E1 & _).
  assert (given (private_now (set_bundle "7" (add_key (id_str (IdInt 5)) "key" ("p" ++ pretty 1%N)
            (deadline 0 PREKEY_TTL) (Chest.nobody "7")) Chest.nobody "7") 0 (pretty 5%Z)) = Some "p1") as Hk
    by (vm_compute; reflexivity).
  exists s, s1. split; [rewrite <- Hk; exact E1|].
  destruct (consumed_once Chest.kp "7" 5 "p1" Chest.again 0 _ s s1 ∅ Hs eq_refl)
    as (H & pub & r & Hpub & Hnone & _).
  - intros op v. by apply Chest.colons.
  - intros id' p seed H. repeat (apply elem_of_cons in H as [H|H]; [discriminate H|]). by apply not_elem_of_nil in H.
  - rewrite <- Hk. exact E1.
  - cbv zeta. split; [exact H|]. exists pub. split; [exact Hpub|exact Hnone].
Defined.

Lemma uploaded_identity_lost_witness :
  ∃ k1 k2,
    upload_identity_key "7" (Ok (JObj [("publicKey", JStr "bWluZQ==")])) Chest.state0
      = (Ok (message "Identity key updated successfully"), k1) ∧
    k_users k1 !! "7" = Some (mk_user_keys (Some "bWluZQ==") None) ∧
    upload_prekey "7" (Ok (prekey_body "a2V5" (JInt 5))) 3 4 k1 = (Ok (message "Pre-key stored successfully"), k2) ∧
    k_users k2 !! "7" = Some (mk_user_keys (Some (b64encode "I3")) (Some (b64encode "i3"))).
Proof.
  exact (uploaded_identity_lost 0 Chest.nobody "7" (mk_user_keys None None) "bWluZQ==" "a2V5" "mine" "key"
           (JInt 5) (IdInt 5) 3 4 ("P4", "p4") Chest.state0 Chest.nobody_stored eq_refl eq_refl eq_refl
           eq_refl eq_refl eq_refl eq_refl).
Defined.

Lemma boolean_id_blocks_witness :
  ∃ k1, upload_prekey "7" (Ok (prekey_body "a2V5" (JBool true))) 3 4 Chest.state0
        = (Ok (message "Pre-key stored successfully"), k1) ∧
    let k2 := k1 <| k_redis := (answers (run_prekey Chest.kp) Chest.ops (k_redis k1)).2 |> in
    get_prekeys "7" k2 = (Ok (error 500 "Internal server error"), k2).
Proof.
  exact (boolean_id_blocks Chest.kp Chest.ops 0 Chest.nobody "7" "a2V5" "key" true 3 4 ("P4", "p4")
           Chest.state0 Chest.nobody_stored eq_refl (λ op v, Chest.colons Chest.ops op v eq_refl) eq_refl eq_refl).
Defined.

Lemma signed_prekey_roundtrip_witness :
  ∃ k1, upload_signed_prekey "7" (Ok (signed_body "a2V5" (JInt 9) "c2ln")) Chest.state0
        = (Ok (message "Signed pre-key stored successfully"), k1) ∧
    get_signed_prekey "7" (later 1000 k1) = (Ok (signed_answer "7" "a2V5" "c2ln"), later 1000 k1).
Proof.
  destruct (signed_prekey_roundtrip "7" "a2V5" "c2ln" (JInt 9) (IdInt 9) "key" "sig" ∅ Chest.state0
              eq_refl eq_refl eq_refl eq_refl) as (k1 & E & H).
  exists k1. split; [exact E|exact (H 1000%N)].
Defined.

Lemma generate_pre_keys_spec_witness :
  ∃ l s', generate_pre_keys Chest.self [1%N; 2%N] [5; 5; 2147483653; 6]%Z Chest.redis0 = (Ok (Some l), s') ∧
    l.*1 = [5; 6]%Z.
Proof.
  destruct (generate_pre_keys_spec 0 Chest.nobody Chest.redis0 "7" Chest.kp [1%N; 2%N] [5; 5; 2147483653; 6]%Z
              Chest.nobody_stored eq_refl (λ z seed _, eq_refl)) as (l & B' & s' & E & _ & _ & Hl & _);
    [vm_compute; lia|].
  exists l, s'. split; [exact E|]. rewrite Hl. vm_compute. reflexivity.
Defined.
