(* ===== verification/Ai.v ===== *)
(** [backend/app/services/ai_service.py] and [backend/app/api/routes/chats.py]: summaries,
    translations and suggested replies from a hosted model, with a cache in Redis, and the
    routes over the messages of a chat.

    The model's answers, the builtin [hash] of texts and the class of chat messages are not
    in the repository; the Redis client is the asynchronous one the service names. *)

From S2P Require Import Prelude Effects PyStr Redis Models Json World.
From stdpp Require Import pretty.
From Stdlib Require Import Ascii String.

Local Open Scope string_scope.

(** ** The hosted model *)

(** A request and what it comes to: an exception of the client, or a status and a body, which
    may not be JSON. *)
Record hf_request := mk_hf_request {
  hf_url : string;
  hf_headers : list (string * string);
  hf_json : json
}.
Inductive hf_answer := Unreachable (e : exn) | Answer (status_code : Z) (body : res json).

Definition HF_API_URL : string := "https://api-inference.huggingface.co/models".
Definition SUMMARIZATION_MODEL : string := "facebook/bart-large-cnn".
Definition TRANSLATION_MODEL : string := "facebook/nllb-200-distilled-600M".
Definition SMART_REPLY_MODEL : string := "microsoft/DialoGpt-medium".

Section Service.
(** The token of the environment, the builtin [hash] and the service on the other side. *)
Context (HF_TOKEN : string) (py_hash : string → Z).
Implicit Types (api : hf_request → hf_answer).

Definition get_hf_headers : list (string * string) :=
  if truthy HF_TOKEN then [("Authorization", "Bearer " ++ HF_TOKEN)] else [].

(** [_call_hf_api] *)
Definition call_hf_api api (model : string) (payload : json) : prog rstate json :=
  match api (mk_hf_request (HF_API_URL ++ "/" ++ model) get_hf_headers payload) with
  | Unreachable e => raise e
  | Answer status_code body =>
      ensure (status_code =? 200)%Z (PlainException ("HF API request failed: " ++ pretty status_code)) ;;
      lift body
  end.

(** [setex(key, secs, value)]: a text or an integer; the client refuses other values. *)
Definition setex (key : string) (secs : Z) (value : json) : prog rstate unit :=
  match value with
  | JStr s => redis_set key s (Some secs)
  | JInt z => redis_set key (pretty z) (Some secs)
  | _ => raise (RedisError "Invalid input")
  end.

(** [cached = await redis.get(key)] and [cached.decode('utf-8')], when it is there and not
    empty. A value of the store is the text that was written: these keys are written by [setex]
    alone, where the client encodes a text as UTF-8, so that decoding gives it back. (Bytes that
    are not UTF-8, which only another writer could leave, are outside the model.) *)
Definition get_cached (key : string) : prog rstate (option string) :=
  cached ← redis_get key;
  mret (match cached with Some t => if truthy t then Some t else None | None => None end).

(** [result[0][field] if isinstance(result, list) and len(result) > 0 else ""] *)
Definition first_field (field : string) (result : json) : res json :=
  match result with
  | JList (x :: _) => json_item field x
  | _ => Ok (JStr "")
  end.

(** [try: m except Exception: return v] *)
Definition or_else {A} (m : prog rstate A) (v : A) : prog rstate A := try_except m (λ _, mret v).

(** [messages[-n:]] *)
Definition last_n {A} (n : nat) (l : list A) : list A := skipn (List.length l - n) l.

(** [summarize_messages] *)
Definition summary_key (combined : string) : string := "ai:summary:" ++ pretty (py_hash combined).
Definition summary_payload (combined : string) (max_length : Z) : json :=
  JObj [("inputs", JStr combined);
        ("parameters", JObj [("max_length", JInt max_length); ("min_length", JInt 30); ("do_sample", JBool false)])].
Definition shortened (combined : string) : string :=
  if (200 <? String.length combined)%nat then take_str 200 combined ++ "..." else combined.
Definition summarize_messages api (messages : list string) (max_length : Z) : prog rstate json :=
  if bool_decide (messages = []) then mret (JStr "") else
  let combined := PyStr.join " " (last_n 100 messages) in
  cached ← get_cached (summary_key combined);
  match cached with
  | Some t => mret (JStr t)
  | None =>
      or_else (result ← call_hf_api api SUMMARIZATION_MODEL (summary_payload combined max_length);
               summary ← lift (first_field "summary_text" result);
               setex (summary_key combined) 300 summary ;;
               mret summary)
        (JStr (shortened combined))
  end.

(** [translate_message] *)
Definition translate_key (text target_lang : string) : string :=
  "ai:translate:" ++ pretty (py_hash text) ++ ":" ++ target_lang.
Definition translate_payload (text target_lang : string) : json :=
  JObj [("inputs", JStr text);
        ("parameters", JObj [("src_lang", JStr "eng_Latn"); ("tgt_lang", JStr target_lang)])].
Definition translate_message api (text target_lang : string) : prog rstate json :=
  if negb (truthy text) then mret (JStr "") else
  cached ← get_cached (translate_key text target_lang);
  match cached with
  | Some t => mret (JStr t)
  | None =>
      or_else (result ← call_hf_api api TRANSLATION_MODEL (translate_payload text target_lang);
               translation ← lift (first_field "translation_text" result);
               setex (translate_key text target_lang) 86400 translation ;;
               mret translation)
        (JStr text)
  end.

(** [generate_smart_replies]. One generated text, without the context it may start with: *)
Definition generated_reply (context : string) (item : json) : res string :=
  match item with
  | JObj fields =>
      match default (JStr "") (json_get "generated_text" fields) with
      | JStr generated =>
          Ok (if startswith context generated
              then strip (String.substring (String.length context)
                            (String.length generated - String.length context) generated)
              else generated)
      | _ => Err AttributeError
      end
  | _ => Err AttributeError
  end.
(** The loop over the items: not empty, no repetition. *)
Fixpoint collect_replies (context : string) (items : list json) (replies : list string) : res (list string) :=
  match items with
  | [] => Ok replies
  | item :: items =>
      match generated_reply context item with
      | Err e => Err e
      | Ok generated =>
          collect_replies context items
            (if truthy generated && bool_decide (generated ∉ replies) then replies ++ [generated] else replies)
      end
  end.
Definition default_replies : list string := ["Thanks!"; "Sounds good"; "Let me know"].
Definition replies_of (context : string) (result : json) : res (list string) :=
  match (match result with JList items => collect_replies context items [] | _ => Ok [] end) with
  | Ok [] => Ok default_replies
  | r => r
  end.
(** [l[:n]] *)
Definition slice_to {A} (n : Z) (l : list A) : list A :=
  if (n <? 0)%Z then take (Z.to_nat (Z.of_nat (List.length l) + n)) l else take (Z.to_nat n) l.
Definition replies_key (context : string) (num_replies : Z) : string :=
  "ai:smartreply:" ++ pretty (py_hash context) ++ ":" ++ pretty num_replies.
(** The sampling temperature of 0.7 is not represented. *)
Definition replies_payload (context : string) (num_replies : Z) : json :=
  JObj [("inputs", JStr context);
        ("parameters", JObj [("max_length", JInt 50); ("num_return_sequences", JInt num_replies)])].
Definition texts (l : list string) : json := JList (JStr <$> l).
Definition generate_smart_replies api (context : string) (num_replies : Z) : prog rstate json :=
  if negb (truthy context) then mret (JList []) else
  cached ← get_cached (replies_key context num_replies);
  match cached with
  | Some t => some_or_raise (loads_json t) (ValueError "json")
  | None =>
      or_else (result ← call_hf_api api SMART_REPLY_MODEL (replies_payload context num_replies);
               replies ← lift (replies_of context result);
               setex (replies_key context num_replies) 600 (JStr (dumps_json (texts replies))) ;;
               mret (texts (slice_to num_replies replies)))
        (texts default_replies)
  end.

(** ** The routes *)

(** The mapped class of chat messages and the rows of its table. *)
Context {ChatMessage : Type} (cm_chat_id cm_created_at : ChatMessage → Z) (cm_content : ChatMessage → option string).
Implicit Types (t : list ChatMessage).

(** [filter(chat_id == ...).order_by(created_at.desc()).limit(limit).all()]; PostgreSQL refuses
    a negative [LIMIT]. *)
Definition recent t (chat_id limit : Z) : res (list ChatMessage) :=
  if (0 <=? limit)%Z then
    Ok (take (Z.to_nat limit) (order_by_desc cm_created_at (List.filter (λ m, (cm_chat_id m =? chat_id)%Z) t)))
  else Err (ValueError "LIMIT must not be negative").

(** [[msg.content for msg in messages if msg.content]] *)
Definition contents (messages : list ChatMessage) : list string :=
  omap (λ m, match cm_content m with Some c => if truthy c then Some c else None | None => None end) messages.

Definition read_chat_messages t (chat_id limit : Z) : prog rstate (list ChatMessage) :=
  messages ← lift (recent t chat_id limit);
  mret (rev messages).

Definition get_chat_summary api t (chat_id limit : Z) : prog rstate json :=
  messages ← lift (recent t chat_id limit);
  match messages with
  | [] => mret (JObj [("summary", JStr "")])
  | _ =>
      summary ← summarize_messages api (contents messages) 150;
      mret (JObj [("summary", summary)])
  end.

Definition smart_replies_route api t (chat_id : Z) : prog rstate json :=
  messages ← lift (recent t chat_id 10);
  match messages with
  | [] => mret (JObj [("replies", texts default_replies)])
  | _ =>
      replies ← generate_smart_replies api (PyStr.join " " (rev (contents messages))) 3;
      mret (JObj [("replies", replies)])
  end.

Definition translate_route api (text target_lang : string) : prog rstate json :=
  translation ← translate_message api text target_lang;
  mret (JObj [("translation", translation)]).

(** ** Facts *)

Definition later (d : N) (s : rstate) : rstate := s <| rs_now ::= λ now, (now + Z.of_N d)%Z |>.

(** A text that was stored with an expiry is read until then. *)
Lemma redis_get_later key text secs d s :
  redis_get key (later d (s <| rs_db ::= <[key := mk_entry (RStr text) (Some (deadline (rs_now s) secs))]> |>))
  = (Ok (if (Z.of_N d <? secs * second)%Z then Some text else None),
     later d (s <| rs_db ::= <[key := mk_entry (RStr text) (Some (deadline (rs_now s) secs))]> |>)).
Proof.
  redis_run. unfold later. cbn -[Z.mul second]. rewrite live_insert_eq. unfold expired, deadline. cbn -[Z.mul second].
  destruct (Z.ltb_spec (Z.of_N d) (secs * second)),
    (Z.leb_spec (rs_now s + secs * second) (rs_now s + Z.of_N d)); try lia; done.
Qed.

Lemma get_cached_run key o s :
  redis_get key s = (Ok o, s) →
  get_cached key s = (Ok (match o with Some t => if truthy t then Some t else None | None => None end), s).
Proof. intros E. unfold get_cached. by rewrite (step_ok _ _ _ _ _ E). Qed.

(** Cached or computed: the shape of the three services. *)
Lemma cached_total {A} key (f : string → prog rstate A) m v o s :
  redis_get key s = (Ok o, s) → (∀ c, o = Some c → is_ok (f c s).1) →
  is_ok ((cached ← get_cached key; match cached with Some c => f c | None => or_else m v end) s).1.
Proof.
  intros E Hf. rewrite (step_ok _ _ _ _ _ (get_cached_run _ _ _ E)).
  assert (is_ok (or_else m v s).1) as H by (unfold or_else, try_except; by destruct (m s) as [[] ?]).
  destruct o as [c|]; [|done]. destruct (truthy c); [by apply Hf|done].
Qed.

(** The service behind the models is down: it cannot be reached, or answers with an error. *)
Definition down api : Prop :=
  ∀ request, match api request with Unreachable _ => True | Answer code _ => code ≠ 200%Z end.

Lemma call_down api model payload s : down api → ∃ e, call_hf_api api model payload s = (Err e, s).
Proof.
  intros Hdown. unfold call_hf_api. specialize (Hdown (mk_hf_request (HF_API_URL ++ "/" ++ model) get_hf_headers payload)).
  destruct (api _) as [e|code body]; [by eexists|].
  apply Z.eqb_neq in Hdown. rewrite Hdown. by eexists.
Qed.

Lemma cached_down {A} key (f : string → prog rstate A) api model payload k v s :
  redis_get key s = (Ok None, s) → down api →
  (cached ← get_cached key;
   match cached with Some c => f c | None => or_else (call_hf_api api model payload ≫= k) v end) s
  = (Ok v, s).
Proof.
  intros E Hdown. rewrite (step_ok _ _ _ _ _ (get_cached_run _ _ _ E)).
  destruct (call_down api model payload s Hdown) as [e E'].
  unfold or_else, try_except. by rewrite (step_err _ _ _ _ _ E').
Qed.

(** C32. The model behind the service never breaks a request: whatever it answers, or when it cannot
    be reached, a summary, a translation and suggestions are returned, as long as Redis gives the
    cached text; and while it is down, and nothing is cached, those are the shortened text, the
    text itself and the standard replies, and nothing is cached. *)
Theorem ai_total api messages max_length text target_lang context num_replies s :
  let combined := PyStr.join " " (last_n 100 messages) in
  (∃ o, redis_get (summary_key combined) s = (Ok o, s)) →
  (∃ o, redis_get (translate_key text target_lang) s = (Ok o, s)) →
  (∃ o, redis_get (replies_key context num_replies) s = (Ok o, s) ∧ ∀ c, o = Some c → is_Some (loads_json c)) →
  is_ok (summarize_messages api messages max_length s).1 ∧
  is_ok (translate_message api text target_lang s).1 ∧
  is_ok (generate_smart_replies api context num_replies s).1 ∧
  (down api →
   (messages ≠ [] → redis_get (summary_key combined) s = (Ok None, s) →
    summarize_messages api messages max_length s = (Ok (JStr (shortened combined)), s)) ∧
   (redis_get (translate_key text target_lang) s = (Ok None, s) →
    translate_message api text target_lang s = (Ok (JStr text), s)) ∧
   (truthy context = true → redis_get (replies_key context num_replies) s = (Ok None, s) →
    generate_smart_replies api context num_replies s = (Ok (texts default_replies), s))).
Proof.
  intros combined [o1 H1] [o2 H2] (o3 & H3 & Hloads). split; [|split; [|split]].
  - unfold summarize_messages. case_bool_decide; [done|]. by apply (cached_total _ _ _ _ o1).
  - unfold translate_message. destruct (truthy text); [|done]. by apply (cached_total _ _ _ _ o2).
  - unfold generate_smart_replies. destruct (truthy context); [|done]. apply (cached_total _ _ _ _ o3); [done|].
    intros c Hc. by destruct (Hloads c Hc) as [v ->].
  - intros Hdown. split; [|split].
    + intros Hm E. unfold summarize_messages. rewrite bool_decide_false by done. by apply cached_down.
    + intros E. unfold translate_message. destruct text as [|c text]; [done|]. by apply cached_down.
    + intros Hc E. unfold generate_smart_replies. rewrite Hc. by apply cached_down.
Qed.

(** C33. A summary is made once in five minutes: after the model has summarised a conversation,
    every request in that time for a conversation whose text has the same hash is given that
    summary, whatever the model would say now and whatever length is asked for; later the model
    is asked again. *)
Theorem summary_cached api messages max_length summary fields rest s :
  let key := summary_key (PyStr.join " " (last_n 100 messages)) in
  let payload := summary_payload (PyStr.join " " (last_n 100 messages)) max_length in
  messages ≠ [] → redis_get key s = (Ok None, s) → truthy summary = true →
  api (mk_hf_request (HF_API_URL ++ "/" ++ SUMMARIZATION_MODEL) get_hf_headers payload)
    = Answer 200 (Ok (JList (JObj fields :: rest))) →
  json_get "summary_text" fields = Some (JStr summary) →
  ∃ s1, summarize_messages api messages max_length s = (Ok (JStr summary), s1) ∧
    ∀ d,
    if (Z.of_N d <? 300 * second)%Z then
      ∀ api' messages' max_length',
        messages' ≠ [] → summary_key (PyStr.join " " (last_n 100 messages')) = key →
        summarize_messages api' messages' max_length' (later d s1) = (Ok (JStr summary), later d s1)
    else redis_get key (later d s1) = (Ok None, later d s1).
Proof.
  intros key payload Hm E Hs Hapi Hfield.
  exists (s <| rs_db ::= <[key := mk_entry (RStr summary) (Some (deadline (rs_now s) 300))]> |>). split.
  - unfold summarize_messages. rewrite bool_decide_false by done. fold key.
    rewrite (step_ok _ _ _ _ _ (get_cached_run _ _ _ E)). unfold or_else, try_except.
    assert (call_hf_api api SUMMARIZATION_MODEL payload s = (Ok (JList (JObj fields :: rest)), s)) as Ecall
      by (unfold call_hf_api; rewrite Hapi; done).
    rewrite (step_ok _ _ _ _ _ Ecall). unfold first_field, json_item. rewrite Hfield. done.
  - intros d. rewrite (redis_get_later key summary 300 d s).
    destruct (Z.of_N d <? 300 * second)%Z eqn:Hd; [|done].
    intros api' messages' max_length' Hm' Hkey. unfold summarize_messages. rewrite bool_decide_false by done.
    pose proof (redis_get_later key summary 300 d s) as Eget. rewrite Hd in Eget.
    rewrite Hkey, (step_ok _ _ _ _ _ (get_cached_run _ _ _ Eget)), Hs. done.
Qed.

(** Suggestions are cut to the number asked for when the model is asked, but not when they
    come from the cache: for ten minutes the same request is then answered with all of them. *)
Theorem replies_cached_whole api context num_replies result replies s :
  let key := replies_key context num_replies in
  truthy context = true → (0 ≤ num_replies)%Z → redis_get key s = (Ok None, s) →
  api (mk_hf_request (HF_API_URL ++ "/" ++ SMART_REPLY_MODEL) get_hf_headers (replies_payload context num_replies))
    = Answer 200 (Ok result) →
  replies_of context result = Ok replies →
  ∃ s1, generate_smart_replies api context num_replies s
        = (Ok (texts (take (Z.to_nat num_replies) replies)), s1) ∧
    ∀ d api', (Z.of_N d < 600 * second)%Z →
      generate_smart_replies api' context num_replies (later d s1) = (Ok (texts replies), later d s1).
Proof.
  intros key Hc Hn E Hapi Hr.
  exists (s <| rs_db ::= <[key := mk_entry (RStr (dumps_json (texts replies))) (Some (deadline (rs_now s) 600))]> |>).
  split.
  - unfold generate_smart_replies. rewrite Hc. fold key. cbn [negb].
    rewrite (step_ok _ _ _ _ _ (get_cached_run _ _ _ E)). unfold or_else, try_except.
    assert (call_hf_api api SMART_REPLY_MODEL (replies_payload context num_replies) s = (Ok result, s)) as Ecall
      by (unfold call_hf_api; rewrite Hapi; done).
    rewrite (step_ok _ _ _ _ _ Ecall), Hr. unfold slice_to.
    destruct (Z.ltb_spec num_replies 0); [lia|]. done.
  - intros d api' Hd. unfold generate_smart_replies. rewrite Hc. fold key. cbn [negb].
    pose proof (redis_get_later key (dumps_json (texts replies)) 600 d s) as Eget.
    rewrite (proj2 (Z.ltb_lt _ _) Hd) in Eget.
    rewrite (step_ok _ _ _ _ _ (get_cached_run _ _ _ Eget)).
    by rewrite loads_dumps_json.
Qed.

Lemma contents_rev l : contents (rev l) = rev (contents l).
Proof.
  induction l as [|m l IH]; [done|]. cbn [rev]. unfold contents in *. rewrite omap_app, IH. cbn.
  destruct (cm_content m) as [c|]; [destruct (truthy c)|]; cbn; by rewrite ?app_nil_r.
Qed.

Lemma last_n_rev {A} n (l : list A) : last_n n (rev l) = rev (take n l).
Proof.
  unfold last_n. rewrite skipn_rev, length_rev. f_equal.
  destruct (decide (n ≤ List.length l)%nat); [f_equal; lia|]. rewrite !take_ge by lia. done.
Qed.

(** The summary of a chat is made of the messages in the reverse order of the listing, the
    newest first, and when there are more than a hundred it leaves out the newest: it is the
    summary of the first hundred of the listing, backwards. *)
Theorem summary_of_oldest api t chat_id limit chronological s :
  read_chat_messages t chat_id limit s = (Ok chronological, s) → chronological ≠ [] →
  get_chat_summary api t chat_id limit s
  = (summary ← summarize_messages api (rev (take 100 (contents chronological))) 150;
     mret (JObj [("summary", summary)])) s.
Proof.
  unfold read_chat_messages, get_chat_summary, recent. destruct (0 <=? limit)%Z; [|done].
  set (l := take _ _). intros [= <-] Hne. rewrite (step_ok _ _ s l s eq_refl).
  assert (contents l = rev (contents (rev l))) as -> by (by rewrite contents_rev, rev_involutive).
  destruct l as [|m l]; [done|]. set (chrono := contents (rev (m :: l))).
  assert (summarize_messages api (rev chrono) 150 = summarize_messages api (rev (take 100 chrono)) 150) as ->; [|done].
  unfold summarize_messages. rewrite !last_n_rev, take_take, Nat.min_id.
  assert (bool_decide (rev chrono = []) = bool_decide (rev (take 100 chrono) = [])) as ->; [|done].
  apply bool_decide_ext. destruct chrono as [|c chrono]; [done|]. cbn [take rev].
  split; intros H%app_eq_nil; naive_solver.
Qed.
End Service.

(** ** Applied *)

Module Model.
Definition hash (s : string) : Z := Z.of_nat (String.length s).
(** A model that summarises everything alike and replies three times, and one that is down. *)
Definition api (r : hf_request) : hf_answer :=
  if String.eqb (hf_url r) (HF_API_URL ++ "/" ++ SUMMARIZATION_MODEL)
  then Answer 200 (Ok (JList [JObj [("summary_text", JStr "in short")]]))
  else Answer 200 (Ok (JList [JObj [("generated_text", JStr "hello Yes ")]; JObj [("generated_text", JStr "No")];
                              JObj []; JObj [("generated_text", JStr "No")]])).
Definition none (r : hf_request) : hf_answer := Unreachable (PlainException "timeout").
Definition redis0 : rstate := mk_rstate 0 ∅.
Definition message : Type := Z * Z * option string.
Definition table : list message := [(1, 10, Some "first"); (1, 30, Some "third"); (1, 20, Some "second"); (2, 40, None)]%Z.
End Model.

Lemma ai_total_witness :
  summarize_messages "" Model.hash Model.none ["a"; "b"] 10 Model.redis0 = (Ok (JStr "a b"), Model.redis0) ∧
  generate_smart_replies "" Model.hash Model.none "hello" 2 Model.redis0 = (Ok (texts default_replies), Model.redis0).
Proof.
  destruct (ai_total "" Model.hash Model.none ["a"; "b"] 10 "x" "fra_Latn" "hello" 2 Model.redis0)
    as (_ & _ & _ & H); [by exists None|by exists None|by exists None|].
  destruct (H ltac:(done)) as (H1 & _ & H3). split; [by apply H1|by apply H3].
Defined.

Lemma summary_cached_witness :
  ∃ s1, summarize_messages "" Model.hash Model.api ["a"; "b"] 10 Model.redis0 = (Ok (JStr "in short"), s1) ∧
    summarize_messages "" Model.hash Model.none ["c d"] 99 (later 7 s1) = (Ok (JStr "in short"), later 7 s1).
Proof.
  destruct (summary_cached "" Model.hash Model.api ["a"; "b"] 10 "in short" [("summary_text", JStr "in short")] []
              Model.redis0) as (s1 & E & H); [done..|].
  exists s1. split; [exact E|]. exact (H 7%N Model.none ["c d"] 99%Z ltac:(done) ltac:(done)).
Defined.

Lemma replies_cached_whole_witness :
  ∃ s1, generate_smart_replies "" Model.hash Model.api "hello" 1 Model.redis0 = (Ok (texts ["Yes"]), s1) ∧
    generate_smart_replies "" Model.hash Model.api "hello" 1 (later 7 s1) = (Ok (texts ["Yes"; "No"]), later 7 s1).
Proof.
  destruct (replies_cached_whole "" Model.hash Model.api "hello" 1
              (JList [JObj [("generated_text", JStr "hello Yes ")]; JObj [("generated_text", JStr "No")];
                      JObj []; JObj [("generated_text", JStr "No")]]) ["Yes"; "No"] Model.redis0)
    as (s1 & E & H); [done|done|done|reflexivity|reflexivity|].
  exists s1. split; [exact E|]. by apply H.
Defined.

Lemma summary_of_oldest_witness :
  get_chat_summary "" Model.hash (λ m : Model.message, m.1.1) (λ m, m.1.2) snd Model.none Model.table 1 2 Model.redis0
  = (Ok (JObj [("summary", JStr "third second")]), Model.redis0).
Proof.
  rewrite (summary_of_oldest "" Model.hash (λ m : Model.message, m.1.1) (λ m, m.1.2) snd Model.none Model.table 1 2
             [(1, 20, Some "second"); (1, 30, Some "third")]%Z Model.redis0); [|vm_compute; reflexivity|done].
  vm_compute. reflexivity.
Defined.
