(* ===== verification/OcrUploads.v ===== *)
(** [backend/app/api/routes/media.py] and [backend/app/redis.py]: uploads of the second backend, and
    the alerts for keywords in what was uploaded.

    MinIO, the file system, the tables of groups and chats and the connection manager are not
    in the repository: interfaces, or lists of what was done to them. A set is iterated in the
    order of [elements]; which of several matching keywords comes first is a parameter. *)

From S2P Require Import Prelude Effects PyStr Uuid Redis Models Json.
From stdpp Require Import pretty.
From Stdlib Require Import Ascii String.

Local Open Scope string_scope.

Definition OCR_DEBOUNCE_SECONDS : Z := 5.
Definition OCR_ALERT_HISTORY_LIMIT : nat := 50.
Definition OCR_ALERT_HISTORY_TTL : Z := 24 * 60 * 60.

(** ** Texts *)

(** [s.find(pat)], [None] for -1. *)
Fixpoint str_find (pat s : string) : option nat :=
  if String.prefix pat s then Some O
  else match s with EmptyString => None | String _ s => S <$> str_find pat s end.
(** [s.rfind(c)] *)
Fixpoint rfind (c : ascii) (s : string) : option nat :=
  match s with
  | EmptyString => None
  | String d s =>
      match rfind c s with
      | Some n => Some (S n)
      | None => if Ascii.eqb d c then Some O else None
      end
  end.
(** [s[a:b]] for [0 <= a], [0 <= b]. *)
Definition slice (a b : nat) (s : string) : string := String.substring a (b - a) s.
(** [os.path.splitext(p)[1]]: from the last dot of the last component, unless only dots precede. *)
Definition extension (p : string) : string :=
  match rfind "." p with
  | None => ""
  | Some dot =>
      let start := match rfind "/" p with Some i => S i | None => O end in
      if (dot <? start)%nat then ""
      else if str_all (λ c, Ascii.eqb c ".") (slice start dot p) then ""
      else slice dot (String.length p) p
  end.

(** ** State *)

(** A scheduled [process_ocr]. *)
Record ocr_task := mk_ocr_task {
  t_file_id : string;
  t_file_name : string;
  t_file_path : string;
  t_uploader_id : Z;
  t_chat_id : option Z;
  t_group_id : option Z
}.
Record mstate := mk_mstate {
  m_redis : rstate;
  m_objects : gmap string string;    (* of the bucket *)
  m_files : gmap string string;      (* temporary files *)
  m_sent : list (Z * json);          (* through the connection manager *)
  m_tasks : list ocr_task
}.
#[export] Instance eta_mstate : Eta mstate :=
  λ s, mk_mstate (m_redis s) (m_objects s) (m_files s) (m_sent s) (m_tasks s).

Definition redis_conn {A} (m : prog rstate A) : prog mstate A :=
  λ s, let '(r, r') := m (m_redis s) in (r, s <| m_redis := r' |>).

(** What is not in the repository: whether a write to MinIO or to the disk fails, the members of
    a group, the two users of a chat, the first of a set of keywords, the text of a time. *)
Class Outside := {
  io_imported : bool;
  minio_fails : string → bool;
  disk_fails : string → bool;
  group_members : Z → list Z;
  chat_users : Z → option (Z * Z);
  first_of : gset string → string;
  isoformat : Z → string
}.

(** ** Keywords and alerts *)

Section Media.
Context `{Outside}.

(** [extract_text], a stand-in. *)
Definition extract_text (file_path : string) : string :=
  "This is a sample text with the word urgent and another word.".

Definition keywords_key (user_id : Z) : string := "user:" ++ pretty user_id ++ ":ocr_keywords".
Definition get_user_keywords (user_id : Z) : prog rstate (gset string) :=
  keywords ← redis_smembers (keywords_key user_id);
  mret (set_map lower keywords).

Definition alerts_key (user_id : Z) : string := "user:" ++ pretty user_id ++ ":ocr_alerts".
Definition add_ocr_alert (user_id : Z) (alert : json) : prog rstate unit :=
  redis_lpush (alerts_key user_id) (dumps_json alert) ;;
  redis_ltrim (alerts_key user_id) (OCR_ALERT_HISTORY_LIMIT - 1) ;;
  redis_expire (alerts_key user_id) OCR_ALERT_HISTORY_TTL ;;
  mret tt.

Definition debounce_key (file_id : string) (user_id : Z) : string :=
  "ocr:debounce:" ++ file_id ++ ":" ++ pretty user_id.
Definition is_ocr_debounced (file_id : string) (user_id : Z) : prog rstate bool :=
  there ← redis_exists (debounce_key file_id user_id);
  if there : bool then mret true
  else redis_set (debounce_key file_id user_id) "1" (Some OCR_DEBOUNCE_SECONDS) ;; mret false.

(** The users whose keywords are checked. *)
Definition user_ids_to_check (task : ocr_task) : gset Z :=
  match t_group_id task, t_chat_id task with
  | Some g, _ => list_to_set (group_members g)
  | None, Some c =>
      match chat_users c with
      | Some (u1, u2) => {[u1; u2]} ∖ {[t_uploader_id task]}
      | None => ∅
      end
  | None, None => {[t_uploader_id task]}
  end.

(** The twenty characters around the keyword. *)
Definition snippet_of (text text_lower keyword : string) : string :=
  match str_find keyword text_lower with
  | Some idx => slice (idx - 20) (Nat.min (String.length text) (idx + String.length keyword + 20)) text
  | None => slice 0 100 text
  end.

Definition jint_opt (o : option Z) : json := match o with Some z => JInt z | None => JNull end.
Definition alert_of (task : ocr_task) (keyword snippet : string) (user_id now : Z) : json :=
  JObj [("type", JStr "ocr_alert"); ("file_id", JStr (t_file_id task)); ("file_name", JStr (t_file_name task));
        ("matched_keyword", JStr keyword); ("group_id", jint_opt (t_group_id task));
        ("chat_id", jint_opt (t_chat_id task)); ("snippet", JStr snippet); ("user_id", JInt user_id);
        ("timestamp", JStr (isoformat now ++ "Z"))].

(** The body of the loop, for one user. *)
Definition check_user (task : ocr_task) (text text_lower : string) (user_id : Z) : prog mstate unit :=
  debounced ← redis_conn (is_ocr_debounced (t_file_id task) user_id);
  if debounced : bool then mret tt else
  keywords ← redis_conn (get_user_keywords user_id);
  if bool_decide (keywords = ∅) then mret tt else
  let matched_keywords := list_to_set (split_ws text_lower) ∩ keywords in
  if bool_decide (matched_keywords = ∅) then mret tt else
  let keyword := first_of matched_keywords in
  now ← gets (λ s, rs_now (m_redis s));
  let alert := alert_of task keyword (snippet_of text text_lower keyword) user_id now in
  redis_conn (add_ocr_alert user_id alert) ;;
  modify (λ s, s <| m_sent ::= λ l, (l ++ [(user_id, alert)])%list |>).

(** [process_ocr] *)
Definition process_ocr (task : ocr_task) : prog mstate unit :=
  let text := extract_text (t_file_path task) in
  for_each (check_user task text (lower text)) (elements (user_ids_to_check task)) ;;
  modify (λ s, s <| m_files ::= delete (t_file_path task) |>).

(** ** The upload *)

(** [str(e)] of what the two [try] blocks can raise. *)
Definition str_of_exn (e : exn) : string :=
  match e with
  | NameError name => "name '" ++ name ++ "' is not defined"
  | StorageError detail => detail
  | _ => ""
  end.

(** [upload_media]; [fresh] is [uuid4()]. *)
Definition upload_media (fresh : UUID) (filename : option string) (content : string)
    (chat_id group_id : option Z) (current_user : Z) : prog mstate json :=
  let file_id := uuid_str fresh in
  name ← some_or_raise filename TypeError;
  let object_name := file_id ++ extension name in
  try_except
    (ensure io_imported (NameError "io") ;;
     ensure (negb (minio_fails object_name)) (StorageError "put_object") ;;
     modify (λ s, s <| m_objects ::= <[object_name := content]> |>))
    (λ e, raise (HTTPException 500 ("Failed to upload file to MinIO: " ++ str_of_exn e))) ;;
  let temp_file_path := "/tmp/" ++ object_name in
  try_except
    (ensure (negb (disk_fails temp_file_path)) (StorageError "write") ;;
     modify (λ s, s <| m_files ::= <[temp_file_path := content]> |>))
    (λ e, modify (λ s, s <| m_objects ::= delete object_name |>) ;;
          raise (HTTPException 500 ("Failed to create temporary file: " ++ str_of_exn e))) ;;
  modify (λ s, s <| m_tasks ::= λ l,
    (l ++ [mk_ocr_task file_id name temp_file_path current_user chat_id group_id])%list |>) ;;
  mret (JObj [("file_id", JStr file_id); ("object_name", JStr object_name);
              ("message", JStr "File uploaded successfully. OCR processing started.")]).

(** ** The snippet *)

Lemma str_find_spec p s i :
  str_find p s = Some i → String.substring i (String.length p) s = p ∧ (i + String.length p ≤ String.length s)%nat.
Proof.
  revert i. induction s as [|c s IH]; intros i; cbn [str_find].
  - destruct (String.prefix p "") eqn:E; [|done]. intros [= <-]. destruct p; [done|discriminate E].
  - destruct (String.prefix p (String c s)) eqn:E.
    + intros [= <-]. apply prefix_substring in E. split; [done|].
      rewrite <- E at 1. clear. generalize (String.length p) as n.
      assert (∀ t n, String.length (String.substring 0 n t) ≤ String.length t)%nat as H
        by (intros t; induction t as [|d t IH]; intros [|n]; cbn; [lia..|specialize (IH n); lia]).
      intros n. apply (H (String c s)).
    + destruct (str_find p s) as [j|]; [|done]. intros [= <-]. destruct (IH j eq_refl) as [Hs Hl].
      split; [exact Hs|cbn; lia].
Qed.

Lemma str_find_in p s : str_in p s = true → is_Some (str_find p s).
Proof.
  induction s as [|c s IH]; cbn [str_in str_find].
  - destruct (String.prefix p ""); [eauto|done].
  - destruct (String.prefix p (String c s)); [eauto|]. intros Hs. destruct (IH Hs) as [i ->]. eauto.
Qed.

(** The snippet of an alert shows the keyword, and at most twenty characters on each side. *)
Theorem snippet_spec text keyword :
  str_in keyword (lower text) = true →
  str_in keyword (lower (snippet_of text (lower text) keyword)) = true ∧
  (String.length (snippet_of text (lower text) keyword) ≤ String.length keyword + 40)%nat.
Proof.
  intros Hin. unfold snippet_of. destruct (str_find_in _ _ Hin) as [i Ei]. rewrite Ei.
  apply str_find_spec in Ei as [Hs Hl]. unfold lower in *. rewrite length_str_map in Hl. unfold slice.
  set (stop := Nat.min _ _). split.
  - rewrite str_map_substring. apply (str_in_at _ (i - (i - 20))). rewrite substring_nested by (subst stop; lia).
    rewrite <- Hs at 2. f_equal. lia.
  - rewrite length_substring by (subst stop; lia). subst stop. lia.
Qed.

(** ** Who is alerted *)

Lemma keywords_alerts_ne u v : keywords_key u ≠ alerts_key v.
Proof.
  unfold keywords_key, alerts_key. intros E%append_inj_l.
  apply no_colon_inj in E as [_ E]; [discriminate E|apply pretty_no_colon..].
Qed.
Lemma alerts_key_inj u v : alerts_key u = alerts_key v → u = v.
Proof.
  unfold alerts_key. intros E%append_inj_l. apply no_colon_inj in E as [E _]; [|apply pretty_no_colon..].
  by apply (inj pretty) in E.
Qed.
Lemma debounce_key_inj f u v : debounce_key f u = debounce_key f v → u = v.
Proof.
  unfold debounce_key. intros E%append_inj_l%append_inj_l. apply (append_inj_l ":"), (inj pretty) in E. done.
Qed.
Lemma debounce_keywords f u v : debounce_key f u ≠ keywords_key v.
Proof. discriminate. Qed.
Lemma debounce_alerts f u v : debounce_key f u ≠ alerts_key v.
Proof. discriminate. Qed.

(** The stored keywords and history of a user, when they are a set and a list. *)
Definition stored_keywords (s : rstate) (u : Z) : gset string :=
  match live (rs_now s) (rs_db s) (keywords_key u) with Some (mk_entry (RSet m) _) => m | _ => ∅ end.
Definition history (s : rstate) (u : Z) : list string :=
  match live (rs_now s) (rs_db s) (alerts_key u) with Some (mk_entry (RList l) _) => l | _ => [] end.
Definition proper (s : rstate) (u : Z) : Prop :=
  match live (rs_now s) (rs_db s) (keywords_key u) with None | Some (mk_entry (RSet _) _) => True | _ => False end ∧
  match live (rs_now s) (rs_db s) (alerts_key u) with None | Some (mk_entry (RList _) _) => True | _ => False end.
Definition debounced (s : rstate) (f : string) (u : Z) : bool :=
  bool_decide (is_Some (live (rs_now s) (rs_db s) (debounce_key f u))).

Definition matched (s : rstate) (u : Z) (text : string) : gset string :=
  list_to_set (split_ws (lower text)) ∩ set_map lower (stored_keywords s u).
Definition hit (s : rstate) (f : string) (text : string) (u : Z) : bool :=
  negb (debounced s f u) && negb (bool_decide (matched s u text = ∅)).
Definition alert_to (s : rstate) (task : ocr_task) (text : string) (u : Z) : json :=
  let keyword := first_of (matched s u text) in
  alert_of task keyword (snippet_of text (lower text) keyword) u (rs_now s).

Lemma keywords_run s u : proper s u → get_user_keywords u s = (Ok (set_map lower (stored_keywords s u)), s).
Proof.
  intros [Hk _]. unfold get_user_keywords, stored_keywords. redis_run.
  destruct (live _ _ _) as [[[] ?]|]; done.
Qed.

Lemma put_list_run k l s : l ≠ [] →
  put_list k l s = (Ok tt, s <| rs_db ::= <[k := mk_entry (RList l) (live (rs_now s) (rs_db s) k ≫= e_exp)]> |>).
Proof. intros Hl. unfold put_list, look, gets. run. by rewrite decide_False. Qed.

Lemma look_list_insert k l ex s :
  expired (rs_now s) (mk_entry (RList l) ex) = false →
  look_list k (s <| rs_db ::= <[k := mk_entry (RList l) ex]> |>) = (Ok l, s <| rs_db ::= <[k := mk_entry (RList l) ex]> |>).
Proof. intros He. unfold look_list, look, gets. run. cbn. by rewrite live_insert_eq, He. Qed.

Lemma add_alert_run s u a : proper s u →
  add_ocr_alert u a s
  = (Ok tt, s <| rs_db ::= <[alerts_key u := mk_entry (RList (take 50 (dumps_json a :: history s u)))
                               (Some (deadline (rs_now s) OCR_ALERT_HISTORY_TTL))]> |>).
Proof.
  intros [_ Ha]. unfold add_ocr_alert, redis_lpush, redis_ltrim.
  assert (look_list (alerts_key u) s = (Ok (history s u), s)) as El.
  { unfold history, look_list, look, gets. run. destruct (live _ _ _) as [[[] ?]|]; done. }
  rewrite step_assoc, (step_ok _ _ _ _ _ El).
  erewrite step_ok by (apply put_list_run; discriminate).
  rewrite step_assoc. erewrite step_ok by (apply look_list_insert, live_exp_alive).
  erewrite step_ok by (apply put_list_run; discriminate). rewrite overwrite.
  erewrite step_ok; [|apply expire_run; cbn; rewrite live_insert_eq, live_exp_alive; done].
  by rewrite overwrite.
Qed.

(** The user's entries decide everything. *)
Definition agree (r r' : rstate) (u : Z) : Prop :=
  rs_now r' = rs_now r ∧ rs_db r' !! keywords_key u = rs_db r !! keywords_key u ∧
  rs_db r' !! alerts_key u = rs_db r !! alerts_key u.
Lemma agree_user r r' u text :
  agree r r' u → (proper r u → proper r' u) ∧ history r' u = history r u ∧ matched r' u text = matched r u text.
Proof.
  intros (Hn & Hk & Ha). unfold proper, history, matched, stored_keywords.
  by rewrite Hn, (live_ext _ _ _ _ Hk), (live_ext _ _ _ _ Ha).
Qed.

Lemma redis_conn_run {A} (m : prog rstate A) a r r' o f l t :
  m r = (Ok a, r') → redis_conn m (mk_mstate r o f l t) = (Ok a, mk_mstate r' o f l t).
Proof. intros E. unfold redis_conn. cbn [m_redis]. by rewrite E. Qed.

Definition with_debounce (f : string) (u : Z) (r : rstate) : rstate :=
  r <| rs_db ::= <[debounce_key f u := mk_entry (RStr "1") (Some (deadline (rs_now r) OCR_DEBOUNCE_SECONDS))]> |>.
Lemma debounce_run f u r :
  is_ocr_debounced f u r = (Ok (debounced r f u), if debounced r f u then r else with_debounce f u r).
Proof.
  unfold is_ocr_debounced. rewrite (step_ok _ _ _ _ _ (exists_run _ _)). fold (debounced r f u).
  by destruct (debounced r f u).
Qed.

Lemma with_debounce_agree f u v r : agree r (with_debounce f u r) v.
Proof.
  split; [done|]. unfold with_debounce. cbn. rewrite !lookup_insert_ne; [done| |].
  - apply debounce_alerts.
  - apply debounce_keywords.
Qed.

(** The flag a check leaves: the one that was there, or one for [OCR_DEBOUNCE_SECONDS]. *)
Definition flagged (r : rstate) (f : string) (u : Z) (r' : rstate) : Prop :=
  rs_db r' !! debounce_key f u
  = if debounced r f u then rs_db r !! debounce_key f u
    else Some (mk_entry (RStr "1") (Some (deadline (rs_now r) OCR_DEBOUNCE_SECONDS))).
Lemma with_debounce_flagged f u r : debounced r f u = false → flagged r f u (with_debounce f u r).
Proof. intros Hd. unfold flagged. rewrite Hd. apply lookup_insert_eq. Qed.

(** How long it lasts. *)
Lemma flagged_lasts r f u r' (d : N) :
  debounced r f u = false → flagged r f u r' → rs_now r' = rs_now r →
  debounced (r' <| rs_now ::= λ t, (t + Z.of_N d)%Z |>) f u = bool_decide (Z.of_N d < 5 * second)%Z.
Proof.
  intros Hd Hf Hn. unfold flagged in Hf. rewrite Hd in Hf. unfold debounced, live. cbn -[debounce_key].
  rewrite Hf. unfold expired, deadline, OCR_DEBOUNCE_SECONDS. cbn [e_exp]. rewrite Hn.
  destruct (Z.leb_spec (rs_now r + 5 * second) (rs_now r + Z.of_N d)).
  - rewrite !bool_decide_false; [done|lia|by intros []].
  - rewrite !bool_decide_true; [done|lia|done].
Qed.
Lemma flagged_debounced r f u r' :
  flagged r f u r' → rs_now r' = rs_now r → debounced r' f u = true.
Proof.
  intros Hf Hn. destruct (debounced r f u) eqn:Hd.
  - unfold flagged in Hf. rewrite Hd in Hf. rewrite <- Hd. unfold debounced.
    by rewrite Hn, (live_ext _ _ _ _ Hf).
  - pose proof (flagged_lasts r f u r' 0 Hd Hf Hn) as H'. rewrite bool_decide_true in H' by done.
    rewrite <- H'. unfold debounced. cbn -[debounce_key]. by rewrite Z.add_0_r.
Qed.

Lemma history_added u l r :
  history (r <| rs_db ::= <[alerts_key u := mk_entry (RList l) (Some (deadline (rs_now r) OCR_ALERT_HISTORY_TTL))]> |>) u = l.
Proof.
  unfold history. cbn -[alerts_key]. rewrite live_insert_eq. unfold expired, deadline. cbn -[Z.mul second].
  destruct (Z.leb_spec (rs_now r + OCR_ALERT_HISTORY_TTL * second) (rs_now r)); [|done].
  unfold OCR_ALERT_HISTORY_TTL, second in *. lia.
Qed.

(** What a check leaves, for its user and for the others. *)
Lemma check_user_run task text u r o fs l ts :
  proper r u →
  ∃ r', check_user task text (lower text) u (mk_mstate r o fs l ts)
    = (Ok tt, mk_mstate r' o fs
         (l ++ if hit r (t_file_id task) text u then [(u, alert_to r task text u)] else [])%list ts) ∧
    rs_now r' = rs_now r ∧
    history r' u = (if hit r (t_file_id task) text u
                    then take 50 (dumps_json (alert_to r task text u) :: history r u) else history r u) ∧
    flagged r (t_file_id task) u r' ∧ proper r' u ∧
    ∀ k, k ≠ debounce_key (t_file_id task) u → k ≠ alerts_key u → rs_db r' !! k = rs_db r !! k.
Proof.
  intros Hu. set (f := t_file_id task). unfold check_user. fold f.
  rewrite (step_ok _ _ _ _ _ (redis_conn_run _ _ _ _ o fs l ts (debounce_run f u r))).
  unfold hit. destruct (debounced r f u) eqn:Hd; cbn [negb andb].
  { exists r. rewrite app_nil_r. split_and!; [done..| |done|done]. unfold flagged. by rewrite Hd. }
  set (r1 := with_debounce f u r). pose proof (with_debounce_agree f u u r) as Hagree.
  destruct (agree_user r r1 u text Hagree) as (Hp & Hh & Hm). specialize (Hp Hu).
  rewrite (step_ok _ _ _ _ _ (redis_conn_run _ _ _ _ o fs l ts (keywords_run r1 u Hp))).
  assert (∀ k, k ≠ debounce_key f u → k ≠ alerts_key u → rs_db r1 !! k = rs_db r !! k) as Hframe
    by (intros k Hk _; by apply lookup_insert_ne).
  destruct (decide (set_map lower (stored_keywords r1 u) = (∅ : gset string))) as [E|E].
  { rewrite bool_decide_true by done. exists r1.
    rewrite bool_decide_true by (rewrite <- Hm; unfold matched; rewrite E; set_solver).
    cbn [negb]. rewrite app_nil_r. split_and!; [done|done|done|by apply with_debounce_flagged|done|done]. }
  rewrite bool_decide_false by done. fold (matched r1 u text). rewrite Hm.
  destruct (decide (matched r u text = ∅)) as [Em|Em].
  { rewrite !bool_decide_true by done. exists r1. cbn [negb]. rewrite app_nil_r.
    split_and!; [done|done|done|by apply with_debounce_flagged|done|done]. }
  rewrite !bool_decide_false by done. cbn [negb].
  rewrite (step_ok (gets (λ s : mstate, rs_now (m_redis s))) _ (mk_mstate r1 o fs l ts) (rs_now r) _ eq_refl).
  rewrite (step_ok _ _ _ _ _ (redis_conn_run _ _ _ _ o fs l ts (add_alert_run r1 u _ Hp))).
  exists (r1 <| rs_db ::= <[alerts_key u :=
      mk_entry (RList (take 50 (dumps_json (alert_to r task text u) :: history r1 u)))
        (Some (deadline (rs_now r1) OCR_ALERT_HISTORY_TTL))]> |>).
  split; [done|]. split; [done|]. split; [|split; [|split]].
  - rewrite history_added, Hh. done.
  - unfold flagged. cbn -[debounce_key alerts_key].
    rewrite lookup_insert_ne by apply not_eq_sym, debounce_alerts. by apply (with_debounce_flagged f u r).
  - destruct Hp as [Hp _]. unfold proper. cbn -[keywords_key alerts_key]. split.
    + rewrite live_insert_ne by apply not_eq_sym, keywords_alerts_ne. exact Hp.
    + rewrite live_insert_eq. by destruct (expired _ _).
  - intros k Hk Ha. cbn -[debounce_key alerts_key]. rewrite lookup_insert_ne by done. by apply Hframe.
Qed.

(** The keys a task writes for these users. *)
Definition touched (f : string) (us : list Z) (k : string) : Prop :=
  ∃ u, u ∈ us ∧ (k = debounce_key f u ∨ k = alerts_key u).
Lemma untouched_agree f us r r' v :
  rs_now r' = rs_now r → (∀ k, ¬ touched f us k → rs_db r' !! k = rs_db r !! k) → v ∉ us →
  agree r r' v ∧ debounced r' f v = debounced r f v ∧
  rs_db r' !! debounce_key f v = rs_db r !! debounce_key f v.
Proof.
  intros Hn Hk Hv. assert (∀ k, (k = keywords_key v ∨ k = alerts_key v ∨ k = debounce_key f v) → rs_db r' !! k = rs_db r !! k) as H'.
  { intros k Hv'. apply Hk. intros (u & Hu & [->| ->]).
    - destruct Hv' as [?|[?|E%debounce_key_inj]]; [by apply (debounce_keywords f u v)|by apply (debounce_alerts f u v)|].
      by subst.
    - destruct Hv' as [E|[E%alerts_key_inj|E%eq_sym]]; [by apply eq_sym, keywords_alerts_ne in E|by subst|].
      by apply debounce_alerts in E. }
  split; [split_and!; [done|apply H'; tauto|apply H'; tauto]|]. split; [|apply H'; tauto].
  unfold debounced. rewrite Hn. by rewrite (live_ext _ _ _ _ (H' (debounce_key f v) ltac:(tauto))).
Qed.

Lemma check_users_run task text o fs ts us : ∀ r l,
  NoDup us → (∀ u, u ∈ us → proper r u) →
  let f := t_file_id task in
  ∃ r', for_each (check_user task text (lower text)) us (mk_mstate r o fs l ts)
    = (Ok tt, mk_mstate r' o fs
         (l ++ ((λ u, (u, alert_to r task text u)) <$> List.filter (hit r f text) us))%list ts) ∧
    rs_now r' = rs_now r ∧
    (∀ u, u ∈ us → history r' u = (if hit r f text u then take 50 (dumps_json (alert_to r task text u) :: history r u)
                                   else history r u) ∧
       flagged r f u r' ∧ proper r' u) ∧
    ∀ k, ¬ touched f us k → rs_db r' !! k = rs_db r !! k.
Proof.
  induction us as [|u us IH]; intros r l Hnd Hp f.
  { exists r. cbn. rewrite app_nil_r. split_and!; [done|done|set_solver|done]. }
  apply NoDup_cons in Hnd as [Hu Hnd].
  destruct (check_user_run task text u r o fs l ts (Hp u ltac:(by left))) as (r1 & E1 & Hn1 & Hh1 & Hd1 & Hp1 & Hk1).
  assert (∀ k, ¬ touched f [u] k → rs_db r1 !! k = rs_db r !! k) as Hk1'.
  { intros k Hk. apply Hk1; intros ->; apply Hk; exists u; (split; [by left|auto]). }
  assert (∀ v, v ∈ us → agree r r1 v ∧ debounced r1 f v = debounced r f v ∧
            rs_db r1 !! debounce_key f v = rs_db r !! debounce_key f v) as Hv.
  { intros v Hv. apply (untouched_agree f [u]); [done|done|]. intros ->%list_elem_of_singleton. done. }
  assert (∀ v, v ∈ us → proper r1 v ∧ history r1 v = history r v ∧ hit r1 f text v = hit r f text v ∧
            alert_to r1 task text v = alert_to r task text v) as Hsame.
  { intros v Hvin. destruct (Hv v Hvin) as (Ha & Hd & _). destruct (agree_user r r1 v text Ha) as (H1 & H2 & H3).
    unfold hit, alert_to. rewrite Hd, H3, Hn1. split_and!; [apply H1, Hp; by right|done..]. }
  match type of E1 with _ = (_, mk_mstate _ _ _ ?l1 _) =>
    destruct (IH r1 l1 Hnd (λ v Hvin, proj1 (Hsame v Hvin))) as (r2 & E2 & Hn2 & Hh2 & Hk2) end.
  exists r2. split; [|split; [congruence|split]].
  - cbn [for_each]. rewrite (bind_ok _ _ _ _ _ E1), E2. do 2 f_equal. rewrite <- app_assoc. f_equal.
    rewrite (filter_ext_in (hit r1 f text) (hit r f text)); [|intros v Hin%list_elem_of_In; by apply Hsame].
    fold f. set (hits := List.filter (hit r f text) us).
    assert ((λ v, (v, alert_to r1 task text v)) <$> hits = (λ v, (v, alert_to r task text v)) <$> hits) as ->.
    { apply list_fmap_ext. intros i v Hin%list_elem_of_lookup_2%list_elem_of_In.
      apply filter_In in Hin as [Hin%list_elem_of_In _]. f_equal. by apply Hsame. }
    cbn [List.filter]. fold hits. by destruct (hit r f text u).
  - intros v [->|Hvin]%elem_of_cons.
    + destruct (untouched_agree f us r1 r2 u Hn2 Hk2 Hu) as (Ha & _ & Hd).
      destruct (agree_user r1 r2 u text Ha) as (Hp2 & -> & _). rewrite Hh1. split; [done|]. split; [|auto].
      unfold flagged. by rewrite Hd.
    + destruct (Hh2 v Hvin) as (-> & Hd2 & Hp2). split; [|split; [|exact Hp2]].
      * subst f. by destruct (Hsame v Hvin) as (_ & -> & -> & ->).
      * subst f. unfold flagged in *. destruct (Hv v Hvin) as (_ & Hd & Hl). by rewrite Hd2, Hd, Hl, Hn1.
  - intros k Hk. rewrite Hk2, Hk1'; [done| |].
    + intros (v & Hvin & Hk'). apply Hk. exists v. set_solver.
    + intros (v & Hvin & Hk'). apply Hk. exists v. set_solver.
Qed.

Lemma process_ocr_run task o fs ts r l :
  (∀ u, u ∈ user_ids_to_check task → proper r u) →
  let us := elements (user_ids_to_check task) in
  let text := extract_text (t_file_path task) in
  let f := t_file_id task in
  ∃ r', process_ocr task (mk_mstate r o fs l ts)
    = (Ok tt, mk_mstate r' o (delete (t_file_path task) fs)
         (l ++ ((λ u, (u, alert_to r task text u)) <$> List.filter (hit r f text) us))%list ts) ∧
    rs_now r' = rs_now r ∧
    (∀ u, u ∈ us → history r' u = (if hit r f text u then take 50 (dumps_json (alert_to r task text u) :: history r u)
                                   else history r u) ∧ flagged r f u r' ∧ proper r' u) ∧
    ∀ k, ¬ touched f us k → rs_db r' !! k = rs_db r !! k.
Proof.
  intros Hp us text f.
  destruct (check_users_run task text o fs ts us r l (NoDup_elements _)) as (r' & E & H').
  { intros u Hu. apply Hp. subst us. set_solver. }
  exists r'. split; [|exact H']. unfold process_ocr. by rewrite (step_ok _ _ _ _ _ E).
Qed.

(** Who is meant: the members of the group; or the chat's users but the uploader; or the uploader. *)
Definition recipient (task : ocr_task) (u : Z) : Prop :=
  match t_group_id task, t_chat_id task with
  | Some g, _ => u ∈ group_members g
  | None, Some c => ∃ u1 u2, chat_users c = Some (u1, u2) ∧ (u = u1 ∨ u = u2) ∧ u ≠ t_uploader_id task
  | None, None => u = t_uploader_id task
  end.
Lemma recipient_iff task u : u ∈ user_ids_to_check task ↔ recipient task u.
Proof.
  unfold user_ids_to_check, recipient. destruct (t_group_id task) as [g|]; [by rewrite elem_of_list_to_set|].
  destruct (t_chat_id task) as [c|]; [|by rewrite elem_of_singleton].
  destruct (chat_users c) as [[u1 u2]|]; [set_solver|]. split; [by intros ?%not_elem_of_empty|by intros (? & ? & ? & _)].
Qed.
Lemma hit_iff r f text u : hit r f text u = true ↔ debounced r f u = false ∧ matched r u text ≠ ∅.
Proof. unfold hit. by rewrite andb_true_iff, !negb_true_iff, bool_decide_eq_false. Qed.

(** Those told by a run, each with the alert. *)
Lemma told_fst {A B} (g : A → B) l : ((λ u, (u, g u)) <$> l).*1 = l.
Proof. rewrite <- list_fmap_compose. cbn. apply list_fmap_id. Qed.
Lemma elem_of_hits task r f text u :
  u ∈ List.filter (hit r f text) (elements (user_ids_to_check task)) ↔
  recipient task u ∧ debounced r f u = false ∧ matched r u text ≠ ∅.
Proof.
  rewrite list_elem_of_In, filter_In, <- list_elem_of_In, elem_of_elements, recipient_iff, hit_iff. tauto.
Qed.

(** Time passes. *)
Definition waited (d : N) (r : rstate) : rstate := r <| rs_now ::= λ t, (t + Z.of_N d)%Z |>.
Lemma proper_waited d r u : proper r u → proper (waited d r) u.
Proof.
  unfold proper, waited. cbn -[keywords_key alerts_key].
  rewrite !(live_later (rs_now r) (rs_now r + Z.of_N d)) by lia.
  intros [Hk Ha]. split; [clear Ha; revert Hk|clear Hk; revert Ha]; (destruct (live _ _ _) as [[[] ?]|]; try done);
    by match goal with |- context [expired ?a ?b] => destruct (expired a b) end.
Qed.

(** C31. Where the keywords and the history of those it is for are a set and a list, the task
    alerts exactly the users that it is for - the members of the group, else the
    users of the chat but the uploader, else the uploader - who have a keyword among the words of
    the text and for whom no debounce flag of this file is live: each of them once, through the
    connection manager and at the head of a history of at most fifty; the others keep their
    history; and the temporary file is removed. The flag lasts five seconds: run again for the same file
    after a delay, the task alerts those it then checked exactly when five seconds have passed and they (still) have
    a keyword among the words. *)
Theorem process_ocr_alerts task r o fs l ts :
  let f := t_file_id task in
  let text := extract_text (t_file_path task) in
  (∀ u, recipient task u → proper r u) →
  ∃ r' told, process_ocr task (mk_mstate r o fs l ts)
    = (Ok tt, mk_mstate r' o (delete (t_file_path task) fs) (l ++ told)%list ts) ∧
    NoDup told.*1 ∧
    (∀ u a, (u, a) ∈ told ↔
       recipient task u ∧ debounced r f u = false ∧ matched r u text ≠ ∅ ∧ a = alert_to r task text u) ∧
    (∀ u, history r' u = if bool_decide (u ∈ told.*1)
                         then take 50 (dumps_json (alert_to r task text u) :: history r u) else history r u) ∧
    ∀ (d : N) o' fs' l' ts', ∃ r'' told',
      process_ocr task (mk_mstate (waited d r') o' fs' l' ts')
      = (Ok tt, mk_mstate r'' o' (delete (t_file_path task) fs') (l' ++ told')%list ts') ∧
      ∀ u, recipient task u → debounced r f u = false →
        (u ∈ told'.*1 ↔ (5 * second ≤ Z.of_N d)%Z ∧ matched (waited d r') u text ≠ ∅).
Proof.
  intros f text Hp. set (users := user_ids_to_check task).
  destruct (process_ocr_run task o fs ts r l) as (r' & E & Hn & Hus & Hk).
  { intros u Hu. by apply Hp, recipient_iff. }
  fold users f text in E, Hus, Hk. set (hits := List.filter (hit r f text) (elements users)) in E.
  assert (∀ u, u ∈ hits ↔ recipient task u ∧ debounced r f u = false ∧ matched r u text ≠ ∅) as Hhits
    by (intros u; apply elem_of_hits).
  eexists r', _. split; [exact E|]. rewrite told_fst. split_and!.
  - by apply NoDup_ListNoDup, List.NoDup_filter, NoDup_ListNoDup, NoDup_elements.
  - intros u a. rewrite list_elem_of_fmap. split.
    + intros (v & [= -> ->] & (? & ? & ?)%Hhits). done.
    + intros (? & ? & ? & ->). exists u. split; [done|]. by apply Hhits.
  - intros u. case_bool_decide as Hu.
    + pose proof Hu as (Hr & Hd & Hm)%Hhits. destruct (Hus u) as [-> _].
      { by apply elem_of_elements, recipient_iff. }
      by rewrite (proj2 (hit_iff r f text u)).
    + destruct (decide (u ∈ elements users)) as [Hin|Hin].
      * destruct (Hus u Hin) as [-> _]. destruct (hit r f text u) eqn:Hhit; [|done].
        destruct Hu. apply list_elem_of_In, filter_In. by rewrite <- list_elem_of_In.
      * destruct (untouched_agree f (elements users) r r' u Hn Hk Hin) as [Ha _].
        by destruct (agree_user r r' u text Ha) as (_ & -> & _).
  - intros d o' fs' l' ts'. destruct (process_ocr_run task o' fs' ts' (waited d r') l') as (r'' & E'' & _).
    { intros u Hu%elem_of_elements. destruct (Hus u Hu) as (_ & _ & ?). by apply proper_waited. }
    eexists r'', _. split; [exact E''|]. intros u Hr Hd. rewrite told_fst, elem_of_hits. fold f text.
    destruct (Hus u) as (_ & Hf & _); [by apply elem_of_elements, recipient_iff|].
    unfold waited at 1. rewrite (flagged_lasts r f u r' d Hd Hf Hn), bool_decide_eq_false. intuition lia.
Qed.

(** ** What an upload leaves *)

(** As the file is, every upload is refused: the name [io] is not bound. *)
Lemma upload_without_io fresh name content chat_id group_id u s :
  io_imported = false →
  upload_media fresh (Some name) content chat_id group_id u s
  = (Err (HTTPException 500 "Failed to upload file to MinIO: name 'io' is not defined"), s).
Proof. intros Hio. unfold upload_media, try_except. cbn. by rewrite Hio. Qed.

(** An upload happens as a whole or not at all: when it is refused - the name [io] is missing,
    MinIO or the disk fails - it answers 500 and nothing of it remains; when it is accepted, the
    object is stored under a new name with the extension of the file, one task is scheduled, and
    once that has run the object is still there, the temporary file is gone and only users of
    that task have been told anything. *)
Theorem upload_atomic fresh name content chat_id group_id u s :
  let object_name := uuid_str fresh ++ extension name in
  let task := mk_ocr_task (uuid_str fresh) name ("/tmp/" ++ object_name) u chat_id group_id in
  m_objects s !! object_name = None → m_files s !! ("/tmp/" ++ object_name) = None →
  (∀ v, v ∈ user_ids_to_check task → proper (m_redis s) v) →
  match upload_media fresh (Some name) content chat_id group_id u s with
  | (Err e, s1) => (∃ detail, e = HTTPException 500 detail) ∧ s1 = s
  | (Ok _, s1) =>
      m_objects s1 = <[object_name := content]> (m_objects s) ∧ m_sent s1 = m_sent s ∧
      m_tasks s1 = (m_tasks s ++ [task])%list ∧
      ∃ s2, process_ocr task s1 = (Ok tt, s2) ∧ m_objects s2 = m_objects s1 ∧ m_files s2 = m_files s ∧
        ∃ told, m_sent s2 = (m_sent s ++ told)%list ∧ ∀ v a, (v, a) ∈ told → v ∈ user_ids_to_check task
  end.
Proof.
  intros object_name task Ho Hf Hp. destruct s as [r o fs l ts]. cbn [m_redis m_objects m_files m_sent m_tasks] in *.
  assert (upload_media fresh (Some name) content chat_id group_id u (mk_mstate r o fs l ts)
    = if negb io_imported then (Err (HTTPException 500 ("Failed to upload file to MinIO: " ++ str_of_exn (NameError "io"))), mk_mstate r o fs l ts)
      else if minio_fails object_name then (Err (HTTPException 500 ("Failed to upload file to MinIO: " ++ "put_object")), mk_mstate r o fs l ts)
      else if disk_fails ("/tmp/" ++ object_name) then (Err (HTTPException 500 ("Failed to create temporary file: " ++ "write")), mk_mstate r (delete object_name (<[object_name := content]> o)) fs l ts)
      else (Ok (JObj [("file_id", JStr (uuid_str fresh)); ("object_name", JStr object_name);
              ("message", JStr "File uploaded successfully. OCR processing started.")]),
            mk_mstate r (<[object_name := content]> o) (<["/tmp/" ++ object_name := content]> fs) l (ts ++ [task])%list)) as ->.
  { unfold upload_media. rewrite some_step. fold object_name.
    by destruct io_imported, (minio_fails object_name), (disk_fails ("/tmp/" ++ object_name)). }
  destruct io_imported; cbn [negb]; [|by eauto]. destruct (minio_fails object_name); [by eauto|].
  destruct (disk_fails _).
  { split; [by eauto|]. by rewrite delete_insert_id. }
  cbn [m_objects m_sent m_tasks m_files m_redis]. split_and!; [done..|].
  destruct (process_ocr_run task (<[object_name := content]> o) (<["/tmp/" ++ object_name := content]> fs)
              (ts ++ [task])%list r l Hp) as (r' & E & _).
  eexists. split; [exact E|]. cbn [m_objects m_sent m_files]. split; [done|]. split; [by apply delete_insert_id|].
  eexists. split; [done|]. intros v a (v' & [= -> ->] & Hv)%list_elem_of_fmap.
  apply list_elem_of_In, filter_In in Hv as [Hv%list_elem_of_In _]. by apply elem_of_elements.
Qed.
End Media.

(** ** Applied *)

Module Office.
(** A group 3 of users 7, 8 and 9; [io] is imported or not. *)
Definition outside (io : bool) : Outside := {|
  io_imported := io;
  minio_fails _ := false;
  disk_fails _ := false;
  group_members g := if (g =? 3)%Z then [7; 8; 9]%Z else [];
  chat_users _ := None;
  first_of m := default "" (head (elements m));
  isoformat _ := "2026-01-01T00:00:00"
|}.
Definition redis0 : rstate :=
  mk_rstate 0 {[keywords_key 7 := mk_entry (RSet {["URGENT"]}) None; keywords_key 8 := mk_entry (RSet {["calm"]}) None]}.
Definition state0 : mstate := mk_mstate redis0 ∅ ∅ [] [].
Lemma all_proper u : proper redis0 u.
Proof.
  split.
  - cbn. unfold live. cbn. destruct (_ !! keywords_key u) as [e|] eqn:E; [|done].
    apply lookup_insert_Some in E as [[_ <-]|[_ [_ <-]%lookup_singleton_Some]]; done.
  - cbn. unfold live. cbn.
    rewrite lookup_insert_ne, lookup_singleton_ne by apply keywords_alerts_ne. done.
Qed.
Definition task : ocr_task := mk_ocr_task "f" "a.pdf" "/tmp/f.pdf" 7 None (Some 3)%Z.
End Office.

Lemma snippet_spec_witness :
  (String.length (snippet_of "The URGENT report of the day before yesterday" "the urgent report of the day before yesterday" "urgent")
   ≤ 46)%nat.
Proof.
  exact (proj2 (snippet_spec "The URGENT report of the day before yesterday" "urgent" eq_refl)).
Defined.

Lemma process_ocr_alerts_witness :
  ∃ r' told, process_ocr (H := Office.outside false) Office.task Office.state0
      = (Ok tt, mk_mstate r' ∅ ∅ told []) ∧ 7%Z ∈ told.*1 ∧
    ∃ r'' told', process_ocr (H := Office.outside false) Office.task
        (mk_mstate (waited 4999999 r') ∅ ∅ [] []) = (Ok tt, mk_mstate r'' ∅ ∅ told' []) ∧ 7%Z ∉ told'.*1.
Proof.
  destruct (process_ocr_alerts (H := Office.outside false) Office.task Office.redis0 ∅ ∅ [] [] (λ u _, Office.all_proper u))
    as (r' & told & E & _ & Htold & _ & Hagain).
  exists r', told. rewrite delete_empty in E. split; [exact E|].
  assert (recipient (H := Office.outside false) Office.task 7) as Hr by (apply list_elem_of_here).
  assert (debounced Office.redis0 "f" 7 = false) as Hd by (vm_compute; reflexivity).
  split.
  - apply list_elem_of_fmap. eexists (_, _). split; [reflexivity|]. apply Htold.
    split; [exact Hr|]. split; [exact Hd|]. split; [|reflexivity].
    apply (bool_decide_unpack _). vm_compute. reflexivity.
  - destruct (Hagain 4999999%N ∅ ∅ [] []) as (r'' & told' & E'' & Ht). exists r'', told'.
    rewrite delete_empty in E''. split; [exact E''|]. intros [Hc _]%(Ht 7%Z Hr Hd). clear -Hc. apply Z.leb_le in Hc. discriminate Hc.
Defined.

Lemma upload_atomic_witness :
  ∃ a s1, upload_media (H := Office.outside true) (uid 1) (Some "a.b/c.tar.gz") "data" None (Some 3)%Z 7 Office.state0
          = (Ok a, s1) ∧ m_objects s1 = {[uuid_str (uid 1) ++ ".gz" := "data"]}.
Proof.
  pose proof (upload_atomic (H := Office.outside true) (uid 1) "a.b/c.tar.gz" "data" None (Some 3)%Z 7 Office.state0
                eq_refl eq_refl (λ v _, Office.all_proper v)) as H.
  destruct (upload_media _ _ _ _ _ _ _) as [[a|e] s1] eqn:E.
  - exists a, s1. split; [reflexivity|exact (proj1 H)].
  - vm_compute in E. discriminate E.
Defined.
