(* ===== verification/Hub.v ===== *)
(** The second backend ([backend/app/]): the rows of the channel, community and creator
    tables ([backend/app/models/]), the database they live in, and its session.

    Primary keys are integers. [updated_at] has no field, and a float column is a
    rational. Some columns can be [NULL] because nothing forbids it and a request can say
    so: [is_verified]. *)

From S2P Require Import Prelude Effects PyStr Models Schemas World.
From Stdlib Require Import String QArith.

Local Open Scope string_scope.

(** ** Channels ([models/channel.py]) *)

Inductive ChannelType := PUBLIC | PRIVATE.
Definition ChannelType_value (t : ChannelType) : string :=
  match t with PUBLIC => "public" | PRIVATE => "private" end.
#[export] Instance ChannelType_eq_dec : EqDecision ChannelType.
Proof. solve_decision. Defined.

Record Channel := mk_Channel {
  ch_id : Z;
  ch_name : string;
  ch_description : option string;
  ch_type : ChannelType;
  ch_owner_id : Z;
  ch_created_at : timestamp;
  ch_is_verified : option bool;
  ch_category : option string;
  ch_subscriber_count : Z
}.
#[export] Instance eta_Channel : Eta Channel := λ c,
  mk_Channel (ch_id c) (ch_name c) (ch_description c) (ch_type c) (ch_owner_id c)
    (ch_created_at c) (ch_is_verified c) (ch_category c) (ch_subscriber_count c).

Record ChannelPost := mk_ChannelPost {
  cp_id : Z;
  cp_channel_id : Z;
  cp_author_id : Z;
  cp_content : string;
  cp_media_key : option string;
  cp_mime_type : option string;
  cp_created_at : timestamp;
  cp_scheduled_at : option timestamp;
  cp_is_scheduled : bool;
  cp_view_count : Z
}.

Record ChannelSubscription := mk_ChannelSubscription {
  cs_id : Z;
  cs_channel_id : Z;
  cs_user_id : Z;
  cs_subscribed_at : timestamp;
  cs_is_active : bool;
  cs_subscription_plan_id : option Z
}.

Record ChannelAnalytics := mk_ChannelAnalytics {
  ca_id : Z;
  ca_channel_id : Z;
  ca_date : timestamp;
  ca_new_subscribers : Z;
  ca_total_views : Z;
  ca_total_posts : Z;
  ca_engagement_rate : Q
}.

(** ** Communities ([models/community.py]) *)

Inductive CommunityRole := COWNER | CADMIN | CMODERATOR | CMEMBER.
Definition CommunityRole_value (r : CommunityRole) : string :=
  match r with
  | COWNER => "owner" | CADMIN => "admin" | CMODERATOR => "moderator" | CMEMBER => "member"
  end.
#[export] Instance CommunityRole_eq_dec : EqDecision CommunityRole.
Proof. solve_decision. Defined.

Record Community := mk_Community {
  cm_id : Z;
  cm_name : string;
  cm_description : option string;
  cm_owner_id : Z;
  cm_created_at : timestamp;
  cm_is_verified : option bool;
  cm_category : option string;
  cm_member_count : Z
}.
#[export] Instance eta_Community : Eta Community := λ c,
  mk_Community (cm_id c) (cm_name c) (cm_description c) (cm_owner_id c) (cm_created_at c)
    (cm_is_verified c) (cm_category c) (cm_member_count c).

Record CommunityMember := mk_CommunityMember {
  cmm_id : Z;
  cmm_community_id : Z;
  cmm_user_id : Z;
  cmm_role : CommunityRole;
  cmm_joined_at : timestamp
}.

Record CommunityPermission := mk_CommunityPermission {
  pm_id : Z;
  pm_community_id : Z;
  pm_role : CommunityRole;
  pm_can_post : bool;
  pm_can_comment : bool;
  pm_can_delete_own_posts : bool;
  pm_can_delete_any_posts : bool;
  pm_can_mute_members : bool;
  pm_can_ban_members : bool;
  pm_can_invite_members : bool;
  pm_can_change_settings : bool
}.

Record CommunityEvent := mk_CommunityEvent {
  ev_id : Z;
  ev_community_id : Z;
  ev_title : string;
  ev_description : option string;
  ev_start_time : timestamp;
  ev_end_time : option timestamp;
  ev_location : option string;
  ev_created_by : Z;
  ev_created_at : timestamp
}.

Record CommunityEventRSVP := mk_CommunityEventRSVP {
  rv_id : Z;
  rv_event_id : Z;
  rv_user_id : Z;
  rv_response : string;
  rv_responded_at : timestamp
}.

Record CommunityResource := mk_CommunityResource {
  rs_id : Z;
  rs_community_id : Z;
  rs_title : string;
  rs_url : option string;
  rs_resource_type : option string;
  rs_created_by : Z;
  rs_created_at : timestamp
}.

(** ** The database *)

(** The tables by primary key; of the users and the subscription plans, which no handler
    here changes, the keys. *)
Record hub_tables := mk_hub_tables {
  h_users : gset Z;
  h_plans : gset Z;
  channels : gmap Z Channel;
  channel_posts : gmap Z ChannelPost;
  channel_subscriptions : gmap Z ChannelSubscription;
  channel_analytics : gmap Z ChannelAnalytics;
  communities : gmap Z Community;
  community_members : gmap Z CommunityMember;
  community_permissions : gmap Z CommunityPermission;
  community_events : gmap Z CommunityEvent;
  community_event_rsvps : gmap Z CommunityEventRSVP;
  community_resources : gmap Z CommunityResource
}.
#[export] Instance eta_hub_tables : Eta hub_tables := λ t,
  mk_hub_tables (h_users t) (h_plans t) (channels t) (channel_posts t) (channel_subscriptions t)
    (channel_analytics t) (communities t) (community_members t) (community_permissions t)
    (community_events t) (community_event_rsvps t) (community_resources t).

Record hub := mk_hub {
  h_now : timestamp;
  h_tables : hub_tables;      (* as the open session sees them *)
  h_committed : hub_tables    (* as of the last COMMIT *)
}.
#[export] Instance eta_hub : Eta hub := λ h, mk_hub (h_now h) (h_tables h) (h_committed h).

(** [db.query(...)], a change to mapped objects with its flush, [db.commit()]. *)
Definition hquery {A} (f : hub_tables → A) : prog hub A := gets (λ h, f (h_tables h)).
Definition hchange (f : hub_tables → hub_tables) : prog hub unit :=
  modify (λ h, h <| h_tables ::= f |>).
Definition hcommit : prog hub unit := modify (λ h, h <| h_committed := h_tables h |>).
Definition hnow : prog hub timestamp := gets h_now.

(** A request: its session starts from what is committed, and closing it drops what the
    handler did not commit. *)
Definition request {A} (handler : prog hub A) : prog hub A :=
  modify (λ h, h <| h_tables := h_committed h |>) ;;
  try_finally handler (modify (λ h, h <| h_tables := h_committed h |>)).

(** The rows of a table but those that refer to [k]. *)
Definition without {A} (ref : A → Z) (k : Z) (t : gmap Z A) : gmap Z A :=
  filter (λ kv, ref kv.2 ≠ k) t.

(** [query.offset(skip).limit(limit).all()]: PostgreSQL refuses negative numbers. Without
    [ORDER BY] no order is fixed; the model's is that of the map. *)
Definition page {A} (skip limit : Z) (f : hub_tables → list A) : prog hub (list A) :=
  ensure ((0 <=? skip)%Z && (0 <=? limit)%Z) (ValueError "OFFSET and LIMIT must not be negative") ;;
  rows ← hquery f;
  mret (take (Z.to_nat limit) (skipn (Z.to_nat skip) rows)).

(** ** Facts *)

Section Steps.
Context {B : Type}.
Implicit Types h : hub.
Lemma hquery_step {A} (f : hub_tables → A) (k : A → prog hub B) h :
  (hquery f ≫= k) h = k (f (h_tables h)) h.
Proof. done. Qed.
Lemma hnow_step (k : timestamp → prog hub B) h : (hnow ≫= k) h = k (h_now h) h.
Proof. done. Qed.
Lemma hchange_step f (k : unit → prog hub B) h :
  (hchange f ≫= k) h = k tt (h <| h_tables ::= f |>).
Proof. done. Qed.
Lemma hcommit_step (k : unit → prog hub B) h :
  (hcommit ≫= k) h = k tt (h <| h_committed := h_tables h |>).
Proof. done. Qed.
End Steps.

Lemma hquery_inv {A} (f : hub_tables → A) h a h' :
  hquery f h = (Ok a, h') → a = f (h_tables h) ∧ h' = h.
Proof. by intros [= <- <-]. Qed.
Lemma hnow_inv h t h' : hnow h = (Ok t, h') → t = h_now h ∧ h' = h.
Proof. by intros [= <- <-]. Qed.
Lemma hchange_inv f h u h' : hchange f h = (Ok u, h') → h' = h <| h_tables ::= f |>.
Proof. by intros [= _ <-]. Qed.
Lemma hcommit_inv h u h' : hcommit h = (Ok u, h') → h' = h <| h_committed := h_tables h |>.
Proof. by intros [= _ <-]. Qed.

(** Invert a successful handler: the monad's statements, then the session's. *)
Ltac invert_hub :=
  repeat match goal with
  | H : hquery _ _ = (Ok _, _) |- _ =>
      apply hquery_inv in H as [H ->];
      try (lazymatch type of H with ?a = _ => is_var a; subst a end)
  | H : hnow _ = (Ok _, _) |- _ => apply hnow_inv in H as [-> ->]
  | H : hchange _ _ = (Ok _, _) |- _ => apply hchange_inv in H as ->
  | H : hcommit _ = (Ok _, _) |- _ => apply hcommit_inv in H as ->
  | H : lift _ _ = (Ok _, _) |- _ => apply lift_ok_inv in H as [H ->]
  end.

(** A request's outcome. *)
Lemma request_run {A} (handler : prog hub A) h :
  request handler h =
  let '(r, h1) := handler (h <| h_tables := h_committed h |>) in
  (r, h1 <| h_tables := h_committed h1 |>).
Proof.
  unfold request. rewrite (step_ok _ _ h tt (h <| h_tables := h_committed h |>)) by done.
  unfold try_finally. by destruct (handler _).
Qed.

Lemma lookup_without {A} (ref : A → Z) k (t : gmap Z A) i x :
  without ref k t !! i = Some x ↔ t !! i = Some x ∧ ref x ≠ k.
Proof. unfold without. by rewrite map_lookup_filter_Some. Qed.

Lemma select_without {A} (ref : A → Z) k (t : gmap Z A) p :
  select (without ref k t) p ≡ₚ select t (λ x, p x && bool_decide (ref x ≠ k)).
Proof.
  induction t as [|i x t Hi IH] using map_ind; [done|].
  rewrite (select_insert t _ i x Hi). cbn beta. unfold without.
  destruct (decide (ref x = k)) as [Hx|Hx].
  - rewrite map_filter_insert_False, delete_id by (done || cbn; tauto). fold (without ref k t).
    rewrite bool_decide_eq_false_2 by tauto. by rewrite andb_false_r.
  - rewrite map_filter_insert_True by done. fold (without ref k t). rewrite select_insert.
    + rewrite bool_decide_eq_true_2, andb_true_r by done. destruct (p x); [by constructor|done].
    + apply eq_None_not_Some. intros [y [Hy _]%lookup_without]. congruence.
Qed.

(** A handler that ends in the same tables, or in tables a step relation allows. *)
Definition advances (step : hub_tables → hub_tables → Prop) (h h' : hub) : Prop :=
  h_committed h' = h_committed h ∨ step (h_committed h) (h_committed h').

(** What a handler does, statement by statement. *)
Section Advancing.
Context (step : hub_tables → hub_tables → Prop) (h : hub) (Ht : h_tables h = h_committed h).

Definition steps {A} (handler : prog hub A) : Prop := advances step h (handler h).2.

Lemma steps_ignore {A} (handler : prog hub A) : steps handler → steps (handler ;; mret tt).
Proof. unfold steps, mbind, prog_bind, bind. by destruct (handler h) as [[]]. Qed.

Lemma steps_lift {A B} (r : res A) (f : A → prog hub B) :
  (∀ a, r = Ok a → steps (f a)) → steps (lift r ≫= f).
Proof.
  intros Hf. unfold steps. destruct r as [a|e]; [|by left].
  cbn [lift]. rewrite (step_ok _ _ h a h) by done. by apply Hf.
Qed.

Lemma steps_ensure {A} b e (f : unit → prog hub A) :
  (b = true → steps (f tt)) → steps (ensure b e ≫= f).
Proof. intros Hf. unfold steps. destruct b; [by apply Hf|by left]. Qed.

Lemma steps_some {A B} (o : option A) e (f : A → prog hub B) :
  (∀ a, o = Some a → steps (f a)) → steps (some_or_raise o e ≫= f).
Proof. intros Hf. unfold steps. destruct o; [by apply Hf|by left]. Qed.

Lemma steps_query {A B} (q : hub_tables → A) (f : A → prog hub B) :
  steps (f (q (h_committed h))) → steps (hquery q ≫= f).
Proof. unfold steps. by rewrite hquery_step, Ht. Qed.

Lemma steps_now {B} (f : timestamp → prog hub B) : steps (f (h_now h)) → steps (hnow ≫= f).
Proof. unfold steps. by rewrite hnow_step. Qed.

Lemma steps_assoc {A B C} (m : prog hub A) (f : A → prog hub B) (k : B → prog hub C) :
  steps (m ≫= λ a, f a ≫= k) → steps ((m ≫= f) ≫= k).
Proof. unfold steps. by rewrite step_assoc. Qed.

Lemma steps_read {A} (m : prog hub A) : (m h).2 = h → steps m.
Proof. unfold steps. intros ->. by left. Qed.

Lemma steps_page {A B} skip limit (f : hub_tables → list A) (k : list A → prog hub B) :
  (∀ l, (k l h).2 = h) → steps (page skip limit f ≫= k).
Proof.
  intros Hk. unfold page. apply steps_assoc, steps_ensure. intros _. apply steps_assoc, steps_query.
  apply steps_read. rewrite mret_step. apply Hk.
Qed.

(** The last statements of a handler: a change, and [commit]. *)
Lemma steps_change {A} g (f : unit → prog hub A) :
  (∀ h', (f tt h').2 = h') → step (h_committed h) (g (h_committed h)) →
  steps (hchange g ≫= λ _, hcommit ≫= f).
Proof.
  intros Hf Hs. unfold steps. rewrite hchange_step, hcommit_step, Hf. right. cbn. by rewrite Ht.
Qed.

Lemma steps_change2 {A} g1 g2 (f : unit → prog hub A) :
  (∀ h', (f tt h').2 = h') → step (h_committed h) (g2 (g1 (h_committed h))) →
  steps (hchange g1 ≫= λ _, hchange g2 ≫= λ _, hcommit ≫= f).
Proof.
  intros Hf Hs. unfold steps. rewrite !hchange_step, hcommit_step, Hf. right. cbn. by rewrite Ht.
Qed.
End Advancing.

Lemma map_each_lift_state {S A B} (f : A → res B) (l : list A) (s : S) :
  (map_each (λ x, lift (f x)) l s).2 = s.
Proof.
  induction l as [|x l IH]; [done|]. cbn [map_each]. unfold bind, lift in *.
  destruct (f x); [|done]. by destruct (map_each _ l s) as [[] ?].
Qed.

(** A sequence of requests: one that fails does not stop the next. *)
Definition run_requests {Op} (run_op : Op → prog hub unit) (ops : list Op) (h : hub) : hub :=
  foldl (λ h op, (request (run_op op) h).2) h ops.

(** What every step preserves, every sequence of requests preserves. *)
Lemma run_requests_invariant {Op} (run_op : Op → prog hub unit) (step : hub_tables → hub_tables → Prop)
    (P : hub_tables → Prop) :
  (∀ op h, P (h_committed h) → h_tables h = h_committed h → advances step h (run_op op h).2) →
  (∀ t t', P t → step t t' → P t') →
  ∀ ops h, P (h_committed h) → P (h_committed (run_requests run_op ops h)).
Proof.
  intros Hop Hstep. induction ops as [|op ops IH]; intros h HP; [done|]. cbn. apply IH.
  rewrite request_run. set (h0 := h <| h_tables := h_committed h |>).
  pose proof (Hop op h0 HP ltac:(reflexivity)) as Ha.
  destruct (run_op op h0) as [r h1]. destruct Ha as [E|Hs]; cbn in *; [by rewrite E|].
  exact (Hstep _ _ HP Hs).
Qed.

(** A row that was there is still there after an insertion; a row found after an insertion
    is the new one or was there. *)
Ltac still_there Hwf :=
  intros ? ? ?; apply lookup_insert_is_Some'; right; by eapply Hwf.
Ltac by_cases_on := cbn; intros ? ? [[<- <-]|[? ?]]%lookup_insert_Some.
