(* ===== verification/Channels.v ===== *)
(** [backend/app/api/routes/channels.py] with [backend/app/schemas/channel.py]: channels,
    their posts, subscriptions and analytics. ([backend/app/models/channel.py] has a
    syntax error in its second line; the model is the file with the [import] that is
    meant.) *)

From S2P Require Import Prelude Effects PyStr Models Schemas World Hub.
From Stdlib Require Import String QArith.

Local Open Scope string_scope.

(** ** Schemas *)

Record ChannelCreate := mk_ChannelCreate {
  cc_name : string;
  cc_description : option string;
  cc_type : ChannelType;
  cc_category : option string
}.
Definition max_length (n : nat) (s : option string) : bool :=
  match s with Some s => length_between 0 n s | None => true end.
Definition validate_ChannelCreate (b : ChannelCreate) : res ChannelCreate :=
  if length_between 0 100 (cc_name b) && max_length 50 (cc_category b)
  then Ok b else Err (HTTPException 422 "ChannelCreate").

(** A field of [ChannelUpdate]: unset, or set - to [null] or to a value. *)
Abbreviation field A := (option (option A)) (only parsing).
Record ChannelUpdate := mk_ChannelUpdate {
  up_name : field string;
  up_description : field string;
  up_type : field ChannelType;
  up_category : field string;
  up_is_verified : field bool
}.
Definition validate_ChannelUpdate (b : ChannelUpdate) : res ChannelUpdate :=
  if max_length 100 (default None (up_name b)) && max_length 50 (default None (up_category b))
  then Ok b else Err (HTTPException 422 "ChannelUpdate").

Record ChannelResponse := mk_ChannelResponse {
  cr_id : Z;
  cr_name : string;
  cr_description : option string;
  cr_type : ChannelType;
  cr_category : option string;
  cr_owner_id : Z;
  cr_created_at : timestamp;
  cr_is_verified : bool;
  cr_subscriber_count : Z
}.
(** [response_model=ChannelResponse]: [is_verified] has to be a boolean. *)
Definition ChannelResponse_of (c : Channel) : res ChannelResponse :=
  match ch_is_verified c with
  | Some v => Ok (mk_ChannelResponse (ch_id c) (ch_name c) (ch_description c) (ch_type c)
                    (ch_category c) (ch_owner_id c) (ch_created_at c) v (ch_subscriber_count c))
  | None => Err (ResponseValidationError "is_verified")
  end.

Record ChannelPostCreate := mk_ChannelPostCreate {
  pc_content : string;
  pc_media_key : option string;
  pc_mime_type : option string;
  pc_scheduled_at : option timestamp;
  pc_is_scheduled : bool
}.

(** ** Channels *)

(** [db.query(Channel).filter(Channel.id == channel_id).first()], and 404 *)
Definition channel_or_404 (channel_id : Z) : prog hub Channel :=
  channel ← hquery (λ t, channels t !! channel_id);
  some_or_raise channel (HTTPException 404 "Channel not found").

Definition put_channel (c : Channel) : prog hub unit :=
  hchange (λ t, t <| channels ::= <[ch_id c := c]> |>).

(** [create_channel]; [cid] is the fresh primary key, as in every handler that adds a row. *)
Definition create_channel (cid : Z) (channel_in : ChannelCreate) (current_user : Z)
    : prog hub ChannelResponse :=
  channel_in ← lift (validate_ChannelCreate channel_in);
  now ← hnow;
  t ← hquery id;
  ensure (bool_decide (channels t !! cid = None) && bool_decide (current_user ∈ h_users t))
    (IntegrityError "channels") ;;
  let channel := mk_Channel cid (cc_name channel_in) (cc_description channel_in)
                   (cc_type channel_in) current_user now (Some false) (cc_category channel_in) 0 in
  put_channel channel ;;
  hcommit ;;
  lift (ChannelResponse_of channel).

(** [read_channels] *)
Definition read_channels (skip limit : Z) : prog hub (list ChannelResponse) :=
  channels ← page skip limit (λ t, rows (channels t));
  map_each (λ c, lift (ChannelResponse_of c)) channels.

(** [read_channel] *)
Definition read_channel (channel_id : Z) : prog hub ChannelResponse :=
  channel ← channel_or_404 channel_id;
  lift (ChannelResponse_of channel).

(** [for field, value in channel_in.dict(exclude_unset=True).items(): setattr(...)] with the
    flush: [name] and [type] are [NOT NULL]. *)
Definition apply_update (b : ChannelUpdate) (c : Channel) : res Channel :=
  match default (Some (ch_name c)) (up_name b), default (Some (ch_type c)) (up_type b) with
  | Some name, Some type =>
      Ok (c <| ch_name := name |> <| ch_type := type |>
            <| ch_description ::= λ d, default d (up_description b) |>
            <| ch_category ::= λ d, default d (up_category b) |>
            <| ch_is_verified ::= λ d, default d (up_is_verified b) |>)
  | None, _ => Err (IntegrityError "channels.name")
  | _, None => Err (IntegrityError "channels.type")
  end.

(** [update_channel] *)
Definition update_channel (channel_id : Z) (channel_in : ChannelUpdate) (current_user : Z)
    : prog hub ChannelResponse :=
  channel_in ← lift (validate_ChannelUpdate channel_in);
  channel ← channel_or_404 channel_id;
  ensure (bool_decide (ch_owner_id channel = current_user))
    (HTTPException 403 "Not enough permissions") ;;
  channel ← lift (apply_update channel_in channel);
  put_channel channel ;;
  hcommit ;;
  lift (ChannelResponse_of channel).

(** [db.delete(channel)] with its flush: posts and subscriptions are deleted with it
    ([delete-orphan]); of the analytics the ORM sets [channel_id] to [NULL], which the column
    forbids. *)
Definition db_delete_channel (channel_id : Z) : prog hub unit :=
  t ← hquery id;
  ensure (bool_decide (select (channel_analytics t) (λ a, bool_decide (ca_channel_id a = channel_id)) = []))
    (IntegrityError "channel_analytics.channel_id") ;;
  hchange (λ t, t <| channels ::= delete channel_id |>
                  <| channel_posts ::= without cp_channel_id channel_id |>
                  <| channel_subscriptions ::= without cs_channel_id channel_id |>).

(** [delete_channel] *)
Definition delete_channel (channel_id current_user : Z) : prog hub ChannelResponse :=
  channel ← channel_or_404 channel_id;
  ensure (bool_decide (ch_owner_id channel = current_user))
    (HTTPException 403 "Not enough permissions") ;;
  db_delete_channel channel_id ;;
  hcommit ;;
  lift (ChannelResponse_of channel).

(** ** Posts *)

(** [create_channel_post]; PostgreSQL refuses a key or a type longer than its column. *)
Definition create_channel_post (pid channel_id : Z) (post_in : ChannelPostCreate)
    (current_user : Z) : prog hub ChannelPost :=
  channel_or_404 channel_id ;;
  now ← hnow;
  t ← hquery id;
  ensure (max_length 255 (pc_media_key post_in) && max_length 100 (pc_mime_type post_in))
    (ValueError "value too long for its column") ;;
  ensure (bool_decide (channel_posts t !! pid = None) && bool_decide (current_user ∈ h_users t))
    (IntegrityError "channel_posts") ;;
  let post := mk_ChannelPost pid channel_id current_user (pc_content post_in)
    (pc_media_key post_in) (pc_mime_type post_in) now (pc_scheduled_at post_in)
    (match pc_scheduled_at post_in with Some _ => pc_is_scheduled post_in | None => false end) 0 in
  hchange (λ t, t <| channel_posts ::= <[pid := post]> |>) ;;
  hcommit ;;
  mret post.

(** [read_channel_posts] *)
Definition read_channel_posts (channel_id skip limit : Z) : prog hub (list ChannelPost) :=
  channel_or_404 channel_id ;;
  page skip limit (λ t, select (channel_posts t) (λ p, bool_decide (cp_channel_id p = channel_id))).

(** ** Subscriptions *)

Definition subscribed (channel_id user_id : Z) (s : ChannelSubscription) : bool :=
  bool_decide (cs_channel_id s = channel_id) && bool_decide (cs_user_id s = user_id).
Definition subscription_of (channel_id user_id : Z) (t : hub_tables) : option ChannelSubscription :=
  scalar (channel_subscriptions t) (subscribed channel_id user_id).

(** [subscribe_to_channel] *)
Definition subscribe_to_channel (sid channel_id : Z) (plan : option Z) (current_user : Z)
    : prog hub ChannelSubscription :=
  channel ← channel_or_404 channel_id;
  existing ← hquery (subscription_of channel_id current_user);
  ensure (bool_decide (existing = None)) (HTTPException 400 "Already subscribed to this channel") ;;
  now ← hnow;
  t ← hquery id;
  ensure (bool_decide (channel_subscriptions t !! sid = None)
          && bool_decide (current_user ∈ h_users t)
          && match plan with Some p => bool_decide (p ∈ h_plans t) | None => true end)
    (IntegrityError "channel_subscriptions") ;;
  let subscription := mk_ChannelSubscription sid channel_id current_user now true plan in
  hchange (λ t, t <| channel_subscriptions ::= <[sid := subscription]> |>) ;;
  put_channel (channel <| ch_subscriber_count ::= λ n, (n + 1)%Z |>) ;;
  hcommit ;;
  mret subscription.

(** [unsubscribe_from_channel] *)
Definition unsubscribe_from_channel (channel_id current_user : Z) : prog hub unit :=
  channel ← channel_or_404 channel_id;
  subscription ← hquery (subscription_of channel_id current_user);
  subscription ← some_or_raise subscription (HTTPException 400 "Not subscribed to this channel");
  hchange (λ t, t <| channel_subscriptions ::= delete (cs_id subscription) |>) ;;
  put_channel (channel <| ch_subscriber_count ::= λ n, (n - 1)%Z |>) ;;
  hcommit.

(** ** Analytics *)

(** [read_channel_analytics]: the latest record, or a new empty one. *)
Definition read_channel_analytics (aid channel_id : Z) : prog hub ChannelAnalytics :=
  channel_or_404 channel_id ;;
  analytics ← hquery (λ t, head (order_by_desc ca_date
    (select (channel_analytics t) (λ a, bool_decide (ca_channel_id a = channel_id)))));
  match analytics with
  | Some a => mret a
  | None =>
      now ← hnow;
      t ← hquery id;
      ensure (bool_decide (channel_analytics t !! aid = None)) (IntegrityError "channel_analytics") ;;
      let a := mk_ChannelAnalytics aid channel_id now 0 0 0 0 in
      hchange (λ t, t <| channel_analytics ::= <[aid := a]> |>) ;;
      hcommit ;;
      mret a
  end.

(** ** The handlers as steps of the committed tables *)

Definition analytics_of (k : Z) (a : ChannelAnalytics) : bool := bool_decide (ca_channel_id a = k).

Inductive channel_step (t : hub_tables) : hub_tables → Prop :=
| step_create c :
    channels t !! ch_id c = None → ch_subscriber_count c = 0%Z →
    channel_step t (t <| channels ::= <[ch_id c := c]> |>)
| step_update c c0 :
    channels t !! ch_id c = Some c0 → ch_subscriber_count c = ch_subscriber_count c0 →
    channel_step t (t <| channels ::= <[ch_id c := c]> |>)
| step_delete k :
    select (channel_analytics t) (analytics_of k) = [] →
    channel_step t (t <| channels ::= delete k |>
                      <| channel_posts ::= without cp_channel_id k |>
                      <| channel_subscriptions ::= without cs_channel_id k |>)
| step_post p :
    is_Some (channels t !! cp_channel_id p) → channel_posts t !! cp_id p = None →
    channel_step t (t <| channel_posts ::= <[cp_id p := p]> |>)
| step_subscribe s c :
    channels t !! cs_channel_id s = Some c → channel_subscriptions t !! cs_id s = None →
    subscription_of (cs_channel_id s) (cs_user_id s) t = None →
    channel_step t (t <| channel_subscriptions ::= <[cs_id s := s]> |>
      <| channels ::= <[ch_id c := c <| ch_subscriber_count ::= λ n, (n + 1)%Z |>]> |>)
| step_unsubscribe s c :
    channels t !! cs_channel_id s = Some c →
    subscription_of (cs_channel_id s) (cs_user_id s) t = Some s →
    channel_step t (t <| channel_subscriptions ::= delete (cs_id s) |>
      <| channels ::= <[ch_id c := c <| ch_subscriber_count ::= λ n, (n - 1)%Z |>]> |>)
| step_analytics a :
    is_Some (channels t !! ca_channel_id a) → channel_analytics t !! ca_id a = None →
    select (channel_analytics t) (analytics_of (ca_channel_id a)) = [] →
    channel_step t (t <| channel_analytics ::= <[ca_id a := a]> |>).

(** The rows are stored under their keys. *)
Definition channels_keyed (t : hub_tables) : Prop :=
  (∀ k c, channels t !! k = Some c → ch_id c = k) ∧
  (∀ k s, channel_subscriptions t !! k = Some s → cs_id s = k).

Inductive channel_op :=
| CreateChannel (cid : Z) (channel_in : ChannelCreate) (current_user : Z)
| ReadChannels (skip limit : Z)
| ReadChannel (channel_id : Z)
| UpdateChannel (channel_id : Z) (channel_in : ChannelUpdate) (current_user : Z)
| DeleteChannel (channel_id current_user : Z)
| CreatePost (pid channel_id : Z) (post_in : ChannelPostCreate) (current_user : Z)
| ReadPosts (channel_id skip limit : Z)
| Subscribe (sid channel_id : Z) (plan : option Z) (current_user : Z)
| Unsubscribe (channel_id current_user : Z)
| ReadAnalytics (aid channel_id : Z).

Definition run_channel_op (op : channel_op) : prog hub unit :=
  match op with
  | CreateChannel cid b u => create_channel cid b u ;; mret tt
  | ReadChannels skip limit => read_channels skip limit ;; mret tt
  | ReadChannel k => read_channel k ;; mret tt
  | UpdateChannel k b u => update_channel k b u ;; mret tt
  | DeleteChannel k u => delete_channel k u ;; mret tt
  | CreatePost pid k b u => create_channel_post pid k b u ;; mret tt
  | ReadPosts k skip limit => read_channel_posts k skip limit ;; mret tt
  | Subscribe sid k plan u => subscribe_to_channel sid k plan u ;; mret tt
  | Unsubscribe k u => unsubscribe_from_channel k u
  | ReadAnalytics aid k => read_channel_analytics aid k ;; mret tt
  end.

Lemma channel_or_404_step {A} k (f : Channel → prog hub A) h :
  (channel_or_404 k ≫= f) h =
  match channels (h_tables h) !! k with
  | Some c => f c h
  | None => (Err (HTTPException 404 "Channel not found"), h)
  end.
Proof. unfold channel_or_404. rewrite step_assoc, hquery_step. by destruct (_ !! k). Qed.

Lemma apply_update_Ok b c c' :
  apply_update b c = Ok c' → ch_id c' = ch_id c ∧ ch_subscriber_count c' = ch_subscriber_count c
    ∧ ch_owner_id c' = ch_owner_id c.
Proof. unfold apply_update. repeat case_match; intros E; simplify_eq; done. Qed.

Section Handlers.
Context (h : hub) (Hkeyed : channels_keyed (h_committed h)) (Ht : h_tables h = h_committed h).
Abbreviation steps := (steps channel_step h).

Lemma steps_channel {A} k (f : Channel → prog hub A) :
  (∀ c, channels (h_committed h) !! k = Some c → steps (f c)) → steps (channel_or_404 k ≫= f).
Proof.
  intros Hf. unfold channel_or_404. apply steps_assoc, steps_query; [done|]. by apply steps_some.
Qed.

Lemma create_channel_steps cid b u : steps (create_channel cid b u).
Proof.
  apply steps_lift. intros b' _. apply steps_now, steps_query; [done|]. apply steps_ensure.
  intros [Hg%bool_decide_eq_true _]%andb_prop. apply steps_change; [done..|].
  by apply (step_create _ (mk_Channel cid _ _ _ _ _ _ _ 0)).
Qed.

Lemma update_channel_steps cid b u : steps (update_channel cid b u).
Proof.
  apply steps_lift. intros b' _. apply steps_channel. intros c Hc. apply steps_ensure. intros _.
  apply steps_lift. intros c' (Hid & Hn & _)%apply_update_Ok. apply steps_change; [done..|].
  apply (step_update _ c' c); [|done]. by rewrite Hid, (proj1 Hkeyed _ _ Hc).
Qed.

Lemma delete_channel_steps cid u : steps (delete_channel cid u).
Proof.
  apply steps_channel. intros c Hc. apply steps_ensure. intros _.
  apply steps_assoc, steps_query; [done|]. apply steps_assoc, steps_ensure.
  intros Ha%bool_decide_eq_true. apply steps_change; [done..|]. by apply step_delete.
Qed.

Lemma create_post_steps pid cid b u : steps (create_channel_post pid cid b u).
Proof.
  apply steps_channel. intros c Hc. apply steps_now, steps_query; [done|]. apply steps_ensure. intros _.
  apply steps_ensure. intros [Hg%bool_decide_eq_true _]%andb_prop. apply steps_change; [done..|].
  by apply (step_post _ (mk_ChannelPost pid cid _ _ _ _ _ _ _ 0)); [eexists|].
Qed.

Lemma subscribe_steps sid cid plan u : steps (subscribe_to_channel sid cid plan u).
Proof.
  apply steps_channel. intros c Hc. apply steps_query; [done|]. apply steps_ensure.
  intros Hex%bool_decide_eq_true. apply steps_now, steps_query; [done|]. apply steps_ensure.
  intros [[Hg%bool_decide_eq_true _]%andb_prop _]%andb_prop. apply steps_change2; [done..|].
  by apply (step_subscribe _ (mk_ChannelSubscription sid cid u _ _ _) c).
Qed.

Lemma unsubscribe_steps cid u : steps (unsubscribe_from_channel cid u).
Proof.
  apply steps_channel. intros c Hc. apply steps_query; [done|]. apply steps_some. intros s Hs.
  pose proof Hs as [[Hsc%bool_decide_eq_true Hsu%bool_decide_eq_true]%andb_prop _]%scalar_Some.
  subst cid u. unfold steps, put_channel. rewrite !hchange_step. right. cbn. rewrite Ht.
  by apply (step_unsubscribe _ s c).
Qed.

Lemma read_analytics_steps aid cid : steps (read_channel_analytics aid cid).
Proof.
  apply steps_channel. intros c Hc. apply steps_query; [done|].
  destruct (head _) eqn:Hh; [by apply steps_read|]. apply head_None in Hh.
  apply steps_now, steps_query; [done|]. apply steps_ensure. intros Hg%bool_decide_eq_true.
  apply steps_change; [done..|].
  apply (step_analytics _ (mk_ChannelAnalytics aid cid _ _ _ _ _)); [by eexists|done|].
  apply Permutation_nil_r. by rewrite <- Hh, order_by_desc_perm.
Qed.

Lemma channel_op_steps op : steps (run_channel_op op).
Proof.
  destruct op; cbn [run_channel_op]; try apply steps_ignore.
  - apply create_channel_steps.
  - apply steps_page; [done|]. intros l. apply map_each_lift_state.
  - apply steps_channel. intros c _. by apply steps_read.
  - apply update_channel_steps.
  - apply delete_channel_steps.
  - apply create_post_steps.
  - apply steps_channel. intros c _. apply steps_read. unfold page. by destruct (_ && _).
  - apply subscribe_steps.
  - apply unsubscribe_steps.
  - apply read_analytics_steps.
Qed.
End Handlers.

(** ** What the channel tables satisfy *)

Record channels_wf (t : hub_tables) : Prop := {
  cw_keyed : channels_keyed t;
  (* what belongs to a channel belongs to one there is *)
  cw_sub_of : ∀ k s, channel_subscriptions t !! k = Some s → is_Some (channels t !! cs_channel_id s);
  cw_post_of : ∀ k p, channel_posts t !! k = Some p → is_Some (channels t !! cp_channel_id p);
  cw_analytics_of : ∀ k a, channel_analytics t !! k = Some a → is_Some (channels t !! ca_channel_id a);
  (* one subscription per channel and user, one record of analytics per channel *)
  cw_one : ∀ c u, unique_by (channel_subscriptions t) (subscribed c u);
  cw_one_analytics : ∀ c, unique_by (channel_analytics t) (analytics_of c);
  (* the counter is exact *)
  cw_count : ∀ k c, channels t !! k = Some c →
    ch_subscriber_count c = Z.of_nat (List.length
      (select (channel_subscriptions t) (λ s, bool_decide (cs_channel_id s = k))))
}.

Lemma subscribed_iff c u s : subscribed c u s = true ↔ cs_channel_id s = c ∧ cs_user_id s = u.
Proof. unfold subscribed. by rewrite andb_true_iff, !bool_decide_eq_true. Qed.

Lemma channel_step_create t c :
  channels_wf t → channels t !! ch_id c = None → ch_subscriber_count c = 0%Z →
  channels_wf (t <| channels ::= <[ch_id c := c]> |>).
Proof.
  intros Hwf Hc Hn. split; cbn; try apply Hwf; try still_there Hwf.
  - split; cbn; [by_cases_on; [done|by apply Hwf]|apply Hwf].
  - by_cases_on; [|by apply Hwf]. rewrite Hn.
    replace (select _ _) with (@nil ChannelSubscription); [done|]. symmetry.
    apply filter_nil_iff. intros s [k Hs]%elem_of_rows. apply bool_decide_eq_false. intros E.
    apply (cw_sub_of _ Hwf) in Hs. rewrite E, Hc in Hs. by destruct Hs.
Qed.

Lemma channel_step_update t c c0 :
  channels_wf t → channels t !! ch_id c = Some c0 →
  ch_subscriber_count c = ch_subscriber_count c0 →
  channels_wf (t <| channels ::= <[ch_id c := c]> |>).
Proof.
  intros Hwf Hc Hn. split; cbn; try apply Hwf; try still_there Hwf.
  - split; cbn; [by_cases_on; [done|by apply Hwf]|apply Hwf].
  - by_cases_on; [rewrite Hn|]; by apply Hwf.
Qed.

Lemma channel_step_delete t k :
  channels_wf t → select (channel_analytics t) (analytics_of k) = [] →
  channels_wf (t <| channels ::= delete k |> <| channel_posts ::= without cp_channel_id k |>
                 <| channel_subscriptions ::= without cs_channel_id k |>).
Proof.
  intros Hwf Hn. split; cbn; try apply Hwf.
  - split; cbn; [intros ? ? [_ ?]%lookup_delete_Some|intros ? ? [? _]%lookup_without]; by apply Hwf.
  - intros ? s [? ?]%lookup_without. rewrite lookup_delete_ne by done. by eapply Hwf.
  - intros ? s [? ?]%lookup_without. rewrite lookup_delete_ne by done. by eapply Hwf.
  - intros i a Ha. pose proof (select_nil _ _ _ _ Hn Ha) as Hk%bool_decide_eq_false.
    rewrite lookup_delete_ne by done. by eapply Hwf.
  - intros c u ? ? x y [? _]%lookup_without [? _]%lookup_without. by apply (cw_one _ Hwf c u).
  - intros i c [? H]%lookup_delete_Some. rewrite (cw_count _ Hwf _ _ H), select_without.
    do 2 f_equal. apply select_ext. intros s.
    apply eq_true_iff_eq. rewrite andb_true_iff, !bool_decide_eq_true. naive_solver.
Qed.

Lemma channel_step_subscribe t s c :
  channels_wf t → channels t !! cs_channel_id s = Some c → channel_subscriptions t !! cs_id s = None →
  subscription_of (cs_channel_id s) (cs_user_id s) t = None →
  channels_wf (t <| channel_subscriptions ::= <[cs_id s := s]> |>
    <| channels ::= <[ch_id c := c <| ch_subscriber_count ::= λ n, (n + 1)%Z |>]> |>).
Proof.
  intros Hwf Hc Hs Hex. pose proof (proj1 (cw_keyed _ Hwf) _ _ Hc) as Hid.
  split; cbn; try apply Hwf; try still_there Hwf.
  - split; cbn; by_cases_on; try done; by apply Hwf.
  - intros i s' [[<- <-]|[_ H]]%lookup_insert_Some; apply lookup_insert_is_Some'.
    + by left.
    + right. by eapply Hwf.
  - intros i u. apply unique_by_insert; [apply Hwf|].
    intros [<- <-]%subscribed_iff k y Hy Hyc. by destruct (scalar_false _ _ _ _ Hex Hy).
  - intros i c'. rewrite (Permutation_length (select_insert _ _ _ _ Hs)).
    intros [[<- <-]|[Hne H]]%lookup_insert_Some; rewrite Hid in *.
    + rewrite bool_decide_eq_true_2 by done. unfold over. cbn. rewrite (cw_count _ Hwf _ _ Hc). lia.
    + rewrite bool_decide_eq_false_2 by done. by apply Hwf.
Qed.

Lemma channel_step_unsubscribe t s c :
  channels_wf t → channels t !! cs_channel_id s = Some c →
  subscription_of (cs_channel_id s) (cs_user_id s) t = Some s →
  channels_wf (t <| channel_subscriptions ::= delete (cs_id s) |>
    <| channels ::= <[ch_id c := c <| ch_subscriber_count ::= λ n, (n - 1)%Z |>]> |>).
Proof.
  intros Hwf Hc [_ [k0 Hk0]]%scalar_Some. pose proof (proj1 (cw_keyed _ Hwf) _ _ Hc) as Hid.
  pose proof (proj2 (cw_keyed _ Hwf) _ _ Hk0) as <-.
  split; cbn; try apply Hwf; try still_there Hwf.
  - split; cbn; [by_cases_on; [done|by apply Hwf]|intros ? ? [_ ?]%lookup_delete_Some; by apply Hwf].
  - intros ? ? [_ ?]%lookup_delete_Some. apply lookup_insert_is_Some'. right. by eapply Hwf.
  - intros i u ? ? x y [_ ?]%lookup_delete_Some [_ ?]%lookup_delete_Some. by apply (cw_one _ Hwf i u).
  - intros i c' [[<- <-]|[Hne H]]%lookup_insert_Some; rewrite Hid in *.
    + unfold over. cbn. rewrite (cw_count _ Hwf _ _ Hc), (Permutation_length (select_delete _ _ _ _ Hk0)).
      rewrite bool_decide_eq_true_2 by done. cbn [List.length]. lia.
    + rewrite (cw_count _ Hwf _ _ H), (Permutation_length (select_delete _ _ _ _ Hk0)).
      by rewrite bool_decide_eq_false_2.
Qed.

Lemma channel_step_wf t t' : channels_wf t → channel_step t t' → channels_wf t'.
Proof.
  intros Hwf [c Hc Hn|c c0 Hc Hn|k Hn|p Hp Hk|s c Hc Hs Hex|s c Hc Hs|a Ha Hk Hn].
  - by apply channel_step_create.
  - by eapply channel_step_update.
  - by apply channel_step_delete.
  - split; cbn; try apply Hwf. by_cases_on; [done|by eapply Hwf].
  - by apply channel_step_subscribe.
  - by apply channel_step_unsubscribe.
  - split; cbn; try apply Hwf.
    + by_cases_on; [done|by eapply Hwf].
    + intros c. apply unique_by_insert; [apply Hwf|]. intros Hc%bool_decide_eq_true k y Hy Hyc.
      subst c. by rewrite (select_nil _ _ _ _ Hn Hy) in Hyc.
Qed.

(** C34. The channel tables, under any sequence of requests, failed ones included: rows are
    stored under their keys; a post, a subscription, a record of analytics belongs to a
    channel there is; nobody is subscribed to a channel twice; and every channel's
    [subscriber_count] is exactly the number of its subscriptions. *)
Theorem channels_invariant ops h :
  channels_wf (h_committed h) →
  channels_wf (h_committed (run_requests run_channel_op ops h)).
Proof.
  apply (run_requests_invariant run_channel_op channel_step).
  - intros op h0 Hwf Ht. by apply channel_op_steps; [apply Hwf|].
  - apply channel_step_wf.
Qed.

(** A channel whose analytics somebody has looked at. *)
Definition looked_at (k : Z) (t : hub_tables) : Prop :=
  channels_keyed t ∧ is_Some (channels t !! k) ∧
  ∃ i a, channel_analytics t !! i = Some a ∧ ca_channel_id a = k.

Lemma looked_at_step k t t' : looked_at k t → channel_step t t' → looked_at k t'.
Proof.
  intros (Hk & Hc & i & a & Ha & Hak) Hs.
  assert (∀ j c, is_Some ((<[j := c]> (channels t)) !! k)) as Hput
    by (intros j c; apply lookup_insert_is_Some'; by right).
  assert (∀ j c, ch_id c = j → ∀ k c', <[j := c]> (channels t) !! k = Some c' → ch_id c' = k) as Hkey
    by (intros j c <-; by_cases_on; [done|by apply Hk]).
  destruct Hs as [c Hc' Hn|c c0 Hc' Hn|k' Hn|p Hp Hk'|s c Hc' Hs Hex|s c Hc' Hs|b Hb Hk' Hn];
    (split; [|split]); cbn; try done; try (by exists i, a).
  - split; [by apply Hkey|apply Hk].
  - split; [by apply Hkey|apply Hk].
  - split; cbn; [intros ? ? [_ ?]%lookup_delete_Some|intros ? ? [? _]%lookup_without]; by apply Hk.
  - pose proof (select_nil _ _ _ _ Hn Ha) as Hne%bool_decide_eq_false.
    rewrite lookup_delete_ne by congruence. done.
  - split; [by apply Hkey|cbn; by_cases_on; [done|by apply Hk]].
  - split; [by apply Hkey|cbn; intros ? ? [_ ?]%lookup_delete_Some; by apply Hk].
  - exists i, a. split; [|done]. rewrite lookup_insert_ne; [done|]. intros E. congruence.
Qed.

(** Once anybody has read a channel's analytics, the channel can never be deleted again:
    whatever requests follow, it is still there, and its owner's request to delete it fails
    with an integrity error. *)
Theorem analytics_block_delete cid aid a h h1 ops :
  channels_wf (h_committed h) → request (read_channel_analytics aid cid) h = (Ok a, h1) →
  let h2 := run_requests run_channel_op ops h1 in
  ∃ c, channels (h_committed h2) !! cid = Some c ∧
    (request (delete_channel cid (ch_owner_id c)) h2).1
      = Err (IntegrityError "channel_analytics.channel_id").
Proof.
  intros Hwf E h2. assert (looked_at cid (h_committed h1)) as Hl.
  { rewrite request_run in E. unfold read_channel_analytics in E. rewrite channel_or_404_step in E.
    change (channels (h_tables _)) with (channels (h_committed h)) in E.
    destruct (channels (h_committed h) !! cid) as [c|] eqn:Hc; [|done].
    rewrite hquery_step in E. destruct (head _) as [a0|] eqn:Hh.
    - injection E as _ <-. cbn. split; [apply Hwf|]. split; [by exists c|].
      apply head_Some_elem_of in Hh. rewrite order_by_desc_perm in Hh.
      apply elem_of_select in Hh as [Hk%bool_decide_eq_true [i Hi]]. by exists i, a0.
    - rewrite hnow_step, hquery_step in E. destruct (bool_decide _); [|done].
      rewrite ensure_true_step in E. cbv zeta in E. rewrite hchange_step, hcommit_step in E.
      injection E as <- <-. cbn. split; [apply Hwf|]. split; [by exists c|].
      eexists aid, _. split; [apply lookup_insert_eq|done]. }
  assert (looked_at cid (h_committed h2)) as (_ & [c Hc] & i & b & Hb & Hk).
  { apply (run_requests_invariant run_channel_op channel_step (looked_at cid)); [|by apply looked_at_step|done].
    intros op h0 [Hk _] Ht. by apply channel_op_steps. }
  exists c. split; [done|]. rewrite request_run. unfold delete_channel. rewrite channel_or_404_step.
  change (channels (h_tables _)) with (channels (h_committed h2)). rewrite Hc.
  rewrite bool_decide_eq_true_2, ensure_true_step by done.
  unfold db_delete_channel. rewrite step_assoc, hquery_step.
  rewrite bool_decide_eq_false_2; [done|]. cbn. intros En.
  pose proof (select_nil _ _ _ _ En Hb) as Hf. by apply bool_decide_eq_false in Hf.
Qed.

(** ** A null that the update lets in *)

Lemma map_each_lift_err {S A B} (f : A → res B) (l : list A) x e (s : S) :
  (∀ y e', f y = Err e' → e' = e) → x ∈ l → f x = Err e →
  (map_each (λ x, lift (f x)) l s).1 = Err e.
Proof.
  intros He Hx Hf. induction l as [|y l IH]; [by apply not_elem_of_nil in Hx|].
  cbn [map_each]. unfold bind, lift in *. destruct (f y) as [b|e'] eqn:E.
  - apply elem_of_cons in Hx as [->|Hx]; [congruence|]. specialize (IH Hx).
    destruct (map_each _ l s) as [[|e'] ?]; [done|by rewrite <- IH].
  - cbn. f_equal. by eapply He.
Qed.

Lemma ChannelResponse_of_err c e :
  ChannelResponse_of c = Err e → e = ResponseValidationError "is_verified".
Proof. unfold ChannelResponse_of. destruct (ch_is_verified c); [done|]. by intros [= <-]. Qed.

(** [{is_verified: null}] *)
Definition unverify : ChannelUpdate := mk_ChannelUpdate None None None None (Some None).

(** A channel's owner can set [is_verified] to [null]: the request ends in a server error,
    and yet it is committed; from then on reading that channel fails for everybody, and so
    does every listing that reaches it, whoever asks and whatever other channels it holds. *)
Theorem null_verified_breaks_listing cid c h :
  channels_wf (h_committed h) → channels (h_committed h) !! cid = Some c →
  let '(r, h1) := request (update_channel cid unverify (ch_owner_id c)) h in
  let e := ResponseValidationError "is_verified" in
  r = Err e ∧ (request (read_channel cid) h1).1 = Err e ∧
  ∀ limit, (Z.of_nat (size (channels (h_committed h))) ≤ limit)%Z →
    (request (read_channels 0 limit) h1).1 = Err e.
Proof.
  intros Hwf Hc. rewrite request_run. unfold update_channel.
  cbn [validate_ChannelUpdate unverify up_name up_category max_length default andb lift].
  rewrite (step_ok _ _ _ unverify (h <| h_tables := h_committed h |>)), channel_or_404_step by done.
  change (channels (h_tables _)) with (channels (h_committed h)). rewrite Hc.
  rewrite bool_decide_eq_true_2, ensure_true_step by done. cbn [apply_update unverify lift].
  set (c' := c <| ch_is_verified := None |>).
  rewrite (step_ok _ _ _ c' (h <| h_tables := h_committed h |>)) by done.
  unfold put_channel. rewrite hchange_step, hcommit_step.
  pose proof (proj1 (cw_keyed _ Hwf) _ _ Hc) as Hid.
  split; [done|]. set (h1 := _ <| h_tables := _ |>).
  assert (channels (h_committed h1) = <[cid := c']> (channels (h_committed h))) as Hch
    by (rewrite <- Hid at 1; reflexivity).
  clearbody h1. split.
  - rewrite request_run. unfold read_channel. rewrite channel_or_404_step.
    change (channels (h_tables _)) with (channels (h_committed h1)).
    by rewrite Hch, lookup_insert_eq.
  - intros limit Hl. rewrite request_run. unfold read_channels, page.
    assert (0 ≤ limit)%Z as Hl0 by lia.
    rewrite (proj2 (Z.leb_le 0 limit)), step_assoc by done. change (0 <=? 0)%Z with true. cbn [andb].
    rewrite ensure_true_step, step_assoc, hquery_step, mret_step.
    change (channels (h_tables _)) with (channels (h_committed h1)). rewrite Hch.
    destruct (map_each _ _ _) as [r' h'] eqn:E. cbn.
    change r' with (r', h').1. rewrite <- E. apply (map_each_lift_err _ _ c').
    + apply ChannelResponse_of_err.
    + rewrite take_ge; [apply elem_of_rows; exists cid; apply lookup_insert_eq|].
      change (Z.to_nat 0) with 0%nat. rewrite skipn_O. unfold rows. rewrite length_fmap, length_map_to_list.
      rewrite map_size_insert_Some by (by eexists). lia.
    + done.
Qed.

Module Station.
Definition channel : Channel := mk_Channel 1 "News" None PUBLIC 7 0 (Some false) None 0.
Definition tables0 : hub_tables :=
  mk_hub_tables {[7%Z; 8%Z]} ∅ {[1%Z := channel]} ∅ ∅ ∅ ∅ ∅ ∅ ∅ ∅ ∅.
Definition hub0 : hub := mk_hub 5 tables0 tables0.

Lemma station_wf : channels_wf tables0.
Proof.
  split; cbn; try (intros ? ? H; discriminate H); try (intros ? ? ? ? ? H; discriminate H);
    try (intros ? ? ? ? ? ? H; discriminate H).
  - split; cbn; [by intros ? ? [<- <-]%lookup_singleton_Some|intros ? ? H; discriminate H].
  - by intros ? ? [<- <-]%lookup_singleton_Some.
Qed.
End Station.

Lemma channels_invariant_witness :
  ∃ c, channels (h_committed (run_requests run_channel_op [Subscribe 1 1 None 8] Station.hub0)) !! 1%Z
       = Some c ∧ ch_subscriber_count c = 1%Z.
Proof.
  pose proof (channels_invariant [Subscribe 1 1 None 8] Station.hub0 Station.station_wf) as Hwf.
  eexists. split; [vm_compute; reflexivity|].
  rewrite (cw_count _ Hwf 1%Z _ ltac:(vm_compute; reflexivity)). vm_compute. reflexivity.
Defined.

Lemma analytics_block_delete_witness :
  ∃ h1 a, request (read_channel_analytics 1 1) Station.hub0 = (Ok a, h1) ∧
    (request (delete_channel 1 7) h1).1 = Err (IntegrityError "channel_analytics.channel_id").
Proof.
  destruct (is_ok_run (request (read_channel_analytics 1 1)) Station.hub0) as (a & h1 & E);
    [by vm_compute|].
  exists h1, a. split; [exact E|].
  destruct (analytics_block_delete 1 1 a Station.hub0 h1 [] Station.station_wf E) as (c & Hc & Hd).
  cbn in Hc, Hd. assert (ch_owner_id c = 7%Z) as Ho; [|by rewrite Ho in Hd].
  vm_compute in E. injection E as _ <-. cbn in Hc. by injection Hc as <-.
Defined.

Lemma null_verified_breaks_listing_witness :
  ∃ h1, (request (read_channels 0 100) h1).1 = Err (ResponseValidationError "is_verified").
Proof.
  pose proof (null_verified_breaks_listing 1 Station.channel Station.hub0 Station.station_wf eq_refl) as H.
  destruct (request _ _) as [r h1]. destruct H as (_ & _ & H).
  exists h1. apply H. vm_compute. discriminate.
Defined.
