(* ===== verification/Communities.v ===== *)
(** [backend/app/api/routes/communities.py] with [backend/app/schemas/community.py]:
    communities, their members, events and resources.

    The file never imports [CommunityRole], so the handlers that name it raise a
    [NameError] where they do. Whether the name is defined is a parameter,
    [CommunityRole_imported]: [false] is the file as it is. *)

From S2P Require Import Prelude Effects PyStr Models Schemas World Hub Channels.
From Stdlib Require Import String.

Local Open Scope string_scope.

(** ** Schemas *)

Record CommunityCreate := mk_CommunityCreate {
  co_name : string;
  co_description : option string;
  co_category : option string
}.
Definition validate_CommunityCreate (b : CommunityCreate) : res CommunityCreate :=
  if length_between 0 100 (co_name b) && max_length 50 (co_category b)
  then Ok b else Err (HTTPException 422 "CommunityCreate").

Record CommunityUpdate := mk_CommunityUpdate {
  cu_name : field string;
  cu_description : field string;
  cu_category : field string;
  cu_is_verified : field bool
}.
Definition validate_CommunityUpdate (b : CommunityUpdate) : res CommunityUpdate :=
  if max_length 100 (default None (cu_name b)) && max_length 50 (default None (cu_category b))
  then Ok b else Err (HTTPException 422 "CommunityUpdate").

Record CommunityResponse := mk_CommunityResponse {
  cor_id : Z;
  cor_name : string;
  cor_description : option string;
  cor_category : option string;
  cor_owner_id : Z;
  cor_created_at : timestamp;
  cor_is_verified : bool;
  cor_member_count : Z
}.
Definition CommunityResponse_of (c : Community) : res CommunityResponse :=
  match cm_is_verified c with
  | Some v => Ok (mk_CommunityResponse (cm_id c) (cm_name c) (cm_description c) (cm_category c)
                    (cm_owner_id c) (cm_created_at c) v (cm_member_count c))
  | None => Err (ResponseValidationError "is_verified")
  end.

Record CommunityMemberCreate := mk_CommunityMemberCreate {
  mc_user_id : Z;
  mc_role : CommunityRole
}.

Record CommunityEventCreate := mk_CommunityEventCreate {
  ec_title : string;
  ec_description : option string;
  ec_start_time : timestamp;
  ec_end_time : option timestamp;
  ec_location : option string
}.
Definition validate_CommunityEventCreate (b : CommunityEventCreate) : res CommunityEventCreate :=
  if length_between 0 200 (ec_title b) && max_length 255 (ec_location b)
  then Ok b else Err (HTTPException 422 "CommunityEventCreate").

(** [CommunityEventRSVPCreate]: its one field, validated. *)
Definition validate_RSVP (response : string) : res string :=
  if length_between 0 20 response then Ok response else Err (HTTPException 422 "RSVP").

Record CommunityResourceCreate := mk_CommunityResourceCreate {
  rc_title : string;
  rc_url : option string;
  rc_resource_type : option string
}.
Definition validate_CommunityResourceCreate (b : CommunityResourceCreate) : res CommunityResourceCreate :=
  if length_between 0 200 (rc_title b) && max_length 500 (rc_url b) && max_length 50 (rc_resource_type b)
  then Ok b else Err (HTTPException 422 "CommunityResourceCreate").

Class Imports := { CommunityRole_imported : bool }.

Section Handlers.
Context `{Imports}.

(** Evaluating the name [CommunityRole]. *)
Definition name_CommunityRole : prog hub unit :=
  ensure CommunityRole_imported (NameError "CommunityRole").

Definition community_or_404 (community_id : Z) : prog hub Community :=
  community ← hquery (λ t, communities t !! community_id);
  some_or_raise community (HTTPException 404 "Community not found").

Definition put_community (c : Community) : prog hub unit :=
  hchange (λ t, t <| communities ::= <[cm_id c := c]> |>).

(** The membership of a user in a community. *)
Definition is_member (community_id user_id : Z) (m : CommunityMember) : bool :=
  bool_decide (cmm_community_id m = community_id) && bool_decide (cmm_user_id m = user_id).
Definition member_of (community_id user_id : Z) (t : hub_tables) : option CommunityMember :=
  scalar (community_members t) (is_member community_id user_id).

(** [if not member or member.role not in [CommunityRole.OWNER, CommunityRole.ADMIN]: 403] *)
Definition require_organiser (community_id current_user : Z) (detail : string) : prog hub unit :=
  member ← hquery (member_of community_id current_user);
  match member with
  | None => raise (HTTPException 403 detail)
  | Some m =>
      name_CommunityRole ;;
      ensure (bool_decide (cmm_role m = COWNER) || bool_decide (cmm_role m = CADMIN))
        (HTTPException 403 detail)
  end.

(** ** Communities *)

(** The default permissions of a role. *)
Definition default_permission (pid community_id : Z) (role : CommunityRole) : CommunityPermission :=
  let among l := bool_decide (role ∈ l) in
  mk_CommunityPermission pid community_id role
    (among [COWNER; CADMIN; CMODERATOR; CMEMBER]) (among [COWNER; CADMIN; CMODERATOR; CMEMBER])
    (among [COWNER; CADMIN; CMODERATOR; CMEMBER]) (among [COWNER; CADMIN])
    (among [COWNER; CADMIN; CMODERATOR]) (among [COWNER; CADMIN])
    (among [COWNER; CADMIN; CMODERATOR]) (among [COWNER; CADMIN]).

Definition db_add_community_member (m : CommunityMember) : prog hub unit :=
  t ← hquery id;
  ensure (bool_decide (community_members t !! cmm_id m = None)
          && bool_decide (cmm_user_id m ∈ h_users t)) (IntegrityError "community_members") ;;
  hchange (λ t, t <| community_members ::= <[cmm_id m := m]> |>).

Definition db_add_permission (p : CommunityPermission) : prog hub unit :=
  t ← hquery id;
  ensure (bool_decide (community_permissions t !! pm_id p = None))
    (IntegrityError "community_permissions") ;;
  hchange (λ t, t <| community_permissions ::= <[pm_id p := p]> |>).

(** [create_community]; [cid], [mid] and [pid] are the fresh primary keys. It commits twice. *)
Definition create_community (cid mid : Z) (pid : CommunityRole → Z) (community_in : CommunityCreate)
    (current_user : Z) : prog hub CommunityResponse :=
  community_in ← lift (validate_CommunityCreate community_in);
  now ← hnow;
  t ← hquery id;
  ensure (bool_decide (communities t !! cid = None) && bool_decide (current_user ∈ h_users t))
    (IntegrityError "communities") ;;
  let community := mk_Community cid (co_name community_in) (co_description community_in)
                     current_user now (Some false) (co_category community_in) 0 in
  put_community community ;;
  hcommit ;;
  name_CommunityRole ;;
  db_add_community_member (mk_CommunityMember mid (cm_id community) current_user COWNER now) ;;
  for_each (λ role, db_add_permission (default_permission (pid role) (cm_id community) role))
    [COWNER; CADMIN; CMODERATOR; CMEMBER] ;;
  hcommit ;;
  lift (CommunityResponse_of community).

(** [read_communities] and [read_community] *)
Definition read_communities (skip limit : Z) : prog hub (list CommunityResponse) :=
  communities ← page skip limit (λ t, rows (communities t));
  map_each (λ c, lift (CommunityResponse_of c)) communities.

Definition read_community (community_id : Z) : prog hub CommunityResponse :=
  community ← community_or_404 community_id;
  lift (CommunityResponse_of community).

(** The loop of [setattr]s with its flush: [name] is [NOT NULL]. *)
Definition apply_community_update (b : CommunityUpdate) (c : Community) : res Community :=
  match default (Some (cm_name c)) (cu_name b) with
  | Some name =>
      Ok (c <| cm_name := name |>
            <| cm_description ::= λ d, default d (cu_description b) |>
            <| cm_category ::= λ d, default d (cu_category b) |>
            <| cm_is_verified ::= λ d, default d (cu_is_verified b) |>)
  | None => Err (IntegrityError "communities.name")
  end.

(** [update_community] *)
Definition update_community (community_id : Z) (community_in : CommunityUpdate) (current_user : Z)
    : prog hub CommunityResponse :=
  community_in ← lift (validate_CommunityUpdate community_in);
  community ← community_or_404 community_id;
  ensure (bool_decide (cm_owner_id community = current_user))
    (HTTPException 403 "Not enough permissions") ;;
  community ← lift (apply_community_update community_in community);
  put_community community ;;
  hcommit ;;
  lift (CommunityResponse_of community).

(** [db.delete(community)] with its flush: members, events with their answers, and resources
    go with it; permissions do not, and refer to it. *)
Definition db_delete_community (k : Z) : prog hub unit :=
  t ← hquery id;
  ensure (bool_decide (select (community_permissions t) (λ p, bool_decide (pm_community_id p = k)) = []))
    (IntegrityError "community_permissions.community_id") ;;
  let gone (e : CommunityEventRSVP) :=
    match community_events t !! rv_event_id e with
    | Some ev => bool_decide (ev_community_id ev = k)
    | None => false
    end in
  hchange (λ t, t <| communities ::= delete k |>
                  <| community_members ::= without cmm_community_id k |>
                  <| community_event_rsvps ::= filter (λ kv, gone kv.2 = false) |>
                  <| community_events ::= without ev_community_id k |>
                  <| community_resources ::= without rs_community_id k |>).

(** [delete_community] *)
Definition delete_community (community_id current_user : Z) : prog hub CommunityResponse :=
  community ← community_or_404 community_id;
  ensure (bool_decide (cm_owner_id community = current_user))
    (HTTPException 403 "Not enough permissions") ;;
  db_delete_community community_id ;;
  hcommit ;;
  lift (CommunityResponse_of community).

(** ** Members *)

(** [add_community_member] *)
Definition add_community_member (mid community_id : Z) (member_in : CommunityMemberCreate)
    (current_user : Z) : prog hub CommunityMember :=
  community ← community_or_404 community_id;
  require_organiser community_id current_user "Not enough permissions to invite members" ;;
  existing ← hquery (member_of community_id (mc_user_id member_in));
  ensure (bool_decide (existing = None))
    (HTTPException 400 "User is already a member of this community") ;;
  now ← hnow;
  let new_member := mk_CommunityMember mid community_id (mc_user_id member_in) (mc_role member_in) now in
  db_add_community_member new_member ;;
  put_community (community <| cm_member_count ::= λ n, (n + 1)%Z |>) ;;
  hcommit ;;
  mret new_member.

(** [read_community_members] *)
Definition read_community_members (community_id skip limit : Z) : prog hub (list CommunityMember) :=
  community_or_404 community_id ;;
  page skip limit (λ t, select (community_members t) (λ m, bool_decide (cmm_community_id m = community_id))).

(** ** Events *)

(** [create_community_event] *)
Definition create_community_event (eid community_id : Z) (event_in : CommunityEventCreate)
    (current_user : Z) : prog hub CommunityEvent :=
  event_in ← lift (validate_CommunityEventCreate event_in);
  community_or_404 community_id ;;
  require_organiser community_id current_user "Not enough permissions to create events" ;;
  now ← hnow;
  t ← hquery id;
  ensure (bool_decide (community_events t !! eid = None)) (IntegrityError "community_events") ;;
  let event := mk_CommunityEvent eid community_id (ec_title event_in) (ec_description event_in)
    (ec_start_time event_in) (ec_end_time event_in) (ec_location event_in) current_user now in
  hchange (λ t, t <| community_events ::= <[eid := event]> |>) ;;
  hcommit ;;
  mret event.

(** [read_community_events] *)
Definition read_community_events (community_id skip limit : Z) : prog hub (list CommunityEvent) :=
  community_or_404 community_id ;;
  page skip limit (λ t, select (community_events t) (λ e, bool_decide (ev_community_id e = community_id))).

(** The answer of a user to an event. *)
Definition answers (event_id user_id : Z) (r : CommunityEventRSVP) : bool :=
  bool_decide (rv_event_id r = event_id) && bool_decide (rv_user_id r = user_id).

(** [rsvp_to_community_event] *)
Definition rsvp_to_community_event (rid community_id event_id : Z) (response : string)
    (current_user : Z) : prog hub CommunityEventRSVP :=
  response ← lift (validate_RSVP response);
  community_or_404 community_id ;;
  event ← hquery (λ t, match community_events t !! event_id with
                       | Some e => if decide (ev_community_id e = community_id) then Some e else None
                       | None => None
                       end);
  ensure (bool_decide (is_Some event)) (HTTPException 404 "Event not found") ;;
  member ← hquery (member_of community_id current_user);
  ensure (bool_decide (is_Some member))
    (HTTPException 403 "You must be a member of the community to RSVP") ;;
  existing ← hquery (λ t, scalar (community_event_rsvps t) (answers event_id current_user));
  ensure (bool_decide (existing = None))
    (HTTPException 400 "You have already RSVP'd to this event") ;;
  now ← hnow;
  t ← hquery id;
  ensure (bool_decide (community_event_rsvps t !! rid = None)) (IntegrityError "community_event_rsvps") ;;
  let rsvp := mk_CommunityEventRSVP rid event_id current_user response now in
  hchange (λ t, t <| community_event_rsvps ::= <[rid := rsvp]> |>) ;;
  hcommit ;;
  mret rsvp.

(** ** Resources *)

(** [add_community_resource] *)
Definition add_community_resource (rid community_id : Z) (resource_in : CommunityResourceCreate)
    (current_user : Z) : prog hub CommunityResource :=
  resource_in ← lift (validate_CommunityResourceCreate resource_in);
  community_or_404 community_id ;;
  require_organiser community_id current_user "Not enough permissions to add resources" ;;
  now ← hnow;
  t ← hquery id;
  ensure (bool_decide (community_resources t !! rid = None)) (IntegrityError "community_resources") ;;
  let resource := mk_CommunityResource rid community_id (rc_title resource_in) (rc_url resource_in)
    (rc_resource_type resource_in) current_user now in
  hchange (λ t, t <| community_resources ::= <[rid := resource]> |>) ;;
  hcommit ;;
  mret resource.

(** [read_community_resources] *)
Definition read_community_resources (community_id skip limit : Z) : prog hub (list CommunityResource) :=
  community_or_404 community_id ;;
  page skip limit (λ t, select (community_resources t) (λ r, bool_decide (rs_community_id r = community_id))).

(** ** The handlers as steps of the committed tables *)

Definition organiser (community_id user_id : Z) (t : hub_tables) : Prop :=
  ∃ m, member_of community_id user_id t = Some m ∧ (cmm_role m = COWNER ∨ cmm_role m = CADMIN).

(** The tables with rows added. *)
Definition add_permission (t : hub_tables) (p : CommunityPermission) : hub_tables :=
  t <| community_permissions ::= <[pm_id p := p]> |>.
Definition add_permissions (ps : list CommunityPermission) (t : hub_tables) : hub_tables :=
  foldl add_permission t ps.
Fixpoint fresh_permissions (ps : list CommunityPermission) (t : hub_tables) : Prop :=
  match ps with
  | [] => True
  | p :: ps => community_permissions t !! pm_id p = None ∧ fresh_permissions ps (add_permission t p)
  end.

Inductive community_step (t : hub_tables) : hub_tables → Prop :=
| step_orphan c :
    communities t !! cm_id c = None → cm_member_count c = 0%Z →
    community_step t (t <| communities ::= <[cm_id c := c]> |>)
| step_found c m ps :
    CommunityRole_imported = true →
    communities t !! cm_id c = None → cm_member_count c = 0%Z →
    community_members t !! cmm_id m = None → cmm_community_id m = cm_id c →
    cmm_user_id m = cm_owner_id c → cmm_role m = COWNER →
    Forall (λ p, pm_community_id p = cm_id c) ps → ps ≠ [] → fresh_permissions ps t →
    community_step t (add_permissions ps (t <| communities ::= <[cm_id c := c]> |>
                                           <| community_members ::= <[cmm_id m := m]> |>))
| step_rename c c0 :
    communities t !! cm_id c = Some c0 → cm_member_count c = cm_member_count c0 →
    cm_owner_id c = cm_owner_id c0 →
    community_step t (t <| communities ::= <[cm_id c := c]> |>)
| step_drop k t' :
    select (community_permissions t) (λ p, bool_decide (pm_community_id p = k)) = [] →
    communities t' = delete k (communities t) →
    community_members t' = without cmm_community_id k (community_members t) →
    community_permissions t' = community_permissions t →
    community_events t' = without ev_community_id k (community_events t) →
    community_resources t' = without rs_community_id k (community_resources t) →
    (∀ i r, community_event_rsvps t' !! i = Some r →
       community_event_rsvps t !! i = Some r ∧
       ∀ e, community_events t !! rv_event_id r = Some e → ev_community_id e ≠ k) →
    community_step t t'
| step_member m c u :
    CommunityRole_imported = true →
    communities t !! cmm_community_id m = Some c → organiser (cmm_community_id m) u t →
    community_members t !! cmm_id m = None →
    member_of (cmm_community_id m) (cmm_user_id m) t = None →
    community_step t (t <| community_members ::= <[cmm_id m := m]> |>
      <| communities ::= <[cm_id c := c <| cm_member_count ::= λ n, (n + 1)%Z |>]> |>)
| step_event e :
    is_Some (communities t !! ev_community_id e) → organiser (ev_community_id e) (ev_created_by e) t →
    community_events t !! ev_id e = None →
    community_step t (t <| community_events ::= <[ev_id e := e]> |>)
| step_rsvp r e :
    community_events t !! rv_event_id r = Some e →
    is_Some (member_of (ev_community_id e) (rv_user_id r) t) →
    community_event_rsvps t !! rv_id r = None →
    scalar (community_event_rsvps t) (answers (rv_event_id r) (rv_user_id r)) = None →
    community_step t (t <| community_event_rsvps ::= <[rv_id r := r]> |>)
| step_resource r :
    is_Some (communities t !! rs_community_id r) → organiser (rs_community_id r) (rs_created_by r) t →
    community_resources t !! rs_id r = None →
    community_step t (t <| community_resources ::= <[rs_id r := r]> |>).

Inductive community_op :=
| CreateCommunity (cid mid : Z) (pid : CommunityRole → Z) (b : CommunityCreate) (current_user : Z)
| ReadCommunities (skip limit : Z)
| ReadCommunity (k : Z)
| UpdateCommunity (k : Z) (b : CommunityUpdate) (current_user : Z)
| DeleteCommunity (k current_user : Z)
| AddMember (mid k : Z) (b : CommunityMemberCreate) (current_user : Z)
| ReadMembers (k skip limit : Z)
| CreateEvent (eid k : Z) (b : CommunityEventCreate) (current_user : Z)
| ReadEvents (k skip limit : Z)
| Rsvp (rid k event_id : Z) (response : string) (current_user : Z)
| AddResource (rid k : Z) (b : CommunityResourceCreate) (current_user : Z)
| ReadResources (k skip limit : Z).

Definition run_community_op (op : community_op) : prog hub unit :=
  match op with
  | CreateCommunity cid mid pid b u => create_community cid mid pid b u ;; mret tt
  | ReadCommunities skip limit => read_communities skip limit ;; mret tt
  | ReadCommunity k => read_community k ;; mret tt
  | UpdateCommunity k b u => update_community k b u ;; mret tt
  | DeleteCommunity k u => delete_community k u ;; mret tt
  | AddMember mid k b u => add_community_member mid k b u ;; mret tt
  | ReadMembers k skip limit => read_community_members k skip limit ;; mret tt
  | CreateEvent eid k b u => create_community_event eid k b u ;; mret tt
  | ReadEvents k skip limit => read_community_events k skip limit ;; mret tt
  | Rsvp rid k e response u => rsvp_to_community_event rid k e response u ;; mret tt
  | AddResource rid k b u => add_community_resource rid k b u ;; mret tt
  | ReadResources k skip limit => read_community_resources k skip limit ;; mret tt
  end.


Definition communities_keyed (t : hub_tables) : Prop :=
  ∀ k c, communities t !! k = Some c → cm_id c = k.

Section Stepping.
Context (h : hub) (Hkeyed : communities_keyed (h_committed h)) (Ht : h_tables h = h_committed h).
Abbreviation steps := (steps community_step h).

Lemma steps_community {A} k (f : Community → prog hub A) :
  (∀ c, communities (h_committed h) !! k = Some c → steps (f c)) → steps (community_or_404 k ≫= f).
Proof.
  intros Hf. unfold community_or_404. apply steps_assoc, steps_query; [done|]. by apply steps_some.
Qed.

(** The check of the organisers' handlers lets organisers through. *)
Lemma steps_organiser {A} k u detail (f : unit → prog hub A) :
  (organiser k u (h_committed h) → CommunityRole_imported = true → steps (f tt)) →
  steps (require_organiser k u detail ≫= f).
Proof.
  intros Hf. unfold require_organiser. apply steps_assoc, steps_query; [done|].
  destruct (member_of k u (h_committed h)) as [m|] eqn:Hm; [|by apply steps_read].
  apply steps_assoc, steps_ensure. intros Hi. apply steps_ensure.
  intros Hr%orb_prop. rewrite !bool_decide_eq_true in Hr. apply Hf; [by exists m|done].
Qed.

(** The permissions are added one by one. *)
Lemma add_permissions_run ps h0 h1 :
  for_each db_add_permission ps h0 = (Ok tt, h1) →
  h1 = h0 <| h_tables := add_permissions ps (h_tables h0) |> ∧ fresh_permissions ps (h_tables h0).
Proof.
  revert h0. induction ps as [|p ps IH]; intros h0 E.
  - injection E as <-. by destruct h0.
  - cbn [for_each] in E. apply bind_ok_inv in E as (u & h2 & E & E').
    unfold db_add_permission in E. rewrite hquery_step in E. case_bool_decide as Hp; [|done].
    rewrite ensure_true_step in E. injection E as _ <-.
    apply IH in E' as [-> Hf]. done.
Qed.

Lemma fresh_permissions_ext ps t t' :
  community_permissions t' = community_permissions t →
  fresh_permissions ps t → fresh_permissions ps t'.
Proof.
  revert t t'. induction ps as [|p ps IH]; intros t t' E; [done|]. cbn.
  rewrite E. intros [Hp Hf]. split; [done|]. eapply IH; [|exact Hf]. cbn. by rewrite E.
Qed.

Lemma db_add_permission_committed p h0 : h_committed (db_add_permission p h0).2 = h_committed h0.
Proof. unfold db_add_permission. rewrite hquery_step. by destruct (bool_decide _). Qed.

Lemma for_each_permission_committed ps h0 :
  h_committed (for_each db_add_permission ps h0).2 = h_committed h0.
Proof.
  apply (for_each_invariant (λ h', h_committed h' = h_committed h0)); [|done].
  intros p h' _ <-. apply db_add_permission_committed.
Qed.

Lemma for_each_map {S A B} (f : B → prog S unit) (g : A → B) l s :
  for_each (λ x, f (g x)) l s = for_each f (g <$> l) s.
Proof.
  revert s. induction l as [|x l IH]; intros s; [done|]. cbn. unfold bind.
  destruct (f (g x) s) as [[] s']; [apply IH|done].
Qed.

Lemma create_community_steps cid mid pid b u : steps (create_community cid mid pid b u).
Proof.
  apply steps_lift. intros b' _. apply steps_now, steps_query; [done|]. apply steps_ensure.
  intros [Hg%bool_decide_eq_true _]%andb_prop. unfold steps, put_community. cbv zeta.
  set (c := mk_Community cid _ _ u _ _ _ 0). rewrite hchange_step, hcommit_step.
  assert (community_step (h_committed h) ((h_tables h) <| communities ::= <[cm_id c := c]> |>)) as Ho
    by (rewrite Ht; by apply step_orphan).
  unfold name_CommunityRole. destruct CommunityRole_imported eqn:Hi; [rewrite ensure_true_step|by right].
  unfold db_add_community_member. rewrite step_assoc, hquery_step.
  destruct (bool_decide _ && _) eqn:Hm; [rewrite step_assoc, ensure_true_step|by right].
  apply andb_prop in Hm as [Hm%bool_decide_eq_true _]. rewrite hchange_step.
  set (m := mk_CommunityMember mid (cm_id c) u COWNER (h_now h)) in *.
  match goal with |- context [(for_each _ _ ≫= _) ?h0] => set (h2 := h0) end.
  set (ps := (λ role, default_permission (pid role) (cm_id c) role) <$> [COWNER; CADMIN; CMODERATOR; CMEMBER]).
  pose proof (for_each_map db_add_permission (λ role, default_permission (pid role) (cm_id c) role)
    [COWNER; CADMIN; CMODERATOR; CMEMBER] h2) as Hmap. fold ps in Hmap.
  pose proof (for_each_permission_committed ps h2) as Hc.
  destruct (for_each db_add_permission ps h2) as [[[]|e] h3] eqn:E.
  - rewrite (step_ok _ _ _ _ _ Hmap), hcommit_step. right.
    apply add_permissions_run in E as [-> Hf].
    change (community_step (h_committed h) (add_permissions ps (h_tables h2))).
    assert (h_tables h2 = (h_committed h) <| communities ::= <[cm_id c := c]> |>
      <| community_members ::= <[cmm_id m := m]> |>) as -> by (cbn; by rewrite Ht).
    assert (community_members (h_committed h) !! cmm_id m = None) by (rewrite <- Ht; exact Hm).
    apply (step_found _ c m ps); try done.
    + by repeat constructor.
    + eapply fresh_permissions_ext; [|exact Hf]. cbn. by rewrite Ht.
  - rewrite (step_err _ _ _ _ _ Hmap). right. cbn in Hc |- *. by rewrite Hc.
Qed.

Lemma apply_community_update_Ok b c c' :
  apply_community_update b c = Ok c' → cm_id c' = cm_id c ∧ cm_member_count c' = cm_member_count c
    ∧ cm_owner_id c' = cm_owner_id c.
Proof. unfold apply_community_update. repeat case_match; intros E; simplify_eq; done. Qed.

Lemma update_community_steps k b u : steps (update_community k b u).
Proof.
  apply steps_lift. intros b' _. apply steps_community. intros c Hc. apply steps_ensure. intros _.
  apply steps_lift. intros c' (Hid & Hn & Ho)%apply_community_update_Ok. apply steps_change; [done..|].
  apply (step_rename _ c' c); [|done..]. by rewrite Hid, (Hkeyed _ _ Hc).
Qed.

Lemma delete_community_steps k u : steps (delete_community k u).
Proof.
  apply steps_community. intros c Hc. apply steps_ensure. intros _.
  apply steps_assoc, steps_query; [done|]. apply steps_assoc, steps_ensure.
  intros Ha%bool_decide_eq_true. cbv zeta. apply steps_change; [done..|].
  apply (step_drop _ k); [done..|]. intros i r [Hr Hg]%map_lookup_filter_Some. split; [done|].
  cbn in Hg. intros e He. rewrite He in Hg. by apply bool_decide_eq_false in Hg.
Qed.

Lemma add_member_steps mid k b u : steps (add_community_member mid k b u).
Proof.
  apply steps_community. intros c Hc. apply steps_organiser. intros Ho Hi.
  apply steps_query; [done|]. apply steps_ensure. intros Hex%bool_decide_eq_true. apply steps_now.
  apply steps_assoc, steps_query; [done|]. apply steps_assoc, steps_ensure.
  intros [Hg%bool_decide_eq_true _]%andb_prop. apply steps_change2; [done..|].
  by apply (step_member _ (mk_CommunityMember mid k _ _ _) c u).
Qed.

Lemma create_event_steps eid k b u : steps (create_community_event eid k b u).
Proof.
  apply steps_lift. intros b' _. apply steps_community. intros c Hc. apply steps_organiser.
  intros Ho Hi. apply steps_now, steps_query; [done|]. apply steps_ensure.
  intros Hg%bool_decide_eq_true. apply steps_change; [done..|].
  by apply (step_event _ (mk_CommunityEvent eid k _ _ _ _ _ u _)).
Qed.

Lemma rsvp_steps rid k e response u : steps (rsvp_to_community_event rid k e response u).
Proof.
  apply steps_lift. intros r _. apply steps_community. intros c Hc. apply steps_query; [done|].
  apply steps_ensure. intros He%bool_decide_eq_true. apply steps_query; [done|]. apply steps_ensure.
  intros Hm%bool_decide_eq_true. apply steps_query; [done|]. apply steps_ensure.
  intros Hex%bool_decide_eq_true. apply steps_now, steps_query; [done|]. apply steps_ensure.
  intros Hg%bool_decide_eq_true. apply steps_change; [done..|].
  destruct (community_events (h_committed h) !! e) as [ev|] eqn:Hev; [|by destruct He].
  case_decide as Hk; [|by destruct He]. subst k.
  by apply (step_rsvp _ (mk_CommunityEventRSVP rid e u _ _) ev).
Qed.

Lemma add_resource_steps rid k b u : steps (add_community_resource rid k b u).
Proof.
  apply steps_lift. intros b' _. apply steps_community. intros c Hc. apply steps_organiser.
  intros Ho Hi. apply steps_now, steps_query; [done|]. apply steps_ensure.
  intros Hg%bool_decide_eq_true. apply steps_change; [done..|].
  by apply (step_resource _ (mk_CommunityResource rid k _ _ _ u _)).
Qed.

Lemma community_op_steps op : steps (run_community_op op).
Proof.
  assert (∀ {A} k (q : hub_tables → list A) skip limit,
    steps (community_or_404 k ;; page skip limit q)) as Hread.
  { intros A k q skip limit. apply steps_community. intros c _. apply steps_read. unfold page.
    by destruct (_ && _). }
  destruct op; cbn [run_community_op]; apply steps_ignore.
  - apply create_community_steps.
  - apply steps_page; [done|]. intros l. apply map_each_lift_state.
  - apply steps_community. intros c _. by apply steps_read.
  - apply update_community_steps.
  - apply delete_community_steps.
  - apply add_member_steps.
  - apply Hread.
  - apply create_event_steps.
  - apply Hread.
  - apply rsvp_steps.
  - apply add_resource_steps.
  - apply Hread.
Qed.
End Stepping.

(** ** What the community tables satisfy *)

(** What refers to a community. *)
Definition of_community {A} (ref : A → Z) (k : Z) (x : A) : bool := bool_decide (ref x = k).
Definition members_of (k : Z) (t : hub_tables) : list CommunityMember :=
  select (community_members t) (of_community cmm_community_id k).
Definition permissions_of (k : Z) (t : hub_tables) : list CommunityPermission :=
  select (community_permissions t) (of_community pm_community_id k).

(** A community nobody belongs to, or one with its owner, its permissions, and a counter that
    counts everybody but the owner. *)
Definition orphan (k : Z) (c : Community) (t : hub_tables) : Prop :=
  cm_member_count c = 0%Z ∧ members_of k t = [] ∧ permissions_of k t = [].
Definition founded (k : Z) (c : Community) (t : hub_tables) : Prop :=
  (∃ m, member_of k (cm_owner_id c) t = Some m ∧ cmm_role m = COWNER) ∧
  (cm_member_count c + 1)%Z = Z.of_nat (List.length (members_of k t)) ∧
  permissions_of k t ≠ [].

Record communities_wf (t : hub_tables) : Prop := {
  mw_keyed : communities_keyed t;
  (* what belongs to a community belongs to one there is, an answer to an event there is *)
  mw_member_of : ∀ k m, community_members t !! k = Some m → is_Some (communities t !! cmm_community_id m);
  mw_permission_of : ∀ k p, community_permissions t !! k = Some p →
    is_Some (communities t !! pm_community_id p);
  mw_event_of : ∀ k e, community_events t !! k = Some e → is_Some (communities t !! ev_community_id e);
  mw_resource_of : ∀ k r, community_resources t !! k = Some r →
    is_Some (communities t !! rs_community_id r);
  mw_answer_of : ∀ k r, community_event_rsvps t !! k = Some r →
    is_Some (community_events t !! rv_event_id r);
  (* one membership per community and user, one answer per event and user *)
  mw_one_member : ∀ c u, unique_by (community_members t) (is_member c u);
  mw_one_answer : ∀ e u, unique_by (community_event_rsvps t) (answers e u);
  mw_state : ∀ k c, communities t !! k = Some c → orphan k c t ∨ founded k c t
}.

Lemma is_member_iff k u m : is_member k u m = true ↔ cmm_community_id m = k ∧ cmm_user_id m = u.
Proof. unfold is_member. by rewrite andb_true_iff, !bool_decide_eq_true. Qed.

Lemma answers_iff e u r : answers e u r = true ↔ rv_event_id r = e ∧ rv_user_id r = u.
Proof. unfold answers. by rewrite andb_true_iff, !bool_decide_eq_true. Qed.

(** Whether the two descriptions hold depends on these tables only. *)
Lemma state_ext k c c' t t' :
  cm_member_count c' = cm_member_count c → cm_owner_id c' = cm_owner_id c →
  community_members t' = community_members t → permissions_of k t' = permissions_of k t →
  orphan k c t ∨ founded k c t → orphan k c' t' ∨ founded k c' t'.
Proof. unfold orphan, founded, members_of, member_of. by intros -> -> -> ->. Qed.

Lemma state_perm k c t t' :
  (∀ u, member_of k u t' = member_of k u t) → members_of k t' ≡ₚ members_of k t →
  permissions_of k t' ≡ₚ permissions_of k t →
  orphan k c t ∨ founded k c t → orphan k c t' ∨ founded k c t'.
Proof.
  intros Hu Hm Hp [(Hn & Hm0 & Hp0)|(Ho & Hn & Hp0)]; [left|right].
  - split; [done|]. rewrite Hm0 in Hm. rewrite Hp0 in Hp. split; by apply Permutation_nil_r.
  - split; [by rewrite Hu|]. rewrite Hm. split; [done|]. intros E. apply Hp0.
    apply Permutation_nil_r. by rewrite <- Hp, E.
Qed.

Lemma organiser_founded k u c t :
  organiser k u t → communities t !! k = Some c → orphan k c t ∨ founded k c t → founded k c t.
Proof.
  intros (m & [Hm [i Hi]]%scalar_Some & _) Hc [(_ & Hn & _)|Hf]; [|done].
  apply is_member_iff in Hm as [<- <-]. pose proof (select_nil _ _ _ _ Hn Hi) as Hf.
  by apply bool_decide_eq_false in Hf.
Qed.

(** The permissions once the list is added. *)
Lemma add_permissions_perm ps t q :
  fresh_permissions ps t →
  select (community_permissions (add_permissions ps t)) q
  ≡ₚ (List.filter q ps ++ select (community_permissions t) q)%list.
Proof.
  revert t. induction ps as [|p ps IH]; intros t; [done|]. cbn. intros [Hp Hf].
  rewrite (IH _ Hf). cbn. rewrite select_insert by done.
  destruct (q p); [symmetry; apply Permutation_middle|done].
Qed.

Lemma add_permissions_fields ps t :
  let t' := add_permissions ps t in
  communities t' = communities t ∧ community_members t' = community_members t ∧
  community_events t' = community_events t ∧ community_event_rsvps t' = community_event_rsvps t ∧
  community_resources t' = community_resources t.
Proof.
  cbv zeta. revert t. induction ps as [|p ps IH]; intros t; [done|]. cbn. apply (IH (add_permission t p)).
Qed.

Lemma add_permissions_lookup ps t k p :
  community_permissions (add_permissions ps t) !! k = Some p →
  p ∈ ps ∨ community_permissions t !! k = Some p.
Proof.
  revert t. induction ps as [|q ps IH]; intros t; [by right|]. cbn. intros [Hp|Hp]%IH.
  - left. by right.
  - cbn in Hp. apply lookup_insert_Some in Hp as [[_ <-]|[_ Hp]]; [left; by left|by right].
Qed.

Section Preservation.
Context (t : hub_tables) (Hwf : communities_wf t).

Lemma step_rename_wf c c0 :
  communities t !! cm_id c = Some c0 → cm_member_count c = cm_member_count c0 →
  cm_owner_id c = cm_owner_id c0 → communities_wf (t <| communities ::= <[cm_id c := c]> |>).
Proof using Hwf.
  intros Hc Hn Ho. split; cbn; try apply Hwf; try still_there Hwf.
  - unfold communities_keyed. by_cases_on; [done|by apply Hwf].
  - by_cases_on; [|by apply Hwf]. by apply (state_ext _ c0 _ t), Hwf.
Qed.

Lemma nobody_belongs k :
  communities t !! k = None → members_of k t = [] ∧ permissions_of k t = [].
Proof using Hwf.
  intros Hk. split; apply select_empty; intros i x Hx; apply bool_decide_eq_false; intros E.
  - apply (mw_member_of _ Hwf) in Hx. rewrite E, Hk in Hx. by destruct Hx.
  - apply (mw_permission_of _ Hwf) in Hx. rewrite E, Hk in Hx. by destruct Hx.
Qed.

Lemma step_orphan_wf c :
  communities t !! cm_id c = None → cm_member_count c = 0%Z →
  communities_wf (t <| communities ::= <[cm_id c := c]> |>).
Proof using Hwf.
  intros Hc Hn. split; cbn; try apply Hwf; try still_there Hwf.
  - unfold communities_keyed. by_cases_on; [done|by apply Hwf].
  - by_cases_on; [|by apply Hwf]. left. split; [done|]. by apply nobody_belongs.
Qed.

(** A membership added where there was none. *)
Lemma member_of_insert m k u t' :
  community_members t !! cmm_id m = None → member_of (cmm_community_id m) (cmm_user_id m) t = None →
  community_members t' = <[cmm_id m := m]> (community_members t) →
  (∀ c u, unique_by (community_members t') (is_member c u)) ∧
  member_of k u t' = if is_member k u m then Some m else member_of k u t.
Proof using Hwf.
  intros Hm Hex E. assert (∀ c u, unique_by (community_members t') (is_member c u)) as Hu.
  { intros c u'. rewrite E. apply unique_by_insert; [apply Hwf|].
    intros [<- <-]%is_member_iff i y Hy Hf. by destruct (scalar_false _ _ _ _ Hex Hy). }
  split; [done|]. unfold member_of. rewrite E. apply scalar_insert; [rewrite <- E; apply Hu|].
  intros x Hx. congruence.
Qed.

Lemma members_of_insert m k t' :
  community_members t !! cmm_id m = None → community_members t' = <[cmm_id m := m]> (community_members t) →
  List.length (members_of k t')
  = (if decide (cmm_community_id m = k) then S (List.length (members_of k t))
     else List.length (members_of k t)).
Proof using Type.
  intros Hm E. unfold members_of. rewrite E, (Permutation_length (select_insert _ _ _ _ Hm)).
  unfold of_community at 1. case_decide as Hk.
  - by rewrite bool_decide_eq_true_2.
  - by rewrite bool_decide_eq_false_2.
Qed.

Lemma step_found_wf c m ps :
  communities t !! cm_id c = None → cm_member_count c = 0%Z →
  community_members t !! cmm_id m = None → cmm_community_id m = cm_id c →
  cmm_user_id m = cm_owner_id c → cmm_role m = COWNER →
  Forall (λ p, pm_community_id p = cm_id c) ps → ps ≠ [] → fresh_permissions ps t →
  communities_wf (add_permissions ps (t <| communities ::= <[cm_id c := c]> |>
                                        <| community_members ::= <[cmm_id m := m]> |>)).
Proof using Hwf.
  intros Hc Hn Hm Hmc Hmu Hmr Hps Hne Hf. set (t1 := t <| communities ::= _ |> <| community_members ::= _ |>).
  destruct (add_permissions_fields ps t1) as (E1 & E2 & E3 & E4 & E5).
  assert (fresh_permissions ps t1) as Hf1 by by apply (fresh_permissions_ext _ t).
  assert (∀ q, select (community_permissions (add_permissions ps t1)) q
    ≡ₚ (List.filter q ps ++ select (community_permissions t) q)%list) as Eq
    by (intros q; by apply (add_permissions_perm ps t1)).
  pose proof (nobody_belongs _ Hc) as [Hnm Hnp].
  assert (member_of (cmm_community_id m) (cmm_user_id m) t = None) as Hex.
  { apply scalar_None. intros i x Hx. rewrite Hmc. apply not_true_iff_false. intros [E _]%is_member_iff.
    pose proof (select_nil _ _ _ _ Hnm Hx) as Hfalse. apply bool_decide_eq_false in Hfalse. done. }
  assert (∀ k p, community_permissions (add_permissions ps t1) !! k = Some p →
    p ∈ ps ∨ community_permissions t !! k = Some p) as Hlook by apply (add_permissions_lookup ps t1).
  set (t' := add_permissions ps t1) in *. clearbody t'.
  split; rewrite ?E1, ?E2, ?E3, ?E4, ?E5; cbn; try apply Hwf; try still_there Hwf.
  - unfold communities_keyed. rewrite E1. by_cases_on; [done|by apply Hwf].
  - intros k x [[_ <-]|[_ Hx]]%lookup_insert_Some; apply lookup_insert_is_Some'; [by left|].
    right. by eapply Hwf.
  - intros k p [Hp|Hp]%Hlook; apply lookup_insert_is_Some'.
    + left. rewrite Forall_forall in Hps. by rewrite (Hps p Hp).
    + right. by eapply Hwf.
  - intros k u. change (unique_by (community_members t1) (is_member k u)). rewrite <- E2.
    by apply (member_of_insert m k u t' Hm Hex E2).
  - intros k c' [[<- <-]|[Hk Hc']]%lookup_insert_Some.
    + right. split; [|split].
      * exists m. split; [|done]. rewrite (proj2 (member_of_insert m _ _ t' Hm Hex E2)).
        by rewrite (proj2 (is_member_iff _ _ _)).
      * rewrite (members_of_insert m _ t' Hm E2), decide_True, Hnm, Hn by done. done.
      * intros En. apply Hne, Permutation_nil_r. rewrite <- En. unfold permissions_of. rewrite Eq.
        unfold permissions_of in Hnp. rewrite Hnp, app_nil_r, filter_all; [done|].
        intros p Hp. rewrite Forall_forall in Hps. by apply bool_decide_eq_true, Hps.
    + apply (state_perm k c' t); [| | |by apply Hwf].
      * intros u. rewrite (proj2 (member_of_insert m k u t' Hm Hex E2)).
        destruct (is_member k u m) eqn:E; [|done]. apply is_member_iff in E as [E _]. congruence.
      * unfold members_of. rewrite E2. cbn. rewrite select_insert by done. unfold of_community at 1.
        by rewrite bool_decide_eq_false_2 by congruence.
      * unfold permissions_of. rewrite Eq. rewrite (proj2 (filter_nil_iff _ _)); [done|].
        intros p Hp. rewrite Forall_forall in Hps. apply bool_decide_eq_false. rewrite (Hps p Hp). done.
Qed.

Lemma step_member_wf m c :
  communities t !! cmm_community_id m = Some c → founded (cmm_community_id m) c t →
  community_members t !! cmm_id m = None →
  member_of (cmm_community_id m) (cmm_user_id m) t = None →
  communities_wf (t <| community_members ::= <[cmm_id m := m]> |>
    <| communities ::= <[cm_id c := c <| cm_member_count ::= λ n, (n + 1)%Z |>]> |>).
Proof using Hwf.
  intros Hc (Hown & Hn & Hp) Hm Hex. pose proof (mw_keyed _ Hwf _ _ Hc) as Hid.
  set (t' := t <| community_members ::= _ |> <| communities ::= _ |>).
  assert (community_members t' = <[cmm_id m := m]> (community_members t)) as Et by done.
  pose proof (member_of_insert m 0 0 t' Hm Hex Et) as [Hu _].
  assert (∀ k u, member_of k u t' = if is_member k u m then Some m else member_of k u t) as Hmo
    by (intros k u; by apply (member_of_insert m k u t')).
  split; cbn; try apply Hwf; try still_there Hwf.
  - unfold communities_keyed. by_cases_on; [done|by apply Hwf].
  - intros k x [[_ <-]|[_ Hx]]%lookup_insert_Some; apply lookup_insert_is_Some'.
    + right. by eexists.
    + right. by eapply Hwf.
  - exact Hu.
  - intros k c'. rewrite Hid. intros [[<- <-]|[Hk Hc']]%lookup_insert_Some.
    + right. split; [|split; [|done]].
      * destruct Hown as (o & Ho & Hr). exists o. split; [|done]. cbn [cm_owner_id]. rewrite Hmo.
        destruct (is_member _ _ m) eqn:E; [|done]. apply is_member_iff in E as [_ E].
        rewrite E in Hex. change (cm_owner_id (c <| cm_member_count ::= _ |>)) with (cm_owner_id c) in Hex.
        congruence.
      * rewrite (members_of_insert m _ t' Hm Et), decide_True by done. unfold over. cbn. lia.
    + apply (state_perm k c' t); [| |done|by apply Hwf].
      * intros u. rewrite Hmo. destruct (is_member k u m) eqn:E; [|done].
        apply is_member_iff in E as [E _]. congruence.
      * unfold members_of. rewrite Et, select_insert by done. unfold of_community at 1.
        by rewrite bool_decide_eq_false_2 by congruence.
Qed.

Lemma step_drop_wf k t' :
  permissions_of k t = [] →
  communities t' = delete k (communities t) →
  community_members t' = without cmm_community_id k (community_members t) →
  community_permissions t' = community_permissions t →
  community_events t' = without ev_community_id k (community_events t) →
  community_resources t' = without rs_community_id k (community_resources t) →
  (∀ i r, community_event_rsvps t' !! i = Some r →
     community_event_rsvps t !! i = Some r ∧
     ∀ e, community_events t !! rv_event_id r = Some e → ev_community_id e ≠ k) →
  communities_wf t'.
Proof using Hwf.
  intros Hp Ec Em Ep Ee Er Ev. split; rewrite ?Ec, ?Em, ?Ep, ?Ee, ?Er.
  - intros i c. rewrite Ec. intros [_ Hc]%lookup_delete_Some. by apply Hwf.
  - intros i x [Hx Hne]%lookup_without. rewrite lookup_delete_ne by done. by eapply Hwf.
  - intros i x Hx. pose proof (select_nil _ _ _ _ Hp Hx) as Hne%bool_decide_eq_false.
    rewrite lookup_delete_ne by done. by eapply Hwf.
  - intros i x [Hx Hne]%lookup_without. rewrite lookup_delete_ne by done. by eapply Hwf.
  - intros i x [Hx Hne]%lookup_without. rewrite lookup_delete_ne by done. by eapply Hwf.
  - intros i r [Hr He]%Ev. destruct (mw_answer_of _ Hwf _ _ Hr) as [e Hev]. exists e.
    apply lookup_without. auto.
  - intros i u j j' x y [Hx _]%lookup_without [Hy _]%lookup_without. by apply (mw_one_member _ Hwf i u).
  - intros i u j j' x y [Hx _]%Ev [Hy _]%Ev. by apply (mw_one_answer _ Hwf i u).
  - intros i c [Hne Hc]%lookup_delete_Some. apply (state_perm i c t); [| | |by apply Hwf].
    + intros u. apply scalar_same; [apply Hwf|]. intros j x [Hx _]%is_member_iff.
      rewrite Em, lookup_without. naive_solver.
    + unfold members_of. rewrite Em, select_without. apply reflexive_eq, select_ext. intros x.
      unfold of_community. apply eq_true_iff_eq. rewrite andb_true_iff, !bool_decide_eq_true. naive_solver.
    + unfold permissions_of. by rewrite Ep.
Qed.
End Preservation.

Lemma community_step_wf t t' : communities_wf t → community_step t t' → communities_wf t'.
Proof.
  intros Hwf [c Hc Hn|c m ps _ Hc Hn Hm Hmc Hmu Hmr Hps Hne Hf|c c0 Hc Hn Ho|k t1 Hp Ec Em Ep Ee Er Ev
    |m c u _ Hc Ho Hm Hex|e Hk Ho He|r e He Hm Hr Hex|r Hk Ho Hr].
  - by apply step_orphan_wf.
  - by apply step_found_wf.
  - by eapply step_rename_wf.
  - by apply (step_drop_wf t Hwf k).
  - apply step_member_wf; [done|done| |done..]. by eapply organiser_founded, Hwf.
  - split; cbn; try apply Hwf; [by_cases_on; [done|by eapply Hwf]|still_there Hwf].
  - split; cbn; try apply Hwf; [by_cases_on; [by eexists|by eapply Hwf]|].
    intros i u. apply unique_by_insert; [apply Hwf|].
    intros [<- <-]%answers_iff k y Hy Hf. by destruct (scalar_false _ _ _ _ Hex Hy).
  - split; cbn; try apply Hwf. by_cases_on; [done|by eapply Hwf].
Qed.

(** C35. The community tables, under any sequence of requests, failed ones included: rows are
    stored under their keys; what refers to a community or an event refers to one there is;
    nobody belongs to a community twice or answers an event twice; and every community is
    either one nobody belongs to, without permissions, or has its owner as a member with the
    role of owner, its permissions, and a [member_count] that is one less than the number of
    its members. *)
Theorem communities_invariant ops h :
  communities_wf (h_committed h) →
  communities_wf (h_committed (run_requests run_community_op ops h)).
Proof.
  apply (run_requests_invariant run_community_op community_step).
  - intros op h0 Hwf Ht. by apply community_op_steps; [apply Hwf|].
  - apply community_step_wf.
Qed.

(** Nobody belongs to anything. *)
Definition deserted (t : hub_tables) : Prop := communities_keyed t ∧ community_members t = ∅.

Lemma member_of_deserted k u t : deserted t → member_of k u t = None.
Proof. intros [_ E]. unfold member_of. rewrite E. apply scalar_None. intros i x Hx. discriminate Hx. Qed.

Lemma deserted_step t t' :
  CommunityRole_imported = false → deserted t → community_step t t' → deserted t'.
Proof.
  intros Hi [Hk Hm] Hs.
  destruct Hs as [c Hc|c m ps Hi'|c c0 Hc|k t' _ Ec Em|m c u Hi'|e|r e|r];
    try congruence; (split; [|cbn; try done]); try done.
  - unfold communities_keyed. by_cases_on; [done|by apply Hk].
  - unfold communities_keyed. by_cases_on; [done|by apply Hk].
  - intros i c. rewrite Ec. intros [_ Hc]%lookup_delete_Some. by apply Hk.
  - rewrite Em, Hm. apply map_empty. intros i. apply eq_None_not_Some.
    intros [x [Hx _]%lookup_without]. discriminate Hx.
Qed.

(** The handlers that somebody has to belong to a community for. *)
Definition needs_member (op : community_op) : bool :=
  match op with
  | AddMember _ _ _ _ | CreateEvent _ _ _ _ | Rsvp _ _ _ _ _ | AddResource _ _ _ _ => true
  | _ => false
  end.

Lemma lift_step {S A B} (r : res A) (f : A → prog S B) (s : S) :
  (lift r ≫= f) s = match r with Ok a => f a s | Err e => (Err e, s) end.
Proof. by destruct r. Qed.

Lemma organiser_deserted {A} k u detail (f : unit → prog hub A) h :
  deserted (h_tables h) →
  (require_organiser k u detail ≫= f) h = (Err (HTTPException 403 detail), h).
Proof.
  intros Hd. unfold require_organiser. by rewrite step_assoc, hquery_step, member_of_deserted.
Qed.

Lemma community_or_404_step {A} k (f : Community → prog hub A) h :
  (community_or_404 k ≫= f) h =
  match communities (h_tables h) !! k with
  | Some c => f c h
  | None => (Err (HTTPException 404 "Community not found"), h)
  end.
Proof. unfold community_or_404. rewrite step_assoc, hquery_step. by destruct (_ !! k). Qed.

Lemma needs_member_fails op h :
  deserted (h_tables h) → needs_member op = true → is_ok (run_community_op op h).1 = false.
Proof.
  intros Hd Hop. destruct op; try done; cbn [run_community_op].
  - unfold add_community_member. rewrite step_assoc, community_or_404_step.
    destruct (_ !! k); [|done]. by rewrite step_assoc, organiser_deserted.
  - unfold create_community_event. rewrite step_assoc, lift_step. destruct (validate_CommunityEventCreate b); [|done].
    rewrite step_assoc, community_or_404_step. destruct (_ !! k); [|done].
    by rewrite step_assoc, organiser_deserted.
  - unfold rsvp_to_community_event. rewrite step_assoc, lift_step. destruct (validate_RSVP response); [|done].
    rewrite step_assoc, community_or_404_step. destruct (_ !! k); [|done].
    rewrite step_assoc, hquery_step. destruct (bool_decide _); [|done].
    rewrite step_assoc, ensure_true_step, step_assoc, hquery_step.
    by rewrite member_of_deserted.
  - unfold add_community_resource. rewrite step_assoc, lift_step.
    destruct (validate_CommunityResourceCreate b); [|done].
    rewrite step_assoc, community_or_404_step. destruct (_ !! k); [|done].
    by rewrite step_assoc, organiser_deserted.
Qed.

(** The communities as the file is: [CommunityRole] is never imported, so no sequence of
    requests, starting with nobody in any community, ever makes anybody a member of one;
    nobody can be added, and no event, answer or resource created. Creating a community
    answers with a server error, and yet leaves a community behind that its creator owns
    without belonging to it. *)
Theorem communities_never_founded ops h :
  CommunityRole_imported = false → deserted (h_committed h) →
  let h' := run_requests run_community_op ops h in
  community_members (h_committed h') = ∅ ∧
  (∀ op, needs_member op = true → is_ok (request (run_community_op op) h').1 = false) ∧
  ∀ cid mid pid b u, communities (h_committed h') !! cid = None → u ∈ h_users (h_committed h') →
    validate_CommunityCreate b = Ok b →
    let '(r, h2) := request (create_community cid mid pid b u) h' in
    r = Err (NameError "CommunityRole") ∧
    (∃ c, communities (h_committed h2) !! cid = Some c ∧ cm_owner_id c = u) ∧
    member_of cid u (h_committed h2) = None.
Proof.
  intros Hi Hd h'. assert (deserted (h_committed h')) as Hd'.
  { apply (run_requests_invariant run_community_op community_step deserted).
    - intros op h0 [Hk _] Ht. by apply community_op_steps.
    - intros t t'. by apply deserted_step.
    - done. }
  clearbody h'. split; [apply Hd'|]. split.
  - intros op Hop. rewrite request_run.
    pose proof (needs_member_fails op (h' <| h_tables := h_committed h' |>) Hd' Hop) as Hf.
    by destruct (run_community_op op _).
  - intros cid mid pid b u Hc Hu Hb. rewrite request_run. unfold create_community.
    rewrite Hb, lift_step, hnow_step, hquery_step. cbn [id h_tables].
    change (h_tables (h' <| h_tables := h_committed h' |>)) with (h_committed h').
    rewrite !bool_decide_eq_true_2 by done. cbn [andb]. rewrite ensure_true_step. cbv zeta.
    unfold put_community. rewrite hchange_step, hcommit_step.
    unfold name_CommunityRole. rewrite Hi, ensure_false_step.
    split; [done|]. split; [eexists; split; [apply lookup_insert_eq|done]|].
    unfold member_of. cbn. rewrite (proj2 Hd'). apply scalar_None. intros i x Hx. discriminate Hx.
Qed.

(** A community with permissions. *)
Definition anchored (k : Z) (t : hub_tables) : Prop :=
  communities_keyed t ∧ is_Some (communities t !! k) ∧ permissions_of k t ≠ [].

Lemma anchored_step k t t' : anchored k t → community_step t t' → anchored k t'.
Proof.
  intros (Hk & Hc & Hp) Hs.
  assert (∀ j c, is_Some ((<[j := c]> (communities t)) !! k)) as Hput
    by (intros j c; apply lookup_insert_is_Some'; by right).
  assert (∀ j c, cm_id c = j → ∀ k c', <[j := c]> (communities t) !! k = Some c' → cm_id c' = k) as Hkey
    by (intros j c <-; by_cases_on; [done|by apply Hk]).
  destruct Hs as [c Hc'|c m ps _ Hc' _ _ _ _ _ _ _ Hf|c c0 Hc'|k' t' Hn Ec _ Ep|m c u|e|r e|r];
    try (split; [|split]; cbn; done); try (split; [unfold communities_keyed; cbn; by apply Hkey|split; [apply Hput|done]]).
  - set (t1 := t <| communities ::= _ |> <| community_members ::= _ |>).
    destruct (add_permissions_fields ps t1) as (E1 & _). split; [|split].
    + intros i x. rewrite E1. revert i x. by apply Hkey.
    + rewrite E1. apply Hput.
    + intros En. apply Hp. pose proof (add_permissions_perm ps t1 (of_community pm_community_id k)) as Eq.
      unfold permissions_of in En. rewrite En in Eq. symmetry in Eq.
      assert (fresh_permissions ps t1) as Hf1 by by apply (fresh_permissions_ext _ t).
      specialize (Eq Hf1). apply Permutation_nil_r, app_nil in Eq. apply Eq.
  - split; [|split].
    + intros i c. rewrite Ec. intros [_ Hi]%lookup_delete_Some. by apply Hk.
    + rewrite Ec, lookup_delete_ne; [done|]. intros ->. by apply Hp.
    + unfold permissions_of. by rewrite Ep.
Qed.

(** A community created in full has them. *)
Lemma create_community_anchored cid mid pid b u out h h1 :
  communities_keyed (h_committed h) → h_tables h = h_committed h →
  create_community cid mid pid b u h = (Ok out, h1) → anchored cid (h_committed h1).
Proof.
  intros Hk Ht E.
  unfold create_community in E. invert_ok E. invert_hub.
  unfold put_community in *. invert_hub. destruct a4, a6. apply ensure_ok_inv in Hrun4 as [_ ->].
  unfold db_add_community_member in Hrun5. invert_ok Hrun5. invert_hub.
  rewrite (for_each_map db_add_permission) in Hrun6. apply add_permissions_run in Hrun6 as [-> Hf].
  match type of Hf with fresh_permissions ?l ?t => set (t1 := t) in *; set (ps := l) in * end.
  destruct (add_permissions_fields ps t1) as (E1 & _).
  assert (communities t1 = <[cid := mk_Community cid (co_name a) (co_description a) u (h_now h)
    (Some false) (co_category a) 0]> (communities (h_committed h))) as E2
    by (rewrite <- Ht; reflexivity).
  assert (∃ p l, ps = p :: l ∧ pm_community_id p = cid) as (p & l & Eps & Hp) by by eexists _, _.
  clearbody t1 ps. unfold anchored. cbn. rewrite E1, E2. split; [|split].
  - unfold communities_keyed. rewrite E1, E2. by_cases_on; [done|by apply Hk].
  - by eexists; apply lookup_insert_eq.
  - intros En. pose proof (add_permissions_perm ps t1 (of_community pm_community_id cid) Hf) as Eq.
    unfold permissions_of in En. rewrite En, Eps in Eq. cbn in Eq.
    unfold of_community at 1 in Eq. rewrite bool_decide_eq_true_2 in Eq by done.
    by apply Permutation_nil_cons in Eq.
Qed.

(** A community that was created in full can never be deleted: whatever requests follow,
    it is still there, and its owner's request to delete it fails with an integrity error,
    for its permissions are not deleted with it. *)
Theorem founded_undeletable cid mid pid b u out h h1 ops :
  communities_keyed (h_committed h) →
  request (create_community cid mid pid b u) h = (Ok out, h1) →
  let h2 := run_requests run_community_op ops h1 in
  ∃ c, communities (h_committed h2) !! cid = Some c ∧
    (request (delete_community cid (cm_owner_id c)) h2).1
      = Err (IntegrityError "community_permissions.community_id").
Proof.
  intros Hk E h2. assert (anchored cid (h_committed h1)) as Ha.
  { rewrite request_run in E. destruct (create_community _ _ _ _ _ _) as [r h0] eqn:E0.
    injection E as -> <-. by eapply create_community_anchored in E0. }
  assert (anchored cid (h_committed h2)) as (_ & [c Hc] & Hp).
  { apply (run_requests_invariant run_community_op community_step (anchored cid)); [|by apply anchored_step|done].
    intros op h0 [Hk0 _] Ht. by apply community_op_steps. }
  exists c. split; [done|]. rewrite request_run. unfold delete_community. rewrite community_or_404_step.
  change (communities (h_tables _)) with (communities (h_committed h2)). rewrite Hc.
  rewrite bool_decide_eq_true_2, ensure_true_step by done.
  unfold db_delete_community. rewrite step_assoc, hquery_step.
  by rewrite bool_decide_eq_false_2.
Qed.
End Handlers.

(** ** At a concrete database: two users, and nothing else yet *)

Module Village.
Definition shipped : Imports := {| CommunityRole_imported := false |}.
Definition mended : Imports := {| CommunityRole_imported := true |}.
Definition tables0 : hub_tables := mk_hub_tables {[7%Z; 8%Z]} ∅ ∅ ∅ ∅ ∅ ∅ ∅ ∅ ∅ ∅ ∅.
Definition hub0 : hub := mk_hub 5 tables0 tables0.
Definition body : CommunityCreate := mk_CommunityCreate "Chess" None None.
Definition pid (r : CommunityRole) : Z :=
  match r with COWNER => 1 | CADMIN => 2 | CMODERATOR => 3 | CMEMBER => 4 end.
Definition found : community_op := CreateCommunity 1 1 pid body 7.

Lemma village_wf : communities_wf tables0.
Proof.
  split; cbn; try (intros ? ? H; discriminate H); try (intros ? ? ? ? ? ? H; discriminate H).
Qed.
End Village.

Lemma communities_invariant_witness :
  ∃ c, communities (h_committed (run_requests (@run_community_op Village.mended)
         [Village.found; AddMember 2 1 (mk_CommunityMemberCreate 8 CMEMBER) 7] Village.hub0)) !! 1%Z
       = Some c ∧ cm_member_count c = 1%Z.
Proof.
  pose proof (@communities_invariant Village.mended
    [Village.found; AddMember 2 1 (mk_CommunityMemberCreate 8 CMEMBER) 7] Village.hub0 Village.village_wf) as Hwf.
  eexists. split; [vm_compute; reflexivity|].
  destruct (mw_state _ Hwf 1%Z _ ltac:(vm_compute; reflexivity)) as [(_ & Hn & _)|(_ & Hn & _)].
  - vm_compute in Hn. discriminate Hn.
  - vm_compute. reflexivity.
Defined.

Lemma communities_never_founded_witness :
  community_members (h_committed (run_requests (@run_community_op Village.shipped)
    [Village.found; AddMember 2 1 (mk_CommunityMemberCreate 8 CMEMBER) 7] Village.hub0)) = ∅.
Proof.
  apply (@communities_never_founded Village.shipped); [reflexivity|]. split; [|reflexivity].
  intros k c Hc. discriminate Hc.
Defined.

Lemma founded_undeletable_witness :
  ∃ h1 out, request (@create_community Village.mended 1 1 Village.pid Village.body 7) Village.hub0
            = (Ok out, h1) ∧
    (request (delete_community 1 7) h1).1 = Err (IntegrityError "community_permissions.community_id").
Proof.
  destruct (is_ok_run (request (@create_community Village.mended 1 1 Village.pid Village.body 7))
    Village.hub0) as (out & h1 & E); [by vm_compute|].
  exists h1, out. split; [exact E|].
  destruct (@founded_undeletable Village.mended 1 1 Village.pid Village.body 7 out Village.hub0 h1 []
    (mw_keyed _ Village.village_wf) E) as (c & Hc & Hd).
  cbn in Hc, Hd. assert (cm_owner_id c = 7%Z) as Ho; [|by rewrite Ho in Hd].
  vm_compute in E. injection E as _ <-. cbn in Hc. by injection Hc as <-.
Defined.
